(* ===== verification/_CoqProject ===== *)
-Q . S2P
Prelude.v
Prog.v
K8s.v
Api.v
Client.v
Utils.v
Helpers.v
GoHeap.v
DeepCopy.v
SharedMerge.v
KernelMapper.v
DaemonSet.v
SyncMap.v
Auth.v
Registry.v
CA.v
Managers.v
BuildConfig.v
SignJob.v
PodTemplates.v
ApiServer.v
StatusUpdater.v
Metrics.v
ModuleReconciler.v
Operator.v
ApiRuns.v
ApiMemory.v
Convergence.v
Progress.v
Filter.v
Watches.v
Preflight.v
PreflightOCP.v
NodeControllers.v
PodLabels.v
Hub.v
HubConvergence.v
TarReader.v
SignImage.v
Fleet.v
HubSharing.v
FleetConvergence.v
Wakeups.v
SharedMapping.v
Events.v
Startup.v
Kinds.v
Gomock.v
Mocks.v
