(* ===== verification/Prelude.v ===== *)
(** * Verification of the Kernel Module Management operator

    KMM builds, signs and loads out-of-tree kernel modules on the nodes of an
    OpenShift cluster.  The program is a set of controllers that share a
    Kubernetes API server, an image registry and one in-memory mapping, and
    one command (signimage) that runs in the Jobs the operator creates.  This
    library models the Go sources and proves what makes them correct.

    ** How the code is modelled

    - [Prelude]: Go values: errors with their chain of causes, [result] for
      functions that return an error or panic, 32-bit counters, strings, maps
      (with iteration in an arbitrary order: class [MapOrder]), path and
      string functions of the Go library.
    - [Prog]: code that calls a service is a tree of calls ([prog]).  [run]
      executes it against any [server]; theorems quantify over every server,
      so each call may fail, answer inconsistently, or see the writes of
      others.  [wp] is a weakest precondition over all answers, with the
      history of calls as its state; [wp_run] relates it to [run].
    - [Client]: the calls (client.Client, the registry, clock, metrics, the
      shared mapping) and CreateOrPatch; [K8s], [Api]: the Kubernetes and KMM
      types and the helpers on them.

    ** Parts of the program

    - [Utils], [Helpers], [KernelMapper]: internal/utils, internal/build and
      internal/sign helper.go, internal/module: from a Module and a kernel
      version to the ModuleLoaderData every later step works with.
    - [DaemonSet]: internal/daemonset.  [SyncMap]: internal/syncronizedmap,
      with every interleaving of concurrent calls.  [Auth], [Registry]:
      internal/auth, internal/registry.  [CA]: internal/ca.
    - [Managers]: the interfaces build.Manager and sign.SignManager as
      classes, with the promises the controllers rely on;
      [BuildConfig] (internal/build/buildconfig) and [SignJob]
      (internal/sign/job) are instances of both.
    - [StatusUpdater]: internal/statusupdater.  [Metrics]:
      internal/metrics, with the Prometheus registry its collectors go to.
    - [GoHeap], [DeepCopy]: the generated copies of api/ and api-hub/, as
      statements over a heap of cells.  [SharedMerge]: the merges of
      internal/build/helper.go and internal/sign/helper.go in place on that
      heap.
    - [ModuleReconciler]: controllers/module_reconciler.go against the
      interfaces; [Operator]: the same with the managers cmd/manager/main.go
      plugs in.  [Filter]: internal/filter.  [Watches]: every
      SetupWithManager, with the controller-runtime builder and event handlers
      behind it, and the controllers each main.go starts.
    - [Preflight]: internal/preflight with its controller; [PreflightOCP]:
      controllers/preflightvalidationocp_reconciler.go.
    - [NodeControllers]: the node, cluster-claim, pod and image-stream
      controllers.
    - [Hub]: internal/cluster, internal/manifestwork and the
      ManagedClusterModule controller.
    - [SignImage]: cmd/signimage and the registry functions only it uses.
      [TarReader]: the loop that reads one file of a layer.
    - [Startup]: cmd/manager/main.go and cmd/manager-hub/main.go from the
      scheme to the start of the manager, with internal/cmd.
    - [Mocks]: every mock_*.go, over [Gomock], a model of the gomock controller
      they call.

    ** The parts together

    - [ApiServer]: what an API server promises to one client that alone
      writes the DaemonSets or ManifestWorks, as a class, and weakest
      preconditions over its states ([swp]); [ApiMemory] is such a server;
      [ApiRuns]: the helpers of a reconciliation over it.  [Convergence] and
      [HubConvergence]: the Module controller, and that of the hub, run again
      and again against such a server.
    - [Kinds]: the kinds of objects each controller uses, against the scheme
      its main builds.
    - [Progress]: what a successful reconciliation of a Module has done.
    - [PodTemplates]: the DaemonSets and Jobs against rules of Kubernetes for
      pods: names and mounts of volumes, mount paths, selectors and restart
      policies.
    - [PodLabels]: the pod controller, its environment and its restarts,
      interleaved call by call: a step relation over any cluster that obeys
      the laws of [PodClusterLaws].
    - [Fleet]: a spoke's nodes, the hub, and the operator of the spoke;
      [HubSharing]: what the clusters of one run of the hub share;
      [FleetConvergence]: the runs of the hub and those of the operator, each
      against a server of its own.
    - [Wakeups]: the objects a controller stores against its own watches.
    - [SharedMapping]: all controllers of a manager process side by side on
      the mapping of [SyncMap], in every interleaving, with restarts.
    - [Events]: what is lost with the events the predicates drop.

    ** What the theorems show

    - Safety of each controller, over every server: what it may have written
      after which history.  Builds and signing Jobs come only from the
      managers' Sync, for the object being reconciled.  The one of [Operator]
      composes the Module controller, both managers and the registry: no
      DaemonSet that loads modules is written unless the history shows its
      image built and signed.
    - Start-up: a main exits as flag.Parse or with an error, or starts the
      manager with every controller set up and every group in its scheme
      ([Startup]), and
      no controller uses a kind that its client does not know ([Kinds]).
    - Aliasing: a generated copy shares no cell with its original ([DeepCopy]),
      and the merge for one kernel leaves the Module and its mappings as they
      are, while it computes the function of [Helpers] ([SharedMerge]).
    - Functional correctness: the data of a kernel, the DaemonSets, Builds,
      Jobs, ManifestWorks and ConfigMaps made from them, the statuses, the
      order independence of everything that iterates over a map.
    - Refinement and termination: the mutex-protected mapping is linearizable
      and free of deadlock; a file of a layer is read to its end by the number
      of reads its size gives ([TarReader]).
    - Convergence: against a server with the laws of [ApiServer], the first
      run of the Module controller brings the DaemonSets to the desired state,
      every later run succeeds and leaves them, and the status counts them
      ([Convergence]); the same for the ManifestWorks of the hub
      ([HubConvergence]).
    - Round trips: the claim of a spoke gives its kernels back
      ([NodeControllers]); every mock returns what its recorder was told
      ([Mocks]).
    - Error behaviour: when the mapper panics, when signimage exits with 0,
      and the places where the code does not do what it means to: what a stale
      read of a node leaves behind ([PodLabels]), the clusters that the hub
      does not check ([HubSharing]).
    - Progress: a successful reconciliation has every kernel in use settled,
      or its image under way ([Progress]); a controller that waits for an
      object is woken by its events ([Wakeups]); a dropped event changes
      nothing ([Events]).
    - Invariants of runs: a node's label has a pod behind it ([PodLabels]);
      the shared mapping holds what some reconciliation read, so a Build is
      given the driver toolkit of its kernel ([SharedMapping]).
    - Composition: the image a spoke runs is the one the hub saw built and
      signed, and the spoke builds nothing ([Fleet]); from the ManagedClusterModule
      to the DaemonSets of the spoke ([FleetConvergence]).

    ** Assumptions

    Each is a named hypothesis, and each has an instance in an example.
    [PodClusterLaws]: merge patches of the API server, finalizers, and one
    caller of the controller; [fresh_nodes], that the client reads nodes as
    they are, is a separate hypothesis, and [stale_node_leaks_label] shows what
    a stale read does on any cluster with these laws and those of
    [PodClusterPatches], that the patches of the controller take effect.
    [ApiServer]: the cache has caught up, nobody
    else writes the DaemonSets of the Module or the ManifestWorks of the
    ManagedClusterModule, objects are valid and generated
    names end in a suffix without dash.  [IoReader]: the contract of io.Reader,
    with finitely many reads of no bytes without an error, which it discourages.
    [LibraryCopies]: the DeepCopyInto of the library types are deep copies.
    [Reflect]: a type is assignable to itself.
    [CRDScopes]: the API server knows the resources of
    KMM in the scope their definitions declare.  [sees_own]: a controller is
    given the object of the key it asked for.  [publishes]: the claim of a
    spoke is copied to its ManagedCluster on the hub; [applied]: the agent of a
    cluster applies its ManifestWork, so that the Module has the spec it holds
    ([FleetConvergence], where that of the kernels of the nodes is [claims]).
    [BuildManagerSpec],
    [SignManagerSpec] and their progress versions are proved of the two
    managers of the code.

    ** Bounds

    Go's loops run over finite lists and maps and are structural, [prog]
    trees are finite, and the reconciliation loop is one run per event.  Only
    the endless loop of [TarReader] has fuel; one read more than the file has
    bytes, and one for each read of nothing, is enough, and the theorem is that
    it ends.  int32 conversions wrap
    around as in Go.

    ** Not modelled, and why

    Code outside the repository is a parameter: regular expressions
    ([Regexp]), the envsubst parser ([Envsubst]), structure hashes
    ([Hasher]), JSON decoding ([ManifestDecoder], [ReleaseDecoder],
    [AuthDecoder]), label validation ([LabelValidation]), the REST mapper
    ([RESTMapper]), and behind the calls the API server, the registry, the
    file system and the sign-file tool.  [Envsubst] is a total function, while
    the parser the code uses never ends on some malformed templates, such as
    ${X$_}; what is said of the data of a kernel is of the other templates.
    Logging, what is behind the call that starts the manager (leader election,
    health servers, work queues) and imports of tools are left out.  Of gomock,
    the lock, messages, and actions with effects (Do, SetArg) are left out.
    The controllers work on values; where they rely on or suffer from shared
    references that is modelled apart ([SharedMerge], the shared slice of
    mappings in [Hub]).  Pieces of objects that the code only copies are kept
    as text. *)

From Stdlib Require Export Ascii ZArith Lia.
From stdpp Require Export prelude gmap strings fin_maps sorting pretty.
From stdpp Require Import options.

(** Scopes and databases of the development.  [go_scope] holds the notations
    that mirror Go's statements; the hint databases are filled by the files
    that own the lemmas. *)
Declare Scope go_scope.
Delimit Scope go_scope with go.

Create HintDb go.
Create Rewrite HintDb go.
Create HintDb wp.

(** ** Go values

    A Go [error] is kept as its text ([err.Error()]) and the chain of causes
    that [errors.Is] and [errors.As] can see.  [fmt.Errorf] with [%v] keeps
    the text of its argument only; with [%w] it keeps the chain as well. *)

Inductive cause :=
  | CNotFound            (** apimachinery StatusError, reason NotFound *)
  | CStatus (reason : string)   (** any other API StatusError *)
  | CTransport (code : Z)       (** go-containerregistry transport.Error *)
  | CSentinel (name : string).  (** a package-level errors.New variable *)

#[export] Instance cause_eq_dec : EqDecision cause.
Proof. solve_decision. Defined.

Record error := mk_error { Error : string; chain : list cause }.

#[export] Instance error_eq_dec : EqDecision error.
Proof. solve_decision. Defined.

(** errors.New / fmt.Errorf without %w *)
Definition errorf (msg : string) : error := mk_error msg [].
(** fmt.Errorf(prefix + "%w", err) *)
Definition errorf_w (msg : string) (err : error) : error :=
  mk_error (msg +:+ Error err) (chain err).

Definition errors_is (err : error) (c : cause) : bool := bool_decide (c ∈ chain err).

(** errors.As on the transport error: the first one in the chain. *)
Fixpoint first_transport (cs : list cause) : option Z :=
  match cs with
  | [] => None
  | CTransport z :: _ => Some z
  | _ :: cs => first_transport cs
  end.

(** A Go function returning [(T, error)].  [Panic] is a run-time panic. *)
Inductive result (A : Type) :=
  | Ok (a : A)
  | Err (e : error)
  | Panic (why : string).
Arguments Ok {_} _.
Arguments Err {_} _.
Arguments Panic {_} _.

#[export] Instance result_eq_dec {A} `{EqDecision A} : EqDecision (result A).
Proof. solve_decision. Defined.

#[export] Instance result_ret : MRet result := λ A x, Ok x.
#[export] Instance result_bind : MBind result := λ A B f m,
  match m with Ok x => f x | Err e => Err e | Panic w => Panic w end.

(** [if err != nil { return nil, wrap(err) }] *)
Definition wrap_err {A} (f : error → error) (m : result A) : result A :=
  match m with Ok x => Ok x | Err e => Err (f e) | Panic w => Panic w end.

Definition is_ok {A} (m : result A) : bool :=
  match m with Ok _ => true | _ => false end.

Lemma result_bind_Ok {A B} (m : result A) (f : A → result B) b :
  m ≫= f = Ok b ↔ ∃ a, m = Ok a ∧ f a = Ok b.
Proof. destruct m; naive_solver. Qed.

Lemma wrap_err_Ok {A} f (m : result A) a : wrap_err f m = Ok a ↔ m = Ok a.
Proof. destruct m; naive_solver. Qed.

Lemma wrap_err_Panic {A} f (m : result A) w : wrap_err f m = Panic w ↔ m = Panic w.
Proof. destruct m; naive_solver. Qed.

(** The machine width of the API's [int32] counters: [int32(len(x))] and
    [+=] wrap around. *)
Definition int32 (z : Z) : Z := (z + 2^31) `mod` 2^32 - 2^31.

Lemma int32_small z : (- 2^31 ≤ z < 2^31)%Z → int32 z = z.
Proof. intros. unfold int32. rewrite Z.mod_small; lia. Qed.

Lemma int32_range z : (- 2^31 ≤ int32 z < 2^31)%Z.
Proof. unfold int32. pose proof (Z.mod_pos_bound (z + 2^31) (2^32)). lia. Qed.

Lemma int32_add z1 z2 : int32 (int32 z1 + z2) = int32 (z1 + z2).
Proof.
  unfold int32.
  replace ((z1 + 2 ^ 31) `mod` 2 ^ 32 - 2 ^ 31 + z2 + 2 ^ 31)%Z
    with ((z1 + 2 ^ 31) `mod` 2 ^ 32 + z2)%Z by lia.
  rewrite Z.add_mod_idemp_l by lia. do 2 f_equal. lia.
Qed.

(** ** The [strings] package *)

Definition str_has_prefix (p s : string) : bool := String.prefix p s.

Fixpoint str_length_le (s1 s2 : string) : bool :=
  match s1, s2 with
  | EmptyString, _ => true
  | String _ s1, String _ s2 => str_length_le s1 s2
  | _, _ => false
  end.

(** strings.TrimPrefix *)
Fixpoint str_drop (n : nat) (s : string) : string :=
  match n, s with
  | O, _ => s
  | S n, String _ s => str_drop n s
  | S _, EmptyString => EmptyString
  end.

Definition str_trim_prefix (p s : string) : string :=
  if str_has_prefix p s then str_drop (String.length p) s else s.

(** strings.TrimSuffix *)
Fixpoint str_trim_suffix (suf s : string) : string :=
  if bool_decide (s = suf) then EmptyString else
  match s with
  | EmptyString => EmptyString
  | String c s' => String c (str_trim_suffix suf s')
  end.

(** strings.Contains *)
Fixpoint str_contains (sub s : string) : bool :=
  String.prefix sub s ||
  match s with EmptyString => false | String _ s' => str_contains sub s' end.

(** strings.Split on a one-byte separator, and regexp.Split on a character
    class, of a string: always at least one field. *)
Fixpoint str_split (sep : ascii → bool) (s : string) : list string :=
  match s with
  | EmptyString => [EmptyString]
  | String c s' =>
      if sep c then EmptyString :: str_split sep s'
      else match str_split sep s' with
           | [] => [String c EmptyString]
           | f :: fs => String c f :: fs
           end
  end.

Definition is_char (c : ascii) (x : ascii) : bool := bool_decide (x = c).

(** strings.Join *)
Fixpoint str_join (sep : string) (l : list string) : string :=
  match l with
  | [] => EmptyString
  | [s] => s
  | s :: l => s +:+ sep +:+ str_join sep l
  end.

Lemma str_app_nil_l (s : string) : "" +:+ s = s.
Proof. reflexivity. Qed.
Lemma str_app_nil_r (s : string) : s +:+ "" = s.
Proof. induction s as [|c s IH]; [done|]. unfold String.append in *. simpl. by f_equal. Qed.
Lemma str_app_cons c (s t : string) : String c s +:+ t = String c (s +:+ t).
Proof. reflexivity. Qed.
Lemma str_app_assoc (s t u : string) : (s +:+ t) +:+ u = s +:+ (t +:+ u).
Proof. induction s as [|c s IH]; [done|]. by rewrite !str_app_cons, IH. Qed.
Lemma str_length_app (s t : string) :
  String.length (s +:+ t) = String.length s + String.length t.
Proof. induction s as [|c s IH]; [done|]. rewrite str_app_cons. simpl. by rewrite IH. Qed.

#[global] Instance str_app_inj_r (s : string) : Inj (=) (=) (String.append s).
Proof.
  intros t u. induction s as [|c s IH]; [done|]. rewrite !str_app_cons. intros [=]. auto.
Qed.

#[export] Hint Rewrite str_app_nil_l str_app_nil_r str_app_assoc : go.

(** Whether every / some byte satisfies a test. *)
Fixpoint str_forall (f : ascii → bool) (s : string) : bool :=
  match s with EmptyString => true | String c s => f c && str_forall f s end.

Lemma str_forall_app f s t : str_forall f (s +:+ t) = str_forall f s && str_forall f t.
Proof.
  induction s as [|c s IH]; [done|]. rewrite str_app_cons. simpl. by rewrite IH, andb_assoc.
Qed.

Lemma str_split_not_nil sep s : str_split sep s ≠ [].
Proof. destruct s as [|c s]; simpl; [done|]. repeat case_match; done. Qed.

(** A field without separator is one field. *)
Lemma str_split_none sep s : str_forall (λ c, negb (sep c)) s → str_split sep s = [s].
Proof.
  induction s as [|c s IH]; simpl; [done|]. intros [H1 H2]%andb_True.
  destruct (sep c); [done|]. by rewrite IH.
Qed.

Lemma str_split_app sep s c t :
  str_forall (λ c, negb (sep c)) s → sep c →
  str_split sep (s +:+ String c t) = s :: str_split sep t.
Proof.
  induction s as [|d s IH]; intros Hs Hc.
  - rewrite str_app_nil_l. simpl. by destruct (sep c).
  - simpl in Hs. apply andb_True in Hs as [H1 H2]. rewrite str_app_cons. simpl.
    destruct (sep d); [done|]. by rewrite IH.
Qed.

Lemma str_join_cons sep s s' l :
  str_join sep (s :: s' :: l) = s +:+ sep +:+ str_join sep (s' :: l).
Proof. reflexivity. Qed.

(** Splitting on a byte undoes joining with it, for fields without it. *)
Lemma str_split_join (c : ascii) l :
  l ≠ [] → Forall (λ s, str_forall (λ x, negb (is_char c x)) s) l →
  str_split (is_char c) (str_join (String c EmptyString) l) = l.
Proof.
  intros Hne Hl. induction Hl as [|s l Hs Hl IH]; [done|].
  destruct l as [|s' l]; [by apply str_split_none|].
  rewrite str_join_cons, str_app_cons, str_app_nil_l, str_split_app;
    [|done|unfold is_char; by case_bool_decide].
  f_equal. by apply IH.
Qed.

Lemma str_trim_suffix_app suf s : str_trim_suffix suf (s +:+ suf) = s.
Proof.
  induction s as [|c s IH].
  - rewrite str_app_nil_l. destruct suf; cbn [str_trim_suffix]; by rewrite bool_decide_true.
  - rewrite str_app_cons. cbn [str_trim_suffix]. case_bool_decide as H.
    + apply (f_equal String.length) in H. simpl in H. rewrite str_length_app in H. lia.
    + by rewrite IH.
Qed.

Lemma str_trim_suffix_other suf s :
  (∀ t, s ≠ t +:+ suf) → str_trim_suffix suf s = s.
Proof.
  induction s as [|c s IH]; cbn [str_trim_suffix]; intros Hs.
  - by case_bool_decide.
  - case_bool_decide as H; [by destruct (Hs ""); rewrite H|].
    f_equal. apply IH. intros t ->. by apply (Hs (String c t)).
Qed.

Lemma str_trim_suffix_spec suf s :
  (∃ t, s = t +:+ suf ∧ str_trim_suffix suf s = t) ∨
  ((∀ t, s ≠ t +:+ suf) ∧ str_trim_suffix suf s = s).
Proof.
  induction s as [|c s IH]; cbn [str_trim_suffix].
  - case_bool_decide as H; [left; by exists ""|].
    right. split; [|done]. intros t Ht. destruct t; [done|]. by rewrite str_app_cons in Ht.
  - case_bool_decide as H; [left; by exists ""|].
    destruct IH as [(t & -> & IH)|[Hn IH]]; rewrite IH.
    + left. by exists (String c t).
    + right. split; [|done]. intros [|d t] Ht; [by rewrite str_app_nil_l in Ht|].
      rewrite str_app_cons in Ht. injection Ht as _ Ht. by apply (Hn t).
Qed.

(** ** The [path/filepath] package, on '/'-separated paths *)

(** One pass over the elements of a path: empty elements and [.] vanish, and
    [..] removes the element before it; a leading [..] of a relative path
    stays.  The accumulator is reversed. *)
Fixpoint clean_elems (rooted : bool) (es : list string) (acc : list string) : list string :=
  match es with
  | [] => rev acc
  | e :: es =>
      if bool_decide (e = "") || bool_decide (e = ".") then clean_elems rooted es acc
      else if bool_decide (e = "..") then
        match acc with
        | [] => clean_elems rooted es (if rooted then [] else [".."])
        | a :: acc' =>
            if bool_decide (a = "..") then clean_elems rooted es (e :: acc)
            else clean_elems rooted es acc'
        end
      else clean_elems rooted es (e :: acc)
  end.

Definition path_clean (p : string) : string :=
  let rooted := str_has_prefix "/" p in
  let es := clean_elems rooted (str_split (is_char "/"%char) p) [] in
  if rooted then "/" +:+ str_join "/" es
  else match es with [] => "." | _ => str_join "/" es end.

Definition path_join (elems : list string) : string :=
  match List.filter (λ e, negb (bool_decide (e = ""))) elems with
  | [] => ""
  | es => path_clean (str_join "/" es)
  end.

Example path_join_ex : path_join ["opt"; "lib/modules"; "5.14"; "a.ko"] = "opt/lib/modules/5.14/a.ko".
Proof. reflexivity. Qed.
Example path_clean_ex1 : path_clean "/a/../../b//./c/" = "/b/c".
Proof. reflexivity. Qed.
Example path_clean_ex2 : path_clean "../a/../.." = "../..".
Proof. reflexivity. Qed.

(** sort.Strings: byte-wise lexicographic order. *)
Definition sort_strings (l : list string) : list string := merge_sort String.le l.

Lemma sort_strings_perm l : sort_strings l ≡ₚ l.
Proof. apply merge_sort_Permutation. Qed.

Lemma sort_strings_sorted l : StronglySorted String.le (sort_strings l).
Proof. apply StronglySorted_merge_sort; apply _. Qed.

(** Sorting forgets the order in which a Go map was enumerated. *)
Lemma sort_strings_proper l1 l2 : l1 ≡ₚ l2 → sort_strings l1 = sort_strings l2.
Proof.
  intros H. apply (StronglySorted_unique String.le); [apply sort_strings_sorted..|].
  by rewrite !sort_strings_perm.
Qed.

#[export] Instance sort_strings_Proper : Proper ((≡ₚ) ==> (=)) sort_strings.
Proof. intros l1 l2. apply sort_strings_proper. Qed.

(** The decimal rendering of fmt's [%d]. *)
Definition show_nat (n : nat) : string := pretty n.

(** fmt's [%q] on a string: quotes around the escaped bytes.  Bytes of
    multi-byte runes are kept, as strconv.Quote keeps printable runes. *)
Definition hex_digit (n : nat) : ascii :=
  match String.get n "0123456789abcdef" with Some c => c | None => "0"%char end.
Definition dquote : ascii := Ascii.ascii_of_nat 34.
Definition quote_byte (c : ascii) : string :=
  let n := Ascii.nat_of_ascii c in
  if decide (n = 34) then String "\"%char (String dquote EmptyString)
  else if decide (n = 92) then "\\"
  else if decide (n = 7) then "\a" else if decide (n = 8) then "\b"
  else if decide (n = 12) then "\f" else if decide (n = 10) then "\n"
  else if decide (n = 13) then "\r" else if decide (n = 9) then "\t"
  else if decide (n = 11) then "\v"
  else if decide (n < 32 ∨ n = 127) then
    "\x" +:+ String (hex_digit (n / 16)) (String (hex_digit (n `mod` 16)) EmptyString)
  else String c EmptyString.
Fixpoint quote_bytes (s : string) : string :=
  match s with EmptyString => EmptyString | String c s => quote_byte c +:+ quote_bytes s end.
Definition go_quote (s : string) : string :=
  String dquote (quote_bytes s +:+ String dquote EmptyString).

(** ** Lists and options *)

(** The builtin [len]. *)
Definition go_len {A} (l : list A) : Z := Z.of_nat (length l).
Definition is_nil {A} (l : list A) : bool := match l with [] => true | _ => false end.
Definition isSome {A} (o : option A) : bool := match o with Some _ => true | None => false end.

Lemma find_none_iff {A} (f : A → bool) l :
  List.find f l = None ↔ Forall (λ x, f x = false) l.
Proof.
  induction l as [|a l IH]; simpl; [by split|].
  rewrite Forall_cons. destruct (f a); [|tauto]. split; [done|by intros [? _]].
Qed.

Lemma find_first {A} (f : A → bool) l x :
  List.find f l = Some x ↔
  ∃ l1 l2, l = l1 ++ x :: l2 ∧ f x = true ∧ Forall (λ y, f y = false) l1.
Proof.
  induction l as [|a l IH]; simpl.
  - split; [done|]. intros (l1 & l2 & H & _). by destruct l1.
  - destruct (f a) eqn:E.
    + split.
      * intros [= ->]. by exists [], l.
      * intros ([|b l1] & l2 & H & Hx & Hl); simplify_eq/=; [done|].
        apply Forall_cons in Hl as [Hl _]. congruence.
    + rewrite IH. split.
      * intros (l1 & l2 & -> & Hx & Hl). exists (a :: l1), l2. auto.
      * intros ([|b l1] & l2 & H & Hx & Hl); simplify_eq/=; [congruence|].
        apply Forall_cons in Hl as [_ Hl]. eauto.
Qed.

Lemma existsb_split {A} (f : A → bool) l :
  existsb f l = true → ∃ l1 x l2, l = l1 ++ x :: l2 ∧ f x = true.
Proof.
  intros (x & Hin & Hf)%existsb_exists. apply List.in_split in Hin as (l1 & l2 & ->). eauto.
Qed.

(** ** The order in which Go enumerates a map

    [range] over a Go map visits every entry once, in an order the language
    leaves open.  Definitions that range over a map take the order from this
    class, so a theorem about them holds for every order. *)
Class MapOrder := {
  range_map : ∀ {A}, gmap string A → list (string * A);
  range_map_perm : ∀ {A} (m : gmap string A), range_map m ≡ₚ map_to_list m }.

(** One concrete order, for the witnesses. *)
Definition map_order_std : MapOrder :=
  {| range_map A m := map_to_list m; range_map_perm A m := reflexivity _ |}.

Section map_order.
Context {MO : MapOrder}.

Lemma elem_of_range_map {A} (m : gmap string A) k x : (k, x) ∈ range_map m ↔ m !! k = Some x.
Proof. rewrite <-elem_of_map_to_list. by rewrite (range_map_perm m). Qed.

Lemma range_map_NoDup {A} (m : gmap string A) : NoDup (range_map m).*1.
Proof. rewrite (range_map_perm m). apply NoDup_fst_map_to_list. Qed.

Lemma range_map_length {A} (m : gmap string A) : length (range_map m) = size m.
Proof. by rewrite (range_map_perm m), length_map_to_list. Qed.

Lemma range_map_empty {A} : range_map (∅ : gmap string A) = [].
Proof. apply Permutation_nil. by rewrite (range_map_perm ∅), map_to_list_empty. Qed.
End map_order.

(** Reading a Go map: [m[k]] of a [map[string]string] is the zero value when
    the key is missing (and when the map is nil). *)
Definition map_get (m : gmap string string) (k : string) : string := default "" (m !! k).
Definition omap_get (m : option (gmap string string)) (k : string) : string :=
  match m with Some m => map_get m k | None => "" end.
Definition omap_lookup (m : option (gmap string string)) (k : string) : option string :=
  m ≫= λ m, m !! k.

(** ** Tactics *)

(** Splits conjunctions, existentials and pairs in the context. *)
Ltac destruct_all :=
  repeat match goal with
    | H : _ ∧ _ |- _ => destruct H
    | H : ∃ _, _ |- _ => destruct H
    | H : (_, _) = (_, _) |- _ => injection H as ?; subst
    end.

(** Case analysis on every match of the goal, closing absurd branches. *)
Ltac go_cases :=
  repeat (case_match || case_bool_decide || case_decide); simplify_eq/=; try done.
