(* ===== verification/Prog.v ===== *)
(** * Programs that talk to services

    The controllers of the operator are functions whose only effects are
    calls: to the Kubernetes API server, to an image registry, to the metrics
    registry, to the clock, to the shared kernel/OS/DTK mapping.  A [prog] is
    the tree of those calls: a call carries its arguments, and the rest of
    the program is a function of the answer.  Nothing is assumed about the
    answers: a theorem about a program quantifies over every [server], which
    may fail any call, answer inconsistently, or change its state between two
    calls the way concurrent writers do.

    [run] executes a program against a server and records the calls.  [wp]
    is the proof method: a structural weakest precondition over all answers,
    with [wp_run] relating it to [run]. *)

From S2P Require Import Prelude.
From stdpp Require Import options.

Section prog.
(** The calls, and the type of the answer to each. *)
Context {req : Type} {ans : req → Type}.

Inductive prog (A : Type) :=
  | Ret (a : A)
  | Crash (why : string)                     (** a run-time panic *)
  | Call (q : req) (k : ans q → prog A).
Arguments Ret {_} _.
Arguments Crash {_} _.
Arguments Call {_} _ _.

Fixpoint prog_bind {A B} (f : A → prog B) (p : prog A) : prog B :=
  match p with
  | Ret a => f a
  | Crash w => Crash w
  | Call q k => Call q (λ x, prog_bind f (k x))
  end.

Definition call (q : req) : prog (ans q) := Call q Ret.

(** One call with its answer. *)
Record event := Ev { ev_req : req; ev_ans : ans ev_req }.

Inductive outcome (A : Type) := Done (a : A) | Crashed (why : string).
Arguments Done {_} _.
Arguments Crashed {_} _.

(** ** Execution *)

(** A server answers each call and moves to a new state. *)
Definition server (S : Type) := ∀ q : req, S → ans q * S.

Fixpoint run {S A} (srv : server S) (p : prog A) (s : S)
    : outcome A * S * list event :=
  match p with
  | Ret a => (Done a, s, [])
  | Crash w => (Crashed w, s, [])
  | Call q k =>
      let '(x, s1) := srv q s in
      let '(o, s2, tr) := run srv (k x) s1 in
      (o, s2, Ev q x :: tr)
  end.

Definition run_out {S A} (srv : server S) (p : prog A) (s : S) : outcome A :=
  (run srv p s).1.1.
Definition run_state {S A} (srv : server S) (p : prog A) (s : S) : S :=
  (run srv p s).1.2.
Definition run_trace {S A} (srv : server S) (p : prog A) (s : S) : list event :=
  (run srv p s).2.

Lemma run_bind {S A B} (srv : server S) (p : prog A) (f : A → prog B) s :
  run srv (prog_bind f p) s =
  match run srv p s with
  | (Done a, s1, tr1) => let '(o, s2, tr2) := run srv (f a) s1 in (o, s2, tr1 ++ tr2)
  | (Crashed w, s1, tr1) => (Crashed w, s1, tr1)
  end.
Proof.
  revert s. induction p as [a|w|q k IH]; intros s; simpl; [by repeat case_match|done|].
  destruct (srv q s) as [x s1]. rewrite IH.
  destruct (run srv (k x) s1) as [[[a|w] s2] tr]; [|done].
  by destruct (run srv (f a) s2) as [[??]?].
Qed.

(** ** Weakest preconditions over all answers

    [ok h q] says that the call [q] is allowed after the history [h]. *)
Fixpoint wp {A} (ok : list event → req → Prop) (p : prog A)
    (Q : outcome A → list event → Prop) (h : list event) : Prop :=
  match p with
  | Ret a => Q (Done a) h
  | Crash w => Q (Crashed w) h
  | Call q k => ok h q ∧ ∀ x, wp ok (k x) Q (h ++ [Ev q x])
  end.

Lemma wp_mono {A} (ok1 ok2 : list event → req → Prop) (p : prog A)
    (Q1 Q2 : outcome A → list event → Prop) h :
  wp ok1 p Q1 h →
  (∀ h' q, h `prefix_of` h' → ok1 h' q → ok2 h' q) →
  (∀ o h', h `prefix_of` h' → Q1 o h' → Q2 o h') →
  wp ok2 p Q2 h.
Proof.
  revert h. induction p as [a|w|q k IH]; intros h Hp Hok HQ; simpl in *; auto.
  destruct Hp as [H1 H2]. split; [auto|]. intros x. apply IH; [done|..].
  - intros h' q' ?. apply Hok. etrans; [|done]. by apply prefix_app_r.
  - intros o h' ?. apply HQ. etrans; [|done]. by apply prefix_app_r.
Qed.

Lemma wp_post {A} ok (p : prog A) (Q1 Q2 : outcome A → list event → Prop) h :
  wp ok p Q1 h → (∀ o h', h `prefix_of` h' → Q1 o h' → Q2 o h') → wp ok p Q2 h.
Proof. intros H HQ. by eapply wp_mono. Qed.

Lemma wp_bind {A B} ok (p : prog A) (f : A → prog B) Q h :
  wp ok p (λ o h', match o with
                   | Done a => wp ok (f a) Q h'
                   | Crashed w => Q (Crashed w) h'
                   end) h →
  wp ok (prog_bind f p) Q h.
Proof.
  revert h. induction p as [a|w|q k IH]; intros h; simpl; [done..|].
  intros [? Hk]. split; [done|]. intros x. by apply IH.
Qed.

Lemma wp_seq {A B} ok (p : prog A) (f : A → prog B) R Q h :
  wp ok p R h →
  (∀ a h', h `prefix_of` h' → R (Done a) h' → wp ok (f a) Q h') →
  (∀ w h', h `prefix_of` h' → R (Crashed w) h' → Q (Crashed w) h') →
  wp ok (prog_bind f p) Q h.
Proof.
  intros Hp Hf Hw. apply wp_bind. eapply wp_post; [exact Hp|].
  intros [a|w] h' Hh HR; [by apply Hf|by apply Hw].
Qed.

Lemma wp_bind_inv {A B} ok (p : prog A) (f : A → prog B) Q h :
  wp ok (prog_bind f p) Q h →
  wp ok p (λ o h', match o with
                   | Done a => wp ok (f a) Q h'
                   | Crashed w => Q (Crashed w) h'
                   end) h.
Proof.
  revert h. induction p as [a|w|q k IH]; intros h; simpl; [done..|].
  intros [? Hk]. split; [done|]. intros x. by apply IH.
Qed.

Lemma wp_and {A} ok1 ok2 (p : prog A) (Q1 Q2 : outcome A → list event → Prop) h :
  wp ok1 p Q1 h → wp ok2 p Q2 h →
  wp (λ h q, ok1 h q ∧ ok2 h q) p (λ o h, Q1 o h ∧ Q2 o h) h.
Proof.
  revert h. induction p as [a|w|q k IH]; intros h; simpl; [tauto..|].
  intros [??] [??]. split; [tauto|]. auto.
Qed.

Lemma wp_run_aux {S A} ok (p : prog A) Q h (srv : server S) s :
  wp ok p Q h →
  Q (run_out srv p s) (h ++ run_trace srv p s) ∧
  ∀ h1 e h2, run_trace srv p s = h1 ++ e :: h2 → ok (h ++ h1) (ev_req e).
Proof.
  unfold run_out, run_trace.
  revert h s. induction p as [a|w|q k IH]; intros h s Hwp; simpl in *.
  - rewrite app_nil_r. split; [done|]. by intros [] ??.
  - rewrite app_nil_r. split; [done|]. by intros [] ??.
  - destruct Hwp as [Hq Hk]. destruct (srv q s) as [x s1].
    destruct (IH x _ s1 (Hk x)) as [HQ Hok].
    destruct (run srv (k x) s1) as [[o s2] tr]; simpl in *.
    split; [by rewrite <-app_assoc in HQ|].
    intros [|e1 h1] e h2 Heq; simplify_eq/=.
    + by rewrite app_nil_r.
    + specialize (Hok h1 e h2 eq_refl). by rewrite <-app_assoc in Hok.
Qed.

(** What [wp] proves holds of every execution, against every server. *)
Lemma wp_run {S A} ok (p : prog A) Q (srv : server S) s :
  wp ok p Q [] →
  Q (run_out srv p s) (run_trace srv p s) ∧
  ∀ h1 e h2, run_trace srv p s = h1 ++ e :: h2 → ok h1 (ev_req e).
Proof. apply (wp_run_aux ok p Q []). Qed.

Lemma wp_run_out {S A} ok (p : prog A) (Q : outcome A → Prop) (srv : server S) s :
  wp ok p (λ o _, Q o) [] → Q (run_out srv p s).
Proof. intros H. by apply (wp_run ok p (λ o _, Q o) srv s) in H as [? _]. Qed.

Lemma wp_run_calls {S A} (P : req → Prop) (p : prog A) (srv : server S) s :
  wp (λ _ q, P q) p (λ _ _, True) [] → Forall (λ e, P (ev_req e)) (run_trace srv p s).
Proof.
  intros H. apply (wp_run (λ _ q, P q) p (λ _ _, True) srv s) in H as [_ H].
  apply Forall_forall. intros e (h1 & h2 & He)%list_elem_of_split. by eapply H.
Qed.

(** A program that issues no call at all. *)
Definition pure_prog {A} (p : prog A) : Prop :=
  match p with Call _ _ => False | _ => True end.

(** ** Loops with early exit

    The body of a Go [for ... range] loop either goes on to the next
    element ([Next], also for [continue]) or leaves the function with a
    value ([Return]). *)
Inductive ctl (S R : Type) := Next (s : S) | Return (r : R).
Arguments Next {_ _} _.
Arguments Return {_ _} _.

Fixpoint range_loop {X S R} (xs : list X) (body : X → S → prog (ctl S R)) (s : S)
    : prog (ctl S R) :=
  match xs with
  | [] => Ret (Next s)
  | x :: xs =>
      prog_bind (λ c, match c with
                      | Next s' => range_loop xs body s'
                      | Return r => Ret (Return r)
                      end) (body x s)
  end.

(** A loop with an invariant on the state and the history. *)
Lemma wp_range_loop {X S R} ok (xs : list X) (body : X → S → prog (ctl S R)) s
    (I : list X → S → list event → Prop) (Q : outcome (ctl S R) → list event → Prop) h :
  I [] s h →
  (∀ done x rest s h, xs = done ++ x :: rest → I done s h →
     wp ok (body x s) (λ o h', match o with
                               | Done (Next s') => I (done ++ [x]) s' h'
                               | _ => Q o h'
                               end) h) →
  (∀ s h, I xs s h → Q (Done (Next s)) h) →
  wp ok (range_loop xs body s) Q h.
Proof.
  intros HI Hbody Hend.
  cut (∀ done rest s h, xs = done ++ rest → I done s h →
         wp ok (range_loop rest body s) Q h); [intros H; by apply (H [])|].
  clear s h HI. intros done rest. revert done.
  induction rest as [|x rest IH]; intros done s h Heq HI; simpl.
  - apply Hend. by rewrite Heq, app_nil_r.
  - apply wp_bind. eapply wp_post; [by apply (Hbody done x rest)|].
    intros [[s'|r]|w] h' _ HQ; [|done..].
    apply (IH (done ++ [x])); [|done]. by rewrite <-app_assoc.
Qed.
End prog.

Arguments prog {_} _ _.
Arguments Ret {_ _ _} _.
Arguments Crash {_ _ _} _.
Arguments Call {_ _ _} _ _.
Arguments event {_} _.
Arguments Ev {_ _} _ _.
Arguments ev_req {_ _} _.
Arguments ev_ans {_ _} _.
Arguments Done {_} _.
Arguments Crashed {_} _.
Arguments Next {_ _} _.
Arguments Return {_ _} _.
Arguments server {_} _ _.

#[export] Instance prog_ret {req} {ans : req → Type} : MRet (prog ans) := λ A a, Ret a.
#[export] Instance prog_mbind {req} {ans : req → Type} : MBind (prog ans) :=
  λ A B f p, prog_bind f p.

(** Go's [x, err := m; if err != nil { h }; k] on a call with an error. *)
Notation "'try' x ':=' m 'catch' e '=>' h 'in' k" :=
  (prog_bind (λ r, match r with
                   | Ok x => k
                   | Err e => h
                   | Panic w => Crash w
                   end) m)
  (at level 10, x name, e name, m at level 99, h at level 99, k at level 200,
   format "'[v' 'try'  x  ':='  m  'catch'  e  '=>'  h  'in' '//' k ']'") : go_scope.

(** A pure Go function called from a program: its panic is the program's. *)
Definition lift_result {req} {ans : req → Type} {A} (m : result A) : prog ans (result A) :=
  match m with Panic w => Crash w | _ => Ret m end.

(** ** Programs up to what a server can observe

    Two programs are equivalent when every server runs them alike; binding
    and running respect it, and the monad laws hold for it without function
    extensionality. *)
#[export] Instance prog_equiv {req} {ans : req → Type} {A} : Equiv (prog ans A) :=
  λ p1 p2, ∀ S (srv : server ans S) s, run srv p1 s = run srv p2 s.

Section prog_equiv_facts.
Context {req : Type} {ans : req → Type}.

#[export] Instance prog_equiv_equivalence {A} : Equivalence (≡@{prog ans A}).
Proof.
  split.
  - by intros p S srv s.
  - intros p1 p2 H S srv s. by rewrite (H S srv s).
  - intros p1 p2 p3 H1 H2 S srv s. by rewrite (H1 S srv s), (H2 S srv s).
Qed.

#[export] Instance prog_bind_proper {A B} :
  Proper (pointwise_relation A (≡) ==> (≡) ==> (≡)) (@prog_bind req ans A B).
Proof.
  intros f g Hfg p1 p2 H S srv s. rewrite !run_bind, (H S srv s).
  destruct (run srv p2 s) as [[[a|w] s2] tr]; [|done]. by rewrite (Hfg a S srv s2).
Qed.

Lemma prog_bind_ret_l {A B} (a : A) (f : A → prog ans B) : prog_bind f (Ret a) = f a.
Proof. done. Qed.
Lemma prog_bind_ret_r {A} (p : prog ans A) : prog_bind Ret p ≡ p.
Proof.
  intros S srv s. rewrite run_bind.
  destruct (run srv p s) as [[[a|w] s2] tr]; [|done]. simpl. by rewrite app_nil_r.
Qed.
Lemma prog_bind_assoc {A B C} (p : prog ans A) (f : A → prog ans B) (g : B → prog ans C) :
  prog_bind g (prog_bind f p) ≡ prog_bind (λ a, prog_bind g (f a)) p.
Proof.
  intros S srv s. rewrite !run_bind.
  destruct (run srv p s) as [[[a|w] s2] tr]; [|done].
  rewrite run_bind. destruct (run srv (f a) s2) as [[[b|w] s3] tr2]; [|done].
  destruct (run srv (g b) s3) as [[??]?]. by rewrite app_assoc.
Qed.
End prog_equiv_facts.

#[export] Hint Resolve wp_bind wp_post : wp.

(** ** Programs that only issue calls of some kind *)

Section calls.
Context {req : Type} {ans : req → Type}.

Definition calls (P : req → Prop) {A} (p : prog ans A) : Prop :=
  ∀ h, wp (λ _ q, P q) p (λ _ _, True) h.

Lemma calls_ret P {A} (a : A) : calls P (Ret a).
Proof. by intros h. Qed.
Lemma calls_crash P {A} w : calls P (A:=A) (Crash w).
Proof. by intros h. Qed.
Lemma calls_call (P : req → Prop) q : P q → calls P (call q).
Proof. by intros H h. Qed.
Lemma calls_bind P {A B} (p : prog ans A) (f : A → prog ans B) :
  calls P p → (∀ a, calls P (f a)) → calls P (prog_bind f p).
Proof.
  intros Hp Hf h. apply wp_bind. eapply wp_post; [apply Hp|].
  intros [a|w] h' _ _; [apply Hf|done].
Qed.
Lemma calls_mono (P Q : req → Prop) {A} (p : prog ans A) :
  calls P p → (∀ q, P q → Q q) → calls Q p.
Proof. intros Hp HPQ h. eapply wp_mono; [apply Hp|auto|done]. Qed.
Lemma calls_any {A} (p : prog ans A) : calls (λ _, True) p.
Proof. intros h. revert h. induction p as [a|w|q k IH]; intros h; simpl; auto. Qed.
Lemma calls_lift_result P {A} (r : result A) : calls P (lift_result r).
Proof. by destruct r. Qed.
Lemma calls_range_loop P {X S R} (xs : list X) (body : X → S → prog ans (ctl S R)) s :
  (∀ x s, x ∈ xs → calls P (body x s)) → calls P (range_loop xs body s).
Proof.
  revert s. induction xs as [|x xs IH]; intros s Hb; [apply calls_ret|]. simpl.
  apply calls_bind; [apply Hb; set_solver|]. intros [s'|r]; [|apply calls_ret].
  apply IH. intros y s0 Hy. apply Hb. set_solver.
Qed.

(** Such a program fits anywhere its calls are allowed. *)
Lemma wp_calls ok P {A} (p : prog ans A) Q h :
  calls P p → (∀ h' q, h `prefix_of` h' → P q → ok h' q) →
  (∀ o h', h `prefix_of` h' → Q o h') → wp ok p Q h.
Proof. intros Hp Hok HQ. eapply wp_mono; [apply Hp|auto|auto]. Qed.

(** Calls that are restricted only under a condition. *)
Lemma wp_when (H : Prop) (P : req → Prop) {A} (p : prog ans A) h :
  (H → wp (λ _ q, P q) p (λ _ _, True) h) → wp (λ _ q, H → P q) p (λ _ _, True) h.
Proof.
  revert h. induction p as [a|w|q k IH]; intros h Hp; simpl in *; [done..|]. split.
  - intros HH. by destruct (Hp HH).
  - intros x. apply IH. intros HH. by destruct (Hp HH).
Qed.

Lemma calls_run P {A S} (p : prog ans A) (srv : server ans S) s :
  calls P p → Forall (λ e, P (ev_req e)) (run_trace srv p s).
Proof. intros Hp. apply wp_run_calls, Hp. Qed.
End calls.

Create HintDb calls.
#[export] Hint Resolve calls_ret calls_crash calls_lift_result : calls.

(** Goes through a program, call by call. *)
Ltac go_calls :=
  repeat first
    [ progress intros
    | apply calls_ret | apply calls_crash | apply calls_lift_result
    | solve [eauto with calls]
    | match goal with |- calls ?P (call ?q) => refine (calls_call P q _); solve [done | auto] end
    | apply calls_bind
    | apply calls_range_loop
    | case_match ].
