(* ===== verification/K8s.v ===== *)
(** * Kubernetes objects

    The part of the Kubernetes API types the operator reads and writes, and
    the apimachinery / controller-runtime helpers it calls on them.  Fields
    the operator neither reads nor sets are left out; a struct that is only
    passed through is kept as the text it serialises to.  A nil Go map is
    [None]; nil and empty slices, which serialise alike, are both [[]]. *)

From S2P Require Import Prelude.
From stdpp Require Import options.

Abbreviation strmap := (gmap string string).

(** types.NamespacedName / client.ObjectKey *)
Record NamespacedName := NN { nn_Namespace : string; nn_Name : string }.
#[export] Instance NamespacedName_eq_dec : EqDecision NamespacedName.
Proof. solve_decision. Defined.

Definition nsn_string (n : NamespacedName) : string := nn_Namespace n +:+ "/" +:+ nn_Name n.

(** corev1.LocalObjectReference *)
Record LocalObjectReference := LocalRef { lor_Name : string }.
#[export] Instance LocalObjectReference_eq_dec : EqDecision LocalObjectReference.
Proof. solve_decision. Defined.

(** metav1.OwnerReference *)
Record OwnerReference := mk_owner_ref {
  or_APIVersion : string; or_Kind : string; or_Name : string; or_UID : string;
  or_Controller : option bool; or_BlockOwnerDeletion : option bool }.
#[export] Instance OwnerReference_eq_dec : EqDecision OwnerReference.
Proof. solve_decision. Defined.

(** metav1.ObjectMeta *)
Record ObjectMeta := mk_meta {
  om_Name : string;
  om_GenerateName : string;
  om_Namespace : string;
  om_UID : string;
  om_Labels : option strmap;
  om_Annotations : option strmap;
  om_OwnerReferences : list OwnerReference;
  om_Finalizers : list string;
  om_DeletionTimestamp : option Z;
  om_Generation : Z }.
#[export] Instance ObjectMeta_eq_dec : EqDecision ObjectMeta.
Proof. solve_decision. Defined.

Definition empty_meta : ObjectMeta := mk_meta "" "" "" "" None None [] [] None 0.

Definition meta_named (name namespace : string) : ObjectMeta :=
  mk_meta name "" namespace "" None None [] [] None 0.

Definition set_labels (l : option strmap) (m : ObjectMeta) : ObjectMeta :=
  mk_meta (om_Name m) (om_GenerateName m) (om_Namespace m) (om_UID m) l (om_Annotations m)
    (om_OwnerReferences m) (om_Finalizers m) (om_DeletionTimestamp m) (om_Generation m).
Definition set_owners (o : list OwnerReference) (m : ObjectMeta) : ObjectMeta :=
  mk_meta (om_Name m) (om_GenerateName m) (om_Namespace m) (om_UID m) (om_Labels m)
    (om_Annotations m) o (om_Finalizers m) (om_DeletionTimestamp m) (om_Generation m).
Definition set_finalizers (f : list string) (m : ObjectMeta) : ObjectMeta :=
  mk_meta (om_Name m) (om_GenerateName m) (om_Namespace m) (om_UID m) (om_Labels m)
    (om_Annotations m) (om_OwnerReferences m) f (om_DeletionTimestamp m) (om_Generation m).
Definition set_generate_name (g : string) (m : ObjectMeta) : ObjectMeta :=
  mk_meta (om_Name m) g (om_Namespace m) (om_UID m) (om_Labels m) (om_Annotations m)
    (om_OwnerReferences m) (om_Finalizers m) (om_DeletionTimestamp m) (om_Generation m).

Definition object_key (m : ObjectMeta) : NamespacedName := NN (om_Namespace m) (om_Name m).

(** [(metav1.Time).IsZero] of a deletion timestamp: nil or the zero time. *)
Definition deletion_is_zero (m : ObjectMeta) : bool :=
  match om_DeletionTimestamp m with None => true | Some t => bool_decide (t = 0%Z) end.

(** The owner argument of the helpers: what they read of a metav1.Object and
    its kind in the scheme. *)
Record Owner := mk_owner {
  ow_Name : string; ow_Namespace : string; ow_UID : string;
  ow_APIVersion : string; ow_Kind : string }.

(** client.Object: the metadata accessors and the kind in the scheme. *)
Class KObject (A : Type) := {
  get_meta : A → ObjectMeta;
  set_meta : ObjectMeta → A → A;
  gvk_APIVersion : string;
  gvk_Kind : string;
  get_set_meta : ∀ m a, get_meta (set_meta m a) = m }.
Arguments gvk_APIVersion _ {_}.
Arguments gvk_Kind _ {_}.

Definition as_owner {A} `{KObject A} (a : A) : Owner :=
  mk_owner (om_Name (get_meta a)) (om_Namespace (get_meta a)) (om_UID (get_meta a))
    (gvk_APIVersion A) (gvk_Kind A).

(** ** Owner references *)

(** metav1.GetControllerOf *)
Definition is_controller_ref (r : OwnerReference) : bool :=
  match or_Controller r with Some b => b | None => false end.
Definition GetControllerOf (m : ObjectMeta) : option OwnerReference :=
  List.find is_controller_ref (om_OwnerReferences m).

(** metav1.IsControlledBy *)
Definition IsControlledBy (m : ObjectMeta) (owner : Owner) : bool :=
  match GetControllerOf m with
  | None => false
  | Some ref => bool_decide (or_UID ref = ow_UID owner)
  end.

(** schema.ParseGroupVersion: the group, or None for an error *)
Definition parse_group (gv : string) : option string :=
  if bool_decide (gv = "") || bool_decide (gv = "/") then Some ""
  else match str_split (is_char "/"%char) gv with
       | [_] => Some ""
       | [g; _] => Some g
       | _ => None
       end.

Definition referSameObject (a b : OwnerReference) : bool :=
  match parse_group (or_APIVersion a), parse_group (or_APIVersion b) with
  | Some ga, Some gb =>
      bool_decide (ga = gb) && bool_decide (or_Kind a = or_Kind b)
        && bool_decide (or_Name a = or_Name b)
  | _, _ => false
  end.

Definition upsertOwnerRef (ref : OwnerReference) (m : ObjectMeta) : ObjectMeta :=
  let fix go (l : list OwnerReference) : list OwnerReference :=
    match l with
    | [] => [ref]
    | r :: l => if referSameObject r ref then ref :: l else r :: go l
    end in
  set_owners (go (om_OwnerReferences m)) m.

Definition validateOwner (owner : Owner) (m : ObjectMeta) : option error :=
  if bool_decide (ow_Namespace owner = "") then None
  else if bool_decide (om_Namespace m = "") then
    Some (errorf ("cluster-scoped resource must not have a namespace-scoped owner, owner's namespace "
                  +:+ ow_Namespace owner))
  else if bool_decide (ow_Namespace owner = om_Namespace m) then None
  else Some (errorf ("cross-namespace owner references are disallowed, owner's namespace "
                     +:+ ow_Namespace owner +:+ ", obj's namespace " +:+ om_Namespace m)).

Definition owner_ref (owner : Owner) (controller : bool) : OwnerReference :=
  mk_owner_ref (ow_APIVersion owner) (ow_Kind owner) (ow_Name owner) (ow_UID owner)
    (if controller then Some true else None) (if controller then Some true else None).

(** controllerutil.SetControllerReference, on the metadata of the controlled
    object. *)
Definition SetControllerReference (owner : Owner) (m : ObjectMeta) : result ObjectMeta :=
  match validateOwner owner m with
  | Some err => Err err
  | None =>
      let ref := owner_ref owner true in
      match GetControllerOf m with
      | Some existing =>
          if referSameObject existing ref then Ok (upsertOwnerRef ref m)
          else Err (errorf ("Object " +:+ om_Namespace m +:+ "/" +:+ om_Name m
                            +:+ " is already owned by another " +:+ or_Kind existing
                            +:+ " controller " +:+ or_Name existing))
      | None => Ok (upsertOwnerRef ref m)
      end
  end.

(** What it makes: a reference to the controller, in a namespace it may have
    objects in. *)
Definition controlled_by (owner : Owner) (m : ObjectMeta) : Prop :=
  GetControllerOf m = Some (owner_ref owner true) ∧
  (ow_Namespace owner = "" ∨ om_Namespace m = ow_Namespace owner).

(** controllerutil.SetOwnerReference *)
Definition SetOwnerReference (owner : Owner) (m : ObjectMeta) : result ObjectMeta :=
  match validateOwner owner m with
  | Some err => Err err
  | None => Ok (upsertOwnerRef (owner_ref owner false) m)
  end.

(** controllerutil.RemoveFinalizer *)
Definition RemoveFinalizer (m : ObjectMeta) (f : string) : ObjectMeta :=
  set_finalizers (List.filter (λ x, negb (bool_decide (x = f))) (om_Finalizers m)) m.

(** ** Labels and selectors *)

(** labels.Requirement with the operator Equals and one value *)
Definition requirement_matches (ls : option strmap) (k v : string) : bool :=
  match omap_lookup ls k with None => false | Some x => bool_decide (x = v) end.

(** labels.Selector.Matches on a list of Equals requirements *)
Definition selector_matches (reqs : list (string * string)) (ls : option strmap) : bool :=
  forallb (λ r, requirement_matches ls r.1 r.2) reqs.

(** labels.SelectorFromValidatedSet followed by Matches *)
Definition labels_match (sel : strmap) (ls : option strmap) : bool :=
  selector_matches (map_to_list sel) ls.

(** ** Pods and their templates *)

Record KeyToPath := mk_ktp { ktp_Key : string; ktp_Path : string }.
#[export] Instance KeyToPath_eq_dec : EqDecision KeyToPath.
Proof. solve_decision. Defined.

Record ConfigMapProjection := mk_cmp { cmp_Name : string; cmp_Items : list KeyToPath }.
#[export] Instance ConfigMapProjection_eq_dec : EqDecision ConfigMapProjection.
Proof. solve_decision. Defined.

Inductive VolumeSource :=
  | VolHostPath (path : string) (type : string)
  | VolSecret (secretName : string) (items : list KeyToPath)
  | VolProjected (sources : list ConfigMapProjection)
  | VolNone                    (** the zero v1.VolumeSource *)
  | VolOther (raw : string).   (** any other source, passed through *)
#[export] Instance VolumeSource_eq_dec : EqDecision VolumeSource.
Proof. solve_decision. Defined.

Record Volume := mk_volume { vol_Name : string; vol_Source : VolumeSource }.
#[export] Instance Volume_eq_dec : EqDecision Volume.
Proof. solve_decision. Defined.

Record VolumeMount := mk_mount { vm_Name : string; vm_ReadOnly : bool; vm_MountPath : string }.
#[export] Instance VolumeMount_eq_dec : EqDecision VolumeMount.
Proof. solve_decision. Defined.

Record EnvVar := mk_env { env_Name : string; env_Value : string }.
#[export] Instance EnvVar_eq_dec : EqDecision EnvVar.
Proof. solve_decision. Defined.

Record Lifecycle := mk_lifecycle { lc_PostStart : list string; lc_PreStop : list string }.
#[export] Instance Lifecycle_eq_dec : EqDecision Lifecycle.
Proof. solve_decision. Defined.

Record SecurityContext := mk_sc {
  sc_AllowPrivilegeEscalation : option bool;
  sc_CapabilitiesAdd : list string;
  sc_RunAsUser : option Z;
  sc_SELinuxType : option string;
  sc_Privileged : option bool }.
#[export] Instance SecurityContext_eq_dec : EqDecision SecurityContext.
Proof. solve_decision. Defined.

Record Container := mk_container {
  ctr_Name : string;
  ctr_Image : string;
  ctr_Command : list string;
  ctr_Args : list string;
  ctr_Env : list EnvVar;
  ctr_ImagePullPolicy : string;
  ctr_Resources : string;
  ctr_Lifecycle : option Lifecycle;
  ctr_SecurityContext : option SecurityContext;
  ctr_VolumeMounts : list VolumeMount }.
#[export] Instance Container_eq_dec : EqDecision Container.
Proof. solve_decision. Defined.

Record PodSpec := mk_podspec {
  ps_Containers : list Container;
  ps_ImagePullSecrets : list LocalObjectReference;
  ps_NodeSelector : strmap;
  ps_PriorityClassName : string;
  ps_ServiceAccountName : string;
  ps_RestartPolicy : string;
  ps_Volumes : list Volume }.
#[export] Instance PodSpec_eq_dec : EqDecision PodSpec.
Proof. solve_decision. Defined.

Record PodTemplateSpec := mk_podtemplate { pt_meta : ObjectMeta; pt_spec : PodSpec }.
#[export] Instance PodTemplateSpec_eq_dec : EqDecision PodTemplateSpec.
Proof. solve_decision. Defined.

Record PodCondition := mk_podcond { pc_Type : string; pc_Status : string }.
#[export] Instance PodCondition_eq_dec : EqDecision PodCondition.
Proof. solve_decision. Defined.

Record Pod := mk_pod { pod_meta : ObjectMeta; pod_NodeName : string;
                       pod_Conditions : list PodCondition }.
#[export] Program Instance Pod_KObject : KObject Pod :=
  {| get_meta := pod_meta; set_meta m p := mk_pod m (pod_NodeName p) (pod_Conditions p);
     gvk_APIVersion := "v1"; gvk_Kind := "Pod" |}.
Solve Obligations with done.

(** podutils.IsPodReady *)
Definition getPodReadyCondition (p : Pod) : option PodCondition :=
  List.find (λ c, bool_decide (pc_Type c = "Ready")) (pod_Conditions p).
Definition IsPodReady (p : Pod) : bool :=
  match getPodReadyCondition p with
  | Some c => bool_decide (pc_Status c = "True")
  | None => false
  end.

(** ** Nodes *)

Record Taint := mk_taint { taint_Key : string; taint_Effect : string }.
Record Node := mk_node {
  node_meta : ObjectMeta;
  node_Taints : list Taint;
  node_KernelVersion : string;      (** .status.nodeInfo.kernelVersion *)
  node_OSImage : string }.          (** .status.nodeInfo.osImage *)
#[export] Program Instance Node_KObject : KObject Node :=
  {| get_meta := node_meta;
     set_meta m n := mk_node m (node_Taints n) (node_KernelVersion n) (node_OSImage n);
     gvk_APIVersion := "v1"; gvk_Kind := "Node" |}.
Solve Obligations with done.

(** ** DaemonSets *)

Record DaemonSetSpec := mk_dsspec {
  dss_Selector : option strmap;       (** .selector.matchLabels *)
  dss_Template : PodTemplateSpec }.
#[export] Instance DaemonSetSpec_eq_dec : EqDecision DaemonSetSpec.
Proof. solve_decision. Defined.

Record DaemonSet := mk_ds {
  ds_meta : ObjectMeta;
  ds_Spec : DaemonSetSpec;
  ds_NumberAvailable : Z }.           (** .status.numberAvailable, an int32 *)
#[export] Instance DaemonSet_eq_dec : EqDecision DaemonSet.
Proof. solve_decision. Defined.
#[export] Program Instance DaemonSet_KObject : KObject DaemonSet :=
  {| get_meta := ds_meta; set_meta m d := mk_ds m (ds_Spec d) (ds_NumberAvailable d);
     gvk_APIVersion := "apps/v1"; gvk_Kind := "DaemonSet" |}.
Solve Obligations with done.

Definition empty_podspec : PodSpec := mk_podspec [] [] ∅ "" "" "" [].
Definition empty_dsspec : DaemonSetSpec := mk_dsspec None (mk_podtemplate empty_meta empty_podspec).
Definition new_daemonset (m : ObjectMeta) : DaemonSet := mk_ds m empty_dsspec 0.

(** ** Jobs *)

Record JobStatus := mk_jobstatus {
  js_Active : Z; js_Succeeded : Z; js_Failed : Z;
  js_repr : string }.                 (** the whole struct under fmt's %v *)
Record JobSpec := mk_jobspec {
  jspec_Completions : option Z; jspec_Template : PodTemplateSpec; jspec_BackoffLimit : option Z }.
Record Job := mk_job { job_meta : ObjectMeta; job_Spec : JobSpec; job_Status : JobStatus }.
#[export] Program Instance Job_KObject : KObject Job :=
  {| get_meta := job_meta; set_meta m j := mk_job m (job_Spec j) (job_Status j);
     gvk_APIVersion := "batch/v1"; gvk_Kind := "Job" |}.
Solve Obligations with done.

Definition empty_jobstatus : JobStatus := mk_jobstatus 0 0 0 "".

(** ** OpenShift Builds *)

Definition BuildPhaseNew := "New".
Definition BuildPhasePending := "Pending".
Definition BuildPhaseRunning := "Running".
Definition BuildPhaseComplete := "Complete".
Definition BuildPhaseFailed := "Failed".
Definition BuildPhaseError := "Error".
Definition BuildPhaseCancelled := "Cancelled".

Record BuildSource := mk_bsource { bs_Dockerfile : option string; bs_Type : string }.
Record BuildOutput := mk_boutput {
  bo_To : option (string * string);   (** kind and name *)
  bo_PushSecret : option LocalObjectReference }.
Record BuildVolume := mk_bvolume {
  bv_Name : string; bv_SourceType : string; bv_SecretName : string; bv_Optional : option bool;
  bv_Mounts : list string }.
Record DockerStrategy := mk_dockerstrategy {
  dst_BuildArgs : list EnvVar; dst_Volumes : list BuildVolume }.
Record BuildSpec := mk_bspec {
  bsp_ServiceAccount : string;
  bsp_Source : BuildSource;
  bsp_StrategyType : string;
  bsp_DockerStrategy : DockerStrategy;
  bsp_Output : BuildOutput;
  bsp_NodeSelector : strmap;
  bsp_MountTrustedCA : option bool }.
Record BuildStatus := mk_bstatus {
  bst_Phase : string; bst_LogSnippet : string; bst_repr : string }.
Record OCPBuild := mk_ocpbuild { ob_meta : ObjectMeta; ob_Spec : BuildSpec; ob_Status : BuildStatus }.
#[export] Program Instance OCPBuild_KObject : KObject OCPBuild :=
  {| get_meta := ob_meta; set_meta m b := mk_ocpbuild m (ob_Spec b) (ob_Status b);
     gvk_APIVersion := "build.openshift.io/v1"; gvk_Kind := "Build" |}.
Solve Obligations with done.

(** ** The other objects *)

Record ConfigMap := mk_cm { cm_meta : ObjectMeta; cm_Data : strmap }.
#[export] Program Instance ConfigMap_KObject : KObject ConfigMap :=
  {| get_meta := cm_meta; set_meta m c := mk_cm m (cm_Data c);
     gvk_APIVersion := "v1"; gvk_Kind := "ConfigMap" |}.
Solve Obligations with done.

Record Secret := mk_secret {
  sec_meta : ObjectMeta; sec_Data : strmap;
  sec_repr : string }.                (** the whole struct under fmt's %v *)
Record ServiceAccount := mk_sa { sa_meta : ObjectMeta; sa_Secrets : list string }.

(** imagev1.ImageStream: name and [from.name] ([from] may be nil) of each tag *)
Record TagReference := mk_tag { tag_Name : string; tag_From : option string }.
Record ImageStream := mk_is { is_meta : ObjectMeta; is_Tags : list TagReference }.

(** clusterv1.ManagedCluster and its claims *)
Record ManagedClusterClaim := mk_claim { claim_Name : string; claim_Value : string }.
#[export] Instance ManagedClusterClaim_eq_dec : EqDecision ManagedClusterClaim.
Proof. solve_decision. Defined.
Record ManagedCluster := mk_mc { mc_meta : ObjectMeta; mc_ClusterClaims : list ManagedClusterClaim }.

(** clusterv1alpha1.ClusterClaim *)
Record ClusterClaim := mk_cc { cc_meta : ObjectMeta; cc_Value : string }.
#[export] Instance ClusterClaim_eq_dec : EqDecision ClusterClaim.
Proof. solve_decision. Defined.

(** ** Facts *)

Lemma labels_match_spec sel ls :
  labels_match sel ls = true ↔ ∀ k v, sel !! k = Some v → omap_lookup ls k = Some v.
Proof.
  unfold labels_match, selector_matches. rewrite forallb_forall. split.
  - intros H k v Hk. specialize (H (k, v)). simpl in H.
    unfold requirement_matches in H. rewrite <-list_elem_of_In, elem_of_map_to_list in H.
    specialize (H Hk). destruct (omap_lookup ls k); [|done].
    apply bool_decide_eq_true in H. by subst.
  - intros H [k v] Hk. rewrite <-list_elem_of_In, elem_of_map_to_list in Hk. simpl.
    unfold requirement_matches. rewrite (H k v Hk). by rewrite bool_decide_true.
Qed.

Lemma selector_matches_perm r1 r2 ls :
  r1 ≡ₚ r2 → selector_matches r1 ls = selector_matches r2 ls.
Proof.
  intros H. unfold selector_matches. induction H; simpl; [done|congruence| |congruence].
  by destruct (requirement_matches ls y.1 y.2), (requirement_matches ls x.1 x.2).
Qed.

Lemma RemoveFinalizer_not_in m f : f ∉ om_Finalizers (RemoveFinalizer m f).
Proof.
  unfold RemoveFinalizer. simpl. rewrite list_elem_of_In, List.filter_In.
  intros [_ H]. by rewrite bool_decide_true in H.
Qed.

(** The helpers leave the rest of the metadata alone. *)
Lemma SetControllerReference_fields owner m m' :
  SetControllerReference owner m = Ok m' →
  om_Name m' = om_Name m ∧ om_Namespace m' = om_Namespace m ∧ om_GenerateName m' = om_GenerateName m ∧
  om_Labels m' = om_Labels m ∧ om_Annotations m' = om_Annotations m ∧
  om_DeletionTimestamp m' = om_DeletionTimestamp m.
Proof. unfold SetControllerReference. intros H. repeat case_match; by simplify_eq/=. Qed.

Lemma referSameObject_ref owner c1 c2 :
  parse_group (ow_APIVersion owner) ≠ None →
  referSameObject (owner_ref owner c1) (owner_ref owner c2) = true.
Proof.
  intros H. unfold referSameObject, owner_ref. simpl.
  destruct (parse_group _); [|done]. by rewrite !bool_decide_true.
Qed.

(** The metadata of a fresh object without owner accepts a controller of
    its namespace, which then controls it. *)
Lemma SetControllerReference_fresh owner m :
  om_OwnerReferences m = [] → (ow_Namespace owner = "" ∨ ow_Namespace owner = om_Namespace m) →
  SetControllerReference owner m = Ok (set_owners [owner_ref owner true] m).
Proof.
  intros Hm Hns. unfold SetControllerReference, validateOwner, GetControllerOf, upsertOwnerRef.
  rewrite Hm. simpl.
  case_bool_decide; [done|]. destruct Hns as [|Hns]; [done|]. rewrite Hns in *.
  rewrite bool_decide_false by done. by rewrite bool_decide_true.
Qed.

Lemma IsControlledBy_fresh owner m :
  IsControlledBy (set_owners [owner_ref owner true] m) owner = true.
Proof. unfold IsControlledBy, GetControllerOf. simpl. by rewrite bool_decide_true. Qed.

(** After setting it, the owner is the controller, whatever references the
    object had. *)
Lemma upsertOwnerRef_controller ref m :
  is_controller_ref ref = true →
  (∀ r, GetControllerOf m = Some r → referSameObject r ref = true) →
  GetControllerOf (upsertOwnerRef ref m) = Some ref.
Proof.
  unfold GetControllerOf, upsertOwnerRef. cbn [om_OwnerReferences set_owners]. intros Href.
  induction (om_OwnerReferences m) as [|r l IH]; simpl; intros Hc; [by rewrite Href|].
  destruct (referSameObject r ref) eqn:E; simpl; [by rewrite Href|].
  destruct (is_controller_ref r) eqn:Er; [|by apply IH].
  rewrite (Hc r eq_refl) in E. done.
Qed.

Lemma validateOwner_None owner m :
  validateOwner owner m = None → ow_Namespace owner = "" ∨ om_Namespace m = ow_Namespace owner.
Proof. unfold validateOwner. repeat case_bool_decide; auto; done. Qed.

Lemma SetControllerReference_controlled_by owner m m' :
  SetControllerReference owner m = Ok m' → controlled_by owner m'.
Proof.
  intros H. pose proof (SetControllerReference_fields _ _ _ H) as (_ & Hns & _).
  unfold SetControllerReference in H. destruct (validateOwner owner m) eqn:Hv; [done|].
  apply validateOwner_None in Hv. rewrite <-Hns in Hv. split; [|done].
  destruct (GetControllerOf m) as [r|] eqn:E.
  - destruct (referSameObject r _) eqn:Es; [|done]. injection H as <-.
    apply upsertOwnerRef_controller; [done|]. intros r' ?. congruence.
  - injection H as <-. apply upsertOwnerRef_controller; [done|]. intros r' ?. congruence.
Qed.

Lemma controlled_by_IsControlledBy owner m : controlled_by owner m → IsControlledBy m owner = true.
Proof. intros [Hc _]. unfold IsControlledBy. rewrite Hc. simpl. by rewrite bool_decide_true. Qed.

Lemma SetControllerReference_controlled owner m m' :
  SetControllerReference owner m = Ok m' → IsControlledBy m' owner = true.
Proof.
  intros H%SetControllerReference_controlled_by. by apply controlled_by_IsControlledBy.
Qed.

Lemma upsertOwnerRef_elem ref m : ref ∈ om_OwnerReferences (upsertOwnerRef ref m).
Proof.
  unfold upsertOwnerRef. cbn [om_OwnerReferences set_owners].
  induction (om_OwnerReferences m) as [|r l IH]; [set_solver|]. simpl.
  destruct (referSameObject r ref); set_solver.
Qed.

(** The other references stay, but for one to the same object. *)
Lemma upsertOwnerRef_other ref m r :
  r ∈ om_OwnerReferences m → referSameObject r ref = false →
  r ∈ om_OwnerReferences (upsertOwnerRef ref m).
Proof.
  unfold upsertOwnerRef. cbn [om_OwnerReferences set_owners].
  induction (om_OwnerReferences m) as [|x l IH]; [set_solver|]. simpl. intros Hin Hr.
  apply elem_of_cons in Hin as [->|Hin]; [rewrite Hr; set_solver|].
  destruct (referSameObject x ref); set_solver.
Qed.

Lemma SetOwnerReference_Ok owner m m' :
  SetOwnerReference owner m = Ok m' → m' = upsertOwnerRef (owner_ref owner false) m.
Proof. unfold SetOwnerReference. destruct (validateOwner _ _); by intros [=]. Qed.
