(* ===== verification/Api.v ===== *)
(** * The operator's own API types

    [api/v1beta1], [api-hub/v1beta1], [internal/api] and
    [internal/constants].  Pointers to structs are options. *)

From S2P Require Import Prelude K8s.
From stdpp Require Import options.

(** ** internal/constants *)

Definition OCPBuilderServiceAccountName := "builder".
Definition DTKImageStreamNamespace := "openshift".
Definition ModuleNameLabel := "kmm.node.kubernetes.io/module.name".
Definition NodeLabelerFinalizer := "kmm.node.kubernetes.io/node-labeler".
Definition TargetKernelTarget := "kmm.node.kubernetes.io/target-kernel".
Definition JobType := "kmm.node.kubernetes.io/job-type".
Definition JobHashAnnotation := "kmm.node.kubernetes.io/last-hash".
Definition KernelLabel := "kmm.node.kubernetes.io/kernel-version.full".
Definition ManagedClusterModuleNameLabel := "kmm.node.kubernetes.io/managedclustermodule.name".
Definition KernelVersionsClusterClaimName := "kernel-versions.kmm.node.kubernetes.io".
Definition DockerfileCMKey := "dockerfile".
Definition PublicSignDataKey := "cert".
Definition PrivateSignDataKey := "key".

(** The image stream of the driver toolkit, as the mains name it. *)
Definition dtkNSN : NamespacedName := NN DTKImageStreamNamespace "driver-toolkit".

(** ** groupversion_info.go of api/v1beta1 and of api-hub/v1beta1 *)

(** schema.GroupVersion and its String. *)
Record GroupVersion_ := mk_gv { gv_Group : string; gv_Version : string }.
Definition gv_String (gv : GroupVersion_) : string := gv_Group gv +:+ "/" +:+ gv_Version gv.
Definition GroupVersion := mk_gv "kmm.sigs.x-k8s.io" "v1beta1".
Definition hub_GroupVersion := mk_gv "hub.kmm.sigs.x-k8s.io" "v1beta1".

(** ** module_types.go *)

Record BuildArg := mk_buildarg { ba_Name : string; ba_Value : string }.
#[export] Instance BuildArg_eq_dec : EqDecision BuildArg.
Proof. solve_decision. Defined.

Record TLSOptions := mk_tls { Insecure : bool; InsecureSkipTLSVerify : bool }.
#[export] Instance TLSOptions_eq_dec : EqDecision TLSOptions.
Proof. solve_decision. Defined.
Definition empty_tls : TLSOptions := mk_tls false false.

Record Build := mk_build {
  BuildArgs : list BuildArg;
  DockerfileConfigMap : option LocalObjectReference;
  BaseImageRegistryTLS : TLSOptions;
  Secrets : list LocalObjectReference;
  KanikoTag : option string }.        (** kanikoParams.tag *)
#[export] Instance Build_eq_dec : EqDecision Build.
Proof. solve_decision. Defined.

Record Sign := mk_sign {
  UnsignedImage : string;
  UnsignedImageRegistryTLS : TLSOptions;
  KeySecret : option LocalObjectReference;
  CertSecret : option LocalObjectReference;
  FilesToSign : list string }.
#[export] Instance Sign_eq_dec : EqDecision Sign.
Proof. solve_decision. Defined.

Record KernelMapping := mk_mapping {
  km_Build : option Build;
  km_Sign : option Sign;
  km_ContainerImage : string;
  km_Literal : string;
  km_RegistryTLS : option TLSOptions;
  km_Regexp : string }.
#[export] Instance KernelMapping_eq_dec : EqDecision KernelMapping.
Proof. solve_decision. Defined.

Record ModprobeArgs := mk_modprobeargs { Load : list string; Unload : list string }.
#[export] Instance ModprobeArgs_eq_dec : EqDecision ModprobeArgs.
Proof. solve_decision. Defined.

Record ModprobeSpec := mk_modprobe {
  ModuleName : string;
  Parameters_ : list string;
  DirName : string;
  Args : option ModprobeArgs;
  RawArgs : option ModprobeArgs;
  FirmwarePath : string }.
#[export] Instance ModprobeSpec_eq_dec : EqDecision ModprobeSpec.
Proof. solve_decision. Defined.

Record ModuleLoaderContainerSpec := mk_mlcontainer {
  mlc_Build : option Build;
  mlc_Sign : option Sign;
  mlc_ContainerImage : string;
  mlc_ImagePullPolicy : string;
  mlc_KernelMappings : list KernelMapping;
  mlc_Modprobe : ModprobeSpec;
  mlc_RegistryTLS : TLSOptions }.
#[export] Instance ModuleLoaderContainerSpec_eq_dec : EqDecision ModuleLoaderContainerSpec.
Proof. solve_decision. Defined.

Record ModuleLoaderSpec := mk_mlspec {
  ml_Container : ModuleLoaderContainerSpec;
  ml_ServiceAccountName : string }.
#[export] Instance ModuleLoaderSpec_eq_dec : EqDecision ModuleLoaderSpec.
Proof. solve_decision. Defined.

Record DevicePluginContainerSpec := mk_dpcontainer {
  dpc_Command : list string;
  dpc_Args : list string;
  dpc_Env : list EnvVar;
  dpc_Image : string;
  dpc_ImagePullPolicy : string;
  dpc_Resources : string;
  dpc_VolumeMounts : list VolumeMount }.
#[export] Instance DevicePluginContainerSpec_eq_dec : EqDecision DevicePluginContainerSpec.
Proof. solve_decision. Defined.

Record DevicePluginSpec := mk_dpspec {
  dp_Container : DevicePluginContainerSpec;
  dp_ServiceAccountName : string;
  dp_Volumes : list Volume }.
#[export] Instance DevicePluginSpec_eq_dec : EqDecision DevicePluginSpec.
Proof. solve_decision. Defined.

Record ModuleSpec := mk_modspec {
  DevicePlugin : option DevicePluginSpec;
  ModuleLoader : ModuleLoaderSpec;
  ImageRepoSecret : option LocalObjectReference;
  Selector : strmap }.
#[export] Instance ModuleSpec_eq_dec : EqDecision ModuleSpec.
Proof. solve_decision. Defined.

(** int32 counters *)
Record DaemonSetStatus := mk_dsstatus {
  NodesMatchingSelectorNumber : Z; DesiredNumber : Z; AvailableNumber : Z }.
#[export] Instance DaemonSetStatus_eq_dec : EqDecision DaemonSetStatus.
Proof. solve_decision. Defined.
Definition empty_dsstatus : DaemonSetStatus := mk_dsstatus 0 0 0.

Record ModuleStatus := mk_modstatus {
  st_DevicePlugin : DaemonSetStatus; st_ModuleLoader : DaemonSetStatus }.
#[export] Instance ModuleStatus_eq_dec : EqDecision ModuleStatus.
Proof. solve_decision. Defined.
Definition empty_modstatus : ModuleStatus := mk_modstatus empty_dsstatus empty_dsstatus.

Record Module_ := mk_module {
  mod_meta : ObjectMeta; mod_Spec : ModuleSpec; mod_Status : ModuleStatus }.
#[export] Instance Module_eq_dec : EqDecision Module_.
Proof. solve_decision. Defined.
#[export] Program Instance Module_KObject : KObject Module_ :=
  {| get_meta := mod_meta; set_meta m d := mk_module m (mod_Spec d) (mod_Status d);
     gvk_APIVersion := gv_String GroupVersion; gvk_Kind := "Module" |}.
Solve Obligations with done.

Definition mod_Name (m : Module_) : string := om_Name (mod_meta m).
Definition mod_Namespace (m : Module_) : string := om_Namespace (mod_meta m).
Definition mod_container (m : Module_) : ModuleLoaderContainerSpec :=
  ml_Container (ModuleLoader (mod_Spec m)).

(** ** preflightvalidation_types.go, preflightvalidationocp_types.go *)

Definition VerificationTrue := "True".
Definition VerificationFalse := "False".
Definition VerificationStageImage := "Image".
Definition VerificationStageBuild := "Build".
Definition VerificationStageSign := "Sign".
Definition VerificationStageRequeued := "Requeued".
Definition VerificationStageDone := "Done".

Record CRStatus := mk_crstatus {
  VerificationStatus : string;
  StatusReason : string;
  VerificationStage : string;
  LastTransitionTime : Z }.
#[export] Instance CRStatus_eq_dec : EqDecision CRStatus.
Proof. solve_decision. Defined.

Record PreflightValidationSpec := mk_pvspec { pvs_KernelVersion : string; pvs_PushBuiltImage : bool }.

(** The CRStatuses map; None is the nil map. *)
Record PreflightValidation := mk_pv {
  pv_meta : ObjectMeta;
  pv_Spec : PreflightValidationSpec;
  pv_CRStatuses : option (gmap string CRStatus) }.
#[export] Program Instance PreflightValidation_KObject : KObject PreflightValidation :=
  {| get_meta := pv_meta; set_meta m p := mk_pv m (pv_Spec p) (pv_CRStatuses p);
     gvk_APIVersion := gv_String GroupVersion; gvk_Kind := "PreflightValidation" |}.
Solve Obligations with done.

Record PreflightValidationOCPSpec := mk_pvospec {
  pvos_ReleaseImage : string; pvos_UseRTKernel : bool; pvos_PushBuiltImage : bool }.
Record PreflightValidationOCP := mk_pvo {
  pvo_meta : ObjectMeta;
  pvo_Spec : PreflightValidationOCPSpec;
  pvo_CRStatuses : option (gmap string CRStatus) }.
#[export] Program Instance PreflightValidationOCP_KObject : KObject PreflightValidationOCP :=
  {| get_meta := pvo_meta; set_meta m p := mk_pvo m (pvo_Spec p) (pvo_CRStatuses p);
     gvk_APIVersion := gv_String GroupVersion; gvk_Kind := "PreflightValidationOCP" |}.
Solve Obligations with done.

(** ** managedclustermodule_types.go *)

Record ManagedClusterModuleSpec := mk_mcmspec {
  mcms_ModuleSpec : ModuleSpec;
  mcms_SpokeNamespace : string;
  mcms_Selector : strmap }.
Record ManagedClusterModuleStatus := mk_mcmstatus {
  NumberDesired : Z; NumberApplied : Z; NumberDegraded : Z }.
Record ManagedClusterModule := mk_mcm {
  mcm_meta : ObjectMeta;
  mcm_Spec : ManagedClusterModuleSpec;
  mcm_Status : ManagedClusterModuleStatus }.
#[export] Program Instance ManagedClusterModule_KObject : KObject ManagedClusterModule :=
  {| get_meta := mcm_meta; set_meta m p := mk_mcm m (mcm_Spec p) (mcm_Status p);
     gvk_APIVersion := gv_String hub_GroupVersion; gvk_Kind := "ManagedClusterModule" |}.
Solve Obligations with done.

(** ** ManifestWork (work.open-cluster-management.io/v1)

    Its manifests are the Modules the hub sends to a spoke cluster, with the
    feedback rules the hub asks for. *)

Record JsonPath := mk_jsonpath { jp_Name : string; jp_Path : string }.
#[export] Instance JsonPath_eq_dec : EqDecision JsonPath.
Proof. solve_decision. Defined.
Record ManifestConfigOption := mk_mconfig {
  mco_Group : string; mco_Resource : string; mco_Name : string; mco_Namespace : string;
  mco_FeedbackType : string; mco_JsonPaths : list JsonPath }.
#[export] Instance ManifestConfigOption_eq_dec : EqDecision ManifestConfigOption.
Proof. solve_decision. Defined.
Record ManifestWorkSpec := mk_mwspec {
  mws_Manifests : list Module_; mws_ManifestConfigs : list ManifestConfigOption }.
#[export] Instance ManifestWorkSpec_eq_dec : EqDecision ManifestWorkSpec.
Proof. solve_decision. Defined.
Record WorkCondition := mk_wcond { wc_Type : string; wc_Status : string }.
#[export] Instance WorkCondition_eq_dec : EqDecision WorkCondition.
Proof. solve_decision. Defined.
Record ManifestWork := mk_mw {
  mw_meta : ObjectMeta; mw_Spec : ManifestWorkSpec; mw_Conditions : list WorkCondition }.
#[export] Instance ManifestWork_eq_dec : EqDecision ManifestWork.
Proof. solve_decision. Defined.
#[export] Program Instance ManifestWork_KObject : KObject ManifestWork :=
  {| get_meta := mw_meta; set_meta m p := mk_mw m (mw_Spec p) (mw_Conditions p);
     gvk_APIVersion := "work.open-cluster-management.io/v1"; gvk_Kind := "ManifestWork" |}.
Solve Obligations with done.

(** ** internal/api: ModuleLoaderData *)

Record ModuleLoaderData := mk_mld {
  mld_KernelVersion : string;
  mld_ImageRepoSecret : option LocalObjectReference;
  mld_Selector : strmap;
  mld_Name : string;
  mld_Namespace : string;
  mld_ServiceAccountName : string;
  mld_Build : option Build;
  mld_Sign : option Sign;
  mld_ContainerImage : string;
  mld_ImagePullPolicy : string;
  mld_Modprobe : ModprobeSpec;
  mld_RegistryTLS : option TLSOptions;
  mld_Owner : Owner }.

Definition set_mld_image (img : string) (mld : ModuleLoaderData) : ModuleLoaderData :=
  mk_mld (mld_KernelVersion mld) (mld_ImageRepoSecret mld) (mld_Selector mld) (mld_Name mld)
    (mld_Namespace mld) (mld_ServiceAccountName mld) (mld_Build mld) (mld_Sign mld) img
    (mld_ImagePullPolicy mld) (mld_Modprobe mld) (mld_RegistryTLS mld) (mld_Owner mld).

(** ** Sample objects

    Concrete values the examples of the development share. *)
Module Ex.
Definition modprobe : ModprobeSpec := mk_modprobe "nvidia" ["a=1"] "/opt" None None "".
Definition mapping : KernelMapping := mk_mapping None None "" "" None "el9".
Definition container : ModuleLoaderContainerSpec :=
  mk_mlcontainer None None "quay.io/org/driver:v1" "Always" [mapping] modprobe empty_tls.
Definition dp_container : DevicePluginContainerSpec :=
  mk_dpcontainer ["run"] [] [] "quay.io/org/dp:v1" "" "" [].
Definition device_plugin : DevicePluginSpec := mk_dpspec dp_container "" [].
Definition spec : ModuleSpec :=
  mk_modspec (Some device_plugin) (mk_mlspec container "") None {[ "role" := "worker" ]}.
Definition meta : ObjectMeta :=
  mk_meta "nvidia" "" "gpu" "uid-1" None None [] [] None 0.
Definition module : Module_ := mk_module meta spec empty_modstatus.
Definition kernel := "5.14.0-70.el9".
Definition build : Build := mk_build [] (Some (LocalRef "dockerfile")) empty_tls [] None.
Definition sign : Sign :=
  mk_sign "" empty_tls (Some (LocalRef "key")) (Some (LocalRef "cert")) ["/opt/a.ko"].
Definition mld : ModuleLoaderData :=
  mk_mld kernel None (Selector spec) "nvidia" "gpu" "" (Some build) (Some sign)
    "quay.io/org/driver:v1" "" modprobe (Some empty_tls) (as_owner module).
Definition ds : DaemonSet := new_daemonset (set_generate_name "nvidia-" (meta_named "" "gpu")).
End Ex.
