(* ===== verification/Client.v ===== *)
(** * The services the operator calls

    One request per call that leaves the process (or, for the kernel/OS/DTK
    mapping, that goes to state shared by several controllers), with the type
    of its answer.  [client.Client] is indexed by the kind of object.  The
    request type is the signature of every controller program; what the
    services answer is up to the server a program runs against. *)

From S2P Require Import Prelude Prog K8s Api.
From stdpp Require Import options.

Local Open Scope go_scope.

(** ** Kinds *)

Inductive kind :=
  | KModule | KNode | KPod | KDaemonSet | KJob | KBuild | KConfigMap | KSecret
  | KServiceAccount | KPreflight | KPreflightOCP | KImageStream
  | KManagedClusterModule | KManagedCluster | KManifestWork | KClusterClaim.
#[export] Instance kind_eq_dec : EqDecision kind.
Proof. solve_decision. Defined.

Definition obj (k : kind) : Type :=
  match k with
  | KModule => Module_ | KNode => Node | KPod => Pod | KDaemonSet => DaemonSet
  | KJob => Job | KBuild => OCPBuild | KConfigMap => ConfigMap | KSecret => Secret
  | KServiceAccount => ServiceAccount | KPreflight => PreflightValidation
  | KPreflightOCP => PreflightValidationOCP | KImageStream => ImageStream
  | KManagedClusterModule => ManagedClusterModule | KManagedCluster => ManagedCluster
  | KManifestWork => ManifestWork | KClusterClaim => ClusterClaim
  end.

Definition obj_meta (k : kind) : obj k → ObjectMeta :=
  match k with
  | KModule => mod_meta | KNode => node_meta | KPod => pod_meta | KDaemonSet => ds_meta
  | KJob => job_meta | KBuild => ob_meta | KConfigMap => cm_meta | KSecret => sec_meta
  | KServiceAccount => sa_meta | KPreflight => pv_meta | KPreflightOCP => pvo_meta
  | KImageStream => is_meta | KManagedClusterModule => mcm_meta | KManagedCluster => mc_meta
  | KManifestWork => mw_meta | KClusterClaim => cc_meta
  end.

(** client.ListOptions: InNamespace and MatchingLabels *)
Record ListOptions := mk_listopts { lo_Namespace : option string; lo_Labels : option strmap }.
Definition list_all : ListOptions := mk_listopts None None.

(** ** The image registry library *)

(** authn.Keychain and v1.Layer / v1.Image are handles of the library. *)
Definition Keychain := string.
Definition Layer := string.

Inductive CraneOption :=
  | CraneInsecure | CraneSkipTLSVerify | CraneKeychain (kc : Keychain).

(** What a tar stream yields: the headers with what reading their data gives, and how it ends
    ([None] is io.EOF). *)
Record TarEntry := mk_tar { tar_Name : string; tar_Data : result string }.
Record TarStream := mk_tarstream { ts_Entries : list TarEntry; ts_End : option error }.

(** ** Metrics *)

Inductive Metric :=
  | MModulesNum (n : Z) | MInClusterBuildNum (n : Z) | MInClusterSignNum (n : Z)
  | MDevicePluginNum (n : Z) | MPreflightsNum (n : Z)
  | MModprobeArgs (name namespace args : string)
  | MModprobeRawArgs (name namespace args : string).
#[export] Instance Metric_eq_dec : EqDecision Metric.
Proof. solve_decision. Defined.

(** ** Requests and answers *)

Inductive req :=
  (** client.Client *)
  | RGet (k : kind) (key : NamespacedName)
  | RList (k : kind) (opts : ListOptions)
  | RCreate (k : kind) (o : obj k)
  | RPatch (k : kind) (o base : obj k)              (** MergeFrom(base) *)
  | RDelete (k : kind) (o : obj k) (background : bool)
  | RStatusPatch (k : kind) (o base : obj k)
  | RStatusUpdate (k : kind) (o : obj k)
  (** registry library *)
  | RManifest (image : string) (opts : list CraneOption)
  | RPullLayer (ref : string) (opts : list CraneOption)
  | RUncompressed (l : Layer)
  | RKeychainFromSecret (s : Secret)
  | RKeychainFromSA (namespace serviceAccount : string)
  (** metrics registry, clock, environment *)
  | RMetric (m : Metric)
  | RNow
  | RGetenv (name : string)
  (** the shared kernel / OS / DTK mapping *)
  | RSetNodeInfo (kernelVersion osImage : string)
  | RSetImageStreamInfo (osImage dtkImage : string)
  | RGetImage (kernelVersion : string).

Definition ans (q : req) : Type :=
  match q with
  | RGet k _ => result (obj k)
  | RList k _ => result (list (obj k))
  | RCreate k _ => result (obj k)
  | RPatch k _ _ => result (obj k)
  | RDelete _ _ _ => result unit
  | RStatusPatch k _ _ => result (obj k)
  | RStatusUpdate k _ => result (obj k)
  | RManifest _ _ => result string
  | RPullLayer _ _ => result Layer
  | RUncompressed _ => result TarStream
  | RKeychainFromSecret _ => result Keychain
  | RKeychainFromSA _ _ => result Keychain
  | RMetric _ => unit
  | RNow => Z
  | RGetenv _ => string
  | RSetNodeInfo _ _ => unit
  | RSetImageStreamInfo _ _ => unit
  | RGetImage _ => result string
  end.

(** Controller programs and the histories of their calls. *)
Abbreviation M := (prog ans).
Abbreviation hist := (list (@event req ans)).
Abbreviation kserver := (server ans).

Definition Get (k : kind) (key : NamespacedName) : M (result (obj k)) := call (RGet k key).
Definition List_ (k : kind) (opts : ListOptions) : M (result (list (obj k))) := call (RList k opts).
Definition Create (k : kind) (o : obj k) : M (result (obj k)) := call (RCreate k o).
Definition Patch (k : kind) (o base : obj k) : M (result (obj k)) := call (RPatch k o base).
Definition Delete (k : kind) (o : obj k) (background : bool) : M (result unit) :=
  call (RDelete k o background).
Definition StatusPatch (k : kind) (o base : obj k) : M (result (obj k)) := call (RStatusPatch k o base).
Definition StatusUpdate (k : kind) (o : obj k) : M (result (obj k)) := call (RStatusUpdate k o).
Definition set_metric (m : Metric) : M unit := call (RMetric m).
Definition Now : M Z := call RNow.
Definition Getenv (name : string) : M string := call (RGetenv name).

(** k8serrors.IsNotFound and client.IgnoreNotFound *)
Definition IsNotFound (err : error) : bool := errors_is err CNotFound.

(** ** controllerutil.CreateOrPatch *)

(** How an object splits in status and rest, for the comparison of the
    object before and after the mutation. *)
Class Patchable (k : kind) := mk_patchable {
  body_eqb : obj k → obj k → bool;            (** equal but for the status *)
  status_eqb : obj k → obj k → bool;
  with_status_of : obj k → obj k → obj k }.   (** the first, with the second's status *)

#[export] Instance DaemonSet_Patchable : Patchable KDaemonSet :=
  mk_patchable KDaemonSet
    (λ a b : DaemonSet, bool_decide (ds_meta a = ds_meta b) && bool_decide (ds_Spec a = ds_Spec b))
    (λ a b : DaemonSet, bool_decide (ds_NumberAvailable a = ds_NumberAvailable b))
    (λ a b : DaemonSet, mk_ds (ds_meta a) (ds_Spec a) (ds_NumberAvailable b)).
#[export] Instance ManifestWork_Patchable : Patchable KManifestWork :=
  mk_patchable KManifestWork
    (λ a b : ManifestWork, bool_decide (mw_meta a = mw_meta b) && bool_decide (mw_Spec a = mw_Spec b))
    (λ a b : ManifestWork, bool_decide (mw_Conditions a = mw_Conditions b))
    (λ a b : ManifestWork, mk_mw (mw_meta a) (mw_Spec a) (mw_Conditions b)).
#[export] Instance ClusterClaim_Patchable : Patchable KClusterClaim :=
  mk_patchable KClusterClaim (λ a b : ClusterClaim, bool_decide (a = b))
    (λ _ _ : ClusterClaim, true) (λ a _ : ClusterClaim, a).

Inductive OperationResult :=
  | OpNone | OpCreated | OpUpdated | OpUpdatedStatus | OpUpdatedStatusOnly.

(** The mutation must keep the object's key. *)
Definition mutate {k} (f : obj k → result (obj k)) (key : NamespacedName) (o : obj k)
    : result (obj k) :=
  match f o with
  | Ok o' =>
      if bool_decide (object_key (obj_meta k o') = key) then Ok o'
      else Err (errorf "MutateFn cannot mutate object name and/or object namespace")
  | r => r
  end.

(** Returns the operation and the object the pointer argument holds at the
    end; [r] is the answer to the Get. *)
Definition CreateOrPatch_with (k : kind) `{Patchable k} (o : obj k) (f : obj k → result (obj k))
    (r : result (obj k)) : M (result (OperationResult * obj k)) :=
  let key := object_key (obj_meta k o) in
  match r with
  | Err err =>
      if negb (IsNotFound err) then Ret (Err err) else
      try o1 := lift_result (mutate f key o) catch err => Ret (Err err) in
      try o2 := Create k o1 catch err => Ret (Err err) in
      Ret (Ok (OpCreated, o2))
  | Panic w => Crash w
  | Ok before =>
      try after := lift_result (mutate f key before) catch err => Ret (Err err) in
      try cur := (if body_eqb before after then Ret (Ok (OpNone, after))
                  else try o2 := Patch k after before catch err => Ret (Err err) in
                       Ret (Ok (OpUpdated, o2)))
        catch err => Ret (Err err) in
      if status_eqb before after then Ret (Ok cur)
      else
        try o3 := StatusPatch k (with_status_of cur.2 after) before catch err => Ret (Err err) in
        Ret (Ok (match cur.1 with OpUpdated => OpUpdatedStatus | _ => OpUpdatedStatusOnly end, o3))
  end.

Definition CreateOrPatch (k : kind) `{Patchable k} (o : obj k) (f : obj k → result (obj k))
    : M (result (OperationResult * obj k)) :=
  prog_bind (CreateOrPatch_with k o f) (Get k (object_key (obj_meta k o))).

(** The mutation is a closure: whether it ran matters to a caller whose
    variables it changes. *)
Definition mutation_runs {A} (r : result A) : bool :=
  match r with Ok _ => true | Err err => IsNotFound err | Panic _ => false end.

Definition CreateOrPatch_tracked (k : kind) `{Patchable k} (o : obj k) (f : obj k → result (obj k))
    : M (result (OperationResult * obj k) * bool) :=
  prog_bind (λ r, prog_bind (λ x, Ret (x, mutation_runs r)) (CreateOrPatch_with k o f r))
    (Get k (object_key (obj_meta k o))).

(** ** Histories *)

(** The calls that change the state of the API server or the shared mapping. *)
Definition is_write (q : req) : bool :=
  match q with
  | RCreate _ _ | RPatch _ _ _ | RDelete _ _ _ | RStatusPatch _ _ _ | RStatusUpdate _ _
  | RSetNodeInfo _ _ | RSetImageStreamInfo _ _ => true
  | _ => false
  end.

(** ... of one kind. *)
Definition writes_kind (k : kind) (q : req) : bool :=
  match q with
  | RCreate k' _ | RPatch k' _ _ | RDelete k' _ _ | RStatusPatch k' _ _ | RStatusUpdate k' _ =>
      bool_decide (k' = k)
  | _ => false
  end.

Lemma writes_kind_is_write k q : writes_kind k q = true → is_write q = true.
Proof. by destruct q. Qed.

(** The calls that change the shared mapping. *)
Definition mapping_write (q : req) : bool :=
  match q with RSetNodeInfo _ _ | RSetImageStreamInfo _ _ => true | _ => false end.

Lemma read_not_mapping q : is_write q = false → mapping_write q = false.
Proof. by destruct q. Qed.

(** Programs that change nothing. *)
Abbreviation reads := (calls (λ q, is_write q = false)).

(** The number of writes of a history. *)
Definition count_writes (h : hist) : nat := length (List.filter (λ e, is_write (ev_req e)) h).

Lemma count_writes_app h1 h2 : count_writes (h1 ++ h2) = count_writes h1 + count_writes h2.
Proof. unfold count_writes. by rewrite List.filter_app, length_app. Qed.

(** Programs whose only writes are of one kind. *)
Definition writes_only (k : kind) (q : req) : bool := negb (is_write q) || writes_kind k q.

Lemma reads_writes_only k {A} (p : M A) :
  calls (λ q, is_write q = false) p → calls (λ q, writes_only k q = true) p.
Proof. intros H. eapply calls_mono; [exact H|]. intros q Hq. unfold writes_only. by rewrite Hq. Qed.

(** The object a write is about, when it is of kind [k]. *)
Definition as_kind (k : kind) {k'} (o : obj k') : option (obj k) :=
  match decide (k' = k) with left e => Some (eq_rect k' obj o k e) | right _ => None end.
Definition created (k : kind) (q : req) : option (obj k) :=
  match q with RCreate k' o => as_kind k o | _ => None end.
Definition patched (k : kind) (q : req) : option (obj k) :=
  match q with RPatch k' o _ => as_kind k o | _ => None end.
Definition deleted (k : kind) (q : req) : option (obj k) :=
  match q with RDelete k' o _ => as_kind k o | _ => None end.
Definition status_patched (k : kind) (q : req) : option (obj k) :=
  match q with RStatusPatch k' o _ => as_kind k o | _ => None end.

Lemma as_kind_same k (o : obj k) : as_kind k o = Some o.
Proof. unfold as_kind. destruct k; reflexivity. Qed.

Lemma created_inv k q (o : obj k) : created k q = Some o → q = RCreate k o.
Proof.
  destruct q; try done. simpl. unfold as_kind. destruct (decide _) as [e|]; [|done].
  subst. by intros [= ->].
Qed.

(** The error a call answered with. *)
Definition result_error {A} (r : result A) : option error :=
  match r with Err e => Some e | _ => None end.
Definition answer_error (q : req) : ans q → option error :=
  match q with
  | RGet _ _ | RList _ _ | RCreate _ _ | RPatch _ _ _ | RDelete _ _ _ | RStatusPatch _ _ _
  | RStatusUpdate _ _ | RManifest _ _ | RPullLayer _ _ | RUncompressed _ | RKeychainFromSecret _
  | RKeychainFromSA _ _ | RGetImage _ => result_error
  | _ => λ _, None
  end.
Definition ev_error (e : @event req ans) : option error := answer_error (ev_req e) (ev_ans e).
Definition succeeded (h : hist) : Prop := Forall (λ e, ev_error e = None) h.

(** Membership of a call in a history that ends with known calls. *)
Ltac in_hist :=
  solve [ assumption
        | apply elem_of_app; right; by left
        | apply elem_of_app; left; in_hist
        | by left | right; in_hist ].

(** What a program of one kind of calls adds to the history. *)
Lemma wp_calls_trace (P : req → Prop) {A} (p : M A) h :
  calls P p → wp (λ _ q, P q) p (λ _ h', ∃ tr, h' = h ++ tr ∧ Forall (λ e, P (ev_req e)) tr) h.
Proof.
  intros Hp. specialize (Hp h).
  cut (∀ h1, Forall (λ e, P (ev_req e)) h1 → wp (λ _ q, P q) p (λ _ _, True) (h ++ h1) →
    wp (λ _ q, P q) p (λ _ h', ∃ tr, h' = h ++ tr ∧ Forall (λ e, P (ev_req e)) tr) (h ++ h1)).
  { intros Hc. specialize (Hc []). rewrite app_nil_r in Hc. by apply Hc. }
  clear Hp. induction p as [a|w|q k IH]; intros h1 H1; simpl; [by eauto..|].
  intros [Hq Hk]. split; [done|]. intros x. rewrite <-app_assoc. apply IH.
  - apply Forall_app. split; [done|]. by repeat constructor.
  - rewrite app_assoc. apply Hk.
Qed.

Lemma count_writes_reads h tr :
  Forall (λ e, is_write (ev_req e) = false) tr → count_writes (h ++ tr) = count_writes h.
Proof.
  intros Htr. rewrite count_writes_app.
  assert (count_writes tr = 0) as ->; [|lia].
  induction Htr as [|e tr He _ IH]; [done|]. unfold count_writes in *. simpl. by rewrite He.
Qed.

(** A program that only reads, with a postcondition on what it read. *)
Lemma wp_reads ok {A} (p : M A) (R Q : outcome A → hist → Prop) h :
  reads p → wp (λ _ _, True) p R h →
  (∀ h' q, h `prefix_of` h' → is_write q = false → ok h' q) →
  (∀ o h', h `prefix_of` h' → count_writes h' = count_writes h → R o h' → Q o h') →
  wp ok p Q h.
Proof.
  intros Hr HR Hok HQ. pose proof (wp_calls_trace _ p h Hr) as Ht.
  pose proof (wp_and _ _ _ _ _ _ HR Ht) as Hb.
  eapply wp_mono; [exact Hb| |].
  - intros h' q Hp [_ Hq]. by apply Hok.
  - intros o h' Hp [HRo (tr & -> & Htr)]. apply HQ; [done| |done]. by apply count_writes_reads.
Qed.

(** Go's [x, err := p; if err != nil { return }] for a program that reads. *)
Lemma wp_read_step {A B} (p : M (result A)) (f : result A → M B) ok Q h :
  reads p → (∀ h' q, h `prefix_of` h' → is_write q = false → ok h' q) →
  (∀ a h', h `prefix_of` h' → wp ok (f (Ok a)) Q h') →
  (∀ e h', h `prefix_of` h' → wp ok (f (Err e)) Q h') →
  (∀ w h', h `prefix_of` h' → wp ok (f (Panic w)) Q h') →
  (∀ w h', h `prefix_of` h' → Q (Crashed w) h') → wp ok (prog_bind f p) Q h.
Proof.
  intros Hr Hok H1 H2 H3 H4. apply wp_bind. eapply wp_calls; [exact Hr|done|].
  intros [[a|e|w]|w] h' Hp; auto.
Qed.

(** A history predicate that later calls cannot falsify. *)
Definition monotone (P : hist → Prop) : Prop := ∀ h h', h `prefix_of` h' → P h → P h'.

Lemma monotone_exists_event (P : @event req ans → Prop) : monotone (λ h, ∃ e, e ∈ h ∧ P e).
Proof. intros h h' [t ->] (e & He & HP). exists e. split; [|done]. set_solver. Qed.

(** ** Rules for the client's calls *)

Lemma wp_call ok (q : req) (Q : outcome (ans q) → hist → Prop) h :
  ok h q → (∀ x, Q (Done x) (h ++ [Ev q x])) → wp ok (call q) Q h.
Proof. by split. Qed.

Lemma wp_lift_result {A} ok (r : result A) (Q : outcome (result A) → hist → Prop) h :
  (∀ x, r = Ok x → Q (Done (Ok x)) h) → (∀ e, r = Err e → Q (Done (Err e)) h) →
  (∀ w, r = Panic w → Q (Crashed w) h) → wp ok (lift_result r) Q h.
Proof. destruct r; simpl; auto. Qed.

Lemma mutate_Ok {k} (f : obj k → result (obj k)) key o o' :
  mutate f key o = Ok o' → f o = Ok o' ∧ object_key (obj_meta k o') = key.
Proof. unfold mutate. destruct (f o); [|done..]. case_bool_decide; [|done]. by intros [= <-]. Qed.

(** Calls of CreateOrPatch: it reads the object, then writes at most what the
    mutation made of the object passed in or of the object read. *)
Lemma wp_CreateOrPatch_with ok k `{Patchable k} (o : obj k) f r
    (Q : outcome (result (OperationResult * obj k)) → hist → Prop) h :
  (∀ h' o', h `prefix_of` h' → mutate f (object_key (obj_meta k o)) o = Ok o' →
            ok h' (RCreate k o')) →
  (∀ h' b o', h `prefix_of` h' → mutate f (object_key (obj_meta k o)) b = Ok o' →
            ok h' (RPatch k o' b)) →
  (∀ h' b o' c, h `prefix_of` h' → mutate f (object_key (obj_meta k o)) b = Ok o' →
            status_eqb b o' = false → ok h' (RStatusPatch k (with_status_of c o') b)) →
  (∀ r h', h `prefix_of` h' → Q r h') →
  wp ok (CreateOrPatch_with k o f r) Q h.
Proof.
  intros Hcreate Hpatch Hstatus HQ. unfold CreateOrPatch_with.
  assert (∀ h' q (x : ans q), h `prefix_of` h' → h `prefix_of` h' ++ [Ev q x]) as Hpre
    by (intros; by apply prefix_app_r).
  assert (∀ q (x : ans q), h `prefix_of` h ++ [Ev q x]) as Hpre1
    by (intros; by apply prefix_app_r).
  destruct r as [b|err|w]; simpl; [| |by apply HQ].
  - destruct (mutate f _ b) as [o'|err|w] eqn:E; simpl; [|by apply HQ..].
    apply wp_bind.
    destruct (body_eqb b o'); simpl.
    + destruct (status_eqb b o') eqn:Est; simpl; [by apply HQ|].
      split; [by eapply Hstatus|]. intros [y|e|w]; simpl; by apply HQ, Hpre1.
    + split; [by eapply Hpatch|]. intros [y|e|w]; simpl; [|by apply HQ, Hpre1..].
      destruct (status_eqb b o') eqn:Est; simpl; [by apply HQ, Hpre1|].
      split; [by eapply Hstatus; [apply Hpre1|..]|].
      intros [z|e|w]; simpl; by apply HQ, Hpre, Hpre1.
  - destruct (IsNotFound err); simpl; [|by apply HQ].
    destruct (mutate f _ o) as [o'|e|w] eqn:E; simpl; [|by apply HQ..].
    split; [by eapply Hcreate|]. intros [y|e|w]; simpl; by apply HQ, Hpre1.
Qed.

Lemma wp_CreateOrPatch ok k `{Patchable k} (o : obj k) f
    (Q : outcome (result (OperationResult * obj k)) → hist → Prop) h :
  ok h (RGet k (object_key (obj_meta k o))) →
  (∀ h' o', h `prefix_of` h' → mutate f (object_key (obj_meta k o)) o = Ok o' →
            ok h' (RCreate k o')) →
  (∀ h' b o', h `prefix_of` h' → mutate f (object_key (obj_meta k o)) b = Ok o' →
            ok h' (RPatch k o' b)) →
  (∀ h' b o' c, h `prefix_of` h' → mutate f (object_key (obj_meta k o)) b = Ok o' →
            status_eqb b o' = false → ok h' (RStatusPatch k (with_status_of c o') b)) →
  (∀ r h', h `prefix_of` h' → Q r h') →
  wp ok (CreateOrPatch k o f) Q h.
Proof.
  intros Hget Hc Hp Hs HQ. split; [done|]. intros x. cbn [prog_bind].
  assert (h `prefix_of` h ++ [Ev (RGet k (object_key (obj_meta k o))) x]) as Hpre
    by by apply prefix_app_r.
  apply wp_CreateOrPatch_with; intros; [apply Hc|apply Hp|eapply Hs|apply HQ]; (by etrans || done).
Qed.

Lemma wp_CreateOrPatch_tracked ok k `{Patchable k} (o : obj k) f
    (Q : outcome (result (OperationResult * obj k) * bool) → hist → Prop) h :
  ok h (RGet k (object_key (obj_meta k o))) →
  (∀ h' o', h `prefix_of` h' → mutate f (object_key (obj_meta k o)) o = Ok o' →
            ok h' (RCreate k o')) →
  (∀ h' b o', h `prefix_of` h' → mutate f (object_key (obj_meta k o)) b = Ok o' →
            ok h' (RPatch k o' b)) →
  (∀ h' b o' c, h `prefix_of` h' → mutate f (object_key (obj_meta k o)) b = Ok o' →
            status_eqb b o' = false → ok h' (RStatusPatch k (with_status_of c o') b)) →
  (∀ r h', h `prefix_of` h' → Q r h') →
  wp ok (CreateOrPatch_tracked k o f) Q h.
Proof.
  intros Hget Hc Hp Hs HQ. split; [done|]. intros x. cbn [prog_bind].
  assert (h `prefix_of` h ++ [Ev (RGet k (object_key (obj_meta k o))) x]) as Hpre
    by by apply prefix_app_r.
  apply wp_bind, wp_CreateOrPatch_with; intros; [apply Hc|apply Hp|eapply Hs|]; try (by etrans || done).
  destruct r; apply HQ; by etrans.
Qed.

Lemma calls_CreateOrPatch (P : req → Prop) k `{Patchable k} (o : obj k) f :
  (∀ key, P (RGet k key)) → (∀ x, P (RCreate k x)) → (∀ x b, P (RPatch k x b)) →
  (∀ x b, P (RStatusPatch k x b)) → calls P (CreateOrPatch k o f).
Proof. intros H1 H2 H3 H4 h. by apply wp_CreateOrPatch. Qed.
Lemma calls_CreateOrPatch_tracked (P : req → Prop) k `{Patchable k} (o : obj k) f :
  (∀ key, P (RGet k key)) → (∀ x, P (RCreate k x)) → (∀ x b, P (RPatch k x b)) →
  (∀ x b, P (RStatusPatch k x b)) → calls P (CreateOrPatch_tracked k o f).
Proof. intros H1 H2 H3 H4 h. by apply wp_CreateOrPatch_tracked. Qed.

(** When CreateOrPatch succeeds, the server holds what the mutation made of
    some object: it accepted it, or was read to hold it already. *)
Definition applied (k : kind) `{Patchable k} (o : obj k) (h : hist) : Prop :=
  (∃ r, (Ev (RCreate k o) (Ok r) : @event req ans) ∈ h) ∨
  (∃ b r, (Ev (RPatch k o b) (Ok r) : @event req ans) ∈ h) ∨
  (∃ key b, (Ev (RGet k key) (Ok b) : @event req ans) ∈ h ∧ body_eqb b o = true).

Lemma applied_monotone k `{Patchable k} (o : obj k) : monotone (applied k o).
Proof.
  intros h h' [l ->] [[r H1]|[(b & r & H1)|(key & b & H1 & H2)]]; [left|right; left|right; right].
  - exists r. apply elem_of_app. by left.
  - exists b, r. apply elem_of_app. by left.
  - exists key, b. split; [apply elem_of_app; by left|done].
Qed.

Lemma wp_CreateOrPatch_applied k `{Patchable k} (o : obj k) f h :
  wp (λ _ _, True) (CreateOrPatch k o f)
     (λ r h', match r with
              | Done (Ok _) => ∃ o0 o', f o0 = Ok o' ∧ applied k o' h'
              | _ => True
              end) h.
Proof.
  split; [done|]. intros r. cbn [prog_bind]. unfold CreateOrPatch_with.
  destruct r as [b|err|w]; simpl; [| |done].
  - destruct (mutate f _ b) as [o'|err|w] eqn:E; simpl; [|done..].
    apply mutate_Ok in E as [E _]. apply wp_bind.
    destruct (body_eqb b o') eqn:Hb; simpl.
    + assert (∀ tl, ∃ o0 o1, f o0 = Ok o1 ∧
        applied k o1 ((h ++ [Ev (RGet k (object_key (obj_meta k o))) (Ok b)]) ++ tl)) as Hdone.
      { intros tl. exists b, o'. split; [done|]. right. right. exists (object_key (obj_meta k o)), b.
        split; [|done]. apply elem_of_app. left. in_hist. }
      destruct (status_eqb b o'); simpl; [specialize (Hdone []); by rewrite app_nil_r in Hdone|].
      split; [done|]. intros [y|e|w]; simpl; [apply Hdone|done..].
    + split; [done|]. intros [y|e|w]; simpl; [|done..].
      assert (∀ tl, ∃ o0 o1, f o0 = Ok o1 ∧
        applied k o1 (((h ++ [Ev (RGet k (object_key (obj_meta k o))) (Ok b)])
                       ++ [Ev (RPatch k o' b) (Ok y)]) ++ tl)) as Hdone.
      { intros tl. exists b, o'. split; [done|]. right. left. exists b, y.
        apply elem_of_app. left. in_hist. }
      destruct (status_eqb b o'); simpl; [specialize (Hdone []); by rewrite app_nil_r in Hdone|].
      split; [done|]. intros [z|e|w]; simpl; [apply Hdone|done..].
  - destruct (IsNotFound err); simpl; [|done].
    destruct (mutate f _ o) as [o'|e|w] eqn:E; simpl; [|done..].
    apply mutate_Ok in E as [E _]. split; [done|]. intros [y|e|w]; simpl; [|done..].
    exists o, o'. split; [done|]. left. exists y. in_hist.
Qed.

(** ** Servers for the examples *)

(** Answers every call with an error, or the empty value when it has none. *)
Definition deny (q : req) : ans q :=
  match q return ans q with
  | RMetric _ | RSetNodeInfo _ _ | RSetImageStreamInfo _ _ => tt
  | RNow => 0%Z
  | RGetenv _ => ""
  | RGet _ _ | RList _ _ | RCreate _ _ | RPatch _ _ _ | RDelete _ _ _ | RStatusPatch _ _ _
  | RStatusUpdate _ _ | RManifest _ _ | RPullLayer _ _ | RUncompressed _ | RKeychainFromSecret _
  | RKeychainFromSA _ _ | RGetImage _ => Err (errorf "unavailable")
  end.

(** Accepts every write, lists nothing and finds nothing. *)
Definition NotFoundError : error := mk_error "not found" [CNotFound].
Definition accept (q : req) : ans q :=
  match q return ans q with
  | RGet _ _ => Err NotFoundError
  | RList _ _ => Ok []
  | RCreate _ o | RPatch _ o _ | RStatusPatch _ o _ | RStatusUpdate _ o => Ok o
  | RDelete _ _ _ => Ok tt
  | q => deny q
  end.
Definition stateless (f : ∀ q, ans q) : kserver unit := λ q s, (f q, s).

Lemma stateless_answers f {A} (p : M A) e :
  e ∈ run_trace (stateless f) p tt → ev_ans e = f (ev_req e).
Proof.
  unfold run_trace. induction p as [a|w|q k IH]; simpl; [by intros ?%not_elem_of_nil..|].
  specialize (IH (f q)). destruct (run _ (k (f q)) tt) as [[o s] tr]. simpl in *.
  intros [->|?]%elem_of_cons; auto.
Qed.
