(* ===== verification/Utils.v ===== *)
(** * internal/utils

    The prefix of a warning (logging.go), kernel version components and
    template substitution (replaceStrings.go), secret volumes (volume_helper.go), and the job
    helper (jobhelper.go) the sign manager works with. *)

From S2P Require Import Prelude Prog K8s Api Client.
From stdpp Require Import options.

Local Open Scope go_scope.

(** ** logging.go *)

Definition WarnString (str : string) : string := "WARNING: " +:+ str.

(** ** replaceStrings.go *)

Definition kernelVersionMajorIdx := 0.
Definition kernelVersionMinorIdx := 1.
Definition kernelVersionPatchIdx := 2.

(** The character class of [kernelRegexp]. *)
Definition kernelRegexp (c : ascii) : bool :=
  is_char "."%char c || is_char ","%char c || is_char "-"%char c.

(** A kernel version with fewer than three components panics: the slice
    expression [osConfigFieldsList[:3]] runs past the capacity of the split's
    result, which is then equal to its length. *)
Definition KernelComponentsAsEnvVars (kernel : string) : result (list string) :=
  match str_split kernelRegexp kernel with
  | x :: y :: z :: _ =>
      Ok ["KERNEL_FULL_VERSION=" +:+ kernel;
          "KERNEL_VERSION=" +:+ kernel;
          "KERNEL_XYZ=" +:+ str_join "." [x; y; z];
          "KERNEL_X=" +:+ x;
          "KERNEL_Y=" +:+ y;
          "KERNEL_Z=" +:+ z]
  | _ => Panic "runtime error: slice bounds out of range [:3]"
  end.

(** github.com/a8m/envsubst/parse: substitution of one template, of those on
    which its parser ends: after a substitution that the lexer leaves without a
    closing brace, as in ${X$_}, it does not. *)
Class Envsubst := {
  envsubst : list string → string → result string;
  envsubst_no_panic : ∀ env t w, envsubst env t ≠ Panic w }.

(** Whether a text mentions a variable at all. *)
Definition no_dollar (s : string) : bool := str_forall (λ c, negb (is_char "$"%char c)) s.

(** What the package documents of texts without variables. *)
Class EnvsubstLiteral (E : Envsubst) :=
  envsubst_literal : ∀ env t, no_dollar t → envsubst env t = Ok t.

Section replace.
Context {E : Envsubst}.

Fixpoint ReplaceInTemplates (envvars : list string) (templates : list string)
    : result (list string) :=
  match templates with
  | [] => Ok []
  | v :: templates =>
      resultString ← wrap_err (λ err, errorf ("failed to substitute " +:+ go_quote v +:+ ": "
                                              +:+ Error err)) (envsubst envvars v);
      replaced ← ReplaceInTemplates envvars templates;
      Ok (resultString :: replaced)
  end.

Lemma ReplaceInTemplates_length env ts rs :
  ReplaceInTemplates env ts = Ok rs → length rs = length ts.
Proof.
  revert rs. induction ts as [|t ts IH]; simpl; intros rs; [by intros [= <-]|].
  rewrite result_bind_Ok. intros (r & _ & H). apply result_bind_Ok in H as (rs' & H & [= <-]).
  simpl. by rewrite (IH rs').
Qed.

Lemma ReplaceInTemplates_Forall2 env ts rs :
  ReplaceInTemplates env ts = Ok rs ↔ Forall2 (λ t r, envsubst env t = Ok r) ts rs.
Proof.
  revert rs. induction ts as [|t ts IH]; simpl; intros rs.
  - split; [by intros [= <-]|]. by inversion 1.
  - rewrite result_bind_Ok. setoid_rewrite wrap_err_Ok. setoid_rewrite result_bind_Ok.
    setoid_rewrite IH. split.
    + intros (r & ? & rs' & ? & [= <-]). by constructor.
    + inversion 1; subst. eauto 8.
Qed.

Lemma ReplaceInTemplates_no_panic env ts w : ReplaceInTemplates env ts ≠ Panic w.
Proof.
  induction ts as [|t ts IH]; simpl; [done|].
  destruct (envsubst env t) eqn:E1; simpl; [|done|by apply envsubst_no_panic in E1].
  by destruct (ReplaceInTemplates env ts).
Qed.

Lemma ReplaceInTemplates_literal `{!EnvsubstLiteral E} env ts :
  Forall no_dollar ts → ReplaceInTemplates env ts = Ok ts.
Proof.
  induction 1 as [|t ts Ht _ IH]; simpl; [done|].
  rewrite envsubst_literal by done. simpl. by rewrite IH.
Qed.
End replace.

(** A concrete substitution, for the witnesses: [${NAME}] with a plain name,
    longest match first, is not needed there; texts are returned unchanged. *)
Definition envsubst_id : Envsubst :=
  {| envsubst env t := Ok t; envsubst_no_panic _ _ _ := ltac:(done) |}.
#[export] Instance envsubst_id_literal : EnvsubstLiteral envsubst_id.
Proof. by intros env t _. Qed.

(** ** volume_helper.go *)

Definition volumeNameFromSecretRef (ref : LocalObjectReference) : string :=
  "secret-" +:+ lor_Name ref.

Definition MakeSecretVolume (secretRef : option LocalObjectReference) (key path : string) : Volume :=
  match secretRef with
  | None => mk_volume "" VolNone
  | Some ref =>
      mk_volume (volumeNameFromSecretRef ref)
        (VolSecret (lor_Name ref)
           (if bool_decide (key = "") then [] else [mk_ktp key path]))
  end.

Definition MakeSecretVolumeMount (secretRef : option LocalObjectReference) (mountPath : string)
    : VolumeMount :=
  match secretRef with
  | None => mk_mount "" false ""
  | Some ref => mk_mount (volumeNameFromSecretRef ref) true mountPath
  end.

(** ** jobhelper.go *)

Definition JobTypeBuild := "build".
Definition JobTypeSign := "sign".

(** utils.Status; [StatusNone] is the empty string returned with an error. *)
Inductive Status :=
  | StatusCompleted | StatusCreated | StatusInProgress | StatusFailed | StatusNone.
#[export] Instance Status_eq_dec : EqDecision Status.
Proof. solve_decision. Defined.

Definition ErrNoMatchingJob : error := mk_error "no matching job" [CSentinel "ErrNoMatchingJob"].

Definition IsJobChanged (existingJob newJob : Job) : result bool :=
  match om_Annotations (job_meta existingJob) with
  | None => Err (errorf ("annotations are not present in the existing job "
                         +:+ om_Name (job_meta existingJob)))
  | Some existingAnnotations =>
      if bool_decide (map_get existingAnnotations JobHashAnnotation =
                      omap_get (om_Annotations (job_meta newJob)) JobHashAnnotation)
      then Ok false
      else Ok true
  end.

Definition moduleLabels (moduleName jobType : string) : strmap :=
  {[ ModuleNameLabel := moduleName; JobType := jobType ]}.

Definition moduleKernelLabels (moduleName targetKernel jobType : string) : strmap :=
  <[ TargetKernelTarget := targetKernel ]> (moduleLabels moduleName jobType).

Definition JobLabels (modName targetKernel jobType : string) : strmap :=
  moduleKernelLabels modName targetKernel jobType.

Definition filterJobsByOwner (jobs : list Job) (owner : Owner) : list Job :=
  List.filter (λ job, IsControlledBy (job_meta job) owner) jobs.

Definition getJobs (namespace : string) (labels : strmap) : M (result (list Job)) :=
  try jobs := List_ KJob (mk_listopts (Some namespace) (Some labels))
    catch err => Ret (Err (errorf ("could not list jobs: " +:+ Error err))) in
  Ret (Ok jobs).

Definition GetModuleJobByKernel (modName namespace targetKernel jobType : string) (owner : Owner)
    : M (result Job) :=
  let matchLabels := moduleKernelLabels modName targetKernel jobType in
  try jobs := getJobs namespace matchLabels
    catch err => Ret (Err (errorf ("failed to get module " +:+ modName +:+ ", jobs by kernel "
                                   +:+ targetKernel +:+ ": " +:+ Error err))) in
  match filterJobsByOwner jobs owner with
  | [] => Ret (Err ErrNoMatchingJob)
  | [job] => Ret (Ok job)
  | moduleOwnedJobs =>
      Ret (Err (errorf ("expected 0 or 1 " +:+ jobType +:+ " job, got "
                        +:+ show_nat (length moduleOwnedJobs))))
  end.

Definition GetModuleJobs (modName namespace jobType : string) (owner : Owner)
    : M (result (list Job)) :=
  let matchLabels := moduleLabels modName jobType in
  try jobs := getJobs namespace matchLabels
    catch err => Ret (Err (errorf ("failed to get jobs for module " +:+ modName +:+ ", namespace "
                                   +:+ namespace +:+ ": " +:+ Error err))) in
  Ret (Ok (filterJobsByOwner jobs owner)).

Definition DeleteJob (job : Job) : M (result unit) := Delete KJob job true.

Definition CreateJob (jobTemplate : Job) : M (result Job) := Create KJob jobTemplate.

Definition GetJobStatus (job : Job) : Status * option error :=
  let st := job_Status job in
  if bool_decide (js_Succeeded st = 1%Z) then (StatusCompleted, None)
  else if bool_decide (js_Active st = 1%Z) then (StatusInProgress, None)
  else if bool_decide (js_Failed st = 1%Z) then (StatusFailed, None)
  else (StatusNone, Some (errorf ("unknown status: " +:+ js_repr st))).

(** ** Facts *)

Lemma filterJobsByOwner_spec jobs owner job :
  job ∈ filterJobsByOwner jobs owner ↔ job ∈ jobs ∧ IsControlledBy (job_meta job) owner = true.
Proof.
  unfold filterJobsByOwner. by rewrite !list_elem_of_In, List.filter_In.
Qed.

Lemma GetJobStatus_completed job :
  (GetJobStatus job).1 = StatusCompleted ↔ js_Succeeded (job_Status job) = 1%Z.
Proof. unfold GetJobStatus. repeat case_bool_decide; naive_solver. Qed.

(** The labels of two kernels or two job types never select the same job. *)
Lemma moduleKernelLabels_inj n1 k1 t1 n2 k2 t2 :
  moduleKernelLabels n1 k1 t1 = moduleKernelLabels n2 k2 t2 → n1 = n2 ∧ k1 = k2 ∧ t1 = t2.
Proof.
  intros H. repeat split.
  - by apply (f_equal (lookup ModuleNameLabel)) in H; vm_compute in H; simplify_eq.
  - by apply (f_equal (lookup TargetKernelTarget)) in H; vm_compute in H; simplify_eq.
  - by apply (f_equal (lookup JobType)) in H; vm_compute in H; simplify_eq.
Qed.

Lemma KernelComponents_panic_iff kernel :
  (∃ w, KernelComponentsAsEnvVars kernel = Panic w) ↔ length (str_split kernelRegexp kernel) < 3.
Proof.
  unfold KernelComponentsAsEnvVars.
  destruct (str_split kernelRegexp kernel) as [|x [|y [|z l]]]; simpl; split;
    try lia; try naive_solver.
Qed.

Lemma KernelComponents_no_err kernel err : KernelComponentsAsEnvVars kernel ≠ Err err.
Proof. unfold KernelComponentsAsEnvVars. repeat case_match; done. Qed.
