(* ===== verification/Helpers.v ===== *)
(** * Merging build and sign settings

    internal/build/helper.go and internal/sign/helper.go: the settings of a
    kernel mapping override or extend those of the Module.  The results are
    plain values here; [SharedMerge] has the code on the heap, where a deep
    copy keeps them apart from the Module. *)

From S2P Require Import Prelude K8s Api Utils.
From stdpp Require Import options.

(** ** internal/build/helper.go *)

Definition overridesMap (overrides : list BuildArg) : gmap string BuildArg :=
  foldl (λ m o, <[ba_Name o := o]> m) ∅ overrides.

(** The loop over [args]: replaces in place, and drops the used names from
    the set of unused overrides. *)
Fixpoint override_loop (m : gmap string BuildArg) (args : list BuildArg) (unused : gset string)
    : list BuildArg * gset string :=
  match args with
  | [] => ([], unused)
  | a :: args =>
      match m !! ba_Name a with
      | Some o => let r := override_loop m args (unused ∖ {[ba_Name a]}) in (o :: r.1, r.2)
      | None => let r := override_loop m args unused in (a :: r.1, r.2)
      end
  end.

(** The loop writes into the backing array of [args]: the first [length args]
    elements of the result are also what the caller's slice holds afterwards. *)
Definition ApplyBuildArgOverrides (args overrides : list BuildArg) : list BuildArg :=
  let m := overridesMap overrides in
  let r := override_loop m args (dom m) in
  r.1 ++ omap (λ n, m !! n) (sort_strings (elements r.2)).

Definition GetRelevantBuild (moduleBuild mappingBuild : option Build) : option Build :=
  match moduleBuild, mappingBuild with
  | None, _ => mappingBuild
  | Some mb, None => Some mb
  | Some mb, Some kb =>
      Some (mk_build
        (ApplyBuildArgOverrides (BuildArgs mb) (BuildArgs kb))
        (match DockerfileConfigMap kb with Some cm => Some cm | None => DockerfileConfigMap mb end)
        (BaseImageRegistryTLS mb)
        (Secrets mb ++ Secrets kb)
        (KanikoTag mb))
  end.

Definition GetBuildLabels (mld : ModuleLoaderData) : strmap :=
  {[ ModuleNameLabel := mld_Name mld; TargetKernelTarget := mld_KernelVersion mld ]}.

(** ** internal/sign/helper.go *)

(** The settings before template substitution. *)
Definition mergeSign (moduleSign mappingSign : option Sign) : option Sign :=
  match moduleSign, mappingSign with
  | None, _ => mappingSign
  | Some ms, None => Some ms
  | Some ms, Some ks =>
      Some (mk_sign
        (if bool_decide (UnsignedImage ks = "") then UnsignedImage ms else UnsignedImage ks)
        (UnsignedImageRegistryTLS ms)
        (match KeySecret ks with Some s => Some s | None => KeySecret ms end)
        (match CertSecret ks with Some s => Some s | None => CertSecret ms end)
        (FilesToSign ms ++ FilesToSign ks))
  end.

Definition set_sign_texts (unsigned : string) (files : list string) (s : Sign) : Sign :=
  mk_sign unsigned (UnsignedImageRegistryTLS s) (KeySecret s) (CertSecret s) files.

Section sign.
Context {E : Envsubst}.

Definition GetRelevantSign (moduleSign mappingSign : option Sign) (kernel : string)
    : result Sign :=
  osConfigEnvVars ← KernelComponentsAsEnvVars kernel;
  match mergeSign moduleSign mappingSign with
  | None => Panic "runtime error: invalid memory address or nil pointer dereference"
  | Some signConfig =>
      unsignedImage ← ReplaceInTemplates osConfigEnvVars [UnsignedImage signConfig];
      filesToSign ← ReplaceInTemplates osConfigEnvVars (FilesToSign signConfig);
      Ok (set_sign_texts (hd "" unsignedImage) filesToSign signConfig)
  end.
End sign.

(** ** Build arguments *)

Lemma overridesMap_app l o :
  overridesMap (l ++ [o]) = <[ba_Name o := o]> (overridesMap l).
Proof. unfold overridesMap. by rewrite foldl_app. Qed.

Lemma overridesMap_name l n o : overridesMap l !! n = Some o → ba_Name o = n.
Proof.
  induction l as [|x l IH] using rev_ind; [done|].
  rewrite overridesMap_app, lookup_insert. case_decide; naive_solver.
Qed.

Lemma overridesMap_dom l : dom (overridesMap l) = list_to_set (ba_Name <$> l).
Proof.
  induction l as [|x l IH] using rev_ind; [done|].
  rewrite overridesMap_app, dom_insert_L, IH, fmap_app, list_to_set_app_L. set_solver.
Qed.

Lemma overridesMap_singleton o : overridesMap [o] = {[ ba_Name o := o ]}.
Proof. done. Qed.

(** What the loop computes, without the state. *)
Lemma override_loop_fst m args unused :
  (override_loop m args unused).1 = (λ a, default a (m !! ba_Name a)) <$> args.
Proof.
  revert unused. induction args as [|a args IH]; intros unused; simpl; [done|].
  destruct (m !! ba_Name a); simpl; by rewrite IH.
Qed.

Lemma override_loop_snd m args unused :
  unused ⊆ dom m →
  (override_loop m args unused).2 = unused ∖ list_to_set (ba_Name <$> args).
Proof.
  revert unused. induction args as [|a args IH]; intros unused Hu; simpl; [set_solver|].
  destruct (m !! ba_Name a) eqn:E; simpl; rewrite IH by set_solver; [set_solver|].
  apply not_elem_of_dom in E. set_solver.
Qed.

(** Declarative reading of ApplyBuildArgOverrides. *)
Definition override_value (overrides : list BuildArg) (a : BuildArg) : BuildArg :=
  default a (overridesMap overrides !! ba_Name a).

Definition unused_names (args overrides : list BuildArg) : list string :=
  sort_strings (elements (list_to_set (C:=gset string) (ba_Name <$> overrides)
                          ∖ list_to_set (ba_Name <$> args))).

Lemma elem_of_unused_names args overrides n :
  n ∈ unused_names args overrides ↔ n ∈ ba_Name <$> overrides ∧ n ∉ ba_Name <$> args.
Proof.
  unfold unused_names. rewrite sort_strings_perm, elem_of_elements.
  by rewrite elem_of_difference, !elem_of_list_to_set.
Qed.

Lemma ApplyBuildArgOverrides_eq args overrides :
  ApplyBuildArgOverrides args overrides =
  (override_value overrides <$> args)
    ++ omap (λ n, overridesMap overrides !! n) (unused_names args overrides).
Proof.
  unfold ApplyBuildArgOverrides, unused_names.
  rewrite override_loop_fst, override_loop_snd by done. by rewrite overridesMap_dom.
Qed.

Lemma omap_overrides_names overrides (ns : list string) :
  Forall (λ n, n ∈ ba_Name <$> overrides) ns →
  ba_Name <$> omap (λ n, overridesMap overrides !! n) ns = ns.
Proof.
  induction 1 as [|n ns Hn _ IH]; [done|]. simpl.
  assert (is_Some (overridesMap overrides !! n)) as [o Ho].
  { apply elem_of_dom. rewrite overridesMap_dom. by apply elem_of_list_to_set. }
  rewrite Ho. simpl. f_equal; [by eapply overridesMap_name|exact IH].
Qed.

Lemma override_value_name overrides a : ba_Name (override_value overrides a) = ba_Name a.
Proof.
  unfold override_value. destruct (overridesMap overrides !! ba_Name a) eqn:E; [|done].
  by apply overridesMap_name in E.
Qed.

Lemma override_value_idem overrides a :
  override_value overrides (override_value overrides a) = override_value overrides a.
Proof.
  unfold override_value at 1. rewrite override_value_name. unfold override_value.
  by destruct (overridesMap overrides !! ba_Name a).
Qed.

Lemma ApplyBuildArgOverrides_names args overrides :
  ba_Name <$> ApplyBuildArgOverrides args overrides =
  (ba_Name <$> args) ++ unused_names args overrides.
Proof.
  rewrite ApplyBuildArgOverrides_eq, fmap_app, <-list_fmap_compose. f_equal.
  - apply list_fmap_ext. intros i a _. apply override_value_name.
  - apply omap_overrides_names. apply Forall_forall. intros n Hn.
    by apply elem_of_unused_names in Hn as [? _].
Qed.

(** The value of a build argument afterwards is the last override of its
    name, or what it was. *)
Lemma ApplyBuildArgOverrides_elem args overrides b :
  b ∈ ApplyBuildArgOverrides args overrides ↔
  (overridesMap overrides !! ba_Name b = Some b) ∨
  (b ∈ args ∧ overridesMap overrides !! ba_Name b = None).
Proof.
  rewrite ApplyBuildArgOverrides_eq, elem_of_app, list_elem_of_fmap, list_elem_of_omap. split.
  - intros [(a & -> & Ha)|(n & Hn & Hb)].
    + unfold override_value. destruct (overridesMap overrides !! ba_Name a) as [o|] eqn:E; simpl.
      * left. by rewrite (overridesMap_name _ _ _ E).
      * right. by rewrite E.
    + left. by rewrite (overridesMap_name _ _ _ Hb).
  - intros [Hb|[Ha Hb]].
    + destruct (decide (ba_Name b ∈ ba_Name <$> args)) as [Hin|Hnin].
      * left. apply list_elem_of_fmap in Hin as (a & Hab & Ha). exists a.
        unfold override_value. by rewrite <-Hab, Hb.
      * right. exists (ba_Name b). split; [|done]. apply elem_of_unused_names. split; [|done].
        assert (ba_Name b ∈ dom (overridesMap overrides)) as Hd by (by apply elem_of_dom_2 in Hb).
        rewrite overridesMap_dom in Hd. by apply elem_of_list_to_set in Hd.
    + left. exists b. split; [|done]. unfold override_value. by rewrite Hb.
Qed.

Lemma unused_names_again args overrides :
  unused_names (ApplyBuildArgOverrides args overrides) overrides = [].
Proof.
  destruct (unused_names _ _) as [|n ns] eqn:E; [done|].
  assert (n ∈ unused_names (ApplyBuildArgOverrides args overrides) overrides) as Hn
    by (rewrite E; set_solver).
  apply elem_of_unused_names in Hn as [Hn Hnin]. destruct Hnin.
  rewrite ApplyBuildArgOverrides_names, elem_of_app, elem_of_unused_names.
  destruct (decide (n ∈ ba_Name <$> args)); tauto.
Qed.

Lemma override_values_again overrides (ns : list string) :
  override_value overrides <$> omap (λ n, overridesMap overrides !! n) ns =
  omap (λ n, overridesMap overrides !! n) ns.
Proof.
  induction ns as [|n ns IH]; [done|]. simpl.
  destruct (overridesMap overrides !! n) as [o|] eqn:E; [|exact IH]. simpl. f_equal; [|exact IH].
  unfold override_value. rewrite (overridesMap_name _ _ _ E). by rewrite E.
Qed.

(** ** Properties *)

(** Applying build-argument overrides keeps every argument of the Module
    in place, appends the overrides that name no argument in alphabetical
    order, gives each name the value of its last override, and changes
    nothing when it is applied a second time. *)
Theorem ApplyBuildArgOverrides_spec args overrides :
  let r := ApplyBuildArgOverrides args overrides in
  ba_Name <$> r = (ba_Name <$> args) ++ unused_names args overrides ∧
  (∀ b, b ∈ r ↔ overridesMap overrides !! ba_Name b = Some b ∨
                (b ∈ args ∧ ba_Name b ∉ ba_Name <$> overrides)) ∧
  ApplyBuildArgOverrides r overrides = r.
Proof.
  simpl. split_and!.
  - apply ApplyBuildArgOverrides_names.
  - intros b. rewrite ApplyBuildArgOverrides_elem, <-not_elem_of_dom, overridesMap_dom.
    by rewrite elem_of_list_to_set.
  - rewrite (ApplyBuildArgOverrides_eq (ApplyBuildArgOverrides args overrides)).
    rewrite unused_names_again. simpl. rewrite app_nil_r.
    rewrite ApplyBuildArgOverrides_eq, fmap_app, override_values_again, <-list_fmap_compose.
    f_equal. apply list_fmap_ext. intros i a _. apply override_value_idem.
Qed.
