(* ===== verification/GoHeap.v ===== *)
(** * Memory, references and deep copies

    Most of the development treats the values of Go as immutable.  This file
    models what that hides: pointers, slices and maps are references to cells
    of a heap, an assignment copies the reference, and a change of a cell is
    seen by everything that refers to it.  A value read to the end of its
    references is a tree; its footprint is the list of the cells it is made
    of.  The statements controller-gen writes are a small language, [copy];
    the theorem of this file is that statements that cover a type give a copy
    with the same tree whose cells are all new and not shared. *)

From S2P Require Import Prelude.
From stdpp Require Import fin_maps gmap infinite options.

(** ** Values *)

Abbreviation loc := positive.

Inductive base := BString (s : string) | BBool (b : bool) | BInt (n : Z).
#[export] Instance base_eq_dec : EqDecision base.
Proof. solve_decision. Defined.

(** A slice is an array, an offset and a length. *)
Inductive val :=
  | VBase (b : base)
  | VStruct (fs : list (string * val))
  | VPtr (p : option loc)
  | VSlice (s : option (loc * nat * nat))
  | VMap (m : option loc).

Inductive cell := CVal (v : val) | CArray (vs : list val) | CMap (m : gmap string val).
Abbreviation heap := (gmap loc cell).

(** Allocation of a cell. *)
Definition alloc (c : cell) (h : heap) : loc * heap :=
  let l := fresh (dom h) in (l, <[l := c]> h).
#[global] Arguments alloc : simpl never.

Fixpoint field (f : string) (fs : list (string * val)) : option val :=
  match fs with
  | [] => None
  | (g, v) :: fs => if decide (f = g) then Some v else field f fs
  end.
Fixpoint set_field (f : string) (w : val) (fs : list (string * val)) : list (string * val) :=
  match fs with
  | [] => []
  | (g, v) :: fs => if decide (f = g) then (g, w) :: fs else (g, v) :: set_field f w fs
  end.

(** The elements of a slice in its array. *)
Definition window (off n : nat) (ws : list val) : list val := take n (drop off ws).

(** ** Types and trees *)

Inductive ty :=
  | TBase
  | TStruct (fs : list (string * ty))
  | TPtr (t : ty)
  | TSlice (t : ty)
  | TMap (t : ty).

(** What a value says, without the addresses. *)
Inductive tree :=
  | Leaf (b : base)
  | Node (fs : list tree)
  | Ref (p : option tree)
  | Seq (s : option (list tree))
  | Dict (m : option (gmap string tree)).

Section ty_ind.
Variable P : ty → Prop.
Hypothesis Hbase : P TBase.
Hypothesis Hstruct : ∀ fs, Forall (λ ft, P (snd ft)) fs → P (TStruct fs).
Hypothesis Hptr : ∀ t, P t → P (TPtr t).
Hypothesis Hslice : ∀ t, P t → P (TSlice t).
Hypothesis Hmap : ∀ t, P t → P (TMap t).

Fixpoint ty_ind' (T : ty) : P T :=
  match T with
  | TBase => Hbase
  | TStruct fs => Hstruct fs
      ((fix go (fs : list (string * ty)) : Forall (λ ft, P (snd ft)) fs :=
          match fs with [] => @List.Forall_nil _ _ | ft :: fs => @List.Forall_cons _ _ ft fs (ty_ind' (snd ft)) (go fs) end) fs)
  | TPtr t => Hptr t (ty_ind' t)
  | TSlice t => Hslice t (ty_ind' t)
  | TMap t => Hmap t (ty_ind' t)
  end.
End ty_ind.

(** The tree of a value of type [T]: [None] when a reference dangles, a cell
    has another type, or a slice leaves its array. *)
Fixpoint reads (T : ty) (h : heap) (v : val) {struct T} : option tree :=
  match T, v with
  | TBase, VBase b => Some (Leaf b)
  | TStruct fts, VStruct fvs =>
      Node <$> (fix go (fts : list (string * ty)) (fvs : list (string * val)) : option (list tree) :=
        match fts, fvs with
        | [], [] => Some []
        | (f, t) :: fts, (g, v) :: fvs =>
            if decide (f = g) then t ← reads t h v; ts ← go fts fvs; Some (t :: ts) else None
        | _, _ => None
        end) fts fvs
  | TPtr _, VPtr None => Some (Ref None)
  | TPtr t, VPtr (Some l) =>
      match h !! l with Some (CVal w) => (Ref ∘ Some) <$> reads t h w | _ => None end
  | TSlice _, VSlice None => Some (Seq None)
  | TSlice t, VSlice (Some (l, off, n)) =>
      match h !! l with
      | Some (CArray ws) =>
          if decide (off + n ≤ length ws)
          then (Seq ∘ Some) <$> mapM (reads t h) (window off n ws) else None
      | _ => None
      end
  | TMap _, VMap None => Some (Dict None)
  | TMap t, VMap (Some l) =>
      match h !! l with
      | Some (CMap m) =>
          let trs := omap (reads t h) m in
          if decide (dom trs = dom m) then Some (Dict (Some trs)) else None
      | _ => None
      end
  | _, _ => None
  end.

(** The cells a value of type [T] is made of. *)
Fixpoint foot (T : ty) (h : heap) (v : val) {struct T} : list loc :=
  match T, v with
  | TStruct fts, VStruct fvs =>
      (fix go (fts : list (string * ty)) (fvs : list (string * val)) : list loc :=
        match fts, fvs with
        | (_, t) :: fts, (_, v) :: fvs => foot t h v ++ go fts fvs
        | _, _ => []
        end) fts fvs
  | TPtr t, VPtr (Some l) =>
      l :: match h !! l with Some (CVal w) => foot t h w | _ => [] end
  | TSlice t, VSlice (Some (l, off, n)) =>
      l :: match h !! l with
           | Some (CArray ws) => concat (foot t h <$> window off n ws) | _ => [] end
  | TMap t, VMap (Some l) =>
      l :: match h !! l with
           | Some (CMap m) => concat ((λ kw, foot t h kw.2) <$> map_to_list m) | _ => [] end
  | _, _ => []
  end.

(** No references below the type: an assignment copies all of it. *)
Fixpoint flat (T : ty) : bool :=
  match T with
  | TBase => true
  | TStruct fts =>
      (fix go (fts : list (string * ty)) : bool :=
        match fts with [] => true | (_, t) :: fts => flat t && go fts end) fts
  | _ => false
  end.

(** ** What controller-gen writes *)

(** The statements of a generated function for one value, [in] being what is
    copied and [out] where to; each constructor is one block of the code. *)
Inductive copy :=
  | Assign                                  (** the assignment of what in points to, or copy of one element *)
  | Lib (L : string)                        (** in.DeepCopyInto(out) of a library type *)
  | Into (ss : list (string * copy))        (** the assignment of the struct, then the statements for these fields *)
  | New (c : copy)                          (** if in is not nil: out = new(T), then its contents *)
  | MakeSlice (c : copy)                    (** if in is not nil: out = make([]T, len), then every element *)
  | MakeMap (c : copy).                     (** if in is not nil: out = make(map[string]T, len), then every value *)

(** The elements of a slice or the values of a map, in order. *)
Fixpoint exec_list (f : heap → val → option (heap * val)) (h : heap) (ws : list val)
    : option (heap * list val) :=
  match ws with
  | [] => Some (h, [])
  | w :: ws => '(h, w) ← f h w; '(h, ws) ← exec_list f h ws; Some (h, w :: ws)
  end.

Section exec.
Context {MO : MapOrder}.
Variable lib_copy : string → heap → val → option (heap * val).

(** [None] is a dereference that the types exclude.  The name of a new cell
    cannot be observed, so the cell is allocated when its contents are
    known. *)
Fixpoint exec (c : copy) (h : heap) (v : val) {struct c} : option (heap * val) :=
  match c, v with
  | Assign, _ => Some (h, v)
  | Lib L, _ => lib_copy L h v
  | Into ss, VStruct fs =>
      (fix go (ss : list (string * copy)) (h : heap) (out : list (string * val)) : option (heap * val) :=
        match ss with
        | [] => Some (h, VStruct out)
        | (f, c) :: ss =>
            v ← field f fs; '(h, w) ← exec c h v; go ss h (set_field f w out)
        end) ss h fs
  | New _, VPtr None => Some (h, v)
  | New c, VPtr (Some l) =>
      match h !! l with
      | Some (CVal w) =>
          '(h, w) ← exec c h w;
          let '(l, h) := alloc (CVal w) h in Some (h, VPtr (Some l))
      | _ => None
      end
  | MakeSlice _, VSlice None => Some (h, v)
  | MakeSlice c, VSlice (Some (l, off, n)) =>
      match h !! l with
      | Some (CArray ws) =>
          '(h, ws) ← exec_list (exec c) h (window off n ws);
          let '(l, h) := alloc (CArray ws) h in Some (h, VSlice (Some (l, 0, n)))
      | _ => None
      end
  | MakeMap _, VMap None => Some (h, v)
  | MakeMap c, VMap (Some l) =>
      match h !! l with
      | Some (CMap m) =>
          '(h, ws) ← exec_list (exec c) h (range_map m).*2;
          let '(l, h) := alloc (CMap (list_to_map (zip (range_map m).*1 ws))) h in
          Some (h, VMap (Some l))
      | _ => None
      end
  | _, _ => None
  end.

(** The statements of a struct, [fs] being the fields of [in]. *)
Fixpoint exec_fields (fs : list (string * val)) (ss : list (string * copy)) (h : heap)
    (out : list (string * val)) : option (heap * val) :=
  match ss with
  | [] => Some (h, VStruct out)
  | (f, c) :: ss => v ← field f fs; '(h, w) ← exec c h v; exec_fields fs ss h (set_field f w out)
  end.

Lemma exec_into ss h fs : exec (Into ss) h (VStruct fs) = exec_fields fs ss h fs.
Proof.
  simpl. generalize fs at 2 4 as out. revert h. induction ss as [|[f c] ss IH]; intros h out; [done|].
  simpl. destruct (field f fs) as [v|]; [simpl|done]. destruct (exec c h v) as [[h' w]|]; [simpl|done].
  apply IH.
Qed.
End exec.

(** ** Fields, flat types, agreement of heaps *)

Fixpoint reads_fields (fts : list (string * ty)) (h : heap) (fvs : list (string * val)) : option (list tree) :=
  match fts, fvs with
  | [], [] => Some []
  | (f, t) :: fts, (g, v) :: fvs =>
      if decide (f = g) then t ← reads t h v; ts ← reads_fields fts h fvs; Some (t :: ts) else None
  | _, _ => None
  end.
Fixpoint foot_fields (fts : list (string * ty)) (h : heap) (fvs : list (string * val)) : list loc :=
  match fts, fvs with
  | (_, t) :: fts, (_, v) :: fvs => foot t h v ++ foot_fields fts h fvs
  | _, _ => []
  end.

Lemma reads_struct fts h fvs :
  reads (TStruct fts) h (VStruct fvs) = Node <$> reads_fields fts h fvs.
Proof.
  simpl. f_equal. revert fvs. induction fts as [|[f t] fts IH]; intros [|[g v] fvs]; simpl; try done.
  case_decide; [|done]. destruct (reads t h v); simpl; [|done]. by rewrite IH.
Qed.

Lemma foot_struct fts h fvs : foot (TStruct fts) h (VStruct fvs) = foot_fields fts h fvs.
Proof.
  simpl. revert fvs. induction fts as [|[f t] fts IH]; intros [|[g v] fvs]; simpl; try done.
  by rewrite IH.
Qed.

Lemma flat_struct fts : flat (TStruct fts) = forallb (λ ft, flat ft.2) fts.
Proof. simpl. induction fts as [|[f t] fts IH]; [done|]. simpl. by rewrite IH. Qed.

Lemma reads_struct_inv fts h v t :
  reads (TStruct fts) h v = Some t →
  ∃ fvs ts, v = VStruct fvs ∧ t = Node ts ∧ reads_fields fts h fvs = Some ts.
Proof.
  destruct v as [| fvs | | |]; try discriminate. rewrite reads_struct.
  intros (ts & Hts & ->)%fmap_Some. by exists fvs, ts.
Qed.

Lemma reads_fields_cons f t fts h fvs ts :
  reads_fields ((f, t) :: fts) h fvs = Some ts ↔
  ∃ v fvs' x xs, fvs = (f, v) :: fvs' ∧ ts = x :: xs ∧ reads t h v = Some x ∧ reads_fields fts h fvs' = Some xs.
Proof.
  split.
  - destruct fvs as [|[g v] fvs]; [done|]. simpl. case_decide as Hf; [subst g|done].
    destruct (reads t h v) as [x|] eqn:Hx; [simpl|done].
    destruct (reads_fields fts h fvs) as [xs|] eqn:Hxs; [simpl|done]. intros [= <-].
    by exists v, fvs, x, xs.
  - intros (v & fvs' & x & xs & -> & -> & Hx & Hxs). simpl. rewrite decide_True by done.
    by rewrite Hx, Hxs.
Qed.

(** What is flat is read without the heap. *)
Lemma flat_reads T : flat T = true → ∀ h h' v, reads T h' v = reads T h v ∧ foot T h v = [].
Proof.
  induction T as [|fts IH| | |] using ty_ind'; try discriminate; [by intros _ ?? []|].
  rewrite flat_struct. intros Hf h h' v. destruct v as [|fvs| | |]; try done.
  rewrite !reads_struct, foot_struct. revert fvs. induction IH as [|[f t] fts Ht Hfts IHfts]; intros [|[g v] fvs]; try done.
  simpl in Hf. apply andb_true_iff in Hf as [Hft Hff]. simpl in Ht.
  destruct (Ht Hft h h' v) as [Hr Hp]. destruct (IHfts Hff fvs) as [Hrs Hps].
  simpl. rewrite Hr, Hp, Hps. case_decide; [|done]. destruct (reads t h v); [simpl|done].
  apply option_fmap_eq_inj in Hrs; [|by intros ?? [=]]. by rewrite Hrs.
Qed.

Lemma concat_foot_elem {A} (F : A → list loc) xs l : l ∈ concat (F <$> xs) ↔ ∃ x, x ∈ xs ∧ l ∈ F x.
Proof.
  induction xs as [|y xs IH]; simpl; [set_solver|]. rewrite elem_of_app, IH. set_solver.
Qed.

(** A value depends on the cells of its footprint only. *)
Lemma reads_agree T : ∀ h h' v, (∀ l, l ∈ foot T h v → h' !! l = h !! l) →
  reads T h' v = reads T h v ∧ foot T h' v = foot T h v.
Proof.
  induction T as [|fts IH|t IH|t IH|t IH] using ty_ind'; intros h h' v Hl; destruct v as [|fvs|p|s|m]; try done.
  - rewrite !reads_struct, !foot_struct. rewrite foot_struct in Hl.
    enough (reads_fields fts h' fvs = reads_fields fts h fvs ∧ foot_fields fts h' fvs = foot_fields fts h fvs)
      as [-> ->] by done.
    revert fvs Hl. induction IH as [|[f t] fts Ht Hfts IHfts]; intros [|[g v] fvs] Hl; try done.
    simpl in *. destruct (Ht h h' v) as [-> ->]; [intros; apply Hl, elem_of_app; by left|].
    destruct (IHfts fvs) as [-> ->]; [intros; apply Hl, elem_of_app; by right|done].
  - destruct p as [l|]; [|done]. simpl in *. rewrite (Hl l) by apply list_elem_of_here.
    destruct (h !! l) as [[w| |]|] eqn:Hc; try done.
    destruct (IH h h' w) as [-> ->]; [intros; apply Hl; by apply list_elem_of_further|done].
  - destruct s as [[[l off] n]|]; [|done]. simpl in *. rewrite (Hl l) by apply list_elem_of_here.
    destruct (h !! l) as [[|ws|]|] eqn:Hc; try done.
    assert (∀ w, w ∈ window off n ws → reads t h' w = reads t h w ∧ foot t h' w = foot t h w) as Hw.
    { intros w Hw. apply IH. intros l' Hl'. apply Hl, list_elem_of_further, concat_foot_elem. by exists w. }
    assert (mapM (reads t h') (window off n ws) = mapM (reads t h) (window off n ws)) as ->.
    { clear Hl Hc. induction (window off n ws) as [|w l' IHl]; [done|]. simpl.
      rewrite (proj1 (Hw w (list_elem_of_here _ _))), IHl; [done|].
      intros; apply Hw; by apply list_elem_of_further. }
    split; [done|]. do 2 f_equal. apply list_fmap_ext. intros i w Hi. apply Hw. by eapply list_elem_of_lookup_2.
  - destruct m as [l|]; [|done]. simpl in *. rewrite (Hl l) by apply list_elem_of_here.
    destruct (h !! l) as [[| |m]|] eqn:Hc; try done.
    assert (∀ k w, m !! k = Some w → reads t h' w = reads t h w ∧ foot t h' w = foot t h w) as Hw.
    { intros k w Hk. apply IH. intros l' Hl'. apply Hl, list_elem_of_further, concat_foot_elem.
      exists (k, w). by rewrite elem_of_map_to_list. }
    assert (omap (reads t h') m = omap (reads t h) m) as ->.
    { apply map_eq. intros k. rewrite !lookup_omap. destruct (m !! k) as [w|] eqn:Hk; [|done]. by apply (Hw k). }
    split; [done|]. do 2 f_equal. apply list_fmap_ext. intros i [k w] Hi. apply (Hw k).
    apply elem_of_map_to_list. by eapply list_elem_of_lookup_2.
Qed.

Lemma reads_map t h l v :
  reads (TMap t) h (VMap (Some l)) = Some v ↔
  ∃ m trs, h !! l = Some (CMap m) ∧ v = Dict (Some trs) ∧ dom trs = dom m ∧
    ∀ k w, m !! k = Some w → reads t h w = trs !! k.
Proof.
  simpl. split.
  - destruct (h !! l) as [[| |m]|]; try done. case_decide as Hd; [|done]. intros [= <-].
    exists m, (omap (reads t h) m). split_and!; [done..|]. intros k w Hk. by rewrite lookup_omap, Hk.
  - intros (m & trs & -> & -> & Hd & Hr).
    assert (omap (reads t h) m = trs) as ->; [|by rewrite decide_True].
    apply map_eq. intros k. rewrite lookup_omap. destruct (m !! k) as [w|] eqn:Hk; simpl; [by eapply Hr|].
    symmetry. apply not_elem_of_dom. rewrite Hd. by apply not_elem_of_dom.
Qed.

Lemma reads_ptr T h l t :
  reads (TPtr T) h (VPtr (Some l)) = Some t ↔
  ∃ w x, h !! l = Some (CVal w) ∧ reads T h w = Some x ∧ t = Ref (Some x).
Proof.
  simpl. split.
  - destruct (h !! l) as [[w| |]|]; try done. intros (x & Hx & ->)%fmap_Some. by exists w, x.
  - intros (w & x & -> & Hx & ->). by rewrite Hx.
Qed.

Lemma foot_ptr T h l w : h !! l = Some (CVal w) → foot (TPtr T) h (VPtr (Some l)) = l :: foot T h w.
Proof. intros Hl. simpl. by rewrite Hl. Qed.

(** A value that can be read has no dangling references. *)
Lemma foot_dom T : ∀ h v t, reads T h v = Some t → ∀ l, l ∈ foot T h v → is_Some (h !! l).
Proof.
  induction T as [|fts IH|t IH|t IH|t IH] using ty_ind'; intros h v tr Hr l0 Hl.
  - by apply not_elem_of_nil in Hl.
  - apply reads_struct_inv in Hr as (fvs & ts & -> & -> & Hr). rewrite foot_struct in Hl.
    revert fvs ts Hr Hl. induction IH as [|[f t] fts Ht Hfts IHfts]; intros fvs ts Hr Hl.
    + by destruct fvs; apply not_elem_of_nil in Hl.
    + apply reads_fields_cons in Hr as (v & fvs' & x & xs & -> & -> & Hx & Hxs). simpl in Hl.
      apply elem_of_app in Hl as [Hl|Hl]; [by eapply Ht|by eapply IHfts].
  - destruct v as [| |p| |]; try done. destruct p as [l|]; [|by apply not_elem_of_nil in Hl]. simpl in *.
    destruct (h !! l) as [[w| |]|] eqn:Hc; try done. apply fmap_Some in Hr as (x & Hx & ->).
    apply elem_of_cons in Hl as [->|Hl]; [by rewrite Hc|by eapply IH].
  - destruct v as [| | |s|]; try done. destruct s as [[[l off] n]|]; [|by apply not_elem_of_nil in Hl]. simpl in *.
    destruct (h !! l) as [[|ws|]|] eqn:Hc; try done. case_decide; [|done].
    apply fmap_Some in Hr as (xs & Hx%mapM_Some & ->).
    apply elem_of_cons in Hl as [->|(w & Hw & Hl)%concat_foot_elem]; [by rewrite Hc|].
    apply list_elem_of_lookup in Hw as [i Hi]. destruct (Forall2_lookup_l _ _ _ _ _ Hx Hi) as (x & _ & Hxw). by eapply IH.
  - destruct v as [| | | |m]; try done. destruct m as [l|]; [|by apply not_elem_of_nil in Hl].
    apply reads_map in Hr as (m & trs & Hc & -> & Hd & Hr). simpl in Hl. rewrite Hc in Hl.
    apply elem_of_cons in Hl as [->|([k w] & Hw%elem_of_map_to_list & Hl)%concat_foot_elem]; [by rewrite Hc|].
    assert (is_Some (trs !! k)) as [x Hx] by (apply elem_of_dom; rewrite Hd; by eapply elem_of_dom_2).
    apply (IH h w x); [|exact Hl]. by rewrite (Hr k w Hw).
Qed.

Lemma reads_mono T h h' v t : h ⊆ h' → reads T h v = Some t → reads T h' v = Some t ∧ foot T h' v = foot T h v.
Proof.
  intros Hs Hr. rewrite <-Hr. apply reads_agree. intros l Hl.
  destruct (foot_dom _ _ _ _ Hr l Hl) as [c Hc]. rewrite Hc. by eapply lookup_weaken.
Qed.

(** ** Deep copies *)

(** [v'] in [h'] is a copy of a value of tree [t]: nothing of the old heap has
    changed, the tree is the same, the cells are new and each is referred to
    once. *)
Definition fresh_copy (T : ty) (t : tree) (h h' : heap) (v' : val) : Prop :=
  h ⊆ h' ∧ reads T h' v' = Some t ∧ NoDup (foot T h' v') ∧ ∀ l, l ∈ foot T h' v' → h !! l = None.

Definition copies (T : ty) (f : heap → val → option (heap * val)) : Prop :=
  ∀ h v t, reads T h v = Some t → ∃ h' v', f h v = Some (h', v') ∧ fresh_copy T t h h' v'.

(** A change of cells that existed before the copy does not reach the copy,
    and a change of cells of the copy reaches nothing that could be read
    before. *)
Lemma fresh_copy_independent T t h h' v' : fresh_copy T t h h' v' →
  (∀ h2, (∀ l, h !! l = None → h2 !! l = h' !! l) → reads T h2 v' = Some t) ∧
  (∀ h2 U v u, (∀ l, l ∉ foot T h' v' → h2 !! l = h' !! l) → reads U h v = Some u → reads U h2 v = Some u).
Proof.
  intros (Hs & Hr & _ & Hn). split.
  - intros h2 H2. rewrite <-Hr. apply reads_agree. intros l Hl. by apply H2, Hn.
  - intros h2 U v u H2 Hu. rewrite <-Hu. apply reads_agree. intros l Hl.
    destruct (foot_dom _ _ _ _ Hu l Hl) as [c Hc]. rewrite Hc, H2 by (intros Hl'%Hn; congruence).
    by eapply lookup_weaken.
Qed.

Lemma alloc_fresh c h l h' : alloc c h = (l, h') → h !! l = None ∧ h ⊆ h' ∧ h' !! l = Some c.
Proof.
  intros [= <- <-]. assert (h !! fresh (dom h) = None) as Hn by (apply not_elem_of_dom, is_fresh).
  split_and!; [done|by apply insert_subseteq|apply lookup_insert_eq].
Qed.

(** The cell that holds the copy is new as well. *)
Lemma fresh_copy_cell (h h' : heap) l (ls : list loc) : h ⊆ h' → h' !! l = None →
  NoDup ls → (∀ l', l' ∈ ls → h !! l' = None ∧ is_Some (h' !! l')) →
  NoDup (l :: ls) ∧ (∀ l', l' ∈ l :: ls → h !! l' = None).
Proof.
  intros Hs Hl Hnd Hls. split.
  - apply NoDup_cons. split; [|done]. intros Hin%Hls. destruct Hin as [_ [x Hx]]. congruence.
  - intros l' [->|Hin%Hls]%elem_of_cons; [|by destruct Hin].
    destruct (h !! l) eqn:E; [|done]. rewrite (lookup_weaken _ _ _ _ E Hs) in Hl. done.
Qed.

Lemma mapM_reads_mono T (h h' : heap) ws ts : h ⊆ h' → mapM (reads T h) ws = Some ts →
  mapM (reads T h') ws = Some ts ∧ foot T h' <$> ws = foot T h <$> ws.
Proof.
  intros Hs. revert ts. induction ws as [|w ws IH]; intros ts; simpl; [done|].
  intros (x & Hx & (xs & Hxs & [= <-])%bind_Some)%bind_Some.
  destruct (reads_mono _ _ _ _ _ Hs Hx) as [-> ->]. simpl.
  destruct (IH _ Hxs) as [-> Hf]. split; [done|by f_equal].
Qed.

Lemma mapM_reads_foot T (h : heap) ws ts l : mapM (reads T h) ws = Some ts →
  l ∈ concat (foot T h <$> ws) → is_Some (h !! l).
Proof.
  intros Hx%mapM_Some (w & Hw & Hl)%concat_foot_elem. apply list_elem_of_lookup in Hw as [i Hi].
  destruct (Forall2_lookup_l _ _ _ _ _ Hx Hi) as (x & _ & Hxw). by eapply foot_dom.
Qed.

Lemma set_field_app f w v don todo : f ∉ don.*1 →
  set_field f w (don ++ (f, v) :: todo) = don ++ (f, w) :: todo.
Proof.
  induction don as [|[g u] don IH]; simpl; intros Hf; [by rewrite decide_True|].
  rewrite decide_False by set_solver. f_equal. apply IH. set_solver.
Qed.

(** The cells of two copies made one after the other. *)
Lemma fresh_twice T (h h1 h' : heap) (v : val) x (ls : list loc) :
  fresh_copy T x h h1 v → h1 ⊆ h' → NoDup ls → (∀ l, l ∈ ls → h1 !! l = None) →
  reads T h' v = Some x ∧ NoDup (foot T h' v ++ ls) ∧ ∀ l, l ∈ foot T h' v ++ ls → h !! l = None.
Proof.
  intros (Hs & Hr & Hnd & Hn) Hs' Hnd' Hn'. destruct (reads_mono _ _ _ _ _ Hs' Hr) as [Hr' Hf].
  rewrite Hf. split_and!; [done| |].
  - apply NoDup_app. split_and!; [done| |done]. intros l Hl Hl'%Hn'.
    destruct (foot_dom _ _ _ _ Hr l Hl). congruence.
  - intros l [Hl|Hl%Hn']%elem_of_app; [by apply Hn|]. destruct (h !! l) eqn:E; [|done].
    by rewrite (lookup_weaken _ _ _ _ E Hs) in Hl.
Qed.

Lemma exec_list_ok T f : copies T f → ∀ ws h ts, mapM (reads T h) ws = Some ts →
  ∃ h' ws', exec_list f h ws = Some (h', ws') ∧ h ⊆ h' ∧ mapM (reads T h') ws' = Some ts ∧
    NoDup (concat (foot T h' <$> ws')) ∧ ∀ l, l ∈ concat (foot T h' <$> ws') → h !! l = None.
Proof.
  intros Hf ws. induction ws as [|w ws IH]; intros h ts; simpl.
  - intros [= <-]. exists h, []. split_and!; [done..|constructor|]. by intros l ?%not_elem_of_nil.
  - intros (x & Hx & (xs & Hxs & [= <-])%bind_Some)%bind_Some.
    destruct (Hf _ _ _ Hx) as (h1 & w' & -> & Hc). simpl. assert (h ⊆ h1) as Hs by apply Hc.
    destruct (IH h1 xs) as (h2 & ws' & -> & Hs2 & Hr2 & Hnd2 & Hn2); [by eapply mapM_reads_mono|].
    destruct (fresh_twice _ _ _ _ _ _ _ Hc Hs2 Hnd2 Hn2) as (Hr & Hnd & Hn).
    exists h2, (w' :: ws'). simpl. rewrite Hr, Hr2. split_and!; [done|by trans h1|done..].
Qed.

Lemma window_all ws n : length ws = n → window 0 n ws = ws.
Proof. intros <-. unfold window. rewrite drop_0. by apply take_ge. Qed.

(** The values of a map, read in the order of an iteration. *)
Lemma reads_values `{MapOrder} t (h : heap) (m : gmap string val) (trs : gmap string tree) : dom trs = dom m → (∀ k w, m !! k = Some w → reads t h w = trs !! k) →
  ∃ ts, mapM (reads t h) (range_map m).*2 = Some ts ∧
    ∀ i k, (range_map m).*1 !! i = Some k → ts !! i = trs !! k.
Proof.
  intros Hd Hr.
  assert (∀ k w, (k, w) ∈ range_map m → ∃ x, trs !! k = Some x ∧ reads t h w = Some x) as Hk.
  { intros k w Hk%elem_of_range_map. rewrite (Hr _ _ Hk).
    assert (is_Some (trs !! k)) as [x Hx] by (apply elem_of_dom; rewrite Hd; by eapply elem_of_dom_2).
    by exists x. }
  clear Hr Hd. induction (range_map m) as [|[k w] kvs IH]; simpl; [by exists []|].
  destruct (Hk k w (list_elem_of_here _ _)) as (x & Hx & Hw).
  destruct IH as (ts & Hts & Hi); [intros; by apply Hk, list_elem_of_further|].
  exists (x :: ts). rewrite Hw. split; [cbn; fold (kvs.*2); by rewrite Hts|].
  intros [|i] k'; simpl; [by intros [= <-]|apply Hi].
Qed.

Section covers.
Context {MO : MapOrder}.
Variable lib_ty : string → ty.
Variable lib_copy : string → heap → val → option (heap * val).

(** Statements that copy every reference of a type. *)
Inductive covers : ty → copy → Prop :=
  | covers_flat T : flat T = true → covers T Assign
  | covers_lib L : covers (lib_ty L) (Lib L)
  | covers_into fts ss : NoDup fts.*1 → covers_fields fts ss → covers (TStruct fts) (Into ss)
  | covers_new t c : covers t c → covers (TPtr t) (New c)
  | covers_slice t c : covers t c → covers (TSlice t) (MakeSlice c)
  | covers_map t c : covers t c → covers (TMap t) (MakeMap c)
(** ... the statements follow the order of the fields, and fields without
    references may be left to the assignment of the struct. *)
with covers_fields : list (string * ty) → list (string * copy) → Prop :=
  | covers_nil : covers_fields [] []
  | covers_copy f t c fts ss : covers t c → covers_fields fts ss →
      covers_fields ((f, t) :: fts) ((f, c) :: ss)
  | covers_rest f t fts ss : flat t = true → covers_fields fts ss →
      covers_fields ((f, t) :: fts) ss.
Scheme covers_mut := Induction for covers Sort Prop
  with covers_fields_mut := Induction for covers_fields Sort Prop.

(** Statements for the remaining fields, of which [todo] are the values. *)
Definition copies_fields (fts : list (string * ty)) (ss : list (string * copy)) : Prop :=
  ∀ fs h done todo ts, reads_fields fts h todo = Some ts →
    NoDup (done ++ todo).*1 → (∀ f v, (f, v) ∈ todo → field f fs = Some v) →
    ∃ h' todo',
      exec_fields lib_copy fs ss h (done ++ todo) = Some (h', VStruct (done ++ todo')) ∧
      h ⊆ h' ∧ reads_fields fts h' todo' = Some ts ∧ NoDup (foot_fields fts h' todo') ∧
      ∀ l, l ∈ foot_fields fts h' todo' → h !! l = None.

Lemma copies_flat T : flat T = true → copies T (exec lib_copy Assign).
Proof.
  intros Hf h v t Hr. exists h, v. split; [done|].
  destruct (flat_reads T Hf h h v) as [_ Hp]. unfold fresh_copy. rewrite Hp.
  split_and!; [done..|constructor|]. by intros l ?%not_elem_of_nil.
Qed.

Lemma copies_new t c : copies t (exec lib_copy c) → copies (TPtr t) (exec lib_copy (New c)).
Proof.
  intros Hc h [| |[l|]| |] tr Hr; try done; simpl in Hr |- *.
  - destruct (h !! l) as [[w| |]|]; try done. apply fmap_Some in Hr as (x & Hx & ->).
    destruct (Hc _ _ _ Hx) as (h1 & w' & -> & Hs & Hr1 & Hnd & Hn). simpl.
    destruct (alloc_fresh (CVal w') h1 _ _ eq_refl) as (Hl & Hs2 & Hl2).
    eexists _, _. split; [done|]. destruct (reads_mono _ _ _ _ _ Hs2 Hr1) as [Hr2 Hf2].
    unfold fresh_copy. split_and!; [by trans h1|simpl; by rewrite Hl2, Hr2| |]; simpl; rewrite Hl2, Hf2;
      apply (fresh_copy_cell h h1); try done; intros l0 Hl0; (split; [by apply Hn|by eapply foot_dom]).
  - injection Hr as <-. eexists h, _. split; [done|]. unfold fresh_copy. split_and!; [done..|constructor|].
    by intros l ?%not_elem_of_nil.
Qed.

Lemma copies_slice t c : copies t (exec lib_copy c) → copies (TSlice t) (exec lib_copy (MakeSlice c)).
Proof.
  intros Hc h [| | |[[[l off] n]|]|] tr Hr; try done; simpl in Hr |- *.
  - destruct (h !! l) as [[|ws|]|]; try done. case_decide as Hlen; [|done].
    apply fmap_Some in Hr as (ts & Hts & ->).
    destruct (exec_list_ok t _ Hc _ _ _ Hts) as (h1 & ws' & -> & Hs & Hr1 & Hnd & Hn). simpl.
    destruct (alloc_fresh (CArray ws') h1 _ _ eq_refl) as (Hl & Hs2 & Hl2).
    assert (length ws' = n) as Hn'.
    { apply mapM_Some, Forall2_length in Hts. pose proof Hr1 as Hl1. apply mapM_Some, Forall2_length in Hl1.
      rewrite Hl1, <-Hts. unfold window. rewrite length_take, length_drop. lia. }
    eexists _, _. split; [done|]. destruct (mapM_reads_mono _ _ _ _ _ Hs2 Hr1) as [Hr2 Hf2].
    unfold fresh_copy. split_and!; [by trans h1|simpl; rewrite Hl2, window_all, Hr2 by done; by rewrite decide_True by lia| |];
      simpl; rewrite Hl2, window_all, Hf2 by done;
      apply (fresh_copy_cell h h1); try done; intros l0 Hl0; (split; [by apply Hn|by eapply mapM_reads_foot]).
  - injection Hr as <-. eexists h, _. split; [done|]. unfold fresh_copy. split_and!; [done..|constructor|].
    by intros l ?%not_elem_of_nil.
Qed.

Lemma copies_map t c : copies t (exec lib_copy c) → copies (TMap t) (exec lib_copy (MakeMap c)).
Proof.
  intros Hc h [| | | |[l|]] tr Hr; try done.
  - apply reads_map in Hr as (m & trs & Hlm & -> & Hd & Hr). simpl. rewrite Hlm.
    destruct (reads_values _ _ _ _ Hd Hr) as (ts & Hts & Hti).
    destruct (exec_list_ok t _ Hc _ _ _ Hts) as (h1 & ws' & -> & Hs & Hr1 & Hnd & Hn). simpl.
    set (m2 := list_to_map (zip (range_map m).*1 ws') : gmap string val).
    destruct (alloc_fresh (CMap m2) h1 _ _ eq_refl) as (Hl & Hs2 & Hl2).
    assert (length ws' = length (range_map m).*1) as Hlen.
    { pose proof Hr1 as Hl1. apply mapM_Some, Forall2_length in Hts, Hl1.
      rewrite Hl1, <-Hts. trans (length (range_map m)); [apply length_fmap|symmetry; apply length_fmap]. }
    assert (NoDup (zip (range_map m).*1 ws').*1) as Hnk.
    { rewrite fst_zip by lia. apply range_map_NoDup. }
    eexists _, _. split; [done|]. destruct (mapM_reads_mono _ _ _ _ _ Hs2 Hr1) as [Hr2 Hf2].
    set (h2 := <[_ := _]> h1) in *.
    assert (concat ((λ kw, foot t h2 kw.2) <$> map_to_list m2) ≡ₚ concat (foot t h1 <$> ws')) as Hperm.
    { rewrite <-Hf2. unfold m2. rewrite map_to_list_to_map by done.
      rewrite <-(snd_zip (range_map m).*1 ws') at 2 by lia. by rewrite <-list_fmap_compose. }
    destruct (fresh_copy_cell h h1 (fresh (dom h1)) (concat (foot t h1 <$> ws'))) as [Hnd' Hn']; [done..| |].
    { intros l0 Hl0. split; [by apply Hn|by eapply mapM_reads_foot]. }
    unfold fresh_copy. split_and!; [by trans h1| | |].
    + apply reads_map. exists m2, trs. split_and!; [done..| |].
      * rewrite Hd. unfold m2. rewrite dom_list_to_map_L, fst_zip by lia.
        apply set_eq. intros k. rewrite elem_of_list_to_set, elem_of_dom. rewrite list_elem_of_fmap. split.
        -- intros [w Hw]. exists (k, w). by rewrite elem_of_range_map.
        -- intros ([k' w] & -> & Hw%elem_of_range_map). by exists w.
      * intros k w Hw. apply elem_of_list_to_map in Hw; [|done].
        apply list_elem_of_lookup in Hw as [i Hi]. apply lookup_zip_Some in Hi as [Hik Hiw].
        apply mapM_Some in Hr2. destruct (Forall2_lookup_l _ _ _ _ _ Hr2 Hiw) as (x & Hx & ->).
        by rewrite <-(Hti _ _ Hik).
    + simpl. by rewrite Hl2, Hperm.
    + simpl. rewrite Hl2. intros l0 Hl0. apply Hn'. by rewrite <-Hperm.
  - injection Hr as <-. eexists h, _. split; [done|]. unfold fresh_copy. split_and!; [done..|constructor|].
    by intros l ?%not_elem_of_nil.
Qed.

Lemma copies_fields_nil : copies_fields [] [].
Proof.
  intros fs h don todo ts Hr _ _. destruct todo; [|done]. injection Hr as <-.
  exists h, []. split_and!; [done..|constructor|]. by intros l ?%not_elem_of_nil.
Qed.

(** The next field is done. *)
Lemma copies_fields_step f t fts ss fs (h h1 : heap) don todo w x xs :
  copies_fields fts ss → fresh_copy t x h h1 w → reads_fields fts h todo = Some xs →
  NoDup (don ++ (f, w) :: todo).*1 → (∀ g v, (g, v) ∈ todo → field g fs = Some v) →
  ∃ h' todo',
    exec_fields lib_copy fs ss h1 (don ++ (f, w) :: todo) = Some (h', VStruct (don ++ todo')) ∧
    h ⊆ h' ∧ reads_fields ((f, t) :: fts) h' todo' = Some (x :: xs) ∧
    NoDup (foot_fields ((f, t) :: fts) h' todo') ∧
    ∀ l, l ∈ foot_fields ((f, t) :: fts) h' todo' → h !! l = None.
Proof.
  intros IH Hc Hxs Hnd Hfs. assert (h ⊆ h1) as Hs by apply Hc.
  assert (reads_fields fts h1 todo = Some xs) as Hxs1.
  { pose proof (reads_mono (TStruct fts) h h1 (VStruct todo) (Node xs) Hs) as Hm.
    rewrite !reads_struct in Hm. rewrite Hxs in Hm. destruct (Hm eq_refl) as [Hm' _].
    apply fmap_Some in Hm' as (? & -> & [= <-]). done. }
  replace (don ++ (f, w) :: todo) with ((don ++ [(f, w)]) ++ todo) in * by (by rewrite <-app_assoc).
  destruct (IH fs h1 (don ++ [(f, w)]) todo xs) as (h2 & todo' & -> & Hs2 & Hr2 & Hnd2 & Hn2); [done..|].
  destruct (fresh_twice _ _ _ _ _ _ _ Hc Hs2 Hnd2 Hn2) as (Hr & Hnd' & Hn').
  exists h2, ((f, w) :: todo'). split_and!; [by rewrite <-app_assoc|by trans h1| |done|done].
  apply reads_fields_cons. by exists w, todo', x, xs.
Qed.

Lemma copies_fields_copy f t c fts ss :
  copies t (exec lib_copy c) → copies_fields fts ss → copies_fields ((f, t) :: fts) ((f, c) :: ss).
Proof.
  intros Hc IH fs h don todo ts Hr Hnd Hfs.
  apply reads_fields_cons in Hr as (v & todo0 & x & xs & -> & -> & Hx & Hxs).
  cbn [exec_fields]. rewrite (Hfs f v) by apply list_elem_of_here. simpl.
  destruct (Hc _ _ _ Hx) as (h1 & w & -> & Hcopy). simpl.
  rewrite fmap_app in Hnd. simpl in Hnd. rewrite set_field_app.
  - eapply copies_fields_step; [done..| |].
    + by rewrite fmap_app.
    + intros g u Hg. by apply Hfs, list_elem_of_further.
  - intros Hin. apply NoDup_app in Hnd as (_ & Hnd & _). apply (Hnd f Hin). apply list_elem_of_here.
Qed.

Lemma copies_fields_rest f t fts ss :
  flat t = true → copies_fields fts ss → copies_fields ((f, t) :: fts) ss.
Proof.
  intros Hf IH fs h don todo ts Hr Hnd Hfs.
  apply reads_fields_cons in Hr as (v & todo0 & x & xs & -> & -> & Hx & Hxs).
  destruct (copies_flat t Hf h v x Hx) as (h1 & w & [= <- <-] & Hcopy).
  eapply copies_fields_step; [done..|].
  intros g u Hg. by apply Hfs, list_elem_of_further.
Qed.

Lemma field_NoDup fs f v : NoDup fs.*1 → (f, v) ∈ fs → field f fs = Some v.
Proof.
  induction fs as [|[g u] fs IH]; simpl; [by intros _ ?%not_elem_of_nil|].
  intros [Hg Hnd]%NoDup_cons [[= <- <-]|Hin]%elem_of_cons; [by rewrite decide_True|].
  rewrite decide_False; [by apply IH|]. intros ->. apply Hg, list_elem_of_fmap. by exists (g, v).
Qed.

Lemma reads_fields_names fts h fvs ts : reads_fields fts h fvs = Some ts → fvs.*1 = fts.*1.
Proof.
  revert fvs ts. induction fts as [|[f t] fts IH]; intros fvs ts; [by destruct fvs|].
  intros (v & fvs' & x & xs & -> & -> & Hx & Hxs)%reads_fields_cons. simpl. f_equal. by eapply IH.
Qed.

Lemma copies_into fts ss : NoDup fts.*1 → copies_fields fts ss →
  copies (TStruct fts) (exec lib_copy (Into ss)).
Proof.
  intros Hnd Hf h v t (fvs & ts & -> & -> & Hr)%reads_struct_inv.
  rewrite <-(reads_fields_names _ _ _ _ Hr) in Hnd.
  destruct (Hf fvs h [] fvs ts Hr) as (h' & fvs' & He & Hs & Hr' & Hnd' & Hn');
    [done|intros; by apply field_NoDup|].
  exists h', (VStruct fvs'). split; [by rewrite exec_into|]. unfold fresh_copy.
  rewrite reads_struct, Hr', foot_struct. by split_and!.
Qed.

(** Statements that cover a type make copies of its values. *)
Lemma covers_copies T c : (∀ L, copies (lib_ty L) (lib_copy L)) →
  covers T c → copies T (exec lib_copy c).
Proof.
  intros Hlib. apply (covers_mut (λ T c _, copies T (exec lib_copy c)) (λ fts ss _, copies_fields fts ss)).
  - intros. by apply copies_flat.
  - intros L. apply Hlib.
  - intros. by apply copies_into.
  - intros. by apply copies_new.
  - intros. by apply copies_slice.
  - intros. by apply copies_map.
  - apply copies_fields_nil.
  - intros. by apply copies_fields_copy.
  - intros. by apply copies_fields_rest.
Qed.
End covers.
