(* ===== verification/DeepCopy.v ===== *)
(** * The generated deep copies

    api/v1beta1/zz_generated.deepcopy.go and
    api-hub/v1beta1/zz_generated.deepcopy.go: the types of the custom
    resources with the fields of their declarations, and for each type the
    statements of its DeepCopyInto.  The controllers rely on these copies
    whenever they change an object they share with the client's cache or with
    another kernel (internal/build/helper.go, internal/sign/helper.go,
    internal/statusupdater/statusupdater.go). *)

From S2P Require Import Prelude GoHeap.
From stdpp Require Import fin_maps gmap options.

(** Looks for the rule of [covers] that fits the statement. *)
Ltac cover := repeat first
  [ apply covers_lib | apply covers_new | apply covers_slice | apply covers_map
  | apply covers_nil | apply covers_copy; cycle 1 | apply covers_rest; [reflexivity|]
  | apply covers_flat; reflexivity
  | apply covers_into; [by apply (bool_decide_unpack _); vm_compute|] ].

(** The contract of the DeepCopyInto of the library types. *)
Class LibraryCopies (lib_ty : string → ty) (lib_copy : string → heap → val → option (heap * val)) : Prop :=
  library_copies : ∀ L, copies (lib_ty L) (lib_copy L).

Section generated.
Context {MO : MapOrder}.

(** The types of the Kubernetes libraries and their DeepCopyInto. *)
Variable lib_ty : string → ty.
Variable lib_copy : string → heap → val → option (heap * val).

(** ** The types *)

(** corev1.LocalObjectReference and metav1.TypeMeta, which are assigned. *)
Definition LocalObjectReference_ty : ty := TStruct [("Name", TBase)].
Definition TypeMeta_ty : ty := TStruct [("Kind", TBase); ("APIVersion", TBase)].

(** api/v1beta1/module_types.go *)
Definition BuildArg_ty : ty := TStruct [("Name", TBase); ("Value", TBase)].
Definition TLSOptions_ty : ty := TStruct [("Insecure", TBase); ("InsecureSkipTLSVerify", TBase)].
Definition KanikoParams_ty : ty := TStruct [("Tag", TBase)].
Definition Build_ty : ty := TStruct [("BuildArgs", TSlice BuildArg_ty);
    ("DockerfileConfigMap", TPtr LocalObjectReference_ty);
    ("BaseImageRegistryTLS", TLSOptions_ty); ("Secrets", TSlice LocalObjectReference_ty);
    ("KanikoParams", TPtr KanikoParams_ty)].
Definition Sign_ty : ty := TStruct [("UnsignedImage", TBase);
    ("UnsignedImageRegistryTLS", TLSOptions_ty); ("KeySecret", TPtr LocalObjectReference_ty);
    ("CertSecret", TPtr LocalObjectReference_ty); ("FilesToSign", TSlice TBase)].
Definition KernelMapping_ty : ty := TStruct [("Build", TPtr Build_ty); ("Sign", TPtr Sign_ty);
    ("ContainerImage", TBase); ("Literal", TBase); ("RegistryTLS", TPtr TLSOptions_ty);
    ("Regexp", TBase)].
Definition ModprobeArgs_ty : ty := TStruct [("Load", TSlice TBase); ("Unload", TSlice TBase)].
Definition ModprobeSpec_ty : ty := TStruct [("ModuleName", TBase); ("Parameters", TSlice TBase);
    ("DirName", TBase); ("Args", TPtr ModprobeArgs_ty); ("RawArgs", TPtr ModprobeArgs_ty);
    ("FirmwarePath", TBase)].
Definition ModuleLoaderContainerSpec_ty : ty := TStruct [("Build", TPtr Build_ty);
    ("Sign", TPtr Sign_ty); ("ContainerImage", TBase); ("ImagePullPolicy", TBase);
    ("KernelMappings", TSlice KernelMapping_ty); ("Modprobe", ModprobeSpec_ty);
    ("RegistryTLS", TLSOptions_ty)].
Definition ModuleLoaderSpec_ty : ty := TStruct [("Container", ModuleLoaderContainerSpec_ty);
    ("ServiceAccountName", TBase)].
Definition DevicePluginContainerSpec_ty : ty := TStruct [("Command", TSlice TBase);
    ("Args", TSlice TBase); ("Env", TSlice (lib_ty "EnvVar")); ("Image", TBase);
    ("ImagePullPolicy", TBase); ("Resources", lib_ty "ResourceRequirements");
    ("VolumeMounts", TSlice (lib_ty "VolumeMount"))].
Definition DevicePluginSpec_ty : ty := TStruct [("Container", DevicePluginContainerSpec_ty);
    ("ServiceAccountName", TBase); ("Volumes", TSlice (lib_ty "Volume"))].
Definition ModuleSpec_ty : ty := TStruct [("DevicePlugin", TPtr DevicePluginSpec_ty);
    ("ModuleLoader", ModuleLoaderSpec_ty); ("ImageRepoSecret", TPtr LocalObjectReference_ty);
    ("Selector", TMap TBase)].
Definition DaemonSetStatus_ty : ty := TStruct [("NodesMatchingSelectorNumber", TBase);
    ("DesiredNumber", TBase); ("AvailableNumber", TBase)].
Definition ModuleStatus_ty : ty := TStruct [("DevicePlugin", DaemonSetStatus_ty);
    ("ModuleLoader", DaemonSetStatus_ty)].
Definition Module_ty : ty := TStruct [("TypeMeta", TypeMeta_ty);
    ("ObjectMeta", lib_ty "ObjectMeta"); ("Spec", ModuleSpec_ty); ("Status", ModuleStatus_ty)].
Definition ModuleList_ty : ty := TStruct [("TypeMeta", TypeMeta_ty);
    ("ListMeta", lib_ty "ListMeta"); ("Items", TSlice Module_ty)].

(** api/v1beta1/preflightvalidation_types.go and preflightvalidationocp_types.go *)
Definition CRStatus_ty : ty := TStruct [("VerificationStatus", TBase); ("StatusReason", TBase);
    ("VerificationStage", TBase); ("LastTransitionTime", lib_ty "Time")].
Definition PreflightValidationSpec_ty : ty := TStruct [("KernelVersion", TBase);
    ("PushBuiltImage", TBase)].
Definition PreflightValidationStatus_ty : ty := TStruct [("CRStatuses", TMap (TPtr CRStatus_ty))].
Definition PreflightValidation_ty : ty := TStruct [("TypeMeta", TypeMeta_ty);
    ("ObjectMeta", lib_ty "ObjectMeta"); ("Spec", PreflightValidationSpec_ty);
    ("Status", PreflightValidationStatus_ty)].
Definition PreflightValidationList_ty : ty := TStruct [("TypeMeta", TypeMeta_ty);
    ("ListMeta", lib_ty "ListMeta"); ("Items", TSlice PreflightValidation_ty)].
Definition PreflightValidationOCPSpec_ty : ty := TStruct [("ReleaseImage", TBase);
    ("UseRTKernel", TBase); ("PushBuiltImage", TBase)].
Definition PreflightValidationOCP_ty : ty := TStruct [("TypeMeta", TypeMeta_ty);
    ("ObjectMeta", lib_ty "ObjectMeta"); ("Spec", PreflightValidationOCPSpec_ty);
    ("Status", PreflightValidationStatus_ty)].
Definition PreflightValidationOCPList_ty : ty := TStruct [("TypeMeta", TypeMeta_ty);
    ("ListMeta", lib_ty "ListMeta"); ("Items", TSlice PreflightValidationOCP_ty)].

(** api-hub/v1beta1/managedclustermodule_types.go *)
Definition ManagedClusterModuleSpec_ty : ty := TStruct [("ModuleSpec", ModuleSpec_ty);
    ("SpokeNamespace", TBase); ("Selector", TMap TBase)].
Definition ManagedClusterModuleStatus_ty : ty := TStruct [("NumberDesired", TBase);
    ("NumberApplied", TBase); ("NumberDegraded", TBase)].
Definition ManagedClusterModule_ty : ty := TStruct [("TypeMeta", TypeMeta_ty);
    ("ObjectMeta", lib_ty "ObjectMeta"); ("Spec", ManagedClusterModuleSpec_ty);
    ("Status", ManagedClusterModuleStatus_ty)].
Definition ManagedClusterModuleList_ty : ty := TStruct [("TypeMeta", TypeMeta_ty);
    ("ListMeta", lib_ty "ListMeta"); ("Items", TSlice ManagedClusterModule_ty)].

(** ** DeepCopyInto

    What a function does not mention is copied by its first statement, the
    assignment of the struct. *)

Definition BuildArg_DeepCopyInto : copy := Into [].
Definition TLSOptions_DeepCopyInto : copy := Into [].
Definition KanikoParams_DeepCopyInto : copy := Into [].
Definition Build_DeepCopyInto : copy := Into [("BuildArgs", MakeSlice Assign);
    ("DockerfileConfigMap", New Assign); ("BaseImageRegistryTLS", Assign);
    ("Secrets", MakeSlice Assign); ("KanikoParams", New Assign)].
Definition Sign_DeepCopyInto : copy := Into [("UnsignedImageRegistryTLS", Assign);
    ("KeySecret", New Assign); ("CertSecret", New Assign); ("FilesToSign", MakeSlice Assign)].
Definition KernelMapping_DeepCopyInto : copy := Into [("Build", New Build_DeepCopyInto);
    ("Sign", New Sign_DeepCopyInto); ("RegistryTLS", New Assign)].
Definition ModprobeArgs_DeepCopyInto : copy := Into [("Load", MakeSlice Assign);
    ("Unload", MakeSlice Assign)].
Definition ModprobeSpec_DeepCopyInto : copy := Into [("Parameters", MakeSlice Assign);
    ("Args", New ModprobeArgs_DeepCopyInto); ("RawArgs", New ModprobeArgs_DeepCopyInto)].
Definition ModuleLoaderContainerSpec_DeepCopyInto : copy := Into [
    ("Build", New Build_DeepCopyInto); ("Sign", New Sign_DeepCopyInto);
    ("KernelMappings", MakeSlice KernelMapping_DeepCopyInto);
    ("Modprobe", ModprobeSpec_DeepCopyInto); ("RegistryTLS", Assign)].
Definition ModuleLoaderSpec_DeepCopyInto : copy := Into [
    ("Container", ModuleLoaderContainerSpec_DeepCopyInto)].
Definition DevicePluginContainerSpec_DeepCopyInto : copy := Into [("Command", MakeSlice Assign);
    ("Args", MakeSlice Assign); ("Env", MakeSlice (Lib "EnvVar"));
    ("Resources", Lib "ResourceRequirements"); ("VolumeMounts", MakeSlice (Lib "VolumeMount"))].
Definition DevicePluginSpec_DeepCopyInto : copy := Into [
    ("Container", DevicePluginContainerSpec_DeepCopyInto); ("Volumes", MakeSlice (Lib "Volume"))].
Definition ModuleSpec_DeepCopyInto : copy := Into [
    ("DevicePlugin", New DevicePluginSpec_DeepCopyInto);
    ("ModuleLoader", ModuleLoaderSpec_DeepCopyInto); ("ImageRepoSecret", New Assign);
    ("Selector", MakeMap Assign)].
Definition DaemonSetStatus_DeepCopyInto : copy := Into [].
Definition ModuleStatus_DeepCopyInto : copy := Into [("DevicePlugin", Assign);
    ("ModuleLoader", Assign)].
Definition Module_DeepCopyInto : copy := Into [("TypeMeta", Assign);
    ("ObjectMeta", Lib "ObjectMeta"); ("Spec", ModuleSpec_DeepCopyInto); ("Status", Assign)].
Definition ModuleList_DeepCopyInto : copy := Into [("TypeMeta", Assign);
    ("ListMeta", Lib "ListMeta"); ("Items", MakeSlice Module_DeepCopyInto)].
Definition CRStatus_DeepCopyInto : copy := Into [("LastTransitionTime", Lib "Time")].
Definition PreflightValidationSpec_DeepCopyInto : copy := Into [].
Definition PreflightValidationStatus_DeepCopyInto : copy := Into [
    ("CRStatuses", MakeMap (New CRStatus_DeepCopyInto))].
Definition PreflightValidation_DeepCopyInto : copy := Into [("TypeMeta", Assign);
    ("ObjectMeta", Lib "ObjectMeta"); ("Spec", Assign);
    ("Status", PreflightValidationStatus_DeepCopyInto)].
Definition PreflightValidationList_DeepCopyInto : copy := Into [("TypeMeta", Assign);
    ("ListMeta", Lib "ListMeta"); ("Items", MakeSlice PreflightValidation_DeepCopyInto)].
Definition PreflightValidationOCPSpec_DeepCopyInto : copy := Into [].
Definition PreflightValidationOCP_DeepCopyInto : copy := Into [("TypeMeta", Assign);
    ("ObjectMeta", Lib "ObjectMeta"); ("Spec", Assign);
    ("Status", PreflightValidationStatus_DeepCopyInto)].
Definition PreflightValidationOCPList_DeepCopyInto : copy := Into [("TypeMeta", Assign);
    ("ListMeta", Lib "ListMeta"); ("Items", MakeSlice PreflightValidationOCP_DeepCopyInto)].
Definition ManagedClusterModuleSpec_DeepCopyInto : copy := Into [
    ("ModuleSpec", ModuleSpec_DeepCopyInto); ("Selector", MakeMap Assign)].
Definition ManagedClusterModuleStatus_DeepCopyInto : copy := Into [].
Definition ManagedClusterModule_DeepCopyInto : copy := Into [("TypeMeta", Assign);
    ("ObjectMeta", Lib "ObjectMeta"); ("Spec", ManagedClusterModuleSpec_DeepCopyInto);
    ("Status", Assign)].
Definition ManagedClusterModuleList_DeepCopyInto : copy := Into [("TypeMeta", Assign);
    ("ListMeta", Lib "ListMeta"); ("Items", MakeSlice ManagedClusterModule_DeepCopyInto)].

(** ** DeepCopy *)

(** A function on the heap; [None] is a dereference that the types exclude. *)
Definition deep (A : Type) : Type := heap → option (A * heap).

(** [in == nil] gives nil; otherwise a new cell, filled by DeepCopyInto. *)
Definition DeepCopy (into : copy) (p : option loc) : deep (option loc) := λ h,
  '(h, v) ← exec lib_copy (New into) h (VPtr p);
  match v with VPtr q => Some (q, h) | _ => None end.

Definition BuildArg_DeepCopy : option loc → deep (option loc) := DeepCopy BuildArg_DeepCopyInto.
Definition TLSOptions_DeepCopy : option loc → deep (option loc) := DeepCopy TLSOptions_DeepCopyInto.
Definition KanikoParams_DeepCopy : option loc → deep (option loc) := DeepCopy KanikoParams_DeepCopyInto.
Definition Build_DeepCopy : option loc → deep (option loc) := DeepCopy Build_DeepCopyInto.
Definition Sign_DeepCopy : option loc → deep (option loc) := DeepCopy Sign_DeepCopyInto.
Definition KernelMapping_DeepCopy : option loc → deep (option loc) := DeepCopy KernelMapping_DeepCopyInto.
Definition ModprobeArgs_DeepCopy : option loc → deep (option loc) := DeepCopy ModprobeArgs_DeepCopyInto.
Definition ModprobeSpec_DeepCopy : option loc → deep (option loc) := DeepCopy ModprobeSpec_DeepCopyInto.
Definition ModuleLoaderContainerSpec_DeepCopy : option loc → deep (option loc) := DeepCopy ModuleLoaderContainerSpec_DeepCopyInto.
Definition ModuleLoaderSpec_DeepCopy : option loc → deep (option loc) := DeepCopy ModuleLoaderSpec_DeepCopyInto.
Definition DevicePluginContainerSpec_DeepCopy : option loc → deep (option loc) := DeepCopy DevicePluginContainerSpec_DeepCopyInto.
Definition DevicePluginSpec_DeepCopy : option loc → deep (option loc) := DeepCopy DevicePluginSpec_DeepCopyInto.
Definition ModuleSpec_DeepCopy : option loc → deep (option loc) := DeepCopy ModuleSpec_DeepCopyInto.
Definition DaemonSetStatus_DeepCopy : option loc → deep (option loc) := DeepCopy DaemonSetStatus_DeepCopyInto.
Definition ModuleStatus_DeepCopy : option loc → deep (option loc) := DeepCopy ModuleStatus_DeepCopyInto.
Definition Module_DeepCopy : option loc → deep (option loc) := DeepCopy Module_DeepCopyInto.
Definition ModuleList_DeepCopy : option loc → deep (option loc) := DeepCopy ModuleList_DeepCopyInto.
Definition CRStatus_DeepCopy : option loc → deep (option loc) := DeepCopy CRStatus_DeepCopyInto.
Definition PreflightValidationSpec_DeepCopy : option loc → deep (option loc) := DeepCopy PreflightValidationSpec_DeepCopyInto.
Definition PreflightValidationStatus_DeepCopy : option loc → deep (option loc) := DeepCopy PreflightValidationStatus_DeepCopyInto.
Definition PreflightValidation_DeepCopy : option loc → deep (option loc) := DeepCopy PreflightValidation_DeepCopyInto.
Definition PreflightValidationList_DeepCopy : option loc → deep (option loc) := DeepCopy PreflightValidationList_DeepCopyInto.
Definition PreflightValidationOCPSpec_DeepCopy : option loc → deep (option loc) := DeepCopy PreflightValidationOCPSpec_DeepCopyInto.
Definition PreflightValidationOCP_DeepCopy : option loc → deep (option loc) := DeepCopy PreflightValidationOCP_DeepCopyInto.
Definition PreflightValidationOCPList_DeepCopy : option loc → deep (option loc) := DeepCopy PreflightValidationOCPList_DeepCopyInto.
Definition ManagedClusterModuleSpec_DeepCopy : option loc → deep (option loc) := DeepCopy ManagedClusterModuleSpec_DeepCopyInto.
Definition ManagedClusterModuleStatus_DeepCopy : option loc → deep (option loc) := DeepCopy ManagedClusterModuleStatus_DeepCopyInto.
Definition ManagedClusterModule_DeepCopy : option loc → deep (option loc) := DeepCopy ManagedClusterModule_DeepCopyInto.
Definition ManagedClusterModuleList_DeepCopy : option loc → deep (option loc) := DeepCopy ManagedClusterModuleList_DeepCopyInto.

(** ** DeepCopyObject *)

(** A runtime.Object: the type of the pointer beside it, or nil. *)
Abbreviation Object := (option (string * loc)).

(** [if c := in.DeepCopy(); c != nil { return c }; return nil]: the interface
    is nil when the pointer is. *)
Definition DeepCopyObject (T : string) (copied : option loc → deep (option loc)) (p : option loc)
    : deep Object := λ h,
  '(c, h) ← copied p h;
  match c with Some l => Some (Some (T, l), h) | None => Some (None, h) end.

Definition Module_DeepCopyObject : option loc → deep Object :=
  DeepCopyObject "Module" Module_DeepCopy.
Definition ModuleList_DeepCopyObject : option loc → deep Object :=
  DeepCopyObject "ModuleList" ModuleList_DeepCopy.
Definition PreflightValidation_DeepCopyObject : option loc → deep Object :=
  DeepCopyObject "PreflightValidation" PreflightValidation_DeepCopy.
Definition PreflightValidationList_DeepCopyObject : option loc → deep Object :=
  DeepCopyObject "PreflightValidationList" PreflightValidationList_DeepCopy.
Definition PreflightValidationOCP_DeepCopyObject : option loc → deep Object :=
  DeepCopyObject "PreflightValidationOCP" PreflightValidationOCP_DeepCopy.
Definition PreflightValidationOCPList_DeepCopyObject : option loc → deep Object :=
  DeepCopyObject "PreflightValidationOCPList" PreflightValidationOCPList_DeepCopy.
Definition ManagedClusterModule_DeepCopyObject : option loc → deep Object :=
  DeepCopyObject "ManagedClusterModule" ManagedClusterModule_DeepCopy.
Definition ManagedClusterModuleList_DeepCopyObject : option loc → deep Object :=
  DeepCopyObject "ManagedClusterModuleList" ManagedClusterModuleList_DeepCopy.

(** ** All of them *)

Definition generated : list (ty * copy) := [(BuildArg_ty, BuildArg_DeepCopyInto);
    (TLSOptions_ty, TLSOptions_DeepCopyInto); (KanikoParams_ty, KanikoParams_DeepCopyInto);
    (Build_ty, Build_DeepCopyInto); (Sign_ty, Sign_DeepCopyInto);
    (KernelMapping_ty, KernelMapping_DeepCopyInto); (ModprobeArgs_ty, ModprobeArgs_DeepCopyInto);
    (ModprobeSpec_ty, ModprobeSpec_DeepCopyInto);
    (ModuleLoaderContainerSpec_ty, ModuleLoaderContainerSpec_DeepCopyInto);
    (ModuleLoaderSpec_ty, ModuleLoaderSpec_DeepCopyInto);
    (DevicePluginContainerSpec_ty, DevicePluginContainerSpec_DeepCopyInto);
    (DevicePluginSpec_ty, DevicePluginSpec_DeepCopyInto);
    (ModuleSpec_ty, ModuleSpec_DeepCopyInto); (DaemonSetStatus_ty, DaemonSetStatus_DeepCopyInto);
    (ModuleStatus_ty, ModuleStatus_DeepCopyInto); (Module_ty, Module_DeepCopyInto);
    (ModuleList_ty, ModuleList_DeepCopyInto); (CRStatus_ty, CRStatus_DeepCopyInto);
    (PreflightValidationSpec_ty, PreflightValidationSpec_DeepCopyInto);
    (PreflightValidationStatus_ty, PreflightValidationStatus_DeepCopyInto);
    (PreflightValidation_ty, PreflightValidation_DeepCopyInto);
    (PreflightValidationList_ty, PreflightValidationList_DeepCopyInto);
    (PreflightValidationOCPSpec_ty, PreflightValidationOCPSpec_DeepCopyInto);
    (PreflightValidationOCP_ty, PreflightValidationOCP_DeepCopyInto);
    (PreflightValidationOCPList_ty, PreflightValidationOCPList_DeepCopyInto);
    (ManagedClusterModuleSpec_ty, ManagedClusterModuleSpec_DeepCopyInto);
    (ManagedClusterModuleStatus_ty, ManagedClusterModuleStatus_DeepCopyInto);
    (ManagedClusterModule_ty, ManagedClusterModule_DeepCopyInto);
    (ManagedClusterModuleList_ty, ManagedClusterModuleList_DeepCopyInto)].

Lemma generated_cover T c : (T, c) ∈ generated → covers lib_ty T c.
Proof.
  intros Hin. repeat (apply elem_of_cons in Hin as [[= -> ->]|Hin]; [cover|]).
  by apply not_elem_of_nil in Hin.
Qed.

Context {LC : LibraryCopies lib_ty lib_copy}.

Lemma DeepCopyInto_copies T c : (T, c) ∈ generated → copies T (exec lib_copy c).
Proof using LC.
  intros Hin. apply (covers_copies lib_ty); [exact LC|by apply generated_cover].
Qed.

Lemma DeepCopy_copies T c h p t : (T, c) ∈ generated → reads (TPtr T) h (VPtr p) = Some t →
  ∃ q h', DeepCopy c p h = Some (q, h') ∧ fresh_copy (TPtr T) t h h' (VPtr q) ∧ (q = None ↔ p = None).
Proof using LC.
  intros Hin Hr. pose proof (DeepCopyInto_copies T c Hin) as Hc.
  destruct (copies_new lib_copy T c Hc h (VPtr p) t Hr) as (h' & v & He & Hf).
  unfold DeepCopy. rewrite He. simpl. assert (reads (TPtr T) h' v = Some t) as Hr' by apply Hf.
  destruct v as [| |q| |]; try done. exists q, h'. split_and!; [done..|].
  destruct p, q; simpl in Hr, Hr'; repeat case_match; simplify_option_eq; naive_solver.
Qed.

(** C19: every generated DeepCopy is a deep copy.  Of nil it is nil; of an
    object it is a new object that reads the same, whose cells are all new and
    each referred to once, and nothing that existed has changed.  So whatever
    is written to what existed before, the copy does not change, and whatever
    is written to the cells of the copy, nothing that could be read before
    changes. *)
Theorem DeepCopy_independent T c h p t :
  (T, c) ∈ generated → reads (TPtr T) h (VPtr (Some p)) = Some t →
  DeepCopy c None h = Some (None, h) ∧
  ∃ q h', DeepCopy c (Some p) h = Some (Some q, h') ∧ h ⊆ h' ∧
    reads (TPtr T) h' (VPtr (Some q)) = Some t ∧
    NoDup (foot (TPtr T) h' (VPtr (Some q))) ∧
    (∀ h2, (∀ l, h !! l = None → h2 !! l = h' !! l) → reads (TPtr T) h2 (VPtr (Some q)) = Some t) ∧
    (∀ h2 U v u, (∀ l, l ∉ foot (TPtr T) h' (VPtr (Some q)) → h2 !! l = h' !! l) →
       reads U h v = Some u → reads U h2 v = Some u).
Proof using LC.
  intros Hin Hr. split; [done|].
  destruct (DeepCopy_copies T c h (Some p) t Hin Hr) as ([q|] & h' & He & Hf & Hq); [|naive_solver].
  destruct (fresh_copy_independent _ _ _ _ _ Hf) as [H1 H2]. destruct Hf as (Hs & Hr' & Hnd & _).
  by exists q, h'.
Qed.

(** The interface is nil exactly for the nil pointer. *)
Lemma DeepCopyObject_nil name T c h p t : (T, c) ∈ generated → reads (TPtr T) h (VPtr p) = Some t →
  ∃ o h', DeepCopyObject name (DeepCopy c) p h = Some (o, h') ∧ (o = None ↔ p = None).
Proof using LC.
  intros Hin Hr. destruct (DeepCopy_copies T c h p t Hin Hr) as (q & h' & He & _ & Hq).
  unfold DeepCopyObject. rewrite He. destruct q as [q|]; simpl; eexists _, _; (split; [done|]); naive_solver.
Qed.
End generated.

(** ** Example *)

(** Library types with a map of labels. *)
Definition ex_lib_ty (L : string) : ty := TStruct [("Name", TBase); ("Labels", TMap TBase)].
Definition ex_lib_copy (L : string) : heap → val → option (heap * val) :=
  exec (MO := map_order_std) (λ _ h v, Some (h, v)) (Into [("Labels", MakeMap Assign)]).
#[export] Instance ex_library : LibraryCopies ex_lib_ty ex_lib_copy.
Proof.
  intros L. apply (covers_copies (MO := map_order_std) (λ _, TBase)); [|cover].
  intros _. by apply (copies_flat (MO := map_order_std) (λ _ h v, Some (h, v))).
Qed.

(** A status with one entry, and its labels. *)
Definition ex_status : heap := {[
  1%positive := CVal (VStruct [("CRStatuses", VMap (Some 2%positive))]);
  2%positive := CMap {[ "m" := VPtr (Some 3%positive) ]};
  3%positive := CVal (VStruct [("VerificationStatus", VBase (BString "False"));
    ("StatusReason", VBase (BString "")); ("VerificationStage", VBase (BString "Image"));
    ("LastTransitionTime", VStruct [("Name", VBase (BString "now")); ("Labels", VMap None)])]) ]}.

(** Emptying the map of the original leaves the copy. *)
Lemma DeepCopy_independent_witness : ∃ q h' t,
  PreflightValidationStatus_DeepCopy (MO := map_order_std) ex_lib_copy (Some 1%positive) ex_status = Some (Some q, h') ∧
  reads (TPtr (PreflightValidationStatus_ty ex_lib_ty)) (<[ 2%positive := CMap ∅ ]> h') (VPtr (Some q)) = Some t ∧
  reads (TPtr (PreflightValidationStatus_ty ex_lib_ty)) h' (VPtr (Some 1%positive)) = Some t.
Proof.
  destruct (reads (TPtr (PreflightValidationStatus_ty ex_lib_ty)) ex_status (VPtr (Some 1%positive)))
    as [t|] eqn:Ht; [|by vm_compute in Ht].
  destruct (DeepCopy_independent (MO := map_order_std) ex_lib_ty ex_lib_copy
    (PreflightValidationStatus_ty ex_lib_ty) PreflightValidationStatus_DeepCopyInto ex_status 1%positive t)
    as (_ & q & h' & He & Hs & _ & _ & H1 & H2).
  - unfold generated. repeat first [apply list_elem_of_here|apply list_elem_of_further].
  - exact Ht.
  - exists q, h', t. split_and!; [exact He|apply H1|by apply (H2 h')].
    intros l Hl. destruct (decide (l = 2%positive)) as [->|Hne]; [by vm_compute in Hl|].
    by rewrite lookup_insert_ne.
Defined.
