(* ===== verification/SharedMerge.v ===== *)
(** * Merging build and signing settings in place

    internal/build/helper.go and internal/sign/helper.go on the heap: the
    settings of the Module are copied with DeepCopy, then the copy is changed
    in place with the settings of the kernel mapping.  The Module and its
    mappings are shared by all kernels of a reconciliation (and, through the
    client, by other controllers), so the merge for one kernel must leave them
    as they are.  The theorems of this file say that it does, and that the
    result reads as the merge of the values in Helpers.v. *)

From S2P Require Import Prelude K8s Api Helpers GoHeap DeepCopy.
From stdpp Require Import fin_maps gmap options.

(** ** Statements on the heap *)

Definition deref (p : loc) (h : heap) : option (list (string * val)) :=
  match h !! p with Some (CVal (VStruct fs)) => Some fs | _ => None end.
(** [p.f] and [p.f = w] *)
Definition get (p : loc) (f : string) (h : heap) : option val := deref p h ≫= field f.
Definition set (p : loc) (f : string) (w : val) (h : heap) : option heap :=
  fs ← deref p h; Some (<[ p := CVal (VStruct (set_field f w fs)) ]> h).

(** The elements of a slice, [s[i]], [s[i] = w]. *)
Definition elements_of (s : val) (h : heap) : option (list val) :=
  match s with
  | VSlice None => Some []
  | VSlice (Some (l, off, n)) =>
      match h !! l with
      | Some (CArray ws) => if decide (off + n ≤ length ws) then Some (window off n ws) else None
      | _ => None
      end
  | _ => None
  end.
Definition index (s : val) (i : nat) (h : heap) : option val := elements_of s h ≫= (.!! i).
Definition set_index (s : val) (i : nat) (w : val) (h : heap) : option heap :=
  match s with
  | VSlice (Some (l, off, n)) =>
      match h !! l with
      | Some (CArray ws) =>
          if decide (i < n ∧ off + i < length ws) then Some (<[ l := CArray (<[ off + i := w ]> ws) ]> h) else None
      | _ => None
      end
  | _ => None
  end.
Definition len (s : val) : nat := match s with VSlice (Some (_, _, n)) => n | _ => 0 end.

Section append.
(** The capacity beyond the need of a new array: the growth of append is not
    specified. *)
Variable extra : nat → nat → nat.

(** [append(s, xs...)]: in place when the array has room after the slice,
    into a new array otherwise, whose unused part holds [zero].  The capacity
    of a slice reaches to the end of its array. *)
Definition append (zero s : val) (xs : list val) (h : heap) : option (val * heap) :=
  match s with
  | VSlice None =>
      match xs with
      | [] => Some (s, h)
      | _ :: _ =>
          let '(l, h) := alloc (CArray (xs ++ replicate (extra 0 (length xs)) zero)) h in
          Some (VSlice (Some (l, 0, length xs)), h)
      end
  | VSlice (Some (l, off, n)) =>
      match h !! l, xs with
      | Some (CArray _), [] => Some (s, h)
      | Some (CArray ws), _ :: _ =>
          if decide (off + n + length xs ≤ length ws)
          then Some (VSlice (Some (l, off, n + length xs)),
                     <[ l := CArray (take (off + n) ws ++ xs ++ drop (off + n + length xs) ws) ]> h)
          else
            let '(l, h) := alloc (CArray (window off n ws ++ xs
                             ++ replicate (extra (length ws) (n + length xs)) zero)) h in
            Some (VSlice (Some (l, 0, n + length xs)), h)
      | _, _ => None
      end
  | _ => None
  end.

(** ** internal/build/helper.go *)

(** A BuildArg is copied by value. *)
Definition arg_val (a : BuildArg) : val :=
  VStruct [("Name", VBase (BString (ba_Name a))); ("Value", VBase (BString (ba_Value a)))].
Definition arg_of (w : val) : option BuildArg :=
  match w with
  | VStruct [(n, VBase (BString name)); (v, VBase (BString value))] =>
      if decide (n = "Name" ∧ v = "Value") then Some (mk_buildarg name value) else None
  | _ => None
  end.

(** [for i := 0; i < len(args); i++], [k] of its steps being left. *)
Fixpoint override_in_place (m : gmap string BuildArg) (args : val) (k : nat) (unused : gset string) (h : heap)
    : option (gset string * heap) :=
  match k with
  | O => Some (unused, h)
  | S k =>
      let i := len args - S k in
      w ← index args i h; a ← arg_of w;
      match m !! ba_Name a with
      | Some o =>
          h ← set_index args i (arg_val o) h;
          override_in_place m args k (unused ∖ {[ ba_Name a ]}) h
      | None => override_in_place m args k unused h
      end
  end.

Fixpoint append_each (args : val) (os : list BuildArg) (h : heap) : option (val * heap) :=
  match os with
  | [] => Some (args, h)
  | o :: os => '(args, h) ← append (arg_val (mk_buildarg "" "")) args [arg_val o] h; append_each args os h
  end.

Definition ApplyBuildArgOverrides_heap (args overrides : val) (h : heap) : option (val * heap) :=
  ws ← elements_of overrides h; os ← mapM arg_of ws;
  let m := overridesMap os in
  '(unused, h) ← override_in_place m args (len args) (dom m) h;
  append_each args (omap (λ n, m !! n) (sort_strings (elements unused))) h.

(** corev1.LocalObjectReference *)
Definition lor_val (r : LocalObjectReference) : val := VStruct [("Name", VBase (BString (lor_Name r)))].

Context {MO : MapOrder}.
Variable lib_copy : string → heap → val → option (heap * val).

Definition GetRelevantBuild_heap (moduleBuild mappingBuild : option loc) : deep (option loc) := λ h,
  match moduleBuild, mappingBuild with
  | None, _ => Build_DeepCopy lib_copy mappingBuild h
  | Some _, None => Build_DeepCopy lib_copy moduleBuild h
  | Some _, Some mapping =>
      '(copied, h) ← Build_DeepCopy lib_copy moduleBuild h; buildConfig ← copied;
      cm ← get mapping "DockerfileConfigMap" h;
      h ← match cm with VPtr None => Some h | _ => set buildConfig "DockerfileConfigMap" cm h end;
      args ← get buildConfig "BuildArgs" h; overrides ← get mapping "BuildArgs" h;
      '(args, h) ← ApplyBuildArgOverrides_heap args overrides h;
      h ← set buildConfig "BuildArgs" args h;
      secrets ← get buildConfig "Secrets" h; more ← get mapping "Secrets" h ≫= λ s, elements_of s h;
      '(secrets, h) ← append (lor_val (LocalRef "")) secrets more h;
      h ← set buildConfig "Secrets" secrets h;
      Some (Some buildConfig, h)
  end.

(** ** internal/sign/helper.go *)

(** The merge of GetRelevantSign, before the template substitution.  [if
    mapping.f != zero { signConfig.f = mapping.f }] for three fields. *)
Definition is_zero (v : val) : bool :=
  match v with VBase (BString x) => bool_decide (x = "") | VPtr None => true | _ => false end.
Definition override_field (mapping signConfig : loc) (f : string) (h : heap) : option heap :=
  v ← get mapping f h; if is_zero v then Some h else set signConfig f v h.

Definition mergeSign_heap (moduleSign mappingSign : option loc) : deep (option loc) := λ h,
  match moduleSign, mappingSign with
  | None, _ => Sign_DeepCopy lib_copy mappingSign h
  | Some _, None => Sign_DeepCopy lib_copy moduleSign h
  | Some _, Some mapping =>
      '(copied, h) ← Sign_DeepCopy lib_copy moduleSign h; signConfig ← copied;
      h ← (h ← override_field mapping signConfig "UnsignedImage" h;
           h ← override_field mapping signConfig "KeySecret" h;
           override_field mapping signConfig "CertSecret" h);
      files ← get signConfig "FilesToSign" h; more ← get mapping "FilesToSign" h ≫= λ s, elements_of s h;
      '(files, h) ← append (VBase (BString "")) files more h;
      h ← set signConfig "FilesToSign" files h;
      Some (Some signConfig, h)
  end.
End append.

(** ** What a program on the heap keeps *)

(** Cells outside [P] stay as they are. *)
Definition kept (P : list loc) (h h' : heap) : Prop :=
  ∀ l c, h !! l = Some c → l ∉ P → h' !! l = Some c.

Definition slice_locs (s : val) : list loc :=
  match s with VSlice (Some (l, _, _)) => [l] | _ => [] end.
Definition ptr_locs (v : val) : list loc := match v with VPtr (Some l) => [l] | _ => [] end.

Lemma kept_refl P h : kept P h h.
Proof. by intros l c. Qed.

Lemma kept_mono P Q h h' : kept P h h' → (∀ l, l ∈ P → l ∈ Q) → kept Q h h'.
Proof. intros Hk HPQ l c Hl Hn. apply Hk; [done|]. intros Hin. by apply Hn, HPQ. Qed.

Lemma kept_trans P Q h h1 h2 : kept P h h1 → kept Q h1 h2 →
  (∀ l, l ∈ Q → l ∈ P ∨ h !! l = None) → kept P h h2.
Proof.
  intros H1 H2 HQ l c Hl Hn. apply H2; [by apply H1|]. intros [?|?]%HQ; congruence.
Qed.

Lemma kept_insert l c h : kept [l] h (<[ l := c ]> h).
Proof. intros k d Hk Hn. rewrite lookup_insert_ne; [done|set_solver]. Qed.

Lemma kept_fresh P h0 h h' : h0 ⊆ h → kept P h h' → (∀ l, l ∈ P → h0 !! l = None) → h0 ⊆ h'.
Proof.
  intros Hs Hk HP. apply map_subseteq_spec. intros l c Hl. apply Hk; [by eapply lookup_weaken|].
  intros Hin%HP. congruence.
Qed.

Lemma elements_of_locs s h ws l : elements_of s h = Some ws → l ∈ slice_locs s → is_Some (h !! l).
Proof.
  destruct s as [| | |[[[k off] n]|]|]; simpl; try done; try set_solver.
  intros He ->%list_elem_of_singleton. destruct (h !! k); [by eexists|done].
Qed.

Lemma elements_of_kept s P h h' ws : elements_of s h = Some ws → kept P h h' →
  (∀ l, l ∈ slice_locs s → l ∉ P) → elements_of s h' = Some ws.
Proof.
  destruct s as [| | |[[[k off] n]|]|]; simpl; try done. intros He Hk Hd.
  destruct (h !! k) as [c|] eqn:Hc; [|done]. by rewrite (Hk _ _ Hc) by (apply Hd; set_solver).
Qed.

Lemma window_insert off n i w ws : i < n →
  window off n (<[ off + i := w ]> ws) = <[ i := w ]> (window off n ws).
Proof.
  intros Hi. unfold window. rewrite drop_insert_ge by lia. rewrite take_insert_lt by lia. do 2 f_equal; lia.
Qed.

(** A slice with elements is not nil. *)
Lemma elements_of_inv s h ws : elements_of s h = Some ws →
  (s = VSlice None ∧ ws = []) ∨
  ∃ l off n vs, s = VSlice (Some (l, off, n)) ∧ h !! l = Some (CArray vs) ∧ off + n ≤ length vs ∧
    ws = window off n vs ∧ length ws = n.
Proof.
  destruct s as [| | |[[[l off] n]|]|]; simpl; try done; [|intros [= <-]; by left].
  destruct (h !! l) as [[|vs|]|] eqn:Hl; try done. case_decide; [|done]. intros [= <-]. right.
  exists l, off, n, vs. split_and!; try done. unfold window. rewrite length_take, length_drop. lia.
Qed.

Lemma len_elements s h ws : elements_of s h = Some ws → len s = length ws.
Proof. by intros [[-> ->]|(l & off & n & vs & -> & _ & _ & _ & Hn)]%elements_of_inv. Qed.

Lemma set_index_ok s i w h ws : elements_of s h = Some ws → i < length ws →
  ∃ h', set_index s i w h = Some h' ∧ elements_of s h' = Some (<[ i := w ]> ws) ∧ kept (slice_locs s) h h'.
Proof.
  intros [[-> ->]|(l & off & n & vs & -> & Hl & Hb & -> & Hn)]%elements_of_inv Hi; [simpl in Hi; lia|].
  rewrite Hn in Hi. simpl. rewrite Hl, decide_True by lia. eexists. split; [done|].
  rewrite lookup_insert_eq, length_insert, decide_True by lia. rewrite window_insert by done.
  split; [done|apply kept_insert].
Qed.

Section append_facts.
Variable extra : nat → nat → nat.

Lemma window_app off n (vs xs rest : list val) : length vs = off + n →
  window off (n + length xs) (vs ++ xs ++ rest) = window off n vs ++ xs.
Proof.
  intros Hl. unfold window. rewrite drop_app_le by lia. rewrite take_app_ge by (rewrite length_drop; lia).
  rewrite (take_ge (drop off vs)) by (rewrite length_drop; lia). f_equal.
  apply take_app_length'. rewrite length_drop. lia.
Qed.

Lemma append_ok zero s xs h ws : elements_of s h = Some ws →
  ∃ s' h', append extra zero s xs h = Some (s', h') ∧ elements_of s' h' = Some (ws ++ xs) ∧
    kept (slice_locs s) h h' ∧ (∀ l, l ∈ slice_locs s' → l ∈ slice_locs s ∨ h !! l = None).
Proof.
  intros He. pose proof He as [[-> ->]|(l & off & n & vs & -> & Hl & Hb & -> & Hn)]%elements_of_inv.
  - destruct xs as [|x xs]; [exists (VSlice None), h; split_and!; [done..|apply kept_refl|set_solver]|].
    destruct (alloc_fresh (CArray ((x :: xs) ++ replicate (extra 0 (length (x :: xs))) zero)) h _ _ eq_refl)
      as (Hl & Hs & Hl2).
    eexists _, _. split; [reflexivity|]. cbn [elements_of]. rewrite Hl2, decide_True by (rewrite length_app; lia).
    split_and!.
    + f_equal. apply take_app_length.
    + intros k c Hk _. by eapply lookup_weaken.
    + intros k ->%list_elem_of_singleton. by right.
  - unfold append. rewrite Hl. destruct xs as [|x xs].
    { rewrite app_nil_r. eexists _, _. split_and!; [done..|apply kept_refl|by left]. }
    case_decide as Hcap.
    + eexists _, _. split; [done|]. cbn [elements_of slice_locs]. rewrite lookup_insert_eq, decide_True.
      * split_and!; [|apply kept_insert|by left].
        f_equal. rewrite window_app by (rewrite length_take; lia). f_equal.
        unfold window. rewrite skipn_firstn_comm. rewrite take_take. f_equal. lia.
      * rewrite !length_app, length_take, length_drop. lia.
    + set (ys := window off n vs ++ (x :: xs) ++ _).
      destruct (alloc_fresh (CArray ys) h _ _ eq_refl) as (Hf & Hs & Hl2).
      eexists _, _. split; [reflexivity|]. cbn [elements_of]. rewrite Hl2.
      rewrite decide_True by (unfold ys; rewrite !length_app, Hn; lia). split_and!.
      * f_equal. unfold ys. rewrite (window_app 0 n) by done. f_equal. by apply window_all.
      * intros k c Hk _. by eapply lookup_weaken.
      * intros k ->%list_elem_of_singleton. by right.
Qed.

Lemma arg_of_val a : arg_of (arg_val a) = Some a.
Proof. by destruct a. Qed.

Lemma mapM_arg_of os : mapM arg_of (arg_val <$> os) = Some os.
Proof. apply mapM_Some. induction os as [|o os IH]; constructor; [apply arg_of_val|done]. Qed.

Lemma override_in_place_ok m s todo : ∀ don unused h,
  elements_of s h = Some (arg_val <$> (don ++ todo)) →
  ∃ h', override_in_place m s (length todo) unused h = Some ((override_loop m todo unused).2, h') ∧
    elements_of s h' = Some (arg_val <$> (don ++ (override_loop m todo unused).1)) ∧
    kept (slice_locs s) h h'.
Proof.
  induction todo as [|a todo IH]; intros don unused h He.
  { exists h. split_and!; [done..|apply kept_refl]. }
  assert (len s - S (length todo) = length don) as Hi.
  { rewrite (len_elements _ _ _ He), length_fmap, length_app. simpl. lia. }
  cbn [length override_in_place]. rewrite Hi. unfold index. rewrite He. cbn [mbind option_bind].
  rewrite list_lookup_fmap, list_lookup_middle by done. cbn [fmap option_fmap option_map mbind option_bind].
  rewrite arg_of_val. cbn [mbind option_bind override_loop].
  destruct (m !! ba_Name a) as [o|] eqn:Ho; cbn [fst snd].
  - destruct (set_index_ok s (length don) (arg_val o) h _ He) as (h1 & -> & He1 & Hk1).
    { rewrite length_fmap, length_app. simpl. lia. }
    cbn [mbind option_bind]. rewrite <-list_fmap_insert, insert_app_r_alt, Nat.sub_diag in He1 by done.
    cbn in He1. rewrite (cons_middle o don todo) in He1.
    destruct (IH (don ++ [o]) (unused ∖ {[ba_Name a]}) h1) as (h2 & -> & He2 & Hk2);
      [by rewrite <-app_assoc|].
    exists h2. split_and!; [done|by rewrite <-app_assoc in He2|]. eapply kept_trans; [done..|by left].
  - rewrite (cons_middle a don todo) in He.
    destruct (IH (don ++ [a]) unused h) as (h2 & -> & He2 & Hk2); [by rewrite <-app_assoc|].
    exists h2. split_and!; [done|by rewrite <-app_assoc in He2|done].
Qed.

Lemma append_each_ok os : ∀ s h ws, elements_of s h = Some ws →
  ∃ s' h', append_each extra s os h = Some (s', h') ∧ elements_of s' h' = Some (ws ++ (arg_val <$> os)) ∧
    kept (slice_locs s) h h' ∧ (∀ l, l ∈ slice_locs s' → l ∈ slice_locs s ∨ h !! l = None).
Proof.
  induction os as [|o os IH]; intros s h ws He; simpl.
  { exists s, h. rewrite app_nil_r. split_and!; [done..|apply kept_refl|by left]. }
  destruct (append_ok (arg_val (mk_buildarg "" "")) s [arg_val o] h ws He)
    as (s1 & h1 & -> & He1 & Hk1 & Hl1). simpl.
  destruct (IH s1 h1 _ He1) as (s2 & h2 & -> & He2 & Hk2 & Hl2).
  exists s2, h2. split_and!; [done|by rewrite <-app_assoc in He2|by eapply kept_trans|].
  intros l [Hl|Hl]%Hl2; [by apply Hl1|]. destruct (decide (l ∈ slice_locs s)); [by left|].
  destruct (h !! l) as [c|] eqn:Hc; [|by right]. by rewrite (Hk1 l c) in Hl.
Qed.

(** The heap version refines the function on values. *)
Lemma ApplyBuildArgOverrides_heap_ok s o h xs os :
  elements_of s h = Some (arg_val <$> xs) → elements_of o h = Some (arg_val <$> os) →
  ∃ s' h', ApplyBuildArgOverrides_heap extra s o h = Some (s', h') ∧
    elements_of s' h' = Some (arg_val <$> ApplyBuildArgOverrides xs os) ∧
    kept (slice_locs s) h h' ∧ (∀ l, l ∈ slice_locs s' → l ∈ slice_locs s ∨ h !! l = None).
Proof.
  intros Hs Ho. unfold ApplyBuildArgOverrides_heap. rewrite Ho. cbn [mbind option_bind].
  rewrite mapM_arg_of. cbn [mbind option_bind].
  rewrite (len_elements _ _ _ Hs), length_fmap.
  destruct (override_in_place_ok (overridesMap os) s xs [] (dom (overridesMap os)) h Hs)
    as (h1 & -> & He1 & Hk1). cbn [mbind option_bind].
  destruct (append_each_ok (omap (λ n, overridesMap os !! n)
    (sort_strings (elements (override_loop (overridesMap os) xs (dom (overridesMap os))).2))) s h1 _ He1)
    as (s2 & h2 & -> & He2 & Hk2 & Hl2).
  exists s2, h2. split_and!; [done|by rewrite He2, <-fmap_app|eapply kept_trans; [done..|by left]|].
  intros l [Hl|Hl]%Hl2; [by left|]. destruct (decide (l ∈ slice_locs s)); [by left|].
  destruct (h !! l) as [c|] eqn:Hc; [|by right]. by rewrite (Hk1 l c) in Hl.
Qed.
End append_facts.

(** ** Settings as values *)

Definition arg_tree (t : tree) : option BuildArg :=
  match t with Node [Leaf (BString n); Leaf (BString v)] => Some (mk_buildarg n v) | _ => None end.
Definition lor_tree (t : tree) : option LocalObjectReference :=
  match t with Node [Leaf (BString n)] => Some (LocalRef n) | _ => None end.
Definition tls_tree (t : tree) : option TLSOptions :=
  match t with Node [Leaf (BBool a); Leaf (BBool b)] => Some (mk_tls a b) | _ => None end.
Definition kaniko_tree (t : tree) : option string :=
  match t with Node [Leaf (BString tag)] => Some tag | _ => None end.
Definition string_tree (t : tree) : option string :=
  match t with Leaf (BString x) => Some x | _ => None end.
(** A nil slice has no elements. *)
Definition seq_tree {A} (d : tree → option A) (t : tree) : option (list A) :=
  match t with Seq None => Some [] | Seq (Some ts) => mapM d ts | _ => None end.
Definition ref_tree {A} (d : tree → option A) (t : tree) : option (option A) :=
  match t with Ref None => Some None | Ref (Some t) => Some <$> d t | _ => None end.

Definition build_tree (t : tree) : option Build :=
  match t with
  | Node [args; cm; tls; secrets; kaniko] =>
      args ← seq_tree arg_tree args; cm ← ref_tree lor_tree cm; tls ← tls_tree tls;
      secrets ← seq_tree lor_tree secrets; kaniko ← ref_tree kaniko_tree kaniko;
      Some (mk_build args cm tls secrets kaniko)
  | _ => None
  end.
Definition sign_tree (t : tree) : option Sign :=
  match t with
  | Node [image; tls; key; cert; files] =>
      image ← string_tree image; tls ← tls_tree tls; key ← ref_tree lor_tree key;
      cert ← ref_tree lor_tree cert; files ← seq_tree string_tree files;
      Some (mk_sign image tls key cert files)
  | _ => None
  end.

(** The settings a pointer refers to. *)
Definition read_build (p : option loc) (h : heap) : option (option Build) :=
  reads (TPtr Build_ty) h (VPtr p) ≫= ref_tree build_tree.
Definition read_sign (p : option loc) (h : heap) : option (option Sign) :=
  reads (TPtr Sign_ty) h (VPtr p) ≫= ref_tree sign_tree.

(** *** Values without references *)

Definition tls_val (t : TLSOptions) : val :=
  VStruct [("Insecure", VBase (BBool (Insecure t)));
           ("InsecureSkipTLSVerify", VBase (BBool (InsecureSkipTLSVerify t)))].
Definition kaniko_val (tag : string) : val := VStruct [("Tag", VBase (BString tag))].
Definition string_val (x : string) : val := VBase (BString x).

(** [enc] writes what [dec] reads at type [T]. *)
Definition coded {A} (T : ty) (enc : A → val) (dec : tree → option A) : Prop :=
  flat T = true ∧ ∀ h v a, reads T h v ≫= dec = Some a ↔ v = enc a.

Lemma coded_string : coded TBase string_val string_tree.
Proof.
  split; [done|]. intros h v a. split; [|by intros ->].
  destruct v as [[x| |]| | | |]; simpl; try discriminate. by intros [= ->].
Qed.

Ltac coded_struct := split; [reflexivity|]; intros h v a; split;
  [ intros (t & (fvs & ts & -> & -> & Hr)%reads_struct_inv & Hd)%bind_Some;
    repeat (apply reads_fields_cons in Hr as (?v & ? & ? & ? & -> & -> & ?Hx & Hr));
    match goal with H : reads_fields [] _ ?l = _ |- _ => destruct l; [injection H as <-|discriminate H] end;
    repeat match goal with H : reads TBase _ ?v = Some _ |- _ =>
      destruct v; try discriminate H; injection H as <- end;
    simpl in Hd; repeat case_match; simplify_eq; reflexivity
  | intros ->; destruct a; reflexivity ].

Lemma coded_arg : coded BuildArg_ty arg_val arg_tree.
Proof. coded_struct. Qed.
Lemma coded_lor : coded LocalObjectReference_ty lor_val lor_tree.
Proof. coded_struct. Qed.
Lemma coded_tls : coded TLSOptions_ty tls_val tls_tree.
Proof. coded_struct. Qed.
Lemma coded_kaniko : coded KanikoParams_ty kaniko_val kaniko_tree.
Proof. coded_struct. Qed.

(** *** Slices and pointers of such values *)

Definition refers (v : val) (o : option val) (h : heap) : Prop :=
  match o with
  | None => v = VPtr None
  | Some w => ∃ l, v = VPtr (Some l) ∧ h !! l = Some (CVal w)
  end.

Section coded.
Context {A : Type} (T : ty) (enc : A → val) (dec : tree → option A) (Hc : coded T enc dec).

Lemma coded_mapM h ws xs : mapM (reads T h) ws ≫= mapM dec = Some xs ↔ ws = enc <$> xs.
Proof using Hc.
  destruct Hc as [_ Hd]. revert xs. induction ws as [|w ws IH]; intros xs; simpl.
  { split; [by intros [= <-]|by destruct xs]. }
  split.
  - intros (t & (x & Hx & (ys & Hys & [= <-])%bind_Some)%bind_Some
            & (a & Ha & (zs & Hzs & [= <-])%bind_Some)%bind_Some)%bind_Some.
    simpl. f_equal; [apply (Hd h); by rewrite Hx|]. apply IH. by rewrite Hys.
  - destruct xs as [|a xs]; [done|]. intros [= Hw Hws]. apply (Hd h) in Hw. apply IH in Hws.
    apply bind_Some in Hw as (x & -> & Ha), Hws as (ys & -> & Hys). simpl. by rewrite Ha, Hys.
Qed.

Lemma read_slice h v xs :
  reads (TSlice T) h v ≫= seq_tree dec = Some xs ↔ elements_of v h = Some (enc <$> xs).
Proof using Hc.
  destruct v as [| | |[[[l off] n]|]|]; simpl; try done.
  - destruct (h !! l) as [[|ws|]|]; try done. case_decide; [|done].
    trans (mapM (reads T h) (window off n ws) ≫= mapM dec = Some xs); [by destruct (mapM _ _)|].
    rewrite coded_mapM. split; [by intros ->|by intros [= ->]].
  - split; [by intros [= <-]|]. by destruct xs.
Qed.

Lemma read_ref h v o : reads (TPtr T) h v ≫= ref_tree dec = Some o ↔ refers v (enc <$> o) h.
Proof using Hc.
  destruct Hc as [_ Hd]. destruct v as [| |[l|]| |].
  1,2,5,6: destruct o; simpl; (split; [done|]); [by intros (l & [=] & _)|done].
  - simpl. destruct o as [a|]; simpl.
    + split.
      * destruct (h !! l) as [[w| |]|] eqn:Hl; try done. intros (t & (x & Hx & ->)%fmap_Some & Ht)%bind_Some.
        simpl in Ht. apply fmap_Some in Ht as (a' & Ha & [= <-]). exists l. split; [done|].
        rewrite Hl. do 2 f_equal. apply (Hd h). by rewrite Hx.
      * intros (l' & [= <-] & ->). specialize (Hd h (enc a) a) as [_ Hd].
        specialize (Hd eq_refl). destruct (reads T h (enc a)) as [x|]; simpl in *; [by rewrite Hd|done].
    + split; [|done]. destruct (h !! l) as [[w| |]|]; try done. destruct (reads T h w) as [x|]; simpl; [|done].
      by destruct (dec x).
  - destruct o; simpl; [split; [done|by intros (l & [=] & _)]|done].
Qed.

Lemma foot_slice_flat h v ws : elements_of v h = Some ws → foot (TSlice T) h v = slice_locs v.
Proof using Hc.
  destruct Hc as [Hf _]. destruct v as [| | |[[[l off] n]|]|]; simpl; try done.
  destruct (h !! l) as [[|vs|]|]; try done. intros _. f_equal.
  induction (window off n vs) as [|w l' IH]; [done|]. simpl.
  rewrite (proj2 (flat_reads T Hf h h w)). exact IH.
Qed.

Lemma foot_ptr_flat h v : foot (TPtr T) h v = ptr_locs v.
Proof using Hc.
  destruct Hc as [Hf _]. destruct v as [| |[l|]| |]; simpl; try done.
  f_equal. destruct (h !! l) as [[w| |]|]; try done. by rewrite (proj2 (flat_reads T Hf h h w)).
Qed.
End coded.

Lemma refers_kept v o P h h' : refers v o h → kept P h h' → (∀ l, l ∈ ptr_locs v → l ∉ P) → refers v o h'.
Proof.
  destruct o as [w|]; simpl; [|done]. intros (l & -> & Hl) Hk Hd. exists l. split; [done|].
  apply Hk; [done|]. apply Hd. simpl. set_solver.
Qed.

Lemma refers_locs v o h l : refers v o h → l ∈ ptr_locs v → is_Some (h !! l).
Proof. destruct o; simpl; [intros (k & -> & Hk)|intros ->]; set_solver. Qed.

(** ** The cells of a Build *)

Definition build_val (va vc : val) (tls : TLSOptions) (vs vk : val) : val :=
  VStruct [("BuildArgs", va); ("DockerfileConfigMap", vc); ("BaseImageRegistryTLS", tls_val tls);
           ("Secrets", vs); ("KanikoParams", vk)].

Definition build_cells (h : heap) (va vc vs vk : val) (b : Build) : Prop :=
  elements_of va h = Some (arg_val <$> BuildArgs b) ∧
  refers vc (lor_val <$> DockerfileConfigMap b) h ∧
  elements_of vs h = Some (lor_val <$> Secrets b) ∧
  refers vk (kaniko_val <$> KanikoTag b) h.

Lemma read_build_nil h : read_build None h = Some None.
Proof. done. Qed.

Lemma read_build_Some p h b :
  read_build (Some p) h = Some (Some b) ↔
  ∃ va vc vs vk, h !! p = Some (CVal (build_val va vc (BaseImageRegistryTLS b) vs vk)) ∧
    build_cells h va vc vs vk b.
Proof.
  unfold read_build, build_cells. split.
  - intros (t & (w & x & Hp & Hx & ->)%reads_ptr & Ht)%bind_Some.
    simpl in Ht. apply fmap_Some in Ht as (b' & Hb & [= <-]).
    apply (reads_struct_inv _ h w x) in Hx as (fvs & ts & -> & -> & Hr).
    repeat (apply reads_fields_cons in Hr as (?v & ? & ? & ? & -> & -> & ?Hx & Hr)).
    match goal with H : reads_fields [] _ ?l = _ |- _ => destruct l; [injection H as <-|discriminate H] end.
    simpl in Hb.
    apply bind_Some in Hb as (args & Ha & (cm & Hcm & (tls & Htls & (ss & Hss & (k & Hk & [= <-])%bind_Some)%bind_Some)%bind_Some)%bind_Some).
    exists v, v0, v2, v3. simpl. split_and!.
    + rewrite Hp. unfold build_val. assert (v1 = tls_val tls) as -> by (apply (proj2 coded_tls h); by rewrite Hx1). done.
    + apply (read_slice _ _ _ coded_arg). by rewrite Hx.
    + apply (read_ref _ _ _ coded_lor). by rewrite Hx0.
    + apply (read_slice _ _ _ coded_lor). by rewrite Hx2.
    + apply (read_ref _ _ _ coded_kaniko). by rewrite Hx3.
  - intros (va & vc & vs & vk & Hp & Ha & Hc & Hs & Hk).
    apply (read_slice _ _ _ coded_arg), bind_Some in Ha as (ta & Ha & Hta).
    apply (read_ref _ _ _ coded_lor), bind_Some in Hc as (tc & Hc & Htc).
    apply (read_slice _ _ _ coded_lor), bind_Some in Hs as (ts & Hs & Hts).
    apply (read_ref _ _ _ coded_kaniko), bind_Some in Hk as (tk & Hk & Htk).
    assert (reads Build_ty h (build_val va vc (BaseImageRegistryTLS b) vs vk) =
      Some (Node [ta; tc; Node [Leaf (BBool (Insecure (BaseImageRegistryTLS b)));
        Leaf (BBool (InsecureSkipTLSVerify (BaseImageRegistryTLS b)))]; ts; tk])) as Hb.
    { unfold Build_ty, build_val. rewrite reads_struct. cbn [reads_fields].
      rewrite Ha, Hc, Hs, Hk. reflexivity. }
    assert (reads (TPtr Build_ty) h (VPtr (Some p)) = Some (Ref (Some _))) as ->
      by (apply reads_ptr; eexists _, _; split_and!; [exact Hp|exact Hb|reflexivity]).
    cbn [mbind option_bind ref_tree build_tree]. rewrite Hta, Htc, Hts, Htk.
    simpl. by destruct b as [? ? [? ?] ? ?].
Qed.

Lemma build_foot h p va vc vs vk b :
  h !! p = Some (CVal (build_val va vc (BaseImageRegistryTLS b) vs vk)) → build_cells h va vc vs vk b →
  foot (TPtr Build_ty) h (VPtr (Some p)) =
    p :: slice_locs va ++ ptr_locs vc ++ slice_locs vs ++ ptr_locs vk.
Proof.
  intros Hp (Ha & Hc & Hs & Hk). rewrite (foot_ptr _ _ _ _ Hp). unfold Build_ty, build_val.
  rewrite foot_struct. cbn [foot_fields].
  rewrite (foot_slice_flat _ _ _ coded_arg _ _ _ Ha), (foot_ptr_flat _ _ _ coded_lor),
    (foot_slice_flat _ _ _ coded_lor _ _ _ Hs), (foot_ptr_flat _ _ _ coded_kaniko).
  by rewrite app_nil_r.
Qed.

(** ** The cells of a Sign *)

Definition sign_fields (vi : val) (tls : TLSOptions) (vk vc vf : val) : list (string * val) :=
  [("UnsignedImage", vi); ("UnsignedImageRegistryTLS", tls_val tls);
   ("KeySecret", vk); ("CertSecret", vc); ("FilesToSign", vf)].
Definition sign_val (image : string) (tls : TLSOptions) (vk vc vf : val) : val :=
  VStruct (sign_fields (string_val image) tls vk vc vf).

Definition sign_cells (h : heap) (vk vc vf : val) (s : Sign) : Prop :=
  refers vk (lor_val <$> KeySecret s) h ∧ refers vc (lor_val <$> CertSecret s) h ∧
  elements_of vf h = Some (string_val <$> FilesToSign s).

Lemma read_sign_Some p h s :
  read_sign (Some p) h = Some (Some s) ↔
  ∃ vk vc vf, h !! p = Some (CVal (sign_val (UnsignedImage s) (UnsignedImageRegistryTLS s) vk vc vf)) ∧
    sign_cells h vk vc vf s.
Proof.
  unfold read_sign, sign_cells. split.
  - intros (t & (w & x & Hp & Hx & ->)%reads_ptr & Ht)%bind_Some.
    simpl in Ht. apply fmap_Some in Ht as (b' & Hb & [= <-]).
    apply (reads_struct_inv _ h w x) in Hx as (fvs & ts & -> & -> & Hr).
    repeat (apply reads_fields_cons in Hr as (?v & ? & ? & ? & -> & -> & ?Hx & Hr)).
    match goal with H : reads_fields [] _ ?l = _ |- _ => destruct l; [injection H as <-|discriminate H] end.
    simpl in Hb.
    apply bind_Some in Hb as (im & Him & (tls & Htls & (key & Hkey & (cert & Hcert & (fs & Hfs & [= <-])%bind_Some)%bind_Some)%bind_Some)%bind_Some).
    exists v1, v2, v3. simpl. split_and!.
    + rewrite Hp. unfold sign_val, sign_fields.
      assert (v = string_val im) as -> by (apply (proj2 coded_string h); by rewrite Hx).
      assert (v0 = tls_val tls) as -> by (apply (proj2 coded_tls h); by rewrite Hx0). done.
    + apply (read_ref _ _ _ coded_lor). by rewrite Hx1.
    + apply (read_ref _ _ _ coded_lor). by rewrite Hx2.
    + apply (read_slice _ _ _ coded_string). by rewrite Hx3.
  - intros (vk & vc & vf & Hp & Hk & Hc & Hf).
    apply (read_ref _ _ _ coded_lor), bind_Some in Hk as (tk & Hk & Htk).
    apply (read_ref _ _ _ coded_lor), bind_Some in Hc as (tc & Hc & Htc).
    apply (read_slice _ _ _ coded_string), bind_Some in Hf as (tf & Hf & Htf).
    assert (reads Sign_ty h (sign_val (UnsignedImage s) (UnsignedImageRegistryTLS s) vk vc vf) =
      Some (Node [Leaf (BString (UnsignedImage s));
        Node [Leaf (BBool (Insecure (UnsignedImageRegistryTLS s)));
              Leaf (BBool (InsecureSkipTLSVerify (UnsignedImageRegistryTLS s)))]; tk; tc; tf])) as Hs.
    { unfold Sign_ty, sign_val, sign_fields. rewrite reads_struct. cbn [reads_fields]. rewrite Hk, Hc, Hf. reflexivity. }
    assert (reads (TPtr Sign_ty) h (VPtr (Some p)) = Some (Ref (Some _))) as ->
      by (apply reads_ptr; eexists _, _; split_and!; [exact Hp|exact Hs|reflexivity]).
    cbn [mbind option_bind ref_tree sign_tree string_tree]. rewrite Htk, Htc, Htf.
    simpl. by destruct s as [? [? ?] ? ? ?].
Qed.

Lemma sign_foot h p vk vc vf s :
  h !! p = Some (CVal (sign_val (UnsignedImage s) (UnsignedImageRegistryTLS s) vk vc vf)) → sign_cells h vk vc vf s →
  foot (TPtr Sign_ty) h (VPtr (Some p)) = p :: ptr_locs vk ++ ptr_locs vc ++ slice_locs vf.
Proof.
  intros Hp (Hk & Hc & Hf). rewrite (foot_ptr _ _ _ _ Hp). unfold Sign_ty, sign_val, sign_fields.
  rewrite foot_struct. cbn [foot_fields].
  rewrite !(foot_ptr_flat _ _ _ coded_lor), (foot_slice_flat _ _ _ coded_string _ _ _ Hf).
  by rewrite app_nil_r.
Qed.

(** ** The merge leaves its arguments alone *)

Lemma get_ok p f h fs : h !! p = Some (CVal (VStruct fs)) → get p f h = field f fs.
Proof. intros Hp. unfold get, deref. by rewrite Hp. Qed.

Lemma set_ok p f w h fs : h !! p = Some (CVal (VStruct fs)) →
  set p f w h = Some (<[ p := CVal (VStruct (set_field f w fs)) ]> h).
Proof. intros Hp. unfold set, deref. by rewrite Hp. Qed.

Lemma refers_weaken v o h h' : h ⊆ h' → refers v o h → refers v o h'.
Proof.
  destruct o; simpl; [|done]. intros Hs (l & -> & Hl). exists l. split; [done|by eapply lookup_weaken].
Qed.

Lemma elements_of_weaken v h h' ws : h ⊆ h' → elements_of v h = Some ws → elements_of v h' = Some ws.
Proof.
  intros Hs He. apply (elements_of_kept v [] h h'); [done| |set_solver].
  intros l c Hl _. by eapply lookup_weaken.
Qed.

(** The pointer to the ConfigMap of the mapping, if it has one. *)
Lemma config_map_step h q va vc tls vs vk vmc o om :
  h !! q = Some (CVal (build_val va vc tls vs vk)) → refers vc o h → refers vmc om h →
  ∃ vc' h', match vmc with VPtr None => Some h | _ => set q "DockerfileConfigMap" vmc h end = Some h' ∧
    h' !! q = Some (CVal (build_val va vc' tls vs vk)) ∧ kept [q] h h' ∧
    ((om = None ∧ vc' = vc) ∨ (om ≠ None ∧ vc' = vmc)).
Proof.
  intros Hq Hc Hm. destruct om as [w|]; simpl in Hm; [destruct Hm as (l & -> & Hl)|subst vmc].
  - exists (VPtr (Some l)). eexists. unfold set, deref. rewrite Hq. split; [reflexivity|].
    split_and!; [by rewrite lookup_insert_eq|apply kept_insert|by right].
  - exists vc, h. split_and!; [done..|apply kept_refl|by left].
Qed.

(** The cells of the merge, from those of the copy: the heaps after the copy,
    after the ConfigMap, after the arguments, after the secrets and at the
    end. *)
Lemma merged_cells q (h h1 h2 h3 h4 h5 h6 : heap) mb kb va vc vs vk vmc va' vc' vs' tls :
  q ∉ slice_locs va ++ ptr_locs vc ++ slice_locs vs ++ ptr_locs vk →
  (∀ l, l ∈ slice_locs va → l ∉ ptr_locs vc ++ slice_locs vs ++ ptr_locs vk) →
  (∀ l, l ∈ ptr_locs vc → l ∉ slice_locs vs ++ ptr_locs vk) →
  (∀ l, l ∈ slice_locs vs → l ∉ ptr_locs vk) →
  h ⊆ h6 → refers vmc (lor_val <$> DockerfileConfigMap kb) h →
  refers vc (lor_val <$> DockerfileConfigMap mb) h1 →
  elements_of vs h1 = Some (lor_val <$> Secrets mb) → refers vk (kaniko_val <$> KanikoTag mb) h1 →
  kept [q] h1 h2 → h2 !! q = Some (CVal (build_val va vc' tls vs vk)) →
  (lor_val <$> DockerfileConfigMap kb = None ∧ vc' = vc ∨
   lor_val <$> DockerfileConfigMap kb ≠ None ∧ vc' = vmc) →
  elements_of va' h3 = Some (arg_val <$> ApplyBuildArgOverrides (BuildArgs mb) (BuildArgs kb)) →
  (∀ l, l ∈ slice_locs va' → l ∈ slice_locs va ∨ h2 !! l = None) →
  is_Some (h4 !! q) → (∀ l, l ∈ slice_locs vs' → l ∈ slice_locs vs ∨ h4 !! l = None) →
  elements_of vs' h5 = Some ((lor_val <$> Secrets mb) ++ (lor_val <$> Secrets kb)) →
  kept [q] h5 h6 → kept (q :: slice_locs vs) h3 h6 → kept (q :: slice_locs va ++ slice_locs vs) h1 h6 →
  build_cells h6 va' vc' vs' vk
    (mk_build (ApplyBuildArgOverrides (BuildArgs mb) (BuildArgs kb))
       (match DockerfileConfigMap kb with Some cm => Some cm | None => DockerfileConfigMap mb end)
       (BaseImageRegistryTLS mb) (Secrets mb ++ Secrets kb) (KanikoTag mb)).
Proof.
  intros Hq Hva Hvc Hvs Hs6 Hmc Hc1 Hss1 Hk1 Hk2 Hq2 Hcase Ha3 Hl3 [c4 Hq4] Hl5 Hss5 Hk6 Hk36 Hk16.
  split_and!.
  - eapply elements_of_kept; [exact Ha3|exact Hk36|]. intros l Hl Hin.
    assert (is_Some (h2 !! l) ∧ l ∉ slice_locs va) as [[c Hc] Hnl].
    { apply elem_of_cons in Hin as [->|Hin]; [split; [by rewrite Hq2|set_solver]|].
      split; [|intros Hl'; apply (Hva l Hl'); set_solver].
      destruct (elements_of_locs _ _ _ _ Hss1 Hin) as [c Hc]. exists c. apply Hk2; [done|set_solver]. }
    destruct (Hl3 l Hl); [done|congruence].
  - destruct Hcase as [[Hom ->]|[Hom ->]].
    + apply fmap_None in Hom. simpl. rewrite Hom.
      eapply refers_kept; [exact Hc1|exact Hk16|]. intros l Hl Hin.
      apply elem_of_cons in Hin as [->|[Hin|Hin]%elem_of_app]; [set_solver| |].
      * apply (Hva l Hin). set_solver.
      * apply (Hvc l Hl). set_solver.
    + simpl. destruct (DockerfileConfigMap kb); [|done]. by eapply refers_weaken.
  - simpl. rewrite fmap_app. eapply elements_of_kept; [exact Hss5|exact Hk6|].
    intros l Hl ->%list_elem_of_singleton. destruct (Hl5 q Hl); [set_solver|congruence].
  - eapply refers_kept; [exact Hk1|exact Hk16|]. intros l Hl Hin.
    apply elem_of_cons in Hin as [->|[Hin|Hin]%elem_of_app]; [set_solver| |].
    + apply (Hva l Hin). set_solver.
    + by apply (Hvs l Hin).
Qed.

(** One field of the mapping over one of the copy. *)
Lemma override_field_ok m q f v h fs :
  get m f h = Some v → h !! q = Some (CVal (VStruct fs)) →
  ∃ h', override_field m q f h = Some h' ∧ kept [q] h h' ∧
    h' !! q = Some (CVal (VStruct (if is_zero v then fs else set_field f v fs))).
Proof.
  intros Hm Hq. unfold override_field. rewrite Hm. cbn [mbind option_bind]. destruct (is_zero v).
  - exists h. split_and!; [done|apply kept_refl|done].
  - rewrite (set_ok _ _ _ _ _ Hq). eexists. split; [reflexivity|].
    split; [apply kept_insert|apply lookup_insert_eq].
Qed.

(** The pointer that stays, and what it refers to. *)
Lemma refers_override v vm (o om : option LocalObjectReference) h :
  refers v (lor_val <$> o) h → refers vm (lor_val <$> om) h →
  refers (if is_zero vm then v else vm) (lor_val <$> match om with Some r => Some r | None => o end) h.
Proof.
  intros Hv Hm. destruct om as [r|]; simpl in Hm.
  - destruct Hm as (l & -> & Hl). simpl. by exists l.
  - by subst vm.
Qed.

Lemma string_override x xm :
  (if is_zero (string_val xm) then string_val x else string_val xm) =
  string_val (if bool_decide (xm = "") then x else xm).
Proof. simpl. by case_bool_decide. Qed.

(** All three fields. *)
Lemma override_fields m q h vi tls vk vc vf vmi vmk vmc :
  (∀ h', kept [q] h h' → get m "UnsignedImage" h' = Some vmi ∧ get m "KeySecret" h' = Some vmk ∧
     get m "CertSecret" h' = Some vmc) →
  h !! q = Some (CVal (VStruct (sign_fields vi tls vk vc vf))) →
  ∃ h', (h ← override_field m q "UnsignedImage" h; h ← override_field m q "KeySecret" h;
         override_field m q "CertSecret" h) = Some h' ∧ kept [q] h h' ∧
    h' !! q = Some (CVal (VStruct (sign_fields (if is_zero vmi then vi else vmi) tls
      (if is_zero vmk then vk else vmk) (if is_zero vmc then vc else vmc) vf))).
Proof.
  intros Hm Hq.
  destruct (override_field_ok m q "UnsignedImage" vmi h _ (proj1 (Hm h (kept_refl _ _))) Hq)
    as (h1 & -> & Hk1 & Hq1). cbn [mbind option_bind].
  destruct (override_field_ok m q "KeySecret" vmk h1 _ (proj1 (proj2 (Hm h1 Hk1))) Hq1)
    as (h2 & -> & Hk2 & Hq2). cbn [mbind option_bind].
  assert (kept [q] h h2) as Hk02 by (eapply kept_trans; [exact Hk1|exact Hk2|by left]).
  destruct (override_field_ok m q "CertSecret" vmc h2 _ (proj2 (proj2 (Hm h2 Hk02))) Hq2)
    as (h3 & -> & Hk3 & Hq3).
  exists h3. split; [done|]. split; [eapply kept_trans; [exact Hk02|exact Hk3|by left]|].
  rewrite Hq3. by destruct (is_zero vmi), (is_zero vmk), (is_zero vmc).
Qed.

Section merge.
Context {MO : MapOrder} (lib_ty : string → ty) (lib_copy : string → heap → val → option (heap * val)).
Context {LC : LibraryCopies lib_ty lib_copy}.
Variable extra : nat → nat → nat.

Lemma Build_generated : (Build_ty, Build_DeepCopyInto) ∈ generated lib_ty.
Proof. unfold generated. repeat first [apply list_elem_of_here|apply list_elem_of_further]. Qed.

Lemma Build_DeepCopy_ok p h b : read_build (Some p) h = Some (Some b) →
  ∃ q h' va vc vs vk, Build_DeepCopy lib_copy (Some p) h = Some (Some q, h') ∧ h ⊆ h' ∧
    h' !! q = Some (CVal (build_val va vc (BaseImageRegistryTLS b) vs vk)) ∧
    build_cells h' va vc vs vk b ∧
    NoDup (q :: slice_locs va ++ ptr_locs vc ++ slice_locs vs ++ ptr_locs vk) ∧
    ∀ l, l ∈ q :: slice_locs va ++ ptr_locs vc ++ slice_locs vs ++ ptr_locs vk → h !! l = None.
Proof using LC.
  intros (t & Hr & Ht)%bind_Some.
  destruct (DeepCopy_copies lib_ty lib_copy _ _ h (Some p) t Build_generated Hr)
    as ([q|] & h' & He & (Hs & Hr' & Hnd & Hn) & Hq); [|naive_solver].
  assert (read_build (Some q) h' = Some (Some b)) as Hb by (unfold read_build; by rewrite Hr').
  apply read_build_Some in Hb as (va & vc & vs & vk & Hl & Hb).
  rewrite (build_foot _ _ _ _ _ _ _ Hl Hb) in Hnd, Hn. by exists q, h', va, vc, vs, vk.
Qed.

Lemma read_build_not_nil p h o : read_build (Some p) h = Some o → ∃ b, o = Some b.
Proof.
  intros (t & (w & x & _ & _ & ->)%reads_ptr & Ht)%bind_Some. simpl in Ht.
  apply fmap_Some in Ht as (b & _ & ->). by exists b.
Qed.

Lemma read_build_Build_DeepCopy p h o : read_build p h = Some o →
  ∃ q h', Build_DeepCopy lib_copy p h = Some (q, h') ∧ h ⊆ h' ∧ read_build q h' = Some o.
Proof using LC.
  destruct p as [p|]; intros Hr.
  - destruct (read_build_not_nil _ _ _ Hr) as [b ->].
    destruct (Build_DeepCopy_ok p h b Hr) as (q & h' & va & vc & vs & vk & He & Hs & Hl & Hb & _).
    exists (Some q), h'. split_and!; [done..|]. apply read_build_Some. by exists va, vc, vs, vk.
  - by exists None, h.
Qed.

(** Both settings are there: the copy is changed in place. *)
Lemma GetRelevantBuild_in_place p m h mb kb :
  read_build (Some p) h = Some (Some mb) → read_build (Some m) h = Some (Some kb) →
  ∃ q h', GetRelevantBuild_heap extra lib_copy (Some p) (Some m) h = Some (Some q, h') ∧ h ⊆ h' ∧
    read_build (Some q) h' = Some (GetRelevantBuild (Some mb) (Some kb)).
Proof using LC.
  intros Hp Hm. apply read_build_Some in Hm as (vma & vmc & vms & vmk & Hm & Hma & Hmc & Hms & _).
  destruct (Build_DeepCopy_ok p h mb Hp)
    as (q & h1 & va & vc & vs & vk & He & Hs1 & Hq1 & (Ha1 & Hc1 & Hss1 & Hk1) & Hnd & Hn).
  apply NoDup_cons in Hnd as [Hq Hnd]. apply NoDup_app in Hnd as (_ & Hva & Hnd).
  apply NoDup_app in Hnd as (_ & Hvc & Hnd). apply NoDup_app in Hnd as (_ & Hvs & _).
  assert (∀ h', h ⊆ h' → get m "DockerfileConfigMap" h' = Some vmc ∧ get m "BuildArgs" h' = Some vma ∧
    get m "Secrets" h' = Some vms) as Hget.
  { intros h' Hs. unfold get, deref. by rewrite (lookup_weaken _ _ _ _ Hm Hs). }
  unfold GetRelevantBuild_heap. rewrite He. cbn [mbind option_bind].
  rewrite (proj1 (Hget h1 Hs1)). cbn [mbind option_bind].
  destruct (config_map_step h1 q va vc _ vs vk vmc _ _ Hq1 Hc1 (refers_weaken _ _ _ _ Hs1 Hmc))
    as (vc' & h2 & -> & Hq2 & Hk2 & Hcase). cbn [mbind option_bind].
  assert (h ⊆ h2) as Hs2 by (eapply kept_fresh; [exact Hs1|exact Hk2|]; set_solver).
  assert (elements_of va h2 = Some (arg_val <$> BuildArgs mb)) as Ha2
    by (eapply elements_of_kept; [exact Ha1|exact Hk2|]; set_solver).
  assert (get q "BuildArgs" h2 = Some va) as -> by (unfold get, deref; by rewrite Hq2).
  cbn [mbind option_bind]. rewrite (proj1 (proj2 (Hget h2 Hs2))). cbn [mbind option_bind].
  destruct (ApplyBuildArgOverrides_heap_ok extra va vma h2 _ _ Ha2 (elements_of_weaken _ _ _ _ Hs2 Hma))
    as (va' & h3 & -> & Ha3 & Hk3 & Hl3). cbn [mbind option_bind].
  assert (h ⊆ h3) as Hs3 by (eapply kept_fresh; [exact Hs2|exact Hk3|]; set_solver).
  assert (h3 !! q = Some (CVal (build_val va vc' (BaseImageRegistryTLS mb) vs vk))) as Hq3
    by (apply Hk3; [exact Hq2|set_solver]).
  rewrite (set_ok _ _ _ _ _ Hq3). cbn [mbind option_bind].
  set (h4 := <[ q := _ ]> h3). assert (kept [q] h3 h4) as Hk4 by apply kept_insert.
  assert (h4 !! q = Some (CVal (build_val va' vc' (BaseImageRegistryTLS mb) vs vk))) as Hq4
    by apply lookup_insert_eq.
  assert (h ⊆ h4) as Hs4 by (eapply kept_fresh; [exact Hs3|exact Hk4|]; set_solver).
  assert (get q "Secrets" h4 = Some vs) as -> by (by rewrite (get_ok _ _ _ _ Hq4)).
  cbn [mbind option_bind].
  rewrite (proj2 (proj2 (Hget h4 Hs4))). cbn [mbind option_bind].
  rewrite (elements_of_weaken _ _ _ _ Hs4 Hms). cbn [mbind option_bind].
  assert (kept (q :: slice_locs va) h1 h4) as Hk14.
  { eapply kept_trans; [|exact Hk4|set_solver]. eapply kept_trans; [|exact Hk3|set_solver].
    intros l c Hl Hn'. apply Hk2; set_solver. }
  assert (elements_of vs h4 = Some (lor_val <$> Secrets mb)) as Hss4
    by (eapply elements_of_kept; [exact Hss1|exact Hk14|]; set_solver).
  destruct (append_ok extra (lor_val (LocalRef "")) vs (lor_val <$> Secrets kb) h4 _ Hss4)
    as (vs' & h5 & -> & Hss5 & Hk5 & Hl5). cbn [mbind option_bind].
  assert (h5 !! q = Some (CVal (build_val va' vc' (BaseImageRegistryTLS mb) vs vk))) as Hq5
    by (apply Hk5; [exact Hq4|set_solver]).
  rewrite (set_ok _ _ _ _ _ Hq5). cbn [mbind option_bind].
  set (h6 := <[ q := _ ]> h5). assert (kept [q] h5 h6) as Hk6 by apply kept_insert.
  exists q, h6. split; [done|].
  assert (h ⊆ h5) as Hs5 by (eapply kept_fresh; [exact Hs4|exact Hk5|]; set_solver).
  assert (h ⊆ h6) as Hs6 by (eapply kept_fresh; [exact Hs5|exact Hk6|]; set_solver).
  split; [done|]. apply read_build_Some. exists va', vc', vs', vk. split; [apply lookup_insert_eq|].
  assert (kept (q :: slice_locs vs) h3 h6) as Hk36.
  { eapply (kept_trans _ [q]); [|exact Hk6|set_solver]. eapply (kept_trans _ (slice_locs vs)); [|exact Hk5|set_solver].
    eapply kept_mono; [exact Hk4|set_solver]. }
  assert (kept (q :: slice_locs va ++ slice_locs vs) h1 h6) as Hk16.
  { eapply (kept_trans _ [q]); [|exact Hk6|set_solver]. eapply (kept_trans _ (slice_locs vs)); [|exact Hk5|set_solver].
    eapply kept_mono; [exact Hk14|set_solver]. }
  eapply (merged_cells q h h1 h2 h3 h4 h5 h6); done.
Qed.

(** C18: merging the build settings of a kernel changes nothing that is shared.
    Whatever the growth of append and however the arrays lie, GetRelevantBuild
    returns, no cell that existed is changed - the Module, its mappings and all
    other objects read as before - and the result reads as the merge of the
    settings read before. *)
Theorem GetRelevantBuild_shares moduleBuild mappingBuild h mb kb :
  read_build moduleBuild h = Some mb → read_build mappingBuild h = Some kb →
  ∃ q h', GetRelevantBuild_heap extra lib_copy moduleBuild mappingBuild h = Some (q, h') ∧ h ⊆ h' ∧
    read_build q h' = Some (GetRelevantBuild mb kb) ∧
    ∀ T v t, reads T h v = Some t → reads T h' v = Some t.
Proof using LC.
  intros Hm Hk.
  enough (∃ q h', GetRelevantBuild_heap extra lib_copy moduleBuild mappingBuild h = Some (q, h') ∧ h ⊆ h' ∧
    read_build q h' = Some (GetRelevantBuild mb kb)) as (q & h' & He & Hs & Hr).
  { exists q, h'. split_and!; [done..|]. intros T v t Ht. by eapply reads_mono. }
  destruct moduleBuild as [p|]; [|rewrite read_build_nil in Hm; injection Hm as <-; by apply read_build_Build_DeepCopy].
  destruct (read_build_not_nil _ _ _ Hm) as [b ->].
  destruct mappingBuild as [m|]; [|injection Hk as <-; by apply read_build_Build_DeepCopy].
  destruct (read_build_not_nil _ _ _ Hk) as [b' ->].
  destruct (GetRelevantBuild_in_place p m h b b' Hm Hk) as (q & h' & He & Hs & Hr). by exists (Some q), h'.
Qed.

Lemma read_sign_not_nil p h o : read_sign (Some p) h = Some o → ∃ s, o = Some s.
Proof.
  intros (t & (w & x & _ & _ & ->)%reads_ptr & Ht)%bind_Some. simpl in Ht.
  apply fmap_Some in Ht as (b & _ & ->). by exists b.
Qed.

Lemma Sign_DeepCopy_ok p h s : read_sign (Some p) h = Some (Some s) →
  ∃ q h' vk vc vf, Sign_DeepCopy lib_copy (Some p) h = Some (Some q, h') ∧ h ⊆ h' ∧
    h' !! q = Some (CVal (sign_val (UnsignedImage s) (UnsignedImageRegistryTLS s) vk vc vf)) ∧
    sign_cells h' vk vc vf s ∧
    NoDup (q :: ptr_locs vk ++ ptr_locs vc ++ slice_locs vf) ∧
    ∀ l, l ∈ q :: ptr_locs vk ++ ptr_locs vc ++ slice_locs vf → h !! l = None.
Proof using LC.
  intros (t & Hr & Ht)%bind_Some.
  assert ((Sign_ty, Sign_DeepCopyInto) ∈ generated lib_ty) as Hin
    by (unfold generated; repeat first [apply list_elem_of_here|apply list_elem_of_further]).
  destruct (DeepCopy_copies lib_ty lib_copy _ _ h (Some p) t Hin Hr)
    as ([q|] & h' & He & (Hs & Hr' & Hnd & Hn) & Hq); [|naive_solver].
  assert (read_sign (Some q) h' = Some (Some s)) as Hb by (unfold read_sign; by rewrite Hr').
  apply read_sign_Some in Hb as (vk & vc & vf & Hl & Hb).
  rewrite (sign_foot _ _ _ _ _ _ Hl Hb) in Hnd, Hn. by exists q, h', vk, vc, vf.
Qed.

Lemma read_sign_Sign_DeepCopy p h o : read_sign p h = Some o →
  ∃ q h', Sign_DeepCopy lib_copy p h = Some (q, h') ∧ h ⊆ h' ∧ read_sign q h' = Some o.
Proof using LC.
  destruct p as [p|]; intros Hr.
  - destruct (read_sign_not_nil _ _ _ Hr) as [s ->].
    destruct (Sign_DeepCopy_ok p h s Hr) as (q & h' & vk & vc & vf & He & Hs & Hl & Hb & _).
    exists (Some q), h'. split_and!; [done..|]. apply read_sign_Some. by exists vk, vc, vf.
  - by exists None, h.
Qed.

Lemma mergeSign_in_place p m h ms ks :
  read_sign (Some p) h = Some (Some ms) → read_sign (Some m) h = Some (Some ks) →
  ∃ q h', mergeSign_heap extra lib_copy (Some p) (Some m) h = Some (Some q, h') ∧ h ⊆ h' ∧
    read_sign (Some q) h' = Some (mergeSign (Some ms) (Some ks)).
Proof using LC.
  intros Hp Hm. apply read_sign_Some in Hm as (vmk & vmc & vmf & Hm & Hmk & Hmc & Hmf).
  destruct (Sign_DeepCopy_ok p h ms Hp) as (q & h1 & vk & vc & vf & He & Hs1 & Hq1 & (Hk1 & Hc1 & Hf1) & Hnd & Hn).
  apply NoDup_cons in Hnd as [Hq Hnd]. apply NoDup_app in Hnd as (_ & Hvk & Hnd).
  apply NoDup_app in Hnd as (_ & Hvc & _).
  assert (∀ h', h ⊆ h' → ∀ f, get m f h' = get m f h) as Hget.
  { intros h' Hs f. unfold get, deref. by rewrite (lookup_weaken _ _ _ _ Hm Hs), Hm. }
  unfold mergeSign_heap. rewrite He. cbn [mbind option_bind].
  destruct (override_fields m q h1 (string_val (UnsignedImage ms)) (UnsignedImageRegistryTLS ms) vk vc vf
    (string_val (UnsignedImage ks)) vmk vmc) as (h2 & -> & Hkp2 & Hq2); [|exact Hq1|].
  { intros h' Hk. assert (h ⊆ h') as Hs' by (eapply kept_fresh; [exact Hs1|exact Hk|set_solver]).
    split_and!; rewrite (Hget h' Hs'); by rewrite (get_ok _ _ _ _ Hm). }
  cbn [mbind option_bind]. rewrite string_override in Hq2.
  assert (h ⊆ h2) as Hs2 by (eapply kept_fresh; [exact Hs1|exact Hkp2|set_solver]).
  assert (get q "FilesToSign" h2 = Some vf) as -> by by rewrite (get_ok _ _ _ _ Hq2).
  cbn [mbind option_bind]. rewrite (Hget h2 Hs2).
  assert (get m "FilesToSign" h = Some vmf) as -> by by rewrite (get_ok _ _ _ _ Hm).
  cbn [mbind option_bind]. rewrite (elements_of_weaken _ _ _ _ Hs2 Hmf). cbn [mbind option_bind].
  assert (elements_of vf h2 = Some (string_val <$> FilesToSign ms)) as Hf2
    by (eapply elements_of_kept; [exact Hf1|exact Hkp2|set_solver]).
  destruct (append_ok extra (VBase (BString "")) vf (string_val <$> FilesToSign ks) h2 _ Hf2)
    as (vf' & h3 & -> & Hf3 & Hkp3 & Hl3). cbn [mbind option_bind].
  assert (h3 !! q = h2 !! q) as Hq3 by (rewrite Hq2; apply Hkp3; [exact Hq2|set_solver]). rewrite Hq2 in Hq3.
  rewrite (set_ok _ _ _ _ _ Hq3). cbn [mbind option_bind].
  set (h4 := <[ q := _ ]> h3). assert (kept [q] h3 h4) as Hkp4 by apply kept_insert.
  assert (h ⊆ h3) as Hs3 by (eapply kept_fresh; [exact Hs2|exact Hkp3|set_solver]).
  assert (h ⊆ h4) as Hs4 by (eapply kept_fresh; [exact Hs3|exact Hkp4|set_solver]).
  assert (kept (q :: slice_locs vf) h1 h4) as Hkp14.
  { eapply kept_trans; [|exact Hkp4|set_solver].
    eapply kept_trans; [eapply kept_mono; [exact Hkp2|set_solver]|exact Hkp3|set_solver]. }
  exists q, h4. split_and!; [done..|]. apply read_sign_Some. eexists _, _, vf'.
  split; [apply lookup_insert_eq|]. split_and!.
  - apply refers_override; [|by eapply refers_weaken]. eapply refers_kept; [exact Hk1|exact Hkp14|].
    intros l Hl Hin. specialize (Hvk l Hl). set_solver.
  - apply refers_override; [|by eapply refers_weaken]. eapply refers_kept; [exact Hc1|exact Hkp14|].
    intros l Hl Hin. specialize (Hvc l Hl). set_solver.
  - simpl. rewrite fmap_app. eapply elements_of_kept; [exact Hf3|exact Hkp4|].
    intros l Hl ->%list_elem_of_singleton. destruct (Hl3 q Hl); [set_solver|congruence].
Qed.

(** The merge of the signing settings likewise. *)
Theorem mergeSign_shares moduleSign mappingSign h ms ks :
  read_sign moduleSign h = Some ms → read_sign mappingSign h = Some ks →
  ∃ q h', mergeSign_heap extra lib_copy moduleSign mappingSign h = Some (q, h') ∧ h ⊆ h' ∧
    read_sign q h' = Some (mergeSign ms ks).
Proof using LC.
  intros Hm Hk.
  destruct moduleSign as [p|]; [|injection Hm as <-; by apply read_sign_Sign_DeepCopy].
  destruct (read_sign_not_nil _ _ _ Hm) as [b ->].
  destruct mappingSign as [m|]; [|injection Hk as <-; by apply read_sign_Sign_DeepCopy].
  destruct (read_sign_not_nil _ _ _ Hk) as [b' ->].
  destruct (mergeSign_in_place p m h b b' Hm Hk) as (q & h' & He & Hs & Hr). by exists (Some q), h'.
Qed.
End merge.

(** ** Example *)

(** A Module with one argument and a mapping that overrides it, adds another
    and has a ConfigMap. *)
Definition ex_builds : heap := {[
  1%positive := CVal (build_val (VSlice (Some (2%positive, 0, 1))) (VPtr None) (mk_tls false false)
                        (VSlice None) (VPtr None));
  2%positive := CArray [arg_val (mk_buildarg "A" "module")];
  3%positive := CVal (build_val (VSlice (Some (4%positive, 0, 2))) (VPtr (Some 5%positive)) (mk_tls false false)
                        (VSlice None) (VPtr None));
  4%positive := CArray [arg_val (mk_buildarg "A" "mapping"); arg_val (mk_buildarg "B" "new")];
  5%positive := CVal (lor_val (LocalRef "dockerfile")) ]}.

Lemma GetRelevantBuild_shares_witness : ∃ q h',
  GetRelevantBuild_heap (MO := map_order_std) (λ _ n, n) ex_lib_copy (Some 1%positive) (Some 3%positive) ex_builds
    = Some (q, h') ∧
  h' !! 2%positive = Some (CArray [arg_val (mk_buildarg "A" "module")]) ∧
  read_build q h' = Some (Some (mk_build [mk_buildarg "A" "mapping"; mk_buildarg "B" "new"]
                            (Some (LocalRef "dockerfile")) (mk_tls false false) [] None)).
Proof.
  destruct (GetRelevantBuild_shares (MO := map_order_std) ex_lib_ty ex_lib_copy (λ _ n, n)
    (Some 1%positive) (Some 3%positive) ex_builds
    (Some (mk_build [mk_buildarg "A" "module"] None (mk_tls false false) [] None))
    (Some (mk_build [mk_buildarg "A" "mapping"; mk_buildarg "B" "new"] (Some (LocalRef "dockerfile"))
             (mk_tls false false) [] None))) as (q & h' & He & Hs & Hr & _); [by vm_compute..|].
  exists q, h'. split_and!; [exact He|by apply (lookup_weaken ex_builds)|].
  rewrite Hr. by vm_compute.
Defined.
