(* ===== verification/KernelMapper.v ===== *)
(** * internal/module: image names and the kernel mapper

    From a Module and the kernel version of a node to the
    [ModuleLoaderData] every later step works with. *)

From S2P Require Import Prelude K8s Api Utils Helpers.
From stdpp Require Import options.

(** ** helper.go *)

Definition AppendToTag (name tag : string) : string :=
  let separator := if str_contains ":" name then "_" else ":" in
  name +:+ separator +:+ tag.

Definition IntermediateImageName (name namespace targetImage : string) : string :=
  AppendToTag targetImage (namespace +:+ "_" +:+ name +:+ "_kmm_unsigned").

Definition ShouldBeBuilt (mld : ModuleLoaderData) : bool := isSome (mld_Build mld).
Definition ShouldBeSigned (mld : ModuleLoaderData) : bool := isSome (mld_Sign mld).

(** ** kernelmapper.go *)

(** regexp.MatchString: [Err] when the expression does not compile. *)
Class Regexp := {
  regexp_MatchString : string → string → result bool;
  regexp_no_panic : ∀ re s w, regexp_MatchString re s ≠ Panic w }.

(** A concrete matcher for the examples: an expression without
    metacharacters, matched as a substring. *)
Definition regexp_substring : Regexp :=
  {| regexp_MatchString re s := Ok (str_contains re s); regexp_no_panic _ _ _ := ltac:(done) |}.

Section kernelmapper.
Context {R : Regexp} {E : Envsubst}.

Fixpoint findKernelMapping (mappings : list KernelMapping) (kernelVersion : string)
    : result KernelMapping :=
  match mappings with
  | [] => Err (errorf "no suitable mapping found")
  | m :: mappings =>
      if negb (bool_decide (km_Literal m = "")) && bool_decide (km_Literal m = kernelVersion)
      then Ok m
      else if bool_decide (km_Regexp m = "") then findKernelMapping mappings kernelVersion
      else match regexp_MatchString (km_Regexp m) kernelVersion with
           | Err err =>
               Err (errorf ("could not match regexp " +:+ go_quote (km_Regexp m)
                            +:+ " against kernel " +:+ go_quote kernelVersion +:+ ": "
                            +:+ Error err))
           | Panic w => Panic w
           | Ok true => Ok m
           | Ok false => findKernelMapping mappings kernelVersion
           end
  end.

Definition prepareModuleLoaderData (mapping : KernelMapping) (m : Module_) (kernelVersion : string)
    : result ModuleLoaderData :=
  let c := mod_container m in
  let build :=
    if isSome (km_Build mapping) || isSome (mlc_Build c)
    then GetRelevantBuild (mlc_Build c) (km_Build mapping) else None in
  sign ← (if isSome (km_Sign mapping) || isSome (mlc_Sign c)
          then s ← wrap_err (λ err, errorf ("failed to get the relevant Sign configuration for kernel "
                                            +:+ kernelVersion +:+ ": " +:+ Error err))
                     (GetRelevantSign (mlc_Sign c) (km_Sign mapping) kernelVersion);
               Ok (Some s)
          else Ok None);
  Ok {| mld_KernelVersion := kernelVersion;
        mld_ImageRepoSecret := ImageRepoSecret (mod_Spec m);
        mld_Selector := Selector (mod_Spec m);
        mld_Name := mod_Name m;
        mld_Namespace := mod_Namespace m;
        mld_ServiceAccountName := ml_ServiceAccountName (ModuleLoader (mod_Spec m));
        mld_Build := build;
        mld_Sign := sign;
        mld_ContainerImage :=
          if bool_decide (km_ContainerImage mapping = "") then mlc_ContainerImage c
          else km_ContainerImage mapping;
        mld_ImagePullPolicy := "";
        mld_Modprobe := mlc_Modprobe c;
        mld_RegistryTLS :=
          Some (match km_RegistryTLS mapping with Some t => t | None => mlc_RegistryTLS c end);
        mld_Owner := as_owner m |}.

Definition replaceTemplates (mld : ModuleLoaderData) : result ModuleLoaderData :=
  osConfigEnvVars ← KernelComponentsAsEnvVars (mld_KernelVersion mld);
  replacedContainerImage ←
    wrap_err (λ err, errorf ("failed to substitute templates in the ContainerImage field: "
                             +:+ Error err))
      (ReplaceInTemplates osConfigEnvVars [mld_ContainerImage mld]);
  Ok (set_mld_image (hd "" replacedContainerImage) mld).

Definition GetModuleLoaderDataForKernel (m : Module_) (kernelVersion : string)
    : result ModuleLoaderData :=
  let mappings := mlc_KernelMappings (mod_container m) in
  foundMapping ← wrap_err (λ err, errorf ("failed to find mapping for kernel " +:+ kernelVersion
                                          +:+ ": " +:+ Error err))
                   (findKernelMapping mappings kernelVersion);
  mld ← wrap_err (λ err, errorf ("failed to prepare module loader data for kernel "
                                 +:+ kernelVersion +:+ ": " +:+ Error err))
          (prepareModuleLoaderData foundMapping m kernelVersion);
  wrap_err (λ err, errorf ("failed to replace templates in module loader data for kernel "
                           +:+ kernelVersion +:+ ": " +:+ Error err))
    (replaceTemplates mld).

(** ** Which mapping applies *)

(** A mapping applies to a kernel when its literal is the kernel or its
    expression compiles and matches; it is skipped when neither. *)
Definition mapping_matches (kernelVersion : string) (m : KernelMapping) : Prop :=
  (km_Literal m ≠ "" ∧ km_Literal m = kernelVersion) ∨
  (km_Regexp m ≠ "" ∧ regexp_MatchString (km_Regexp m) kernelVersion = Ok true).
Definition mapping_skipped (kernelVersion : string) (m : KernelMapping) : Prop :=
  (km_Literal m = "" ∨ km_Literal m ≠ kernelVersion) ∧
  (km_Regexp m = "" ∨ regexp_MatchString (km_Regexp m) kernelVersion = Ok false).

Lemma findKernelMapping_cons m ms k :
  (mapping_matches k m ∧ findKernelMapping (m :: ms) k = Ok m) ∨
  (mapping_skipped k m ∧ findKernelMapping (m :: ms) k = findKernelMapping ms k) ∨
  (¬ mapping_matches k m ∧ ¬ mapping_skipped k m ∧ ∃ e, findKernelMapping (m :: ms) k = Err e).
Proof.
  unfold mapping_matches, mapping_skipped. simpl.
  destruct (regexp_MatchString (km_Regexp m) k) as [b|e|w] eqn:Hre;
    [destruct b| |by apply regexp_no_panic in Hre];
    repeat case_bool_decide; simpl; try (left; split; [tauto|done]);
    try (right; left; split; [tauto|done]).
  all: right; right; split_and!; [naive_solver..|by eexists].
Qed.

Lemma matches_not_skipped k m : mapping_matches k m → ¬ mapping_skipped k m.
Proof. intros [[??]|[??]] [[?|?] [?|?]]; congruence. Qed.

Lemma findKernelMapping_no_panic ms k w : findKernelMapping ms k ≠ Panic w.
Proof.
  induction ms as [|m ms IH]; [done|].
  destruct (findKernelMapping_cons m ms k) as [[_ ->]|[[_ ->]|(_ & _ & e & ->)]]; done.
Qed.

Lemma findKernelMapping_Ok ms k m :
  findKernelMapping ms k = Ok m ↔
  ∃ ms1 ms2, ms = ms1 ++ m :: ms2 ∧ mapping_matches k m ∧ Forall (mapping_skipped k) ms1.
Proof.
  induction ms as [|x ms IH].
  { split; [done|]. intros (ms1 & ms2 & H & _). by destruct ms1. }
  destruct (findKernelMapping_cons x ms k) as [[Hm ->]|[[Hs ->]|(Hm & Hs & e & ->)]].
  - split; [intros [= ->]; by exists [], ms|].
    intros ([|y ms1] & ms2 & Heq & Hm' & Hf); simplify_eq/=; [done|].
    apply Forall_cons in Hf as [Hf _]. by destruct (matches_not_skipped k y).
  - rewrite IH. split.
    + intros (ms1 & ms2 & -> & Hm' & Hf). exists (x :: ms1), ms2. auto.
    + intros ([|y ms1] & ms2 & Heq & Hm' & Hf); simplify_eq/=;
        [by destruct (matches_not_skipped k m)|].
      apply Forall_cons in Hf as [_ Hf]. eauto.
  - split; [done|]. intros ([|y ms1] & ms2 & Heq & Hm' & Hf); simplify_eq/=; [done|].
    apply Forall_cons in Hf as [Hf _]. done.
Qed.


Lemma findKernelMapping_fails ms k :
  (∃ e, findKernelMapping ms k = Err e) ↔
  Forall (mapping_skipped k) ms ∨
  ∃ ms1 m ms2, ms = ms1 ++ m :: ms2 ∧ Forall (mapping_skipped k) ms1 ∧
    ¬ mapping_matches k m ∧ ¬ mapping_skipped k m.
Proof.
  induction ms as [|x ms IH]; [split; [by left|intros _; by eexists]|].
  destruct (findKernelMapping_cons x ms k) as [[Hm ->]|[[Hs ->]|(Hm & Hs & e & ->)]].
  - pose proof (matches_not_skipped k x Hm). split; [by intros [??]|].
    intros [Hf|([|y ms1] & m & ms2 & Heq & Hf & Hn & _)]; simplify_eq/=;
      try apply Forall_cons in Hf as [Hf _]; done.
  - rewrite IH. split.
    + intros [Hf|(ms1 & m & ms2 & -> & Hf & H)]; [left; auto|].
      right. exists (x :: ms1), m, ms2. auto.
    + intros [Hf|([|y ms1] & m & ms2 & Heq & Hf & Hn & Hn2)]; simplify_eq/=; [|done|];
        apply Forall_cons in Hf as [_ Hf]; eauto 8.
  - split; [|by eauto]. intros _. right. by exists [], x, ms.
Qed.

(** ** What the ModuleLoaderData holds *)

Definition effective_tls (mapping : KernelMapping) (c : ModuleLoaderContainerSpec) : TLSOptions :=
  default (mlc_RegistryTLS c) (km_RegistryTLS mapping).
Definition effective_image (mapping : KernelMapping) (c : ModuleLoaderContainerSpec) : string :=
  if decide (km_ContainerImage mapping = "") then mlc_ContainerImage c
  else km_ContainerImage mapping.

(** The data a mapping and a Module determine, but for the templates. *)
Definition mld_of_mapping (mapping : KernelMapping) (m : Module_) (k : string)
    (sign : option Sign) (image : string) : ModuleLoaderData :=
  let c := mod_container m in
  {| mld_KernelVersion := k; mld_ImageRepoSecret := ImageRepoSecret (mod_Spec m);
     mld_Selector := Selector (mod_Spec m); mld_Name := mod_Name m;
     mld_Namespace := mod_Namespace m;
     mld_ServiceAccountName := ml_ServiceAccountName (ModuleLoader (mod_Spec m));
     mld_Build := GetRelevantBuild (mlc_Build c) (km_Build mapping);
     mld_Sign := sign; mld_ContainerImage := image; mld_ImagePullPolicy := "";
     mld_Modprobe := mlc_Modprobe c; mld_RegistryTLS := Some (effective_tls mapping c);
     mld_Owner := as_owner m |}.

Lemma prepareModuleLoaderData_Ok mapping m k mld :
  prepareModuleLoaderData mapping m k = Ok mld ↔
  ∃ sign, mld = mld_of_mapping mapping m k sign (effective_image mapping (mod_container m)) ∧
    match mergeSign (mlc_Sign (mod_container m)) (km_Sign mapping) with
    | None => sign = None
    | Some _ => ∃ s, sign = Some s ∧
        GetRelevantSign (mlc_Sign (mod_container m)) (km_Sign mapping) k = Ok s
    end.
Proof.
  unfold prepareModuleLoaderData, mld_of_mapping, effective_tls, effective_image.
  set (c := mod_container m).
  assert ((if isSome (km_Build mapping) || isSome (mlc_Build c)
           then GetRelevantBuild (mlc_Build c) (km_Build mapping) else None)
          = GetRelevantBuild (mlc_Build c) (km_Build mapping)) as ->
    by (by destruct (km_Build mapping), (mlc_Build c)).
  assert ((isSome (km_Sign mapping) || isSome (mlc_Sign c)) =
          isSome (mergeSign (mlc_Sign c) (km_Sign mapping))) as ->
    by (by destruct (km_Sign mapping), (mlc_Sign c)).
  rewrite <-(decide_bool_decide (km_ContainerImage mapping = "")).
  destruct (mergeSign _ _) as [ms|]; simpl;
    [destruct (GetRelevantSign _ _ _) as [s|?|?]; simpl|];
    destruct (km_RegistryTLS mapping); simpl; split;
    solve [by intros [= <-]; eauto | intros (? & -> & ?); destruct_all; by simplify_eq].
Qed.

Lemma GetRelevantSign_panics ms ks k :
  mergeSign ms ks ≠ None →
  (∃ w, GetRelevantSign ms ks k = Panic w) ↔ length (str_split kernelRegexp k) < 3.
Proof.
  intros Hm. rewrite <-KernelComponents_panic_iff. unfold GetRelevantSign.
  destruct (KernelComponentsAsEnvVars k) as [env|e|w]; cbn -[ReplaceInTemplates]; [|split; by intros [??]|split; by eauto].
  destruct (mergeSign ms ks) as [s|]; [|done]. split; [|by intros [??]].
  destruct (ReplaceInTemplates env [_]) as [?|?|?] eqn:E1; cbn -[ReplaceInTemplates];
    [|by intros [??]|by apply ReplaceInTemplates_no_panic in E1].
  destruct (ReplaceInTemplates env (FilesToSign s)) as [?|?|?] eqn:E2; cbn -[ReplaceInTemplates];
    [by intros [??]..|by apply ReplaceInTemplates_no_panic in E2].
Qed.

Lemma GetModuleLoaderDataForKernel_Ok m k mld :
  GetModuleLoaderDataForKernel m k = Ok mld ↔
  ∃ mapping env sign image,
    findKernelMapping (mlc_KernelMappings (mod_container m)) k = Ok mapping ∧
    KernelComponentsAsEnvVars k = Ok env ∧
    match mergeSign (mlc_Sign (mod_container m)) (km_Sign mapping) with
    | None => sign = None
    | Some _ => ∃ s, sign = Some s ∧
        GetRelevantSign (mlc_Sign (mod_container m)) (km_Sign mapping) k = Ok s
    end ∧
    envsubst env (effective_image mapping (mod_container m)) = Ok image ∧
    mld = mld_of_mapping mapping m k sign image.
Proof.
  unfold GetModuleLoaderDataForKernel, replaceTemplates.
  rewrite result_bind_Ok. setoid_rewrite wrap_err_Ok. setoid_rewrite result_bind_Ok.
  setoid_rewrite wrap_err_Ok. setoid_rewrite prepareModuleLoaderData_Ok.
  setoid_rewrite result_bind_Ok. setoid_rewrite result_bind_Ok. setoid_rewrite wrap_err_Ok.
  setoid_rewrite ReplaceInTemplates_Forall2. split.
  - intros (mapping & Hm & mld0 & (sign & -> & Hsign) & env & Henv & imgs & Himg & [= <-]).
    inversion Himg as [|? img ? imgs' Hi Hnil]; subst. inversion Hnil; subst.
    by exists mapping, env, sign, img.
  - intros (mapping & env & sign & image & Hm & Henv & Hsign & Himg & ->).
    exists mapping. split; [done|]. eexists. split; [by exists sign|].
    exists env. split; [done|]. exists [image]. split; [by repeat constructor|done].
Qed.

Lemma mld_kernel m k mld : GetModuleLoaderDataForKernel m k = Ok mld → mld_KernelVersion mld = k.
Proof. by intros (mapping & env & sign & image & _ & _ & _ & _ & ->)%GetModuleLoaderDataForKernel_Ok. Qed.

Lemma mld_owner m k mld : GetModuleLoaderDataForKernel m k = Ok mld → mld_Owner mld = as_owner m.
Proof. by intros (mapping & env & sign & image & _ & _ & _ & _ & ->)%GetModuleLoaderDataForKernel_Ok. Qed.

Lemma mld_namespace m k mld :
  GetModuleLoaderDataForKernel m k = Ok mld → mld_Namespace mld = mod_Namespace m.
Proof. by intros (mapping & env & sign & image & _ & _ & _ & _ & ->)%GetModuleLoaderDataForKernel_Ok. Qed.

Lemma GetModuleLoaderDataForKernel_panics m k :
  (∃ w, GetModuleLoaderDataForKernel m k = Panic w) ↔
  length (str_split kernelRegexp k) < 3 ∧
  ∃ mapping, findKernelMapping (mlc_KernelMappings (mod_container m)) k = Ok mapping.
Proof.
  unfold GetModuleLoaderDataForKernel.
  destruct (findKernelMapping _ _) as [mapping|e|w] eqn:Hm; simpl;
    [|split; [by intros [??]|by intros (_ & ? & ?)]|by apply findKernelMapping_no_panic in Hm].
  trans (length (str_split kernelRegexp k) < 3); [|naive_solver].
  destruct (decide (length (str_split kernelRegexp k) < 3)) as [Hlt|Hge].
  - split; [done|intros _]. apply KernelComponents_panic_iff in Hlt as [w Hw].
    unfold prepareModuleLoaderData, GetRelevantSign. rewrite Hw. simpl.
    destruct (isSome (km_Sign mapping) || _); simpl; [by eauto|].
    unfold replaceTemplates. simpl. rewrite Hw. simpl. eauto.
  - split; [|lia]. intros [w Hw]. exfalso.
    assert (∀ ms ks, mergeSign ms ks ≠ None → ∀ w, GetRelevantSign ms ks k ≠ Panic w) as Hs.
    { intros ms ks ? w' ?. apply Hge, (GetRelevantSign_panics ms ks); eauto. }
    unfold prepareModuleLoaderData in Hw.
    assert (∀ mld, mld_KernelVersion mld = k → ∀ w, replaceTemplates mld ≠ Panic w) as Hr.
    { intros mld Hk w' Hp. unfold replaceTemplates in Hp. rewrite Hk in Hp.
      destruct (KernelComponentsAsEnvVars k) eqn:Hc; simplify_eq/=;
        [|destruct Hge; apply KernelComponents_panic_iff; by eauto].
      destruct (envsubst _ _) eqn:He; simplify_eq/=. by apply envsubst_no_panic in He. }
    destruct (isSome (km_Sign mapping) || _) eqn:Hor; simpl in Hw.
    + destruct (GetRelevantSign _ _ _) eqn:HG; simpl in Hw.
      * destruct (replaceTemplates _) eqn:HR; simplify_eq/=. by eapply Hr in HR.
      * done.
      * eapply Hs in HG; [done|].
        revert Hor. by destruct (km_Sign mapping), (mlc_Sign (mod_container m)).
    + destruct (replaceTemplates _) eqn:HR; simplify_eq/=. by eapply Hr in HR.
Qed.

(** ** Properties *)

(** The mapping chosen for a kernel is the first one whose literal is
    the kernel version or whose regular expression matches it, all mappings
    before it being skipped; choosing fails exactly when every mapping is
    skipped or when an invalid expression precedes every match; it never
    panics. *)
Theorem findKernelMapping_spec ms k :
  (∀ m, findKernelMapping ms k = Ok m ↔
     ∃ ms1 ms2, ms = ms1 ++ m :: ms2 ∧ mapping_matches k m ∧ Forall (mapping_skipped k) ms1) ∧
  ((∃ e, findKernelMapping ms k = Err e) ↔
     Forall (mapping_skipped k) ms ∨
     ∃ ms1 m ms2, ms = ms1 ++ m :: ms2 ∧ Forall (mapping_skipped k) ms1 ∧
       ¬ mapping_matches k m ∧ ¬ mapping_skipped k m) ∧
  (∀ w, findKernelMapping ms k ≠ Panic w).
Proof.
  split_and!; [intros m; apply findKernelMapping_Ok|apply findKernelMapping_fails|].
  intros w. apply findKernelMapping_no_panic.
Qed.

(** C14: the data produced for a Module and a kernel are those of the
    mapping chosen: its registry TLS options and container image when set,
    the Module's otherwise, the merged build and sign settings, and the
    image after substitution of the kernel's variables. *)
Theorem GetModuleLoaderDataForKernel_spec m k mld :
  GetModuleLoaderDataForKernel m k = Ok mld ↔
  ∃ mapping env sign image,
    findKernelMapping (mlc_KernelMappings (mod_container m)) k = Ok mapping ∧
    KernelComponentsAsEnvVars k = Ok env ∧
    match mergeSign (mlc_Sign (mod_container m)) (km_Sign mapping) with
    | None => sign = None
    | Some _ => ∃ s, sign = Some s ∧
        GetRelevantSign (mlc_Sign (mod_container m)) (km_Sign mapping) k = Ok s
    end ∧
    envsubst env (effective_image mapping (mod_container m)) = Ok image ∧
    mld = mld_of_mapping mapping m k sign image.
Proof. apply GetModuleLoaderDataForKernel_Ok. Qed.

(** C38: computing the data of a kernel panics exactly when some mapping
    applies to the kernel and its version has fewer than three components
    separated by dots, commas or dashes. *)
Theorem GetModuleLoaderDataForKernel_panic m k :
  (∃ w, GetModuleLoaderDataForKernel m k = Panic w) ↔
  length (str_split kernelRegexp k) < 3 ∧
  ∃ mapping, findKernelMapping (mlc_KernelMappings (mod_container m)) k = Ok mapping.
Proof. apply GetModuleLoaderDataForKernel_panics. Qed.
End kernelmapper.

(** ** Witnesses *)

Lemma findKernelMapping_spec_witness :
  ∃ ms1 ms2, [Ex.mapping] = ms1 ++ Ex.mapping :: ms2 ∧
    Forall (mapping_skipped (R := regexp_substring) Ex.kernel) ms1.
Proof.
  destruct (proj1 (proj1 (findKernelMapping_spec (R := regexp_substring) [Ex.mapping] Ex.kernel) Ex.mapping)
              eq_refl) as (ms1 & ms2 & H1 & _ & H2).
  exists ms1, ms2. exact (conj H1 H2).
Defined.

Lemma GetModuleLoaderDataForKernel_spec_witness :
  ∃ mld mapping,
    GetModuleLoaderDataForKernel (R := regexp_substring) (E := envsubst_id) Ex.module Ex.kernel = Ok mld ∧
    findKernelMapping (R := regexp_substring) (mlc_KernelMappings (mod_container Ex.module)) Ex.kernel
      = Ok mapping.
Proof.
  destruct (GetModuleLoaderDataForKernel (R := regexp_substring) (E := envsubst_id) Ex.module Ex.kernel)
    as [mld|e|w] eqn:H; [|discriminate H..].
  destruct (proj1 (GetModuleLoaderDataForKernel_spec (R := regexp_substring) (E := envsubst_id)
              Ex.module Ex.kernel mld) H) as (mapping & env & sign & image & Hm & _).
  exists mld, mapping. exact (conj eq_refl Hm).
Defined.

Lemma GetModuleLoaderDataForKernel_panic_witness :
  ∃ w, GetModuleLoaderDataForKernel (R := regexp_substring) (E := envsubst_id) Ex.module "el9" = Panic w.
Proof.
  refine (proj2 (GetModuleLoaderDataForKernel_panic (R := regexp_substring) (E := envsubst_id)
            Ex.module "el9") _).
  split; [vm_compute; lia|]. eexists. reflexivity.
Defined.
