(* ===== verification/DaemonSet.v ===== *)
(** * internal/daemonset

    The DaemonSets of a Module: one per kernel version for the module loader
    and one for the device plugin, told apart by the kernel label. *)

From S2P Require Import Prelude Prog K8s Api Client.
From stdpp Require Import options.

Local Open Scope go_scope.

Definition kubeletDevicePluginsVolumeName := "kubelet-device-plugins".
Definition kubeletDevicePluginsPath := "/var/lib/kubelet/device-plugins".
Definition nodeLibModulesVolumeName := "node-lib-modules".
Definition nodeVarLibFirmwarePath := "/var/lib/firmware".
Definition nodeVarLibFirmwareVolumeName := "node-var-lib-firmware".
Definition devicePluginKernelVersion := "".
Definition HostPathDirectory := "Directory".
Definition HostPathDirectoryOrCreate := "DirectoryOrCreate".

(** ** Helpers *)

(** A copy of a map with the same entries. *)
Definition CopyMapStringString (m : strmap) : strmap := m.

Definition getDriverContainerNodeLabel (moduleName : string) : string :=
  "kmm.node.kubernetes.io/" +:+ moduleName +:+ ".ready".

Definition getDevicePluginNodeLabel (moduleName : string) : string :=
  "kmm.node.kubernetes.io/" +:+ moduleName +:+ ".device-plugin-ready".

Definition IsDevicePluginKernelVersion (kernelVersion : string) : bool :=
  bool_decide (kernelVersion = devicePluginKernelVersion).

Definition GetDevicePluginKernelVersion : string := devicePluginKernelVersion.

Definition GetPodPullSecrets (secret : option LocalObjectReference) : list LocalObjectReference :=
  match secret with None => [] | Some s => [s] end.

(** Every override is written over the labels; a nil map becomes a new one. *)
Definition OverrideLabels (labels : option strmap) (overrides : strmap) : strmap :=
  overrides ∪ default ∅ labels.

(** The loops that append [' ' + arg] to the command. *)
Definition write_args (args : list string) : string :=
  foldr (λ arg acc, " " +:+ arg +:+ acc) "" args.

Definition args_of (sel : ModprobeArgs → list string) (a : option ModprobeArgs) : list string :=
  match a with Some a => sel a | None => [] end.

Definition MakeLoadCommand (spec : ModprobeSpec) (modName : string) : list string :=
  let fw := FirmwarePath spec in
  let loadCommand :=
    (if bool_decide (fw = "") then ""
     else "cp -r " +:+ fw +:+ "/* " +:+ nodeVarLibFirmwarePath +:+ " && ") +:+ "modprobe" in
  let rawArgs := args_of Load (RawArgs spec) in
  if negb (is_nil rawArgs) then ["/bin/sh"; "-c"; loadCommand +:+ write_args rawArgs]
  else
    let args := args_of Load (Args spec) in
    ["/bin/sh"; "-c";
     loadCommand
       +:+ (if is_nil args then " -v" else write_args args)
       +:+ (if bool_decide (DirName spec = "") then "" else " -d " +:+ DirName spec)
       +:+ " " +:+ ModuleName spec
       +:+ write_args (Parameters_ spec)].

(** The removal of the firmware is written inside the loop over the raw
    arguments, once after each of them. *)
Definition write_raw_unload (fwUnloadCommand : string) (args : list string) : string :=
  foldr (λ arg acc, " " +:+ arg +:+ fwUnloadCommand +:+ acc) "" args.

Definition MakeUnloadCommand (spec : ModprobeSpec) (modName : string) : list string :=
  let fw := FirmwarePath spec in
  let fwUnloadCommand :=
    if bool_decide (fw = "") then ""
    else " && cd " +:+ fw +:+ " && find |sort -r |xargs -I{} rm -d "
           +:+ nodeVarLibFirmwarePath +:+ "/{}" in
  let rawArgs := args_of Unload (RawArgs spec) in
  if negb (is_nil rawArgs)
  then ["/bin/sh"; "-c"; "modprobe" +:+ write_raw_unload fwUnloadCommand rawArgs]
  else
    let args := args_of Unload (Args spec) in
    ["/bin/sh"; "-c";
     "modprobe"
       +:+ (if is_nil args then " -rv" else write_args args)
       +:+ (if bool_decide (DirName spec = "") then "" else " -d " +:+ DirName spec)
       +:+ " " +:+ ModuleName spec
       +:+ fwUnloadCommand].

Section daemonset.
(** The label that holds the kernel version, an argument of NewCreator. *)
Variable kernelLabel : string.

(** ** Reading the DaemonSets *)

Definition ds_kernel (ds : DaemonSet) : string := omap_get (om_Labels (ds_meta ds)) kernelLabel.

Definition isDevicePluginDaemonSet (ds : DaemonSet) : bool := bool_decide (ds_kernel ds = "").

Definition moduleDaemonSets (name namespace : string) : M (result (list DaemonSet)) :=
  try dsList := List_ KDaemonSet (mk_listopts (Some namespace) (Some {[ ModuleNameLabel := name ]}))
    catch err => Ret (Err (errorf ("could not list DaemonSets: " +:+ Error err))) in
  Ret (Ok dsList).

(** The loop over the list, for the map from kernel version to DaemonSet. *)
Fixpoint by_kernel (dsList : list DaemonSet) (dsByKernelVersion : gmap string DaemonSet)
    : result (gmap string DaemonSet) :=
  match dsList with
  | [] => Ok dsByKernelVersion
  | ds :: dsList =>
      let kernelVersion := ds_kernel ds in
      if isSome (dsByKernelVersion !! kernelVersion)
      then Err (errorf ("multiple DaemonSets found for kernel " +:+ go_quote kernelVersion))
      else by_kernel dsList (<[kernelVersion := ds]> dsByKernelVersion)
  end.

Definition ModuleDaemonSetsByKernelVersion (name namespace : string)
    : M (result (gmap string DaemonSet)) :=
  try dsList := moduleDaemonSets name namespace
    catch err => Ret (Err (errorf_w "could not get all DaemonSets: " err)) in
  Ret (by_kernel dsList ∅).

Definition GetNodeLabelFromPod (pod : Pod) (moduleName : string) : string :=
  let kernelVersion := omap_get (om_Labels (pod_meta pod)) kernelLabel in
  if bool_decide (kernelVersion = devicePluginKernelVersion)
  then getDevicePluginNodeLabel moduleName
  else getDriverContainerNodeLabel moduleName.

(** ** Garbage collection *)

Context {MO : MapOrder}.

Definition GarbageCollect (existingDS : gmap string DaemonSet) (validKernels : gset string)
    : M (result (list string)) :=
  prog_bind (λ c, match c with Next deleted => Ret (Ok deleted) | Return r => Ret r end)
    (range_loop (range_map existingDS)
       (λ '(kernelVersion, ds) deleted,
          if negb (isDevicePluginDaemonSet ds) && negb (bool_decide (kernelVersion ∈ validKernels))
          then try _ := Delete KDaemonSet ds false
                 catch err => Ret (Return (Err (errorf ("could not delete DaemonSet "
                                 +:+ om_Name (ds_meta ds) +:+ ": " +:+ Error err)))) in
               Ret (Next (deleted ++ [om_Name (ds_meta ds)]))
          else Ret (Next deleted)) []).

(** ** Desired state *)

Definition driver_container (mld : ModuleLoaderData) : Container :=
  let nodeLibModulesPath := "/lib/modules/" +:+ mld_KernelVersion mld in
  {| ctr_Name := "module-loader";
     ctr_Image := mld_ContainerImage mld;
     ctr_Command := ["sleep"; "infinity"];
     ctr_Args := [];
     ctr_Env := [];
     ctr_ImagePullPolicy := mld_ImagePullPolicy mld;
     ctr_Resources := "";
     ctr_Lifecycle := Some (mk_lifecycle (MakeLoadCommand (mld_Modprobe mld) (mld_Name mld))
                                         (MakeUnloadCommand (mld_Modprobe mld) (mld_Name mld)));
     ctr_SecurityContext := Some {| sc_AllowPrivilegeEscalation := Some false;
                                    sc_CapabilitiesAdd := ["SYS_MODULE"];
                                    sc_RunAsUser := Some 0%Z;
                                    sc_SELinuxType := Some "spc_t";
                                    sc_Privileged := None |};
     ctr_VolumeMounts :=
       mk_mount nodeLibModulesVolumeName true nodeLibModulesPath ::
       (if bool_decide (FirmwarePath (mld_Modprobe mld) = "") then []
        else [mk_mount nodeVarLibFirmwareVolumeName false nodeVarLibFirmwarePath]) |}.

Definition driver_volumes (mld : ModuleLoaderData) : list Volume :=
  let nodeLibModulesPath := "/lib/modules/" +:+ mld_KernelVersion mld in
  mk_volume nodeLibModulesVolumeName (VolHostPath nodeLibModulesPath HostPathDirectory) ::
  (if bool_decide (FirmwarePath (mld_Modprobe mld) = "") then []
   else [mk_volume nodeVarLibFirmwareVolumeName
           (VolHostPath nodeVarLibFirmwarePath HostPathDirectoryOrCreate)]).

Definition with_default_sa (sa default_ : string) (useDefaultSA : bool) : string :=
  if bool_decide (sa = "") then if useDefaultSA then default_ else sa else sa.

(** The map [standardLabels]. *)
Definition driver_labels (mld : ModuleLoaderData) : strmap :=
  <[ kernelLabel := mld_KernelVersion mld ]> {[ ModuleNameLabel := mld_Name mld ]}.

(** The spec of a driver container's DaemonSet. *)
Definition driver_spec (mld : ModuleLoaderData) (useDefaultSA : bool) : DaemonSetSpec :=
  let kernelVersion := mld_KernelVersion mld in
  let standardLabels := driver_labels mld in
  let nodeSelector := <[ kernelLabel := kernelVersion ]> (CopyMapStringString (mld_Selector mld)) in
  {| dss_Template := {|
       pt_meta := mk_meta "" "" "" "" (Some standardLabels) None [] [NodeLabelerFinalizer] None 0;
       pt_spec := {|
         ps_Containers := [driver_container mld];
         ps_ImagePullSecrets := GetPodPullSecrets (mld_ImageRepoSecret mld);
         ps_NodeSelector := nodeSelector;
         ps_PriorityClassName := "system-node-critical";
         ps_ServiceAccountName :=
           with_default_sa (mld_ServiceAccountName mld) "kmm-operator-module-loader" useDefaultSA;
         ps_RestartPolicy := "";
         ps_Volumes := driver_volumes mld |} |};
     dss_Selector := Some standardLabels |}.

Definition SetDriverContainerAsDesired (ds : option DaemonSet) (mld : ModuleLoaderData)
    (useDefaultSA : bool) : result DaemonSet :=
  match ds with
  | None => Err (errorf "ds cannot be nil")
  | Some ds =>
      if bool_decide (mld_ContainerImage mld = "")
      then Err (errorf "container image cannot be empty") else
      if bool_decide (mld_KernelVersion mld = "")
      then Err (errorf "kernelVersion cannot be empty") else
      let standardLabels := driver_labels mld in
      let meta := set_labels (Some (OverrideLabels (om_Labels (ds_meta ds)) standardLabels))
                    (ds_meta ds) in
      meta' ← SetControllerReference (mld_Owner mld) meta;
      Ok (mk_ds meta' (driver_spec mld useDefaultSA) (ds_NumberAvailable ds))
  end.

(** The labels and the spec of the device plugin's DaemonSet. *)
Definition device_plugin_labels (m : Module_) : strmap := {[ ModuleNameLabel := mod_Name m ]}.
Definition device_plugin_spec (m : Module_) (dp : DevicePluginSpec) (useDefaultSA : bool) : DaemonSetSpec :=
  let c := dp_Container dp in
  let containerVolumeMounts :=
    [mk_mount kubeletDevicePluginsVolumeName false kubeletDevicePluginsPath] in
  let devicePluginVolume :=
    mk_volume kubeletDevicePluginsVolumeName (VolHostPath kubeletDevicePluginsPath HostPathDirectory) in
  let standardLabels := device_plugin_labels m in
  {| dss_Selector := Some standardLabels;
     dss_Template := {|
       pt_meta := mk_meta "" "" "" "" (Some standardLabels) None [] [NodeLabelerFinalizer] None 0;
       pt_spec := {|
         ps_Containers := [{|
           ctr_Name := "device-plugin";
           ctr_Image := dpc_Image c;
           ctr_Command := dpc_Command c;
           ctr_Args := dpc_Args c;
           ctr_Env := dpc_Env c;
           ctr_ImagePullPolicy := dpc_ImagePullPolicy c;
           ctr_Resources := dpc_Resources c;
           ctr_Lifecycle := None;
           ctr_SecurityContext := Some (mk_sc None [] None None (Some true));
           ctr_VolumeMounts := dpc_VolumeMounts c ++ containerVolumeMounts |}];
         ps_ImagePullSecrets := GetPodPullSecrets (ImageRepoSecret (mod_Spec m));
         ps_NodeSelector := {[ getDriverContainerNodeLabel (mod_Name m) := "" ]};
         ps_PriorityClassName := "system-node-critical";
         ps_ServiceAccountName :=
           with_default_sa (dp_ServiceAccountName dp) "kmm-operator-device-plugin" useDefaultSA;
         ps_RestartPolicy := "";
         ps_Volumes := devicePluginVolume :: dp_Volumes dp |} |} |}.

Definition SetDevicePluginAsDesired (ds : option DaemonSet) (m : Module_) (useDefaultSA : bool)
    : result DaemonSet :=
  match ds with
  | None => Err (errorf "ds cannot be nil")
  | Some ds =>
      match DevicePlugin (mod_Spec m) with
      | None => Err (errorf "device plugin in module should not be nil")
      | Some dp =>
          let standardLabels := device_plugin_labels m in
          let meta := set_labels (Some (OverrideLabels (om_Labels (ds_meta ds)) standardLabels))
                        (ds_meta ds) in
          meta' ← SetControllerReference (as_owner m) meta;
          Ok (mk_ds meta' (device_plugin_spec m dp useDefaultSA) (ds_NumberAvailable ds))
      end
  end.

(** ** Facts *)

Lemma by_kernel_Ok l m r :
  by_kernel l m = Ok r ↔
  NoDup (ds_kernel <$> l) ∧ Forall (λ ds, m !! ds_kernel ds = None) l ∧
  r = list_to_map ((λ ds, (ds_kernel ds, ds)) <$> l) ∪ m.
Proof.
  revert m. induction l as [|ds l IH]; intros m; simpl.
  - rewrite (left_id_L ∅ (∪)). split; [intros [= <-]|by intros (_ & _ & ->)].
    split_and!; [constructor|constructor|done].
  - destruct (m !! ds_kernel ds) as [x|] eqn:E; simpl.
    + split; [done|]. intros (_ & H1 & _). apply Forall_cons in H1 as [H1 _]. congruence.
    + rewrite IH, NoDup_cons, Forall_cons.
      split.
      * intros (Hnd & Hf & ->).
        assert (ds_kernel ds ∉ ds_kernel <$> l) as Hni.
        { intros (y & Hy & Hin)%list_elem_of_fmap. rewrite Forall_forall in Hf.
          specialize (Hf y Hin). rewrite <-Hy, lookup_insert_eq in Hf. done. }
        split_and!; [done..| |].
        -- eapply Forall_impl; [exact Hf|]. intros y Hy. simpl in Hy.
           apply lookup_insert_None in Hy. tauto.
        -- rewrite <-insert_union_r, insert_union_l; [done|].
           apply not_elem_of_list_to_map_1. by rewrite <-list_fmap_compose.
      * intros ((Hni & Hnd) & (_ & Hf) & ->). split_and!; [done| |].
        -- apply Forall_forall. intros y Hy. rewrite Forall_forall in Hf.
           apply lookup_insert_None. split; [by apply Hf|]. intros Heq. apply Hni.
           rewrite Heq. by apply list_elem_of_fmap_2.
        -- rewrite <-insert_union_r, insert_union_l; [done|].
           apply not_elem_of_list_to_map_1. by rewrite <-list_fmap_compose.
Qed.

Lemma by_kernel_lookup l m k ds : by_kernel l ∅ = Ok m → m !! k = Some ds → ds_kernel ds = k ∧ ds ∈ l.
Proof.
  intros (_ & _ & ->)%by_kernel_Ok. rewrite (right_id_L ∅ (∪)).
  intros Hk%elem_of_list_to_map_2. apply list_elem_of_fmap in Hk as (x & ? & Hx). by simplify_eq.
Qed.

Lemma by_kernel_no_panic l m w : by_kernel l m ≠ Panic w.
Proof.
  revert m. induction l as [|ds l IH]; intros m; simpl; [done|]. by destruct (isSome _).
Qed.

(** Listing the DaemonSets, for the callers. *)
Lemma wp_ModuleDaemonSetsByKernelVersion ok name namespace
    (Q : outcome (result (gmap string DaemonSet)) → hist → Prop) h :
  (∀ opts, ok h (RList KDaemonSet opts)) →
  (∀ o h', h `prefix_of` h' →
     (∀ dss, o = Done (Ok dss) → ∀ k ds, dss !! k = Some ds → ds_kernel ds = k) → Q o h') →
  wp ok (ModuleDaemonSetsByKernelVersion name namespace) Q h.
Proof.
  intros Hok HQ. unfold ModuleDaemonSetsByKernelVersion, moduleDaemonSets.
  do 2 apply wp_bind. split; [apply Hok|].
  intros [l|e|w]; apply HQ; try (by apply prefix_app_r); try done.
  intros dss [= Hby] k ds Hk. by eapply by_kernel_lookup.
Qed.

(** The DaemonSets to delete, in the order of the enumeration. *)
Definition is_garbage (validKernels : gset string) (p : string * DaemonSet) : bool :=
  negb (isDevicePluginDaemonSet p.2) && negb (bool_decide (p.1 ∈ validKernels)).
Definition garbage (existingDS : gmap string DaemonSet) (validKernels : gset string)
    : list DaemonSet := (List.filter (is_garbage validKernels) (range_map existingDS)).*2.

Lemma elem_of_garbage existing valid ds :
  ds ∈ garbage existing valid ↔
  ∃ k, existing !! k = Some ds ∧ ds_kernel ds ≠ "" ∧ k ∉ valid.
Proof.
  unfold garbage. rewrite list_elem_of_fmap. split.
  - intros ([k d] & -> & Hin%list_elem_of_In). apply List.filter_In in Hin as [Hin Hg].
    apply list_elem_of_In, elem_of_range_map in Hin. exists k. split; [done|].
    unfold is_garbage, isDevicePluginDaemonSet in Hg. simpl in *.
    apply andb_prop in Hg as [H1 H2]. apply negb_true_iff, bool_decide_eq_false in H1, H2. done.
  - intros (k & Hk & Hd & Hv). exists (k, ds). split; [done|].
    apply list_elem_of_In, List.filter_In. split; [by apply list_elem_of_In, elem_of_range_map|].
    unfold is_garbage, isDevicePluginDaemonSet. simpl. by rewrite !bool_decide_false.
Qed.

Definition deleted_event (ds : DaemonSet) : @event req ans :=
  Ev (RDelete KDaemonSet ds false) (Ok tt).

Definition gc_post (existing : gmap string DaemonSet) (valid : gset string)
    (o : outcome (result (list string))) (tr : hist) : Prop :=
  let g := garbage existing valid in
  match o with
  | Done (Ok names) => tr = deleted_event <$> g ∧ names = (λ ds, om_Name (ds_meta ds)) <$> g
  | Done (Err e) => ∃ g1 ds g2 e', g = g1 ++ ds :: g2 ∧
      tr = (deleted_event <$> g1) ++ [Ev (RDelete KDaemonSet ds false) (Err e')] ∧
      e = errorf ("could not delete DaemonSet " +:+ om_Name (ds_meta ds) +:+ ": " +:+ Error e')
  | _ => ∃ g1 ds g2 w, g = g1 ++ ds :: g2 ∧
      tr = (deleted_event <$> g1) ++ [Ev (RDelete KDaemonSet ds false) (Panic w)]
  end.

Lemma wp_GarbageCollect existing valid ok (Q : outcome (result (list string)) → hist → Prop) h :
  (∀ h' ds, h `prefix_of` h' → ds ∈ garbage existing valid →
     ok h' (RDelete KDaemonSet ds false)) →
  (∀ o tr, gc_post existing valid o tr → Q o (h ++ tr)) →
  wp ok (GarbageCollect existing valid) Q h.
Proof.
  intros Hok HQ. unfold GarbageCollect. apply wp_bind.
  set (gl l := (List.filter (is_garbage valid) l).*2).
  assert (∀ l x r, range_map existing = l ++ x :: r → is_garbage valid x = true →
    garbage existing valid = gl l ++ x.2 :: gl r) as Hsplit.
  { intros l x r Heq Hx. unfold garbage, gl. rewrite Heq, List.filter_app. simpl. rewrite Hx.
    by rewrite fmap_app. }
  assert (∀ l x, gl (l ++ [x]) = gl l ++ (if is_garbage valid x then [x.2] else [])) as Hsnoc.
  { intros l x. unfold gl. rewrite List.filter_app, fmap_app. simpl. by destruct (is_garbage _ x). }
  eapply (wp_range_loop _ _ _ _ (λ l deleted h',
    h' = h ++ (deleted_event <$> gl l) ∧ deleted = (λ ds, om_Name (ds_meta ds)) <$> gl l)).
  - simpl. by rewrite app_nil_r.
  - intros l [k ds] r deleted h' Heq [-> ->].
    destruct (is_garbage valid (k, ds)) eqn:Hg.
    + specialize (Hsplit l (k, ds) r Heq Hg). unfold is_garbage in Hg. simpl in Hg, Hsplit |- *.
      rewrite Hg. split.
      { apply Hok; [by apply prefix_app_r|]. rewrite Hsplit. set_solver. }
      intros [[]|e|w]; simpl.
      * rewrite Hsnoc. unfold is_garbage. simpl. rewrite Hg, !fmap_app. by rewrite <-app_assoc.
      * rewrite <-app_assoc. apply HQ. simpl. by exists (gl l), ds, (gl r), e.
      * rewrite <-app_assoc. apply HQ. simpl. by exists (gl l), ds, (gl r), w.
    + unfold is_garbage in Hg. simpl in Hg |- *. rewrite Hg. simpl.
      rewrite Hsnoc. unfold is_garbage. simpl. by rewrite Hg, app_nil_r.
  - intros deleted h' [-> ->]. by apply HQ.
Qed.

Lemma OverrideLabels_lookup labels overrides k :
  OverrideLabels labels overrides !! k =
  match overrides !! k with Some v => Some v | None => omap_lookup labels k end.
Proof.
  unfold OverrideLabels. rewrite lookup_union.
  destruct (overrides !! k) eqn:E; simpl; [by rewrite union_Some_l|].
  rewrite (left_id_L None (∪)). by destruct labels.
Qed.

Lemma ds_kernel_driver_labels ds mld :
  om_Labels (ds_meta ds) = Some (OverrideLabels (om_Labels (ds_meta ds)) (driver_labels mld)) →
  ds_kernel ds = mld_KernelVersion mld.
Proof.
  intros H. unfold ds_kernel, omap_get, map_get. rewrite H, OverrideLabels_lookup.
  unfold driver_labels. by rewrite lookup_insert_eq.
Qed.

(** What SetDriverContainerAsDesired makes of a DaemonSet. *)
Lemma SetDriverContainerAsDesired_Ok ds mld sa ds' :
  SetDriverContainerAsDesired (Some ds) mld sa = Ok ds' →
  mld_ContainerImage mld ≠ "" ∧ mld_KernelVersion mld ≠ "" ∧
  om_Name (ds_meta ds') = om_Name (ds_meta ds) ∧
  om_Namespace (ds_meta ds') = om_Namespace (ds_meta ds) ∧
  om_Labels (ds_meta ds') = Some (OverrideLabels (om_Labels (ds_meta ds)) (driver_labels mld)) ∧
  IsControlledBy (ds_meta ds') (mld_Owner mld) = true ∧
  dss_Selector (ds_Spec ds') = Some (driver_labels mld) ∧
  om_Labels (pt_meta (dss_Template (ds_Spec ds'))) = Some (driver_labels mld) ∧
  om_Finalizers (pt_meta (dss_Template (ds_Spec ds'))) = [NodeLabelerFinalizer] ∧
  ps_Containers (pt_spec (dss_Template (ds_Spec ds'))) = [driver_container mld] ∧
  ps_NodeSelector (pt_spec (dss_Template (ds_Spec ds'))) =
    <[ kernelLabel := mld_KernelVersion mld ]> (mld_Selector mld).
Proof.
  unfold SetDriverContainerAsDesired. repeat case_bool_decide; try done.
  rewrite result_bind_Ok. intros (m' & Hm & [= <-]). simpl.
  pose proof (SetControllerReference_controlled _ _ _ Hm) as Hc.
  apply SetControllerReference_fields in Hm as (? & ? & _ & ? & _). simpl in *.
  by split_and!.
Qed.

Lemma SetDriverContainerAsDesired_controlled ds mld sa ds' :
  SetDriverContainerAsDesired (Some ds) mld sa = Ok ds' → controlled_by (mld_Owner mld) (ds_meta ds').
Proof.
  unfold SetDriverContainerAsDesired. repeat case_bool_decide; try done.
  intros (m' & Hm & [= <-])%result_bind_Ok. by apply SetControllerReference_controlled_by in Hm.
Qed.
Lemma SetDevicePluginAsDesired_controlled ds m sa ds' :
  SetDevicePluginAsDesired (Some ds) m sa = Ok ds' → controlled_by (as_owner m) (ds_meta ds').
Proof.
  unfold SetDevicePluginAsDesired. destruct (DevicePlugin _); [|done].
  intros (m' & Hm & [= <-])%result_bind_Ok. by apply SetControllerReference_controlled_by in Hm.
Qed.

(** The status is none of the mutation's business. *)
Lemma SetDriverContainerAsDesired_status ds mld sa ds' :
  SetDriverContainerAsDesired (Some ds) mld sa = Ok ds' →
  ds_NumberAvailable ds' = ds_NumberAvailable ds.
Proof.
  unfold SetDriverContainerAsDesired. repeat case_bool_decide; try done.
  rewrite result_bind_Ok. by intros (m' & Hm & [= <-]).
Qed.

Lemma SetDevicePluginAsDesired_status ds m sa ds' :
  SetDevicePluginAsDesired (Some ds) m sa = Ok ds' →
  ds_NumberAvailable ds' = ds_NumberAvailable ds.
Proof.
  unfold SetDevicePluginAsDesired. destruct (DevicePlugin _); [|done].
  rewrite result_bind_Ok. by intros (m' & Hm & [= <-]).
Qed.

Lemma ds_kernel_driver ds mld sa ds' :
  SetDriverContainerAsDesired (Some ds) mld sa = Ok ds' → ds_kernel ds' = mld_KernelVersion mld.
Proof.
  intros H. apply SetDriverContainerAsDesired_Ok in H as (_ & _ & _ & _ & Hl & _).
  unfold ds_kernel, omap_get, map_get. rewrite Hl, OverrideLabels_lookup.
  unfold driver_labels. by rewrite lookup_insert_eq.
Qed.

Lemma driver_not_device_plugin ds mld sa ds' :
  SetDriverContainerAsDesired (Some ds) mld sa = Ok ds' → isDevicePluginDaemonSet ds' = false.
Proof.
  intros H. pose proof (ds_kernel_driver _ _ _ _ H) as Hk. unfold isDevicePluginDaemonSet.
  rewrite Hk. apply bool_decide_false.
  by apply SetDriverContainerAsDesired_Ok in H as (_ & ? & _).
Qed.

(** ** Properties *)

(** Against every API server, garbage collection deletes exactly the
    DaemonSets that carry a kernel label and whose kernel is not a valid
    one, in the order of the enumeration, each once, and reports their
    names; the first deletion that fails ends it with an error that names
    the DaemonSet, and it calls nothing else. *)
Theorem GarbageCollect_spec {S} (srv : kserver S) s existing valid :
  let p := GarbageCollect existing valid in
  gc_post existing valid (run_out srv p s) (run_trace srv p s) ∧
  (∀ ds, ds ∈ garbage existing valid ↔
     ∃ k, existing !! k = Some ds ∧ ds_kernel ds ≠ "" ∧ k ∉ valid).
Proof.
  simpl. split; [|intros ds; apply elem_of_garbage].
  eapply (wp_run (λ _ _, True)), wp_GarbageCollect; [done|]. by intros o tr.
Qed.

(** Listing the DaemonSets of a Module is one request, and its result
    is a map from kernel version to DaemonSet exactly when no two of the
    DaemonSets listed have the same kernel version; every DaemonSet listed
    is then in the map, under its kernel version. *)
Theorem ModuleDaemonSetsByKernelVersion_spec {S} (srv : kserver S) s name namespace :
  let q := RList KDaemonSet (mk_listopts (Some namespace) (Some {[ ModuleNameLabel := name ]})) in
  let p := ModuleDaemonSetsByKernelVersion name namespace in
  run_trace srv p s = [Ev q (srv q s).1] ∧
  ∀ dss, run_out srv p s = Done (Ok dss) ↔
    ∃ l, (srv q s).1 = Ok l ∧ NoDup (ds_kernel <$> l) ∧
         ∀ k ds, dss !! k = Some ds ↔ ds ∈ l ∧ k = ds_kernel ds.
Proof.
  simpl. unfold run_trace, run_out. simpl.
  destruct (srv _ s) as [[l|e|w] s1]; simpl; split; try done;
    [|intros dss; split; [done|by intros (? & ? & _)]..].
  intros dss. split.
  - intros [= H]. apply by_kernel_Ok in H as (Hnd & _ & ->). exists l. split_and!; [done..|].
    intros k ds. rewrite (right_id_L ∅ (∪)), <-elem_of_list_to_map.
    + rewrite list_elem_of_fmap. naive_solver.
    + by rewrite <-list_fmap_compose.
  - intros (l' & [= ->] & Hnd & Hdss). f_equal. apply by_kernel_Ok.
    split_and!; [done|by apply Forall_forall|].
    apply map_eq. intros k. apply option_eq. intros ds.
    rewrite Hdss, (right_id_L ∅ (∪)), <-elem_of_list_to_map.
    + rewrite list_elem_of_fmap. naive_solver.
    + by rewrite <-list_fmap_compose.
Qed.

(** C15: the DaemonSet set as desired for a kernel only runs on nodes that
    carry this kernel version and the rest of the Module's selector, its
    selector selects its own pods, its pods hold the node labeler's
    finalizer, the Module controls it, and it is found again under its
    kernel version and never taken for the device plugin's. *)
Theorem SetDriverContainerAsDesired_spec ds mld sa ds' :
  SetDriverContainerAsDesired (Some ds) mld sa = Ok ds' →
  let template := dss_Template (ds_Spec ds') in
  (∀ ls, labels_match (ps_NodeSelector (pt_spec template)) ls = true ↔
     omap_lookup ls kernelLabel = Some (mld_KernelVersion mld) ∧
     ∀ k v, mld_Selector mld !! k = Some v → k ≠ kernelLabel → omap_lookup ls k = Some v) ∧
  (∃ sel, dss_Selector (ds_Spec ds') = Some sel ∧
     labels_match sel (om_Labels (pt_meta template)) = true) ∧
  NodeLabelerFinalizer ∈ om_Finalizers (pt_meta template) ∧
  IsControlledBy (ds_meta ds') (mld_Owner mld) = true ∧
  ds_kernel ds' = mld_KernelVersion mld ∧ isDevicePluginDaemonSet ds' = false.
Proof.
  intros H. pose proof (ds_kernel_driver _ _ _ _ H) as Hk.
  pose proof (driver_not_device_plugin _ _ _ _ H) as Hd.
  apply SetDriverContainerAsDesired_Ok in H
    as (_ & _ & _ & _ & _ & Hc & Hsel & Hpl & Hf & _ & Hns). simpl.
  split_and!; try done.
  - intros ls. rewrite labels_match_spec, Hns. setoid_rewrite lookup_insert_Some. split.
    + intros Hl. split; [apply Hl; by left|]. intros k v Hkv Hne. apply Hl. by right.
    + intros [Hl1 Hl2] k v [[<- <-]|[? ?]]; eauto.
  - exists (driver_labels mld). split; [done|]. rewrite Hpl. by apply labels_match_spec.
  - rewrite Hf. set_solver.
Qed.

(** The device plugin's DaemonSet has no kernel of its own, so garbage
    collection leaves it alone, and it runs only on the nodes that carry the
    label the operator sets for ready module-loader pods of the Module. *)
Theorem SetDevicePluginAsDesired_spec ds m sa ds' pod :
  kernelLabel ≠ ModuleNameLabel →
  SetDevicePluginAsDesired (Some ds) m sa = Ok ds' →
  omap_get (om_Labels (pod_meta pod)) kernelLabel ≠ "" →
  ps_NodeSelector (pt_spec (dss_Template (ds_Spec ds'))) =
    {[ GetNodeLabelFromPod pod (mod_Name m) := "" ]} ∧
  ds_kernel ds' = ds_kernel ds ∧
  IsControlledBy (ds_meta ds') (as_owner m) = true ∧
  ∃ dp, DevicePlugin (mod_Spec m) = Some dp.
Proof.
  intros Hkl H Hpod. unfold SetDevicePluginAsDesired in H.
  destruct (DevicePlugin (mod_Spec m)) as [dp|] eqn:Hdp; [|done].
  apply result_bind_Ok in H as (m' & Hm & [= <-]). simpl.
  unfold GetNodeLabelFromPod. unfold devicePluginKernelVersion. rewrite bool_decide_false by done.
  pose proof (SetControllerReference_controlled _ _ _ Hm) as Hc.
  apply SetControllerReference_fields in Hm as (_ & _ & _ & Hl & _). simpl in *.
  split_and!; [done| |done|by eexists].
  unfold ds_kernel, omap_get, map_get. simpl. rewrite Hl, OverrideLabels_lookup.
  unfold device_plugin_labels. rewrite lookup_singleton_ne by congruence. unfold omap_lookup.
  by destruct (om_Labels (ds_meta ds)).
Qed.
End daemonset.

(** With several raw unload arguments and a firmware path, the commands
    that remove the firmware come after the first argument, in the middle of
    the modprobe command line. *)
Theorem MakeUnloadCommand_raw_args spec name a b rest raw :
  RawArgs spec = Some raw → Unload raw = a :: b :: rest → FirmwarePath spec ≠ "" →
  ∃ tail, MakeUnloadCommand spec name =
    ["/bin/sh"; "-c";
     "modprobe " +:+ a +:+ " && cd " +:+ FirmwarePath spec
       +:+ " && find |sort -r |xargs -I{} rm -d /var/lib/firmware/{} " +:+ b +:+ tail].
Proof.
  intros Hr Hu Hf. unfold MakeUnloadCommand. rewrite Hr. simpl. rewrite Hu. simpl.
  rewrite bool_decide_false by done. eexists.
  rewrite !str_app_assoc. simpl. rewrite ?str_app_assoc. reflexivity.
Qed.

(** ** Examples *)

Lemma SetDriverContainerAsDesired_spec_witness :
  ∃ ds', SetDriverContainerAsDesired KernelLabel (Some Ex.ds) Ex.mld true = Ok ds' ∧
    ds_kernel KernelLabel ds' = "5.14.0-70.el9" ∧ isDevicePluginDaemonSet KernelLabel ds' = false.
Proof.
  eexists. split; [reflexivity|].
  pose proof (SetDriverContainerAsDesired_spec KernelLabel Ex.ds Ex.mld true _ eq_refl) as H.
  apply H.
Defined.

Lemma SetDevicePluginAsDesired_spec_witness :
  ∃ ds', SetDevicePluginAsDesired (Some Ex.ds) Ex.module true = Ok ds' ∧
    ps_NodeSelector (pt_spec (dss_Template (ds_Spec ds'))) =
      {[ "kmm.node.kubernetes.io/nvidia.ready" := "" ]}.
Proof.
  eexists. split; [reflexivity|].
  refine (proj1 (SetDevicePluginAsDesired_spec KernelLabel Ex.ds Ex.module true _
           (mk_pod (set_labels (Some {[ KernelLabel := "5.14.0" ]}) empty_meta) "node" []) _ _ _));
    [done|reflexivity|done].
Defined.

Lemma MakeUnloadCommand_raw_args_witness :
  ∃ tail, MakeUnloadCommand
    (mk_modprobe "nvidia" [] "" None (Some (mk_modprobeargs [] ["-r"; "nvidia"])) "/fw") "m" =
    ["/bin/sh"; "-c";
     "modprobe -r && cd /fw && find |sort -r |xargs -I{} rm -d /var/lib/firmware/{} nvidia"
       +:+ tail].
Proof.
  apply (MakeUnloadCommand_raw_args
    (mk_modprobe "nvidia" [] "" None (Some (mk_modprobeargs [] ["-r"; "nvidia"])) "/fw")
    "m" "-r" "nvidia" [] (mk_modprobeargs [] ["-r"; "nvidia"])); done.
Defined.

(** The DaemonSet of a kernel that is gone. *)
Definition ex_old_ds : DaemonSet :=
  new_daemonset (set_labels (Some {[ KernelLabel := "4.18.0" ]}) (meta_named "nvidia-old" "gpu")).

Lemma GarbageCollect_spec_witness :
  ex_old_ds ∈ garbage (MO := map_order_std) KernelLabel {[ "4.18.0" := ex_old_ds ]} {[ Ex.kernel ]}.
Proof.
  refine (proj2 (proj2 (GarbageCollect_spec (MO := map_order_std) KernelLabel (stateless accept) tt
            {[ "4.18.0" := ex_old_ds ]} {[ Ex.kernel ]}) ex_old_ds) _).
  exists "4.18.0". split; [reflexivity|]. split; [discriminate|].
  intros H%elem_of_singleton. discriminate H.
Defined.
