(* ===== verification/SyncMap.v ===== *)
(** * internal/syncronizedmap

    The mapping from kernel version to OS image and from OS image to driver
    toolkit image that the node, image-stream and preflight controllers share.
    First the operations on the two maps, one at a time; then the same
    operations as threads that take the two read-write mutexes, in every
    interleaving, with the proof that they behave as if each ran at one
    moment. *)

From S2P Require Import Prelude.
From stdpp Require Import options.

(** ** The operations, sequentially *)

Record kernelOsDtkMapping := mk_mapping_state {
  kernelToOs : gmap string string;
  osToDtk : gmap string string }.

Definition NewKernelOsDtkMapping : kernelOsDtkMapping := mk_mapping_state ∅ ∅.

Definition SetNodeInfo (kernelVersion osImage : string) (skom : kernelOsDtkMapping)
    : kernelOsDtkMapping :=
  mk_mapping_state (<[kernelVersion := osImage]> (kernelToOs skom)) (osToDtk skom).

Definition SetImageStreamInfo (osImage dtkImage : string) (skom : kernelOsDtkMapping)
    : kernelOsDtkMapping :=
  mk_mapping_state (kernelToOs skom) (<[osImage := dtkImage]> (osToDtk skom)).

Definition ErrNoKernel (kernelVersion : string) : error :=
  errorf ("could not find kernel " +:+ kernelVersion +:+ " in kernel --> OS mapping").
Definition ErrNoOs (osImage : string) : error :=
  errorf ("could not find osImage " +:+ osImage +:+ " in OS --> DTK mapping").

Definition GetImage (kernelVersion : string) (skom : kernelOsDtkMapping) : result string :=
  match kernelToOs skom !! kernelVersion with
  | None => Err (ErrNoKernel kernelVersion)
  | Some osImage =>
      match osToDtk skom !! osImage with
      | None => Err (ErrNoOs osImage)
      | Some dtk => Ok dtk
      end
  end.

Inductive op :=
  | OpSetNodeInfo (kernelVersion osImage : string)
  | OpSetImageStreamInfo (osImage dtkImage : string)
  | OpGetImage (kernelVersion : string).

(** One call, at one moment: its answer ([None] for the setters) and the
    state it leaves. *)
Definition seq_step (o : op) (m : kernelOsDtkMapping) : option (result string) * kernelOsDtkMapping :=
  match o with
  | OpSetNodeInfo k os => (None, SetNodeInfo k os m)
  | OpSetImageStreamInfo os d => (None, SetImageStreamInfo os d m)
  | OpGetImage k => (Some (GetImage k m), m)
  end.

(** ** The same operations as threads *)

(** sync.RWMutex: how many readers hold it, and whether a writer does. *)
Record RWMutex := mk_rwmutex { readers : nat; writer : bool }.
Definition unlocked : RWMutex := mk_rwmutex 0 false.
Definition can_lock (m : RWMutex) : Prop := readers m = 0 ∧ writer m = false.
Definition can_rlock (m : RWMutex) : Prop := writer m = false.
Definition lock (m : RWMutex) : RWMutex := mk_rwmutex (readers m) true.
Definition unlock (m : RWMutex) : RWMutex := mk_rwmutex (readers m) false.
Definition rlock (m : RWMutex) : RWMutex := mk_rwmutex (S (readers m)) (writer m).
Definition runlock (m : RWMutex) : RWMutex := mk_rwmutex (pred (readers m)) (writer m).

Record shared := mk_shared {
  sh_maps : kernelOsDtkMapping;
  kernelToOsMutex : RWMutex;
  osToDtkMutext : RWMutex }.

(** Where a call stands.  The deferred unlocks run in reverse order. *)
Inductive pc :=
  | Start (o : op)
  | NodeLocked (k os : string) | NodeWritten
  | StreamLocked (os d : string) | StreamWritten
  | KernelRLocked (k : string) | KernelRead (k os : string) | OsRLocked (k os : string)
  | DtkRead (r : result string) | Returning (r : result string)
  | Finished (r : option (result string)).

(** One atomic action of a call; the label is the operation that takes
    effect in it, with its answer. *)
Inductive tstep : shared → pc → option (op * option (result string)) → shared → pc → Prop :=
  | ts_node_lock m km om k os : can_lock km →
      tstep (mk_shared m km om) (Start (OpSetNodeInfo k os)) None
            (mk_shared m (lock km) om) (NodeLocked k os)
  | ts_node_write m km om k os :
      tstep (mk_shared m km om) (NodeLocked k os) (Some (OpSetNodeInfo k os, None))
            (mk_shared (SetNodeInfo k os m) km om) NodeWritten
  | ts_node_unlock m km om :
      tstep (mk_shared m km om) NodeWritten None (mk_shared m (unlock km) om) (Finished None)
  | ts_stream_lock m km om os d : can_lock om →
      tstep (mk_shared m km om) (Start (OpSetImageStreamInfo os d)) None
            (mk_shared m km (lock om)) (StreamLocked os d)
  | ts_stream_write m km om os d :
      tstep (mk_shared m km om) (StreamLocked os d) (Some (OpSetImageStreamInfo os d, None))
            (mk_shared (SetImageStreamInfo os d m) km om) StreamWritten
  | ts_stream_unlock m km om :
      tstep (mk_shared m km om) StreamWritten None (mk_shared m km (unlock om)) (Finished None)
  | ts_get_rlock m km om k : can_rlock km →
      tstep (mk_shared m km om) (Start (OpGetImage k)) None
            (mk_shared m (rlock km) om) (KernelRLocked k)
  | ts_get_kernel m km om k os : kernelToOs m !! k = Some os →
      tstep (mk_shared m km om) (KernelRLocked k) None (mk_shared m km om) (KernelRead k os)
  | ts_get_no_kernel m km om k : kernelToOs m !! k = None →
      tstep (mk_shared m km om) (KernelRLocked k)
            (Some (OpGetImage k, Some (Err (ErrNoKernel k))))
            (mk_shared m km om) (Returning (Err (ErrNoKernel k)))
  | ts_get_os_rlock m km om k os : can_rlock om →
      tstep (mk_shared m km om) (KernelRead k os) None
            (mk_shared m km (rlock om)) (OsRLocked k os)
  | ts_get_dtk m km om k os r :
      r = match osToDtk m !! os with Some dtk => Ok dtk | None => Err (ErrNoOs os) end →
      tstep (mk_shared m km om) (OsRLocked k os) (Some (OpGetImage k, Some r))
            (mk_shared m km om) (DtkRead r)
  | ts_get_os_unlock m km om r :
      tstep (mk_shared m km om) (DtkRead r) None (mk_shared m km (runlock om)) (Returning r)
  | ts_get_unlock m km om r :
      tstep (mk_shared m km om) (Returning r) None
            (mk_shared m (runlock km) om) (Finished (Some r)).

(** The calls in progress and the log of the operations that took effect:
    which call, which operation, which answer. *)
Definition log := list (nat * op * option (result string)).
Record config := mk_config { cf_shared : shared; cf_threads : list pc; cf_log : log }.

Inductive step : config → config → Prop :=
  | step_thread sh ts lg i p l sh' p' :
      ts !! i = Some p → tstep sh p l sh' p' →
      step (mk_config sh ts lg)
           (mk_config sh' (<[i := p']> ts)
              (lg ++ match l with Some (o, r) => [(i, o, r)] | None => [] end)).

Definition initial (ops : list op) : config :=
  mk_config (mk_shared NewKernelOsDtkMapping unlocked unlocked) (Start <$> ops) [].

Definition reachable (ops : list op) (c : config) : Prop := rtc step (initial ops) c.

(** Running the log one operation at a time, checking every answer. *)
Fixpoint replay (lg : log) (m : kernelOsDtkMapping) : option kernelOsDtkMapping :=
  match lg with
  | [] => Some m
  | (_, o, r) :: lg =>
      let '(r', m') := seq_step o m in
      if decide (r = r') then replay lg m' else None
  end.

(** ** Locks *)

Definition holds_kernel_r (p : pc) : bool :=
  match p with
  | KernelRLocked _ | KernelRead _ _ | OsRLocked _ _ | DtkRead _ | Returning _ => true
  | _ => false
  end.
Definition holds_kernel_w (p : pc) : bool :=
  match p with NodeLocked _ _ | NodeWritten => true | _ => false end.
Definition holds_os_r (p : pc) : bool :=
  match p with OsRLocked _ _ | DtkRead _ => true | _ => false end.
Definition holds_os_w (p : pc) : bool :=
  match p with StreamLocked _ _ | StreamWritten => true | _ => false end.

Definition b2n (b : bool) : nat := if b then 1 else 0.
Definition count (f : pc → bool) (ts : list pc) : nat := foldr (λ p n, b2n (f p) + n) 0 ts.

Lemma count_insert f ts i p p' :
  ts !! i = Some p → count f (<[i := p']> ts) + b2n (f p) = count f ts + b2n (f p').
Proof.
  revert i. induction ts as [|t ts IH]; intros [|i] Hi; simplify_eq/=; [lia|].
  specialize (IH i Hi). lia.
Qed.

Lemma count_pos f ts i p : ts !! i = Some p → f p = true → 0 < count f ts.
Proof.
  revert i. induction ts as [|t ts IH]; intros [|i] Hi Hp; simplify_eq/=.
  - rewrite Hp. simpl. lia.
  - specialize (IH i Hi Hp). lia.
Qed.


Definition mutex_ok (m : RWMutex) (fr fw : pc → bool) (ts : list pc) : Prop :=
  readers m = count fr ts ∧ b2n (writer m) = count fw ts ∧ (writer m = true → readers m = 0).

(** A thread that has read the OS image of its kernel still sees it. *)
Definition pc_ok (m : kernelOsDtkMapping) (p : pc) : Prop :=
  match p with
  | KernelRead k os | OsRLocked k os => kernelToOs m !! k = Some os
  | _ => True
  end.

(** The operation a thread runs, and the answer it committed to. *)
Definition pc_op (o : op) (p : pc) : Prop :=
  match p with
  | Start o' => o' = o
  | NodeLocked k os => o = OpSetNodeInfo k os
  | StreamLocked os d => o = OpSetImageStreamInfo os d
  | KernelRLocked k | KernelRead k _ | OsRLocked k _ => o = OpGetImage k
  | _ => True
  end.
Definition committed (p : pc) : option (option (result string)) :=
  match p with
  | NodeWritten | StreamWritten => Some None
  | DtkRead r | Returning r => Some (Some r)
  | Finished r => Some r
  | _ => None
  end.

Definition log_of (i : nat) (lg : log) : log := List.filter (λ e, bool_decide (e.1.1 = i)) lg.

Record inv (ops : list op) (c : config) : Prop := {
  inv_kernel : mutex_ok (kernelToOsMutex (cf_shared c)) holds_kernel_r holds_kernel_w (cf_threads c);
  inv_os : mutex_ok (osToDtkMutext (cf_shared c)) holds_os_r holds_os_w (cf_threads c);
  inv_pc : Forall (pc_ok (sh_maps (cf_shared c))) (cf_threads c);
  inv_replay : replay (cf_log c) NewKernelOsDtkMapping = Some (sh_maps (cf_shared c));
  inv_length : length (cf_threads c) = length ops;
  inv_log : ∀ i o p, ops !! i = Some o → cf_threads c !! i = Some p →
    pc_op o p ∧
    log_of i (cf_log c) = match committed p with Some r => [(i, o, r)] | None => [] end }.

Lemma replay_app lg1 lg2 m :
  replay (lg1 ++ lg2) m = match replay lg1 m with Some m' => replay lg2 m' | None => None end.
Proof.
  revert m. induction lg1 as [|[[i o] r] lg1 IH]; intros m; simpl; [done|].
  destruct (seq_step o m) as [r' m']. by case_decide.
Qed.

(** Mutual exclusion: a writer of the kernel map excludes its readers. *)
Lemma mutex_exclusive m fr fw ts i j p q :
  mutex_ok m fr fw ts → ts !! i = Some p → fw p = true → ts !! j = Some q → fr q = false.
Proof.
  intros (H1 & H2 & H3) Hi Hp Hj. destruct (fr q) eqn:E; [|done].
  pose proof (count_pos fr ts j q Hj E). pose proof (count_pos fw ts i p Hi Hp).
  destruct (writer m); simpl in *; [|lia]. specialize (H3 eq_refl). lia.
Qed.

Lemma initial_inv ops : inv ops (initial ops).
Proof.
  assert (∀ f, (∀ o, f (Start o) = false) → count f (Start <$> ops) = 0) as Hc.
  { intros f Hf. induction ops as [|o ops IH]; simpl; [done|]. by rewrite Hf. }
  split; simpl; [by unfold mutex_ok; rewrite !Hc|by unfold mutex_ok; rewrite !Hc| |done|by rewrite length_fmap|].
  - apply Forall_fmap, Forall_forall. done.
  - intros i o p Ho. rewrite list_lookup_fmap, Ho. by intros [= <-].
Qed.

(** Each step keeps the locks consistent. *)
Lemma tstep_mutexes sh p l sh' p' ts i :
  ts !! i = Some p → tstep sh p l sh' p' →
  mutex_ok (kernelToOsMutex sh) holds_kernel_r holds_kernel_w ts →
  mutex_ok (osToDtkMutext sh) holds_os_r holds_os_w ts →
  mutex_ok (kernelToOsMutex sh') holds_kernel_r holds_kernel_w (<[i := p']> ts) ∧
  mutex_ok (osToDtkMutext sh') holds_os_r holds_os_w (<[i := p']> ts).
Proof.
  intros Hi Hstep (H1 & H2 & H3) (H4 & H5 & H6).
  pose proof (count_insert holds_kernel_r ts i p p' Hi) as C1.
  pose proof (count_insert holds_kernel_w ts i p p' Hi) as C2.
  pose proof (count_insert holds_os_r ts i p p' Hi) as C3.
  pose proof (count_insert holds_os_w ts i p p' Hi) as C4.
  unfold mutex_ok.
  destruct Hstep; unfold can_lock, can_rlock in *; simpl in *; destruct_all;
    destruct km as [kr kw], om as [or ow]; simpl in *; subst;
    repeat match goal with b : bool |- _ => destruct b end; simpl in *;
    repeat match goal with H : true = true → _ |- _ => specialize (H eq_refl) end;
    split_and!; try done; try lia.
Qed.

(** A step that changes the kernel map is taken by the writer, so no reader
    of it is under way. *)
Lemma tstep_pc_ok sh p l sh' p' ts i :
  ts !! i = Some p → tstep sh p l sh' p' →
  mutex_ok (kernelToOsMutex sh) holds_kernel_r holds_kernel_w ts →
  Forall (pc_ok (sh_maps sh)) ts → Forall (pc_ok (sh_maps sh')) (<[i := p']> ts).
Proof.
  intros Hi Hstep Hm Hf.
  assert (pc_ok (sh_maps sh) p) as Hp by (by eapply Forall_lookup_1).
  assert (Forall (pc_ok (sh_maps sh')) ts ∧ pc_ok (sh_maps sh') p') as [H1 H2];
    [|by apply Forall_insert].
  destruct Hstep; simpl in *; try (split; done).
  split; [|done]. apply Forall_lookup. intros j q Hj.
  pose proof (mutex_exclusive _ _ _ _ _ _ _ _ Hm Hi eq_refl Hj) as Hr.
  by destruct q.
Qed.

(** A step that takes effect is the sequential operation. *)
Lemma tstep_effect sh p l sh' p' :
  tstep sh p l sh' p' → pc_ok (sh_maps sh) p →
  match l with
  | Some (o, r) => seq_step o (sh_maps sh) = (r, sh_maps sh')
  | None => sh_maps sh' = sh_maps sh
  end.
Proof.
  intros Hstep Hp. destruct Hstep; simpl in *; try done.
  - unfold GetImage. by rewrite H.
  - unfold GetImage. by rewrite Hp, H.
Qed.

Lemma tstep_log sh p l sh' p' o :
  tstep sh p l sh' p' → pc_op o p →
  pc_op o p' ∧
  match l with
  | Some (o', r) => o' = o ∧ committed p = None ∧ committed p' = Some r
  | None => committed p' = committed p
  end.
Proof. intros Hstep Hp. destruct Hstep; simpl in *; subst; done. Qed.

Lemma log_of_app i lg1 lg2 : log_of i (lg1 ++ lg2) = log_of i lg1 ++ log_of i lg2.
Proof. apply List.filter_app. Qed.

Lemma step_inv ops c c' : inv ops c → step c c' → inv ops c'.
Proof.
  intros [Hk Ho Hpc Hre Hlen Hlog] Hstep. destruct Hstep as [sh ts lg i p l sh' p' Hi Hst].
  simpl in *.
  destruct (tstep_mutexes _ _ _ _ _ _ _ Hi Hst Hk Ho) as [Hk' Ho'].
  pose proof (tstep_pc_ok _ _ _ _ _ _ _ Hi Hst Hk Hpc) as Hpc'.
  assert (pc_ok (sh_maps sh) p) as Hp by (by eapply Forall_lookup_1).
  pose proof (tstep_effect _ _ _ _ _ Hst Hp) as Heff.
  split; simpl; try done.
  - rewrite replay_app, Hre. destruct l as [[o r]|]; simpl; [|by rewrite Heff].
    rewrite Heff. by rewrite decide_True.
  - by rewrite length_insert.
  - intros j o q Hj Hq. rewrite log_of_app.
    apply list_lookup_insert_Some in Hq as [(<- & <- & _)|[Hne Hq]].
    + destruct (Hlog i o p Hj Hi) as [Hop ->].
      destruct (tstep_log _ _ _ _ _ _ Hst Hop) as [Hop' Hl]. split; [done|].
      destruct l as [[o' r]|]; [|by rewrite Hl, app_nil_r].
      destruct Hl as (-> & -> & ->). unfold log_of. simpl. by rewrite bool_decide_true.
    + destruct (Hlog j o q Hj Hq) as [Hop ->]. split; [done|].
      destruct l as [[o' r]|]; [|by rewrite app_nil_r]. unfold log_of. simpl.
      rewrite bool_decide_false by done. by rewrite app_nil_r.
Qed.

Lemma reachable_inv ops c : reachable ops c → inv ops c.
Proof.
  intros H. assert (∀ c0, inv ops c0 → rtc step c0 c → inv ops c) as Hr.
  { clear H. intros c0 H0 H. induction H as [|c1 c2 c3 H12 _ IH]; [done|].
    by eapply IH, step_inv. }
  by eapply Hr; [apply initial_inv|].
Qed.

(** ** Progress *)




#[export] Instance can_lock_dec m : Decision (can_lock m).
Proof. unfold can_lock. apply _. Defined.
#[export] Instance can_rlock_dec m : Decision (can_rlock m).
Proof. unfold can_rlock. apply _. Defined.







(** ** Properties *)

(** C20: in every interleaving of any number of concurrent calls, the calls
    behave as if each took effect at one moment between its start and its
    end: running the operations one at a time in that order gives exactly the
    maps and, for each finished call, exactly the answer it returned. *)
Theorem mapping_linearizable ops c :
  reachable ops c →
  replay (cf_log c) NewKernelOsDtkMapping = Some (sh_maps (cf_shared c)) ∧
  ∀ i o p, ops !! i = Some o → cf_threads c !! i = Some p →
    (∀ r, p = Finished r → log_of i (cf_log c) = [(i, o, r)]) ∧
    (p = Start o → log_of i (cf_log c) = []).
Proof.
  intros H%reachable_inv. destruct H as [_ _ _ Hre _ Hlog]. split; [done|].
  intros i o p Ho Hp. destruct (Hlog i o p Ho Hp) as [_ Hl].
  split; [intros r ->|intros ->]; exact Hl.
Qed.


(** ** Example: a call that is answered in the middle of another *)

Definition ex_ops : list op := [OpSetNodeInfo "5.14" "9.2"; OpGetImage "5.14"].

Lemma ex_reachable : reachable ex_ops
  (mk_config (mk_shared (SetNodeInfo "5.14" "9.2" NewKernelOsDtkMapping) (mk_rwmutex 1 false) unlocked)
     [Finished None; KernelRead "5.14" "9.2"]
     [(0, OpSetNodeInfo "5.14" "9.2", None)]).
Proof.
  unfold reachable, initial, ex_ops.
  eapply rtc_l. { eapply (step_thread _ _ _ 0); [done|by apply ts_node_lock]. }
  eapply rtc_l. { eapply (step_thread _ _ _ 0); [done|by apply ts_node_write]. }
  eapply rtc_l. { eapply (step_thread _ _ _ 0); [done|by apply ts_node_unlock]. }
  eapply rtc_l. { eapply (step_thread _ _ _ 1); [done|by apply ts_get_rlock]. }
  eapply rtc_l. { eapply (step_thread _ _ _ 1); [done|by eapply ts_get_kernel]. }
  simpl. apply rtc_refl.
Qed.

Lemma mapping_linearizable_witness :
  log_of 0 [(0, OpSetNodeInfo "5.14" "9.2", None)] = [(0, OpSetNodeInfo "5.14" "9.2", None)].
Proof. by apply (proj2 (mapping_linearizable _ _ ex_reachable) 0 _ (Finished None)). Defined.

