(* ===== verification/Auth.v ===== *)
(** * internal/auth

    Which credentials are used to read an image: the pull secret a Module
    names, or the secrets of the builder service account. *)

From S2P Require Import Prelude Prog K8s Api Client.
From stdpp Require Import options.

Local Open Scope go_scope.

Definition pullSecretNamespace := "openshift-config".
Definition pullSecretName := "pull-secret".

(** The two implementations of RegistryAuthGetter. *)
Inductive RegistryAuthGetter :=
  | registrySecretAuthGetter (namespacedName : NamespacedName)
  | serviceAccountRegistryAuthGetter (namespace serviceAccountName : string).

Definition secret_GetKeyChain (namespacedName : NamespacedName) : M (result Keychain) :=
  try secret := Get KSecret namespacedName
    catch err => Ret (Err (errorf_w ("cannot find secret " +:+ nsn_string namespacedName +:+ ": ") err)) in
  try keychain := call (RKeychainFromSecret secret)
    catch err => Ret (Err (errorf_w ("could not create a keycahin from secret " +:+ sec_repr secret
                                     +:+ ": ") err)) in
  Ret (Ok keychain).

Definition serviceAccount_GetKeyChain (namespace serviceAccountName : string) : M (result Keychain) :=
  try keychain := call (RKeychainFromSA namespace serviceAccountName)
    catch err => Ret (Err (errorf ("could not get the service account's pull secrets: "
                                   +:+ Error err))) in
  Ret (Ok keychain).

Definition GetKeyChain (getter : RegistryAuthGetter) : M (result Keychain) :=
  match getter with
  | registrySecretAuthGetter n => secret_GetKeyChain n
  | serviceAccountRegistryAuthGetter ns sa => serviceAccount_GetKeyChain ns sa
  end.

Definition NewRegistryAuthGetterFrom (mld : ModuleLoaderData) : RegistryAuthGetter :=
  match mld_ImageRepoSecret mld with
  | Some secret => registrySecretAuthGetter (NN (mld_Namespace mld) (lor_Name secret))
  | None => serviceAccountRegistryAuthGetter (mld_Namespace mld) OCPBuilderServiceAccountName
  end.

Definition NewClusterAuthGetter : RegistryAuthGetter :=
  registrySecretAuthGetter (NN pullSecretNamespace pullSecretName).

Lemma reads_GetKeyChain getter : reads (GetKeyChain getter).
Proof.
  unfold GetKeyChain, secret_GetKeyChain, serviceAccount_GetKeyChain, Get. go_calls. 
Qed.
#[export] Hint Resolve reads_GetKeyChain : calls.
