(* ===== verification/Registry.v ===== *)
(** * internal/registry

    Reading images of a container registry: whether an image exists, the
    digests of its layers for this machine's architecture, and single files
    of a layer.  crane's calls are requests; decoding a manifest is a
    parameter, because what it accepts is decided by types of the
    go-containerregistry library. *)

From S2P Require Import Prelude Prog K8s Api Client Auth.
From stdpp Require Import options.

Local Open Scope go_scope.

Definition modulesLocationPath := "lib/modules".
Definition StatusNotFound : Z := 404.

Record RepoPullConfig := mk_pullconfig { repo : string; authOptions : list CraneOption }.

(** What json.Unmarshal makes of the bytes of a manifest. *)
Inductive jvalue :=
  | JString (s : string)
  | JOther (text typ : string).   (** any other value, under fmt's %v and %T *)
Record Hash := mk_hash { Algorithm : string; Hex : string }.

Class ManifestDecoder := {
  unmarshal_object : string → result (gmap string jvalue);
  unmarshal_manifest : string → result (list Hash);                     (** its layers *)
  unmarshal_index : string → result (list (option string * Hash));      (** platform, digest *)
  unmarshal_no_panic : ∀ m w, unmarshal_object m ≠ Panic w ∧ unmarshal_manifest m ≠ Panic w ∧
                              unmarshal_index m ≠ Panic w }.

(** unstructured.NestedString on one field *)
Definition NestedString (o : gmap string jvalue) (field : string) : result (string * bool) :=
  match o !! field with
  | None => Ok ("", false)
  | Some (JString s) => Ok (s, true)
  | Some (JOther text typ) =>
      Err (errorf ("." +:+ field +:+ " accessor error: " +:+ text +:+ " is of the type " +:+ typ
                   +:+ ", expected string"))
  end.

Definition hash_string (h : Hash) : string := Algorithm h +:+ ":" +:+ Hex h.

(** The part of an image name the code takes for its repository. *)
Definition image_repo (image : string) : string :=
  match str_split (is_char "@"%char) image with
  | repo :: _ :: _ => repo
  | _ => match str_split (is_char ":"%char) image with
         | repo :: _ :: _ => repo
         | _ => ""
         end
  end.

Section registry.
Context {D : ManifestDecoder}.
(** runtime.GOARCH *)
Variable goarch : string.

(** ** Manifests *)

Definition tls_options (tlsOptions : option TLSOptions) : list CraneOption :=
  match tlsOptions with
  | None => []
  | Some t => (if Insecure t then [CraneInsecure] else [])
                ++ (if InsecureSkipTLSVerify t then [CraneSkipTLSVerify] else [])
  end.

Definition getPullOptions (image : string) (tlsOptions : option TLSOptions)
    (registryAuthGetter : option RegistryAuthGetter) : M (result RepoPullConfig) :=
  let repo := image_repo image in
  if bool_decide (repo = "")
  then Ret (Err (errorf ("image url " +:+ image +:+ " is not valid, does not contain hash or tag")))
  else
    let options := tls_options tlsOptions in
    match registryAuthGetter with
    | None => Ret (Ok (mk_pullconfig repo options))
    | Some g =>
        try keyChain := GetKeyChain g
          catch err => Ret (Err (errorf_w "cannot get keychain from the registry auth getter: " err)) in
        Ret (Ok (mk_pullconfig repo (options ++ [CraneKeychain keyChain])))
    end.

Definition getImageDigestFromMultiImage (manifestListStream : string) : result string :=
  manifests ← wrap_err (errorf_w "failed to unmarshal manifest stream: ")
                (unmarshal_index manifestListStream);
  match List.find (λ m : option string * Hash, bool_decide (m.1 = Some goarch)) manifests with
  | Some m => Ok (hash_string m.2)
  | None => Err (errorf ("Failed to find manifest for architecture " +:+ goarch))
  end.

(** The media type of a manifest. *)
Definition manifest_media_type (image manifest : string) : result string :=
  release ← wrap_err (errorf_w "failed to unmarshal crane manifest: ") (unmarshal_object manifest);
  '(imageMediaType, mediaTypeFound) ← wrap_err (errorf_w "unmarshalled manifests invalid format: ")
                                        (NestedString release "mediaType");
  if (mediaTypeFound : bool) then Ok imageMediaType
  else Err (errorf ("mediaType is missing from the image " +:+ image +:+ " manifest")).

Definition getManifestStreamFromImage (image repo : string) (options : list CraneOption)
    : M (result string) :=
  try manifest := call (RManifest image options)
    catch err => Ret (Err (errorf_w ("failed to get crane manifest from image " +:+ image +:+ ": ")
                             err)) in
  try imageMediaType := lift_result (manifest_media_type image manifest) catch err => Ret (Err err) in
  if str_contains "manifest.list" imageMediaType then
    try archDigest := lift_result (getImageDigestFromMultiImage manifest)
      catch err => Ret (Err (errorf_w "failed to get arch digets from multi arch image: " err)) in
    try manifest := call (RManifest (repo +:+ "@" +:+ archDigest) options)
      catch err => Ret (Err (errorf_w "failed to get crane manifest for the arch image: " err)) in
    Ret (Ok manifest)
  else Ret (Ok manifest).

Definition getImageManifest (image : string) (tlsOptions : option TLSOptions)
    (registryAuthGetter : option RegistryAuthGetter) : M (result (string * RepoPullConfig)) :=
  try pullConfig := getPullOptions image tlsOptions registryAuthGetter
    catch err => Ret (Err (errorf_w ("failed to get pull options for image " +:+ image +:+ ": ") err)) in
  try manifest := getManifestStreamFromImage image (repo pullConfig) (authOptions pullConfig)
    catch err => Ret (Err (errorf_w ("failed to get manifest stream from image " +:+ image +:+ ": ")
                             err)) in
  Ret (Ok (manifest, pullConfig)).

(** errors.As into a transport error with status 404 *)
Definition is_image_not_found (err : error) : bool :=
  bool_decide (first_transport (chain err) = Some StatusNotFound).

Definition ImageExists (image : string) (tlsOptions : option TLSOptions)
    (registryAuthGetter : option RegistryAuthGetter) : M (result bool) :=
  try _ := getImageManifest image tlsOptions registryAuthGetter
    catch err =>
      (if is_image_not_found err then Ret (Ok false)
       else Ret (Err (errorf_w ("could not get image " +:+ image +:+ ": ") err))) in
  Ret (Ok true).

(** ** Layers *)

Definition getLayersDigestsFromManifestStream (manifestStream : string) : result (list string) :=
  layers ← wrap_err (errorf_w "failed to unmarshal manifest stream: ")
             (unmarshal_manifest manifestStream);
  Ok (List.map hash_string layers).

Definition GetLayersDigests (image : string) (tlsOptions : option TLSOptions)
    (registryAuthGetter : option RegistryAuthGetter) : M (result (list string * RepoPullConfig)) :=
  try m := getImageManifest image tlsOptions registryAuthGetter
    catch err => Ret (Err (errorf_w ("failed to get manifest from image " +:+ image +:+ ": ") err)) in
  try digests := lift_result (getLayersDigestsFromManifestStream (fst m))
    catch err => Ret (Err (errorf_w ("failed to get layers digests from manifest of the image "
                                     +:+ image +:+ ": ") err)) in
  Ret (Ok (digests, snd m)).

Definition GetLayerByDigest (digest : string) (pullConfig : RepoPullConfig) : M (result Layer) :=
  call (RPullLayer (repo pullConfig +:+ "@" +:+ digest) (authOptions pullConfig)).

(** An image without layers panics: [digests[len(digests)-1]]. *)
Definition LastLayer (image : string) (po : option TLSOptions)
    (registryAuthGetter : option RegistryAuthGetter) : M (result Layer) :=
  try d := GetLayersDigests image po registryAuthGetter
    catch err => Ret (Err (errorf ("failed to get layers digests from image " +:+ image +:+ ": "
                                   +:+ Error err))) in
  match last (fst d) with
  | None => Crash "runtime error: index out of range [-1]"
  | Some digest => GetLayerByDigest digest (snd d)
  end.

(** The reader, positioned on the first entry of that name. *)
Definition getHeaderReaderFromLayer (layer : Layer) (headerName : string) : M (result TarEntry) :=
  try stream := call (RUncompressed layer)
    catch err => Ret (Err (errorf ("failed to get layerreader from layer: " +:+ Error err))) in
  match List.find (λ e, bool_decide (tar_Name e = headerName)) (ts_Entries stream) with
  | Some e => Ret (Ok e)
  | None =>
      match ts_End stream with
      | Some err => Ret (Err (errorf_w "failed to get next entry from targz: " err))
      | None => Ret (Err (errorf ("header " +:+ headerName +:+ " not found in the layer")))
      end
  end.

Definition GetHeaderDataFromLayer (layer : Layer) (headerName : string) : M (result string) :=
  try reader := getHeaderReaderFromLayer layer headerName
    catch err => Ret (Err (errorf ("failed to get reader for the header " +:+ headerName
                                   +:+ " in the layer: " +:+ Error err))) in
  try buff := lift_result (tar_Data reader)
    catch err => Ret (Err (errorf ("failed to read header " +:+ headerName +:+ " data: "
                                   +:+ Error err))) in
  Ret (Ok buff).

Definition module_path (pathPrefix kernelVersion moduleFileName : string) : string :=
  path_join [str_trim_prefix "/" pathPrefix; modulesLocationPath; kernelVersion; moduleFileName].

Definition VerifyModuleExists (layer : Layer) (pathPrefix kernelVersion moduleFileName : string)
    : M bool :=
  let fullPath := module_path pathPrefix kernelVersion moduleFileName in
  prog_bind (λ r, match r with
                  | Ok _ => Ret true
                  | Err _ => Ret false
                  | Panic w => Crash w
                  end) (getHeaderReaderFromLayer layer fullPath).

(** internal/module/helper.go: the check made for a Module's image *)
Definition module_ImageExists (mld : ModuleLoaderData) (imageName : string) : M (result bool) :=
  let registryAuthGetter := NewRegistryAuthGetterFrom mld in
  let tlsOptions := mld_RegistryTLS mld in
  try exists_ := ImageExists imageName tlsOptions (Some registryAuthGetter)
    catch err => Ret (Err (errorf ("could not check if the image is available: " +:+ Error err))) in
  Ret (Ok exists_).

(** ** The registry is only read *)

Lemma reads_getPullOptions image tls g : reads (getPullOptions image tls g).
Proof. unfold getPullOptions. go_calls. Qed.
Lemma reads_getManifestStreamFromImage image r o : reads (getManifestStreamFromImage image r o).
Proof. unfold getManifestStreamFromImage. go_calls. Qed.
#[local] Hint Resolve reads_getPullOptions reads_getManifestStreamFromImage : calls.
Lemma reads_getImageManifest image tls g : reads (getImageManifest image tls g).
Proof. unfold getImageManifest. go_calls. Qed.
#[local] Hint Resolve reads_getImageManifest : calls.
Lemma reads_ImageExists image tls g : reads (ImageExists image tls g).
Proof. unfold ImageExists. go_calls. Qed.
#[local] Hint Resolve reads_ImageExists : calls.
Lemma reads_module_ImageExists mld image : reads (module_ImageExists mld image).
Proof. unfold module_ImageExists. go_calls. Qed.
Lemma reads_GetLayersDigests image tls g : reads (GetLayersDigests image tls g).
Proof. unfold GetLayersDigests. go_calls. Qed.
#[local] Hint Resolve reads_GetLayersDigests : calls.
Lemma reads_LastLayer image tls g : reads (LastLayer image tls g).
Proof. unfold LastLayer, GetLayerByDigest. go_calls. Qed.
Lemma reads_getHeaderReaderFromLayer l n : reads (getHeaderReaderFromLayer l n).
Proof. unfold getHeaderReaderFromLayer. go_calls. Qed.
#[local] Hint Resolve reads_getHeaderReaderFromLayer : calls.
Lemma reads_GetHeaderDataFromLayer l n : reads (GetHeaderDataFromLayer l n).
Proof. unfold GetHeaderDataFromLayer. go_calls. Qed.
Lemma reads_VerifyModuleExists l p k f : reads (VerifyModuleExists l p k f).
Proof. unfold VerifyModuleExists. go_calls. Qed.

(** ** Whether an image exists *)

Definition manifest_ok (e : @event req ans) : Prop :=
  ∃ img opts m, e = Ev (RManifest img opts) (Ok m).

(** The registry returned a manifest for the image. *)
Definition image_seen (image : string) (h : hist) : Prop :=
  ∃ opts m, (Ev (RManifest image opts) (Ok m) : @event req ans) ∈ h.

Lemma image_seen_monotone image : monotone (image_seen image).
Proof. intros h h' [l ->] (o & m & H). exists o, m. apply elem_of_app. by left. Qed.

(** How a run of ImageExists ended, and the last call it made. *)
Definition exists_post (image : string) (o : outcome (result bool)) (h : hist) : Prop :=
  match o with
  | Done (Ok true) => image_seen image h ∧ succeeded h ∧ ∃ h' e, h = h' ++ [e] ∧ manifest_ok e
  | Done (Ok false) => ∃ h' e err, h = h' ++ [e] ∧ ev_error e = Some err ∧
                                   is_image_not_found err = true
  | Done (Err _) => ∀ h' img opts err, h = h' ++ [Ev (RManifest img opts) (Err err)] →
                                       is_image_not_found err = false
  | _ => True
  end.

(** An error of the decoder carries no transport error. *)
Definition decoder_errors : Prop := ∀ m err,
  unmarshal_object m = Err err ∨ unmarshal_manifest m = Err err ∨ unmarshal_index m = Err err →
  is_image_not_found err = false.

Lemma is_image_not_found_wrap msg err :
  is_image_not_found (errorf_w msg err) = is_image_not_found err.
Proof. done. Qed.

(** Errors from before the manifest is asked for. *)
Definition early_error (err : error) (h : hist) : Prop :=
  (is_image_not_found err = true →
     ∃ h' e err', h = h' ++ [e] ∧ ev_error e = Some err' ∧ is_image_not_found err' = true) ∧
  (∀ h' img opts err', h ≠ h' ++ [Ev (RManifest img opts) (Err err')]).

Lemma wp_getPullOptions image tls g :
  wp (λ _ _, True) (getPullOptions image tls g) (λ o h, match o with
    | Done (Ok c) => succeeded h ∧ repo c = image_repo image
    | Done (Err err) => early_error err h
    | _ => True
    end) [].
Proof.
  unfold getPullOptions. case_bool_decide as Hr.
  { split; [done|]. by intros [] ?. }
  destruct g as [[n|ns sa]|]; simpl; [| |by split; [constructor|]].
  - split; [done|]. intros [sec|err|w]; simpl; [| |done].
    + split; [done|]. intros [kc|err|w]; simpl; [by split; [repeat constructor|]| |done].
      split; [|by intros [|? [|? []]] ???]. rewrite !is_image_not_found_wrap. intros ?.
      by exists [Ev (RGet KSecret n) (Ok sec)], (Ev (RKeychainFromSecret sec) (Err err)), err.
    + split; [|by intros [|? []] ???]. rewrite !is_image_not_found_wrap. intros ?.
      by exists [], (Ev (RGet KSecret n) (Err err)), err.
  - split; [done|]. intros [kc|err|w]; simpl; [by split; [repeat constructor|]| |done].
    split; [done|by intros [|? []] ???].
Qed.

Lemma wp_getManifestStreamFromImage image r opts h :
  decoder_errors → succeeded h →
  wp (λ _ _, True) (getManifestStreamFromImage image r opts) (λ o h, match o with
    | Done (Ok _) => exists_post image (Done (Ok true)) h
    | Done (Err err) =>
        exists_post image (Done (if is_image_not_found err then Ok false else Err err)) h
    | _ => True
    end) h.
Proof.
  intros Hdec Hh. unfold getManifestStreamFromImage. apply wp_bind. split; [done|].
  assert (∀ q x, answer_error q x = None → succeeded (h ++ [Ev q x])) as Hs.
  { intros q x Hx. by apply Forall_app; split; [|repeat constructor]. }
  assert (∀ h0 (q : req) x err msg, ev_error (Ev q x) = Some err →
    let err' := errorf_w msg err in
    exists_post image (Done (if is_image_not_found err' then Ok false else Err err')) (h0 ++ [Ev q x])) as Hf.
  { intros h0 q x err msg He err'. unfold err'. rewrite is_image_not_found_wrap.
    destruct (is_image_not_found err) eqn:E; [by eexists _, _, _|].
    intros h' img o err2 [_ Heq]%app_inj_tail. rewrite Heq in He. by injection He as <-. }
  assert (∀ h0 err' q x, is_image_not_found err' = false → ev_error (Ev q x) = None →
    exists_post image (Done (if is_image_not_found err' then Ok false else Err err')) (h0 ++ [Ev q x])) as Hp.
  { intros h0 err' q x -> Hx h' img o err2 [_ Heq]%app_inj_tail. by rewrite Heq in Hx. }
  intros [m|err|w]; [|by apply (Hf h (RManifest image opts))|done].
  apply wp_bind, wp_lift_result; [|intros err Herr; apply Hp; [|done]|done].
  - intros mt Hmt. destruct (str_contains _ mt).
    + apply wp_bind, wp_lift_result; [|intros err Herr; apply Hp; [|done]|done].
      * intros d Hd. apply wp_bind. split; [done|]. intros [m2|err|w]; [|by apply (Hf _ (RManifest _ _))|done].
        split; [by exists opts, m; in_hist|].
        split; [apply Forall_app; split; [by apply Hs|by repeat constructor]|].
        eexists _, _. split; [done|]. by eexists _, _, _.
      * unfold getImageDigestFromMultiImage in Herr.
        destruct (unmarshal_index m) eqn:E; simplify_eq/=;
          [|rewrite ?is_image_not_found_wrap; by eapply Hdec; eauto].
        by destruct (List.find _ _); simplify_eq/=.
    + split; [by exists opts, m; in_hist|].
      split; [by apply Hs|]. eexists _, _. split; [done|]. by eexists _, _, _.
  - unfold manifest_media_type in Herr.
    destruct (unmarshal_object m) as [o|?|?] eqn:E; simplify_eq/=;
          [|rewrite ?is_image_not_found_wrap; by eapply Hdec; eauto].
    unfold NestedString in Herr. by repeat case_match; simplify_eq/=.
Qed.

Lemma wp_ImageExists image tls g :
  decoder_errors → wp (λ _ _, True) (ImageExists image tls g) (exists_post image) [].
Proof.
  intros Hdec. unfold ImageExists, getImageManifest. do 2 apply wp_bind.
  eapply wp_post; [apply wp_getPullOptions|].
  intros [[c|err|w]|w] h _ H; [|simpl|done..].
  - destruct H as [Hh _]. apply wp_bind. eapply wp_post; [by apply wp_getManifestStreamFromImage|].
    intros [[m|err|w]|w] h' _ Hpost; [exact Hpost| |done..].
    simpl. rewrite is_image_not_found_wrap. by destruct (is_image_not_found err).
  - destruct H as [H1 H2]. rewrite is_image_not_found_wrap.
    destruct (is_image_not_found err); simpl; [by apply H1|].
    intros h' img o err2 ->. by destruct (H2 h' img o err2).
Qed.

(** The evidence a positive answer leaves in the history. *)
Definition seen_post (image : string) (o : outcome (result bool)) (h : hist) : Prop :=
  match o with Done (Ok true) => image_seen image h | _ => True end.

Lemma wp_ImageExists_seen image tls g h :
  wp (λ _ _, True) (ImageExists image tls g) (seen_post image) h.
Proof.
  unfold ImageExists, getImageManifest. do 2 apply wp_bind.
  eapply wp_post; [by apply (wp_calls _ _ _ (λ _ _, True) _ (reads_getPullOptions image tls g))|].
  intros [[c|err|w]|w] h' _ _; [|simpl; by destruct (is_image_not_found _)|done..].
  apply wp_bind. unfold getManifestStreamFromImage. apply wp_bind. split; [done|].
  intros [m|err|w]; [|simpl; by destruct (is_image_not_found _)|done].
  assert (image_seen image (h' ++ [Ev (RManifest image (authOptions c)) (Ok m)])) as Hseen
    by (eexists _, _; in_hist).
  apply wp_bind, wp_lift_result; [|intros e _; simpl; by destruct (is_image_not_found _)|done].
  intros mt _. destruct (str_contains _ mt); [|exact Hseen].
  apply wp_bind, wp_lift_result; [|intros e _; simpl; by destruct (is_image_not_found _)|done].
  intros d _. apply wp_bind. split; [done|].
  intros [m2|err|w]; [|simpl; by destruct (is_image_not_found _)|done].
  destruct Hseen as (opts & m3 & Hin). exists opts, m3. in_hist.
Qed.

Lemma wp_module_ImageExists_seen mld image h :
  wp (λ _ _, True) (module_ImageExists mld image) (seen_post image) h.
Proof.
  unfold module_ImageExists. apply wp_bind. eapply wp_post; [apply wp_ImageExists_seen|].
  intros [[b|e|w]|w] h' _ Hp; done.
Qed.

(** ** The layers of an image *)

(** A manifest the registry returned for the image, or for a digest of its
    repository. *)
Definition manifest_of (image m : string) (h : hist) : Prop :=
  ∃ img opts, (Ev (RManifest img opts) (Ok m) : @event req ans) ∈ h ∧
    (img = image ∨ ∃ digest, img = image_repo image +:+ "@" +:+ digest).

(** The layers the manifest lists, to be pulled from the image's repository. *)
Definition digests_of (image : string) (digests : list string) (repoConfig : RepoPullConfig)
    (h : hist) : Prop :=
  repo repoConfig = image_repo image ∧ image_seen image h ∧
  ∃ m, manifest_of image m h ∧ getLayersDigestsFromManifestStream m = Ok digests.

Lemma wp_getPullOptions_repo image tls g h :
  wp (λ _ _, True) (getPullOptions image tls g) (λ o _, match o with
    | Done (Ok c) => repo c = image_repo image | _ => True end) h.
Proof.
  unfold getPullOptions. case_bool_decide; [done|]. destruct g as [g|]; [|done].
  apply wp_bind. eapply wp_calls; [apply reads_GetKeyChain|done|]. by intros [[kc|e|w]|w] h' _.
Qed.

Lemma wp_getManifestStreamFromImage_seen image opts h :
  wp (λ _ _, True) (getManifestStreamFromImage image (image_repo image) opts) (λ o h', match o with
    | Done (Ok m) => image_seen image h' ∧ manifest_of image m h' | _ => True end) h.
Proof.
  unfold getManifestStreamFromImage. apply wp_bind. split; [done|]. intros [m|e|w]; try done.
  apply wp_bind, wp_lift_result; [|done..]. intros mt _. destruct (str_contains _ mt).
  - apply wp_bind, wp_lift_result; [|done..]. intros d _.
    apply wp_bind. split; [done|]. intros [m2|e|w]; try done. split.
    + exists opts, m. in_hist.
    + eexists _, opts. split; [in_hist|]. right. by exists d.
  - split; [exists opts, m; in_hist|]. exists image, opts. split; [in_hist|by left].
Qed.

Lemma wp_GetLayersDigests image tls g h :
  wp (λ _ _, True) (GetLayersDigests image tls g) (λ o h', match o with
    | Done (Ok (digests, c)) => digests_of image digests c h' | _ => True end) h.
Proof.
  unfold GetLayersDigests, getImageManifest. do 2 apply wp_bind.
  eapply wp_post; [apply wp_getPullOptions_repo|]. intros [[c|e|w]|w] h1 _ Hc; try done.
  apply wp_bind. rewrite Hc. eapply wp_post; [apply wp_getManifestStreamFromImage_seen|].
  intros [[m|e|w]|w] h2 _ Hm; try done. destruct Hm as [Hs Hm].
  apply wp_bind, wp_lift_result; [|done..]. intros ds Hds.
  split; [done|]. split; [done|]. by exists m.
Qed.

Lemma manifest_of_monotone image m : monotone (manifest_of image m).
Proof. intros h h' [t ->] (i & o & H & ?). exists i, o. split; [apply elem_of_app; by left|done]. Qed.
Lemma digests_of_monotone image ds c : monotone (digests_of image ds c).
Proof.
  intros h h' Hp (H1 & H2 & m & H3 & H4). split; [done|]. split; [by eapply image_seen_monotone|].
  exists m. split; [by eapply manifest_of_monotone|done].
Qed.
(** A layer pulled by one of those digests. *)
Definition pulled_from (image : string) (layer : Layer) (h : hist) : Prop :=
  ∃ digests c d, digests_of image digests c h ∧ d ∈ digests ∧
    (Ev (RPullLayer (repo c +:+ "@" +:+ d) (authOptions c)) (Ok layer) : @event req ans) ∈ h.

Lemma pulled_from_monotone image layer : monotone (pulled_from image layer).
Proof.
  intros h h' Hp (ds & c & d & H1 & H2 & H3). exists ds, c, d.
  split_and!; [by eapply digests_of_monotone|done|].
  destruct Hp as [t ->]. apply elem_of_app. by left.
Qed.

Lemma wp_LastLayer image tls g h :
  wp (λ _ _, True) (LastLayer image tls g) (λ o h', match o with
    | Done (Ok layer) => pulled_from image layer h' | _ => True end) h.
Proof.
  unfold LastLayer. apply wp_bind. eapply wp_post; [apply wp_GetLayersDigests|].
  intros [[[ds c]|e|w]|w] h1 _ Hd; try done. cbn [wp fst snd].
  destruct (last ds) as [d|] eqn:Hl; [|done]. split; [done|]. intros [layer|e|w]; try done.
  exists ds, c, d. split_and!; [|by apply last_Some_elem_of|in_hist].
  eapply digests_of_monotone, Hd. by apply prefix_app_r.
Qed.

(** ** Files of a layer *)

(** The layer holds a file of that name. *)
Definition layer_has (layer : Layer) (name : string) (h : hist) : Prop :=
  ∃ stream entry, (Ev (RUncompressed layer) (Ok stream) : @event req ans) ∈ h ∧
    entry ∈ ts_Entries stream ∧ tar_Name entry = name.

Lemma layer_has_monotone l n : monotone (layer_has l n).
Proof.
  intros h h' [t ->] (s & e & H & ?). exists s, e. split; [apply elem_of_app; by left|done].
Qed.

(** ... with those contents. *)
Definition layer_file (layer : Layer) (name data : string) (h : hist) : Prop :=
  ∃ stream entry, (Ev (RUncompressed layer) (Ok stream) : @event req ans) ∈ h ∧
    entry ∈ ts_Entries stream ∧ tar_Name entry = name ∧ tar_Data entry = Ok data.

Lemma layer_file_monotone l n d : monotone (layer_file l n d).
Proof.
  intros h h' [t ->] (s & e & H & ?). exists s, e. split; [apply elem_of_app; by left|done].
Qed.

Lemma wp_GetHeaderDataFromLayer layer name h :
  wp (λ _ _, True) (GetHeaderDataFromLayer layer name) (λ o h', match o with
    | Done (Ok data) => layer_file layer name data h' | _ => True end) h.
Proof.
  unfold GetHeaderDataFromLayer, getHeaderReaderFromLayer. do 2 apply wp_bind. split; [done|].
  intros [st|e|w]; try done. cbn [wp].
  destruct (List.find (λ e, bool_decide (tar_Name e = name)) (ts_Entries st)) as [en|] eqn:Hf;
    [|by destruct (ts_End st)].
  apply List.find_some in Hf as [Hin Hn]. apply bool_decide_eq_true in Hn.
  apply wp_bind, wp_lift_result; [|done..]. intros data Hd.
  exists st, en. split_and!; [in_hist|by apply list_elem_of_In|done|done].
Qed.

Lemma wp_VerifyModuleExists layer prefix kernel file h :
  wp (λ _ _, True) (VerifyModuleExists layer prefix kernel file)
    (λ o h', o = Done true → layer_has layer (module_path prefix kernel file) h') h.
Proof.
  unfold VerifyModuleExists, getHeaderReaderFromLayer. do 2 apply wp_bind. split; [done|].
  intros [st|e|w]; [|by intros ?..]. cbn [wp].
  destruct (List.find (λ e, bool_decide (tar_Name e = module_path prefix kernel file)) (ts_Entries st))
    as [en|] eqn:Hf; [|by destruct (ts_End st); intros ?].
  intros _. apply List.find_some in Hf as [Hin Hn]. apply bool_decide_eq_true in Hn.
  exists st, en. split_and!; [in_hist|by apply list_elem_of_In|done].
Qed.

(** ** Properties *)

(** Against every registry, an image is reported to exist only when its
    manifest was returned, every call succeeded and the last one returned a
    manifest (for a multi-arch image the one of this architecture), and not to exist only when the last
    call failed with the transport status 404; a manifest request that fails
    with 404 is never reported as an error.  No call writes anything. *)
Theorem ImageExists_spec {S} (srv : kserver S) s image tls g :
  decoder_errors →
  let p := ImageExists image tls g in
  exists_post image (run_out srv p s) (run_trace srv p s) ∧
  Forall (λ e, is_write (ev_req e) = false) (run_trace srv p s).
Proof.
  intros Hdec. split; [|apply (calls_run (λ q, is_write q = false)), reads_ImageExists].
  by eapply (wp_run (λ _ _, True)), wp_ImageExists.
Qed.
End registry.

(** ** Repositories of image names *)

Lemma image_repo_digest name digest :
  str_forall (λ c, negb (is_char "@"%char c)) name → image_repo (name +:+ "@" +:+ digest) = name.
Proof.
  intros H. unfold image_repo. rewrite str_app_cons, str_app_nil_l, str_split_app by done.
  destruct (str_split _ digest) eqn:E; [by apply str_split_not_nil in E|done].
Qed.

Lemma image_repo_tag name tag :
  str_forall (λ c, negb (is_char "@"%char c)) (name +:+ ":" +:+ tag) →
  str_forall (λ c, negb (is_char ":"%char c)) name → image_repo (name +:+ ":" +:+ tag) = name.
Proof.
  intros H1 H2. unfold image_repo. rewrite (str_split_none (is_char "@"%char)) by done.
  rewrite str_app_cons, str_app_nil_l, str_split_app by done.
  destruct (str_split _ tag) eqn:E; [by apply str_split_not_nil in E|done].
Qed.

(** the repository the layers are pulled from is the name before the
    digest or before the first colon: right for [name@digest] and for
    [name:tag], but a name with a registry port, [host:port/path], is cut to
    its host. *)
Theorem image_repo_spec name rest :
  str_forall (λ c, negb (is_char "@"%char c)) name →
  image_repo (name +:+ "@" +:+ rest) = name ∧
  (str_forall (λ c, negb (is_char ":"%char c)) name →
   str_forall (λ c, negb (is_char "@"%char c)) rest →
   image_repo (name +:+ ":" +:+ rest) = name).
Proof.
  intros Hat. split; [by apply image_repo_digest|]. intros Hcolon Hrest.
  apply image_repo_tag; [|done]. rewrite !str_forall_app. by rewrite !andb_True.
Qed.

#[export] Hint Resolve reads_ImageExists reads_module_ImageExists reads_GetLayersDigests reads_LastLayer
  reads_GetHeaderDataFromLayer reads_VerifyModuleExists : calls.

(** ** Examples *)

Definition ex_decoder : ManifestDecoder := {|
  unmarshal_object m := Ok {[ "mediaType" := JString "manifest.v2" ]};
  unmarshal_manifest m := Ok [mk_hash "sha256" m];
  unmarshal_index m := Ok [(Some "amd64", mk_hash "sha256" m)];
  unmarshal_no_panic m w := ltac:(done) |}.

(** A registry without the image. *)
Definition ex_registry : kserver unit := stateless (λ q,
  match q return ans q with
  | RManifest _ _ => Err (mk_error "not found" [CTransport 404])
  | RKeychainFromSA _ _ => Ok "kc"
  | q => deny q
  end).

Lemma ImageExists_spec_witness :
  let p := ImageExists (D := ex_decoder) "amd64" "quay.io/org/img:v1" None
             (Some (serviceAccountRegistryAuthGetter "ns" "builder")) in
  run_out ex_registry p tt = Done (Ok false) ∧
  exists_post "quay.io/org/img:v1" (Done (Ok false)) (run_trace ex_registry p tt).
Proof.
  intros p. split; [reflexivity|].
  refine (proj1 (ImageExists_spec (D := ex_decoder) "amd64" ex_registry tt
    "quay.io/org/img:v1" None (Some (serviceAccountRegistryAuthGetter "ns" "builder")) _)).
  intros m err [H|[H|H]]; discriminate H.
Defined.

Lemma image_repo_spec_witness :
  image_repo "registry.local:5000/org/img:v1" = "registry.local".
Proof. by apply (image_repo_spec "registry.local" "5000/org/img:v1"). Defined.
