(* ===== verification/CA.v ===== *)
(** * internal/ca

    The two ConfigMaps OpenShift injects certificate bundles into, and their
    ownership by the Modules that use them. *)

From S2P Require Import Prelude Prog K8s Api Client.
From stdpp Require Import options.

Local Open Scope go_scope.

Definition clusterCAType := "cluster".
Definition serviceCAType := "service".
Definition typeKey := "kmm.node.kubernetes.io/ca.type".

(** ca.ConfigMap *)
Record CAConfigMap := mk_caconfigmap { KeyName : string; ca_Name : string }.

Definition errConfigMapNotFound : error :=
  mk_error "ConfigMap not found" [CSentinel "errConfigMapNotFound"].

Definition ca_list (namespace caType : string) : ListOptions :=
  mk_listopts (Some namespace) (Some {[ typeKey := caType ]}).

Definition getConfigMap (namespace caType : string) : M (result ConfigMap) :=
  try cmList := List_ KConfigMap (ca_list namespace caType)
    catch err => Ret (Err (errorf ("could not list ConfigMaps: " +:+ Error err))) in
  match cmList with
  | [] => Ret (Err errConfigMapNotFound)
  | [cm] => Ret (Ok cm)
  | _ => Ret (Err (errorf ("expected 1 ConfigMap, got " +:+ show_nat (length cmList))))
  end.

Definition GetClusterCA (namespace : string) : M (result CAConfigMap) :=
  try cm := getConfigMap namespace clusterCAType
    catch err => Ret (Err (errorf ("could not get CA ConfigMap: " +:+ Error err))) in
  Ret (Ok (mk_caconfigmap "ca-bundle.crt" (om_Name (cm_meta cm)))).

Definition GetServiceCA (namespace : string) : M (result CAConfigMap) :=
  try cm := getConfigMap namespace serviceCAType
    catch err => Ret (Err (errorf ("could not get CA ConfigMap: " +:+ Error err))) in
  Ret (Ok (mk_caconfigmap "service-ca.crt" (om_Name (cm_meta cm)))).

Definition new_cluster_cm (namespace : string) : ConfigMap :=
  mk_cm (mk_meta "" "kmm-cluster-ca-" namespace ""
           (Some {[ typeKey := clusterCAType;
                    "config.openshift.io/inject-trusted-cabundle" := "true" ]})
           None [] [] None 0) ∅.

Definition new_service_cm (namespace : string) : ConfigMap :=
  mk_cm (mk_meta "" "kmm-service-ca-" namespace "" (Some {[ typeKey := serviceCAType ]})
           (Some {[ "service.beta.openshift.io/inject-cabundle" := "true" ]}) [] [] None 0) ∅.

Definition getOrCreateClusterCAConfigMap (namespace : string) : M (result ConfigMap) :=
  try cm := getConfigMap namespace clusterCAType
    catch err =>
      (if negb (errors_is err (CSentinel "errConfigMapNotFound"))
       then Ret (Err (errorf ("could not get the cluster CA ConfigMap: " +:+ Error err)))
       else
         try cm := Create KConfigMap (new_cluster_cm namespace)
           catch err => Ret (Err (errorf ("could not create the cluster CA ConfigMap: "
                                          +:+ Error err))) in
         Ret (Ok cm)) in
  Ret (Ok cm).

Definition getOrCreateServiceCAConfigMap (namespace : string) : M (result ConfigMap) :=
  try cm := getConfigMap namespace serviceCAType
    catch err =>
      (if negb (errors_is err (CSentinel "errConfigMapNotFound"))
       then Ret (Err (errorf ("could not get the cluster CA ConfigMap: " +:+ Error err)))
       else
         try cm := Create KConfigMap (new_service_cm namespace)
           catch err => Ret (Err (errorf ("could not create the cluster CA ConfigMap: "
                                          +:+ Error err))) in
         Ret (Ok cm)) in
  Ret (Ok cm).

Definition syncConfigMapOwners (cm : ConfigMap) (owner : Owner) : M (result unit) :=
  try meta := lift_result (SetOwnerReference owner (cm_meta cm))
    catch err => Ret (Err (errorf ("could not set " +:+ ow_Namespace owner +:+ "/" +:+ ow_Name owner
                             +:+ " as the owner of the ConfigMap: " +:+ Error err))) in
  try _ := Patch KConfigMap (mk_cm meta (cm_Data cm)) cm
    catch err => Ret (Err (errorf ("error patching ConfigMap " +:+ om_Namespace (cm_meta cm) +:+ "/"
                             +:+ om_Name (cm_meta cm) +:+ ": " +:+ Error err))) in
  Ret (Ok tt).

Definition ca_Sync (namespace : string) (owner : Owner) : M (result unit) :=
  try clusterCM := getOrCreateClusterCAConfigMap namespace
    catch err => Ret (Err (errorf ("could not get the cluster CA ConfigMap: " +:+ Error err))) in
  try _ := syncConfigMapOwners clusterCM owner
    catch err => Ret (Err (errorf ("could not sync the cluster CA ConfigMap owners: "
                                   +:+ Error err))) in
  try serviceCM := getOrCreateServiceCAConfigMap namespace
    catch err => Ret (Err (errorf ("could not get the service CA ConfigMap: " +:+ Error err))) in
  try _ := syncConfigMapOwners serviceCM owner
    catch err => Ret (Err (errorf ("could not sync the service CA ConfigMap owners: "
                                   +:+ Error err))) in
  Ret (Ok tt).

(** ** Facts *)

Lemma reads_GetClusterCA ns : reads (GetClusterCA ns).
Proof. unfold GetClusterCA, getConfigMap, List_. go_calls. Qed.
Lemma reads_GetServiceCA ns : reads (GetServiceCA ns).
Proof. unfold GetServiceCA, getConfigMap, List_. go_calls. Qed.
Lemma calls_ca_Sync ns owner : calls (λ q, writes_only KConfigMap q = true) (ca_Sync ns owner).
Proof.
  unfold ca_Sync, getOrCreateClusterCAConfigMap, getOrCreateServiceCAConfigMap, syncConfigMapOwners,
    getConfigMap, List_, Create, Patch. go_calls.
Qed.
#[export] Hint Resolve reads_GetClusterCA reads_GetServiceCA : calls.

(** The ConfigMap created for a type, and where the ConfigMap used for it came
    from: the listing, or the creation. *)
Definition new_cm (caType namespace : string) : ConfigMap :=
  if bool_decide (caType = clusterCAType) then new_cluster_cm namespace else new_service_cm namespace.

Definition provided (namespace caType : string) (h : hist) (cm : ConfigMap) : Prop :=
  (Ev (RList KConfigMap (ca_list namespace caType)) (Ok [cm]) : @event req ans) ∈ h ∨
  (Ev (RCreate KConfigMap (new_cm caType namespace)) (Ok cm) : @event req ans) ∈ h.

(** The calls [ca_Sync] may make after the history [h]. *)
Definition ca_allowed (namespace : string) (owner : Owner) (h : hist) (q : req) : Prop :=
  match q with
  | RList _ _ => True
  | RCreate _ _ => ∃ caType h', (caType = clusterCAType ∨ caType = serviceCAType) ∧
      h = h' ++ [Ev (RList KConfigMap (ca_list namespace caType)) (Ok [])] ∧
      created KConfigMap q = Some (new_cm caType namespace)
  | RPatch _ _ _ => ∃ caType base cm, q = RPatch KConfigMap cm base ∧
      provided namespace caType h base ∧
      cm = mk_cm (upsertOwnerRef (owner_ref owner false) (cm_meta base)) (cm_Data base)
  | _ => False
  end.

(** A ConfigMap of the type was patched with the owner added. *)
Definition owned (namespace caType : string) (owner : Owner) (h : hist) : Prop :=
  ∃ base r, provided namespace caType h base ∧
    (Ev (RPatch KConfigMap
           (mk_cm (upsertOwnerRef (owner_ref owner false) (cm_meta base)) (cm_Data base)) base)
        (Ok r) : @event req ans) ∈ h.

Lemma provided_monotone ns t cm : monotone (λ h, provided ns t h cm).
Proof. intros h h' [l ->] [H|H]; [left|right]; apply elem_of_app; by left. Qed.

Lemma owned_monotone ns t owner : monotone (owned ns t owner).
Proof.
  intros h h' Hp (base & r & H & Hin). exists base, r. split; [by eapply provided_monotone|].
  destruct Hp as [l ->]. apply elem_of_app. by left.
Qed.

Section ca_facts.
Variables (namespace : string) (owner : Owner).

Definition getOrCreate_post (caType : string) (o : outcome (result ConfigMap)) (h : hist) : Prop :=
  match o with Done (Ok cm) => provided namespace caType h cm | _ => True end.

Lemma wp_getOrCreateCluster h :
  wp (ca_allowed namespace owner) (getOrCreateClusterCAConfigMap namespace)
     (getOrCreate_post clusterCAType) h.
Proof.
  unfold getOrCreateClusterCAConfigMap. do 2 apply wp_bind. split; [done|].
  intros [[|cm [|cm2 l]]|err|w]; simpl; try done.
  - split; [by exists clusterCAType, h; split_and!; [left|..]|].
    intros [cm|e|w]; simpl; try done. right. apply elem_of_app. right. by left.
  - left. apply elem_of_app. right. by left.
Qed.

Lemma wp_getOrCreateService h :
  wp (ca_allowed namespace owner) (getOrCreateServiceCAConfigMap namespace)
     (getOrCreate_post serviceCAType) h.
Proof.
  unfold getOrCreateServiceCAConfigMap. do 2 apply wp_bind. split; [done|].
  intros [[|cm [|cm2 l]]|err|w]; simpl; try done.
  - split; [by exists serviceCAType, h; split_and!; [right|..]|].
    intros [cm|e|w]; simpl; try done. right. apply elem_of_app. right. by left.
  - left. apply elem_of_app. right. by left.
Qed.

Lemma wp_syncConfigMapOwners caType cm h :
  provided namespace caType h cm →
  wp (ca_allowed namespace owner) (syncConfigMapOwners cm owner)
     (λ o h', match o with Done (Ok _) => owned namespace caType owner h' | _ => True end) h.
Proof.
  intros Hp. unfold syncConfigMapOwners. apply wp_bind, wp_lift_result; [|done..].
  intros m' Hm. apply SetOwnerReference_Ok in Hm as ->. split; [by exists caType, cm; eauto|].
  intros [r|e|w]; simpl; try done. exists cm, r.
  split; [eapply provided_monotone; [|done]; by apply prefix_app_r|].
  apply elem_of_app. right. by left.
Qed.

Lemma wp_ca_Sync h :
  wp (ca_allowed namespace owner) (ca_Sync namespace owner)
     (λ o h', match o with
              | Done (Ok _) => owned namespace clusterCAType owner h' ∧
                               owned namespace serviceCAType owner h'
              | _ => True
              end) h.
Proof.
  unfold ca_Sync. apply wp_bind. eapply wp_post; [apply wp_getOrCreateCluster|].
  intros [[cm|e|w]|w] h1 _ Hp; try done.
  apply wp_bind. eapply wp_post; [by apply wp_syncConfigMapOwners|].
  intros [[[]|e|w]|w] h2 _ Ho; try done.
  apply wp_bind. eapply wp_post; [apply wp_getOrCreateService|].
  intros [[cm2|e|w]|w] h3 H23 Hp2; try done.
  apply wp_bind. eapply wp_post; [by apply wp_syncConfigMapOwners|].
  intros [[[]|e|w]|w] h4 H34 Ho2; try done.
  split; [|done]. eapply owned_monotone; [|done]. by trans h3.
Qed.
End ca_facts.

(** ** Properties *)

(** Synchronising the CA ConfigMaps of a namespace with a Module creates
    a ConfigMap only right after the listing of its type came back empty,
    patches only the ConfigMap listed or created, by adding the Module's owner
    reference, and deletes nothing; when it succeeds, both ConfigMaps were
    patched to be owned by the Module. *)
Theorem ca_Sync_spec {S} (srv : kserver S) s namespace owner :
  let p := ca_Sync namespace owner in
  (∀ h1 e h2, run_trace srv p s = h1 ++ e :: h2 → ca_allowed namespace owner h1 (ev_req e)) ∧
  (run_out srv p s = Done (Ok tt) →
     owned namespace clusterCAType owner (run_trace srv p s) ∧
     owned namespace serviceCAType owner (run_trace srv p s)).
Proof.
  intros p. pose proof (wp_run _ _ _ srv s (wp_ca_Sync namespace owner [])) as [HQ Hok].
  split; [exact Hok|]. intros H. unfold p in H. by rewrite H in HQ.
Qed.

Lemma ca_Sync_spec_witness :
  let p := ca_Sync "gpu" (as_owner Ex.module) in
  run_out (stateless accept) p tt = Done (Ok tt) ∧
  owned "gpu" clusterCAType (as_owner Ex.module) (run_trace (stateless accept) p tt).
Proof.
  intros p. split; [reflexivity|].
  apply (proj2 (ca_Sync_spec (stateless accept) tt "gpu" (as_owner Ex.module))). reflexivity.
Defined.
