(* ===== verification/Managers.v ===== *)
(** * The interfaces build.Manager and sign.SignManager

    The Module and preflight controllers work with any build manager and any
    sign manager.  What they rely on is stated here: when a manager says that
    nothing is left to do, or that its work completed, the history of calls
    holds evidence of it, and a manager writes objects of its own kind only.
    BuildConfig and SignJob provide the instances. *)

From S2P Require Import Prelude Prog K8s Api Client Utils.
From stdpp Require Import options.

(** What a manager's Sync returns: a status and an error. *)
Abbreviation SyncResult := (Status * option error)%type.

Class BuildManager := {
  bm_GarbageCollect : string → string → Owner → M (result (list string));
  bm_ShouldSync : ModuleLoaderData → M (result bool);
  bm_Sync : ModuleLoaderData → bool → Owner → M SyncResult }.

Class SignManager := {
  sm_GarbageCollect : string → string → Owner → M (result (list string));
  sm_ShouldSync : ModuleLoaderData → M (result bool);
  sm_Sync : ModuleLoaderData → string → bool → Owner → M SyncResult }.

(** Answers to ShouldSync and Sync that are evidence of their own. *)
Definition skip_post (P : hist → Prop) (o : outcome (result bool)) (h : hist) : Prop :=
  match o with Done (Ok false) => P h | _ => True end.
Definition complete_post (P : hist → Prop) (o : outcome SyncResult) (h : hist) : Prop :=
  match o with Done (StatusCompleted, _) => P h | _ => True end.

(** The calls that make something push an image: a Build with an output, and
    a signing Job without [-no-push]. *)
Definition pushes (q : req) : Prop :=
  match q with
  | RCreate KBuild b => bo_To (bsp_Output (ob_Spec b)) ≠ None
  | RCreate KJob j =>
      ∃ c, c ∈ ps_Containers (pt_spec (jspec_Template (job_Spec j))) ∧ "-no-push" ∉ ctr_Args c
  | _ => False
  end.

(** What a Sync may do: besides reading, create an object that the owner
    controls, which pushes only when asked to, and delete one. *)
Inductive sync_call (k : kind) (push : bool) (owner : Owner) : req → Prop :=
  | sync_read q : is_write q = false → sync_call k push owner q
  | sync_create o : controlled_by owner (obj_meta k o) → (push = false → ¬ pushes (RCreate k o)) →
      sync_call k push owner (RCreate k o)
  | sync_delete o background : sync_call k push owner (RDelete k o background).

(** What a garbage collection may do. *)
Definition gc_call (k : kind) (q : req) : Prop :=
  is_write q = false ∨ ∃ o background, q = RDelete k o background.

(** Calls that neither create nor change a Build or a Job. *)
Definition starts_no_job (q : req) : Prop :=
  match q with RCreate k _ | RPatch k _ _ => k ≠ KBuild ∧ k ≠ KJob | _ => True end.

(** A manager says which calls a Sync makes, and when ([bm_call]); all of
    them are of the general form above. *)
Class BuildManagerSpec (BM : BuildManager) := {
  bm_skipped : ModuleLoaderData → hist → Prop;
  bm_completed : ModuleLoaderData → bool → Owner → hist → Prop;
  bm_call : ModuleLoaderData → bool → Owner → hist → req → Prop;
  bm_skipped_monotone : ∀ mld, monotone (bm_skipped mld);
  bm_completed_monotone : ∀ mld push owner, monotone (bm_completed mld push owner);
  bm_call_sync : ∀ mld push owner h q, bm_call mld push owner h q → sync_call KBuild push owner q;
  wp_bm_ShouldSync : ∀ mld h,
    wp (λ _ q, is_write q = false) (bm_ShouldSync mld) (skip_post (bm_skipped mld)) h;
  wp_bm_Sync : ∀ mld push owner h,
    wp (bm_call mld push owner) (bm_Sync mld push owner)
       (complete_post (bm_completed mld push owner)) h;
  calls_bm_GarbageCollect : ∀ name ns owner, calls (gc_call KBuild) (bm_GarbageCollect name ns owner) }.

Class SignManagerSpec (SM : SignManager) := {
  sm_skipped : ModuleLoaderData → hist → Prop;
  sm_completed : ModuleLoaderData → string → bool → Owner → hist → Prop;
  sm_call : ModuleLoaderData → string → bool → Owner → hist → req → Prop;
  sm_skipped_monotone : ∀ mld, monotone (sm_skipped mld);
  sm_completed_monotone : ∀ mld image push owner, monotone (sm_completed mld image push owner);
  sm_call_sync : ∀ mld image push owner h q,
    sm_call mld image push owner h q → sync_call KJob push owner q;
  wp_sm_ShouldSync : ∀ mld h,
    wp (λ _ q, is_write q = false) (sm_ShouldSync mld) (skip_post (sm_skipped mld)) h;
  wp_sm_Sync : ∀ mld image push owner h,
    wp (sm_call mld image push owner) (sm_Sync mld image push owner)
       (complete_post (sm_completed mld image push owner)) h;
  calls_sm_GarbageCollect : ∀ name ns owner, calls (gc_call KJob) (sm_GarbageCollect name ns owner) }.

(** The reads of ShouldSync in the interface's terms. *)
Lemma wp_interface_ShouldSync (p : M (result bool)) P h :
  calls (λ q, is_write q = false) p → wp (λ _ _, True) p (skip_post P) h →
  wp (λ _ q, is_write q = false) p (skip_post P) h.
Proof. intros Hr Hp. by eapply wp_reads. Qed.

Lemma sync_call_no_push k owner q : sync_call k false owner q → ¬ pushes q.
Proof. intros [q' H|o _ H|o b]; [by destruct q'; simpl in H; intros Hp|exact (H eq_refl)|by intros []]. Qed.
Lemma starts_no_job_read q : is_write q = false → starts_no_job q.
Proof. by destruct q. Qed.
Lemma starts_no_job_gc k q : gc_call k q → starts_no_job q.
Proof. intros [?|(o & b & ->)]; [by apply starts_no_job_read|done]. Qed.

(** What a manager promises about its own progress: a Sync that ends without
    an error either reports completion or leaves evidence that the work is
    under way or has failed. *)
Class BuildManagerProgress (BM : BuildManager) := {
  bm_waiting : ModuleLoaderData → bool → Owner → hist → Prop;
  bm_waiting_monotone : ∀ mld push owner, monotone (bm_waiting mld push owner);
  wp_bm_Sync_waiting : ∀ mld push owner h,
    wp (λ _ _, True) (bm_Sync mld push owner)
       (λ o h', match o with
                | Done (st, None) => st ≠ StatusCompleted → bm_waiting mld push owner h'
                | _ => True
                end) h }.

Class SignManagerProgress (SM : SignManager) := {
  sm_waiting : ModuleLoaderData → string → bool → Owner → hist → Prop;
  sm_waiting_monotone : ∀ mld image push owner, monotone (sm_waiting mld image push owner);
  wp_sm_Sync_waiting : ∀ mld image push owner h,
    wp (λ _ _, True) (sm_Sync mld image push owner)
       (λ o h', match o with
                | Done (st, None) => st ≠ StatusCompleted → sm_waiting mld image push owner h'
                | _ => True
                end) h }.
