(* ===== verification/BuildConfig.v ===== *)
(** * internal/build/buildconfig

    Building a Module's image in the cluster: the OpenShift Build made from a
    Module's settings (maker.go), and the manager that decides whether a Build
    is needed and follows it to its end (manager.go). *)

From S2P Require Import Prelude Prog K8s Api Client Utils Helpers KernelMapper Registry Managers.
From stdpp Require Import options.

Local Open Scope go_scope.

Definition dtkBuildArg := "DTK_AUTO".
Definition buildHashAnnotation := "kmm.node.kubernetes.io/last-hash".
Definition BuildSourceDockerfile := "Dockerfile".

(** hashstructure.Hash, of the two values the operator hashes *)
Record hashData := mk_hashdata {
  PrivateKeyData : string; PublicKeyData : string; PodTemplate : PodTemplateSpec }.
Class Hasher := {
  hash_BuildSource : BuildSource → result N;
  hash_hashData : hashData → result N;
  hash_no_panic : ∀ w, (∀ s, hash_BuildSource s ≠ Panic w) ∧ (∀ d, hash_hashData d ≠ Panic w) }.

Definition errNoMatchingBuild : error :=
  mk_error "no matching Build" [CSentinel "errNoMatchingBuild"].

(** ** maker.go *)

Definition dockerfile_key (name namespace : string) : NamespacedName := NN namespace name.

Definition getDockerfileData (buildConfig : Build) (namespace : string) : M (result string) :=
  match DockerfileConfigMap buildConfig with
  | None => Crash "runtime error: invalid memory address or nil pointer dereference"
  | Some ref =>
      let namespacedName := dockerfile_key (lor_Name ref) namespace in
      try dockerfileCM := Get KConfigMap namespacedName
        catch err => Ret (Err (errorf ("failed to get dockerfile ConfigMap "
                                 +:+ nsn_string namespacedName +:+ ": " +:+ Error err))) in
      match cm_Data dockerfileCM !! DockerfileCMKey with
      | Some data => Ret (Ok data)
      | None => Ret (Err (errorf ("invalid Dockerfile ConfigMap " +:+ nsn_string namespacedName
                            +:+ " format, " +:+ DockerfileCMKey +:+ " key is missing")))
      end
  end.

Definition envVarsFromKMMBuildArgs (args : list BuildArg) : list EnvVar :=
  List.map (λ ba, mk_env (ba_Name ba) (ba_Value ba)) args.

Definition buildVolumesFromBuildSecrets (secrets : list LocalObjectReference) : list BuildVolume :=
  List.map (λ s, mk_bvolume ("secret-" +:+ lor_Name s) "Secret" (lor_Name s) (Some false)
                   ["/run/secrets/" +:+ lor_Name s]) secrets.

(** The image a build produces: an intermediate one when it is signed
    afterwards. *)
Definition build_target_image (mld : ModuleLoaderData) : string :=
  if ShouldBeSigned mld
  then IntermediateImageName (mld_Name mld) (mld_Namespace mld) (mld_ContainerImage mld)
  else mld_ContainerImage mld.

Definition dockerfile_source (data : string) : BuildSource :=
  mk_bsource (Some data) BuildSourceDockerfile.

Section buildconfig.
Context {D : ManifestDecoder} {Hs : Hasher}.
Variable goarch : string.

(** The Build of MakeBuildTemplate, before its owner is set. *)
Definition build_template (mld : ModuleLoaderData) (kmmBuild : Build) (pushImage : bool)
    (dockerfileData : string) (overrides : list BuildArg) (sourceConfigHash : N) : OCPBuild :=
  let buildArgs := ApplyBuildArgOverrides (BuildArgs kmmBuild) overrides in
  let buildTarget :=
    if pushImage
    then mk_boutput (Some ("DockerImage", build_target_image mld)) (mld_ImageRepoSecret mld)
    else mk_boutput None None in
  mk_ocpbuild
    (mk_meta "" (mld_Name mld +:+ "-") (mld_Namespace mld) "" (Some (GetBuildLabels mld))
       (Some {[ buildHashAnnotation := pretty sourceConfigHash ]}) [] [] None 0)
    {| bsp_ServiceAccount := OCPBuilderServiceAccountName;
       bsp_Source := dockerfile_source dockerfileData;
       bsp_StrategyType := "Docker";
       bsp_DockerStrategy := mk_dockerstrategy (envVarsFromKMMBuildArgs buildArgs)
                               (buildVolumesFromBuildSecrets (Secrets kmmBuild));
       bsp_Output := buildTarget;
       bsp_NodeSelector := mld_Selector mld;
       bsp_MountTrustedCA := Some true |}
    (mk_bstatus "" "" "").

Definition MakeBuildTemplate (mld : ModuleLoaderData) (pushImage : bool) (owner : Owner)
    : M (result OCPBuild) :=
  match mld_Build mld with
  | None => Crash "runtime error: invalid memory address or nil pointer dereference"
  | Some kmmBuild =>
      let kernelVersion := mld_KernelVersion mld in
      let overrides := [mk_buildarg "KERNEL_VERSION" kernelVersion] in
      try dockerfileData := getDockerfileData kmmBuild (mld_Namespace mld)
        catch err => Ret (Err (errorf ("failed to get dockerfile data from configmap: "
                                       +:+ Error err))) in
      try overrides :=
        (if str_contains dtkBuildArg dockerfileData
         then try dtkImage := call (RGetImage kernelVersion)
                catch err => Ret (Err (errorf ("could not get DTK image for kernel "
                                         +:+ kernelVersion +:+ ": " +:+ Error err))) in
              Ret (Ok (overrides ++ [mk_buildarg dtkBuildArg dtkImage]))
         else Ret (Ok overrides))
        catch err => Ret (Err err) in
      try sourceConfigHash := lift_result (hash_BuildSource (dockerfile_source dockerfileData))
        catch err => Ret (Err (errorf ("could not hash Build's Buildsource template: "
                                       +:+ Error err))) in
      let bc := build_template mld kmmBuild pushImage dockerfileData overrides sourceConfigHash in
      try meta := lift_result (SetControllerReference owner (ob_meta bc))
        catch err => Ret (Err (errorf ("could not set the owner reference: " +:+ Error err))) in
      Ret (Ok (set_meta meta bc))
  end.

(** ** manager.go *)

Definition build_GarbageCollect (modName namespace : string) (owner : Owner)
    : M (result (list string)) :=
  Ret (Ok []).

Definition build_ShouldSync (mld : ModuleLoaderData) : M (result bool) :=
  if negb (ShouldBeBuilt mld) then Ret (Ok false)
  else
    let targetImage := build_target_image mld in
    try exists_ := module_ImageExists goarch mld targetImage
      catch err => Ret (Err (errorf_w ("failed to check existence of image " +:+ targetImage
                                       +:+ ": ") err)) in
    Ret (Ok (negb exists_)).

Definition isBuildChanged (existingBuild newBuild : OCPBuild) : result bool :=
  match om_Annotations (ob_meta existingBuild) with
  | None => Err (errorf ("annotations are not present in the existing Build "
                         +:+ om_Name (ob_meta existingBuild)))
  | Some existingAnnotations =>
      if bool_decide (map_get existingAnnotations buildHashAnnotation =
                      omap_get (om_Annotations (ob_meta newBuild)) buildHashAnnotation)
      then Ok false else Ok true
  end.

Definition build_list (mld : ModuleLoaderData) : ListOptions :=
  mk_listopts (Some (mld_Namespace mld)) (Some (GetBuildLabels mld)).

Definition GetBuild (mld : ModuleLoaderData) : M (result OCPBuild) :=
  try buildList := List_ KBuild (build_list mld)
    catch err => Ret (Err (errorf ("could not list Build: " +:+ Error err))) in
  match buildList with
  | [] => Ret (Err errNoMatchingBuild)
  | [b] => Ret (Ok b)
  | _ => Ret (Err (errorf ("expected 0 or 1 Builds, got " +:+ show_nat (length buildList))))
  end.

(** The last part of Sync, for a Build that is up to date. *)
Definition build_phase_status (build : OCPBuild) : SyncResult :=
  let phase := bst_Phase (ob_Status build) in
  if bool_decide (phase = BuildPhaseComplete) then (StatusCompleted, None)
  else if bool_decide (phase = BuildPhaseNew) || bool_decide (phase = BuildPhasePending)
          || bool_decide (phase = BuildPhaseRunning) then (StatusInProgress, None)
  else if bool_decide (phase = BuildPhaseFailed)
  then (StatusFailed, Some (errorf ("build failed: " +:+ bst_LogSnippet (ob_Status build))))
  else (StatusNone, Some (errorf ("unknown status: " +:+ bst_repr (ob_Status build)))).

Definition build_Sync (mld : ModuleLoaderData) (pushImage : bool) (owner : Owner) : M SyncResult :=
  try buildTemplate := MakeBuildTemplate mld pushImage owner
    catch err => Ret (StatusNone, Some (errorf ("could not make Build template: " +:+ Error err))) in
  try build := GetBuild mld
    catch err =>
      (if negb (errors_is err (CSentinel "errNoMatchingBuild"))
       then Ret (StatusNone, Some (errorf ("error getting the build: " +:+ Error err)))
       else
         try _ := Create KBuild buildTemplate
           catch err => Ret (StatusNone, Some (errorf ("could not create Build: " +:+ Error err))) in
         Ret (StatusCreated, None)) in
  try changed := lift_result (isBuildChanged build buildTemplate)
    catch err => Ret (StatusNone, Some (errorf ("could not determine if Build has changed: "
                                                +:+ Error err))) in
  if (changed : bool) then
    (* a failed deletion is only logged *)
    try _ := Delete KBuild build true catch _ => Ret (StatusInProgress, None) in
    Ret (StatusInProgress, None)
  else Ret (build_phase_status build).

(** ** The template *)

Lemma reads_getDockerfileData b ns : reads (getDockerfileData b ns).
Proof. unfold getDockerfileData, Get. go_calls. Qed.
#[local] Hint Resolve reads_getDockerfileData : calls.
Lemma reads_MakeBuildTemplate mld push owner : reads (MakeBuildTemplate mld push owner).
Proof. unfold MakeBuildTemplate. go_calls. Qed.
Lemma reads_GetBuild mld : reads (GetBuild mld).
Proof. unfold GetBuild, List_. go_calls. Qed.
Lemma reads_build_ShouldSync mld : reads (build_ShouldSync mld).
Proof. unfold build_ShouldSync. go_calls. Qed.
#[local] Hint Resolve reads_MakeBuildTemplate reads_GetBuild reads_build_ShouldSync : calls.

(** The build arguments the operator sets itself. *)
Definition kernel_arg (mld : ModuleLoaderData) : BuildArg :=
  mk_buildarg "KERNEL_VERSION" (mld_KernelVersion mld).
Definition overrides_spec (mld : ModuleLoaderData) (data : string) (overrides : list BuildArg)
    (h : hist) : Prop :=
  (str_contains dtkBuildArg data = false ∧ overrides = [kernel_arg mld]) ∨
  (str_contains dtkBuildArg data = true ∧ ∃ dtkImage,
     (Ev (RGetImage (mld_KernelVersion mld)) (Ok dtkImage) : @event req ans) ∈ h ∧
     overrides = [kernel_arg mld; mk_buildarg dtkBuildArg dtkImage]).

(** A template made of the Dockerfile read in [h]. *)
Definition template_of (mld : ModuleLoaderData) (push : bool) (owner : Owner) (h : hist)
    (t : OCPBuild) : Prop :=
  ∃ kb ref cm data overrides n m,
    mld_Build mld = Some kb ∧ DockerfileConfigMap kb = Some ref ∧
    (Ev (RGet KConfigMap (dockerfile_key (lor_Name ref) (mld_Namespace mld))) (Ok cm)
       : @event req ans) ∈ h ∧
    cm_Data cm !! DockerfileCMKey = Some data ∧
    hash_BuildSource (dockerfile_source data) = Ok n ∧
    overrides_spec mld data overrides h ∧
    SetControllerReference owner (ob_meta (build_template mld kb push data overrides n)) = Ok m ∧
    t = set_meta m (build_template mld kb push data overrides n).

Lemma template_of_monotone mld push owner t : monotone (λ h, template_of mld push owner h t).
Proof.
  intros h h' [l ->] (kb & ref & cm & data & ov & n & m & H1 & H2 & H3 & H4 & H5 & H6 & H7 & H8).
  exists kb, ref, cm, data, ov, n, m. split_and!; try done; [apply elem_of_app; by left|].
  destruct H6 as [H6|(H6 & dtk & Hin & Hov)]; [by left|].
  right. split; [done|]. exists dtk. split; [apply elem_of_app; by left|done].
Qed.

Lemma wp_MakeBuildTemplate mld push owner h :
  wp (λ _ _, True) (MakeBuildTemplate mld push owner)
     (λ o h', match o with Done (Ok t) => template_of mld push owner h' t | _ => True end) h.
Proof.
  unfold MakeBuildTemplate. destruct (mld_Build mld) as [kb|] eqn:Hb; [|done].
  eapply (wp_seq _ _ _ (λ o h', match o with
    | Done (Ok data) => ∃ ref cm, DockerfileConfigMap kb = Some ref ∧
        (Ev (RGet KConfigMap (dockerfile_key (lor_Name ref) (mld_Namespace mld))) (Ok cm)
           : @event req ans) ∈ h' ∧ cm_Data cm !! DockerfileCMKey = Some data
    | _ => True end)); [| |done].
  { unfold getDockerfileData. destruct (DockerfileConfigMap kb) as [ref|] eqn:Href; [|done].
    apply wp_bind. split; [done|]. intros [cm|e|w]; simpl; try done.
    destruct (cm_Data cm !! DockerfileCMKey) as [data|] eqn:Hdata; [|done].
    exists ref, cm. split_and!; [done|in_hist|done]. }
  intros [data|e|w] h1 _ Hd; try done. destruct Hd as (ref & cm & Href & Hin & Hdata).
  eapply (wp_seq _ _ _ (λ o h', match o with
    | Done (Ok ov) => overrides_spec mld data ov h' | _ => True end)); [| |done].
  { destruct (str_contains dtkBuildArg data) eqn:Hdtk; [|by left].
    apply wp_bind. split; [done|]. intros [dtk|e|w]; try done.
    right. split; [done|]. exists dtk. split; [in_hist|done]. }
  intros [ov|e|w] h2 [l ->] Hov; try done.
  apply wp_bind, wp_lift_result; [|done..]. intros n Hn.
  apply wp_bind, wp_lift_result; [|done..]. intros m Hm.
  exists kb, ref, cm, data, ov, n, m. split_and!; try done. apply elem_of_app. by left.
Qed.

(** What a template says, whatever was read. *)
Lemma template_of_facts mld push owner h t :
  template_of mld push owner h t →
  om_Labels (ob_meta t) = Some (GetBuildLabels mld) ∧ om_Namespace (ob_meta t) = mld_Namespace mld ∧
  IsControlledBy (ob_meta t) owner = true ∧
  bo_To (bsp_Output (ob_Spec t)) =
    (if push then Some ("DockerImage", build_target_image mld) else None) ∧
  mk_env "KERNEL_VERSION" (mld_KernelVersion mld) ∈
    dst_BuildArgs (bsp_DockerStrategy (ob_Spec t)).
Proof.
  intros (kb & ref & cm & data & ov & n & m & H1 & H2 & H3 & H4 & H5 & H6 & H7 & ->). simpl.
  pose proof (SetControllerReference_controlled _ _ _ H7) as Hc.
  apply SetControllerReference_fields in H7 as (_ & Hns & _ & Hl & _). simpl in *.
  split_and!; [done|done|done|by destruct push|].
  apply list_elem_of_In, in_map_iff. exists (kernel_arg mld). split; [done|].
  apply list_elem_of_In, ApplyBuildArgOverrides_elem. left.
  destruct H6 as [[_ ->]|(_ & dtk & _ & ->)]; reflexivity.
Qed.

Lemma template_of_controlled mld push owner h t :
  template_of mld push owner h t → controlled_by owner (ob_meta t).
Proof.
  intros (kb & ref & cm & data & ov & n & m & _ & _ & _ & _ & _ & _ & H & ->).
  by apply SetControllerReference_controlled_by in H.
Qed.

(** ** Sync *)

Definition listed (mld : ModuleLoaderData) (l : list OCPBuild) : @event req ans :=
  Ev (RList KBuild (build_list mld)) (Ok l).

(** The writes Sync may make, each right after the listing that calls for it,
    and none after another write. *)
Definition build_allowed (mld : ModuleLoaderData) (push : bool) (owner : Owner) (n : nat)
    (h : hist) (q : req) : Prop :=
  is_write q = false ∨
  (count_writes h = n ∧ ∃ h' t, template_of mld push owner h' t ∧
     ((h = h' ++ [listed mld []] ∧ q = RCreate KBuild t) ∨
      (∃ b, h = h' ++ [listed mld [b]] ∧ isBuildChanged b t = Ok true ∧ q = RDelete KBuild b true))).

(** A Build of the current Dockerfile that ran to completion. *)
Definition build_completed (mld : ModuleLoaderData) (push : bool) (owner : Owner) (h : hist) : Prop :=
  ∃ b t h', h' ++ [listed mld [b]] `prefix_of` h ∧ template_of mld push owner h' t ∧
    isBuildChanged b t = Ok false ∧ bst_Phase (ob_Status b) = BuildPhaseComplete.

Lemma build_completed_monotone mld push owner : monotone (build_completed mld push owner).
Proof.
  intros h h' Hp (b & t & h1 & H1 & H). exists b, t, h1. split; [by trans h|done].
Qed.

Definition build_post (mld : ModuleLoaderData) (push : bool) (owner : Owner)
    (o : outcome SyncResult) (h : hist) : Prop :=
  match o with
  | Done (StatusCompleted, e) => e = None ∧ build_completed mld push owner h
  | Done (StatusCreated, e) => e = None ∧ ∃ h' t r, h = h' ++ [Ev (RCreate KBuild t) (Ok r)]
  | Done (StatusInProgress, e) => e = None
  | Done (StatusFailed, e) | Done (StatusNone, e) => e ≠ None
  | Crashed _ => True
  end.

Lemma build_phase_status_post mld push owner b t h :
  template_of mld push owner h t → isBuildChanged b t = Ok false →
  build_post mld push owner (Done (build_phase_status b)) (h ++ [listed mld [b]]).
Proof.
  intros Ht Hch. unfold build_phase_status.
  repeat case_bool_decide; try done. split; [done|]. by exists b, t, h.
Qed.

Lemma wp_build_Sync mld push owner h :
  wp (build_allowed mld push owner (count_writes h)) (build_Sync mld push owner)
     (build_post mld push owner) h.
Proof.
  unfold build_Sync. apply wp_bind.
  eapply wp_reads; [apply reads_MakeBuildTemplate|apply wp_MakeBuildTemplate|by left|].
  intros [[t|e|w]|w] h1 _ Hn Ht; try done.
  unfold GetBuild. do 2 apply wp_bind. split; [by left|].
  assert (∀ l, count_writes (h1 ++ [listed mld l]) = count_writes h) as Hw.
  { intros l. by rewrite count_writes_reads by (by repeat constructor). }
  intros [[|b [|b2 l]]|e|w]; try done.
  - split; [right; split; [apply Hw|]; exists h1, t; split; [done|by left]|].
    intros [r|e|w]; try done. split; [done|]. by eexists _, _, _.
  - simpl. apply wp_bind, wp_lift_result; [|done..]. intros [] Hch.
    + split; [|by intros [[]|e|w]].
      right. split; [apply Hw|]. exists h1, t. split; [done|]. right. by exists b.
    + by eapply build_phase_status_post.
Qed.

(** ** ShouldSync *)

(** When no Build is needed: none is configured, or its image exists. *)
Definition build_skipped (mld : ModuleLoaderData) (h : hist) : Prop :=
  mld_Build mld = None ∨ image_seen (build_target_image mld) h.

Lemma build_skipped_monotone mld : monotone (build_skipped mld).
Proof. intros h h' Hp [H|H]; [by left|right]. by eapply image_seen_monotone. Qed.

Lemma wp_build_ShouldSync mld h :
  wp (λ _ _, True) (build_ShouldSync mld)
     (λ o h', match o with Done (Ok false) => build_skipped mld h' | _ => True end) h.
Proof.
  unfold build_ShouldSync, ShouldBeBuilt. destruct (mld_Build mld) as [kb|] eqn:Hb; simpl;
    [|by left].
  apply wp_bind. eapply wp_post; [apply wp_module_ImageExists_seen|].
  intros [[[]|e|w]|w] h' _ Hp; try done. by right.
Qed.

(** ** The instance of build.Manager *)

Definition buildconfig_manager : BuildManager := {|
  bm_GarbageCollect := build_GarbageCollect;
  bm_ShouldSync := build_ShouldSync;
  bm_Sync := build_Sync |}.

#[export] Program Instance buildconfig_manager_spec : BuildManagerSpec buildconfig_manager := {|
  bm_skipped := build_skipped;
  bm_completed := build_completed;
  bm_call mld push owner h q := ∃ n, build_allowed mld push owner n h q;
  bm_skipped_monotone := build_skipped_monotone;
  bm_completed_monotone := build_completed_monotone |}.
Next Obligation.
  intros mld push owner h q [n [Hq|(_ & h2 & t & Ht & [[_ ->]|(b & _ & _ & ->)])]]; [by apply sync_read| |
    by apply (sync_delete KBuild)].
  apply (sync_create KBuild); [by eapply template_of_controlled|]. intros ->. simpl.
  apply template_of_facts in Ht as (_ & _ & _ & -> & _). by intros ?.
Qed.
Next Obligation.
  intros mld h. apply wp_interface_ShouldSync; [apply reads_build_ShouldSync|].
  apply wp_build_ShouldSync.
Qed.
Next Obligation.
  intros mld push owner h. eapply wp_mono; [apply wp_build_Sync|by eauto|].
  - intros [[[] e]|w] h' _ H; try done. by destruct H.
Qed.
Next Obligation. intros name ns owner. apply calls_ret. Qed.

(** A Build of the current Dockerfile was created or is running, or the one
    of an older Dockerfile is being deleted. *)
Definition build_waiting (mld : ModuleLoaderData) (push : bool) (owner : Owner) (h : hist) : Prop :=
  ∃ h' t, template_of mld push owner h' t ∧
    ((∃ r, h' ++ [listed mld []; Ev (RCreate KBuild t) (Ok r)] `prefix_of` h) ∨
     (∃ b r, h' ++ [listed mld [b]; Ev (RDelete KBuild b true) r] `prefix_of` h ∧
        isBuildChanged b t = Ok true) ∨
     (∃ b, h' ++ [listed mld [b]] `prefix_of` h ∧ isBuildChanged b t = Ok false ∧
        bst_Phase (ob_Status b) ∈ [BuildPhaseNew; BuildPhasePending; BuildPhaseRunning])).

Lemma build_waiting_monotone mld push owner : monotone (build_waiting mld push owner).
Proof.
  intros h h' Hp (h1 & t & Ht & [[r H]|[(b & r & H & H2)|(b & H & H2)]]); exists h1, t;
    (split; [done|]); [left|right; left|right; right].
  - exists r. by trans h.
  - exists b, r. split; [by trans h|done].
  - exists b. split; [by trans h|done].
Qed.

Lemma build_phase_status_running b st :
  build_phase_status b = (st, None) → st ≠ StatusCompleted →
  bst_Phase (ob_Status b) ∈ [BuildPhaseNew; BuildPhasePending; BuildPhaseRunning].
Proof.
  unfold build_phase_status. intros H Hne.
  case_bool_decide; [by simplify_eq|]. destruct (_ || _) eqn:Hr; [|by case_bool_decide].
  apply orb_prop in Hr as [[H1|H1]%orb_prop|H1]; apply bool_decide_eq_true in H1 as ->; set_solver.
Qed.

Lemma wp_build_Sync_waiting mld push owner h :
  wp (λ _ _, True) (build_Sync mld push owner)
     (λ o h', match o with
              | Done (st, None) => st ≠ StatusCompleted → build_waiting mld push owner h'
              | _ => True
              end) h.
Proof.
  unfold build_Sync. apply wp_bind. eapply wp_post; [apply wp_MakeBuildTemplate|].
  intros [[t|e|w]|w] h1 _ Ht; try done.
  unfold GetBuild. do 2 apply wp_bind. split; [done|].
  intros [[|b [|b2 l]]|e|w]; try done.
  - split; [done|]. intros [r|e|w]; try done. intros _. exists h1, t. split; [done|].
    left. exists r. by rewrite <-app_assoc.
  - simpl. apply wp_bind, wp_lift_result; [|done..]. intros [] Hch.
    + split; [done|]. intros r. assert (build_waiting mld push owner
        ((h1 ++ [listed mld [b]]) ++ [Ev (RDelete KBuild b true) r])) as Hw.
      { exists h1, t. split; [done|]. right. left. exists b, r. by rewrite <-app_assoc. }
      destruct r as [[]|e|w]; simpl; auto.
    + destruct (build_phase_status b) as [st [e|]] eqn:Hst; cbn [wp]; [done|]. intros Hne.
      exists h1, t. split; [done|]. right. right. exists b. split_and!; [done..|].
      by eapply build_phase_status_running.
Qed.

#[export] Program Instance buildconfig_manager_progress : BuildManagerProgress buildconfig_manager := {|
  bm_waiting := build_waiting;
  bm_waiting_monotone := build_waiting_monotone |}.
Next Obligation. apply wp_build_Sync_waiting. Qed.

(** ** Properties *)

(** C16: against every API server, one Sync of a Build makes at most one write:
    it creates the Build of the current Dockerfile right after finding none,
    or deletes the one it found right after seeing that its Dockerfile hash
    differs.  It reports completion only for the single Build found, with the
    hash of the current Dockerfile and phase Complete; creation only after the
    Create succeeded; and a failed Build only together with an error. *)
Theorem build_Sync_spec {S} (srv : kserver S) s mld push owner :
  let p := build_Sync mld push owner in
  build_post mld push owner (run_out srv p s) (run_trace srv p s) ∧
  (∀ h1 e h2, run_trace srv p s = h1 ++ e :: h2 →
     build_allowed mld push owner 0 h1 (ev_req e)).
Proof. apply wp_run, (wp_build_Sync mld push owner []). Qed.

(** The Build made from a Module carries the Module's and the kernel's
    labels, is controlled by the owner, builds for this kernel version, pushes
    to the target image (the intermediate one when signing follows) when a
    push was asked for and nowhere otherwise; it holds the Dockerfile read from
    the ConfigMap and its hash, with the driver toolkit image of the kernel
    when the Dockerfile asks for it; and making it writes nothing. *)
Theorem MakeBuildTemplate_spec {S} (srv : kserver S) s mld push owner :
  let p := MakeBuildTemplate mld push owner in
  Forall (λ e, is_write (ev_req e) = false) (run_trace srv p s) ∧
  ∀ t, run_out srv p s = Done (Ok t) →
    om_Labels (ob_meta t) = Some (GetBuildLabels mld) ∧
    om_Namespace (ob_meta t) = mld_Namespace mld ∧
    IsControlledBy (ob_meta t) owner = true ∧
    bo_To (bsp_Output (ob_Spec t)) =
      (if push then Some ("DockerImage", build_target_image mld) else None) ∧
    mk_env "KERNEL_VERSION" (mld_KernelVersion mld) ∈
      dst_BuildArgs (bsp_DockerStrategy (ob_Spec t)) ∧
    template_of mld push owner (run_trace srv p s) t.
Proof.
  intros p. split; [apply (calls_run (λ q, is_write q = false)), reads_MakeBuildTemplate|].
  intros t Ht.
  pose proof (wp_run _ _ _ srv s (wp_MakeBuildTemplate mld push owner [])) as [H _].
  unfold p in Ht. rewrite Ht in H.
  by pose proof (template_of_facts _ _ _ _ _ H) as (H1 & H2 & H3 & H4 & H5).
Qed.
End buildconfig.

(** ** Examples *)

Definition ex_hasher : Hasher := {|
  hash_BuildSource s := Ok (N.of_nat (String.length (default "" (bs_Dockerfile s))));
  hash_hashData d := Ok (N.of_nat (String.length (PrivateKeyData d)));
  hash_no_panic w := ltac:(done) |}.

Definition ex_dockerfile : ConfigMap :=
  mk_cm (meta_named "dockerfile" "gpu") {[ DockerfileCMKey := "FROM ubi9" ]}.

(** A cluster that holds the Dockerfile and no Build. *)
Definition ex_build_server : kserver unit := stateless (λ q,
  match q return ans q with
  | RGet KConfigMap _ => Ok ex_dockerfile
  | q => accept q
  end).

Lemma build_Sync_spec_witness :
  let p := build_Sync (Hs := ex_hasher) Ex.mld true (as_owner Ex.module) in
  run_out ex_build_server p tt = Done (StatusCreated, None) ∧
  build_post (Hs := ex_hasher) Ex.mld true (as_owner Ex.module) (Done (StatusCreated, None))
    (run_trace ex_build_server p tt).
Proof.
  intros p. split; [reflexivity|].
  exact (proj1 (build_Sync_spec (Hs := ex_hasher) ex_build_server tt Ex.mld true
                  (as_owner Ex.module))).
Defined.

Lemma MakeBuildTemplate_spec_witness :
  let p := MakeBuildTemplate (Hs := ex_hasher) Ex.mld false (as_owner Ex.module) in
  ∃ t, run_out ex_build_server p tt = Done (Ok t) ∧ bo_To (bsp_Output (ob_Spec t)) = None.
Proof.
  intros p. eexists. split; [reflexivity|].
  eapply (proj2 (MakeBuildTemplate_spec (Hs := ex_hasher) ex_build_server tt Ex.mld false
                   (as_owner Ex.module))). reflexivity.
Defined.
