(* ===== verification/SignJob.v ===== *)
(** * internal/sign/job

    Signing a Module's image in the cluster: the Job made from a Module's
    settings (signer.go) and the manager that follows it (manager.go). *)

From S2P Require Import Prelude Prog K8s Api Client Utils Helpers KernelMapper Registry CA Managers BuildConfig.
From stdpp Require Import options.

Local Open Scope go_scope.

Definition nil_deref := "runtime error: invalid memory address or nil pointer dereference".

Definition trustedCAMountPath := "/etc/pki/ca-trust/extracted/pem".
Definition trustedCAVolumeName := "trusted-ca".

(** ** signer.go *)

(** The command line of the signing container; [None] when there is no image
    to sign. *)
Definition sign_args (mld : ModuleLoaderData) (signConfig : Sign) (tls : TLSOptions)
    (imageToSign : string) (pushImage : bool) : option (list string) :=
  let args :=
    if pushImage
    then ["-signedimage"; mld_ContainerImage mld]
           ++ (if Insecure tls then ["--insecure"] else [])
           ++ (if InsecureSkipTLSVerify tls then ["--skip-tls-verify"] else [])
    else ["-no-push"] in
  let unsigned :=
    if negb (bool_decide (imageToSign = "")) then Some imageToSign
    else if negb (bool_decide (UnsignedImage signConfig = "")) then Some (UnsignedImage signConfig)
    else None in
  match unsigned with
  | None => None
  | Some image => Some
      (args ++ ["-unsignedimage"; image]
         ++ ["-key"; "/signingkey/key.priv"] ++ ["-cert"; "/signingcert/public.der"]
         ++ (if is_nil (FilesToSign signConfig) then []
             else ["-filestosign"; str_join ":" (FilesToSign signConfig)])
         ++ (if Insecure (UnsignedImageRegistryTLS signConfig) then ["--insecure-pull"] else [])
         ++ (if InsecureSkipTLSVerify (UnsignedImageRegistryTLS signConfig)
             then ["--skip-tls-verify-pull"] else []))
  end.

Definition getSAImageRepoSecret (mld : ModuleLoaderData) (accountName : string)
    : M (result (list string)) :=
  try serviceaccount := Get KServiceAccount (NN (mld_Namespace mld) accountName)
    catch err => Ret (Err err) in
  Ret (Ok (sa_Secrets serviceaccount)).

Definition getSecretData (secretName secretDataKey namespace : string) : M (result string) :=
  let namespacedName := NN namespace secretName in
  try secret := Get KSecret namespacedName
    catch err => Ret (Err (errorf ("failed to get Secret " +:+ nsn_string namespacedName +:+ ": "
                                   +:+ Error err))) in
  match sec_Data secret !! secretDataKey with
  | Some data => Ret (Ok data)
  | None => Ret (Err (errorf ("invalid Secret " +:+ nsn_string namespacedName +:+ " format, "
                              +:+ secretDataKey +:+ " key is missing")))
  end.

(** The volumes and mounts of the signing container. *)
Definition sign_volumes (signConfig : Sign) (clusterCACM servingCACM : CAConfigMap)
    (imageSecret : option LocalObjectReference) (buildImageSecret : list string) : list Volume :=
  [MakeSecretVolume (KeySecret signConfig) "key" "key.priv";
   MakeSecretVolume (CertSecret signConfig) "cert" "public.der";
   mk_volume trustedCAVolumeName
     (VolProjected [mk_cmp (ca_Name clusterCACM) [mk_ktp (KeyName clusterCACM) "tls-ca-bundle.pem"];
                    mk_cmp (ca_Name servingCACM) [mk_ktp (KeyName servingCACM)
                                                    "ocp-service-ca-bundle.pem"]])]
  ++ (if isSome imageSecret then [MakeSecretVolume imageSecret "" ""] else [])
  ++ List.map (λ secret, MakeSecretVolume (Some (LocalRef secret)) "" "") buildImageSecret.

Definition sign_mounts (signConfig : Sign) (imageSecret : option LocalObjectReference)
    (buildImageSecret : list string) : list VolumeMount :=
  [MakeSecretVolumeMount (CertSecret signConfig) "/signingcert";
   MakeSecretVolumeMount (KeySecret signConfig) "/signingkey";
   mk_mount trustedCAVolumeName true trustedCAMountPath]
  ++ (match imageSecret with
      | Some s => [MakeSecretVolumeMount imageSecret ("/docker_config/" +:+ lor_Name s)]
      | None => []
      end)
  ++ List.map (λ secret, MakeSecretVolumeMount (Some (LocalRef secret))
                 ("/docker_config/" +:+ OCPBuilderServiceAccountName +:+ "/" +:+ secret))
       buildImageSecret.

Definition sign_pod (mld : ModuleLoaderData) (signConfig : Sign) (args : list string)
    (clusterCACM servingCACM : CAConfigMap) (buildImageSecret : list string) (image : string)
    : PodTemplateSpec :=
  mk_podtemplate empty_meta
    {| ps_Containers :=
         [{| ctr_Name := "signimage"; ctr_Image := image; ctr_Command := [];
             ctr_Args := args ++ ["-secretdir"; "/docker_config/"];
             ctr_Env := [mk_env "SSL_CERT_DIR" trustedCAMountPath];
             ctr_ImagePullPolicy := ""; ctr_Resources := ""; ctr_Lifecycle := None;
             ctr_SecurityContext := None;
             ctr_VolumeMounts :=
               sign_mounts signConfig (mld_ImageRepoSecret mld) buildImageSecret |}];
       ps_ImagePullSecrets := [];
       ps_NodeSelector := mld_Selector mld;
       ps_PriorityClassName := "";
       ps_ServiceAccountName := "";
       ps_RestartPolicy := "Never";
       ps_Volumes := sign_volumes signConfig clusterCACM servingCACM (mld_ImageRepoSecret mld)
                       buildImageSecret |}.

Definition sign_job (mld : ModuleLoaderData) (labels : strmap) (specTemplate : PodTemplateSpec)
    (specTemplateHash : N) : Job :=
  mk_job (mk_meta "" (mld_Name mld +:+ "-sign-") (mld_Namespace mld) "" (Some labels)
            (Some {[ JobHashAnnotation := pretty specTemplateHash ]}) [] [] None 0)
    (mk_jobspec (Some 1%Z) specTemplate (Some 0%Z)) empty_jobstatus.

Section signjob.
Context {D : ManifestDecoder} {Hs : Hasher}.
Variable goarch : string.

Definition getHashValue (podTemplate : PodTemplateSpec) (publicKeyData privateKeyData : string)
    : result N :=
  wrap_err (λ err, errorf ("could not hash job's spec template and dockefile: " +:+ Error err))
    (hash_hashData (mk_hashdata privateKeyData publicKeyData podTemplate)).

Definition getHashAnnotationValue (privateSecret publicSecret namespace : string)
    (podTemplate : PodTemplateSpec) : M (result N) :=
  try privateKeyData := getSecretData privateSecret PrivateSignDataKey namespace
    catch err => Ret (Err (errorf ("failed to get private secret " +:+ privateSecret
                                   +:+ " for signing: " +:+ Error err))) in
  try publicKeyData := getSecretData publicSecret PublicSignDataKey namespace
    catch err => Ret (Err (errorf ("failed to get public secret " +:+ publicSecret
                                   +:+ " for signing: " +:+ Error err))) in
  lift_result (getHashValue podTemplate publicKeyData privateKeyData).

Definition MakeJobTemplate (mld : ModuleLoaderData) (labels : strmap) (imageToSign : string)
    (pushImage : bool) (owner : Owner) : M (result Job) :=
  match mld_Sign mld, (if pushImage then mld_RegistryTLS mld else Some empty_tls) with
  | Some signConfig, Some tls =>
      match sign_args mld signConfig tls imageToSign pushImage with
      | None => Ret (Err (errorf "no image to sign given"))
      | Some args =>
          try clusterCACM := GetClusterCA (mld_Namespace mld)
            catch err => Ret (Err (errorf ("could not get the cluster CA ConfigMap: "
                                           +:+ Error err))) in
          try servingCACM := GetServiceCA (mld_Namespace mld)
            catch err => Ret (Err (errorf ("could not get the serving CA ConfigMap: "
                                           +:+ Error err))) in
          try buildImageSecret := getSAImageRepoSecret mld OCPBuilderServiceAccountName
            catch err => Ret (Err (errorf ("Failed to get secrets for service account "
                                     +:+ OCPBuilderServiceAccountName +:+ ": " +:+ Error err))) in
          prog_bind (λ image,
            let specTemplate := sign_pod mld signConfig args clusterCACM servingCACM
                                  buildImageSecret image in
            match KeySecret signConfig, CertSecret signConfig with
            | Some key, Some cert =>
                try specTemplateHash :=
                    getHashAnnotationValue (lor_Name key) (lor_Name cert) (mld_Namespace mld)
                      specTemplate
                  catch err => Ret (Err (errorf ("could not hash job's definitions: "
                                                 +:+ Error err))) in
                let job := sign_job mld labels specTemplate specTemplateHash in
                try meta := lift_result (SetControllerReference owner (job_meta job))
                  catch err => Ret (Err (errorf ("could not set the owner reference: "
                                                 +:+ Error err))) in
                Ret (Ok (set_meta meta job))
            | _, _ => Crash nil_deref
            end) (Getenv "RELATED_IMAGES_SIGN")
      end
  | _, _ => Crash nil_deref
  end.

(** ** manager.go *)

Definition sign_GarbageCollect (modName namespace : string) (owner : Owner)
    : M (result (list string)) :=
  try jobs := GetModuleJobs modName namespace JobTypeSign owner
    catch err => Ret (Err (errorf ("failed to get sign jobs for module " +:+ modName +:+ ": "
                                   +:+ Error err))) in
  prog_bind (λ c, match c with Next deleteNames => Ret (Ok deleteNames) | Return r => Ret r end)
    (range_loop jobs (λ job deleteNames,
       if bool_decide (js_Succeeded (job_Status job) = 1%Z)
       then try _ := DeleteJob job
              catch err => Ret (Return (Err (errorf ("failed to delete build job "
                              +:+ om_Name (job_meta job) +:+ ": " +:+ Error err)))) in
            Ret (Next (deleteNames ++ [om_Name (job_meta job)]))
       else Ret (Next deleteNames)) []).

Definition sign_ShouldSync (mld : ModuleLoaderData) : M (result bool) :=
  if negb (ShouldBeSigned mld) then Ret (Ok false)
  else
    try exists_ := module_ImageExists goarch mld (mld_ContainerImage mld)
      catch err => Ret (Err (errorf_w ("failed to check existence of image "
                                       +:+ mld_ContainerImage mld +:+ ": ") err)) in
    Ret (Ok (negb exists_)).

Definition sign_Sync (mld : ModuleLoaderData) (imageToSign : string) (pushImage : bool)
    (owner : Owner) : M SyncResult :=
  let labels := JobLabels (mld_Name mld) (mld_KernelVersion mld) JobTypeSign in
  try jobTemplate := MakeJobTemplate mld labels imageToSign pushImage owner
    catch err => Ret (StatusNone, Some (errorf ("could not make Job template: " +:+ Error err))) in
  try job := GetModuleJobByKernel (mld_Name mld) (mld_Namespace mld) (mld_KernelVersion mld)
               JobTypeSign owner
    catch err =>
      (if negb (errors_is err (CSentinel "ErrNoMatchingJob"))
       then Ret (StatusNone, Some (errorf ("error getting the signing job: " +:+ Error err)))
       else
         try _ := CreateJob jobTemplate
           catch err => Ret (StatusNone, Some (errorf ("could not create Signing Job: "
                                                       +:+ Error err))) in
         Ret (StatusCreated, None)) in
  try changed := lift_result (IsJobChanged job jobTemplate)
    catch err => Ret (StatusNone, Some (errorf ("could not determine if job has changed: "
                                                +:+ Error err))) in
  if (changed : bool) then
    (* a failed deletion is only logged *)
    try _ := DeleteJob job catch _ => Ret (StatusInProgress, None) in
    Ret (StatusInProgress, None)
  else
    match GetJobStatus job with
    | (_, Some err) => Ret (StatusNone, Some err)
    | (statusmsg, None) => Ret (statusmsg, None)
    end.

(** ** The template *)

Lemma reads_getSecretData a b c : reads (getSecretData a b c).
Proof. unfold getSecretData, Get. go_calls. Qed.
#[local] Hint Resolve reads_getSecretData : calls.
Lemma reads_getHashAnnotationValue a b c p : reads (getHashAnnotationValue a b c p).
Proof. unfold getHashAnnotationValue. go_calls. Qed.
Lemma reads_getSAImageRepoSecret mld a : reads (getSAImageRepoSecret mld a).
Proof. unfold getSAImageRepoSecret, Get. go_calls. Qed.
#[local] Hint Resolve reads_getHashAnnotationValue reads_getSAImageRepoSecret : calls.
Lemma reads_MakeJobTemplate mld labels image push owner :
  reads (MakeJobTemplate mld labels image push owner).
Proof. unfold MakeJobTemplate, Getenv. go_calls. Qed.
Lemma reads_sign_ShouldSync mld : reads (sign_ShouldSync mld).
Proof. unfold sign_ShouldSync. go_calls. Qed.
#[local] Hint Resolve reads_MakeJobTemplate reads_sign_ShouldSync : calls.

(** The data of a signing secret, as read in [h]. *)
Definition secret_read (name key namespace data : string) (h : hist) : Prop :=
  ∃ sec, (Ev (RGet KSecret (NN namespace name)) (Ok sec) : @event req ans) ∈ h ∧
         sec_Data sec !! key = Some data.

Lemma secret_read_monotone name key ns data : monotone (secret_read name key ns data).
Proof. intros h h' [l ->] (sec & H1 & H2). exists sec. split; [apply elem_of_app; by left|done]. Qed.

Lemma wp_getSecretData name key ns h :
  wp (λ _ _, True) (getSecretData name key ns)
     (λ o h', match o with Done (Ok data) => secret_read name key ns data h' | _ => True end) h.
Proof.
  unfold getSecretData. apply wp_bind. split; [done|]. intros [sec|e|w]; simpl; try done.
  destruct (sec_Data sec !! key) eqn:E; [|done]. exists sec. split; [in_hist|done].
Qed.

(** The hash of a pod template covers the template and both keys. *)
Definition hash_of (key cert namespace : string) (pod : PodTemplateSpec) (n : N) (h : hist) : Prop :=
  ∃ kd cd, secret_read key PrivateSignDataKey namespace kd h ∧
    secret_read cert PublicSignDataKey namespace cd h ∧
    hash_hashData (mk_hashdata kd cd pod) = Ok n.

Lemma hash_of_monotone key cert ns pod n : monotone (hash_of key cert ns pod n).
Proof.
  intros h h' Hp (kd & cd & H1 & H2 & H3). exists kd, cd.
  split_and!; [by eapply secret_read_monotone..|done].
Qed.

Lemma wp_getHashAnnotationValue key cert ns pod h :
  wp (λ _ _, True) (getHashAnnotationValue key cert ns pod)
     (λ o h', match o with Done (Ok n) => hash_of key cert ns pod n h' | _ => True end) h.
Proof.
  unfold getHashAnnotationValue. apply wp_bind. eapply wp_post; [apply wp_getSecretData|].
  intros [[kd|e|w]|w] h1 _ H1; try done.
  apply wp_bind. eapply wp_post; [apply wp_getSecretData|].
  intros [[cd|e|w]|w] h2 Hp H2; try done.
  apply wp_lift_result; [|done..]. intros n Hn. apply wrap_err_Ok in Hn.
  exists kd, cd. split_and!; [by eapply secret_read_monotone|done|done].
Qed.

(** The pull secrets are those of the builder's service account, as read in
    [h]. *)
Definition pull_secrets_read (namespace : string) (secrets : list string) (h : hist) : Prop :=
  ∃ sa, (Ev (RGet KServiceAccount (NN namespace OCPBuilderServiceAccountName)) (Ok sa) : @event req ans) ∈ h ∧
        secrets = sa_Secrets sa.

Lemma pull_secrets_read_monotone ns secrets : monotone (pull_secrets_read ns secrets).
Proof. intros h h' [l ->] (sa & H1 & H2). exists sa. split; [apply elem_of_app; by left|done]. Qed.

Lemma wp_getSAImageRepoSecret mld h :
  wp (λ _ _, True) (getSAImageRepoSecret mld OCPBuilderServiceAccountName)
     (λ o h', match o with Done (Ok secrets) => pull_secrets_read (mld_Namespace mld) secrets h' | _ => True end) h.
Proof.
  unfold getSAImageRepoSecret. apply wp_bind. split; [done|]. intros [sa|e|w]; simpl; try done.
  exists sa. split; [in_hist|done].
Qed.

(** A Job template made of the secrets read in [h]. *)
Definition job_of (mld : ModuleLoaderData) (labels : strmap) (image : string) (push : bool)
    (owner : Owner) (h : hist) (j : Job) : Prop :=
  ∃ sc tls args cluster serving secrets img key cert n m,
    mld_Sign mld = Some sc ∧ KeySecret sc = Some key ∧ CertSecret sc = Some cert ∧
    (push = true → mld_RegistryTLS mld = Some tls) ∧
    sign_args mld sc tls image push = Some args ∧
    pull_secrets_read (mld_Namespace mld) secrets h ∧
    let pod := sign_pod mld sc args cluster serving secrets img in
    hash_of (lor_Name key) (lor_Name cert) (mld_Namespace mld) pod n h ∧
    SetControllerReference owner (job_meta (sign_job mld labels pod n)) = Ok m ∧
    j = set_meta m (sign_job mld labels pod n).

Lemma wp_MakeJobTemplate mld labels image push owner h :
  wp (λ _ _, True) (MakeJobTemplate mld labels image push owner)
     (λ o h', match o with Done (Ok j) => job_of mld labels image push owner h' j | _ => True end) h.
Proof.
  unfold MakeJobTemplate. destruct (mld_Sign mld) as [sc|] eqn:Hs1; [|done].
  destruct (if push then _ else _) as [tls|] eqn:Htls; [|done].
  destruct (sign_args _ _ _ _ _) as [args|] eqn:Hargs; [|done].
  apply wp_read_step; [apply reads_GetClusterCA|done|intros cluster h1 _|done..].
  apply wp_read_step; [apply reads_GetServiceCA|done|intros serving h2 _|done..].
  apply wp_bind. eapply wp_post; [apply wp_getSAImageRepoSecret|].
  intros [[secrets|e|w]|w] h3 _ Hsa; try done.
  apply wp_bind. split; [done|]. intros img.
  destruct (KeySecret sc) as [key|] eqn:Hk; [|done].
  destruct (CertSecret sc) as [cert|] eqn:Hc; [|done].
  apply wp_bind. eapply wp_post; [apply wp_getHashAnnotationValue|].
  intros [[n|e|w]|w] h4 Hp4 Hn; try done.
  apply wp_bind, wp_lift_result; [|done..]. intros m Hm.
  exists sc, tls, args, cluster, serving, secrets, img, key, cert, n, m.
  split_and!; try done; [by intros ->|].
  eapply pull_secrets_read_monotone; [|exact Hsa]. etrans; [|exact Hp4]. by eexists.
Qed.

Lemma job_of_facts mld labels image push owner h j :
  job_of mld labels image push owner h j →
  om_Labels (job_meta j) = Some labels ∧ om_Namespace (job_meta j) = mld_Namespace mld ∧
  IsControlledBy (job_meta j) owner = true ∧
  ∃ c, ps_Containers (pt_spec (jspec_Template (job_Spec j))) = [c] ∧
    (push = false → "-no-push" ∈ ctr_Args c) ∧
    (push = true → ∃ rest, ctr_Args c = "-signedimage" :: mld_ContainerImage mld :: rest).
Proof.
  intros (sc & tls & args & cl & se & secs & img & key & cert & n & m & H1 & H2 & H3 & H4 & H5
          & _ & H6 & H7 & ->). simpl.
  pose proof (SetControllerReference_controlled _ _ _ H7) as Hc.
  apply SetControllerReference_fields in H7 as (_ & Hns & _ & Hl & _). simpl in *.
  split_and!; [done..|]. eexists. split; [done|]. simpl. unfold sign_args in H5.
  cbv zeta in H5. destruct (if negb (bool_decide (image = "")) then _ else _) as [im|]; [|done].
  injection H5 as <-. split; intros ->; [by left|by eexists].
Qed.

Lemma job_of_controlled mld labels image push owner h j :
  job_of mld labels image push owner h j → controlled_by owner (job_meta j).
Proof.
  intros (sc & tls & args & cl & se & secs & img & key & cert & n & m & _ & _ & _ & _ & _ & _ & _ & H & ->).
  by apply SetControllerReference_controlled_by in H.
Qed.

(** ** Sync *)

Definition jobs_listed (mld : ModuleLoaderData) (l : list Job) : @event req ans :=
  Ev (RList KJob (mk_listopts (Some (mld_Namespace mld))
        (Some (moduleKernelLabels (mld_Name mld) (mld_KernelVersion mld) JobTypeSign)))) (Ok l).

Definition sign_labels (mld : ModuleLoaderData) : strmap :=
  JobLabels (mld_Name mld) (mld_KernelVersion mld) JobTypeSign.

Definition sign_allowed (mld : ModuleLoaderData) (image : string) (push : bool) (owner : Owner)
    (n : nat) (h : hist) (q : req) : Prop :=
  is_write q = false ∨
  (count_writes h = n ∧ ∃ h' t l, job_of mld (sign_labels mld) image push owner h' t ∧
     h = h' ++ [jobs_listed mld l] ∧
     ((filterJobsByOwner l owner = [] ∧ q = RCreate KJob t) ∨
      (∃ j, filterJobsByOwner l owner = [j] ∧ IsJobChanged j t = Ok true ∧ q = RDelete KJob j true))).

(** A Job of the current settings and keys that succeeded. *)
Definition sign_completed (mld : ModuleLoaderData) (image : string) (push : bool) (owner : Owner)
    (h : hist) : Prop :=
  ∃ j t l h', h' ++ [jobs_listed mld l] `prefix_of` h ∧
    job_of mld (sign_labels mld) image push owner h' t ∧ filterJobsByOwner l owner = [j] ∧
    IsJobChanged j t = Ok false ∧ js_Succeeded (job_Status j) = 1%Z.

Lemma sign_completed_monotone mld image push owner : monotone (sign_completed mld image push owner).
Proof.
  intros h h' Hp (j & t & l & h1 & H1 & H). exists j, t, l, h1. split; [by trans h|done].
Qed.

Definition sign_post (mld : ModuleLoaderData) (image : string) (push : bool) (owner : Owner)
    (o : outcome SyncResult) (h : hist) : Prop :=
  match o with
  | Done (StatusCompleted, e) => e = None ∧ sign_completed mld image push owner h
  | Done (StatusCreated, e) => e = None ∧ ∃ h' t r, h = h' ++ [Ev (RCreate KJob t) (Ok r)]
  | Done (StatusInProgress, e) | Done (StatusFailed, e) => e = None
  | Done (StatusNone, e) => e ≠ None
  | Crashed _ => True
  end.

Lemma sign_status_post mld image push owner j t l h :
  job_of mld (sign_labels mld) image push owner h t → filterJobsByOwner l owner = [j] →
  IsJobChanged j t = Ok false →
  sign_post mld image push owner
    (Done (match GetJobStatus j with
           | (_, Some err) => (StatusNone, Some err)
           | (statusmsg, None) => (statusmsg, None)
           end)) (h ++ [jobs_listed mld l]).
Proof.
  intros Ht Hl Hch. unfold GetJobStatus. repeat case_bool_decide; try done.
  split; [done|]. by exists j, t, l, h.
Qed.

Lemma wp_sign_Sync mld image push owner h :
  wp (sign_allowed mld image push owner (count_writes h)) (sign_Sync mld image push owner)
     (sign_post mld image push owner) h.
Proof.
  unfold sign_Sync. apply wp_bind.
  eapply wp_reads; [apply reads_MakeJobTemplate|apply wp_MakeJobTemplate|by left|].
  intros [[t|e|w]|w] h1 _ Hn Ht; try done.
  unfold GetModuleJobByKernel, getJobs. do 3 apply wp_bind. split; [by left|].
  intros [l|e|w]; try done. simpl. change (Ev _ _) with (jobs_listed mld l).
  assert (count_writes (h1 ++ [jobs_listed mld l]) = count_writes h) as Hw
    by (by rewrite count_writes_reads by (by repeat constructor)).
  destruct (filterJobsByOwner l owner) as [|j [|j2 js]] eqn:Hl; try done.
  - split; [right; split; [exact Hw|]; exists h1, t, l; split_and!; [done|done|by left]|].
    intros [r|e|w]; try done. split; [done|]. by eexists _, _, _.
  - simpl. apply wp_bind, wp_lift_result; [|done..]. intros [] Hch.
    + split; [|by intros [[]|e|w]]. right. split; [exact Hw|].
      exists h1, t, l. split_and!; [done|done|]. right. by exists j.
    + pose proof (sign_status_post _ _ _ _ _ _ _ _ Ht Hl Hch) as Hp.
      destruct (GetJobStatus j) as [st [err|]]; exact Hp.
Qed.

(** ** ShouldSync *)

Definition sign_skipped (mld : ModuleLoaderData) (h : hist) : Prop :=
  mld_Sign mld = None ∨ image_seen (mld_ContainerImage mld) h.

Lemma sign_skipped_monotone mld : monotone (sign_skipped mld).
Proof. intros h h' Hp [H|H]; [by left|right]. by eapply image_seen_monotone. Qed.

Lemma wp_sign_ShouldSync mld h :
  wp (λ _ _, True) (sign_ShouldSync mld)
     (λ o h', match o with Done (Ok false) => sign_skipped mld h' | _ => True end) h.
Proof.
  unfold sign_ShouldSync, ShouldBeSigned. destruct (mld_Sign mld) as [kb|] eqn:Hb; simpl;
    [|by left].
  apply wp_bind. eapply wp_post; [apply wp_module_ImageExists_seen|].
  intros [[[]|e|w]|w] h' _ Hp; try done. by right.
Qed.

(** ** Garbage collection *)

Definition sign_gc_allowed (modName namespace : string) (owner : Owner) (h : hist) (q : req) : Prop :=
  is_write q = false ∨
  ∃ j l, q = RDelete KJob j true ∧ j ∈ l ∧
    (Ev (RList KJob (mk_listopts (Some namespace) (Some (moduleLabels modName JobTypeSign)))) (Ok l)
       : @event req ans) ∈ h ∧
    IsControlledBy (job_meta j) owner = true ∧ js_Succeeded (job_Status j) = 1%Z.

Lemma wp_sign_GarbageCollect modName namespace owner h :
  wp (sign_gc_allowed modName namespace owner) (sign_GarbageCollect modName namespace owner)
     (λ _ _, True) h.
Proof.
  unfold sign_GarbageCollect, GetModuleJobs, getJobs. do 3 apply wp_bind. split; [by left|].
  intros [l|e|w]; try done. simpl. apply wp_bind.
  apply (wp_range_loop _ _ _ _ (λ _ _ h', ∃ rest,
    h' = (h ++ [Ev (RList KJob (mk_listopts (Some namespace)
                     (Some (moduleLabels modName JobTypeSign)))) (Ok l)]) ++ rest)).
  - exists []. by rewrite app_nil_r.
  - intros pre j post names h' Heq [rest ->]. case_bool_decide as Hsucc; [|by eexists].
    split; [|intros [[]|e|w]; try done; eexists; by rewrite <-!app_assoc].
    right. exists j, l.
    assert (j ∈ filterJobsByOwner l owner) as Hj by (rewrite Heq; set_solver).
    apply filterJobsByOwner_spec in Hj as [Hj Hc].
    split_and!; try done. apply elem_of_app. left. in_hist.
  - done.
Qed.

(** ** The instance of sign.SignManager *)

Definition signjob_manager : SignManager := {|
  sm_GarbageCollect := sign_GarbageCollect;
  sm_ShouldSync := sign_ShouldSync;
  sm_Sync := sign_Sync |}.

#[export] Program Instance signjob_manager_spec : SignManagerSpec signjob_manager := {|
  sm_skipped := sign_skipped;
  sm_completed := sign_completed;
  sm_call mld image push owner h q := ∃ n, sign_allowed mld image push owner n h q;
  sm_skipped_monotone := sign_skipped_monotone;
  sm_completed_monotone := sign_completed_monotone |}.
Next Obligation.
  intros mld image push owner h q [n [Hq|(_ & h2 & t & l & Ht & _ & [[_ ->]|(j & _ & _ & ->)])]];
    [by apply sync_read| |by apply (sync_delete KJob)].
  apply (sync_create KJob); [by eapply job_of_controlled|]. intros ->. simpl.
  apply job_of_facts in Ht as (_ & _ & _ & c & -> & Hc & _).
  intros (c' & ->%list_elem_of_singleton & Hn). by apply Hn, Hc.
Qed.
Next Obligation.
  intros mld h. apply wp_interface_ShouldSync; [apply reads_sign_ShouldSync|].
  apply wp_sign_ShouldSync.
Qed.
Next Obligation.
  intros mld image push owner h. eapply wp_mono; [apply wp_sign_Sync|by eauto|].
  - intros [[[] e]|w] h' _ H; try done. by destruct H.
Qed.
Next Obligation.
  intros name ns owner h. eapply wp_mono; [apply wp_sign_GarbageCollect| |done].
  intros h' q _ [Hq|(j & l & -> & _)]; [by left|right; by eauto].
Qed.

(** A Job of the current settings was created, is running or failed, or the
    one of older settings is being deleted. *)
Definition sign_waiting (mld : ModuleLoaderData) (image : string) (push : bool) (owner : Owner)
    (h : hist) : Prop :=
  ∃ h' t l, job_of mld (sign_labels mld) image push owner h' t ∧
    ((∃ r, filterJobsByOwner l owner = [] ∧
        h' ++ [jobs_listed mld l; Ev (RCreate KJob t) (Ok r)] `prefix_of` h) ∨
     (∃ j r, filterJobsByOwner l owner = [j] ∧ IsJobChanged j t = Ok true ∧
        h' ++ [jobs_listed mld l; Ev (RDelete KJob j true) r] `prefix_of` h) ∨
     (∃ j, filterJobsByOwner l owner = [j] ∧ IsJobChanged j t = Ok false ∧
        h' ++ [jobs_listed mld l] `prefix_of` h ∧
        (js_Active (job_Status j) = 1%Z ∨ js_Failed (job_Status j) = 1%Z))).

Lemma sign_waiting_monotone mld image push owner : monotone (sign_waiting mld image push owner).
Proof.
  intros h h' Hp (h1 & t & l & Ht & [(r & H0 & H)|[(j & r & H0 & H1 & H)|(j & H0 & H1 & H & H2)]]);
    exists h1, t, l; (split; [done|]); [left|right; left|right; right].
  - exists r. split; [done|]. by trans h.
  - exists j, r. split_and!; [done..|]. by trans h.
  - exists j. split_and!; [done..| |done]. by trans h.
Qed.

Lemma GetJobStatus_running j st :
  GetJobStatus j = (st, None) → st ≠ StatusCompleted →
  js_Active (job_Status j) = 1%Z ∨ js_Failed (job_Status j) = 1%Z.
Proof. unfold GetJobStatus. repeat case_bool_decide; intros; simplify_eq; auto. Qed.

Lemma wp_sign_Sync_waiting mld image push owner h :
  wp (λ _ _, True) (sign_Sync mld image push owner)
     (λ o h', match o with
              | Done (st, None) => st ≠ StatusCompleted → sign_waiting mld image push owner h'
              | _ => True
              end) h.
Proof.
  unfold sign_Sync. apply wp_bind. eapply wp_post; [apply wp_MakeJobTemplate|].
  intros [[t|e|w]|w] h1 _ Ht; try done.
  unfold GetModuleJobByKernel, getJobs. do 3 apply wp_bind. split; [done|].
  intros [l|e|w]; try done. simpl. change (Ev _ _) with (jobs_listed mld l).
  destruct (filterJobsByOwner l owner) as [|j [|j2 js]] eqn:Hl; try done.
  - split; [done|]. intros [r|e|w]; try done. intros _. exists h1, t, l. split; [done|].
    left. exists r. by rewrite <-app_assoc.
  - simpl. apply wp_bind, wp_lift_result; [|done..]. intros [] Hch.
    + split; [done|]. intros r. assert (sign_waiting mld image push owner
        ((h1 ++ [jobs_listed mld l]) ++ [Ev (RDelete KJob j true) r])) as Hw.
      { exists h1, t, l. split; [done|]. right. left. exists j, r. by rewrite <-app_assoc. }
      destruct r as [[]|e|w]; simpl; auto.
    + destruct (GetJobStatus j) as [st [e|]] eqn:Hst; cbn [wp]; [done|]. intros Hne.
      exists h1, t, l. split; [done|]. right. right. exists j. split_and!; [done..|].
      by eapply GetJobStatus_running.
Qed.

#[export] Program Instance signjob_manager_progress : SignManagerProgress signjob_manager := {|
  sm_waiting := sign_waiting;
  sm_waiting_monotone := sign_waiting_monotone |}.
Next Obligation. apply wp_sign_Sync_waiting. Qed.

(** ** Properties *)

(** C17: against every API server, one Sync of a signing Job makes at most one
    write: it creates the Job of the current settings right after finding no
    Job of the owner for the kernel, or deletes the one it found right after
    seeing that its hash (of the pod and of both signing keys) differs.  It
    reports completion only for the single owned Job found, with the current
    hash and one success. *)
Theorem sign_Sync_spec {S} (srv : kserver S) s mld image push owner :
  let p := sign_Sync mld image push owner in
  sign_post mld image push owner (run_out srv p s) (run_trace srv p s) ∧
  (∀ h1 e h2, run_trace srv p s = h1 ++ e :: h2 →
     sign_allowed mld image push owner 0 h1 (ev_req e)).
Proof. apply wp_run, (wp_sign_Sync mld image push owner []). Qed.

(** The signing Job made from a Module carries the labels asked for, is
    controlled by the owner, is given the image to push when a push was asked
    for and told not to push otherwise, and hashes the keys it read; making
    it writes nothing. *)
Theorem MakeJobTemplate_spec {S} (srv : kserver S) s mld labels image push owner :
  let p := MakeJobTemplate mld labels image push owner in
  Forall (λ e, is_write (ev_req e) = false) (run_trace srv p s) ∧
  ∀ j, run_out srv p s = Done (Ok j) →
    om_Labels (job_meta j) = Some labels ∧ om_Namespace (job_meta j) = mld_Namespace mld ∧
    IsControlledBy (job_meta j) owner = true ∧
    job_of mld labels image push owner (run_trace srv p s) j ∧
    ∃ c, ps_Containers (pt_spec (jspec_Template (job_Spec j))) = [c] ∧
      (push = false → "-no-push" ∈ ctr_Args c) ∧
      (push = true → ∃ rest, ctr_Args c = "-signedimage" :: mld_ContainerImage mld :: rest).
Proof.
  intros p. split; [apply (calls_run (λ q, is_write q = false)), reads_MakeJobTemplate|].
  intros j Hj.
  pose proof (wp_run _ _ _ srv s (wp_MakeJobTemplate mld labels image push owner [])) as [H _].
  unfold p in Hj. rewrite Hj in H.
  by pose proof (job_of_facts _ _ _ _ _ _ _ H) as (H1 & H2 & H3 & H4).
Qed.

(** Garbage collection of signing Jobs deletes only Jobs it listed for
    the Module, that the owner controls and that succeeded. *)
Theorem sign_GarbageCollect_spec {S} (srv : kserver S) s modName namespace owner h1 e h2 :
  run_trace srv (sign_GarbageCollect modName namespace owner) s = h1 ++ e :: h2 →
  sign_gc_allowed modName namespace owner h1 (ev_req e).
Proof. apply (wp_run _ _ _ srv s (wp_sign_GarbageCollect modName namespace owner [])). Qed.
End signjob.

(** ** Examples *)

Definition ex_secret : Secret :=
  mk_secret (meta_named "key" "gpu") {[ PrivateSignDataKey := "k"; PublicSignDataKey := "c" ]} "".
Definition ex_ca_cm : ConfigMap := mk_cm (meta_named "ca" "gpu") ∅.

(** A cluster with the keys, the CA bundles and the given signing Jobs. *)
Definition ex_sign_server (jobs : list Job) : kserver unit := stateless (λ q,
  match q return ans q with
  | RGet KSecret _ => Ok ex_secret
  | RGet KServiceAccount _ => Ok (mk_sa (meta_named "builder" "gpu") [])
  | RList KConfigMap _ => Ok [ex_ca_cm]
  | RList KJob _ => Ok jobs
  | q => accept q
  end).

Definition ex_done_job : Job :=
  mk_job (mk_meta "nvidia-sign-1" "" "gpu" "u" None (Some {[ JobHashAnnotation := "1" ]})
            [owner_ref (as_owner Ex.module) true] [] None 0)
    (mk_jobspec None (mk_podtemplate empty_meta empty_podspec) None) (mk_jobstatus 0 1 0 "").

Lemma sign_Sync_spec_witness :
  let p := sign_Sync (Hs := ex_hasher) Ex.mld "unsigned" true (as_owner Ex.module) in
  run_out (ex_sign_server [ex_done_job]) p tt = Done (StatusCompleted, None) ∧
  sign_post (Hs := ex_hasher) Ex.mld "unsigned" true (as_owner Ex.module)
    (Done (StatusCompleted, None)) (run_trace (ex_sign_server [ex_done_job]) p tt).
Proof.
  intros p. split; [reflexivity|].
  exact (proj1 (sign_Sync_spec (Hs := ex_hasher) (ex_sign_server [ex_done_job]) tt Ex.mld
                  "unsigned" true (as_owner Ex.module))).
Defined.

Lemma MakeJobTemplate_spec_witness :
  let p := MakeJobTemplate (Hs := ex_hasher) Ex.mld ∅ "unsigned" false (as_owner Ex.module) in
  ∃ j, run_out (ex_sign_server []) p tt = Done (Ok j) ∧
       IsControlledBy (job_meta j) (as_owner Ex.module) = true.
Proof.
  intros p. eexists. split; [reflexivity|].
  eapply (proj2 (MakeJobTemplate_spec (Hs := ex_hasher) (ex_sign_server []) tt Ex.mld ∅
                   "unsigned" false (as_owner Ex.module))). reflexivity.
Defined.

Lemma sign_GarbageCollect_spec_witness :
  ∃ h1, sign_gc_allowed "nvidia" "gpu" (as_owner Ex.module) h1 (RDelete KJob ex_done_job true).
Proof.
  eexists. exact (sign_GarbageCollect_spec (ex_sign_server [ex_done_job]) tt "nvidia" "gpu"
    (as_owner Ex.module) [_] (Ev (RDelete KJob ex_done_job true) (Ok tt)) [] eq_refl).
Defined.
