(* ===== verification/PodTemplates.v ===== *)
(** * Volumes of the pods

    What the API types (core/v1) and apimachinery's validation ask of the
    volumes of a pod - names that are DNS labels and distinct, mounts of volumes
    it declares, at distinct paths - and of a DaemonSet: that its selector
    matches its template.  Here: when what the operator sends obeys. *)

From S2P Require Import Prelude Prog K8s Api Client Utils Helpers KernelMapper DaemonSet Registry CA SignJob BuildConfig.
From stdpp Require Import options.

(** ** Validation *)

Definition volume_names (p : PodSpec) : list string := List.map vol_Name (ps_Volumes p).
Definition mounted (p : PodSpec) : list string :=
  List.map vm_Name (concat (List.map ctr_VolumeMounts (ps_Containers p))).

(** apimachinery's IsDNS1123Label: at most 63 lower case letters, digits and
    dashes, the first and the last no dash. *)
Definition is_alnum (c : ascii) : bool :=
  ((97 <=? nat_of_ascii c) && (nat_of_ascii c <=? 122)) || ((48 <=? nat_of_ascii c) && (nat_of_ascii c <=? 57)).
Definition is_label_char (c : ascii) : bool := is_alnum c || is_char "-"%char c.
Definition last_alnum (s : string) : bool :=
  match last (String.list_ascii_of_string s) with Some c => is_alnum c | None => false end.
Definition is_dns_label (s : string) : bool :=
  (String.length s <=? 63) && str_forall is_label_char s &&
  match s with String c _ => is_alnum c | "" => false end && last_alnum s.

(** The rules for the volumes of a pod. *)
Definition mount_paths (c : Container) : list string := List.map vm_MountPath (ctr_VolumeMounts c).
Record volumes_valid (p : PodSpec) : Prop := {
  vv_unique : NoDup (volume_names p);
  vv_labels : Forall is_dns_label (volume_names p);
  vv_declared n : n ∈ mounted p → n ∈ volume_names p;
  vv_paths : Forall (NoDup ∘ mount_paths) (ps_Containers p) }.

(** apps/v1 validation of a DaemonSet: its selector matches the pods of its
    template, which start again when they end. *)
Definition daemonset_valid (ds : DaemonSet) : Prop :=
  volumes_valid (pt_spec (dss_Template (ds_Spec ds))) ∧
  (∃ sel, dss_Selector (ds_Spec ds) = Some sel ∧ sel ≠ ∅ ∧
     labels_match sel (om_Labels (pt_meta (dss_Template (ds_Spec ds)))) = true) ∧
  ps_RestartPolicy (pt_spec (dss_Template (ds_Spec ds))) ∈ [""; "Always"].

#[export] Instance volumes_valid_dec p : Decision (volumes_valid p).
Proof.
  destruct (decide (NoDup (volume_names p) ∧ Forall is_dns_label (volume_names p) ∧
    Forall (λ n, n ∈ volume_names p) (mounted p) ∧
    Forall (λ c, NoDup (mount_paths c)) (ps_Containers p))) as [H|H]; [left|right].
  - destruct H as (H1 & H2 & H3 & H4). split; [exact H1|exact H2|by apply Forall_forall|exact H4].
  - intros [H1 H2 H3 H4]. apply H. split_and!; [exact H1|exact H2|by apply Forall_forall|exact H4].
Defined.

Lemma labels_match_self (m : strmap) : labels_match m (Some m) = true.
Proof. apply labels_match_spec. intros k v. done. Qed.

(** ** DaemonSets *)

Lemma driver_volumes_valid mld spec :
  ps_Containers spec = [driver_container mld] → ps_Volumes spec = driver_volumes mld →
  volumes_valid spec.
Proof.
  intros Hc Hv. unfold driver_container in Hc. unfold driver_volumes in Hv.
  split; unfold volume_names, mounted; rewrite ?Hc, ?Hv; case_bool_decide;
    try (apply (bool_decide_unpack _); reflexivity); set_solver.
Qed.

(** The volumes and mounts of a device plugin are the user's. *)
Definition device_plugin_volumes_valid (dp : DevicePluginSpec) : Prop :=
  let names := List.map vol_Name (dp_Volumes dp) in
  let mounts := dpc_VolumeMounts (dp_Container dp) in
  NoDup names ∧ kubeletDevicePluginsVolumeName ∉ names ∧ Forall is_dns_label names ∧
  (∀ m, m ∈ mounts → vm_Name m = kubeletDevicePluginsVolumeName ∨ vm_Name m ∈ names) ∧
  NoDup (List.map vm_MountPath mounts) ∧ kubeletDevicePluginsPath ∉ List.map vm_MountPath mounts.

Lemma device_plugin_volumes m dp sa :
  volumes_valid (pt_spec (dss_Template (device_plugin_spec m dp sa))) ↔ device_plugin_volumes_valid dp.
Proof.
  unfold device_plugin_volumes_valid. cbn zeta.
  set (p := pt_spec _). assert (volume_names p = kubeletDevicePluginsVolumeName :: List.map vol_Name (dp_Volumes dp)) as Hv
    by done.
  assert (mounted p = List.map vm_Name (dpc_VolumeMounts (dp_Container dp)) ++ [kubeletDevicePluginsVolumeName]) as Hm
    by (unfold mounted; cbn; by rewrite app_nil_r, map_app).
  assert (Forall (NoDup ∘ mount_paths) (ps_Containers p) ↔
    NoDup (List.map vm_MountPath (dpc_VolumeMounts (dp_Container dp))) ∧
    kubeletDevicePluginsPath ∉ List.map vm_MountPath (dpc_VolumeMounts (dp_Container dp))) as Hp.
  { cbn. rewrite Forall_singleton. unfold compose, mount_paths. cbn [ctr_VolumeMounts]. rewrite map_app, NoDup_app.
    cbn [List.map vm_MountPath]. pose proof (NoDup_singleton kubeletDevicePluginsPath). set_solver. }
  split.
  - intros [H1 H2 H3 H4]. rewrite Hv in H1, H2, H3. rewrite Hm in H3. apply Hp in H4 as [H4 H5].
    apply NoDup_cons in H1 as [H0 H1]. apply Forall_cons in H2 as [_ H2]. split_and!; [done..| |done|done].
    intros v Hin. specialize (H3 (vm_Name v)). rewrite elem_of_app, elem_of_cons in H3. apply elem_of_cons, H3. left.
    by apply list_elem_of_In, in_map, list_elem_of_In.
  - intros (H1 & H0 & H2 & H3 & H4 & H5). split; rewrite ?Hv, ?Hm.
    + by apply NoDup_cons.
    + by apply Forall_cons.
    + intros n [Hin|Hin]%elem_of_app; [|set_solver].
      apply list_elem_of_In, in_map_iff in Hin as (v & <- & Hin%list_elem_of_In). apply elem_of_cons. by apply H3.
    + by apply Hp.
Qed.

(** The DaemonSets the operator writes obey the rules: a module loader always,
    a device plugin when the user's own volumes and mounts do, and use neither
    the name nor the path of the operator's. *)
Theorem daemonsets_well_formed kernelLabel :
  (∀ ds mld sa ds', SetDriverContainerAsDesired kernelLabel (Some ds) mld sa = Ok ds' →
     daemonset_valid ds') ∧
  (∀ ds m sa ds' dp, SetDevicePluginAsDesired (Some ds) m sa = Ok ds' →
     DevicePlugin (mod_Spec m) = Some dp →
     daemonset_valid ds' ↔ device_plugin_volumes_valid dp).
Proof.
  split.
  - intros ds mld sa ds' H. unfold SetDriverContainerAsDesired in H.
    repeat case_bool_decide; try done. apply result_bind_Ok in H as (m' & _ & [= <-]).
    split_and!; [by apply (driver_volumes_valid mld)| |by left].
    exists (driver_labels kernelLabel mld). split_and!; [done| |apply labels_match_self].
    apply insert_non_empty.
  - intros ds m sa ds' dp H Hdp. unfold SetDevicePluginAsDesired in H. rewrite Hdp in H.
    apply result_bind_Ok in H as (m' & _ & [= <-]).
    unfold daemonset_valid. cbn [ds_Spec]. rewrite device_plugin_volumes. split; [tauto|].
    intros Hv. split_and!; [done| |by left].
    eexists. split_and!; [done|apply map_non_empty_singleton|apply labels_match_self].
Qed.

(** ** Signing Jobs *)

Definition secret_volume (name : string) : string := "secret-" +:+ name.

#[export] Instance secret_volume_inj : Inj (=) (=) secret_volume.
Proof. intros a b H. by injection H. Qed.

Lemma secret_volume_not_ca ns : trustedCAVolumeName ∉ List.map secret_volume ns.
Proof. intros (n & Hn & _)%list_elem_of_In%in_map_iff. done. Qed.

(** The secrets a signing Job mounts. *)
Definition job_secrets (mld : ModuleLoaderData) (key cert : string) (pullSecrets : list string)
    : list string :=
  key :: cert :: (match mld_ImageRepoSecret mld with Some s => [lor_Name s] | None => [] end)
  ++ pullSecrets.

Lemma sign_volume_names mld sc key cert args ca1 ca2 secrets image :
  KeySecret sc = Some key → CertSecret sc = Some cert →
  let p := pt_spec (sign_pod mld sc args ca1 ca2 secrets image) in
  let names := List.map secret_volume (job_secrets mld (lor_Name key) (lor_Name cert) secrets) in
  volume_names p ≡ₚ trustedCAVolumeName :: names ∧ mounted p ≡ₚ trustedCAVolumeName :: names.
Proof.
  intros Hk Hc p names. unfold names, p, volume_names, mounted, sign_pod, sign_volumes, sign_mounts, job_secrets.
  rewrite Hk, Hc. simpl. rewrite app_nil_r, !map_app, !map_map.
  assert (∀ a b c (r : list string), a :: b :: c :: r ≡ₚ c :: a :: b :: r) as Hp.
  { intros a b c r. exact (Permutation_app_tail r (Permutation_app_comm [a; b] [c])). }
  destruct (mld_ImageRepoSecret mld) as [s|]; simpl; (split; [apply Hp|]);
    (etrans; [apply perm_swap|apply Hp]).
Qed.

(** What a secret must be named, for the name of its volume to be a label. *)
Definition secret_name_ok (n : string) : bool :=
  (String.length n <=? 56) && str_forall is_label_char n && last_alnum n.

Lemma secret_volume_label n : is_dns_label (secret_volume n) = secret_name_ok n.
Proof.
  unfold is_dns_label, secret_name_ok, secret_volume. rewrite str_length_app, str_forall_app.
  change (String.length "secret-") with 7. change (str_forall is_label_char "secret-") with true.
  assert ((7 + String.length n <=? 63) = (String.length n <=? 56)) as ->.
  { destruct (Nat.leb_spec (7 + String.length n) 63), (Nat.leb_spec (String.length n) 56); lia || done. }
  assert (last_alnum ("secret-" +:+ n) = last_alnum n) as ->; [|by rewrite !andb_true_r].
  destruct n as [|c n]; [done|]. unfold last_alnum.
  change (String.list_ascii_of_string ("secret-" +:+ String c n)) with
    (String.list_ascii_of_string "secret-" ++ c :: String.list_ascii_of_string n).
  by rewrite last_app_cons.
Qed.

Lemma secret_volume_labels l : Forall is_dns_label (List.map secret_volume l) ↔ Forall secret_name_ok l.
Proof.
  induction l as [|n l IH]; cbn [List.map]; [by split; constructor|].
  by rewrite !Forall_cons, secret_volume_label, IH.
Qed.

Definition docker_path (s : string) : string := "/docker_config/" +:+ s.
#[local] Instance docker_path_inj : Inj (=) (=) docker_path.
Proof. intros a b H. by injection H. Qed.
Definition builder_path (s : string) : string := OCPBuilderServiceAccountName +:+ "/" +:+ s.
#[local] Instance builder_path_inj : Inj (=) (=) builder_path.
Proof. intros a b H. by injection H. Qed.

Definition module_secret (mld : ModuleLoaderData) : list string :=
  match mld_ImageRepoSecret mld with Some s => [lor_Name s] | None => [] end.

(** The paths of the signing container. *)
Lemma sign_mount_paths mld sc key cert secrets :
  KeySecret sc = Some key → CertSecret sc = Some cert →
  List.map vm_MountPath (sign_mounts sc (mld_ImageRepoSecret mld) secrets) =
  "/signingcert" :: "/signingkey" :: trustedCAMountPath ::
    List.map docker_path (module_secret mld ++ List.map builder_path secrets).
Proof.
  intros Hk Hc. unfold sign_mounts, module_secret. rewrite Hk, Hc, !map_app, !map_map.
  by destruct (mld_ImageRepoSecret mld) as [s|].
Qed.

Lemma sign_mount_paths_distinct mld sc key cert secrets :
  KeySecret sc = Some key → CertSecret sc = Some cert →
  NoDup secrets → Forall secret_name_ok (module_secret mld) →
  NoDup (List.map vm_MountPath (sign_mounts sc (mld_ImageRepoSecret mld) secrets)).
Proof.
  intros Hk Hc Hnd Hok. rewrite (sign_mount_paths mld sc key cert) by done.
  assert (∀ x l, String.substring 0 2 x = "/s" ∨ String.substring 0 2 x = "/e" → x ∉ List.map docker_path l) as Hne.
  { intros x l Hx (y & <- & _)%list_elem_of_In%in_map_iff. by destruct Hx. }
  repeat (apply NoDup_cons; split; [rewrite ?not_elem_of_cons; split_and?; try done; apply Hne; auto|]).
  apply NoDup_fmap_2; [apply _|]. apply NoDup_app. split_and!.
  - unfold module_secret. destruct (mld_ImageRepoSecret mld); repeat constructor; set_solver.
  - intros s Hs (y & <- & _)%list_elem_of_In%in_map_iff. rewrite Forall_forall in Hok. specialize (Hok _ Hs).
    unfold secret_name_ok, builder_path in Hok. rewrite !str_forall_app in Hok.
    apply andb_prop_elim in Hok as [[_ H]%andb_prop_elim _]. by repeat apply andb_prop_elim in H as [? H].
  - apply NoDup_fmap_2; [apply _|done].
Qed.

(** C30: every volume the container of a signing Job mounts is one the Job
    declares: one for each secret - of the key, of the certificate, of the
    Module's registry, and each one of the builder's service account as it was
    read - and one for the CA bundles.  The volumes obey the rules - distinct
    names that are DNS labels, mounts of declared volumes at distinct paths -
    exactly when these secrets all have different names, of at most 56 lower
    case letters, digits and dashes, the last no dash.  A key and a certificate
    in the same secret, a registry secret that is one of the builder's, or a
    secret with a dot in its name, which Kubernetes allows, make the Job
    invalid. *)
Theorem sign_job_volumes {Hs : Hasher} {S} (srv : kserver S) s
    mld labels image push owner j :
  run_out srv (MakeJobTemplate mld labels image push owner) s = Done (Ok j) →
  ∃ sc key cert sa,
    mld_Sign mld = Some sc ∧ KeySecret sc = Some key ∧ CertSecret sc = Some cert ∧
    (Ev (RGet KServiceAccount (NN (mld_Namespace mld) "builder")) (Ok sa) : @event req ans)
      ∈ run_trace srv (MakeJobTemplate mld labels image push owner) s ∧
    let p := pt_spec (jspec_Template (job_Spec j)) in
    let secrets := job_secrets mld (lor_Name key) (lor_Name cert) (sa_Secrets sa) in
    volume_names p ≡ₚ trustedCAVolumeName :: List.map secret_volume secrets ∧
    (∀ n, n ∈ mounted p ↔ n ∈ volume_names p) ∧
    (volumes_valid p ↔ NoDup secrets ∧ Forall secret_name_ok secrets).
Proof.
  intros Hj. pose proof (wp_run _ _ _ srv s (wp_MakeJobTemplate mld labels image push owner [])) as [H _].
  rewrite Hj in H.
  destruct H as (sc & tls & args & cl & se & secs & img & key & cert & n & m & Hsc & Hk & Hc & _ & _ &
    (sa & Hsa & ->) & _ & _ & ->).
  exists sc, key, cert, sa. split_and!; [done..|exact Hsa|]. intros p secrets.
  destruct (sign_volume_names mld sc key cert args cl se (sa_Secrets sa) img Hk Hc) as [Hv Hm].
  change (volume_names p ≡ₚ trustedCAVolumeName :: List.map secret_volume secrets) in Hv.
  change (mounted p ≡ₚ trustedCAVolumeName :: List.map secret_volume secrets) in Hm.
  assert (∀ x, x ∈ mounted p ↔ x ∈ volume_names p) as Hin by (intros x; by rewrite Hm, Hv).
  assert (NoDup (volume_names p) ↔ NoDup secrets) as Hnd.
  { rewrite Hv, NoDup_cons, (NoDup_fmap secret_volume secrets). pose proof (secret_volume_not_ca secrets). tauto. }
  assert (Forall is_dns_label (volume_names p) ↔ Forall secret_name_ok secrets) as Hlab.
  { rewrite Hv, Forall_cons, secret_volume_labels. by split; [intros [_ ?]|split]. }
  split_and!; [exact Hv|exact Hin|]. split.
  - intros [H1 H2 _ _]. by rewrite <-Hnd, <-Hlab.
  - intros [H1 H2]. split; [by apply Hnd|by apply Hlab|intros; by apply Hin|].
    apply Forall_singleton, (sign_mount_paths_distinct mld sc key cert); [done|done| |].
    + unfold secrets, job_secrets in H1. apply NoDup_cons in H1 as [_ [_ H1]%NoDup_cons].
      by apply NoDup_app in H1 as (_ & _ & ?).
    + unfold secrets, job_secrets in H2. apply Forall_cons in H2 as [_ [_ H2]%Forall_cons].
      by apply Forall_app in H2 as [? _].
Qed.

(** ** Examples *)

(** Key and certificate in two secrets, in one, and in one with a dot. *)
Definition ex_sign_with (cert : string) : ModuleLoaderData :=
  mk_mld Ex.kernel None ∅ "nvidia" "gpu" "" None
    (Some (mk_sign "" empty_tls (Some (LocalRef "key")) (Some (LocalRef cert)) ["/opt/a.ko"]))
    "quay.io/org/driver:v1" "" Ex.modprobe (Some empty_tls) (as_owner Ex.module).
Definition ex_make_job (cert : string) : M (result Job) :=
  MakeJobTemplate (Hs := ex_hasher) (ex_sign_with cert) ∅ "unsigned" false (as_owner Ex.module).
(** The builder has a pull secret. *)
Definition ex_builder_server : kserver unit := λ q s,
  match q return ans q * unit with
  | RGet KServiceAccount _ => (Ok (mk_sa (meta_named "builder" "gpu") ["builder-dockercfg"]), s)
  | q => ex_sign_server [] q s
  end.
Definition job_volumes_ok (o : outcome (result Job)) : option bool :=
  match o with
  | Done (Ok j) => Some (bool_decide (volumes_valid (pt_spec (jspec_Template (job_Spec j)))))
  | _ => None
  end.

Example ex_one_secret :
  let ok cert := job_volumes_ok (run_out ex_builder_server (ex_make_job cert) tt) in
  ok "cert" = Some true ∧ ok "key" = Some false ∧ ok "my.cert" = Some false ∧
  ok "builder-dockercfg" = Some false.
Proof. vm_compute. done. Qed.

Definition ex_sa_read (e : @event req ans) : bool :=
  match ev_req e as q return ans q → bool with
  | RGet KServiceAccount _ => λ r : result ServiceAccount,
      match r with Ok sa => bool_decide (sa_Secrets sa = ["builder-dockercfg"]) | _ => true end
  | _ => λ _, true
  end (ev_ans e).

Lemma sign_job_volumes_witness : ∃ j,
  run_out ex_builder_server (ex_make_job "cert") tt = Done (Ok j) ∧
  "secret-builder-dockercfg" ∈ volume_names (pt_spec (jspec_Template (job_Spec j))) ∧
  volumes_valid (pt_spec (jspec_Template (job_Spec j))).
Proof.
  assert (∃ j, run_out ex_builder_server (ex_make_job "cert") tt = Done (Ok j)) as [j Hj]
    by (eexists; reflexivity).
  destruct (sign_job_volumes (Hs := ex_hasher) ex_builder_server tt (ex_sign_with "cert") ∅
    "unsigned" false (as_owner Ex.module) j Hj) as (sc & key & cert & sa & Hsc & Hk & Hc & Hsa & Hv & _ & Hok).
  injection Hsc as <-. injection Hk as <-. injection Hc as <-.
  assert (forallb ex_sa_read (run_trace ex_builder_server (ex_make_job "cert") tt) = true) as Hall
    by (vm_compute; reflexivity).
  rewrite forallb_forall in Hall. apply list_elem_of_In, Hall, bool_decide_eq_true in Hsa as Hs.
  cbn zeta in Hv, Hok. rewrite Hs in Hv, Hok. exists j. split; [exact Hj|]. split.
  - rewrite Hv. vm_compute. set_solver.
  - apply Hok. split; [|by vm_compute; repeat constructor]. repeat constructor; vm_compute; set_solver.
Defined.
