(* ===== verification/ApiServer.v ===== *)
(** * The API server

    What the controllers rely on of the Kubernetes API server and of the
    client's cache, as laws of a server: which objects there are, what a read
    answers, what a write does to them.  [swp] is what a program does over one
    server: its result and the state it leaves.  The laws describe the server
    between two runs of a controller that nobody disturbs: the cache has caught
    up, and nobody else writes. *)

From S2P Require Import Prelude Prog K8s Api Client.
From stdpp Require Import options.

Local Open Scope go_scope.

(** ** Programs over a server *)

Section swp.
Context {S : Type} (srv : kserver S).

Fixpoint swp {A} (p : M A) (Q : outcome A → S → Prop) (s : S) : Prop :=
  match p with
  | Ret a => Q (Done a) s
  | Crash w => Q (Crashed w) s
  | Call q k => swp (k (srv q s).1) Q (srv q s).2
  end.

Lemma swp_run {A} (p : M A) (Q : outcome A → S → Prop) s :
  swp p Q s ↔ Q (run_out srv p s) (run_state srv p s).
Proof.
  unfold run_out, run_state. revert s. induction p as [a|w|q k IH]; intros s; [done..|].
  cbn [swp run]. destruct (srv q s) as [x s1]. cbn [fst snd]. rewrite IH.
  by destruct (run srv (k x) s1) as [[??]?].
Qed.

Lemma swp_mono {A} (p : M A) (Q1 Q2 : outcome A → S → Prop) s :
  swp p Q1 s → (∀ o s', Q1 o s' → Q2 o s') → swp p Q2 s.
Proof. rewrite !swp_run. auto. Qed.

Lemma swp_bind {A B} (p : M A) (f : A → M B) Q s :
  swp p (λ o s', match o with Done a => swp (f a) Q s' | Crashed w => Q (Crashed w) s' end) s →
  swp (prog_bind f p) Q s.
Proof. revert s. induction p as [a|w|q k IH]; intros s; [done..|]. cbn [swp prog_bind]. apply IH. Qed.

(** A program that is known to end with a value. *)
Lemma swp_seq {A B} (p : M A) (f : A → M B) (R : A → S → Prop) Q s :
  swp p (λ o s', ∃ a, o = Done a ∧ R a s') s → (∀ a s', R a s' → swp (f a) Q s') →
  swp (prog_bind f p) Q s.
Proof. intros Hp Hf. apply swp_bind. eapply swp_mono; [exact Hp|]. intros o s' (a & -> & Ha). auto. Qed.

(** What the calls of a program keep. *)
Lemma swp_keep {A} (P : req → Prop) (I : S → Prop) (p : M A) (Q : outcome A → S → Prop) s :
  calls P p → (∀ q s, P q → I s → I (srv q s).2) → swp p Q s → I s →
  swp p (λ o s', Q o s' ∧ I s') s.
Proof.
  intros Hp HI. rewrite !swp_run. intros HQ Hs. split; [done|]. clear HQ. revert s Hs.
  specialize (Hp []). revert Hp. generalize ([] : hist). unfold run_state.
  induction p as [a|w|q k IH]; intros h Hp s Hs; [done..|]. destruct Hp as [Hq Hk].
  cbn [run]. specialize (HI q s Hq Hs). destruct (srv q s) as [x s1]. cbn [snd] in HI.
  specialize (IH x _ (Hk x) s1 HI). by destruct (run srv (k x) s1) as [[??]?].
Qed.

Lemma swp_range_loop {X St R} (xs : list X) (body : X → St → M (ctl St R))
    (I : list X → St → S → Prop) st (Q : outcome (ctl St R) → S → Prop) s :
  I [] st s →
  (∀ done x rest st s, xs = done ++ x :: rest → I done st s →
     swp (body x st) (λ o s', ∃ st', o = Done (Next st') ∧ I (done ++ [x]) st' s') s) →
  (∀ st s, I xs st s → Q (Done (Next st)) s) →
  swp (range_loop xs body st) Q s.
Proof.
  intros H0 Hb HQ. cut (∀ done rest st s, xs = done ++ rest → I done st s →
    swp (range_loop rest body st) Q s); [intros H; by apply (H [])|].
  clear st s H0. intros done rest. revert done.
  induction rest as [|x rest IH]; intros done st s Hxs HI; cbn [range_loop swp].
  - apply HQ. by rewrite Hxs, app_nil_r.
  - apply swp_bind. eapply swp_mono; [by eapply Hb|]. intros o s' (st' & -> & HI').
    apply (IH (done ++ [x])); [|done]. by rewrite <-app_assoc.
Qed.
End swp.

(** ** The laws *)

#[export] Instance NamespacedName_countable : Countable NamespacedName.
Proof.
  apply (inj_countable' (λ n, (nn_Namespace n, nn_Name n)) (λ p, NN p.1 p.2)). by intros [].
Defined.

(** client.ListOptions on one object. *)
Definition selected (k : kind) (opts : ListOptions) (o : obj k) : bool :=
  match lo_Namespace opts with
  | Some ns => bool_decide (om_Namespace (obj_meta k o) = ns)
  | None => true
  end &&
  match lo_Labels opts with
  | Some sel => labels_match sel (om_Labels (obj_meta k o))
  | None => true
  end.

(** The metadata the server keeps of an object it is given: all but what it
    assigns itself. *)
Definition kept_meta (m m' : ObjectMeta) : Prop :=
  m' = mk_meta (om_Name m') (om_GenerateName m) (om_Namespace m) (om_UID m') (om_Labels m)
         (om_Annotations m) (om_OwnerReferences m) (om_Finalizers m) (om_DeletionTimestamp m)
         (om_Generation m').

(** The name of a new object: the one it asks for, or one made of the first
    58 characters of the prefix and a suffix, which has no dash. *)
Definition no_dash (s : string) : Prop := ∀ a b, s ≠ a +:+ "-" +:+ b.
Definition named (m m' : ObjectMeta) : Prop :=
  if bool_decide (om_Name m = "")
  then ∃ suffix, no_dash suffix ∧ om_Name m' = String.substring 0 58 (om_GenerateName m) +:+ suffix
  else om_Name m' = om_Name m.

Section laws.
Context {S : Type} (srv : kserver S).

(** The objects of a state, and the defaults filled into the spec of a
    DaemonSet. *)
Variable view : S → ∀ k, gmap NamespacedName (obj k).
Variable default_spec : DaemonSetSpec → DaemonSetSpec.

(** The objects the validation accepts. *)
Variable valid : ∀ k, obj k → Prop.

(** The write of a kind leaves the objects [v] of this kind, and the others
    alone. *)
Definition writes_view (k : kind) (s s' : S) (v : gmap NamespacedName (obj k)) : Prop :=
  view s' k = v ∧ ∀ k', k' ≠ k → view s' k' = view s k'.

(** What is stored of an object. *)
Definition stored (k : kind) : obj k → obj k → Prop :=
  match k with
  | KDaemonSet => λ o o' : DaemonSet, ds_Spec o' = default_spec (ds_Spec o)
  | KManifestWork => λ o o' : ManifestWork, mw_Spec o' = mw_Spec o
  | _ => λ _ _, True
  end.

(** The patches the validation lets through, of those the controllers make:
    the selector of a DaemonSet is immutable. *)
Definition patch_valid (k : kind) : obj k → obj k → Prop :=
  match k with
  | KDaemonSet => λ b o : DaemonSet,
      valid KDaemonSet o ∧ dss_Selector (ds_Spec o) = dss_Selector (ds_Spec b) ∧
      ∃ ls, ds_meta o = set_labels ls (ds_meta b)
  | KConfigMap => λ b o : ConfigMap, ∃ refs, cm_meta o = set_owners refs (cm_meta b)
  | KManifestWork => λ b o : ManifestWork,
      valid KManifestWork o ∧ ∃ refs ls, mw_meta o = set_owners refs (set_labels ls (mw_meta b))
  | _ => λ _ _, False
  end.

(** A patch leaves the status, and one of a DaemonSet that asks for nothing
    new leaves the object as it is. *)
Definition patch_effect (k : kind) : obj k → obj k → obj k → Prop :=
  match k with
  | KDaemonSet => λ b o o' : DaemonSet,
      ds_NumberAvailable o' = ds_NumberAvailable b ∧
      (ds_meta o = ds_meta b → default_spec (ds_Spec o) = ds_Spec b → o' = b)
  | KManifestWork => λ b o o' : ManifestWork, mw_Conditions o' = mw_Conditions b
  | _ => λ _ _ _, True
  end.

Class ApiServer : Prop := {
  (** the objects of a kind only change when one is written *)
  api_frame q s k : writes_kind k q = false → view (srv q s).2 k = view s k;
  api_keys s k key o : view s k !! key = Some o → object_key (obj_meta k o) = key ∧ nn_Name key ≠ "";
  (** stored objects have their defaults, and the defaults keep the selector *)
  api_defaulted s key (ds : obj KDaemonSet) :
    view s KDaemonSet !! key = Some ds → default_spec (ds_Spec ds) = ds_Spec ds;
  api_selector sp : dss_Selector (default_spec sp) = dss_Selector sp;
  api_get k key s :
    match view s k !! key with
    | Some o => (srv (RGet k key) s).1 = Ok o
    | None => ∃ err, (srv (RGet k key) s).1 = Err err ∧ IsNotFound err = true
    end;
  api_list k opts s : ∃ l, (srv (RList k opts) s).1 = Ok l ∧ NoDup (object_key ∘ obj_meta k <$> l) ∧
    ∀ o, o ∈ l ↔ view s k !! object_key (obj_meta k o) = Some o ∧ selected k opts o = true;
  api_create k o s :
    valid k o → view s k !! object_key (obj_meta k o) = None →
    (om_Name (obj_meta k o) = "" → om_GenerateName (obj_meta k o) ≠ "") →
    ∃ o', (srv (RCreate k o) s).1 = Ok o' ∧
      let key := object_key (obj_meta k o') in
      view s k !! key = None ∧ writes_view k s (srv (RCreate k o) s).2 (<[key := o']> (view s k)) ∧
      kept_meta (obj_meta k o) (obj_meta k o') ∧ named (obj_meta k o) (obj_meta k o') ∧ stored k o o';
  api_patch k o b s :
    let key := object_key (obj_meta k o) in
    view s k !! key = Some b → patch_valid k b o →
    ∃ o', (srv (RPatch k o b) s).1 = Ok o' ∧
      writes_view k s (srv (RPatch k o b) s).2 (<[key := o']> (view s k)) ∧
      kept_meta (obj_meta k o) (obj_meta k o') ∧ om_Name (obj_meta k o') = om_Name (obj_meta k o) ∧
      om_UID (obj_meta k o') = om_UID (obj_meta k o) ∧ stored k o o' ∧ patch_effect k b o o';
  (** an object without finalizers is gone at once *)
  api_delete k o background s :
    let key := object_key (obj_meta k o) in
    let s' := (srv (RDelete k o background) s).2 in
    view s k !! key = Some o →
    (srv (RDelete k o background) s).1 = Ok tt ∧
    (∀ k', k' ≠ k → view s' k' = view s k') ∧
    (∀ key', key' ≠ key → view s' k !! key' = view s k !! key') ∧
    (om_Finalizers (obj_meta k o) = [] → view s' k !! key = None);
  (** only the status is taken of a Module that is written to the status subresource *)
  api_status (m b : obj KModule) s :
    let key := object_key (mod_meta m) in
    view s KModule !! key = Some b →
    let m' := mk_module (mod_meta b) (mod_Spec b) (mod_Status m) in
    (srv (RStatusPatch KModule m b) s).1 = Ok m' ∧
    writes_view KModule s (srv (RStatusPatch KModule m b) s).2 (<[key := m']> (view s KModule));
  (** ... and of a ManagedClusterModule, whatever the spec the patch starts from *)
  api_mcm_status (m b b0 : obj KManagedClusterModule) s :
    let key := object_key (mcm_meta m) in
    view s KManagedClusterModule !! key = Some b0 → mcm_Status b = mcm_Status b0 →
    let m' := mk_mcm (mcm_meta b0) (mcm_Spec b0) (mcm_Status m) in
    (srv (RStatusPatch KManagedClusterModule m b) s).1 = Ok m' ∧
    writes_view KManagedClusterModule s (srv (RStatusPatch KManagedClusterModule m b) s).2
      (<[key := m']> (view s KManagedClusterModule)) }.
End laws.
Arguments api_frame {S srv view default_spec valid ApiServer}.
Arguments api_keys {S srv view default_spec valid ApiServer}.
Arguments api_defaulted {S srv view default_spec valid ApiServer}.
Arguments api_selector {S srv view default_spec valid ApiServer}.
Arguments api_get {S srv view default_spec valid ApiServer}.
Arguments api_list {S srv view default_spec valid ApiServer}.
Arguments api_create {S srv view default_spec valid ApiServer}.
Arguments api_patch {S srv view default_spec valid ApiServer}.
Arguments api_delete {S srv view default_spec valid ApiServer}.
Arguments api_status {S srv view default_spec valid ApiServer}.
Arguments api_mcm_status {S srv view default_spec valid ApiServer}.

Section law_facts.
Context {S : Type} {srv : kserver S} {view : S → ∀ k, gmap NamespacedName (obj k)}.
Context {default_spec : DaemonSetSpec → DaemonSetSpec} {valid : ∀ k, obj k → Prop}.
Context {AS : ApiServer srv view default_spec valid}.

Lemma api_get_Some k key s o : view s k !! key = Some o → (srv (RGet k key) s).1 = Ok o.
Proof using AS. intros H. pose proof (api_get k key s) as Hg. by rewrite H in Hg. Qed.
Lemma api_get_None k key s :
  view s k !! key = None → ∃ err, (srv (RGet k key) s).1 = Err err ∧ IsNotFound err = true.
Proof using AS. intros H. pose proof (api_get k key s) as Hg. by rewrite H in Hg. Qed.
End law_facts.
