(* ===== verification/StatusUpdater.v ===== *)
(** * internal/statusupdater

    The status subresources the controllers write.  The counters are int32
    and wrap around; the object passed by pointer is returned as it is after
    the call: what the server answered, or the local changes when it failed. *)

From S2P Require Import Prelude Prog K8s Api Client DaemonSet.
From stdpp Require Import options.

Local Open Scope go_scope.

(** ** Modules *)

(** One of the two sums of the loop over the DaemonSets. *)
Definition num_available (device_plugin : bool) (dss : list (string * DaemonSet)) : Z :=
  foldl (λ acc p,
    if bool_decide (IsDevicePluginKernelVersion p.1 = device_plugin)
    then int32 (acc + ds_NumberAvailable p.2) else acc) 0%Z dss.

Definition set_status (st : ModuleStatus) (m : Module_) : Module_ :=
  mk_module (mod_meta m) (mod_Spec m) st.

Section module_status.
Context {MO : MapOrder}.

(** The Module with the status ModuleUpdateStatus computes. *)
Definition module_status (m : Module_) (kernelMappingNodes targetedNodes : list Node)
    (dsByKernelVersion : gmap string DaemonSet) : Module_ :=
  let nodesMatchingSelectorNumber := int32 (go_len targetedNodes) in
  let numDesired := int32 (go_len kernelMappingNodes) in
  let dss := range_map dsByKernelVersion in
  let numAvailableDevicePlugin := num_available true dss in
  let numAvailableKernelModule := num_available false dss in
  set_status
    (mk_modstatus
       (if isSome (DevicePlugin (mod_Spec m))
        then mk_dsstatus nodesMatchingSelectorNumber numDesired numAvailableDevicePlugin
        else st_DevicePlugin (mod_Status m))
       (mk_dsstatus nodesMatchingSelectorNumber numDesired numAvailableKernelModule)) m.

Definition ModuleUpdateStatus (m : Module_) (kernelMappingNodes targetedNodes : list Node)
    (dsByKernelVersion : gmap string DaemonSet) : M (result Module_) :=
  StatusPatch KModule (module_status m kernelMappingNodes targetedNodes dsByKernelVersion) m.
End module_status.

(** ** ManagedClusterModules *)

Definition WorkApplied := "Applied".
Definition WorkDegraded := "Degraded".

(** How many conditions of the type are true, over all the works. *)
Definition count_conditions (type : string) (mws : list ManifestWork) : Z :=
  foldl (λ acc mw,
    foldl (λ acc c,
      if bool_decide (wc_Status c = "True") && bool_decide (wc_Type c = type)
      then int32 (acc + 1) else acc) acc (mw_Conditions mw)) 0%Z mws.

Definition mcm_status (mcm : ManagedClusterModule) (ownedManifestWorks : list ManifestWork)
    : ManagedClusterModule :=
  mk_mcm (mcm_meta mcm) (mcm_Spec mcm)
    (mk_mcmstatus (int32 (go_len ownedManifestWorks))
       (count_conditions WorkApplied ownedManifestWorks)
       (count_conditions WorkDegraded ownedManifestWorks)).

Definition ManagedClusterModuleUpdateStatus (mcm : ManagedClusterModule)
    (ownedManifestWorks : list ManifestWork) : M (result ManagedClusterModule) :=
  StatusPatch KManagedClusterModule (mcm_status mcm ownedManifestWorks) mcm.

(** ** Preflight validations *)

Definition set_crstatuses (st : option (gmap string CRStatus)) (pv : PreflightValidation)
    : PreflightValidation := mk_pv (pv_meta pv) (pv_Spec pv) st.

(** Status().Update through the pointer [pv]. *)
Definition update_pv (pv : PreflightValidation) : M (PreflightValidation * option error) :=
  prog_bind (λ r, match r with
                  | Ok pv' => Ret (pv', None)
                  | Err err => Ret (pv, Some err)
                  | Panic w => Crash w
                  end) (StatusUpdate KPreflight pv).

Definition statuses (pv : PreflightValidation) : gmap string CRStatus := default ∅ (pv_CRStatuses pv).

(** Adds the new modules to the map, each with the time of its own call of
    time.Now; assigning to a nil map panics. *)
Fixpoint add_new_statuses (newModules : list string) (st : option (gmap string CRStatus))
    : M (option (gmap string CRStatus)) :=
  match newModules with
  | [] => Ret st
  | moduleName :: newModules =>
      prog_bind (λ now,
        match st with
        | None => Crash "assignment to entry in nil map"
        | Some st =>
            add_new_statuses newModules
              (Some (<[moduleName := mk_crstatus VerificationFalse "" VerificationStageImage now]> st))
        end) Now
  end.

Definition PreflightPresetStatuses (pv : PreflightValidation) (existingModules : gset string)
    (newModules : list string) : M (PreflightValidation * option error) :=
  let kept := filter (λ p : string * CRStatus, p.1 ∈ existingModules) <$> pv_CRStatuses pv in
  prog_bind (λ st, update_pv (set_crstatuses st pv)) (add_new_statuses newModules kept).

Definition PreflightSetVerificationStatus (pv : PreflightValidation)
    (moduleName verificationStatus message : string) : M (PreflightValidation * option error) :=
  match statuses pv !! moduleName with
  | None => Ret (pv, Some (errorf ("failed to find module status " +:+ moduleName +:+ " in preflight "
                                   +:+ om_Name (pv_meta pv))))
  | Some st =>
      prog_bind (λ now,
        update_pv (set_crstatuses
          (Some (<[moduleName := mk_crstatus verificationStatus message (VerificationStage st) now]>
                   (statuses pv))) pv)) Now
  end.

Definition PreflightSetVerificationStage (pv : PreflightValidation) (moduleName stage : string)
    : M (PreflightValidation * option error) :=
  match statuses pv !! moduleName with
  | None => Ret (pv, Some (errorf ("failed to find module status " +:+ moduleName +:+ " in preflight "
                                   +:+ om_Name (pv_meta pv))))
  | Some st =>
      prog_bind (λ now,
        update_pv (set_crstatuses
          (Some (<[moduleName := mk_crstatus (VerificationStatus st) (StatusReason st) stage now]>
                   (statuses pv))) pv)) Now
  end.

Definition PreflightOCPUpdateStatus (pvo : PreflightValidationOCP) (pv : PreflightValidation)
    : M (PreflightValidationOCP * option error) :=
  let pvo := mk_pvo (pvo_meta pvo) (pvo_Spec pvo) (pv_CRStatuses pv) in
  prog_bind (λ r, match r with
                  | Ok pvo' => Ret (pvo', None)
                  | Err err => Ret (pvo, Some err)
                  | Panic w => Crash w
                  end) (StatusUpdate KPreflightOCP pvo).

(** ** Counters *)

Definition zsum (l : list Z) : Z := foldr Z.add 0%Z l.

Lemma zsum_perm l1 l2 : l1 ≡ₚ l2 → zsum l1 = zsum l2.
Proof. induction 1; simpl; lia. Qed.

(** The DaemonSets of a sum. *)
Definition counted (device_plugin : bool) (dss : list (string * DaemonSet)) : list Z :=
  List.map (λ p, ds_NumberAvailable p.2)
    (List.filter (λ p, bool_decide (IsDevicePluginKernelVersion p.1 = device_plugin)) dss).

Lemma num_available_sum dp dss : num_available dp dss = int32 (zsum (counted dp dss)).
Proof.
  unfold num_available. cut (∀ acc,
    foldl (λ a p, if bool_decide (IsDevicePluginKernelVersion p.1 = dp)
                  then int32 (a + ds_NumberAvailable p.2) else a) (int32 acc) dss
    = int32 (acc + zsum (counted dp dss))); [intros H; by apply (H 0%Z)|].
  unfold counted. induction dss as [|p dss IH]; intros acc; simpl; [by rewrite Z.add_0_r|].
  case_bool_decide as Hp; simpl; [|apply IH]. rewrite int32_add, IH. apply (f_equal int32). lia.
Qed.

#[export] Instance num_available_proper dp : Proper ((≡ₚ) ==> (=)) (num_available dp).
Proof.
  intros l1 l2 H. rewrite !num_available_sum. f_equal. apply zsum_perm. unfold counted.
  apply Permutation_map. induction H; simpl; repeat case_bool_decide; eauto using Permutation.
Qed.

Lemma num_available_range `{MapOrder} dp dss :
  num_available dp (range_map dss) = int32 (zsum (counted dp (map_to_list dss))).
Proof. rewrite <-num_available_sum. apply num_available_proper, range_map_perm. Qed.

Definition true_conditions (type : string) (mw : ManifestWork) : nat :=
  length (List.filter (λ c, bool_decide (wc_Status c = "True") && bool_decide (wc_Type c = type))
            (mw_Conditions mw)).

Lemma count_conditions_sum type mws :
  count_conditions type mws = int32 (Z.of_nat (sum_list_with (true_conditions type) mws)).
Proof.
  unfold count_conditions.
  cut (∀ acc, foldl (λ a mw, foldl (λ a c,
      if bool_decide (wc_Status c = "True") && bool_decide (wc_Type c = type)
      then int32 (a + 1) else a) a (mw_Conditions mw)) (int32 acc) mws
    = int32 (acc + Z.of_nat (sum_list_with (true_conditions type) mws)));
    [intros H; by apply (H 0%Z)|].
  induction mws as [|mw mws IH]; intros acc; simpl; [by rewrite Z.add_0_r|].
  assert (∀ a, foldl (λ a c,
      if bool_decide (wc_Status c = "True") && bool_decide (wc_Type c = type)
      then int32 (a + 1) else a) (int32 a) (mw_Conditions mw)
    = int32 (a + Z.of_nat (true_conditions type mw))) as Hmw.
  { unfold true_conditions. induction (mw_Conditions mw) as [|c cs IHc]; intros a; simpl;
      [by rewrite Z.add_0_r|].
    destruct (bool_decide _ && _); simpl; [|apply IHc]. rewrite int32_add, IHc. apply (f_equal int32). lia. }
  rewrite Hmw, IH. apply (f_equal int32). lia.
Qed.

(** ** Properties *)

(** C39: the status written for a Module does not depend on the order in which
    its DaemonSets are enumerated: available module loaders are the pods of
    the DaemonSets with a kernel version, available device plugins those of
    the one without, as 32-bit sums that are exact below 2^31; desired and
    matching numbers are the nodes with a mapping and the nodes targeted; and
    it is the only call made. *)
Theorem ModuleUpdateStatus_spec {MO : MapOrder} {S} (srv : kserver S) s m mapped targeted dss :
  let p := ModuleUpdateStatus m mapped targeted dss in
  let total dp := zsum (counted dp (map_to_list dss)) in
  ∃ m', (ev_req <$> run_trace srv p s) = [RStatusPatch KModule m' m] ∧
    mod_meta m' = mod_meta m ∧ mod_Spec m' = mod_Spec m ∧
    st_ModuleLoader (mod_Status m') =
      mk_dsstatus (int32 (go_len targeted)) (int32 (go_len mapped)) (int32 (total false)) ∧
    st_DevicePlugin (mod_Status m') =
      (if isSome (DevicePlugin (mod_Spec m))
       then mk_dsstatus (int32 (go_len targeted)) (int32 (go_len mapped)) (int32 (total true))
       else st_DevicePlugin (mod_Status m)) ∧
    ((- 2^31 ≤ total false < 2^31)%Z →
       AvailableNumber (st_ModuleLoader (mod_Status m')) = total false).
Proof.
  intros p total. exists (module_status m mapped targeted dss).
  unfold module_status, total. cbv zeta. rewrite !num_available_range.
  split_and!; simpl; [|done..|apply int32_small].
  unfold run_trace, p, ModuleUpdateStatus, module_status, StatusPatch, call. simpl.
  rewrite !num_available_range. by destruct (srv _ s).
Qed.

(** the status of a ManagedClusterModule counts its works as desired and,
    among them, the true Applied and Degraded conditions, in 32 bits. *)
Theorem ManagedClusterModuleUpdateStatus_spec {S} (srv : kserver S) s mcm works :
  let p := ManagedClusterModuleUpdateStatus mcm works in
  ∃ mcm', (ev_req <$> run_trace srv p s) = [RStatusPatch KManagedClusterModule mcm' mcm] ∧
    mcm_Spec mcm' = mcm_Spec mcm ∧
    mcm_Status mcm' = mk_mcmstatus (int32 (go_len works))
      (int32 (Z.of_nat (sum_list_with (true_conditions "Applied") works)))
      (int32 (Z.of_nat (sum_list_with (true_conditions "Degraded") works))).
Proof.
  intros p. exists (mcm_status mcm works). unfold mcm_status. rewrite !count_conditions_sum.
  split_and!; [|done..]. unfold run_trace, p, ManagedClusterModuleUpdateStatus, StatusPatch, call.
  simpl. unfold mcm_status. rewrite !count_conditions_sum. by destruct (srv _ s).
Qed.

(** ** Witness *)

Lemma ModuleUpdateStatus_spec_witness :
  ∃ m', (ev_req <$> run_trace (stateless accept)
           (ModuleUpdateStatus (MO := map_order_std) Ex.module [] [] {[ Ex.kernel := Ex.ds ]}) tt)
        = [RStatusPatch KModule m' Ex.module] ∧
    AvailableNumber (st_ModuleLoader (mod_Status m')) = 0%Z.
Proof.
  destruct (ModuleUpdateStatus_spec (MO := map_order_std) (stateless accept) tt Ex.module [] []
              {[ Ex.kernel := Ex.ds ]}) as (m' & H1 & _ & _ & _ & _ & H2).
  exists m'. split; [exact H1|]. rewrite H2; [vm_compute; reflexivity|vm_compute; split; congruence].
Defined.
