(* ===== verification/Metrics.v ===== *)
(** * internal/metrics

    The gauges of the operator: how they are created and registered, and what
    each setter does to them.  The controllers' programs issue one [RMetric]
    call per setter; [metric_effect] is what the call does to the gauges, and
    [Gather] what a scrape of the registry shows.  The part of the Prometheus
    library this uses (registry, gauges, label checks) is vendored. *)

From S2P Require Import Prelude Prog K8s Api Client.
From stdpp Require Import options.

Local Open Scope go_scope.

(** ** The setters, as calls *)

Definition SetKMMModulesNum (value : nat) : M unit := set_metric (MModulesNum (Z.of_nat value)).
Definition SetKMMInClusterBuildNum (value : nat) : M unit :=
  set_metric (MInClusterBuildNum (Z.of_nat value)).
Definition SetKMMInClusterSignNum (value : nat) : M unit :=
  set_metric (MInClusterSignNum (Z.of_nat value)).
Definition SetKMMDevicePluginNum (value : nat) : M unit :=
  set_metric (MDevicePluginNum (Z.of_nat value)).
Definition SetKMMPreflightsNum (value : nat) : M unit :=
  set_metric (MPreflightsNum (Z.of_nat value)).
Definition SetKMMModprobeArgs (modName namespace modprobeArgs : string) : M unit :=
  set_metric (MModprobeArgs modName namespace modprobeArgs).
Definition SetKMMModprobeRawArgs (modName namespace modprobeRawArgs : string) : M unit :=
  set_metric (MModprobeRawArgs modName namespace modprobeRawArgs).

(** ** utf8.ValidString *)

(** The ranges of the bytes that follow a first byte; [None] when no code
    point starts with it. *)
Definition utf8_accept (b : nat) : option (list (nat * nat)) :=
  let cont := (128, 191) in
  if b <? 128 then Some []
  else if (194 <=? b) && (b <=? 223) then Some [cont]
  else if b =? 224 then Some [(160, 191); cont]
  else if b =? 237 then Some [(128, 159); cont]
  else if (225 <=? b) && (b <=? 239) then Some [cont; cont]
  else if b =? 240 then Some [(144, 191); cont; cont]
  else if (241 <=? b) && (b <=? 243) then Some [cont; cont; cont]
  else if b =? 244 then Some [(128, 143); cont; cont]
  else None.

(** [pending]: the ranges of the bytes the current code point still needs. *)
Fixpoint utf8_valid_from (pending : list (nat * nat)) (s : string) : bool :=
  match s with
  | EmptyString => is_nil pending
  | String c s =>
      let b := nat_of_ascii c in
      match pending with
      | (lo, hi) :: pending => (lo <=? b) && (b <=? hi) && utf8_valid_from pending s
      | [] => match utf8_accept b with
              | Some pending => utf8_valid_from pending s
              | None => false
              end
      end
  end.
Definition ValidString : string → bool := utf8_valid_from [].

(** ** Collectors *)

(** prometheus.GaugeOpts with the variable labels of the vector. *)
Record Desc := mk_desc { fqName : string; help : string; variableLabels : list string }.
#[export] Instance Desc_eq_dec : EqDecision Desc.
Proof. solve_decision. Defined.

Definition is_letter (c : ascii) : bool :=
  let n := nat_of_ascii c in ((65 <=? n) && (n <=? 90)) || ((97 <=? n) && (n <=? 122)) || (n =? 95).
Definition is_name_char (c : ascii) : bool :=
  let n := nat_of_ascii c in is_letter c || ((48 <=? n) && (n <=? 57)).

(** model.IsValidMetricName and LabelName.IsValid: a letter, an underscore or
    - for metrics - a colon, then digits as well. *)
Definition IsValidMetricName (s : string) : bool :=
  match s with
  | EmptyString => false
  | String c r => (is_letter c || is_char ":"%char c)
                  && str_forall (λ c, is_name_char c || is_char ":"%char c) r
  end.
Definition checkLabelName (s : string) : bool :=
  match s with
  | EmptyString => false
  | String c r => is_letter c && str_forall is_name_char r
  end && negb (str_has_prefix "__" s).

(** Desc.String *)
Definition desc_string (d : Desc) : string :=
  "Desc{fqName: " +:+ go_quote (fqName d) +:+ ", help: " +:+ go_quote (help d)
  +:+ ", constLabels: {}, variableLabels: [" +:+ str_join " " (variableLabels d) +:+ "]}".

(** NewDesc: the error of an invalid descriptor, found at registration. *)
Definition desc_err (d : Desc) : option error :=
  if negb (IsValidMetricName (fqName d))
  then Some (errorf (go_quote (fqName d) +:+ " is not a valid metric name"))
  else if negb (ValidString (fqName d))
  then Some (errorf ("label value " +:+ go_quote (fqName d) +:+ " is not valid UTF-8"))
  else match List.find (λ l, negb (checkLabelName l)) (variableLabels d) with
       | Some l => Some (errorf (go_quote l +:+ " is not a valid label name for metric "
                                 +:+ go_quote (fqName d)))
       | None => if decide (NoDup (variableLabels d)) then None
                 else Some (errorf "duplicate label names")
       end.

(** The registry: the descriptors of its collectors.  Without constant
    labels a descriptor's identity is its name. *)
Definition Registry := list Desc.

Definition Register_collector (reg : Registry) (d : Desc) : result Registry :=
  match desc_err d with
  | Some err => Err (errorf ("descriptor " +:+ desc_string d +:+ " is invalid: " +:+ Error err))
  | None =>
      match List.find (λ d', bool_decide (fqName d' = fqName d)) reg with
      | Some d' =>
          if bool_decide (help d' = help d) && bool_decide (variableLabels d' ≡ₚ variableLabels d)
          then Err (errorf "duplicate metrics collector registration attempted")
          else Err (errorf ("a previously registered descriptor with the same fully-qualified name as "
                            +:+ desc_string d +:+ " has different label names or a different help string"))
      | None => Ok (reg ++ [d])
      end
  end.

Fixpoint MustRegister (reg : Registry) (cs : list Desc) : result Registry :=
  match cs with
  | [] => Ok reg
  | c :: cs =>
      match Register_collector reg c with
      | Ok reg => MustRegister reg cs
      | Err err => Panic (Error err)
      | Panic w => Panic w
      end
  end.

(** ** metrics.go *)

Definition kmmModulesQuery := "kmm_module_num".
Definition kmmInClusterBuildQuery := "kmm_in_cluster_build_num".
Definition kmmInClusterSignQuery := "kmm_in_cluster_sign_num".
Definition kmmDevicePluginQuery := "kmm_device_plugin_num".
Definition kmmPreflightQuery := "kmm_preflight_num".
Definition kmmModprobeArgsQuery := "kmm_modprobe_args".
Definition kmmModprobeRawArgsQuery := "kmm_modprobe_raw_args".

(** The struct [metrics]: its gauges and vectors. *)
Record metrics := mk_metrics {
  kmmModuleResourcesNum : Desc;
  kmmInClusterBuildNum : Desc;
  kmmInClusterSignNum : Desc;
  kmmDevicePluginResourcesNum : Desc;
  kmmPreflightResourceNum : Desc;
  kmmModprobeArgs : Desc;
  kmmModprobeRawArgs : Desc }.

Definition New : metrics := {|
  kmmModuleResourcesNum := mk_desc kmmModulesQuery "Number of existing KMMO Modules" [];
  kmmInClusterBuildNum :=
    mk_desc kmmInClusterBuildQuery "Number of existing KMMO Modules with in-cluster Build defined" [];
  kmmInClusterSignNum :=
    mk_desc kmmInClusterSignQuery "Number of existing KMMO Modules with in-cluster Sign defined" [];
  kmmDevicePluginResourcesNum :=
    mk_desc kmmDevicePluginQuery "Number of existing KMMO Modules with DevicePlugin defined" [];
  kmmPreflightResourceNum := mk_desc kmmPreflightQuery "Number of existing KMMO Preflights" [];
  kmmModprobeArgs :=
    mk_desc kmmModprobeArgsQuery
      "for a given kernel version, describe which modprobe args used (if at all)"
      ["name"; "namespace"; "modprobeArgs"];
  kmmModprobeRawArgs :=
    mk_desc kmmModprobeRawArgsQuery
      "for a given kernel version, describe which modprobe raw args used (if at all)"
      ["name"; "namespace"; "modprobeRawArgs"] |}.

Definition Register (m : metrics) (reg : Registry) : result Registry :=
  MustRegister reg [kmmModuleResourcesNum m; kmmInClusterBuildNum m; kmmInClusterSignNum m;
                    kmmDevicePluginResourcesNum m; kmmPreflightResourceNum m; kmmModprobeArgs m].

(** The series of all collectors: name and label values to value.  The values
    are integers, which float64 holds exactly below 2^53. *)
Abbreviation Series := (gmap (string * list string) Z).

Definition gauge_Set (d : Desc) (v : Z) (st : Series) : Series := <[(fqName d, []) := v]> st.

Definition WithLabelValues_Set (d : Desc) (lvs : list string) (v : Z) (st : Series) : result Series :=
  if negb (length lvs =? length (variableLabels d))
  then Panic "inconsistent label cardinality"
  else if forallb ValidString lvs then Ok (<[(fqName d, lvs) := v]> st)
  else Panic "label value is not valid UTF-8".

(** The call of a setter. *)
Definition metric_effect (m : metrics) (e : Metric) (st : Series) : result Series :=
  match e with
  | MModulesNum n => Ok (gauge_Set (kmmModuleResourcesNum m) n st)
  | MInClusterBuildNum n => Ok (gauge_Set (kmmInClusterBuildNum m) n st)
  | MInClusterSignNum n => Ok (gauge_Set (kmmInClusterSignNum m) n st)
  | MDevicePluginNum n => Ok (gauge_Set (kmmDevicePluginResourcesNum m) n st)
  | MPreflightsNum n => Ok (gauge_Set (kmmPreflightResourceNum m) n st)
  | MModprobeArgs modName namespace modprobeArgs =>
      WithLabelValues_Set (kmmModprobeArgs m) [modName; namespace; modprobeArgs] 1 st
  | MModprobeRawArgs modName namespace modprobeRawArgs =>
      WithLabelValues_Set (kmmModprobeRawArgs m) [modName; namespace; modprobeRawArgs] 1 st
  end.
Fixpoint metric_effects (m : metrics) (es : list Metric) (st : Series) : result Series :=
  match es with
  | [] => Ok st
  | e :: es => st ← metric_effect m e st; metric_effects m es st
  end.

(** A scrape: the series of the registered collectors.  A gauge without
    labels is shown from its registration on. *)
Definition Gather (reg : Registry) (st : Series) (name : string) (lvs : list string) : option Z :=
  match List.find (λ d, bool_decide (fqName d = name)) reg with
  | None => None
  | Some d => match st !! (name, lvs) with
              | Some v => Some v
              | None => if is_nil (variableLabels d) && is_nil lvs then Some 0%Z else None
              end
  end.

(** ** What a scrape shows *)

(** The events a gauge or a vector is set by, with the labels and the value. *)
Definition sets (e : Metric) : string * list string * Z :=
  match e with
  | MModulesNum n => (kmmModulesQuery, [], n)
  | MInClusterBuildNum n => (kmmInClusterBuildQuery, [], n)
  | MInClusterSignNum n => (kmmInClusterSignQuery, [], n)
  | MDevicePluginNum n => (kmmDevicePluginQuery, [], n)
  | MPreflightsNum n => (kmmPreflightQuery, [], n)
  | MModprobeArgs n ns a => (kmmModprobeArgsQuery, [n; ns; a], 1%Z)
  | MModprobeRawArgs n ns a => (kmmModprobeRawArgsQuery, [n; ns; a], 1%Z)
  end.

(** The labels of an event are valid UTF-8, as everything in an API object. *)
Definition valid_labels (e : Metric) : Prop := Forall (λ l, ValidString l = true) (sets e).1.2.

(** The last value set for a series, starting from [v]. *)
Definition last_set (name : string) (lvs : list string) (v : option Z) (es : list Metric) : option Z :=
  foldl (λ v e, if bool_decide ((sets e).1 = (name, lvs)) then Some (sets e).2 else v) v es.

Lemma metric_effect_Ok e st :
  valid_labels e → metric_effect New e st = Ok (<[(sets e).1 := (sets e).2]> st).
Proof.
  unfold valid_labels. destruct e; try done; cbn -[ValidString]; unfold WithLabelValues_Set; cbn -[ValidString];
    intros Hv; repeat (apply Forall_cons in Hv as [-> Hv]); done.
Qed.

Lemma metric_effects_Ok es st :
  Forall valid_labels es →
  ∃ st', metric_effects New es st = Ok st' ∧
    ∀ name lvs, st' !! (name, lvs) = last_set name lvs (st !! (name, lvs)) es.
Proof.
  intros Hv. revert st. induction Hv as [|e es He _ IH]; intros st; [by exists st|].
  cbn [metric_effects]. rewrite metric_effect_Ok by done.
  destruct (IH (<[(sets e).1 := (sets e).2]> st)) as (st' & H1 & H2). exists st'.
  split; [exact H1|]. intros name lvs. rewrite H2. unfold last_set. cbn [foldl]. f_equal.
  destruct (sets e) as [key v]. simpl.
  case_bool_decide as Heq; [subst key; apply lookup_insert_eq|by apply lookup_insert_ne].
Qed.

Definition kmm_names : list string :=
  [kmmModulesQuery; kmmInClusterBuildQuery; kmmInClusterSignQuery; kmmDevicePluginQuery;
   kmmPreflightQuery; kmmModprobeArgsQuery; kmmModprobeRawArgsQuery].

Lemma find_fresh (reg : Registry) name :
  (∀ d, d ∈ reg → fqName d ≠ name) → List.find (λ d, bool_decide (fqName d = name)) reg = None.
Proof.
  intros H. induction reg as [|d reg IH]; [done|]. simpl. rewrite bool_decide_false by (apply H; by left).
  apply IH. intros d' Hd'. apply H. by right.
Qed.

Lemma MustRegister_fresh reg cs :
  (∀ d, d ∈ cs → desc_err d = None) → NoDup (fqName <$> cs) →
  (∀ d d', d ∈ reg → d' ∈ cs → fqName d ≠ fqName d') → MustRegister reg cs = Ok (reg ++ cs).
Proof.
  revert reg. induction cs as [|c cs IH]; intros reg Hv Hnd Hf; cbn [MustRegister]; [by rewrite app_nil_r|].
  apply NoDup_cons in Hnd as [Hc Hnd]. unfold Register_collector.
  rewrite Hv by (by left). rewrite find_fresh by (intros d Hd; apply Hf; [done|by left]).
  rewrite IH; [by rewrite <-app_assoc| |done|].
  - intros d Hd. apply Hv. by right.
  - intros d d' [Hd| ->%list_elem_of_singleton]%elem_of_app Hd'; [apply Hf; [done|by right]|].
    intros Heq. apply Hc. apply list_elem_of_fmap. by exists d'.
Qed.

Definition counts (m : metrics) : list Desc :=
  [kmmModuleResourcesNum m; kmmInClusterBuildNum m; kmmInClusterSignNum m;
   kmmDevicePluginResourcesNum m; kmmPreflightResourceNum m].
Definition registered (m : metrics) : list Desc := counts m ++ [kmmModprobeArgs m].

Lemma Register_Ok reg :
  (∀ d, d ∈ reg → fqName d ∉ kmm_names) → Register New reg = Ok (reg ++ registered New).
Proof.
  intros Hf. apply MustRegister_fresh.
  - intros d Hd. repeat (apply elem_of_cons in Hd as [->|Hd]; [vm_compute; reflexivity|]). by apply not_elem_of_nil in Hd.
  - apply (bool_decide_eq_true_1 (NoDup (fqName <$> registered New))). vm_compute. reflexivity.
  - intros d d' Hd Hd' Heq. apply (Hf d Hd). rewrite Heq.
    repeat (apply elem_of_cons in Hd' as [->|Hd']; [simpl; set_solver|]). by apply not_elem_of_nil in Hd'.
Qed.

Lemma Gather_registered reg d st lvs :
  (∀ d', d' ∈ reg → fqName d' ∉ kmm_names) → d ∈ registered New →
  Gather (reg ++ registered New) st (fqName d) lvs =
  match st !! (fqName d, lvs) with
  | Some v => Some v
  | None => if is_nil (variableLabels d) && is_nil lvs then Some 0%Z else None
  end.
Proof.
  intros Hf Hd. unfold Gather.
  assert (fqName d ∈ kmm_names) as Hn
    by (repeat (apply elem_of_cons in Hd as [->|Hd]; [simpl; set_solver|]); by apply not_elem_of_nil in Hd).
  assert (List.find (λ d0, bool_decide (fqName d0 = fqName d)) (reg ++ registered New) = Some d) as ->; [|done].
  induction reg as [|d' reg IH]; [|simpl; rewrite bool_decide_false].
  - repeat (apply elem_of_cons in Hd as [->|Hd]; [reflexivity|]). by apply not_elem_of_nil in Hd.
  - apply IH. intros d0 Hd0. apply Hf. by right.
  - intros Heq. apply (Hf d'); [by left|by rewrite Heq].
Qed.

Lemma Gather_unregistered reg st lvs :
  (∀ d', d' ∈ reg → fqName d' ∉ kmm_names) →
  Gather (reg ++ registered New) st kmmModprobeRawArgsQuery lvs = None.
Proof.
  intros Hf. unfold Gather. rewrite find_fresh; [done|].
  intros d [Hd|Hd]%elem_of_app.
  - intros Heq. apply (Hf d Hd). rewrite Heq. simpl. set_solver.
  - repeat (apply elem_of_cons in Hd as [->|Hd]; [done|]). by apply not_elem_of_nil in Hd.
Qed.

Lemma last_set_1 name lvs es :
  (∀ e, e ∈ es → (sets e).1 = (name, lvs) → (sets e).2 = 1%Z) →
  last_set name lvs None es = Some 1%Z ↔ ∃ e, e ∈ es ∧ (sets e).1 = (name, lvs).
Proof.
  unfold last_set. induction es as [|e es IH] using rev_ind; intros H1.
  { split; [done|]. by intros (e & ?%not_elem_of_nil & _). }
  rewrite foldl_app. simpl. case_bool_decide as Heq.
  - rewrite H1 by (done || set_solver). split; [|done]. intros _. exists e. split; [set_solver|done].
  - rewrite IH by (intros e' He'; apply H1; set_solver). split.
    + intros (e' & He' & ?). exists e'. split; [set_solver|done].
    + intros (e' & [He'|<-%list_elem_of_singleton]%elem_of_app & ?); [by exists e'|done].
Qed.

Lemma last_set_None name lvs es :
  last_set name lvs None es = None ↔ ∀ e, e ∈ es → (sets e).1 ≠ (name, lvs).
Proof.
  unfold last_set. induction es as [|e es IH] using rev_ind.
  { split; [|done]. intros _ e ?%not_elem_of_nil. done. }
  rewrite foldl_app. simpl. case_bool_decide as Heq.
  - split; [done|]. intros H. destruct (H e); [set_solver|done].
  - rewrite IH. split; [|intros H e' He'; apply H; set_solver].
    intros H e' [He'|<-%list_elem_of_singleton]%elem_of_app; [by apply H|done].
Qed.

(** ** Properties *)

(** C34: what the operator exports.  In a registry without metrics of these
    names, registration succeeds, and no setter panics, whatever is set, as
    long as label values are valid UTF-8.  A scrape then shows for each of the
    five counts the value set last, 0 before the first; for the arguments of
    modprobe a series of value 1 for exactly the arguments ever set - those of
    a Module that has changed or is gone are never withdrawn; and the series
    of the raw arguments never, because their vector is not registered. *)
Theorem metrics_exported reg es :
  (∀ d, d ∈ reg → fqName d ∉ kmm_names) → Forall valid_labels es →
  ∃ reg' st, Register New reg = Ok reg' ∧ metric_effects New es ∅ = Ok st ∧
    (∀ d, d ∈ counts New →
       Gather reg' st (fqName d) [] = Some (default 0%Z (last_set (fqName d) [] None es))) ∧
    (∀ name namespace args,
       Gather reg' st kmmModprobeArgsQuery [name; namespace; args] =
       if decide (MModprobeArgs name namespace args ∈ es) then Some 1%Z else None) ∧
    (∀ lvs, Gather reg' st kmmModprobeRawArgsQuery lvs = None).
Proof.
  intros Hf Hv. destruct (metric_effects_Ok es ∅ Hv) as (st & Hst & Hlast).
  exists (reg ++ registered New), st. split_and!; [by apply Register_Ok|done| | |].
  - intros d Hd.
    assert (variableLabels d = []) as Hl
      by (repeat (apply elem_of_cons in Hd as [->|Hd]; [reflexivity|]); by apply not_elem_of_nil in Hd).
    rewrite Gather_registered by (done || apply elem_of_app; by left). rewrite Hl, Hlast, lookup_empty. simpl.
    by destruct (last_set _ _ _ _).
  - intros n ns a. change kmmModprobeArgsQuery with (fqName (kmmModprobeArgs New)) at 1.
    rewrite Gather_registered by (done || (simpl; set_solver)). simpl.
    rewrite Hlast, lookup_empty.
    assert (∀ e, (sets e).1 = (kmmModprobeArgsQuery, [n; ns; a]) ↔ e = MModprobeArgs n ns a) as Hsets.
    { intros e. split; [|by intros ->]. intros Heq. pose proof (f_equal fst Heq) as Hname.
      destruct e; try discriminate Hname. injection Heq as -> -> ->. done. }
    case_decide as Hin.
    + assert (last_set kmmModprobeArgsQuery [n; ns; a] None es = Some 1%Z) as ->; [|done].
      apply last_set_1; [by intros e _ ->%Hsets|]. exists (MModprobeArgs n ns a). by split.
    + assert (last_set kmmModprobeArgsQuery [n; ns; a] None es = None) as ->; [|done].
      apply last_set_None. intros e He ->%Hsets. done.
  - intros lvs. by apply Gather_unregistered.
Qed.

Lemma metrics_exported_witness : ∃ st,
  metric_effects New [MModulesNum 2; MModprobeArgs "nvidia" "gpu" "-v"; MModulesNum 3;
                      MModprobeRawArgs "nvidia" "gpu" "-r"] ∅ = Ok st ∧
  Gather (registered New) st kmmModulesQuery [] = Some 3%Z.
Proof.
  destruct (metrics_exported [] [MModulesNum 2; MModprobeArgs "nvidia" "gpu" "-v"; MModulesNum 3;
      MModprobeRawArgs "nvidia" "gpu" "-r"]) as (reg' & st & Hr & Hst & Hg & _).
  - intros d ?%not_elem_of_nil. done.
  - repeat constructor.
  - exists st. split; [exact Hst|].
    assert (reg' = registered New) as -> by (vm_compute in Hr |- *; congruence).
    exact (Hg (kmmModuleResourcesNum New) (list_elem_of_here _ _)).
Defined.
