(* ===== verification/ModuleReconciler.v ===== *)
(** * controllers/module_reconciler.go

    The reconciliation of a Module: it finds the kernels of the nodes the
    Module targets, builds and signs an image for each, runs a DaemonSet per
    kernel once its image is ready, removes the DaemonSets of the kernels that
    are gone, and writes the Module's status. *)

From S2P Require Import Prelude Prog K8s Api Client Utils.
From S2P Require Import Helpers KernelMapper DaemonSet CA StatusUpdater Metrics Managers.
From stdpp Require Import options.

Local Open Scope go_scope.

(** ** Nodes and mappings *)

Definition TaintEffectNoSchedule := "NoSchedule".

Definition isNodeSchedulable (node : Node) : bool :=
  negb (existsb (λ taint, bool_decide (taint_Effect taint = TaintEffectNoSchedule))
          (node_Taints node)).

(** strings.TrimSuffix(node.Status.NodeInfo.KernelVersion, "+") *)
Definition node_kernel (node : Node) : string := str_trim_suffix "+" (node_KernelVersion node).

Definition isModuleBuildAndSignCapable (m : Module_) : bool * bool :=
  let c := mod_container m in
  let buildCapable := isSome (mlc_Build c) in
  let signCapable := isSome (mlc_Sign c) in
  if buildCapable && signCapable then (true, true)
  else
    (buildCapable || existsb (λ mapping, isSome (km_Build mapping)) (mlc_KernelMappings c),
     signCapable || existsb (λ mapping, isSome (km_Sign mapping)) (mlc_KernelMappings c)).

Section nodes.
Context {R : Regexp} {E : Envsubst}.

(** The loop over the nodes, with its cache [mldMappings].  An error of the
    kernel mapper is only logged; a panic ends the program. *)
Fixpoint mappings_loop (m : Module_) (targetedNodes : list Node)
    (mldMappings : gmap string ModuleLoaderData) : result (gmap string ModuleLoaderData * list Node) :=
  match targetedNodes with
  | [] => Ok (mldMappings, [])
  | node :: targetedNodes =>
      let kernelVersion := node_kernel node in
      match mldMappings !! kernelVersion with
      | Some _ =>
          r ← mappings_loop m targetedNodes mldMappings;
          Ok (r.1, node :: r.2)
      | None =>
          match GetModuleLoaderDataForKernel m kernelVersion with
          | Err _ => mappings_loop m targetedNodes mldMappings
          | Panic w => Panic w
          | Ok mld =>
              r ← mappings_loop m targetedNodes (<[kernelVersion := mld]> mldMappings);
              Ok (r.1, node :: r.2)
          end
      end
  end.

Definition getRelevantKernelMappingsAndNodes (m : Module_) (targetedNodes : list Node)
    : result (gmap string ModuleLoaderData * list Node) :=
  mappings_loop m targetedNodes ∅.
End nodes.

(** ** The reconciler *)

(** ctrl.Result *)
Record ReconcileResult := mk_reconcile { Requeue : bool; RequeueAfter : Z }.
Definition no_requeue : ReconcileResult := mk_reconcile false 0.

Section reconciler.
Context {R : Regexp} {E : Envsubst} {MO : MapOrder} {BM : BuildManager} {SM : SignManager}.
Variables (kernelLabel operatorNamespace : string).

Definition getRequestedModule (namespacedName : NamespacedName) : M (result Module_) :=
  try m := Get KModule namespacedName
    catch err => Ret (Err (errorf_w ("failed to get the kmmo module " +:+ nsn_string namespacedName
                                     +:+ ": ") err)) in
  Ret (Ok m).

Definition getNodesListBySelector (m : Module_) : M (result (list Node)) :=
  try selectedNodes := List_ KNode (mk_listopts None (Some (Selector (mod_Spec m))))
    catch err => Ret (Err (errorf ("could not list nodes: " +:+ Error err))) in
  Ret (Ok (List.filter isNodeSchedulable selectedNodes)).

Definition handleBuild (mld : ModuleLoaderData) : M (result bool) :=
  try shouldSync := bm_ShouldSync mld
    catch err => Ret (Err (errorf_w "could not check if build synchronization is needed: " err)) in
  if negb shouldSync then Ret (Ok true)
  else
    prog_bind (λ r, match r with
      | (_, Some err) => Ret (Err (errorf_w "could not synchronize the build: " err))
      | (buildStatus, None) => Ret (Ok (bool_decide (buildStatus = StatusCompleted)))
      end) (bm_Sync mld true (mld_Owner mld)).

Definition previousImage (mld : ModuleLoaderData) : string :=
  if ShouldBeBuilt mld
  then IntermediateImageName (mld_Name mld) (mld_Namespace mld) (mld_ContainerImage mld) else "".

Definition handleSigning (mld : ModuleLoaderData) : M (result bool) :=
  try shouldSync := sm_ShouldSync mld
    catch err => Ret (Err (errorf_w "cound not check if synchronization is needed: " err)) in
  if negb shouldSync then Ret (Ok true)
  else
    prog_bind (λ r, match r with
      | (_, Some err) => Ret (Err (errorf_w "could not synchronize the signing: " err))
      | (signStatus, None) => Ret (Ok (bool_decide (signStatus = StatusCompleted)))
      end) (sm_Sync mld (previousImage mld) true (mld_Owner mld)).

(** The DaemonSet of the map is passed by pointer: CreateOrPatch reads the
    server's object into it and the mutation changes it, so the entry of the
    map changes as well. *)
Definition handleDriverContainer (mld : ModuleLoaderData) (dsByKernelVersion : gmap string DaemonSet)
    : M (result (gmap string DaemonSet)) :=
  let existingDS := dsByKernelVersion !! mld_KernelVersion mld in
  let ds := match existingDS with
            | Some ds => ds
            | None => new_daemonset (set_generate_name (mld_Name mld +:+ "-")
                                       (meta_named "" (mld_Namespace mld)))
            end in
  try r := CreateOrPatch KDaemonSet ds
      (λ ds : DaemonSet, SetDriverContainerAsDesired kernelLabel (Some ds) mld
               (bool_decide (mld_Namespace mld = operatorNamespace)))
    catch err => Ret (Err err) in
  Ret (Ok (if isSome existingDS then <[mld_KernelVersion mld := snd r]> dsByKernelVersion
           else dsByKernelVersion)).

Definition handleDevicePlugin (m : Module_) : M (result unit) :=
  if negb (isSome (DevicePlugin (mod_Spec m))) then Ret (Ok tt)
  else
    let ds := new_daemonset (meta_named (mod_Name m +:+ "-device-plugin") (mod_Namespace m)) in
    try _ := CreateOrPatch KDaemonSet ds
        (λ ds : DaemonSet, SetDevicePluginAsDesired (Some ds) m
                 (bool_decide (mod_Namespace m = operatorNamespace)))
      catch err => Ret (Err err) in
    Ret (Ok tt).

Definition garbageCollect (m : Module_) (mldMappings : gmap string ModuleLoaderData)
    (existingDS : gmap string DaemonSet) : M (result unit) :=
  try _ := GarbageCollect kernelLabel existingDS (dom mldMappings)
    catch err => Ret (Err (errorf ("could not garbage collect DaemonSets: " +:+ Error err))) in
  try _ := bm_GarbageCollect (mod_Name m) (mod_Namespace m) (as_owner m)
    catch err => Ret (Err (errorf ("could not garbage collect build objects: " +:+ Error err))) in
  try _ := sm_GarbageCollect (mod_Name m) (mod_Namespace m) (as_owner m)
    catch err => Ret (Err (errorf ("could not garbage collect sign objects: " +:+ Error err))) in
  Ret (Ok tt).

(** The counts of the loop over the Modules. *)
Definition count_mods (f : Module_ → bool) (mods : list Module_) : nat :=
  length (List.filter f mods).

(** The metrics of one Module's modprobe arguments. *)
Definition set_modprobe_metrics (m : Module_) : M unit :=
  let modprobe := mlc_Modprobe (mod_container m) in
  prog_bind (λ _,
    match RawArgs modprobe with
    | Some a => SetKMMModprobeRawArgs (mod_Name m) (mod_Namespace m) (str_join "," (Load a))
    | None => Ret tt
    end)
    (match Args modprobe with
     | Some a => SetKMMModprobeArgs (mod_Name m) (mod_Namespace m) (str_join "," (Load a))
     | None => Ret tt
     end).

Fixpoint set_all_modprobe_metrics (mods : list Module_) : M unit :=
  match mods with
  | [] => Ret tt
  | m :: mods => prog_bind (λ _, set_all_modprobe_metrics mods) (set_modprobe_metrics m)
  end.

Definition setKMMOMetrics : M unit :=
  prog_bind (λ r, match r with
    | Err _ => Ret tt
    | Panic w => Crash w
    | Ok mods =>
        prog_bind (λ _,
        prog_bind (λ _,
        prog_bind (λ _,
        prog_bind (λ _,
          SetKMMDevicePluginNum (count_mods (λ m, isSome (DevicePlugin (mod_Spec m))) mods))
          (SetKMMInClusterSignNum (count_mods (λ m, snd (isModuleBuildAndSignCapable m)) mods)))
          (SetKMMInClusterBuildNum (count_mods (λ m, fst (isModuleBuildAndSignCapable m)) mods)))
          (SetKMMModulesNum (length mods)))
          (set_all_modprobe_metrics mods)
    end) (List_ KModule list_all).

(** The body of the loop over [mldMappings]. *)
Definition handle_kernel (kernelVersion : string) (mld : ModuleLoaderData)
    (dsByKernelVersion : gmap string DaemonSet)
    : M (ctl (gmap string DaemonSet) (result ReconcileResult)) :=
  try completedSuccessfully := handleBuild mld
    catch err => Ret (Return (Err (errorf ("failed to handle build for kernel version "
                                     +:+ kernelVersion +:+ ": " +:+ Error err)))) in
  if negb completedSuccessfully then Ret (Next dsByKernelVersion) else
  try completedSuccessfully := handleSigning mld
    catch err => Ret (Return (Err (errorf ("failed to handle signing for kernel version "
                                     +:+ kernelVersion +:+ ": " +:+ Error err)))) in
  if negb completedSuccessfully then Ret (Next dsByKernelVersion) else
  try dss := handleDriverContainer mld dsByKernelVersion
    catch err => Ret (Return (Err (errorf ("failed to handle driver container for kernel version "
                                     +:+ kernelVersion +:+ ": " +:+ Error err)))) in
  Ret (Next dss).

(** Everything after the loop. *)
Definition finish_reconcile (m : Module_) (mldMappings : gmap string ModuleLoaderData)
    (nodesWithMapping targetedNodes : list Node) (dsByKernelVersion : gmap string DaemonSet)
    : M (result ReconcileResult) :=
  try _ := handleDevicePlugin m
    catch err => Ret (Err (errorf_w "could handle device plugin: " err)) in
  try _ := garbageCollect m mldMappings dsByKernelVersion
    catch err => Ret (Err (errorf ("failed to run garbage collection: " +:+ Error err))) in
  try _ := ModuleUpdateStatus m nodesWithMapping targetedNodes dsByKernelVersion
    catch err => Ret (Err (errorf_w "failed to update status of the module: " err)) in
  Ret (Ok no_requeue).

(** Everything after the metrics. *)
Definition reconcile_module (m : Module_) : M (result ReconcileResult) :=
  try targetedNodes := getNodesListBySelector m
    catch err => Ret (Err (errorf_w ("could get targeted nodes for module " +:+ mod_Name m
                                     +:+ ": ") err)) in
  try mn := lift_result (getRelevantKernelMappingsAndNodes m targetedNodes)
    catch err => Ret (Err (errorf_w ("could get kernel mappings and nodes for modules "
                                     +:+ mod_Name m +:+ ": ") err)) in
  let mldMappings := fst mn in
  let nodesWithMapping := snd mn in
  try dsByKernelVersion :=
      ModuleDaemonSetsByKernelVersion kernelLabel (mod_Name m) (mod_Namespace m)
    catch err => Ret (Err (errorf ("could not get DaemonSets for module " +:+ mod_Name m +:+ ": "
                                   +:+ Error err))) in
  prog_bind (λ c, match c with
    | Return r => Ret r
    | Next dsByKernelVersion =>
        finish_reconcile m mldMappings nodesWithMapping targetedNodes dsByKernelVersion
    end)
    (range_loop (range_map mldMappings) (λ '(k, mld) dss, handle_kernel k mld dss) dsByKernelVersion).

Definition Reconcile (req : NamespacedName) : M (result ReconcileResult) :=
  prog_bind (λ r, match r with
    | Panic w => Crash w
    | Err err =>
        if IsNotFound err then Ret (Ok no_requeue)
        else Ret (Err (errorf_w ("failed to get the requested " +:+ nsn_string req +:+ " KMMO CR: ")
                         err))
    | Ok m =>
        try _ := (if bool_decide (nn_Namespace req = operatorNamespace) then Ret (Ok tt)
                  else ca_Sync (nn_Namespace req) (as_owner m))
          catch err => Ret (Err (errorf ("failed to synchronize CA ConfigMaps: " +:+ Error err))) in
        prog_bind (λ _, reconcile_module m) setKMMOMetrics
    end) (getRequestedModule req).
End reconciler.

(** ** The kernels of the nodes *)

Section mapping_facts.
Context {R : Regexp} {E : Envsubst}.

Definition has_mapping (m : Module_) (node : Node) : bool :=
  is_ok (GetModuleLoaderDataForKernel m (node_kernel node)).

(** A cache of the mapper's answers. *)
Definition cache_ok (m : Module_) (c : gmap string ModuleLoaderData) : Prop :=
  ∀ k mld, c !! k = Some mld → GetModuleLoaderDataForKernel m k = Ok mld.

Lemma mappings_loop_Ok m nodes c c' ns :
  cache_ok m c → mappings_loop m nodes c = Ok (c', ns) →
  ns = List.filter (has_mapping m) nodes ∧
  ∀ k mld, c' !! k = Some mld ↔
    c !! k = Some mld ∨
    (GetModuleLoaderDataForKernel m k = Ok mld ∧ ∃ node, node ∈ nodes ∧ node_kernel node = k).
Proof.
  revert c c' ns. induction nodes as [|n nodes IH]; intros c c' ns Hc H; simpl in H.
  { simplify_eq. split; [done|]. intros k mld. set_solver. }
  cbn [List.filter].
  destruct (c !! node_kernel n) as [mld0|] eqn:Hn.
  - apply result_bind_Ok in H as ([c1 ns1] & H & [= <- <-]).
    destruct (IH _ _ _ Hc H) as [-> Hk]. assert (has_mapping m n = true) as -> by (unfold has_mapping; by rewrite (Hc _ _ Hn)).
    split; [done|]. intros k mld. rewrite Hk. split; [set_solver|].
    intros [?|[Hg (node & [->|?]%elem_of_cons & Hnode)]]; [by left| |set_solver].
    left. rewrite <-Hnode, Hn. f_equal. apply Hc in Hn. rewrite Hnode in Hn. congruence.
  - destruct (GetModuleLoaderDataForKernel m (node_kernel n)) as [mld0|e|w] eqn:Hg; [| |done].
    + apply result_bind_Ok in H as ([c1 ns1] & H & [= <- <-]).
      assert (cache_ok m (<[node_kernel n := mld0]> c)) as Hc'.
      { intros k mld [[<- <-]|[_ ?]]%lookup_insert_Some; [done|by apply Hc]. }
      destruct (IH _ _ _ Hc' H) as [-> Hk].
      assert (has_mapping m n = true) as -> by (unfold has_mapping; by rewrite Hg).
      split; [done|]. intros k mld. rewrite Hk, lookup_insert_Some. split.
      * intros [[[<- <-]|[_ ?]]|[? ?]]; [right; set_solver|by left|right; set_solver].
      * intros [?|[Hg' (node & [->|?]%elem_of_cons & Hnode)]]; [|left; left|right; set_solver].
        -- left. right. split; [|done]. intros <-. congruence.
        -- split; [done|]. rewrite Hnode in Hg. congruence.
    + destruct (IH _ _ _ Hc H) as [-> Hk].
      assert (has_mapping m n = false) as -> by (unfold has_mapping; by rewrite Hg).
      split; [done|]. intros k mld. rewrite Hk. split; [set_solver|].
      intros [?|[Hg' (node & [->|?]%elem_of_cons & Hnode)]]; [by left| |set_solver].
      rewrite Hnode in Hg. congruence.
Qed.

Lemma getRelevant_Ok m nodes c ns :
  getRelevantKernelMappingsAndNodes m nodes = Ok (c, ns) →
  ns = List.filter (has_mapping m) nodes ∧
  ∀ k mld, c !! k = Some mld ↔
    GetModuleLoaderDataForKernel m k = Ok mld ∧ ∃ node, node ∈ nodes ∧ node_kernel node = k.
Proof.
  intros H. apply mappings_loop_Ok in H as [-> Hk]; [|by intros ??]. split; [done|].
  intros k mld. rewrite Hk, lookup_empty. naive_solver.
Qed.

Lemma mappings_loop_not_Ok m nodes c :
  cache_ok m c →
  (∀ e, mappings_loop m nodes c ≠ Err e) ∧
  ((∃ w, mappings_loop m nodes c = Panic w) ↔
     ∃ node w, node ∈ nodes ∧ GetModuleLoaderDataForKernel m (node_kernel node) = Panic w).
Proof.
  revert c. induction nodes as [|n nodes IH]; intros c Hc; simpl; [set_solver|].
  destruct (c !! node_kernel n) as [mld0|] eqn:Hn.
  - destruct (IH c Hc) as [He Hw]. apply Hc in Hn.
    destruct (mappings_loop m nodes c) as [r|e|w]; simpl.
    + split; [done|]. split; [by intros [??]|].
      intros (node & w & [->|Hin]%elem_of_cons & Hp); [congruence|].
      exfalso.
      assert (∃ w', Ok r = Panic w') as [? ?] by (apply Hw; by exists node, w). done.
    + by destruct (He e).
    + split; [done|]. split; [|by eexists].
      intros _. destruct Hw as [Hw _]. destruct Hw as (node & w' & Hin & Hp); [by eexists|].
      exists node, w'. split; [by right|done].
  - destruct (GetModuleLoaderDataForKernel m (node_kernel n)) as [mld0|e|w] eqn:Hg.
    + assert (cache_ok m (<[node_kernel n := mld0]> c)) as Hc'.
      { intros k mld [[<- <-]|[_ ?]]%lookup_insert_Some; [done|by apply Hc]. }
      destruct (IH _ Hc') as [He Hw].
      destruct (mappings_loop m nodes _) as [r|e|w]; simpl.
      * split; [done|]. split; [by intros [??]|].
        intros (node & w & [->|Hin]%elem_of_cons & Hp); [congruence|].
        exfalso.
      assert (∃ w', Ok r = Panic w') as [? ?] by (apply Hw; by exists node, w). done.
      * by destruct (He e).
      * split; [done|]. split; [|by eexists].
        intros _. destruct Hw as [Hw _]. destruct Hw as (node & w' & Hin & Hp); [by eexists|].
        exists node, w'. split; [by right|done].
    + destruct (IH c Hc) as [He Hw]. split; [done|]. rewrite Hw. split.
      * intros (node & w & Hin & Hp). exists node, w. split; [by right|done].
      * intros (node & w & [->|Hin]%elem_of_cons & Hp); [congruence|]. by exists node, w.
    + split; [done|]. split; [|by eexists]. intros _. exists n, w. split; [by left|done].
Qed.
End mapping_facts.

(** ** What the reconciler may write, and when *)

Section safety.
Context {R : Regexp} {E : Envsubst} {MO : MapOrder} {BM : BuildManager} {SM : SignManager}.
Context {BS : BuildManagerSpec BM} {SS : SignManagerSpec SM}.
Variables (kernelLabel operatorNamespace : string).

(** The image of a kernel is ready: nothing was left to build, or the build
    completed; and the same for signing. *)
Definition build_ready (mld : ModuleLoaderData) (h : hist) : Prop :=
  bm_skipped mld h ∨ bm_completed mld true (mld_Owner mld) h.
Definition sign_ready (mld : ModuleLoaderData) (h : hist) : Prop :=
  sm_skipped mld h ∨ sm_completed mld (previousImage mld) true (mld_Owner mld) h.

Lemma build_ready_monotone mld : monotone (build_ready mld).
Proof.
  intros h h' Hp [H|H]; [left; by eapply bm_skipped_monotone|right; by eapply bm_completed_monotone].
Qed.
Lemma sign_ready_monotone mld : monotone (sign_ready mld).
Proof.
  intros h h' Hp [H|H]; [left; by eapply sm_skipped_monotone|right; by eapply sm_completed_monotone].
Qed.

Definition stores (ds : DaemonSet) (q : req) : Prop :=
  q = RCreate KDaemonSet ds ∨ ∃ base, q = RPatch KDaemonSet ds base.

(** A DaemonSet is created or patched to load a module: it is the desired one
    of the Module for a kernel whose image is ready. *)
Definition driver_write (m : Module_) (h : hist) (q : req) : Prop :=
  ∃ mld ds0 ds sa, GetModuleLoaderDataForKernel m (mld_KernelVersion mld) = Ok mld ∧
    build_ready mld h ∧ sign_ready mld h ∧
    SetDriverContainerAsDesired kernelLabel (Some ds0) mld sa = Ok ds ∧ stores ds q.

Definition device_plugin_write (m : Module_) (q : req) : Prop :=
  ∃ ds0 ds sa, SetDevicePluginAsDesired (Some ds0) m sa = Ok ds ∧ stores ds q.

Definition nodes_listed (m : Module_) (nodes : list Node) : @event req ans :=
  Ev (RList KNode (mk_listopts None (Some (Selector (mod_Spec m))))) (Ok nodes).

(** A DaemonSet is deleted: none of the schedulable nodes the Module targets
    runs its kernel with a mapping. *)
Definition driver_delete (m : Module_) (h : hist) (q : req) : Prop :=
  ∃ ds nodes, q = RDelete KDaemonSet ds false ∧ nodes_listed m nodes ∈ h ∧
    ds_kernel kernelLabel ds ≠ "" ∧
    ∀ node, node ∈ nodes → isNodeSchedulable node = true →
      node_kernel node = ds_kernel kernelLabel ds → has_mapping m node = false.

(** A call of the build or sign manager, for a kernel of the Module. *)
Definition manager_call (m : Module_) (h : hist) (q : req) : Prop :=
  ∃ k mld, GetModuleLoaderDataForKernel m k = Ok mld ∧
    (bm_call mld true (as_owner m) h q ∨ sm_call mld (previousImage mld) true (as_owner m) h q).

(** Calls that touch neither a DaemonSet nor the shared mapping, and start
    neither a Build nor a Job. *)
Definition plain_call (q : req) : Prop :=
  writes_kind KDaemonSet q = false ∧ starts_no_job q ∧ mapping_write q = false.

Definition module_allowed (m : Module_) (h : hist) (q : req) : Prop :=
  plain_call q ∨ manager_call m h q ∨ driver_write m h q ∨ device_plugin_write m q ∨
  driver_delete m h q.

Definition reconcile_allowed (key : NamespacedName) (h : hist) (q : req) : Prop :=
  plain_call q ∨
  ∃ m, (Ev (RGet KModule key) (Ok m) : @event req ans) ∈ h ∧ module_allowed m h q.

(** Programs that write other kinds. *)
Lemma plain_read q : is_write q = false → plain_call q.
Proof. intros H. split; [by destruct q|]. split; [by apply starts_no_job_read|by apply read_not_mapping]. Qed.

Lemma plain_configmaps q : writes_only KConfigMap q = true → plain_call q.
Proof.
  unfold writes_only. intros H. destruct q; try done; simpl in *; apply bool_decide_eq_true in H as ->;
    repeat split; try done; by apply bool_decide_false.
Qed.

Lemma plain_gc k q : k ≠ KDaemonSet → gc_call k q → plain_call q.
Proof.
  intros Hk [H|(o & b & ->)]; [by apply plain_read|]. split; [|done].
  simpl. by apply bool_decide_false.
Qed.

Lemma manager_call_not_ds m h q : manager_call m h q → writes_kind KDaemonSet q = false.
Proof.
  intros (k & mld & _ & [Hq%bm_call_sync|Hq%sm_call_sync]); destruct Hq as [[]| |]; done.
Qed.

(** ** Build and sign *)

Lemma wp_handleBuild m k mld h :
  GetModuleLoaderDataForKernel m k = Ok mld →
  wp (module_allowed m) (handleBuild mld)
     (λ o h', match o with Done (Ok true) => build_ready mld h' | _ => True end) h.
Proof.
  intros Hm. pose proof (mld_owner m k mld Hm) as Ho. unfold handleBuild. apply wp_bind.
  eapply wp_mono; [apply wp_bm_ShouldSync|intros; left; by apply plain_read|].
  intros [[[]|e|w]|w] h1 _ H1; simpl; try done; [|by left].
  apply wp_bind. eapply wp_mono; [apply wp_bm_Sync| |].
  { intros h' q _ Hq. right. left. exists k, mld. rewrite Ho in Hq. by split; [|left]. }
  intros [[st [e|]]|w] h2 _ H2; try done. destruct st; try done. by right.
Qed.

Lemma wp_handleSigning m k mld h :
  GetModuleLoaderDataForKernel m k = Ok mld →
  wp (module_allowed m) (handleSigning mld)
     (λ o h', match o with Done (Ok true) => sign_ready mld h' | _ => True end) h.
Proof.
  intros Hm. pose proof (mld_owner m k mld Hm) as Ho. unfold handleSigning. apply wp_bind.
  eapply wp_mono; [apply wp_sm_ShouldSync|intros; left; by apply plain_read|].
  intros [[[]|e|w]|w] h1 _ H1; simpl; try done; [|by left].
  apply wp_bind. eapply wp_mono; [apply wp_sm_Sync| |].
  { intros h' q _ Hq. right. left. exists k, mld. rewrite Ho in Hq. by split; [|right]. }
  intros [[st [e|]]|w] h2 _ H2; try done. destruct st; try done. by right.
Qed.

(** ** DaemonSets *)

Lemma wp_handleDriverContainer m mld dss h :
  GetModuleLoaderDataForKernel m (mld_KernelVersion mld) = Ok mld →
  build_ready mld h → sign_ready mld h →
  wp (module_allowed m) (handleDriverContainer kernelLabel operatorNamespace mld dss)
     (λ o h', match o with
              | Done (Ok dss') => ∀ k ds, dss' !! k = Some ds →
                                    dss !! k = Some ds ∨ k = mld_KernelVersion mld
              | _ => True
              end) h.
Proof.
  intros Hm Hb Hs. unfold handleDriverContainer. apply wp_bind, wp_CreateOrPatch.
  - by left.
  - intros h' o' Hp [Ho _]%mutate_Ok. do 2 right. left. exists mld. do 3 eexists.
    split_and!; [done|by eapply build_ready_monotone|by eapply sign_ready_monotone|exact Ho|by left].
  - intros h' b o' Hp [Ho _]%mutate_Ok. do 2 right. left. exists mld. do 3 eexists.
    split_and!; [done|by eapply build_ready_monotone|by eapply sign_ready_monotone|exact Ho|].
    right. by eexists.
  - intros h' b o' c Hp [Ho _]%mutate_Ok Hst. simpl in Hst.
    apply SetDriverContainerAsDesired_status in Ho. by rewrite Ho, bool_decide_true in Hst.
  - intros [[r|e|w]|w] h' Hp; try done. simpl. intros k ds.
    destruct (dss !! mld_KernelVersion mld); simpl; [|by left].
    intros [[<- _]|[_ ?]]%lookup_insert_Some; [by right|by left].
Qed.

Lemma wp_handleDevicePlugin m h :
  wp (module_allowed m) (handleDevicePlugin operatorNamespace m) (λ _ h', h `prefix_of` h') h.
Proof.
  unfold handleDevicePlugin. destruct (negb _); [simpl; reflexivity|]. apply wp_bind, wp_CreateOrPatch.
  - by left.
  - intros h' o' Hp [Ho _]%mutate_Ok. do 3 right. left. do 3 eexists. split; [exact Ho|by left].
  - intros h' b o' Hp [Ho _]%mutate_Ok. do 3 right. left. do 3 eexists. split; [exact Ho|].
    right. by eexists.
  - intros h' b o' c Hp [Ho _]%mutate_Ok Hst. simpl in Hst.
    apply SetDevicePluginAsDesired_status in Ho. by rewrite Ho, bool_decide_true in Hst.
  - by intros [[r|e|w]|w] h' Hp.
Qed.

(** The DaemonSets known during a reconciliation: those listed, some of them
    refreshed, but only for kernels in use. *)
Definition dss_ok (mappings : gmap string ModuleLoaderData) (dss : gmap string DaemonSet) : Prop :=
  ∀ k ds, dss !! k = Some ds → k ∈ dom mappings ∨ ds_kernel kernelLabel ds = k.

Lemma wp_garbageCollect m mappings dss nodes h :
  dss_ok mappings dss → nodes_listed m nodes ∈ h →
  (∀ node, node ∈ nodes → isNodeSchedulable node = true → has_mapping m node = true →
     node_kernel node ∈ dom mappings) →
  wp (module_allowed m) (garbageCollect kernelLabel m mappings dss) (λ _ _, True) h.
Proof.
  intros Hdss Hnodes Hmap. unfold garbageCollect. apply wp_bind, wp_GarbageCollect.
  - intros h' ds [l ->] (k & Hk & Hne & Hnin)%elem_of_garbage. do 4 right. exists ds, nodes.
    split_and!; [done|apply elem_of_app; by left|done|].
    intros node Hin Hsch Heq. destruct (has_mapping m node) eqn:Hm; [|done].
    destruct (Hdss k ds Hk) as [?|Hkk]; [done|]. destruct Hnin. rewrite <-Hkk, <-Heq. auto.
  - intros [[r|e|w]|w] tr _; try done. apply wp_bind.
    eapply wp_calls; [apply calls_bm_GarbageCollect|intros; left; by apply (plain_gc KBuild)|].
    intros [[r2|e|w]|w] h2 _; try done. apply wp_bind.
    eapply wp_calls; [apply calls_sm_GarbageCollect|intros; left; by apply (plain_gc KJob)|].
    by intros [[r3|e|w]|w] h3 _.
Qed.

Lemma wp_handle_kernel m k mld dss h :
  GetModuleLoaderDataForKernel m k = Ok mld →
  wp (module_allowed m) (handle_kernel kernelLabel operatorNamespace k mld dss)
     (λ o h', match o with
              | Done (Next dss') => ∀ k' ds, dss' !! k' = Some ds → dss !! k' = Some ds ∨ k' = k
              | Done (Return r) => ∃ err, r = Err err
              | _ => True
              end) h.
Proof.
  intros Hm. pose proof (mld_kernel m k mld Hm) as Hk. unfold handle_kernel.
  apply wp_bind. eapply wp_post; [by eapply wp_handleBuild|].
  intros [[[]|e|w]|w] h1 _ H1; try done; [|by left|by eexists].
  apply wp_bind. eapply wp_post; [by eapply wp_handleSigning|].
  intros [[[]|e|w]|w] h2 Hp2 H2; try done; [|by left|by eexists].
  apply wp_bind. eapply wp_post.
  { apply wp_handleDriverContainer; [by rewrite Hk|by eapply build_ready_monotone|done]. }
  intros [[dss'|e|w]|w] h3 _ H3; try done; [by rewrite Hk in H3|by eexists].
Qed.

(** How a reconciliation of an existing Module ends: when it succeeds, the
    status was patched last. *)
Definition status_written (m : Module_) (o : outcome (result ReconcileResult)) (h : hist) : Prop :=
  match o with
  | Done (Ok r) => r = no_requeue ∧
      ∃ h' m' r', h = h' ++ [Ev (RStatusPatch KModule m' m) (Ok r')]
  | _ => True
  end.

Lemma wp_finish_reconcile m mappings mapped targeted dss nodes h :
  dss_ok mappings dss → nodes_listed m nodes ∈ h →
  (∀ node, node ∈ nodes → isNodeSchedulable node = true → has_mapping m node = true →
     node_kernel node ∈ dom mappings) →
  wp (module_allowed m)
     (finish_reconcile kernelLabel operatorNamespace m mappings mapped targeted dss)
     (status_written m) h.
Proof.
  intros Hdss Hnodes Hmap. unfold finish_reconcile. apply wp_bind.
  eapply wp_post; [apply wp_handleDevicePlugin|]. intros [[r|e|w]|w] h1 _ [l1 ->]; try done.
  apply wp_bind. eapply wp_post; [eapply wp_garbageCollect; [done| |done]|].
  { apply elem_of_app. left. exact Hnodes. }
  intros [[r2|e|w]|w] h2 _ _; try done. apply wp_bind. split; [by left|].
  intros [m'|e|w]; try done. split; [done|]. by do 3 eexists.
Qed.

Lemma wp_reconcile_module m h :
  wp (module_allowed m) (reconcile_module kernelLabel operatorNamespace m) (status_written m) h.
Proof.
  unfold reconcile_module, getNodesListBySelector. do 2 apply wp_bind. split; [by left|].
  intros [nodes|e|w]; try done. change (Ev _ _) with (nodes_listed m nodes).
  apply wp_bind, wp_lift_result; [|done..]. intros [mappings mapped] Hrel.
  apply getRelevant_Ok in Hrel as [_ Hmap]. cbn [fst snd].
  apply wp_bind, wp_ModuleDaemonSetsByKernelVersion; [by left|].
  intros [[dss|e|w]|w] h0 [l0 ->] Hby; try done.
  assert (dss_ok mappings dss) as Hdss.
  { intros k ds Hk. right. by eapply Hby. }
  clear Hby. apply wp_bind.
  eapply (wp_range_loop _ _ _ _ (λ _ dss h', dss_ok mappings dss ∧ nodes_listed m nodes ∈ h')).
  - split; [done|]. apply elem_of_app. left. in_hist.
  - intros pre [k mld] post dss1 h1 Heq [Hd1 Hin1].
    assert (mappings !! k = Some mld) as Hkm.
    { apply elem_of_range_map. rewrite Heq. set_solver. }
    pose proof (proj1 (Hmap k mld) Hkm) as [Hg _].
    eapply wp_post; [by apply wp_handle_kernel|].
    intros [[dss2|r]|w] h2 [l2 ->] H2; try done; [|by destruct H2 as [? ->]].
    split; [|apply elem_of_app; by left]. intros k' ds Hk'.
    destruct (H2 k' ds Hk') as [?| ->]; [by apply Hd1|]. left. by apply elem_of_dom_2 in Hkm.
  - intros dss1 h1 [Hd1 Hin1]. eapply wp_finish_reconcile; [done|done|].
    intros node Hn Hsch Hhas. unfold has_mapping in Hhas.
    destruct (GetModuleLoaderDataForKernel m (node_kernel node)) as [mld|?|?] eqn:Hg; try done.
    apply elem_of_dom. exists mld. apply Hmap. split; [done|]. exists node. split; [|done].
    apply list_elem_of_In, List.filter_In. by rewrite <-list_elem_of_In.
Qed.

Lemma reads_set_all_modprobe_metrics mods : reads (set_all_modprobe_metrics mods).
Proof.
  induction mods as [|m mods IH]; [apply calls_ret|]. simpl.
  apply calls_bind; [|intros; apply IH].
  unfold set_modprobe_metrics, SetKMMModprobeRawArgs, SetKMMModprobeArgs, set_metric. go_calls.
Qed.
Lemma reads_setKMMOMetrics : reads setKMMOMetrics.
Proof.
  pose proof reads_set_all_modprobe_metrics.
  unfold setKMMOMetrics, SetKMMModulesNum, SetKMMInClusterBuildNum, SetKMMInClusterSignNum,
    SetKMMDevicePluginNum, set_metric, List_. go_calls.
Qed.

(** How a reconciliation ends when it reports success. *)
Definition reconcile_post (key : NamespacedName) (o : outcome (result ReconcileResult)) (h : hist)
    : Prop :=
  match o with
  | Done (Ok r) => r = no_requeue ∧
      ((∃ err, h = [Ev (RGet KModule key) (Err err)] ∧ IsNotFound err = true) ∨
       (∃ m h' m' r', (Ev (RGet KModule key) (Ok m) : @event req ans) ∈ h ∧
          h = h' ++ [Ev (RStatusPatch KModule m' m) (Ok r')]))
  | _ => True
  end.

Lemma wp_Reconcile key :
  wp (reconcile_allowed key) (Reconcile kernelLabel operatorNamespace key) (reconcile_post key) [].
Proof.
  unfold Reconcile, getRequestedModule. do 2 apply wp_bind. split; [by left|].
  intros [m|err|w]; try done.
  - apply wp_bind. eapply (wp_calls _ (λ q, writes_only KConfigMap q = true)).
    { destruct (bool_decide _); [apply calls_ret|apply calls_ca_Sync]. }
    { intros h' q _ Hq. left. by apply plain_configmaps. }
    intros [[[]|e|w]|w] h1 Hp1; try done. apply wp_bind.
    eapply wp_calls; [apply reads_setKMMOMetrics|intros h' q _ Hq; left; by apply plain_read|].
    intros [[]|w] h2 Hp2; try done.
    assert ((Ev (RGet KModule key) (Ok m) : @event req ans) ∈ h2) as Hin.
    { assert ([Ev (RGet KModule key) (Ok m)] `prefix_of` h2) as [l ->] by (by trans h1). by left. }
    eapply wp_mono; [apply (wp_reconcile_module m h2)| |].
    + intros h' q [l ->] Hq. right. exists m. split; [apply elem_of_app; by left|done].
    + intros [[r|e|w]|w] h' [l Hl] Hst; try done.
      destruct Hst as [-> (h3 & m' & r' & Hh)]. split; [done|]. right.
      exists m, h3, m', r'. split; [|done]. rewrite Hl. apply elem_of_app. by left.
  - cbn [wp prog_bind]. destruct (IsNotFound _) eqn:Hnf; [|done]. split; [done|].
    left. by exists err.
Qed.

(** ** Properties *)

(** C5: safety of the Module controller, for every API server and every build
    and sign manager that keeps its promises: a reconciliation creates or
    patches a DaemonSet only as the device plugin's of the Module it read, or
    as the desired module loader of one of the Module's kernels after the
    history shows that this kernel's image needs no build or was built, and
    needs no signing or was signed; and it deletes a DaemonSet only when its
    kernel is on none of the schedulable nodes listed that have a mapping.
    Builds and Jobs are started by the managers' Syncs alone, for a kernel of
    the Module and with the Module as their owner. *)
Theorem Reconcile_safety {S} (srv : kserver S) s key h1 e h2 :
  run_trace srv (Reconcile kernelLabel operatorNamespace key) s = h1 ++ e :: h2 →
  reconcile_allowed key h1 (ev_req e).
Proof. apply (wp_run _ _ _ srv s (wp_Reconcile key)). Qed.

(** A reconciliation that reports success either found no Module, and then
    made no other call, or ended by patching the status of the Module it read;
    it never asks to be called again. *)
Theorem Reconcile_success {S} (srv : kserver S) s key :
  let p := Reconcile kernelLabel operatorNamespace key in
  reconcile_post key (run_out srv p s) (run_trace srv p s).
Proof using Type*. apply (wp_run _ _ _ srv s (wp_Reconcile key)). Qed.
End safety.

(** the loop over the nodes, with its cache per kernel version, computes
    what asking the mapper for every node would: a mapping for exactly the
    kernels of the nodes that have one, and exactly those nodes, in order; it
    reports no error, and panics exactly when the mapper does for some node. *)
Theorem getRelevantKernelMappingsAndNodes_spec {R : Regexp} {E : Envsubst} m nodes :
  let r := getRelevantKernelMappingsAndNodes m nodes in
  (∀ mappings ns, r = Ok (mappings, ns) →
     ns = List.filter (has_mapping m) nodes ∧
     ∀ k mld, mappings !! k = Some mld ↔
       GetModuleLoaderDataForKernel m k = Ok mld ∧ ∃ node, node ∈ nodes ∧ node_kernel node = k) ∧
  (∀ err, r ≠ Err err) ∧
  ((∃ w, r = Panic w) ↔
     ∃ node w, node ∈ nodes ∧ GetModuleLoaderDataForKernel m (node_kernel node) = Panic w).
Proof.
  intros r. split; [intros c ns; apply getRelevant_Ok|].
  apply mappings_loop_not_Ok. by intros ??.
Qed.
