(* ===== verification/Operator.v ===== *)
(** * The operator, assembled

    The Module controller as cmd/manager/main.go wires it: with the
    buildconfig manager, the signing Job manager and the kernel label of the
    constants package. *)

From S2P Require Import Prelude Prog K8s Api Client Utils Helpers.
From S2P Require Import KernelMapper DaemonSet Registry Managers BuildConfig SignJob StatusUpdater ModuleReconciler.
From stdpp Require Import options.

Section operator.
Context {D : ManifestDecoder} {Hs : Hasher} {R : Regexp} {E : Envsubst} {MO : MapOrder}.
Variables (goarch operatorNamespace : string).

Definition operator_Reconcile (key : NamespacedName) : M (result ReconcileResult) :=
  Reconcile (BM := buildconfig_manager goarch) (SM := signjob_manager goarch)
    KernelLabel operatorNamespace key.

(** The image a signing Job starts from. *)
Definition operator_build_ready (mld : ModuleLoaderData) (h : hist) : Prop :=
  mld_Build mld = None ∨ image_seen (build_target_image mld) h ∨
  build_completed mld true (mld_Owner mld) h.
Definition operator_sign_ready (mld : ModuleLoaderData) (h : hist) : Prop :=
  mld_Sign mld = None ∨ image_seen (mld_ContainerImage mld) h ∨
  sign_completed mld (previousImage mld) true (mld_Owner mld) h.

Definition loads_modules (ds : DaemonSet) : Prop :=
  ctr_Name <$> ps_Containers (pt_spec (dss_Template (ds_Spec ds))) = ["module-loader"].

Lemma device_plugin_not_loader ds0 m sa ds :
  SetDevicePluginAsDesired (Some ds0) m sa = Ok ds → ¬ loads_modules ds.
Proof.
  unfold SetDevicePluginAsDesired. destruct (DevicePlugin _); [|done].
  rewrite result_bind_Ok. by intros (m' & _ & [= <-]).
Qed.

Lemma stores_inj ds ds' q : stores ds q → stores ds' q → ds = ds'.
Proof.
  assert (∀ x q, stores x q → created KDaemonSet q = Some x ∨ patched KDaemonSet q = Some x) as H.
  { intros x q0 [->|[b ->]]; [left|right]; apply as_kind_same. }
  assert (∀ x q, stores x q → created KDaemonSet q = None ∨ patched KDaemonSet q = None) as Hn.
  { intros x q0 [->|[b ->]]; auto. }
  intros H1 H2. pose proof (Hn _ _ H1) as H3.
  destruct (H _ _ H1), (H _ _ H2), H3; congruence.
Qed.

(** C1: the DaemonSets that load modules run images that are ready: when one
    is created or patched, the operator has read the Module, the DaemonSet
    runs the image the Module gives for its kernel, and the history shows that
    no build is configured, that the image to build exists, or that the one
    Build of the current Dockerfile completed; and likewise for signing. *)
Theorem operator_images_ready {S} (srv : kserver S) s key h1 e h2 ds :
  run_trace srv (operator_Reconcile key) s = h1 ++ e :: h2 →
  stores ds (ev_req e) → loads_modules ds →
  ∃ m mld c, (Ev (RGet KModule key) (Ok m) : @event req ans) ∈ h1 ∧
    GetModuleLoaderDataForKernel m (ds_kernel KernelLabel ds) = Ok mld ∧
    ps_Containers (pt_spec (dss_Template (ds_Spec ds))) = [c] ∧ ctr_Image c = mld_ContainerImage mld ∧
    operator_build_ready mld h1 ∧ operator_sign_ready mld h1.
Proof.
  intros Htr Hst Hload.
  pose proof (wp_run _ _ _ srv s
    (wp_Reconcile (BM := buildconfig_manager goarch) (SM := signjob_manager goarch)
       KernelLabel operatorNamespace key)) as [_ Hok].
  assert (writes_kind KDaemonSet (ev_req e) = true) as Hw by (by destruct Hst as [->|[b ->]]).
  destruct (Hok _ _ _ Htr) as [[Hn _]|(m & Hm & Hok')]; [congruence|].
  destruct Hok' as [[Hn _]|[Hn|[(mld & ds0 & ds' & sa & Hg & Hb & Hs' & Hd & Hst')|[(ds0 & ds' & sa & Hd & Hst')|
    (ds' & nodes & Hq & _)]]]].
  - congruence.
  - apply manager_call_not_ds in Hn. congruence.
  - rewrite (stores_inj _ _ _ Hst Hst') in *. exists m, mld, (driver_container mld).
    pose proof (ds_kernel_driver _ _ _ _ _ Hd) as Hk.
    apply SetDriverContainerAsDesired_Ok in Hd as (_ & _ & _ & _ & _ & _ & _ & _ & _ & Hc & _).
    split_and!; [done|by rewrite Hk|done|done| |].
    + destruct Hb as [[Hb|Hb]|Hb]; [by left|by right; left|by right; right].
    + destruct Hs' as [[Hb'|Hb']|Hb']; [by left|by right; left|by right; right].
  - rewrite (stores_inj _ _ _ Hst Hst') in Hload. by apply device_plugin_not_loader in Hd.
  - rewrite Hq in Hst. by destruct Hst as [?|[b ?]].
Qed.
End operator.

(** ** Example: one node, an image that exists *)

Definition ex_node : Node := mk_node (meta_named "node-1" "") [] Ex.kernel "RHCOS".

(** A cluster with the Module, one node, and a registry with its image. *)
Definition ex_answers (q : req) : ans q :=
  match q return ans q with
  | RGet KModule _ => Ok Ex.module
  | RList KNode _ => Ok [ex_node]
  | RManifest _ _ => Ok "manifest"
  | RKeychainFromSA _ _ => Ok "keychain"
  | q => accept q
  end.
Definition ex_cluster : kserver unit := stateless ex_answers.

Definition ex_reconcile : M (result ReconcileResult) :=
  operator_Reconcile (D := ex_decoder) (Hs := ex_hasher) (R := regexp_substring)
    (E := envsubst_id) (MO := map_order_std) "amd64" "gpu" (NN "gpu" "nvidia").

Example ex_reconcile_runs :
  length (run_trace ex_cluster ex_reconcile tt) = 14 ∧
  run_out ex_cluster ex_reconcile tt = Done (Ok no_requeue).
Proof. vm_compute. done. Qed.

(** The call that creates the module loader's DaemonSet. *)
Definition ex_loader_create (e : @event req ans) : bool :=
  match created KDaemonSet (ev_req e) with
  | Some ds => bool_decide (loads_modules ds)
  | None => false
  end.

Lemma ex_reconcile_creates :
  ∃ h1 e h2 ds, run_trace ex_cluster ex_reconcile tt = h1 ++ e :: h2 ∧
    ev_req e = RCreate KDaemonSet ds ∧ loads_modules ds.
Proof.
  assert (existsb ex_loader_create (run_trace ex_cluster ex_reconcile tt) = true) as H
    by (vm_compute; reflexivity).
  apply existsb_split in H as (h1 & e & h2 & Htr & He). unfold ex_loader_create in He.
  destruct (created KDaemonSet (ev_req e)) as [ds|] eqn:Hc; [|done].
  apply bool_decide_eq_true in He. apply created_inv in Hc.
  exists h1, e, h2, ds. exact (conj Htr (conj Hc He)).
Qed.

Lemma operator_images_ready_witness :
  ∃ h1 m mld c, (Ev (RGet KModule (NN "gpu" "nvidia")) (Ok m) : @event req ans) ∈ h1 ∧
    ctr_Image c = mld_ContainerImage mld ∧
    operator_build_ready (Hs := ex_hasher) mld h1 ∧ operator_sign_ready (Hs := ex_hasher) mld h1.
Proof.
  destruct ex_reconcile_creates as (h1 & e & h2 & ds & Htr & He & Hds).
  destruct (operator_images_ready (D := ex_decoder) (Hs := ex_hasher) "amd64" "gpu" ex_cluster tt
    (NN "gpu" "nvidia") h1 e h2 ds Htr (or_introl He) Hds) as (m & mld & c & H1 & _ & _ & H2 & H3 & H4).
  exists h1, m, mld, c. exact (conj H1 (conj H2 (conj H3 H4))).
Defined.

Lemma Reconcile_safety_witness :
  ∃ h1 ds, loads_modules ds ∧
    reconcile_allowed (R := regexp_substring) (E := envsubst_id)
      (BS := buildconfig_manager_spec (D := ex_decoder) (Hs := ex_hasher) "amd64")
      (SS := signjob_manager_spec (D := ex_decoder) (Hs := ex_hasher) "amd64")
      KernelLabel (NN "gpu" "nvidia") h1 (RCreate KDaemonSet ds).
Proof.
  destruct ex_reconcile_creates as (h1 & e & h2 & ds & Htr & He & Hds).
  exists h1, ds. split; [exact Hds|]. rewrite <-He.
  exact (Reconcile_safety (BM := buildconfig_manager (D := ex_decoder) (Hs := ex_hasher) "amd64")
    (SM := signjob_manager (D := ex_decoder) (Hs := ex_hasher) "amd64")
    KernelLabel "gpu" ex_cluster tt (NN "gpu" "nvidia") h1 e h2 Htr).
Defined.

Lemma Reconcile_success_witness :
  reconcile_post (NN "gpu" "nvidia") (Done (Ok no_requeue)) (run_trace ex_cluster ex_reconcile tt).
Proof.
  rewrite <-(proj2 ex_reconcile_runs).
  exact (Reconcile_success (R := regexp_substring) (E := envsubst_id) (MO := map_order_std)
    (BM := buildconfig_manager (D := ex_decoder) (Hs := ex_hasher) "amd64")
    (SM := signjob_manager (D := ex_decoder) (Hs := ex_hasher) "amd64")
    KernelLabel "gpu" ex_cluster tt (NN "gpu" "nvidia")).
Defined.
