(* ===== verification/ApiRuns.v ===== *)
(** * Parts of the controllers over an API server

    What the client's helpers and the parts of the Module controller do over an
    API server that keeps its laws ([ApiServer]): the CA ConfigMaps are there
    and owned, the metrics change no object, signing Jobs that are done are
    removed, and CreateOrPatch of a DaemonSet stores the desired labels, owner
    and spec. *)

From S2P Require Import Prelude Prog K8s Api Client Utils Helpers KernelMapper.
From S2P Require Import DaemonSet CA Managers BuildConfig SignJob ApiServer StatusUpdater Metrics ModuleReconciler Operator.
From stdpp Require Import options.

Local Open Scope go_scope.

(** A list whose elements share one key is short. *)
Lemma NoDup_fmap_le_1 {A K} (f : A → K) l :
  NoDup (f <$> l) → (∀ x y, x ∈ l → y ∈ l → f x = f y) → length l ≤ 1.
Proof.
  intros Hnd Hf. destruct l as [|x [|y l]]; [cbn; lia..|]. exfalso.
  apply NoDup_cons in Hnd as [Hni _]. apply Hni. rewrite (Hf x y) by set_solver. set_solver.
Qed.

Lemma NoDup_fmap_filter {A K} (f : A → K) (g : A → bool) l :
  NoDup (f <$> l) → NoDup (f <$> List.filter g l).
Proof.
  induction l as [|x l IH]; [done|]. cbn [List.filter fmap list_fmap]. intros [Hni Hnd]%NoDup_cons.
  destruct (g x); [|by apply IH]. apply NoDup_cons. split; [|by apply IH].
  intros (y & Hy & Hin)%list_elem_of_fmap. apply Hni. rewrite Hy. apply list_elem_of_fmap_2.
  by apply list_elem_of_In, List.filter_In, proj1, list_elem_of_In in Hin.
Qed.

Section runs.
Context {S : Type} {srv : kserver S} {view : S → ∀ k, gmap NamespacedName (obj k)}.
Context {default_spec : DaemonSetSpec → DaemonSetSpec} {valid : ∀ k, obj k → Prop}.
Context {AS : ApiServer srv view default_spec valid}.

Abbreviation swp := (swp srv).

(** ** Reads and other kinds *)

Definition same_but (k : kind) (s s' : S) : Prop := ∀ k', k' ≠ k → view s' k' = view s k'.
Definition same (s s' : S) : Prop := ∀ k, view s' k = view s k.

Lemma same_refl s : same s s.
Proof. by intros k. Qed.
Lemma same_trans s1 s2 s3 : same s1 s2 → same s2 s3 → same s1 s3.
Proof. intros H1 H2 k. by rewrite H2. Qed.
Lemma same_read q s : is_write q = false → same s (srv q s).2.
Proof using AS. intros Hq k. rewrite api_frame; [done|]. by destruct q. Qed.

Lemma swp_same {A} (p : M A) (Q : outcome A → S → Prop) s :
  reads p → swp p Q s → swp p (λ o s', Q o s' ∧ same s s') s.
Proof using AS.
  intros Hp HQ. apply (swp_keep _ (λ q, is_write q = false) (same s)); [done| |done|apply same_refl].
  intros q s' Hq Hs. eapply same_trans; [exact Hs|]. by apply same_read.
Qed.

(** ** CA ConfigMaps *)

(** At most one ConfigMap of each type. *)
Definition cm_ok (ns : string) (v : gmap NamespacedName ConfigMap) : Prop :=
  ∀ caType k1 k2 c1 c2, v !! k1 = Some c1 → v !! k2 = Some c2 →
    selected KConfigMap (ca_list ns caType) c1 = true →
    selected KConfigMap (ca_list ns caType) c2 = true → k1 = k2.

Lemma selected_ca ns caType (cm : ConfigMap) :
  selected KConfigMap (ca_list ns caType) cm = true ↔
  om_Namespace (cm_meta cm) = ns ∧ omap_lookup (om_Labels (cm_meta cm)) typeKey = Some caType.
Proof.
  unfold selected, ca_list. cbn [lo_Namespace lo_Labels obj_meta]. rewrite andb_true_iff, bool_decide_eq_true, labels_match_spec.
  split; (intros [? H]; split; [done|]).
  - apply H, lookup_singleton_eq.
  - intros k x [<- <-]%lookup_singleton_Some. done.
Qed.

Lemma swp_getConfigMap ns caType s :
  cm_ok ns (view s KConfigMap) →
  swp (getConfigMap ns caType) (λ o s', same s s' ∧
    ((o = Done (Err errConfigMapNotFound) ∧
      ∀ key cm, view s KConfigMap !! key = Some cm → selected KConfigMap (ca_list ns caType) cm = false) ∨
     ∃ cm : ConfigMap, o = Done (Ok cm) ∧ view s KConfigMap !! object_key (cm_meta cm) = Some cm ∧
       selected KConfigMap (ca_list ns caType) cm = true)) s.
Proof using AS.
  intros Hok. unfold getConfigMap, List_. cbn [prog_bind call swp].
  destruct (api_list KConfigMap (ca_list ns caType) s) as (l & -> & Hnd & Hl).
  assert (same s (srv (RList KConfigMap (ca_list ns caType)) s).2) as Hs by by apply same_read.
  assert (length l ≤ 1) as Hlen.
  { eapply NoDup_fmap_le_1; [exact Hnd|]. intros x y [Hx Hx']%Hl [Hy Hy']%Hl. by eapply Hok. }
  destruct l as [|cm [|? ?]]; cbn [length] in Hlen; [| |lia]; cbn [swp]; (split; [exact Hs|]).
  - left. split; [done|]. intros key cm Hcm. apply not_true_is_false. intros Hsel.
    assert (cm ∈ ([] : list (obj KConfigMap))) as []%not_elem_of_nil.
    apply Hl. split; [|done]. by destruct (api_keys s KConfigMap key cm Hcm) as [-> _].
  - right. exists cm. split; [done|]. apply Hl. by left.
Qed.

Lemma new_cm_selected ns T T' :
  T = clusterCAType ∨ T = serviceCAType →
  selected KConfigMap (ca_list ns T') (new_cm T ns) = true → T' = T.
Proof.
  intros HT [_ H]%selected_ca. destruct HT as [-> | ->]; vm_compute in H; injection H as <-; reflexivity.
Qed.

(** The two functions that get or create a ConfigMap are one. *)
Lemma swp_getOrCreate ns T (e1 e2 : error → error) s :
  T = clusterCAType ∨ T = serviceCAType → cm_ok ns (view s KConfigMap) → valid KConfigMap (new_cm T ns) →
  swp (try cm := getConfigMap ns T
         catch err =>
           (if negb (errors_is err (CSentinel "errConfigMapNotFound")) then Ret (Err (e1 err))
            else try cm := Create KConfigMap (new_cm T ns) catch err => Ret (Err (e2 err)) in Ret (Ok cm)) in
       Ret (Ok cm))
    (λ o s', ∃ cm : ConfigMap, o = Done (Ok cm) ∧ view s' KConfigMap !! object_key (cm_meta cm) = Some cm ∧
       om_Namespace (cm_meta cm) = ns ∧ cm_ok ns (view s' KConfigMap) ∧ same_but KConfigMap s s') s.
Proof using AS.
  intros HT Hok Hv. apply swp_bind. eapply swp_mono; [by apply swp_getConfigMap|].
  intros o s1 [Hs [[-> Hnone]|(cm & -> & Hcm & Hsel)]]; cbn [swp].
  - change (errors_is errConfigMapNotFound _) with true. cbn [negb].
    unfold Create. cbn [prog_bind call swp].
    destruct (api_create KConfigMap (new_cm T ns) s1) as (cm & -> & Hfresh & [Hvw Hoth] & Hm & _);
      [done| |by destruct HT as [-> | ->]|].
    { rewrite Hs. destruct (view s KConfigMap !! _) as [c|] eqn:Hc; [|done].
      destruct (api_keys s KConfigMap _ _ Hc) as [_ []]. destruct HT as [-> | ->]; reflexivity. }
    cbn [swp]. exists cm. rewrite Hvw, lookup_insert_eq. cbn zeta in Hfresh.
    assert (om_Namespace (cm_meta cm) = ns ∧ om_Labels (cm_meta cm) = om_Labels (cm_meta (new_cm T ns))) as [Hns Hl].
    { cbn [obj_meta] in Hm. rewrite Hm. destruct HT as [-> | ->]; split; reflexivity. }
    split_and!; [done..| |].
    + assert (∀ T', selected KConfigMap (ca_list ns T') cm = true → T' = T) as Hnew.
      { intros T' [H1 H2]%selected_ca. eapply (new_cm_selected ns); [done|].
        apply selected_ca. split; [by destruct HT as [-> | ->]|]. by rewrite <-Hl. }
      intros T' k1 k2 c1 c2 [[<- <-]|[_ H1]]%lookup_insert_Some [[<- <-]|[_ H2]]%lookup_insert_Some S1 S2; [done| | |].
      * rewrite Hs in H2. rewrite (Hnew T' S1) in S2. by rewrite (Hnone _ _ H2) in S2.
      * rewrite Hs in H1. rewrite (Hnew T' S2) in S1. by rewrite (Hnone _ _ H1) in S1.
      * rewrite Hs in H1, H2. by eapply Hok.
    + intros k Hk. by rewrite Hoth, Hs.
  - exists cm. apply selected_ca in Hsel as [Hns _]. rewrite Hs. split_and!; try done. by intros k _.
Qed.

Lemma swp_syncConfigMapOwners ns (cm : ConfigMap) owner s :
  view s KConfigMap !! object_key (cm_meta cm) = Some cm → om_Namespace (cm_meta cm) = ns →
  ow_Namespace owner = ns → cm_ok ns (view s KConfigMap) →
  swp (syncConfigMapOwners cm owner)
    (λ o s', o = Done (Ok tt) ∧ cm_ok ns (view s' KConfigMap) ∧ same_but KConfigMap s s') s.
Proof using AS.
  intros Hcm Hns Ho Hok. unfold syncConfigMapOwners, SetOwnerReference, validateOwner. rewrite Ho, Hns.
  assert (∀ X : Type, ∀ a b c : X, (if bool_decide (ns = "") then a else if bool_decide (ns = "") then b
    else if bool_decide (ns = ns) then a else c) = a) as -> by (intros; repeat case_bool_decide; congruence).
  cbn [lift_result prog_bind swp]. unfold Patch. cbn [prog_bind call swp].
  set (new := mk_cm _ _). destruct (api_patch KConfigMap new cm s) as (o' & -> & [Hv Hoth] & Hm & Hn & _).
  { exact Hcm. } { by eexists. }
  cbn [swp]. split_and!; [done| |exact Hoth]. rewrite Hv.
  assert (∀ T, selected KConfigMap (ca_list ns T) o' = selected KConfigMap (ca_list ns T) cm) as Hsel.
  { intros T. apply eq_true_iff_eq. rewrite !selected_ca. cbn [obj_meta] in Hm. by rewrite Hm. }
  intros T k1 k2 c1 c2 [[<- <-]|[_ H1]]%lookup_insert_Some [[<- <-]|[_ H2]]%lookup_insert_Some S1 S2;
    rewrite ?Hsel in *; [done|by eapply (Hok T)..].
Qed.

Lemma swp_ca_Sync ns owner s :
  ow_Namespace owner = ns → cm_ok ns (view s KConfigMap) →
  valid KConfigMap (new_cluster_cm ns) → valid KConfigMap (new_service_cm ns) →
  swp (ca_Sync ns owner)
    (λ o s', o = Done (Ok tt) ∧ cm_ok ns (view s' KConfigMap) ∧ same_but KConfigMap s s') s.
Proof using AS.
  intros Ho Hok Hv1 Hv2. unfold ca_Sync.
  apply swp_bind. eapply swp_mono; [apply (swp_getOrCreate ns clusterCAType); auto|].
  intros o s1 (cm & -> & Hcm & Hns & Hok1 & Hs1). cbn [swp].
  apply swp_bind. eapply swp_mono; [by apply swp_syncConfigMapOwners|].
  intros o s2 (-> & Hok2 & Hs2). cbn [swp].
  apply swp_bind. eapply swp_mono; [apply (swp_getOrCreate ns serviceCAType); auto|].
  intros o s3 (cm3 & -> & Hcm3 & Hns3 & Hok3 & Hs3). cbn [swp].
  apply swp_bind. eapply swp_mono; [by apply swp_syncConfigMapOwners|].
  intros o s4 (-> & Hok4 & Hs4). cbn [swp]. split_and!; [done..|].
  intros k Hk. by rewrite Hs4, Hs3, Hs2, Hs1.
Qed.

(** ** Metrics, and signing Jobs that are done *)

Lemma swp_metrics s : swp setKMMOMetrics (λ o s', o = Done tt ∧ same s s') s.
Proof using AS.
  apply swp_same; [apply reads_setKMMOMetrics|]. unfold setKMMOMetrics, List_. cbn [prog_bind call swp].
  destruct (api_list KModule list_all s) as (l & -> & _). generalize (srv (RList KModule list_all) s).2. intros s1.
  apply swp_bind. eapply (swp_mono _ _ (λ o _, o = Done tt)).
  - clear s. revert s1. generalize l. clear l. intros l. induction l as [|m l IH]; intros s; [done|].
    cbn [set_all_modprobe_metrics]. apply swp_bind. eapply (swp_mono _ _ (λ o _, o = Done tt)); [|by intros ? ? ->].
    unfold set_modprobe_metrics. apply swp_bind.
    destruct (Args (mlc_Modprobe (mod_container m))), (RawArgs (mlc_Modprobe (mod_container m)));
      cbn; repeat match goal with |- context [(srv ?q ?t).1] => destruct (srv q t) as [[] ?]; cbn end; done.
  - intros ? s2 ->. cbn.
    repeat match goal with |- context [(srv ?q ?t).1] => destruct (srv q t) as [[] ?]; cbn end. done.
Qed.

Lemma swp_sign_GC name ns owner s :
  swp (sign_GarbageCollect name ns owner) (λ o s', (∃ l, o = Done (Ok l)) ∧ same_but KJob s s') s.
Proof using AS.
  unfold sign_GarbageCollect, GetModuleJobs, getJobs, List_. cbn [prog_bind call swp].
  set (opts := mk_listopts _ _).
  destruct (api_list KJob opts s) as (l & -> & Hnd & Hl). cbn [swp prog_bind].
  assert (same s (srv (RList KJob opts) s).2) as Hs by by apply same_read.
  set (jobs := filterJobsByOwner l owner). apply swp_bind.
  eapply (swp_range_loop _ _ _ (λ done _ s', same_but KJob s s' ∧
    ∀ job, job ∈ jobs → job ∉ done → view s' KJob !! object_key (job_meta job) = Some job)).
  - split; [by intros k _|]. intros job Hj _. rewrite Hs. apply Hl.
    by apply list_elem_of_In, List.filter_In, proj1, list_elem_of_In in Hj.
  - intros done x rest st s1 Hjobs [Hb Hv]. case_bool_decide; [|cbn; eexists; split; [done|]; set_solver].
    assert (NoDup (object_key ∘ job_meta <$> jobs)) as Hnd'.
    { by apply NoDup_fmap_filter. }
    rewrite Hjobs, fmap_app, fmap_cons in Hnd'. apply NoDup_app in Hnd' as (_ & Hdisj & [Hni _]%NoDup_cons).
    assert (x ∉ done) as Hx. { intros Hin. apply (Hdisj (object_key (job_meta x))); [|left]. by apply (list_elem_of_fmap_2 (object_key ∘ job_meta)). }
    unfold DeleteJob, Delete. cbn [prog_bind call swp].
    destruct (api_delete KJob x true s1) as (-> & Ho & Hk & _); [apply Hv; [rewrite Hjobs; set_solver|done]|].
    cbn [swp]. eexists. split; [done|]. split; [intros k Hne; by rewrite Ho, Hb|].
    intros job Hj Hnj. rewrite Hk; [apply Hv; [done|set_solver]|]. intros Heq.
    rewrite Hjobs in Hj. apply elem_of_app in Hj as [Hj|[->|Hj]%elem_of_cons]; [set_solver..|].
    apply Hni, list_elem_of_fmap. by exists job.
  - intros st s1 [Hb _]. cbn [swp]. split; [by eexists|done].
Qed.

(** ** DaemonSets *)

(** The mutations of the two creators: labels, owner and spec. *)
Definition mutates (f : DaemonSet → result DaemonSet) (owner : Owner) (labels : strmap)
    (spec : DaemonSetSpec) : Prop :=
  ∀ ds, f ds =
    (meta' ← SetControllerReference owner
               (set_labels (Some (OverrideLabels (om_Labels (ds_meta ds)) labels)) (ds_meta ds));
     Ok (mk_ds meta' spec (ds_NumberAvailable ds))).

Lemma mutates_driver label mld sa :
  mld_ContainerImage mld ≠ "" → mld_KernelVersion mld ≠ "" →
  mutates (λ ds, SetDriverContainerAsDesired label (Some ds) mld sa) (mld_Owner mld)
    (driver_labels label mld) (driver_spec label mld sa).
Proof. intros Hi Hk ds. unfold SetDriverContainerAsDesired. by rewrite !bool_decide_false. Qed.

Lemma mutates_device_plugin m dp sa :
  DevicePlugin (mod_Spec m) = Some dp →
  mutates (λ ds, SetDevicePluginAsDesired (Some ds) m sa) (as_owner m)
    (device_plugin_labels m) (device_plugin_spec m dp sa).
Proof. intros Hdp ds. unfold SetDevicePluginAsDesired. by rewrite Hdp. Qed.

(** A DaemonSet as it is wanted: the labels among its labels, the owner its
    only owner, the spec with its defaults. *)
Definition desired (owner : Owner) (labels : strmap) (spec : DaemonSetSpec) (ds : DaemonSet) : Prop :=
  (∃ l, om_Labels (ds_meta ds) = Some l ∧ labels ⊆ l) ∧
  om_OwnerReferences (ds_meta ds) = [owner_ref owner true] ∧
  ds_Spec ds = default_spec spec.

Lemma OverrideLabels_subseteq labels l : labels ⊆ OverrideLabels l labels.
Proof. apply map_union_subseteq_l. Qed.
Lemma OverrideLabels_id labels l : labels ⊆ l → OverrideLabels (Some l) labels = l.
Proof. intros H. by apply map_subseteq_union. Qed.

Lemma set_labels_id m : set_labels (om_Labels m) m = m.
Proof. by destruct m. Qed.

Section mutation.
Context {f : DaemonSet → result DaemonSet} {owner : Owner} {labels : strmap} {spec : DaemonSetSpec}.
Context (Hf : mutates f owner labels spec) (Hgroup : isSome (parse_group (ow_APIVersion owner)) = true).

(** Of an object that the owner controls already, only the labels and the
    spec change. *)
Lemma mutates_owned ds :
  om_OwnerReferences (ds_meta ds) = [owner_ref owner true] →
  om_Namespace (ds_meta ds) = ow_Namespace owner →
  f ds = Ok (mk_ds (set_labels (Some (OverrideLabels (om_Labels (ds_meta ds)) labels)) (ds_meta ds))
               spec (ds_NumberAvailable ds)).
Proof using Hf Hgroup.
  intros Ho Hns. rewrite Hf. destruct ds as [[n g ns u l a r fi d ge] sp av]. cbn in *. subst r ns.
  unfold SetControllerReference, validateOwner. cbn.
  assert (∀ X : Type, ∀ a b c : X, (if bool_decide (ow_Namespace owner = "") then a
    else if bool_decide (ow_Namespace owner = "") then b
    else if bool_decide (ow_Namespace owner = ow_Namespace owner) then a else c) = a) as ->
    by (intros; repeat case_bool_decide; congruence).
  cbn. unfold upsertOwnerRef, set_owners. cbn.
  assert (referSameObject (owner_ref owner true) (owner_ref owner true) = true) as ->; [|done].
  unfold referSameObject. cbn. destruct (parse_group _); [|done]. by rewrite !bool_decide_true.
Qed.

(** A new object gets them all. *)
Lemma mutates_new m sp av :
  om_OwnerReferences m = [] → om_Namespace m = ow_Namespace owner →
  f (mk_ds m sp av) =
    Ok (mk_ds (set_owners [owner_ref owner true] (set_labels (Some (OverrideLabels (om_Labels m) labels)) m))
          spec av).
Proof using Hf.
  intros Ho Hns. rewrite Hf. cbn. rewrite SetControllerReference_fresh; [done|done|]. by right.
Qed.

(** What is kept of a DaemonSet. *)
Definition ds_kept (b ds : DaemonSet) : Prop :=
  object_key (ds_meta ds) = object_key (ds_meta b) ∧
  om_Labels (ds_meta ds) = Some (OverrideLabels (om_Labels (ds_meta b)) labels) ∧
  om_Finalizers (ds_meta ds) = om_Finalizers (ds_meta b) ∧ ds_NumberAvailable ds = ds_NumberAvailable b.

Lemma swp_CreateOrPatch_existing (o b : DaemonSet) s :
  view s KDaemonSet !! object_key (ds_meta o) = Some b →
  om_OwnerReferences (ds_meta b) = [owner_ref owner true] →
  om_Namespace (ds_meta b) = ow_Namespace owner →
  dss_Selector (ds_Spec b) = dss_Selector spec →
  (∀ ds', f b = Ok ds' → valid KDaemonSet ds') →
  swp (CreateOrPatch KDaemonSet o f)
    (λ out s', ∃ op ds', out = Done (Ok (op, ds')) ∧
       writes_view view KDaemonSet s s' (<[object_key (ds_meta o) := ds']> (view s KDaemonSet)) ∧
       desired owner labels spec ds' ∧ ds_kept b ds' ∧ (desired owner labels spec b → ds' = b)) s.
Proof using Type*.
  intros Hb Ho Hns Hsel Hvalid. unfold CreateOrPatch, Get. cbn [prog_bind call swp].
  assert (same s (srv (RGet KDaemonSet (object_key (ds_meta o))) s).2) as Hs by by apply same_read.
  cbn [obj_meta]. set (key := object_key (ds_meta o)) in *. pose proof (api_get_Some KDaemonSet key s b Hb) as Hget. rewrite Hget.
  generalize dependent ((srv (RGet KDaemonSet key) s).2). intros s1 Hs.
  destruct (api_keys s KDaemonSet _ _ Hb) as [Hkey _]. cbn [obj_meta] in Hkey.
  pose proof (api_defaulted s _ _ Hb) as Hdef.
  unfold CreateOrPatch_with. cbn [obj_meta]. fold key.
  pose proof (mutates_owned b Ho Hns) as Hfb. set (after := mk_ds _ _ _) in Hfb.
  assert (object_key (ds_meta after) = key) as Hak by (rewrite <-Hkey; done).
  unfold mutate. rewrite Hfb. cbn [obj_meta]. rewrite bool_decide_true by exact Hak. cbn [lift_result prog_bind].
  assert (status_eqb (k := KDaemonSet) b after = true) as Hst by by apply bool_decide_true.
  assert (desired owner labels spec b → ds_meta after = ds_meta b) as Hmeta.
  { intros ((l & Hl & Hsub) & _). cbn. rewrite Hl, OverrideLabels_id by done.
    rewrite <-Hl. apply set_labels_id. }
  apply swp_bind. destruct (body_eqb (k := KDaemonSet) b after) eqn:Hbody.
  - apply andb_prop in Hbody as [Hm%bool_decide_eq_true Hsp%bool_decide_eq_true].
    assert (after = b) as Hab by (subst after; cbn in *; destruct b; cbn in *; by rewrite <-Hm, <-Hsp).
    cbn [swp]. rewrite Hst. cbn [swp]. exists OpNone, b. rewrite Hab. split_and!; [done| | | |done].
    + split; [|intros k _; apply Hs]. rewrite insert_id by done. apply Hs.
    + split_and!; [eexists; split; [exact (f_equal om_Labels Hm)|apply OverrideLabels_subseteq]|done|].
      trans (default_spec (ds_Spec b)); [done|]. by rewrite Hsp.
    + split_and!; try done. exact (f_equal om_Labels Hm).
  - unfold Patch. cbn [prog_bind call swp].
    destruct (api_patch KDaemonSet after b s1) as (ds' & -> & [Hv Hoth] & Hm & Hn & Hu & Hstored & Havail & Hnoop).
    { rewrite Hs. cbn [obj_meta]. by rewrite Hak. }
    { split; [by apply Hvalid|]. split; [done|]. by eexists. }
    cbn [swp]. rewrite Hst. cbn [swp]. exists OpUpdated, ds'. cbn [obj_meta] in *. rewrite Hak in Hv.
    cbn [stored patch_effect] in *.
    split_and!; [done| | | |].
    + split; [by rewrite Hv, Hs|]. intros k Hk. by rewrite Hoth, Hs.
    + split_and!; [|by rewrite Hm|done].
      eexists. split; [by rewrite Hm|apply OverrideLabels_subseteq].
    + split_and!; [|by rewrite Hm..|done]. unfold object_key. rewrite Hn. by rewrite Hm.
    + intros Hd. apply Hnoop; [by apply Hmeta|]. by destruct Hd as (_ & _ & ->).
Qed.

Lemma swp_CreateOrPatch_new (o : DaemonSet) s :
  view s KDaemonSet !! object_key (ds_meta o) = None →
  (om_Name (ds_meta o) = "" → om_GenerateName (ds_meta o) ≠ "") →
  om_OwnerReferences (ds_meta o) = [] → om_Namespace (ds_meta o) = ow_Namespace owner →
  (∀ ds', f o = Ok ds' → valid KDaemonSet ds') →
  swp (CreateOrPatch KDaemonSet o f)
    (λ out s', ∃ ds' : DaemonSet, out = Done (Ok (OpCreated, ds')) ∧
       view s KDaemonSet !! object_key (ds_meta ds') = None ∧
       writes_view view KDaemonSet s s' (<[object_key (ds_meta ds') := ds']> (view s KDaemonSet)) ∧
       desired owner labels spec ds' ∧ named (ds_meta o) (ds_meta ds') ∧
       om_Namespace (ds_meta ds') = om_Namespace (ds_meta o) ∧
       om_Labels (ds_meta ds') = Some (OverrideLabels (om_Labels (ds_meta o)) labels) ∧
       om_Finalizers (ds_meta ds') = om_Finalizers (ds_meta o)) s.
Proof using Type*.
  intros Hnone Hgen Ho Hns Hvalid. unfold CreateOrPatch, Get. cbn [prog_bind call swp].
  assert (same s (srv (RGet KDaemonSet (object_key (ds_meta o))) s).2) as Hs by by apply same_read.
  cbn [obj_meta]. set (key := object_key (ds_meta o)) in *.
  destruct (api_get_None KDaemonSet key s Hnone) as (err & -> & Herr).
  generalize dependent ((srv (RGet KDaemonSet key) s).2). intros s1 Hs.
  unfold CreateOrPatch_with. cbn [obj_meta]. fold key. rewrite Herr. cbn [negb].
  destruct o as [om sp av]. cbn [ds_meta] in *.
  pose proof (mutates_new om sp av Ho Hns) as Hfo. set (new := mk_ds (set_owners _ _) _ _) in Hfo.
  unfold mutate. rewrite Hfo. cbn [obj_meta]. rewrite bool_decide_true by done. cbn [lift_result prog_bind].
  unfold Create. cbn [prog_bind call swp].
  destruct (api_create KDaemonSet new s1) as (ds' & -> & Hfresh & [Hv Hoth] & Hm & Hn & Hstored);
    [by apply Hvalid|rewrite Hs; exact Hnone|done|].
  cbn [swp obj_meta stored] in *. rewrite Hs in Hfresh, Hv. exists ds'. split_and!; try done.
  - split; [done|]. intros k Hk. by rewrite Hoth, Hs.
  - split_and!; [|by rewrite Hm|done]. eexists. split; [by rewrite Hm|apply OverrideLabels_subseteq].
  - by rewrite Hm.
  - by rewrite Hm.
  - by rewrite Hm.
Qed.
End mutation.
End runs.
