(* ===== verification/ApiMemory.v ===== *)
(** * An API server in memory

    A server that keeps the laws of [ApiServer]: a map of objects per kind.  It
    shows that the laws can hold together, and runs the examples.  It accepts
    DaemonSets, ConfigMaps and ManifestWorks, fills in the restart policy of a DaemonSet, and
    generates names that are longer than every name there is. *)

From S2P Require Import Prelude Prog K8s Api Client ApiServer.
From stdpp Require Import options.

Local Open Scope go_scope.

(** ** States *)

Definition state : Type := ∀ k, gmap NamespacedName (obj k).
Definition empty_state : state := λ _, ∅.

Definition upd (k : kind) (v : gmap NamespacedName (obj k)) (s : state) : state := λ k',
  match decide (k = k') with
  | left e => eq_rect k (λ k, gmap NamespacedName (obj k)) v k' e
  | right _ => s k'
  end.

Lemma upd_same k v s : upd k v s k = v.
Proof. unfold upd. destruct (decide (k = k)) as [e|]; [|done]. by rewrite (proof_irrel e eq_refl). Qed.
Lemma upd_other k v s k' : k' ≠ k → upd k v s k' = s k'.
Proof. intros Hk. unfold upd. by destruct (decide (k = k')) as [->|]. Qed.

(** The default of the restart policy. *)
Definition default_template (t : PodTemplateSpec) : PodTemplateSpec :=
  let p := pt_spec t in
  mk_podtemplate (pt_meta t)
    (mk_podspec (ps_Containers p) (ps_ImagePullSecrets p) (ps_NodeSelector p) (ps_PriorityClassName p)
       (ps_ServiceAccountName p) (if bool_decide (ps_RestartPolicy p = "") then "Always" else ps_RestartPolicy p)
       (ps_Volumes p)).
Definition default_spec (sp : DaemonSetSpec) : DaemonSetSpec :=
  mk_dsspec (dss_Selector sp) (default_template (dss_Template sp)).

Lemma default_spec_idemp sp : default_spec (default_spec sp) = default_spec sp.
Proof. unfold default_spec, default_template. cbn. by repeat case_bool_decide. Qed.
Lemma default_spec_selector sp : dss_Selector (default_spec sp) = dss_Selector sp.
Proof. done. Qed.

(** ** What is stored *)

Definition defaulted (k : kind) : obj k → bool :=
  match k with
  | KDaemonSet => λ ds : DaemonSet, bool_decide (default_spec (ds_Spec ds) = ds_Spec ds)
  | _ => λ _, true
  end.

(** An object is at its own key, has a name and its defaults. *)
Definition proper (k : kind) (p : NamespacedName * obj k) : Prop :=
  bool_decide (object_key (obj_meta k p.2) = p.1) && negb (bool_decide (nn_Name p.1 = ""))
    && defaulted k p.2 = true.

#[export] Instance proper_dec k p : Decision (proper k p).
Proof. unfold proper. apply _. Defined.

Definition view (s : state) (k : kind) : gmap NamespacedName (obj k) := filter (proper k) (s k).

Lemma view_Some s k key o : view s k !! key = Some o → proper k (key, o).
Proof. by intros [_ ?]%map_lookup_filter_Some. Qed.

(** A state of proper objects only. *)
Lemma view_id k (v : gmap NamespacedName (obj k)) s :
  s k = v → map_Forall (λ key o, proper k (key, o)) v → view s k = v.
Proof. intros <- Hp. apply map_filter_id. exact Hp. Qed.

Lemma view_upd_insert k key o s :
  proper k (key, o) → view (upd k (<[key := o]> (view s k)) s) k = <[key := o]> (view s k).
Proof.
  intros Hp. unfold view at 1. rewrite upd_same. rewrite map_filter_insert_True by done.
  f_equal. unfold view. rewrite map_filter_filter. apply map_filter_ext. intros i x _. tauto.
Qed.
Lemma view_upd_delete k key s : view (upd k (delete key (view s k)) s) k = delete key (view s k).
Proof.
  unfold view at 1. rewrite upd_same, map_filter_delete. f_equal. unfold view.
  rewrite map_filter_filter. apply map_filter_ext. intros i x _. tauto.
Qed.
Lemma view_upd_other k v s k' : k' ≠ k → view (upd k v s) k' = view s k'.
Proof. intros Hk. unfold view. by rewrite upd_other. Qed.

(** ** The server *)

Definition set_server_name (name : string) (m : ObjectMeta) : ObjectMeta :=
  mk_meta name (om_GenerateName m) (om_Namespace m) (om_UID m) (om_Labels m) (om_Annotations m)
    (om_OwnerReferences m) (om_Finalizers m) (om_DeletionTimestamp m) (om_Generation m).

(** A suffix longer than every name. *)
Fixpoint xs (n : nat) : string := match n with O => "x" | Datatypes.S n => "x" +:+ xs n end.
Definition suffix {A} (v : gmap NamespacedName A) : string :=
  xs (foldr Nat.max 0 ((λ p : NamespacedName * A, String.length (nn_Name p.1)) <$> map_to_list v)).

Definition admitted_name {A} (v : gmap NamespacedName A) (m : ObjectMeta) : string :=
  if bool_decide (om_Name m = "") then String.substring 0 58 (om_GenerateName m) +:+ suffix v else om_Name m.

(** A new object, and one that is patched. *)
Definition admission (k : kind) (v : gmap NamespacedName (obj k)) : obj k → obj k :=
  match k return gmap NamespacedName (obj k) → obj k → obj k with
  | KDaemonSet => λ v (ds : DaemonSet),
      mk_ds (set_server_name (admitted_name v (ds_meta ds)) (ds_meta ds)) (default_spec (ds_Spec ds))
        (ds_NumberAvailable ds)
  | KConfigMap => λ v (cm : ConfigMap),
      mk_cm (set_server_name (admitted_name v (cm_meta cm)) (cm_meta cm)) (cm_Data cm)
  | KManifestWork => λ v (mw : ManifestWork),
      mk_mw (set_server_name (admitted_name v (mw_meta mw)) (mw_meta mw)) (mw_Spec mw) (mw_Conditions mw)
  | _ => λ _ o, o
  end v.
Definition accept_patch (k : kind) : obj k → obj k → obj k :=
  match k with
  | KDaemonSet => λ b ds : DaemonSet, mk_ds (ds_meta ds) (default_spec (ds_Spec ds)) (ds_NumberAvailable b)
  | KManifestWork => λ b mw : ManifestWork, mk_mw (mw_meta mw) (mw_Spec mw) (mw_Conditions b)
  | _ => λ _ o, o
  end.
Definition accept_status (k : kind) : obj k → obj k → obj k :=
  match k with
  | KModule => λ b m : Module_, mk_module (mod_meta b) (mod_Spec b) (mod_Status m)
  | KManagedClusterModule => λ b m : ManagedClusterModule, mk_mcm (mcm_meta b) (mcm_Spec b) (mcm_Status m)
  | _ => λ _ o, o
  end.

Definition valid (k : kind) (o : obj k) : Prop := k = KDaemonSet ∨ k = KConfigMap ∨ k = KManifestWork.

Definition put (k : kind) (o : obj k) (s : state) : state :=
  upd k (<[object_key (obj_meta k o) := o]> (view s k)) s.

(** The images that exist have a manifest, and every service account a
    keychain. *)
Definition memory_server (image_exists : string → bool) : kserver state := λ q s,
  match q return ans q * state with
  | RGet k key => (match view s k !! key with Some o => Ok o | None => Err NotFoundError end, s)
  | RList k opts => (Ok (List.filter (selected k opts) (map_to_list (view s k)).*2), s)
  | RCreate k o => let o' := admission k (view s k) o in (Ok o', put k o' s)
  | RPatch k o b => let o' := accept_patch k b o in (Ok o', put k o' s)
  | RDelete k o _ =>
      (Ok tt, if is_nil (om_Finalizers (obj_meta k o))
              then upd k (delete (object_key (obj_meta k o)) (view s k)) s else s)
  | RStatusPatch k o b =>
      match view s k !! object_key (obj_meta k o) with
      | Some b0 => let o' := accept_status k b0 o in (Ok o', put k o' s)
      | None => (Err NotFoundError, s)
      end
  | RStatusUpdate k o => (Ok o, put k o s)
  | RKeychainFromSA _ _ => (Ok "", s)
  | RManifest image _ => (if image_exists image then Ok "{}" else Err NotFoundError, s)
  | q => (deny q, s)
  end.

Lemma xs_length n : n < String.length (xs n).
Proof.
  induction n as [|n IH]; [apply le_n|]. change (Datatypes.S n < Datatypes.S (String.length (xs n))). lia.
Qed.

Lemma xs_no_dash n : no_dash (xs n).
Proof.
  induction n as [|n IH]; intros a b H.
  - destruct a as [|c a]; [discriminate|]. injection H as _ H. by destruct a.
  - destruct a as [|c a]; [discriminate|]. injection H as _ H. by apply (IH a b).
Qed.

Lemma suffix_fresh {A} (v : gmap NamespacedName A) p ns : v !! NN ns (p +:+ suffix v) = None.
Proof.
  destruct (v !! _) as [x|] eqn:Hx; [|done]. exfalso.
  apply elem_of_map_to_list, (list_elem_of_fmap_2 (λ p : NamespacedName * A, String.length (nn_Name p.1))) in Hx.
  cbn in Hx. revert Hx. rewrite str_length_app. unfold suffix.
  set (l := _ <$> map_to_list v). intros Hx.
  assert (∀ n, n ∈ l → n ≤ foldr Nat.max 0 l) as Hmax.
  { generalize l. intros l'. induction l' as [|y l' IH]; intros n; [by intros []%not_elem_of_nil|].
    intros [->|Hn]%elem_of_cons; cbn; [lia|]. apply IH in Hn. lia. }
  apply Hmax in Hx. pose proof (xs_length (foldr Nat.max 0 l)). lia.
Qed.

Lemma admitted_named {A} (v : gmap NamespacedName A) m :
  named m (set_server_name (admitted_name v m) m).
Proof.
  unfold named, admitted_name. cbn. case_bool_decide; [|done]. eexists. split; [|done]. apply xs_no_dash.
Qed.

Lemma admitted_fresh {A} (v : gmap NamespacedName A) m :
  v !! object_key m = None → v !! object_key (set_server_name (admitted_name v m) m) = None.
Proof.
  unfold admitted_name. case_bool_decide as Hn; [intros _; apply suffix_fresh|].
  by destruct m.
Qed.

(** ** The laws *)

Lemma proper_of k (o : obj k) :
  nn_Name (object_key (obj_meta k o)) ≠ "" → defaulted k o = true → proper k (object_key (obj_meta k o), o).
Proof. intros Hn Hd. unfold proper. cbn [fst snd]. by rewrite bool_decide_true, bool_decide_false, Hd. Qed.

Lemma proper_inv k key (o : obj k) :
  proper k (key, o) → object_key (obj_meta k o) = key ∧ nn_Name key ≠ "" ∧ defaulted k o = true.
Proof.
  unfold proper. cbn [fst snd]. rewrite !andb_true_iff, negb_true_iff.
  by intros [[H1%bool_decide_eq_true H2%bool_decide_eq_false] H3].
Qed.

(** Storing an object writes the view. *)
Lemma put_view k o s :
  nn_Name (object_key (obj_meta k o)) ≠ "" → defaulted k o = true →
  writes_view view k s (put k o s) (<[object_key (obj_meta k o) := o]> (view s k)).
Proof.
  intros Hn Hd. split; [by apply view_upd_insert, proper_of|]. intros k' Hk. by apply view_upd_other.
Qed.

Section instance.
Variable image_exists : string → bool.
Abbreviation srv := (memory_server image_exists).

Lemma memory_frame q s k : writes_kind k q = false → view (srv q s).2 k = view s k.
Proof.
  destruct q; try done; cbn [writes_kind]; intros H%bool_decide_eq_false; cbn [memory_server snd];
    try by apply view_upd_other.
  - destruct (is_nil _); [by apply view_upd_other|done].
  - destruct (view s _ !! _); [by apply view_upd_other|done].
Qed.

Lemma memory_list k opts s : ∃ l, (srv (RList k opts) s).1 = Ok l ∧ NoDup (object_key ∘ obj_meta k <$> l) ∧
  ∀ o, o ∈ l ↔ view s k !! object_key (obj_meta k o) = Some o ∧ selected k opts o = true.
Proof.
  eexists. split; [reflexivity|].
  assert (∀ key o, (key, o) ∈ map_to_list (view s k) → object_key (obj_meta k o) = key) as Hkey.
  { intros key o H%elem_of_map_to_list%view_Some. by apply proper_inv in H as [? _]. }
  split.
  - assert (object_key ∘ obj_meta k <$> (map_to_list (view s k)).*2 = (map_to_list (view s k)).*1) as Hfst.
    { rewrite <-list_fmap_compose. apply list_fmap_ext. intros i [key o] H%list_elem_of_lookup_2. exact (Hkey key o H). }
    pose proof (NoDup_fst_map_to_list (view s k)) as Hnd. rewrite <-Hfst in Hnd. revert Hnd.
    generalize ((map_to_list (view s k)).*2). intros l. induction l as [|o l IH]; [done|].
    cbn [List.filter fmap list_fmap]. intros [Hni Hnd]%NoDup_cons. destruct (selected k opts o); [|by apply IH].
    apply NoDup_cons. split; [|by apply IH]. intros (y & Hy & Hin)%list_elem_of_fmap. apply Hni. rewrite Hy.
    apply list_elem_of_fmap_2. by apply list_elem_of_In, List.filter_In, proj1, list_elem_of_In in Hin.
  - intros o. rewrite list_elem_of_In, List.filter_In, <-list_elem_of_In.
    split; (intros [H ?]; split; [|done]).
    + apply list_elem_of_fmap in H as ([key o'] & -> & Hin). cbn. rewrite (Hkey _ _ Hin).
      by apply elem_of_map_to_list.
    + by apply elem_of_map_to_list, (list_elem_of_fmap_2 snd) in H.
Qed.

Lemma memory_create k o s :
  valid k o → view s k !! object_key (obj_meta k o) = None →
  (om_Name (obj_meta k o) = "" → om_GenerateName (obj_meta k o) ≠ "") →
  ∃ o', (srv (RCreate k o) s).1 = Ok o' ∧
    let key := object_key (obj_meta k o') in
    view s k !! key = None ∧ writes_view view k s (srv (RCreate k o) s).2 (<[key := o']> (view s k)) ∧
    kept_meta (obj_meta k o) (obj_meta k o') ∧ named (obj_meta k o) (obj_meta k o') ∧
    stored default_spec k o o'.
Proof.
  intros Hk Hnone Hgen. eexists. split; [reflexivity|]. cbn zeta.
  assert (obj_meta k (admission k (view s k) o) =
          set_server_name (admitted_name (view s k) (obj_meta k o)) (obj_meta k o)) as Hm
    by (by destruct Hk as [-> |[-> | ->]]).
  rewrite Hm. split_and!.
  - by apply admitted_fresh.
  - rewrite <-Hm. apply put_view.
    + rewrite Hm. unfold admitted_name. cbn. case_bool_decide as Hn; [|done].
      intros Heq. apply (f_equal String.length) in Heq. rewrite str_length_app in Heq.
      pose proof (xs_length (foldr Nat.max 0
        ((λ p : NamespacedName * obj k, String.length (nn_Name p.1)) <$> map_to_list (view s k)))) as Hx.
      fold (suffix (view s k)) in Hx. cbn in Heq. lia.
    + destruct Hk as [-> |[-> | ->]]; [|done..]. cbn. by rewrite default_spec_idemp, bool_decide_true.
  - done.
  - apply admitted_named.
  - by destruct Hk as [-> |[-> | ->]].
Qed.

Lemma memory_patch k o b s :
  let key := object_key (obj_meta k o) in
  view s k !! key = Some b → patch_valid valid k b o →
  ∃ o', (srv (RPatch k o b) s).1 = Ok o' ∧
    writes_view view k s (srv (RPatch k o b) s).2 (<[key := o']> (view s k)) ∧
    kept_meta (obj_meta k o) (obj_meta k o') ∧ om_Name (obj_meta k o') = om_Name (obj_meta k o) ∧
    om_UID (obj_meta k o') = om_UID (obj_meta k o) ∧ stored default_spec k o o' ∧
    patch_effect default_spec k b o o'.
Proof.
  cbn zeta. intros Hb Hv. eexists. split; [reflexivity|].
  assert (k = KDaemonSet ∨ k = KConfigMap ∨ k = KManifestWork) as Hk by (destruct k; cbn in Hv; auto; done).
  assert (obj_meta k (accept_patch k b o) = obj_meta k o) as Hm by (by destruct Hk as [-> |[-> | ->]]).
  apply view_Some, proper_inv in Hb as (_ & Hn & _). split_and!.
  - rewrite <-Hm. apply put_view; rewrite ?Hm; [done|]. destruct Hk as [-> |[-> | ->]]; [|done..].
    cbn. by rewrite default_spec_idemp, bool_decide_true.
  - rewrite Hm. by destruct (obj_meta k o).
  - by rewrite Hm.
  - by rewrite Hm.
  - by destruct Hk as [-> |[-> | ->]].
  - destruct Hk as [-> |[-> | ->]]; [|done..]. cbn. split; [done|]. intros -> ->. by destruct b.
Qed.

Lemma memory_delete k o background s :
  let key := object_key (obj_meta k o) in
  let s' := (srv (RDelete k o background) s).2 in
  view s k !! key = Some o →
  (srv (RDelete k o background) s).1 = Ok tt ∧
  (∀ k', k' ≠ k → view s' k' = view s k') ∧
  (∀ key', key' ≠ key → view s' k !! key' = view s k !! key') ∧
  (om_Finalizers (obj_meta k o) = [] → view s' k !! key = None).
Proof.
  cbn. intros Ho. destruct (om_Finalizers (obj_meta k o)) as [|f fs]; cbn [is_nil]; [|done].
  split_and!; [done|intros; by apply view_upd_other|..]; rewrite view_upd_delete.
  - intros key' Hk. by apply lookup_delete_ne.
  - intros _. apply lookup_delete_eq.
Qed.

Lemma memory_status (m b : obj KModule) s :
  let key := object_key (mod_meta m) in
  view s KModule !! key = Some b →
  let m' := mk_module (mod_meta b) (mod_Spec b) (mod_Status m) in
  (srv (RStatusPatch KModule m b) s).1 = Ok m' ∧
  writes_view view KModule s (srv (RStatusPatch KModule m b) s).2 (<[key := m']> (view s KModule)).
Proof.
  cbn zeta. intros Hb. cbn [memory_server obj_meta]. rewrite Hb. split; [done|].
  apply view_Some, proper_inv in Hb as (Hk & Hn & _). rewrite <-Hk.
  apply (put_view KModule (mk_module (mod_meta b) (mod_Spec b) (mod_Status m))); [|done].
  change (nn_Name (object_key (obj_meta KModule b)) ≠ ""). by rewrite Hk.
Qed.

Lemma memory_mcm_status (m b b0 : obj KManagedClusterModule) s :
  let key := object_key (mcm_meta m) in
  view s KManagedClusterModule !! key = Some b0 → mcm_Status b = mcm_Status b0 →
  let m' := mk_mcm (mcm_meta b0) (mcm_Spec b0) (mcm_Status m) in
  (srv (RStatusPatch KManagedClusterModule m b) s).1 = Ok m' ∧
  writes_view view KManagedClusterModule s (srv (RStatusPatch KManagedClusterModule m b) s).2
    (<[key := m']> (view s KManagedClusterModule)).
Proof.
  cbn zeta. intros Hb _. cbn [memory_server obj_meta]. rewrite Hb. split; [done|].
  apply view_Some, proper_inv in Hb as (Hk & Hn & _). rewrite <-Hk.
  apply (put_view KManagedClusterModule (mk_mcm (mcm_meta b0) (mcm_Spec b0) (mcm_Status m))); [|done].
  change (nn_Name (object_key (obj_meta KManagedClusterModule b0)) ≠ ""). by rewrite Hk.
Qed.

#[export] Instance memory_api : ApiServer srv view default_spec valid.
Proof.
  split.
  - apply memory_frame.
  - intros s k key o H%view_Some%proper_inv. tauto.
  - intros s key ds H%view_Some%proper_inv. cbn in H. destruct H as (_ & _ & H). by apply bool_decide_eq_true in H.
  - apply default_spec_selector.
  - intros k key s. cbn. destruct (view s k !! key); [done|]. by exists NotFoundError.
  - apply memory_list.
  - intros k o s Hv Hnone Hgen. by apply memory_create.
  - intros k o b s. apply memory_patch.
  - intros k o background s. apply memory_delete.
  - intros m b s. apply memory_status.
  - intros m b b0 s. apply memory_mcm_status.
Qed.
End instance.
