(* ===== verification/Convergence.v ===== *)
(** * Convergence of the Module controller

    Over an API server that keeps its laws ([ApiServer]), one run of the Module
    controller brings the DaemonSets of a Module to the state the Module asks
    for, and a run on that state changes nothing but the Module's status. *)

From S2P Require Import Prelude Prog K8s Api Client Utils Helpers KernelMapper Auth Registry.
From S2P Require Import DaemonSet CA Managers BuildConfig SignJob ApiServer ApiRuns ApiMemory StatusUpdater Metrics ModuleReconciler Operator.
From stdpp Require Import options.

Local Open Scope go_scope.

(** ** The DaemonSets of a Module *)

Section module.
Variable m : Module_.

Definition module_ds (ds : DaemonSet) : Prop :=
  om_Namespace (ds_meta ds) = mod_Namespace m ∧
  omap_lookup (om_Labels (ds_meta ds)) ModuleNameLabel = Some (mod_Name m).

Definition kernel_labels (k : string) : strmap := <[ KernelLabel := k ]> {[ ModuleNameLabel := mod_Name m ]}.
Definition device_plugin_key : NamespacedName := NN (mod_Namespace m) (mod_Name m +:+ "-device-plugin").
Abbreviation ds_kernel := (ds_kernel KernelLabel).

(** One of them as the controller makes it: controlled by the Module alone,
    with the selector of its kernel or of the device plugin. *)
Definition ds_ok (key : NamespacedName) (ds : DaemonSet) : Prop :=
  om_OwnerReferences (ds_meta ds) = [owner_ref (as_owner m) true] ∧ om_Finalizers (ds_meta ds) = [] ∧
  if bool_decide (ds_kernel ds = "")
  then key = device_plugin_key ∧ dss_Selector (ds_Spec ds) = Some (device_plugin_labels m)
  else key ≠ device_plugin_key ∧ dss_Selector (ds_Spec ds) = Some (kernel_labels (ds_kernel ds)).

(** All of them, one per kernel; and the name of the device plugin's is not
    taken by anything else. *)
Record well_formed (v : gmap NamespacedName DaemonSet) : Prop := {
  wf_ok key ds : v !! key = Some ds → module_ds ds → ds_ok key ds;
  wf_unique k1 k2 d1 d2 : v !! k1 = Some d1 → v !! k2 = Some d2 → module_ds d1 → module_ds d2 →
    ds_kernel d1 = ds_kernel d2 → k1 = k2;
  wf_name ds : v !! device_plugin_key = Some ds → module_ds ds ∧ ds_kernel ds = "" }.

(** What is not the Module's is left alone. *)
Definition others_kept (v v' : gmap NamespacedName DaemonSet) : Prop :=
  ∀ key ds, ¬ module_ds ds → v !! key = Some ds ↔ v' !! key = Some ds.

Lemma others_refl v : others_kept v v.
Proof. by intros key ds. Qed.
Lemma others_trans v1 v2 v3 : others_kept v1 v2 → others_kept v2 v3 → others_kept v1 v3.
Proof. intros H1 H2 key ds Hn. rewrite (H1 key ds Hn). by apply H2. Qed.

Lemma others_insert v key ds :
  module_ds ds → (∀ b, v !! key = Some b → module_ds b) → others_kept v (<[key := ds]> v).
Proof.
  intros Hds Hb key' d Hn. rewrite lookup_insert_Some. split.
  - intros Hd. destruct (decide (key = key')) as [<-|Hne]; [|by right].
    exfalso. apply Hn, Hb, Hd.
  - by intros [[_ <-]|[_ ?]].
Qed.

Lemma well_formed_insert v key ds :
  well_formed v → module_ds ds → ds_ok key ds →
  (∀ key2 d, v !! key2 = Some d → key2 ≠ key → module_ds d → ds_kernel d ≠ ds_kernel ds) →
  well_formed (<[key := ds]> v).
Proof.
  intros [Hok Huni Hname] Hds Hdok Hfresh. split.
  - intros key' d [[<- <-]|[_ H]]%lookup_insert_Some Hd; [done|by apply Hok].
  - intros k1 k2 d1 d2 [[<- <-]|[Hn1 H1]]%lookup_insert_Some [[<- <-]|[Hn2 H2]]%lookup_insert_Some M1 M2 Hk;
      [done| | |by eapply Huni].
    + exfalso. by apply (Hfresh k2 d2).
    + exfalso. by apply (Hfresh k1 d1).
  - intros d [[Hk <-]|[_ H]]%lookup_insert_Some; [|by apply Hname]. split; [done|].
    destruct Hdok as (_ & _ & Hc). case_bool_decide; [done|]. by destruct Hc.
Qed.

Lemma ds_ok_driver key ds : ds_ok key ds → ds_kernel ds ≠ "" →
  key ≠ device_plugin_key ∧ dss_Selector (ds_Spec ds) = Some (kernel_labels (ds_kernel ds)).
Proof. intros (_ & _ & H) Hk. by rewrite bool_decide_false in H. Qed.
End module.

(** The labels and the kernel of what CreateOrPatch makes. *)
Lemma labels_override l L k :
  omap_lookup (Some (OverrideLabels l L)) k = match L !! k with Some v => Some v | None => omap_lookup l k end.
Proof. apply OverrideLabels_lookup. Qed.

Lemma module_ds_labels m l L ds :
  om_Labels (ds_meta ds) = Some (OverrideLabels l L) → L !! ModuleNameLabel = Some (mod_Name m) →
  om_Namespace (ds_meta ds) = mod_Namespace m → module_ds m ds.
Proof. intros Hl HL Hns. split; [done|]. by rewrite Hl, labels_override, HL. Qed.

Lemma kernel_of_labels l L k ds :
  om_Labels (ds_meta ds) = Some (OverrideLabels l L) → L !! KernelLabel = Some k →
  DaemonSet.ds_kernel KernelLabel ds = k.
Proof.
  intros Hl HL. unfold DaemonSet.ds_kernel, omap_get, map_get. by rewrite Hl, OverrideLabels_lookup, HL.
Qed.

Lemma driver_labels_of `{R : Regexp, E : Envsubst} m k mld :
  GetModuleLoaderDataForKernel m k = Ok mld → driver_labels KernelLabel mld = kernel_labels m k.
Proof. by intros (mapping & env & sign & image & _ & _ & _ & _ & ->)%GetModuleLoaderDataForKernel_Ok. Qed.

Lemma mld_name `{R : Regexp, E : Envsubst} m k mld : GetModuleLoaderDataForKernel m k = Ok mld → mld_Name mld = mod_Name m.
Proof. by intros (mapping & env & sign & image & _ & _ & _ & _ & ->)%GetModuleLoaderDataForKernel_Ok. Qed.

Lemma kernel_labels_name m k : kernel_labels m k !! ModuleNameLabel = Some (mod_Name m).
Proof. unfold kernel_labels. rewrite lookup_insert_ne by discriminate. apply lookup_singleton_eq. Qed.
Lemma kernel_labels_kernel m k : kernel_labels m k !! KernelLabel = Some k.
Proof. apply lookup_insert_eq. Qed.

(** A generated name is not the device plugin's, which ends with a dash more. *)
Lemma prefix_rest n s : ∃ r, s = String.substring 0 n s +:+ r.
Proof.
  revert s. induction n as [|n IH]; intros s; [exists s; by destruct s|].
  destruct s as [|c s]; [by exists ""|]. destruct (IH s) as [r Hr]. exists r. exact (f_equal (String c) Hr).
Qed.
Lemma prefix_all n s : String.length s ≤ n → String.substring 0 n s = s.
Proof.
  revert s. induction n as [|n IH]; intros [|c s] H; cbn in *; [done|lia|done|]. by rewrite IH by lia.
Qed.
Lemma prefix_app n s t : n ≤ String.length s → String.substring 0 n (s +:+ t) = String.substring 0 n s.
Proof.
  revert s. induction n as [|n IH]; intros [|c s] H; cbn [String.length] in H; [by destruct t|done|lia|].
  exact (f_equal (String c) (IH s ltac:(lia))).
Qed.

Lemma generated_name_ne n suffix :
  no_dash suffix → String.substring 0 58 (n +:+ "-") +:+ suffix ≠ n +:+ "-device-plugin".
Proof.
  intros Hs Heq. destruct (decide (String.length n ≤ 57)) as [Hle|Hgt].
  - rewrite prefix_all in Heq by (rewrite str_length_app; cbn [String.length]; lia).
    rewrite str_app_assoc in Heq. apply (inj (String.append n)) in Heq.
    apply (Hs "device" "plugin"). by injection Heq.
  - rewrite prefix_app in Heq by lia. destruct (prefix_rest 58 n) as [r Hr].
    rewrite Hr in Heq at 2. rewrite str_app_assoc in Heq. apply (inj (String.append _)) in Heq.
    by apply (Hs r "device-plugin").
Qed.

(** ** One kernel *)

Section convergence.
Context {S : Type} {srv : kserver S} {view : S → ∀ k, gmap NamespacedName (obj k)}.
Context {default_spec : DaemonSetSpec → DaemonSetSpec} {valid : ∀ k, obj k → Prop}.
Context {AS : ApiServer srv view default_spec valid}.
Context {D : ManifestDecoder} {Hs : Hasher} {R : Regexp} {E : Envsubst} {MO : MapOrder}.
Variables (goarch operatorNamespace : string) (m : Module_).

Abbreviation swp := (swp srv).
Abbreviation ds_kernel := (ds_kernel KernelLabel).
Abbreviation BM := (buildconfig_manager goarch).
Abbreviation SM := (signjob_manager goarch).
Abbreviation default_sa := (bool_decide (mod_Namespace m = operatorNamespace)).
Abbreviation desired := (desired (default_spec := default_spec)).
Abbreviation same := (same (view := view)).
Abbreviation same_but := (same_but (view := view)).
Abbreviation writes_view := (writes_view view KDaemonSet).

(** The DaemonSet of a kernel, and of the device plugin, as the Module asks
    for them. *)
Definition wants_driver (mld : ModuleLoaderData) (ds : DaemonSet) : Prop :=
  desired (as_owner m) (driver_labels KernelLabel mld) (driver_spec KernelLabel mld default_sa) ds.
Definition wants_device_plugin (dp : DevicePluginSpec) (ds : DaemonSet) : Prop :=
  desired (as_owner m) (device_plugin_labels m) (device_plugin_spec m dp default_sa) ds.

(** The images of a kernel are there, and its DaemonSet can be made. *)
Record kernel_ready (k : string) (mld : ModuleLoaderData) : Prop := {
  kr_mapping : GetModuleLoaderDataForKernel m k = Ok mld;
  kr_kernel : k ≠ "";
  kr_image : mld_ContainerImage mld ≠ "";
  kr_built s : run_out srv (build_ShouldSync goarch mld) s = Done (Ok false);
  kr_signed s : run_out srv (sign_ShouldSync goarch mld) s = Done (Ok false);
  kr_valid ds0 ds : SetDriverContainerAsDesired KernelLabel (Some ds0) mld default_sa = Ok ds →
    valid KDaemonSet ds }.

Lemma swp_handleBuild k mld s : kernel_ready k mld →
  swp (handleBuild (BM := BM) mld) (λ o s', o = Done (Ok true) ∧ same s s') s.
Proof using AS.
  intros Hr. unfold handleBuild. apply swp_bind. eapply swp_mono.
  - apply (swp_same _ (λ o _, o = Done (Ok false))); [intros h; by eapply wp_mono; [apply wp_bm_ShouldSync|..]|]. apply swp_run, (kr_built k mld Hr).
  - intros o s' [-> Hs']. by split.
Qed.
Lemma swp_handleSigning k mld s : kernel_ready k mld →
  swp (handleSigning (SM := SM) mld) (λ o s', o = Done (Ok true) ∧ same s s') s.
Proof using AS.
  intros Hr. unfold handleSigning. apply swp_bind. eapply swp_mono.
  - apply (swp_same _ (λ o _, o = Done (Ok false))); [intros h; by eapply wp_mono; [apply wp_sm_ShouldSync|..]|]. apply swp_run, (kr_signed k mld Hr).
  - intros o s' [-> Hs']. by split.
Qed.

(** What is left of a DaemonSet of the Module is one of the Module still. *)
Lemma ds_ok_kept L spec key b ds :
  ds_ok m key b → module_ds m b → object_key (ds_meta b) = key →
  desired (as_owner m) L spec ds → ds_kept (labels := L) b ds →
  L !! ModuleNameLabel = Some (mod_Name m) → (∀ k, L !! KernelLabel = Some k → k = ds_kernel b) →
  dss_Selector spec = dss_Selector (ds_Spec b) →
  module_ds m ds ∧ ds_kernel ds = ds_kernel b ∧ ds_ok m key ds.
Proof using AS.
  intros Hok [Hns _] Hkey (_ & Ho & Hsp) (Hkey' & Hl & Hf & _) HL HLk Hsel.
  assert (ds_kernel ds = ds_kernel b) as Hk.
  { unfold DaemonSet.ds_kernel, omap_get, map_get. rewrite Hl, OverrideLabels_lookup.
    destruct (L !! KernelLabel) as [k|] eqn:Hk; [cbn; by apply HLk|]. by destruct (om_Labels (ds_meta b)). }
  split_and!; [|done|].
  - eapply module_ds_labels; [exact Hl|exact HL|]. rewrite <-Hns. by injection Hkey'.
  - destruct Hok as (_ & Hf' & Hc). split; [done|]. split; [by rewrite Hf|].
    rewrite Hk, Hsp, api_selector, Hsel. exact Hc.
Qed.

Lemma swp_handle_kernel_existing k mld dss b s :
  kernel_ready k mld → well_formed m (view s KDaemonSet) → dss !! k = Some b → ds_kernel b = k →
  module_ds m b → view s KDaemonSet !! object_key (ds_meta b) = Some b →
  swp (handle_kernel (BM := BM) (SM := SM) KernelLabel operatorNamespace k mld dss)
    (λ o s', ∃ ds, o = Done (Next (<[k := ds]> dss)) ∧ module_ds m ds ∧ ds_kernel ds = k ∧
       object_key (ds_meta ds) = object_key (ds_meta b) ∧ ds_ok m (object_key (ds_meta b)) ds ∧
       writes_view s s' (<[object_key (ds_meta b) := ds]> (view s KDaemonSet)) ∧
       wants_driver mld ds ∧ (wants_driver mld b → ds = b)) s.
Proof using AS.
  intros Hr Hwf Hk Hbk Hmod Hb. pose proof (kr_mapping k mld Hr) as Hm.
  pose proof (wf_ok m _ Hwf _ _ Hb Hmod) as Hok. pose proof (kr_kernel k mld Hr) as Hne.
  unfold handle_kernel.
  apply swp_bind. eapply swp_mono; [by eapply swp_handleBuild|]. intros o s1 [-> Hs1]. cbn [negb].
  apply swp_bind. eapply swp_mono; [by eapply swp_handleSigning|]. intros o s2 [-> Hs2]. cbn [negb].
  unfold handleDriverContainer. rewrite (mld_kernel m k mld Hm), Hk, (mld_namespace m k mld Hm).
  pose proof (mutates_driver KernelLabel mld default_sa (kr_image k mld Hr)) as Hmut.
  rewrite (mld_kernel m k mld Hm), (mld_owner m k mld Hm) in Hmut. specialize (Hmut Hne).
  assert (view s2 KDaemonSet = view s KDaemonSet) as Hv2 by (by rewrite Hs2, Hs1).
  destruct (ds_ok_driver m _ _ Hok) as [Hkey Hsel]; [by rewrite Hbk|].
  apply swp_bind, swp_bind. eapply swp_mono.
  { eapply (swp_CreateOrPatch_existing Hmut eq_refl b b).
    - rewrite Hv2. exact Hb.
    - apply Hok.
    - apply Hmod.
    - rewrite Hsel, Hbk. by rewrite <-(driver_labels_of m k mld Hm).
    - apply (kr_valid k mld Hr). }
  intros o s3 (op & ds & -> & [Hw Hoth] & Hd & Hkept & Hid). cbn [swp snd isSome].
  destruct (ds_ok_kept _ _ (object_key (ds_meta b)) b ds Hok Hmod eq_refl Hd Hkept) as (Hmod' & Hk' & Hok').
  { rewrite (driver_labels_of m k mld Hm). apply kernel_labels_name. }
  { intros k'. rewrite (driver_labels_of m k mld Hm), kernel_labels_kernel, Hbk. by intros [= <-]. }
  { rewrite Hsel, Hbk. by rewrite <-(driver_labels_of m k mld Hm). }
  exists ds. split_and!; try done.
  - by rewrite Hk'.
  - by destruct Hkept.
  - split; [by rewrite Hw, Hv2|]. intros k' Hk''. by rewrite Hoth, Hs2, Hs1.
Qed.

Lemma swp_handle_kernel_new k mld dss s :
  kernel_ready k mld → well_formed m (view s KDaemonSet) → dss !! k = None →
  swp (handle_kernel (BM := BM) (SM := SM) KernelLabel operatorNamespace k mld dss)
    (λ o s', ∃ ds, o = Done (Next dss) ∧ module_ds m ds ∧ ds_kernel ds = k ∧
       view s KDaemonSet !! object_key (ds_meta ds) = None ∧ ds_ok m (object_key (ds_meta ds)) ds ∧
       writes_view s s' (<[object_key (ds_meta ds) := ds]> (view s KDaemonSet)) ∧ wants_driver mld ds) s.
Proof using AS.
  intros Hr Hwf Hk. pose proof (kr_mapping k mld Hr) as Hm. pose proof (kr_kernel k mld Hr) as Hne.
  unfold handle_kernel.
  apply swp_bind. eapply swp_mono; [by eapply swp_handleBuild|]. intros o s1 [-> Hs1]. cbn [negb].
  apply swp_bind. eapply swp_mono; [by eapply swp_handleSigning|]. intros o s2 [-> Hs2]. cbn [negb].
  unfold handleDriverContainer.
  rewrite (mld_kernel m k mld Hm), Hk, (mld_namespace m k mld Hm), (mld_name m k mld Hm).
  pose proof (mutates_driver KernelLabel mld default_sa (kr_image k mld Hr)) as Hmut.
  rewrite (mld_kernel m k mld Hm), (mld_owner m k mld Hm) in Hmut. specialize (Hmut Hne).
  assert (view s2 KDaemonSet = view s KDaemonSet) as Hv2 by (by rewrite Hs2, Hs1).
  set (new := new_daemonset _).
  apply swp_bind, swp_bind. eapply swp_mono.
  { eapply (swp_CreateOrPatch_new Hmut eq_refl new).
    - destruct (view s2 KDaemonSet !! _) as [d|] eqn:Hd; [|done].
      by destruct (api_keys s2 KDaemonSet _ _ Hd) as [_ []].
    - intros _ Hg. apply (f_equal String.length) in Hg. cbn in Hg. rewrite str_length_app in Hg. cbn in Hg. lia.
    - done.
    - done.
    - apply (kr_valid k mld Hr). }
  intros o s3 (ds & -> & Hfresh & [Hw Hoth] & Hd & Hn & Hns & Hl & Hf). cbn [swp snd isSome].
  rewrite (driver_labels_of m k mld Hm) in Hl.
  assert (ds_kernel ds = k) as Hkd by (eapply kernel_of_labels; [exact Hl|apply kernel_labels_kernel]).
  exists ds. rewrite Hv2 in Hfresh, Hw. split_and!; try done.
  - eapply module_ds_labels; [exact Hl|apply kernel_labels_name|exact Hns].
  - destruct Hd as (_ & Ho & Hsp). split; [done|]. split; [done|].
    rewrite Hkd, bool_decide_false by done. split.
    + intros [= _ Hname]. unfold named in Hn. cbn in Hn. destruct Hn as (suffix & Hdash & Hname').
      rewrite Hname' in Hname. by apply generated_name_ne in Hname.
    + rewrite Hsp, api_selector. by rewrite <-(driver_labels_of m k mld Hm).
  - split; [done|]. intros k' Hk''. by rewrite Hoth, Hs2, Hs1.
Qed.

(** ** All kernels *)

Record kernels_inv (s0 : S) (handled : list (string * ModuleLoaderData)) (dss : gmap string DaemonSet)
    (s : S) : Prop := {
  ki_others : same_but KDaemonSet s0 s ∧ others_kept m (view s0 KDaemonSet) (view s KDaemonSet);
  ki_wf : well_formed m (view s KDaemonSet);
  (** the map of the controller is up to date, *)
  ki_tracks k ds : dss !! k = Some ds →
    view s KDaemonSet !! object_key (ds_meta ds) = Some ds ∧ module_ds m ds ∧ ds_kernel ds = k;
  (** and misses what it just created *)
  ki_covers key ds : view s KDaemonSet !! key = Some ds → module_ds m ds →
    dss !! ds_kernel ds = Some ds ∨ dss !! ds_kernel ds = None ∧ ds_kernel ds ∈ handled.*1;
  ki_handled k mld : (k, mld) ∈ handled → ∃ key ds, view s KDaemonSet !! key = Some ds ∧
    module_ds m ds ∧ ds_kernel ds = k ∧ wants_driver mld ds }.

Lemma kernels_inv_existing s0 handled dss s k mld b ds s' :
  kernels_inv s0 handled dss s → k ∉ handled.*1 → dss !! k = Some b →
  module_ds m ds → ds_kernel ds = k → object_key (ds_meta ds) = object_key (ds_meta b) →
  ds_ok m (object_key (ds_meta b)) ds →
  writes_view s s' (<[object_key (ds_meta b) := ds]> (view s KDaemonSet)) → wants_driver mld ds →
  kernels_inv s0 (handled ++ [(k, mld)]) (<[k := ds]> dss) s'.
Proof using AS.
  intros [[Ho1 Ho2] Hwf Ht Hc Hh] Hk Hb Hmod Hkd Hkey Hok [Hv Hoth] Hw.
  destruct (Ht k b Hb) as (Hvb & Hmb & Hkb). cbn [obj] in *.
  assert (∀ key2 d, view s KDaemonSet !! key2 = Some d → key2 ≠ object_key (ds_meta b) → module_ds m d →
    ds_kernel d ≠ k) as Hother.
  { intros key2 d Hd Hne Hmd Heq. apply Hne. eapply (wf_unique m _ Hwf); [exact Hd|exact Hvb|done..|]. congruence. }
  split.
  - split; [intros k' Hk'; by rewrite Hoth, Ho1|]. rewrite Hv. eapply others_trans; [exact Ho2|].
    apply others_insert; [done|]. intros b' Hb'. rewrite Hvb in Hb'. by injection Hb' as <-.
  - rewrite Hv. apply well_formed_insert; [done..|]. rewrite Hkd. exact Hother.
  - intros k' d. rewrite Hv. intros [[<- <-]|[Hne Hd]]%lookup_insert_Some.
    + by rewrite Hkey, lookup_insert_eq.
    + destruct (Ht k' d Hd) as (H1 & H2 & H3). rewrite lookup_insert_ne; [done|]. intros Heq.
      rewrite <-Heq, Hvb in H1. injection H1 as ->. congruence.
  - intros key d. rewrite Hv. intros [[<- <-]|[Hne Hd]]%lookup_insert_Some Hmd.
    + left. by rewrite Hkd, lookup_insert_eq.
    + assert (ds_kernel d ≠ k) as Hnk by (by eapply Hother).
      rewrite lookup_insert_ne by done. destruct (Hc key d Hd Hmd) as [H|[H1 H2]]; [by left|right].
      split; [done|]. rewrite fmap_app. set_solver.
  - intros k' mld' [Hin|Hin]%elem_of_app.
    + destruct (Hh k' mld' Hin) as (key & d & Hd & Hmd & Hkd' & Hw'). exists key, d. rewrite Hv.
      split_and!; try done. rewrite lookup_insert_ne; [done|]. intros <-. rewrite Hvb in Hd. injection Hd as <-.
      apply Hk. rewrite <-Hkb, Hkd'. by apply (list_elem_of_fmap_2 fst) in Hin.
    + apply list_elem_of_singleton in Hin as [= -> ->]. exists (object_key (ds_meta b)), ds.
      by rewrite Hv, lookup_insert_eq.
Qed.

Lemma kernels_inv_new s0 handled dss s k mld ds s' :
  kernels_inv s0 handled dss s → k ∉ handled.*1 → dss !! k = None →
  module_ds m ds → ds_kernel ds = k → view s KDaemonSet !! object_key (ds_meta ds) = None →
  ds_ok m (object_key (ds_meta ds)) ds →
  writes_view s s' (<[object_key (ds_meta ds) := ds]> (view s KDaemonSet)) → wants_driver mld ds →
  kernels_inv s0 (handled ++ [(k, mld)]) dss s'.
Proof using AS.
  intros [[Ho1 Ho2] Hwf Ht Hc Hh] Hk Hb Hmod Hkd Hnone Hok [Hv Hoth] Hw. cbn [obj] in *. split.
  - split; [intros k' Hk'; by rewrite Hoth, Ho1|]. rewrite Hv. eapply others_trans; [exact Ho2|].
    apply others_insert; [done|]. intros b' Hb'. rewrite Hnone in Hb'. done.
  - rewrite Hv. apply well_formed_insert; [done..|]. rewrite Hkd. intros key2 d Hd _ Hmd Heq.
    destruct (Hc key2 d Hd Hmd) as [H|[_ H]]; rewrite Heq in H; congruence.
  - intros k' d Hd. destruct (Ht k' d Hd) as (H1 & H2 & H3). rewrite Hv, lookup_insert_ne; [done|].
    intros Heq. rewrite Heq in Hnone. rewrite Hnone in H1. done.
  - intros key d. rewrite Hv. intros [[<- <-]|[Hne Hd]]%lookup_insert_Some Hmd; rewrite fmap_app.
    + right. rewrite Hkd. split; [done|]. set_solver.
    + destruct (Hc key d Hd Hmd) as [H|[H1 H2]]; [by left|right]. set_solver.
  - intros k' mld' [Hin|Hin]%elem_of_app.
    + destruct (Hh k' mld' Hin) as (key & d & Hd & Hmd & Hkd' & Hw'). exists key, d. rewrite Hv.
      split_and!; try done. rewrite lookup_insert_ne; [done|]. intros Heq. rewrite Heq in Hnone.
      rewrite Hnone in Hd. done.
    + apply list_elem_of_singleton in Hin as [= -> ->]. exists (object_key (ds_meta ds)), ds.
      by rewrite Hv, lookup_insert_eq.
Qed.

Lemma swp_kernels mappings dss s :
  (∀ k mld, mappings !! k = Some mld → kernel_ready k mld) → kernels_inv s [] dss s →
  swp (range_loop (range_map mappings)
         (λ '(k, mld) dss, handle_kernel (BM := BM) (SM := SM) KernelLabel operatorNamespace k mld dss) dss)
    (λ o s', ∃ dss', o = Done (Next (R := result ReconcileResult) dss') ∧
       kernels_inv s (range_map mappings) dss' s') s.
Proof using AS.
  intros Hr Hinv. eapply (swp_range_loop _ _ _ (kernels_inv s)); [exact Hinv| |by eauto].
  intros handled [k mld] rest dss1 s1 Hsplit Hi.
  assert (kernel_ready k mld) as Hk.
  { apply Hr, elem_of_range_map. rewrite Hsplit. apply elem_of_app. right. by left. }
  assert (k ∉ handled.*1) as Hnd.
  { pose proof (range_map_NoDup mappings) as Hnd. rewrite Hsplit, fmap_app in Hnd.
    apply NoDup_app in Hnd as (_ & Hd & _). intros Hin. by apply (Hd k Hin); left. }
  destruct (dss1 !! k) as [b|] eqn:Hb.
  - destruct (ki_tracks _ _ _ _ Hi k b Hb) as (H1 & H2 & H3).
    eapply swp_mono; [by apply (swp_handle_kernel_existing k mld dss1 b s1 Hk (ki_wf _ _ _ _ Hi))|].
    intros o s2 (ds & -> & Hm & Hkd & Hkey & Hok & Hw & Hwant & _). eexists. split; [done|].
    by eapply kernels_inv_existing.
  - eapply swp_mono; [by apply (swp_handle_kernel_new k mld dss1 s1 Hk (ki_wf _ _ _ _ Hi))|].
    intros o s2 (ds & -> & Hm & Hkd & Hnone & Hok & Hw & Hwant). eexists. split; [done|].
    by eapply kernels_inv_new.
Qed.

Lemma selected_module_ds (ds : DaemonSet) :
  selected KDaemonSet (mk_listopts (Some (mod_Namespace m)) (Some {[ ModuleNameLabel := mod_Name m ]})) ds = true ↔
  module_ds m ds.
Proof.
  unfold selected. cbn [lo_Namespace lo_Labels obj_meta].
  rewrite andb_true_iff, bool_decide_eq_true, labels_match_spec. split; (intros [? H]; split; [done|]).
  - apply H, lookup_singleton_eq.
  - by intros k v [<- <-]%lookup_singleton_Some.
Qed.

Lemma swp_list_daemonsets s :
  well_formed m (view s KDaemonSet) →
  swp (ModuleDaemonSetsByKernelVersion KernelLabel (mod_Name m) (mod_Namespace m))
    (λ o s', same s s' ∧ ∃ dss, o = Done (Ok dss) ∧ kernels_inv s [] dss s) s.
Proof using AS.
  intros Hwf. unfold ModuleDaemonSetsByKernelVersion, moduleDaemonSets, List_. cbn [prog_bind call swp].
  set (opts := mk_listopts _ _).
  destruct (api_list KDaemonSet opts s) as (l & -> & Hnd & Hl). cbn [prog_bind swp].
  split; [by apply same_read|]. cbn [obj obj_meta] in *.
  assert (∀ ds, ds ∈ l ↔ view s KDaemonSet !! object_key (ds_meta ds) = Some ds ∧ module_ds m ds) as Hin.
  { intros ds. rewrite Hl. by rewrite <-(selected_module_ds ds). }
  assert (NoDup (ds_kernel <$> l)) as Hndk.
  { apply NoDup_fmap_1 in Hnd as Hndl. apply NoDup_fmap_2_strong; [|done].
    intros d1 d2 [H1 M1]%Hin [H2 M2]%Hin Hk.
    pose proof (wf_unique m _ Hwf _ _ _ _ H1 H2 M1 M2 Hk) as Hkk. rewrite Hkk in H1.
    exact (f_equal (default d1) (eq_trans (eq_sym H1) H2)). }
  assert (by_kernel KernelLabel l ∅ = Ok (list_to_map ((λ ds, (ds_kernel ds, ds)) <$> l) ∪ ∅)) as Hby.
  { apply by_kernel_Ok. split_and!; [done| |done]. apply Forall_forall. intros ds _. apply lookup_empty. }
  rewrite Hby, (right_id_L ∅ (∪)). eexists. split; [done|].
  assert (∀ k ds, (list_to_map ((λ ds, (ds_kernel ds, ds)) <$> l) : gmap string DaemonSet) !! k = Some ds ↔
    ds ∈ l ∧ ds_kernel ds = k) as Hlook.
  { intros k ds. rewrite <-elem_of_list_to_map; [|by rewrite <-list_fmap_compose].
    rewrite list_elem_of_fmap. split; [by intros (d & [= -> ->] & ?)|intros [? <-]; by exists ds]. }
  split.
  - split; [by intros k _|apply others_refl].
  - done.
  - intros k ds [[H1 H2]%Hin H3]%Hlook. done.
  - intros key ds Hd Hm. left. apply Hlook. split; [|done]. apply Hin. split; [|done].
    destruct (api_keys s KDaemonSet _ _ Hd) as [Hkey _]. cbn [obj_meta] in Hkey. by rewrite Hkey.
  - by intros k mld []%not_elem_of_nil.
Qed.

(** ** The device plugin *)

Definition device_plugin_done (v : gmap NamespacedName DaemonSet) : Prop :=
  match DevicePlugin (mod_Spec m) with
  | None => True
  | Some dp => ∃ ds, v !! device_plugin_key m = Some ds ∧ wants_device_plugin dp ds
  end.

Definition device_plugin_valid : Prop :=
  ∀ ds0 ds, SetDevicePluginAsDesired (Some ds0) m default_sa = Ok ds → valid KDaemonSet ds.

Lemma device_plugin_kernel l ds :
  om_Labels (ds_meta ds) = Some (OverrideLabels l (device_plugin_labels m)) →
  ds_kernel ds = omap_get l KernelLabel.
Proof.
  intros Hl. unfold DaemonSet.ds_kernel, omap_get, map_get. rewrite Hl, OverrideLabels_lookup.
  unfold device_plugin_labels. rewrite lookup_singleton_ne by discriminate. by destruct l.
Qed.

Lemma swp_handleDevicePlugin s :
  well_formed m (view s KDaemonSet) → device_plugin_valid →
  swp (handleDevicePlugin operatorNamespace m)
    (λ o s', o = Done (Ok tt) ∧ same_but KDaemonSet s s' ∧ well_formed m (view s' KDaemonSet) ∧
       others_kept m (view s KDaemonSet) (view s' KDaemonSet) ∧ device_plugin_done (view s' KDaemonSet) ∧
       (∀ key, key ≠ device_plugin_key m → view s' KDaemonSet !! key = view s KDaemonSet !! key) ∧
       (device_plugin_done (view s KDaemonSet) → view s' KDaemonSet = view s KDaemonSet)) s.
Proof using AS.
  intros Hwf Hvalid. unfold handleDevicePlugin, device_plugin_done.
  destruct (DevicePlugin (mod_Spec m)) as [dp|] eqn:Hdp; cbn [isSome negb swp];
    [|split_and!; try done; apply others_refl].
  pose proof (mutates_device_plugin m dp default_sa Hdp) as Hmut.
  set (new := new_daemonset _). apply swp_bind.
  destruct (view s KDaemonSet !! device_plugin_key m) as [b|] eqn:Hb; cbn [obj] in *.
  - destruct (wf_name m _ Hwf b Hb) as [Hmod Hk]. pose proof (wf_ok m _ Hwf _ _ Hb Hmod) as Hok.
    destruct (api_keys s KDaemonSet _ _ Hb) as [Hkey _]. cbn [obj_meta] in Hkey.
    assert (dss_Selector (ds_Spec b) = Some (device_plugin_labels m)) as Hsel.
    { destruct Hok as (_ & _ & H). rewrite bool_decide_true in H by done. apply H. }
    eapply swp_mono.
    { eapply (swp_CreateOrPatch_existing Hmut eq_refl new b); [exact Hb|apply Hok|apply Hmod|exact Hsel|apply Hvalid]. }
    intros o s1 (op & ds & -> & [Hv Hoth] & Hd & Hkept & Hid). cbn [swp obj] in *.
    change (object_key (ds_meta new)) with (device_plugin_key m) in Hv.
    destruct (ds_ok_kept _ _ _ b ds Hok Hmod Hkey Hd Hkept) as (Hmod' & Hk' & Hok').
    { apply lookup_singleton_eq. }
    { intros k. unfold device_plugin_labels. rewrite lookup_singleton_ne by discriminate. done. }
    { by rewrite Hsel. }
    rewrite Hv. split_and!; [done|done| | | | |].
    + apply well_formed_insert; [done..|]. intros key2 d Hd2 Hne Hmd Heq. apply Hne.
      eapply (wf_unique m _ Hwf); [exact Hd2|exact Hb|done..|congruence].
    + apply others_insert; [done|]. intros b' Hb'. rewrite Hb in Hb'. by injection Hb' as <-.
    + exists ds. by rewrite lookup_insert_eq.
    + intros key Hne. by rewrite lookup_insert_ne.
    + intros (d & Hd2 & Hw). rewrite Hb in Hd2. injection Hd2 as <-. rewrite (Hid Hw). by apply insert_id.
  - eapply swp_mono.
    { eapply (swp_CreateOrPatch_new Hmut eq_refl new); [exact Hb| |done|done|apply Hvalid].
      intros Hn. apply (f_equal String.length) in Hn. cbn in Hn. rewrite str_length_app in Hn. cbn in Hn. lia. }
    intros o s1 (ds & -> & Hnone & [Hv Hoth] & Hd & Hn & Hns & Hl & Hf). cbn [swp obj] in *.
    assert (object_key (ds_meta ds) = device_plugin_key m) as Hkey.
    { unfold named in Hn. rewrite bool_decide_false in Hn; [unfold object_key; by rewrite Hn, Hns|].
      intros Hn'. apply (f_equal String.length) in Hn'. cbn in Hn'. rewrite str_length_app in Hn'. cbn in Hn'. lia. }
    rewrite Hkey in *. pose proof (device_plugin_kernel _ _ Hl) as Hk. cbn in Hk.
    assert (module_ds m ds) as Hmod.
    { eapply module_ds_labels; [exact Hl|apply lookup_singleton_eq|exact Hns]. }
    assert (∀ d, view s KDaemonSet !! device_plugin_key m = Some d → False) as Hno
      by (intros d Hd0; discriminate (eq_trans (eq_sym Hb) Hd0)).
    rewrite Hv. split_and!; [done|done| | | | |].
    + apply well_formed_insert; [done..| |].
      * destruct Hd as (_ & Ho & Hsp). split; [done|]. split; [done|].
        rewrite bool_decide_true by done. split; [done|]. by rewrite Hsp, api_selector.
      * intros key2 d Hd2 Hne Hmd Heq. apply Hne.
        pose proof (wf_ok m _ Hwf _ _ Hd2 Hmd) as (_ & _ & Hc). rewrite Heq, Hk in Hc.
        rewrite bool_decide_true in Hc by done. apply Hc.
    + apply others_insert; [done|]. intros b' Hb'. by destruct (Hno b').
    + exists ds. by rewrite lookup_insert_eq.
    + intros key Hne. by rewrite lookup_insert_ne.
    + intros (d & Hd2 & _). by destruct (Hno d).
Qed.

(** ** Garbage *)

(** What the loop over the map has deleted. *)
Definition gone (valids : gset string) (handled : list (string * DaemonSet)) (ds : DaemonSet) : Prop :=
  ∃ k, (k, ds) ∈ handled ∧ is_garbage KernelLabel valids (k, ds) = true.

Definition gc_inv (valids : gset string) (s0 : S) (handled : list (string * DaemonSet)) (s : S) : Prop :=
  same_but KDaemonSet s0 s ∧
  ∀ key ds, view s KDaemonSet !! key = Some ds ↔
    view s0 KDaemonSet !! key = Some ds ∧ ¬ gone valids handled ds.

Lemma gone_snoc valids handled x ds :
  gone valids (handled ++ [x]) ds ↔
  gone valids handled ds ∨ x.2 = ds ∧ is_garbage KernelLabel valids x = true.
Proof.
  unfold gone. split.
  - intros (k & [H|H]%elem_of_app & Hg); [left; by exists k|right].
    apply list_elem_of_singleton in H as <-. done.
  - intros [(k & H & Hg)|[<- Hg]]; [exists k|exists x.1; destruct x]; (split; [|exact Hg]);
      apply elem_of_app; [by left|right; left].
Qed.

Lemma gc_inv_delete valids s0 handled k ds s s' :
  gc_inv valids s0 handled s → is_garbage KernelLabel valids (k, ds) = true →
  view s0 KDaemonSet !! object_key (ds_meta ds) = Some ds →
  same_but KDaemonSet s s' → view s' KDaemonSet !! object_key (ds_meta ds) = None →
  (∀ key, key ≠ object_key (ds_meta ds) → view s' KDaemonSet !! key = view s KDaemonSet !! key) →
  gc_inv valids s0 (handled ++ [(k, ds)]) s'.
Proof using AS.
  intros [Hb Hv] Hg Hds Hb' Hnone Hkeep. cbn [obj] in *.
  split; [intros k' Hk'; by rewrite Hb', Hb|]. intros key d. rewrite gone_snoc. cbn [snd obj].
  destruct (decide (key = object_key (ds_meta ds))) as [->|Hne].
  - rewrite Hnone. split; [done|]. intros [Hd Hn]. destruct Hn. right. split; [|done].
    rewrite Hds in Hd. by injection Hd.
  - rewrite Hkeep by done. rewrite Hv. split; [|by intros [? Hn]; split; [done|]; intros ?; apply Hn; left].
    intros [Hd Hn]. split; [done|]. intros [H|[<- _]]; [done|].
    destruct (api_keys s0 KDaemonSet _ _ Hd) as [Hkey _]. cbn [obj_meta] in Hkey. congruence.
Qed.

Lemma swp_GarbageCollect valids (dss : gmap string DaemonSet) s :
  well_formed m (view s KDaemonSet) →
  (∀ k ds, dss !! k = Some ds → ds_kernel ds = k) →
  (∀ k ds, dss !! k = Some ds → k ≠ "" →
     view s KDaemonSet !! object_key (ds_meta ds) = Some ds ∧ module_ds m ds) →
  swp (GarbageCollect KernelLabel dss valids)
    (λ o s', (∃ names, o = Done (Ok names)) ∧ gc_inv valids s (range_map dss) s') s.
Proof using AS.
  intros Hwf Hkern Htr. unfold GarbageCollect. apply swp_bind.
  eapply (swp_range_loop _ _ _ (λ handled _ s', gc_inv valids s handled s')).
  - split; [by intros k _|]. intros key ds. split; [|by intros [? _]].
    intros H. split; [done|]. by intros (k & []%not_elem_of_nil & _).
  - intros handled [k ds] rest names s1 Hsplit Hi.
    assert (dss !! k = Some ds) as Hk.
    { apply elem_of_range_map. rewrite Hsplit. apply elem_of_app. right. by left. }
    pose proof (Hkern k ds Hk) as Hkd.
    fold (is_garbage KernelLabel valids (k, ds)). destruct (is_garbage KernelLabel valids (k, ds)) eqn:Hg.
    + assert (k ≠ "") as Hne.
      { intros ->. unfold is_garbage, isDevicePluginDaemonSet in Hg. cbn in Hg. by rewrite Hkd in Hg. }
      destruct (Htr k ds Hk Hne) as [Hv Hm]. destruct (wf_ok m _ Hwf _ _ Hv Hm) as (_ & Hf & _).
      unfold is_garbage in Hg. cbn [fst snd] in Hg. rewrite Hg. unfold Delete. cbn [prog_bind call swp].
      destruct (api_delete KDaemonSet ds false s1) as (-> & Ho & Hkeep & Hnone).
      { apply Hi. split; [done|]. intros (k' & Hin & _). pose proof (range_map_NoDup dss) as Hnd.
        assert (dss !! k' = Some ds) as Hk'.
        { apply elem_of_range_map. rewrite Hsplit. apply elem_of_app. by left. }
        rewrite Hsplit, fmap_app in Hnd. apply NoDup_app in Hnd as (_ & Hd & _).
        apply (Hd k'); [by apply (list_elem_of_fmap_2 fst) in Hin|].
        rewrite <-(Hkern k' ds Hk'), Hkd. left. }
      cbn [swp]. eexists. split; [done|]. eapply gc_inv_delete; [done..|by apply Hnone|done].
    + unfold is_garbage in Hg. cbn [fst snd] in Hg. rewrite Hg. cbn [swp]. eexists. split; [done|].
      destruct Hi as [Hb Hv]. split; [done|]. intros key d. rewrite Hv, gone_snoc. unfold is_garbage. cbn [fst snd].
      rewrite Hg. intuition done.
  - intros names s1 Hi. cbn [swp]. split; [by eexists|done].
Qed.

(** ** The end of a run *)

(** The state the Module asks for. *)
Record converged (mappings : gmap string ModuleLoaderData) (v : gmap NamespacedName DaemonSet) : Prop := {
  cv_wf : well_formed m v;
  (** every kernel has its DaemonSet, *)
  cv_kernels k mld : mappings !! k = Some mld → ∃ key ds, v !! key = Some ds ∧ module_ds m ds ∧
    ds_kernel ds = k ∧ wants_driver mld ds;
  (** no other kernel has one, *)
  cv_garbage key ds : v !! key = Some ds → module_ds m ds →
    ds_kernel ds = "" ∨ is_Some (mappings !! ds_kernel ds);
  (** and the device plugin runs. *)
  cv_device_plugin : device_plugin_done v }.

Abbreviation module_key := (object_key (mod_meta m)).

(** Garbage is the Module's, and of a kernel it does not run on. *)
Lemma gone_spec mappings dss s0 handled s ds :
  kernels_inv s0 handled dss s → gone (dom (D := gset string) (mappings : gmap string ModuleLoaderData)) (range_map dss) ds →
  module_ds m ds ∧ ds_kernel ds ≠ "" ∧ mappings !! ds_kernel ds = None ∧
  view s KDaemonSet !! object_key (ds_meta ds) = Some ds.
Proof using AS.
  intros Hki (k & Hk%elem_of_range_map & Hg).
  destruct (ki_tracks _ _ _ _ Hki k ds Hk) as (Hv & Hm & Hkd).
  unfold is_garbage, isDevicePluginDaemonSet in Hg. cbn [fst snd] in Hg.
  apply andb_prop in Hg as [H1%negb_true_iff%bool_decide_eq_false H2%negb_true_iff%bool_decide_eq_false].
  rewrite <-Hkd in H2. split_and!; [done|done|by apply not_elem_of_dom|done].
Qed.

Lemma gone_intro mappings (dss : gmap string DaemonSet) ds :
  dss !! ds_kernel ds = Some ds → ds_kernel ds ≠ "" → mappings !! ds_kernel ds = None →
  gone (dom (D := gset string) (mappings : gmap string ModuleLoaderData)) (range_map dss) ds.
Proof.
  intros Hd Hne Hm. exists (ds_kernel ds). split; [by apply elem_of_range_map|].
  unfold is_garbage, isDevicePluginDaemonSet. cbn [fst snd].
  rewrite !bool_decide_false; [done|by apply not_elem_of_dom|done].
Qed.

Lemma gc_others valids s handled s' :
  gc_inv valids s handled s' → (∀ ds, gone valids handled ds → module_ds m ds) →
  others_kept m (view s KDaemonSet) (view s' KDaemonSet).
Proof using AS.
  intros [_ Hv] Hgone key ds Hn. cbn [obj] in *. rewrite Hv. split; [|by intros [? _]].
  intros Hd. split; [done|]. by intros ?%Hgone.
Qed.

(** The state after the device plugin and the garbage collection. *)
Lemma converged_after mappings dss s0 s s1 s2 :
  kernels_inv s0 (range_map mappings) dss s → (∀ k mld, mappings !! k = Some mld → k ≠ "") →
  well_formed m (view s1 KDaemonSet) → device_plugin_done (view s1 KDaemonSet) →
  (∀ key, key ≠ device_plugin_key m → view s1 KDaemonSet !! key = view s KDaemonSet !! key) →
  gc_inv (dom mappings) s1 (range_map dss) s2 →
  converged mappings (view s2 KDaemonSet).
Proof using AS.
  intros Hki Hnames Hwf1 Hdp Hkeep [_ Hv2]. cbn [obj] in *.
  pose proof (λ ds, gone_spec mappings dss s0 _ s ds Hki) as Hgone.
  assert (∀ key ds, view s KDaemonSet !! key = Some ds → module_ds m ds → ds_kernel ds ≠ "" →
    view s1 KDaemonSet !! key = Some ds) as Hdrv.
  { intros key ds Hd Hm Hne. rewrite Hkeep; [exact Hd|]. eapply ds_ok_driver; [|exact Hne].
    by eapply (wf_ok m _ (ki_wf _ _ _ _ Hki)). }
  split.
  - split.
    + intros key ds [Hd _]%Hv2 Hm. by apply (wf_ok m _ Hwf1).
    + intros k1 k2 d1 d2 [H1 _]%Hv2 [H2 _]%Hv2. by apply (wf_unique m _ Hwf1).
    + intros ds [Hd _]%Hv2. by apply (wf_name m _ Hwf1).
  - intros k mld Hk. destruct (ki_handled _ _ _ _ Hki k mld) as (key & ds & Hd & Hm & Hkd & Hw);
      [by apply elem_of_range_map|].
    exists key, ds. split_and!; try done. apply Hv2. split.
    + apply Hdrv; [done..|]. rewrite Hkd. by eapply Hnames.
    + intros (_ & _ & Hnone & _)%Hgone. congruence.
  - intros key ds [Hd Hng]%Hv2 Hm. destruct (decide (ds_kernel ds = "")) as [|Hne]; [by left|right].
    destruct (mappings !! ds_kernel ds) as [mld|] eqn:Hmap; [by eexists|exfalso].
    rewrite Hkeep in Hd by (eapply ds_ok_driver; [by eapply (wf_ok m _ Hwf1)|done]).
    destruct (ki_covers _ _ _ _ Hki key ds Hd Hm) as [H|[_ H]]; [by apply Hng, gone_intro|].
    apply list_elem_of_fmap in H as ([k mld] & Hk & Hin%elem_of_range_map). cbn in Hk. subst k. congruence.
  - unfold device_plugin_done in *. destruct (DevicePlugin (mod_Spec m)); [|done].
    destruct Hdp as (ds & Hd & Hw). exists ds. split; [|done]. apply Hv2. split; [done|].
    intros (_ & Hne & _)%Hgone. apply Hne. by apply (wf_name m _ Hwf1 ds Hd).
Qed.

(** On a converged state there is no garbage. *)
Lemma gc_converged mappings dss s0 handled s s1 s2 :
  kernels_inv s0 handled dss s → converged mappings (view s KDaemonSet) →
  gc_inv (dom mappings) s1 (range_map dss) s2 → view s2 KDaemonSet = view s1 KDaemonSet.
Proof using AS.
  intros Hki Hc [_ Hv2]. cbn [obj] in *. apply map_eq. intros key. apply option_eq. intros ds.
  rewrite Hv2. split; [by intros [? _]|]. intros Hd. split; [done|]. intros Hg.
  destruct (gone_spec _ _ _ _ _ _ Hki Hg) as (Hm & Hne & Hnone & Hvd).
  destruct (cv_garbage _ _ Hc _ _ Hvd Hm) as [|[mld Hmap]]; [done|congruence].
Qed.

Lemma swp_finish mappings mapped targeted dss s0 s :
  kernels_inv s0 (range_map mappings) dss s → (∀ k mld, mappings !! k = Some mld → k ≠ "") →
  device_plugin_valid → view s KModule !! module_key = Some m →
  swp (finish_reconcile (BM := BM) (SM := SM) KernelLabel operatorNamespace m mappings mapped targeted dss)
    (λ o s', o = Done (Ok no_requeue) ∧ converged mappings (view s' KDaemonSet) ∧
       others_kept m (view s KDaemonSet) (view s' KDaemonSet) ∧
       view s' KModule = <[module_key := module_status m mapped targeted dss]> (view s KModule) ∧
       (∀ k, k ∉ [KDaemonSet; KModule; KJob] → view s' k = view s k) ∧
       (converged mappings (view s KDaemonSet) → view s' KDaemonSet = view s KDaemonSet)) s.
Proof using AS.
  intros Hki Hnames Hdpv Hmod. unfold finish_reconcile, garbageCollect.
  apply swp_bind. eapply swp_mono; [by apply swp_handleDevicePlugin; [apply Hki|]|].
  intros o s1 (-> & Hb1 & Hwf1 & Ho1 & Hdp & Hkeep & Hid). cbn [swp].
  apply swp_bind, swp_bind. eapply swp_mono.
  { apply (swp_GarbageCollect (dom mappings) dss s1); [done| |].
    - intros k ds Hk. by destruct (ki_tracks _ _ _ _ Hki k ds Hk) as (_ & _ & ?).
    - intros k ds Hk Hne. destruct (ki_tracks _ _ _ _ Hki k ds Hk) as (Hv & Hm & Hkd).
      rewrite Hkeep; [done|]. eapply ds_ok_driver; [by eapply (wf_ok m _ (ki_wf _ _ _ _ Hki))|congruence]. }
  intros o s2 [(names & ->) Hgc]. cbn [swp]. destruct (Hgc) as [Hb2 _].
  apply swp_bind. cbn [bm_GarbageCollect buildconfig_manager build_GarbageCollect swp].
  apply swp_bind. eapply swp_mono; [apply swp_sign_GC|]. intros o s3 [(l & ->) Hb3]. cbn [swp].
  unfold ModuleUpdateStatus, StatusPatch. cbn [prog_bind call swp].
  assert (view s3 KModule = view s KModule) as Hm3 by (by rewrite Hb3, Hb2, Hb1).
  set (m' := module_status _ _ _ _).
  destruct (api_status m' m s3) as (-> & Hms & Hmo); [by rewrite Hm3|]. cbn [swp].
  assert (view (srv (RStatusPatch KModule m' m) s3).2 KDaemonSet = view s2 KDaemonSet) as ->
    by (by rewrite Hmo, Hb3).
  split_and!; [done|by eapply converged_after| | | |].
  - eapply others_trans; [exact Ho1|]. eapply gc_others; [exact Hgc|].
    intros ds Hg. by destruct (gone_spec _ _ _ _ _ _ Hki Hg).
  - rewrite Hms, Hm3. done.
  - intros k Hk. rewrite Hmo, Hb3, Hb2, Hb1 by (intros ->; apply Hk; set_solver). done.
  - intros Hc. rewrite <-(Hid (cv_device_plugin _ _ Hc)). by eapply gc_converged.
Qed.

(** ** On a converged state *)

Lemma converged_inv mappings dss s :
  kernels_inv s [] dss s → converged mappings (view s KDaemonSet) →
  kernels_inv s (range_map mappings) dss s ∧
  ∀ k mld, mappings !! k = Some mld → ∃ ds, dss !! k = Some ds ∧ wants_driver mld ds.
Proof using AS.
  intros [Ho Hwf Ht Hcov _] Hc.
  assert (∀ key ds, view s KDaemonSet !! key = Some ds → module_ds m ds → dss !! ds_kernel ds = Some ds) as Hcov'.
  { intros key ds Hd Hm. destruct (Hcov key ds Hd Hm) as [H|[_ []%not_elem_of_nil]]. done. }
  split.
  - split; [done..| |].
    + intros key ds Hd Hm. left. by eapply Hcov'.
    + intros k mld Hk%elem_of_range_map. by apply (cv_kernels _ _ Hc).
  - intros k mld Hk. destruct (cv_kernels _ _ Hc k mld Hk) as (key & ds & Hd & Hm & <- & Hw).
    exists ds. split; [by eapply Hcov'|done].
Qed.

Lemma swp_kernels_stable mappings dss s :
  (∀ k mld, mappings !! k = Some mld → kernel_ready k mld) → kernels_inv s [] dss s →
  converged mappings (view s KDaemonSet) →
  swp (range_loop (range_map mappings)
         (λ '(k, mld) dss, handle_kernel (BM := BM) (SM := SM) KernelLabel operatorNamespace k mld dss) dss)
    (λ o s', o = Done (Next (R := result ReconcileResult) dss) ∧ same s s') s.
Proof using AS.
  intros Hr Hinv Hc. destruct (converged_inv mappings dss s Hinv Hc) as [_ Hdss].
  eapply (swp_range_loop _ _ _ (λ _ dss' s', dss' = dss ∧ same s s')).
  - split; [done|apply same_refl].
  - intros handled [k mld] rest dss1 s1 Hsplit [-> Hsame].
    assert (mappings !! k = Some mld) as Hk.
    { apply elem_of_range_map. rewrite Hsplit. apply elem_of_app. right. by left. }
    destruct (Hdss k mld Hk) as (b & Hb & Hw). destruct (ki_tracks _ _ _ _ Hinv k b Hb) as (H1 & H2 & H3).
    eapply swp_mono.
    { apply (swp_handle_kernel_existing k mld dss b s1); [by apply Hr| |done..|].
      - rewrite Hsame. apply Hinv.
      - rewrite Hsame. exact H1. }
    intros o s2 (ds & -> & _ & _ & _ & _ & [Hv Hoth] & _ & Hid). rewrite (Hid Hw) in *.
    exists dss. rewrite insert_id by done. split; [done|]. split; [done|].
    intros k'. destruct (decide (k' = KDaemonSet)) as [->|Hne].
    + rewrite Hv, Hsame. by apply insert_id.
    + by rewrite Hoth, Hsame.
  - intros ? s1 [-> Hsame]. by split.
Qed.

(** ** Reconcile *)

Definition node_opts : ListOptions := mk_listopts None (Some (Selector (mod_Spec m))).

(** The schedulable nodes the Module selects. *)
Definition targets (s : S) (node : Node) : Prop :=
  view s KNode !! object_key (node_meta node) = Some node ∧
  selected KNode node_opts node = true ∧ isNodeSchedulable node = true.

(** What a run needs: the Module, DaemonSets of its making, at most one
    ConfigMap of each certificate type; and for the kernels of the nodes it
    selects, mappings whose images are there. *)
Record ready (key : NamespacedName) (mappings : gmap string ModuleLoaderData) (s : S) : Prop := {
  rd_module : view s KModule !! key = Some m;
  rd_daemonsets : well_formed m (view s KDaemonSet);
  rd_configmaps : cm_ok (mod_Namespace m) (view s KConfigMap);
  rd_mappings k mld : mappings !! k = Some mld ↔
    GetModuleLoaderDataForKernel m k = Ok mld ∧ ∃ node, targets s node ∧ node_kernel node = k;
  rd_no_panic node w : targets s node → GetModuleLoaderDataForKernel m (node_kernel node) ≠ Panic w;
  rd_kernels k mld : mappings !! k = Some mld → kernel_ready k mld;
  rd_cluster_ca : valid KConfigMap (new_cluster_cm (mod_Namespace m));
  rd_service_ca : valid KConfigMap (new_service_cm (mod_Namespace m));
  rd_device_plugin : device_plugin_valid }.

Lemma getRelevant_ready key mappings s nodes :
  ready key mappings s → (∀ node, node ∈ nodes ↔ targets s node) →
  getRelevantKernelMappingsAndNodes m nodes = Ok (mappings, List.filter (has_mapping m) nodes).
Proof using Type.
  intros Hr Hn. destruct (mappings_loop_not_Ok m nodes ∅) as [He Hw]; [by intros ??|].
  unfold getRelevantKernelMappingsAndNodes.
  destruct (mappings_loop m nodes ∅) as [[c ns]|e|w] eqn:Hl.
  - destruct (getRelevant_Ok m nodes c ns Hl) as [-> Hk]. do 2 f_equal. apply map_eq. intros k. apply option_eq.
    intros mld. rewrite Hk, (rd_mappings _ _ _ Hr). split; (intros [Hg (node & Hin & Hkn)]; split; [done|]);
      exists node; (split; [by apply Hn|done]).
  - by destruct (He e).
  - exfalso. destruct (proj1 Hw) as (node & w' & Hin & Hp); [by eexists|].
    eapply (rd_no_panic _ _ _ Hr); [by apply Hn|exact Hp].
Qed.

Lemma kernels_inv_start dss s s' : same s s' → kernels_inv s [] dss s → kernels_inv s' [] dss s'.
Proof using AS.
  intros Hsame [Ho Hwf Ht Hcov Hh].
  split; rewrite ?Hsame; try done.
Qed.

(** The run up to the loop over the kernels. *)
Lemma swp_reconcile_start key mappings s (Q : outcome (result ReconcileResult) → S → Prop) :
  ready key mappings s →
  (∀ s1 dss targeted, same_but KConfigMap s s1 → cm_ok (mod_Namespace m) (view s1 KConfigMap) →
     (∀ node, node ∈ targeted ↔ targets s node) → NoDup targeted → kernels_inv s1 [] dss s1 →
     swp (prog_bind (λ c, match c with
            | Return r => Ret r
            | Next dss => finish_reconcile (BM := BM) (SM := SM) KernelLabel operatorNamespace m mappings
                            (List.filter (has_mapping m) targeted) targeted dss
            end)
            (range_loop (range_map mappings)
               (λ '(k, mld) dss, handle_kernel (BM := BM) (SM := SM) KernelLabel operatorNamespace k mld dss) dss))
       Q s1) →
  swp (operator_Reconcile goarch operatorNamespace key) Q s.
Proof using AS.
  intros Hr HQ. unfold operator_Reconcile, Reconcile, getRequestedModule, Get. cbn [prog_bind call swp].
  assert (object_key (mod_meta m) = key) as Hkey by apply (api_keys s KModule key m (rd_module _ _ _ Hr)).
  rewrite (api_get_Some KModule key s m (rd_module _ _ _ Hr)).
  assert (same s (srv (RGet KModule key) s).2) as Hs0 by by apply same_read.
  generalize dependent ((srv (RGet KModule key) s).2). intros s0 Hs0. cbn [swp prog_bind].
  apply swp_bind. eapply (swp_mono _ _ (λ o s', o = Done (Ok tt) ∧ cm_ok (mod_Namespace m) (view s' KConfigMap) ∧
    same_but KConfigMap s s')).
  { rewrite <-Hkey. case_bool_decide.
    - cbn [swp]. split_and!; [done|rewrite Hs0; apply Hr|by intros k _].
    - eapply swp_mono; [apply swp_ca_Sync; [done|rewrite Hs0; apply Hr|apply Hr|apply Hr]|].
      intros o s1 (-> & Hcm & Hb). split_and!; [done..|]. intros k Hk. by rewrite Hb, Hs0. }
  intros o s1 (-> & Hcm & Hb1). cbn [swp].
  apply swp_bind. eapply swp_mono; [apply swp_metrics|]. intros o s2 [-> Hs2].
  unfold reconcile_module, getNodesListBySelector, List_. cbn [prog_bind call swp].
  change (mk_listopts None (Some (Selector (mod_Spec m)))) with node_opts.
  destruct (api_list KNode node_opts s2) as (l & -> & Hnd & Hl). cbn [swp prog_bind].
  assert (same s2 (srv (RList KNode node_opts) s2).2) as Hs3 by by apply same_read.
  generalize dependent ((srv (RList KNode node_opts) s2).2). intros s3 Hs3. cbn [obj obj_meta] in *.
  set (targeted := List.filter isNodeSchedulable l).
  assert (∀ node, node ∈ targeted ↔ targets s node) as Htg.
  { intros node. unfold targeted. rewrite list_elem_of_In, List.filter_In, <-list_elem_of_In, Hl.
    unfold targets. rewrite <-(Hb1 KNode), <-(Hs2 KNode) by done. cbn [obj]. tauto. }
  rewrite (getRelevant_ready key mappings s targeted Hr Htg). cbn [lift_result prog_bind swp].
  assert (same_but KConfigMap s s3) as Hb3 by (intros k Hk; by rewrite Hs3, Hs2, Hb1).
  apply swp_bind. eapply swp_mono.
  { apply swp_list_daemonsets. rewrite Hb3 by done. apply Hr. }
  intros o s4 [Hs4 (dss & -> & Hki)]. cbn [swp fst snd].
  assert (same_but KConfigMap s s4) as Hb4 by (intros k Hk; by rewrite Hs4, Hb3).
  apply HQ; [done| |done| |].
  - by rewrite Hs4, Hs3, Hs2.
  - apply NoDup_ListNoDup, List.NoDup_filter, NoDup_ListNoDup. by eapply NoDup_fmap_1.
  - by eapply kernels_inv_start.
Qed.

Definition status_of (s : S) (m' : Module_) : Prop :=
  ∃ dss targeted,
    NoDup targeted ∧ (∀ node, node ∈ targeted ↔ targets s node) ∧
    (∀ k ds, dss !! k = Some ds ↔
       view s KDaemonSet !! object_key (ds_meta ds) = Some ds ∧ module_ds m ds ∧ ds_kernel ds = k) ∧
    m' = module_status m (List.filter (has_mapping m) targeted) targeted dss.

Lemma swp_reconcile_converges key mappings s :
  ready key mappings s →
  swp (operator_Reconcile goarch operatorNamespace key)
    (λ o s', o = Done (Ok no_requeue) ∧ converged mappings (view s' KDaemonSet) ∧
       others_kept m (view s KDaemonSet) (view s' KDaemonSet) ∧
       (∃ st, view s' KModule = <[key := set_status st m]> (view s KModule)) ∧
       cm_ok (mod_Namespace m) (view s' KConfigMap) ∧
       ∀ k, k ∉ [KDaemonSet; KModule; KJob; KConfigMap] → view s' k = view s k) s.
Proof using AS.
  intros Hr. apply (swp_reconcile_start key mappings); [done|].
  assert (object_key (mod_meta m) = key) as Hkey by apply (api_keys s KModule key m (rd_module _ _ _ Hr)).
  intros s1 dss targeted Hb Hcm Htg _ Hki. apply swp_bind.
  eapply swp_mono; [by apply (swp_kernels mappings); [apply Hr|]|].
  intros o s2 (dss' & -> & Hki2). destruct (ki_others _ _ _ _ Hki2) as [Hb2 Ho2]. eapply swp_mono.
  { apply (swp_finish _ _ _ _ _ _ Hki2).
    - intros k mld Hk. by apply (kr_kernel k mld), (rd_kernels _ _ _ Hr).
    - apply Hr.
    - rewrite Hb2, Hb by done. rewrite Hkey. apply Hr. }
  intros o s3 (-> & Hc & Ho & Hm & Hb3 & _). split_and!; [done|done| | | |].
  - rewrite <-(Hb KDaemonSet) by done. by eapply others_trans.
  - eexists. rewrite Hm, Hb2, Hb by done. by rewrite Hkey.
  - rewrite Hb3, Hb2; [done|done|]. by intros ?; set_solver.
  - intros k Hk. rewrite Hb3, Hb2, Hb; [done| | |]; set_solver.
Qed.

Lemma swp_reconcile_stable key mappings s :
  ready key mappings s → converged mappings (view s KDaemonSet) →
  swp (operator_Reconcile goarch operatorNamespace key)
    (λ o s', o = Done (Ok no_requeue) ∧ view s' KDaemonSet = view s KDaemonSet ∧
       (∃ m', status_of s m' ∧ view s' KModule = <[key := m']> (view s KModule)) ∧
       cm_ok (mod_Namespace m) (view s' KConfigMap) ∧
       ∀ k, k ∉ [KDaemonSet; KModule; KJob; KConfigMap] → view s' k = view s k) s.
Proof using AS.
  intros Hr Hc. apply (swp_reconcile_start key mappings); [done|].
  assert (object_key (mod_meta m) = key) as Hkey by apply (api_keys s KModule key m (rd_module _ _ _ Hr)).
  intros s1 dss targeted Hb Hcm Htg Hnd Hki. apply swp_bind.
  assert (converged mappings (view s1 KDaemonSet)) as Hc1 by (by rewrite Hb).
  eapply swp_mono; [by apply (swp_kernels_stable mappings); [apply Hr|..]|].
  intros o s2 [-> Hs2]. assert (kernels_inv s2 [] dss s2) as Hki2 by by eapply kernels_inv_start.
  assert (converged mappings (view s2 KDaemonSet)) as Hc2 by (by rewrite Hs2).
  destruct (converged_inv _ _ _ Hki2 Hc2) as [Hki3 _]. eapply swp_mono.
  { apply (swp_finish _ _ _ _ _ _ Hki3).
    - intros k mld Hk. by apply (kr_kernel k mld), (rd_kernels _ _ _ Hr).
    - apply Hr.
    - rewrite Hs2, Hb by done. rewrite Hkey. apply Hr. }
  intros o s3 (-> & _ & _ & Hm & Hb3 & Hid). split_and!; [done| | | |].
  - by rewrite (Hid Hc2), Hs2, Hb.
  - eexists. split; [|rewrite Hm, Hs2, Hb by done; by rewrite Hkey].
    exists dss, targeted. split_and!; [done..| |done]. rewrite <-(Hb KDaemonSet) by done. intros k ds. split.
    + by intros Hk%(ki_tracks _ _ _ _ Hki).
    + intros (Hd & Hmd & <-). destruct (ki_covers _ _ _ _ Hki _ _ Hd Hmd) as [H|[_ []%not_elem_of_nil]]. done.
  - rewrite Hb3, Hs2; [done|]. by intros ?; set_solver.
  - intros k Hk. rewrite Hb3, Hs2, Hb; [done| |]; set_solver.
Qed.
End convergence.

(** ** Run after run *)

Section repeated.
Context {S : Type} {srv : kserver S} {view : S → ∀ k, gmap NamespacedName (obj k)}.
Context {default_spec : DaemonSetSpec → DaemonSetSpec} {valid : ∀ k, obj k → Prop}.
Context {AS : ApiServer srv view default_spec valid}.
Context {D : ManifestDecoder} {Hs : Hasher} {R : Regexp} {E : Envsubst} {MO : MapOrder}.
Variables (goarch operatorNamespace : string).

Abbreviation ready := (ready (srv := srv) (view := view) (valid := valid) goarch operatorNamespace).
Abbreviation converged := (converged (default_spec := default_spec) operatorNamespace).
Abbreviation status_of := (status_of (view := view)).

(** A Module that differs in its status asks for the same. *)
Lemma well_formed_status st m v : well_formed m v → well_formed (set_status st m) v.
Proof. intros [H1 H2 H3]. split; [exact H1|exact H2|exact H3]. Qed.

Lemma converged_status st m mappings v : converged m mappings v → converged (set_status st m) mappings v.
Proof.
  intros [H1 H2 H3 H4]. split; [by apply well_formed_status|exact H2|exact H3|exact H4].
Qed.

Lemma ready_again st m key mappings s s' :
  ready m key mappings s → view s' KModule !! key = Some (set_status st m) →
  well_formed m (view s' KDaemonSet) → cm_ok (mod_Namespace m) (view s' KConfigMap) →
  view s' KNode = view s KNode → ready (set_status st m) key mappings s'.
Proof.
  intros [_ _ _ H4 H5 H6 H7 H8 H9] Hm Hwf Hcm Hn.
  split; [exact Hm|by apply well_formed_status|exact Hcm| | | |exact H7|exact H8|exact H9];
    unfold targets; rewrite ?Hn; [exact H4|exact H5|].
  intros k mld Hk. destruct (H6 k mld Hk) as [K1 K2 K3 K4 K5 K6].
  split; [exact K1|exact K2|exact K3|exact K4|exact K5|exact K6].
Qed.

Abbreviation run_once key := (run_state srv (operator_Reconcile goarch operatorNamespace key)).

Lemma status_of_Module st m s m' :
  status_of (set_status st m) s m' → ∃ st', m' = set_status st' m.
Proof. intros (dss & targeted & _ & _ & _ & ->). by eexists. Qed.

(** The first run. *)
Lemma run_converges m key mappings s :
  ready m key mappings s → let s' := run_once key s in
  run_out srv (operator_Reconcile goarch operatorNamespace key) s = Done (Ok no_requeue) ∧
  converged m mappings (view s' KDaemonSet) ∧ others_kept m (view s KDaemonSet) (view s' KDaemonSet) ∧
  ∃ st, view s' KModule !! key = Some (set_status st m) ∧ ready (set_status st m) key mappings s'.
Proof using AS.
  intros Hr. cbn zeta. pose proof (swp_reconcile_converges goarch operatorNamespace m key mappings s Hr) as H.
  apply swp_run in H as (Hok & Hc & Ho & [st Hm] & Hcm & Hb). split_and!; [done..|]. exists st.
  assert (view (run_once key s) KModule !! key = Some (set_status st m)) as Hm' by (rewrite Hm; apply lookup_insert_eq).
  split; [exact Hm'|]. eapply ready_again; [exact Hr|exact Hm'|apply Hc|exact Hcm|]. apply Hb. set_solver.
Qed.

(** The runs after it. *)
Lemma run_stable st m key mappings s :
  ready (set_status st m) key mappings s → converged m mappings (view s KDaemonSet) →
  let s' := run_once key s in
  run_out srv (operator_Reconcile goarch operatorNamespace key) s = Done (Ok no_requeue) ∧
  view s' KDaemonSet = view s KDaemonSet ∧
  ∃ st', status_of (set_status st m) s (set_status st' m) ∧ view s' KModule !! key = Some (set_status st' m) ∧
    ready (set_status st' m) key mappings s'.
Proof using AS.
  intros Hr Hc. cbn zeta.
  pose proof (swp_reconcile_stable goarch operatorNamespace _ key mappings s Hr (converged_status st _ _ _ Hc)) as H.
  apply swp_run in H as (Hok & Hd & (m' & Hst & Hm) & Hcm & Hb). split_and!; [done..|].
  destruct (status_of_Module _ _ _ _ Hst) as [st' ->]. exists st'.
  assert (view (run_once key s) KModule !! key = Some (set_status st' m)) as Hm' by (rewrite Hm; apply lookup_insert_eq).
  split_and!; [exact Hst|exact Hm'|]. eapply (ready_again st' (set_status st m)); [exact Hr|exact Hm'| |exact Hcm|].
  - rewrite Hd. apply Hr.
  - apply Hb. set_solver.
Qed.

Lemma runs_ready m key mappings s n :
  ready m key mappings s → let s' := Nat.iter (1 + n) (run_once key) s in
  converged m mappings (view s' KDaemonSet) ∧ others_kept m (view s KDaemonSet) (view s' KDaemonSet) ∧
  ∃ st, view s' KModule !! key = Some (set_status st m) ∧ ready (set_status st m) key mappings s'.
Proof using AS.
  intros Hr. cbn zeta. induction n as [|n IH].
  - by destruct (run_converges m key mappings s Hr) as (_ & Hc & Ho & Hst).
  - destruct IH as (Hc & Ho & st & Hm & Hr').
    destruct (run_stable st m key mappings _ Hr' Hc) as (_ & Hd & st' & _ & Hm' & Hr'').
    change (Nat.iter (1 + Datatypes.S n) (run_once key) s) with (run_once key (Nat.iter (1 + n) (run_once key) s)).
    rewrite Hd. split_and!; [done|done|]. by exists st'.
Qed.

(** Every run: the first one and those after it. *)
Lemma runs_converge m key mappings s n :
  ready m key mappings s →
  let before := Nat.iter n (run_once key) s in
  let after := run_once key before in
  run_out srv (operator_Reconcile goarch operatorNamespace key) before = Done (Ok no_requeue) ∧
  converged m mappings (view after KDaemonSet) ∧
  others_kept m (view s KDaemonSet) (view after KDaemonSet).
Proof using AS.
  intros Hr. cbn zeta. destruct (runs_ready m key mappings s n Hr) as (Hc & Ho & _).
  split_and!; [|done..]. destruct n as [|n].
  - by destruct (run_converges m key mappings s Hr) as (Hok & _).
  - destruct (runs_ready m key mappings s n Hr) as (Hc' & _ & st & _ & Hr').
    by destruct (run_stable st m key mappings _ Hr' Hc') as (Hok & _).
Qed.

(** C2: the Module controller converges.  Take an API server that keeps its
    laws, in a state with a Module, DaemonSets of its making, and, for the
    kernels of the schedulable nodes it selects, mappings whose images are
    there.  Each of any number of runs of the controller then succeeds.  After
    every run - after the first already - each of these kernels has a DaemonSet
    with the labels, the owner and the spec the Module asks for, exactly one,
    no other kernel has one, and the device plugin runs if there is one; what
    is not the Module's is as it was before.  The second run and those after it
    leave every DaemonSet as it is, and write to the Module the status that
    counts the DaemonSets and nodes there are. *)
Theorem Reconcile_converges m key mappings s n :
  ready m key mappings s →
  let before := Nat.iter n (run_once key) s in
  let after := run_once key before in
  run_out srv (operator_Reconcile goarch operatorNamespace key) before = Done (Ok no_requeue) ∧
  converged m mappings (view after KDaemonSet) ∧
  others_kept m (view s KDaemonSet) (view after KDaemonSet) ∧
  (0 < n → view after KDaemonSet = view before KDaemonSet ∧
     ∃ m1 m2, view before KModule !! key = Some m1 ∧ view after KModule !! key = Some m2 ∧
       status_of m1 before m2).
Proof using AS.
  intros Hr. cbn zeta. destruct (runs_converge m key mappings s n Hr) as (Hok & Hc & Ho).
  split_and!; [done..|]. intros Hn. destruct n as [|n]; [lia|].
  destruct (runs_ready m key mappings s n Hr) as (Hc' & _ & st & Hm & Hr').
  destruct (run_stable st m key mappings _ Hr' Hc') as (_ & Hd & st' & Hst & Hm' & _).
  split; [exact Hd|]. eexists _, _. split_and!; [exact Hm|exact Hm'|exact Hst].
Qed.
End repeated.

(** ** An example

    A Module with a device plugin on one node, next to the DaemonSet of a
    kernel that is gone. *)

Definition ex_key : NamespacedName := NN "gpu" "nvidia".
Definition ex_worker : Node :=
  mk_node (set_labels (Some {[ "role" := "worker" ]}) (meta_named "node-1" "")) [] Ex.kernel "RHCOS".
Definition ex_old_kernel := "4.18.0-372.el8".
Definition ex_old : DaemonSet :=
  mk_ds (mk_meta "nvidia-abcde" "nvidia-" "gpu" "uid-2" (Some (kernel_labels Ex.module ex_old_kernel)) None
           [owner_ref (as_owner Ex.module) true] [] None 1)
    (default_spec (mk_dsspec (Some (kernel_labels Ex.module ex_old_kernel)) (mk_podtemplate empty_meta empty_podspec))) 1.
Definition ex_state : state := λ k,
  match k with
  | KModule => {[ ex_key := Ex.module ]}
  | KNode => {[ object_key (node_meta ex_worker) := ex_worker ]}
  | KDaemonSet => {[ object_key (ds_meta ex_old) := ex_old ]}
  | _ => ∅
  end.
Definition ex_memory : kserver state := memory_server (λ _, false).

#[local] Existing Instances ex_decoder ex_hasher map_order_std.
#[local] Existing Instance regexp_substring.
#[local] Existing Instance envsubst_id.

Definition ex_mld : ModuleLoaderData :=
  match GetModuleLoaderDataForKernel Ex.module (node_kernel ex_worker) with Ok mld => mld | _ => Ex.mld end.
Definition ex_mappings : gmap string ModuleLoaderData := {[ node_kernel ex_worker := ex_mld ]}.

Lemma ex_ready :
  ready (srv := ex_memory) (view := view) (valid := valid) "amd64" "kmm" Ex.module ex_key ex_mappings ex_state.
Proof.
  assert (view ex_state KDaemonSet = {[ object_key (ds_meta ex_old) := ex_old ]}) as Hds.
  { apply view_id; [reflexivity|]. apply map_Forall_singleton. vm_compute. reflexivity. }
  assert (view ex_state KNode = {[ object_key (node_meta ex_worker) := ex_worker ]}) as Hn.
  { apply view_id; [reflexivity|]. apply map_Forall_singleton. vm_compute. reflexivity. }
  assert (view ex_state KConfigMap = ∅) as Hcm by (vm_compute; reflexivity).
  assert (GetModuleLoaderDataForKernel Ex.module (node_kernel ex_worker) = Ok ex_mld) as Hm by (vm_compute; reflexivity).
  assert (∀ node, targets (view := view) Ex.module ex_state node → node = ex_worker) as Ht.
  { intros node [H _]. rewrite Hn in H. apply lookup_singleton_Some in H as [_ H]. done. }
  split.
  - vm_compute. reflexivity.
  - rewrite Hds. split.
    + intros key ds [<- <-]%lookup_singleton_Some _. split_and!; [vm_compute; reflexivity..|].
      rewrite bool_decide_false by (vm_compute; discriminate).
      split; [vm_compute; discriminate|vm_compute; reflexivity].
    + intros k1 k2 d1 d2 [<- <-]%lookup_singleton_Some [<- <-]%lookup_singleton_Some. done.
    + intros ds [H _]%lookup_singleton_Some. discriminate H.
  - rewrite Hcm. intros T k1 k2 c1 c2 H. by rewrite lookup_empty in H.
  - intros k mld. unfold ex_mappings. rewrite lookup_singleton_Some. split.
    + intros [<- <-]. split; [exact Hm|]. exists ex_worker. split; [|done]. split; [|split; vm_compute; reflexivity].
      rewrite Hn. apply lookup_singleton_eq.
    + intros [Hg (node & ->%Ht & <-)]. split; [done|]. rewrite Hm in Hg. by injection Hg.
  - intros node w ->%Ht. by rewrite Hm.
  - intros k mld. unfold ex_mappings. intros [<- <-]%lookup_singleton_Some. split.
    + exact Hm.
    + discriminate.
    + discriminate.
    + intros s. reflexivity.
    + intros s. reflexivity.
    + intros ds0 ds _. by left.
  - by right; left.
  - by right; left.
  - intros ds0 ds _. by left.
Qed.

Lemma Reconcile_converges_witness :
  let run := run_state ex_memory (operator_Reconcile "amd64" "kmm" ex_key) in
  let once := run ex_state in
  let twice := run once in
  converged (default_spec := default_spec) "kmm" Ex.module ex_mappings (view twice KDaemonSet) ∧
  view twice KDaemonSet = view once KDaemonSet ∧ size (view ex_state KDaemonSet) = 1 ∧
  view once KDaemonSet !! object_key (ds_meta ex_old) = None.
Proof.
  cbn zeta. destruct (Reconcile_converges "amd64" "kmm" Ex.module ex_key ex_mappings ex_state 1 ex_ready)
    as (_ & Hc & _ & Hs). destruct (Hs (le_n 1)) as [Hv _].
  split; [exact Hc|]. split; [exact Hv|]. split; vm_compute; reflexivity.
Defined.
