(* ===== verification/Progress.v ===== *)
(** * Progress of the Module controller

    The counterpart of its safety: a reconciliation that reports success has
    done everything the state it read calls for.  Every kernel of a
    schedulable node that has a mapping has its module loader on the server,
    or its image is being built or signed; the device plugin is on the server;
    and the DaemonSets of all other kernels were deleted. *)

From S2P Require Import Prelude Prog K8s Api Client Utils Helpers KernelMapper.
From S2P Require Import DaemonSet CA Registry Managers BuildConfig SignJob StatusUpdater ModuleReconciler Operator.
From stdpp Require Import options.

Local Open Scope go_scope.

Section progress.
Context {R : Regexp} {E : Envsubst} {MO : MapOrder} {BM : BuildManager} {SM : SignManager}.
Context {BP : BuildManagerProgress BM} {SP : SignManagerProgress SM}.
Variables (kernelLabel operatorNamespace : string).

(** The module loader of a kernel is on the server as desired. *)
Definition driver_applied (mld : ModuleLoaderData) (h : hist) : Prop :=
  ∃ ds0 ds sa, SetDriverContainerAsDesired kernelLabel (Some ds0) mld sa = Ok ds ∧
    applied KDaemonSet ds h.

(** A kernel is taken care of. *)
Definition kernel_settled (mld : ModuleLoaderData) (h : hist) : Prop :=
  driver_applied mld h ∨ bm_waiting mld true (mld_Owner mld) h ∨
  sm_waiting mld (previousImage mld) true (mld_Owner mld) h.

Definition device_plugin_applied (m : Module_) (h : hist) : Prop :=
  DevicePlugin (mod_Spec m) = None ∨
  ∃ ds0 ds sa, SetDevicePluginAsDesired (Some ds0) m sa = Ok ds ∧ applied KDaemonSet ds h.

Definition daemonsets_listed (m : Module_) (l : list DaemonSet) : @event req ans :=
  Ev (RList KDaemonSet (mk_listopts (Some (mod_Namespace m))
        (Some {[ ModuleNameLabel := mod_Name m ]}))) (Ok l).

(** A kernel some schedulable node runs, with a mapping. *)
Definition kernel_used (m : Module_) (nodes : list Node) (k : string) : Prop :=
  ∃ node, node ∈ nodes ∧ isNodeSchedulable node = true ∧ node_kernel node = k ∧
    has_mapping m node = true.

(** Everything the nodes and DaemonSets listed call for was done. *)
Definition all_done (m : Module_) (nodes : list Node) (dss : list DaemonSet) (h : hist) : Prop :=
  (∀ k mld, kernel_used m nodes k → GetModuleLoaderDataForKernel m k = Ok mld →
     kernel_settled mld h) ∧
  device_plugin_applied m h ∧
  (∀ ds, ds ∈ dss → ds_kernel kernelLabel ds ≠ "" →
     ¬ kernel_used m nodes (ds_kernel kernelLabel ds) → deleted_event ds ∈ h).

Lemma kernel_settled_monotone mld : monotone (kernel_settled mld).
Proof.
  intros h h' Hp [(ds0 & ds & sa & Hd & Ha)|[H|H]].
  - left. exists ds0, ds, sa. split; [done|]. by eapply applied_monotone.
  - right. left. by eapply bm_waiting_monotone.
  - right. right. by eapply sm_waiting_monotone.
Qed.

(** ** One kernel *)

Lemma wp_handleBuild_waiting mld h :
  wp (λ _ _, True) (handleBuild mld)
     (λ o h', match o with
              | Done (Ok false) => bm_waiting mld true (mld_Owner mld) h'
              | _ => True
              end) h.
Proof.
  unfold handleBuild. apply wp_bind. eapply wp_calls; [apply calls_any|done|].
  intros [[[]|e|w]|w] h1 _; try done. simpl.
  apply wp_bind. eapply wp_post; [apply wp_bm_Sync_waiting|].
  intros [[st [e|]]|w] h2 _ H2; try done. simpl. case_bool_decide; [done|]. by apply H2.
Qed.

Lemma wp_handleSigning_waiting mld h :
  wp (λ _ _, True) (handleSigning mld)
     (λ o h', match o with
              | Done (Ok false) => sm_waiting mld (previousImage mld) true (mld_Owner mld) h'
              | _ => True
              end) h.
Proof.
  unfold handleSigning. apply wp_bind. eapply wp_calls; [apply calls_any|done|].
  intros [[[]|e|w]|w] h1 _; try done. simpl.
  apply wp_bind. eapply wp_post; [apply wp_sm_Sync_waiting|].
  intros [[st [e|]]|w] h2 _ H2; try done. simpl. case_bool_decide; [done|]. by apply H2.
Qed.

Lemma wp_handleDriverContainer_applied mld dss h :
  wp (λ _ _, True) (handleDriverContainer kernelLabel operatorNamespace mld dss)
     (λ o h', match o with
              | Done (Ok dss') => driver_applied mld h' ∧
                  ∀ k, k ≠ mld_KernelVersion mld → dss' !! k = dss !! k
              | _ => True
              end) h.
Proof.
  unfold handleDriverContainer. apply wp_bind. eapply wp_post; [apply wp_CreateOrPatch_applied|].
  intros [[r|e|w]|w] h' _ H; try done. cbn [wp]. destruct H as (ds0 & ds & Hd & Ha). split.
  - by exists ds0, ds, (bool_decide (mld_Namespace mld = operatorNamespace)).
  - intros k Hk. destruct (isSome _); [|done]. by rewrite lookup_insert_ne.
Qed.

Lemma wp_handle_kernel_settled k mld dss h :
  mld_KernelVersion mld = k →
  wp (λ _ _, True) (handle_kernel kernelLabel operatorNamespace k mld dss)
     (λ o h', match o with
              | Done (Next dss') => kernel_settled mld h' ∧ ∀ k', k' ≠ k → dss' !! k' = dss !! k'
              | Done (Return r) => ∃ err, r = Err err
              | _ => True
              end) h.
Proof.
  intros Hk. unfold handle_kernel.
  apply wp_bind. eapply wp_post; [apply wp_handleBuild_waiting|].
  intros [[[]|e|w]|w] h1 _ H1; try done; cbn [wp negb]; [|by split; [right; left|]|by eexists].
  apply wp_bind. eapply wp_post; [apply wp_handleSigning_waiting|].
  intros [[[]|e|w]|w] h2 _ H2; try done; cbn [wp negb]; [|by split; [right; right|]|by eexists].
  apply wp_bind. eapply wp_post; [apply wp_handleDriverContainer_applied|].
  intros [[dss'|e|w]|w] h3 _ H3; try done; cbn [wp]; [|by eexists].
  destruct H3 as [Ha Hl]. split; [by left|]. by rewrite <-Hk.
Qed.

(** ** A reconciliation *)

Lemma wp_kernels_settled m mappings dss h :
  (∀ k mld, mappings !! k = Some mld → GetModuleLoaderDataForKernel m k = Ok mld) →
  wp (λ _ _, True)
     (range_loop (range_map mappings)
        (λ '(k, mld) dss, handle_kernel kernelLabel operatorNamespace k mld dss) dss)
     (λ o h', match o with
              | Done (Next dss') =>
                  (∀ k mld, mappings !! k = Some mld → kernel_settled mld h') ∧
                  ∀ k, k ∉ dom mappings → dss' !! k = dss !! k
              | Done (Return r) => ∃ err, r = Err err
              | _ => True
              end) h.
Proof.
  intros Hmap. eapply (wp_range_loop _ _ _ _ (λ l dss' h',
    (∀ k mld, (k, mld) ∈ l → kernel_settled mld h') ∧
    ∀ k, k ∉ dom mappings → dss' !! k = dss !! k)).
  - split; [set_solver|done].
  - intros pre [k mld] post dss1 h1 Heq [Hs Hd].
    assert (mappings !! k = Some mld) as Hk by (apply elem_of_range_map; rewrite Heq; set_solver).
    eapply wp_post; [apply wp_handle_kernel_settled; by eapply mld_kernel, Hmap|].
    intros [[dss2|r]|w] h2 Hp H2; try done. destruct H2 as [Hset Hl]. split.
    + intros k' mld' [Hin|[= -> ->]%list_elem_of_singleton]%elem_of_app; [|done].
      eapply kernel_settled_monotone; [exact Hp|by eapply Hs].
    + intros k' Hk'. rewrite Hl; [by apply Hd|]. intros ->. by apply elem_of_dom_2 in Hk.
  - intros dss1 h1 [Hs Hd]. split; [|done]. intros k mld Hk.
    eapply Hs, elem_of_range_map, Hk.
Qed.

Lemma wp_finish_done m mappings mapped targeted dss h :
  wp (λ _ _, True)
     (finish_reconcile kernelLabel operatorNamespace m mappings mapped targeted dss)
     (λ o h', match o with
              | Done (Ok _) => device_plugin_applied m h' ∧
                  ∀ k ds, dss !! k = Some ds → ds_kernel kernelLabel ds ≠ "" →
                    k ∉ dom mappings → deleted_event ds ∈ h'
              | _ => True
              end) h.
Proof.
  unfold finish_reconcile. apply wp_bind.
  eapply (wp_post _ _ (λ o h', match o with Done (Ok _) => device_plugin_applied m h' | _ => True end)).
  { unfold handleDevicePlugin. destruct (DevicePlugin (mod_Spec m)) as [dp|] eqn:Hdp; [|by left].
    apply wp_bind. eapply wp_post; [apply wp_CreateOrPatch_applied|].
    intros [[r|e|w]|w] h' _ H; try done. destruct H as (ds0 & ds & Hd & Ha).
    right. by exists ds0, ds, (bool_decide (mod_Namespace m = operatorNamespace)). }
  intros [[[]|e|w]|w] h1 _ Hdp; try done. apply wp_bind. unfold garbageCollect.
  apply wp_bind, wp_GarbageCollect; [done|]. intros [[r|e|w]|w] tr Htr; try done.
  destruct Htr as [-> _]. apply wp_bind. eapply wp_calls; [apply calls_any|done|].
  intros [[r2|e|w]|w] h2 Hp2; try done. apply wp_bind. eapply wp_calls; [apply calls_any|done|].
  intros [[r3|e|w]|w] h3 Hp3; try done. cbn [wp]. apply wp_bind. split; [done|].
  intros [m'|e|w]; try done. cbn [wp prog_bind].
  assert (h1 ++ (deleted_event <$> garbage kernelLabel dss (dom mappings)) `prefix_of`
    h3 ++ [Ev (RStatusPatch KModule (module_status m mapped targeted dss) m) (Ok m')]) as [l ->]
    by (trans h2; [done|]; trans h3; [done|]; by apply prefix_app_r).
  split.
  - destruct Hdp as [?|(ds0 & ds & sa & Hd & Ha)]; [by left|]. right. exists ds0, ds, sa.
    split; [done|]. eapply applied_monotone; [|exact Ha]. rewrite <-app_assoc. by apply prefix_app_r.
  - intros k ds Hk Hne Hv. apply elem_of_app. left. apply elem_of_app. right.
    apply list_elem_of_fmap_2, elem_of_garbage. by exists k.
Qed.

(** A successful reconciliation of a Module. *)
Definition progress_post (m : Module_) (o : outcome (result ReconcileResult)) (h : hist) : Prop :=
  match o with
  | Done (Ok _) => ∃ nodes dss, nodes_listed m nodes ∈ h ∧ daemonsets_listed m dss ∈ h ∧
                     all_done m nodes dss h
  | _ => True
  end.

Lemma wp_reconcile_module_done m h :
  wp (λ _ _, True) (reconcile_module kernelLabel operatorNamespace m) (progress_post m) h.
Proof.
  unfold reconcile_module, getNodesListBySelector. do 2 apply wp_bind. split; [done|].
  intros [nodes|e|w]; try done. change (Ev _ _) with (nodes_listed m nodes).
  apply wp_bind, wp_lift_result; [|done..]. intros [mappings mapped] Hrel.
  apply getRelevant_Ok in Hrel as [_ Hmap]. cbn [fst snd].
  unfold ModuleDaemonSetsByKernelVersion, moduleDaemonSets. do 3 apply wp_bind. split; [done|].
  intros [l|e|w]; try done. change (Ev _ (Ok l)) with (daemonsets_listed m l). cbn [wp].
  destruct (by_kernel kernelLabel l ∅) as [dss|e|w] eqn:Hby; [|done|].
  2: by apply by_kernel_no_panic in Hby.
  apply by_kernel_Ok in Hby as (Hnd & _ & Hdss). rewrite (right_id_L ∅ (∪)) in Hdss.
  apply wp_bind. eapply wp_post; [apply (wp_kernels_settled m); by intros k mld Hk%Hmap; destruct Hk|].
  intros [[dss1|r]|w] h1 Hp1 H1; try done; [|by destruct H1 as [? ->]].
  destruct H1 as [Hset Hsame]. eapply wp_post; [apply wp_finish_done|].
  intros [[r|e|w]|w] h2 Hp2 H2; try done. destruct H2 as [Hdp Hdel].
  assert ((h ++ [nodes_listed m nodes]) ++ [daemonsets_listed m l] `prefix_of` h2) as [tl ->]
    by (by trans h1).
  assert (∀ k, kernel_used m nodes k ↔ k ∈ dom mappings) as Hused.
  { intros k. rewrite elem_of_dom. split.
    - intros (node & Hn & Hsch & Hk & Hm). unfold has_mapping in Hm. rewrite Hk in Hm.
      destruct (GetModuleLoaderDataForKernel m k) as [mld| |] eqn:Hg; try done.
      exists mld. apply Hmap. split; [done|]. exists node. split; [|done].
      apply list_elem_of_In, List.filter_In. by rewrite <-list_elem_of_In.
    - intros [mld [Hg (node & Hn & Hk)]%Hmap]. apply list_elem_of_In, List.filter_In in Hn as [Hn Hs].
      exists node. apply list_elem_of_In in Hn. unfold has_mapping. by rewrite Hk, Hg. }
  exists nodes, l. unfold all_done. split_and!.
  - apply elem_of_app. left. apply elem_of_app. left. in_hist.
  - apply elem_of_app. left. in_hist.
  - intros k mld Hk Hg. eapply kernel_settled_monotone; [exact Hp2|].
    apply (Hset k). apply Hused, elem_of_dom in Hk as [mld' Hk']. rewrite Hk'.
    apply Hmap in Hk' as [Hk' _]. congruence.
  - done.
  - intros ds Hin Hne Hnot. apply (Hdel (ds_kernel kernelLabel ds)); [|done|by rewrite <-Hused].
    rewrite Hsame by (by rewrite <-Hused). rewrite Hdss. apply elem_of_list_to_map_1.
    + rewrite <-list_fmap_compose. exact Hnd.
    + apply list_elem_of_fmap. by exists ds.
Qed.

Lemma wp_Reconcile_done key :
  wp (λ _ _, True) (Reconcile kernelLabel operatorNamespace key)
     (λ o h, match o with
             | Done (Ok _) =>
                 (∃ err, h = [Ev (RGet KModule key) (Err err)] ∧ IsNotFound err = true) ∨
                 ∃ m, (Ev (RGet KModule key) (Ok m) : @event req ans) ∈ h ∧ progress_post m o h
             | _ => True
             end) [].
Proof.
  unfold Reconcile, getRequestedModule. do 2 apply wp_bind. split; [done|].
  intros [m|err|w]; try done.
  - apply wp_bind. eapply wp_calls; [apply calls_any|done|].
    intros [[[]|e|w]|w] h1 Hp1; try done. apply wp_bind.
    eapply wp_calls; [apply calls_any|done|]. intros [[]|w] h2 Hp2; try done.
    eapply wp_post; [apply wp_reconcile_module_done|].
    intros [[r|e|w]|w] h' Hp3 H; try done. right. exists m. split; [|done].
    assert ([Ev (RGet KModule key) (Ok m)] `prefix_of` h') as [l ->]
      by (trans h1; [done|]; by trans h2). by left.
  - cbn [wp prog_bind]. destruct (IsNotFound _) eqn:Hnf; [|done]. left. by exists err.
Qed.

(** ** Properties *)

(** C6: progress of the Module controller, for every API server and every
    build and sign manager: when a reconciliation reports success and the
    Module exists, every kernel of the schedulable nodes listed that has a
    mapping has its desired module loader on the server, or a build or a
    signing of its image under way or failed; the desired device plugin is on
    the server if one is configured; and each DaemonSet listed for any other
    kernel was deleted. *)
Theorem Reconcile_progress {S} (srv : kserver S) s key r :
  let p := Reconcile kernelLabel operatorNamespace key in
  let h := run_trace srv p s in
  run_out srv p s = Done (Ok r) →
  (∃ err, h = [Ev (RGet KModule key) (Err err)] ∧ IsNotFound err = true) ∨
  ∃ m nodes dss, (Ev (RGet KModule key) (Ok m) : @event req ans) ∈ h ∧
    nodes_listed m nodes ∈ h ∧ daemonsets_listed m dss ∈ h ∧ all_done m nodes dss h.
Proof using Type*.
  intros p h Hout.
  pose proof (wp_run _ _ _ srv s (wp_Reconcile_done key)) as [H _].
  fold p in H. rewrite Hout in H. destruct H as [H|(m & Hm & nodes & dss & H)]; [by left|].
  right. by exists m, nodes, dss.
Qed.
End progress.

(** ** Example *)

Lemma Reconcile_progress_witness :
  ∃ m nodes dss, let h := run_trace ex_cluster ex_reconcile tt in
    nodes_listed m nodes ∈ h ∧
    all_done (R := regexp_substring) (E := envsubst_id)
      (BP := buildconfig_manager_progress (D := ex_decoder) (Hs := ex_hasher) "amd64")
      (SP := signjob_manager_progress (D := ex_decoder) (Hs := ex_hasher) "amd64")
      KernelLabel m nodes dss h.
Proof.
  destruct (Reconcile_progress (R := regexp_substring) (E := envsubst_id) (MO := map_order_std)
    (BP := buildconfig_manager_progress (D := ex_decoder) (Hs := ex_hasher) "amd64")
    (SP := signjob_manager_progress (D := ex_decoder) (Hs := ex_hasher) "amd64")
    KernelLabel "gpu" ex_cluster tt (NN "gpu" "nvidia") no_requeue (proj2 ex_reconcile_runs))
    as [(err & H & _)|(m & nodes & dss & _ & H1 & _ & H2)].
  - apply (f_equal length) in H. change (14 = 1) in H. done.
  - exists m, nodes, dss. exact (conj H1 H2).
Defined.
