(* ===== verification/Filter.v ===== *)
(** * internal/filter

    Which events of the watched objects queue a reconciliation, and of what.
    A predicate maps an event to a boolean; one that asserts the type of the
    object, or dereferences a pointer of it, may panic. *)

From S2P Require Import Prelude Prog K8s Api Client.
From stdpp Require Import options.

Local Open Scope go_scope.

(** ** Events and predicates *)

(** client.Object *)
Definition AnyObj : Type := { k : kind & obj k }.
Definition any (k : kind) (o : obj k) : AnyObj := existT k o.
Definition any_meta (o : AnyObj) : ObjectMeta := obj_meta (projT1 o) (projT2 o).
(** A type assertion with [ok]. *)
Definition assert_kind (k : kind) (o : AnyObj) : option (obj k) := as_kind k (projT2 o).

Inductive watch_event :=
  | CreateEvent (o : AnyObj)
  | UpdateEvent (ObjectOld ObjectNew : AnyObj)
  | DeleteEvent (o : AnyObj)
  | GenericEvent (o : AnyObj).

Definition Predicate := watch_event → result bool.

(** predicate.NewPredicateFuncs *)
Definition NewPredicateFuncs (f : AnyObj → bool) : Predicate := λ e,
  match e with
  | CreateEvent o | DeleteEvent o | GenericEvent o => Ok (f o)
  | UpdateEvent _ new => Ok (f new)
  end.

(** predicate.Funcs with an update function only *)
Definition UpdateFunc (f : AnyObj → AnyObj → result bool) : Predicate := λ e,
  match e with UpdateEvent old new => f old new | _ => Ok true end.

(** predicate.And and predicate.Or *)
Fixpoint predicate_And (ps : list Predicate) : Predicate := λ e,
  match ps with
  | [] => Ok true
  | p :: ps => b ← p e; if (b : bool) then predicate_And ps e else Ok false
  end.
Fixpoint predicate_Or (ps : list Predicate) : Predicate := λ e,
  match ps with
  | [] => Ok false
  | p :: ps => b ← p e; if (b : bool) then Ok true else predicate_Or ps e
  end.

(** predicate.LabelChangedPredicate, predicate.GenerationChangedPredicate *)
Definition LabelChangedPredicate : Predicate :=
  UpdateFunc (λ old new,
    Ok (negb (bool_decide (om_Labels (any_meta new) = om_Labels (any_meta old))))).
Definition GenerationChangedPredicate : Predicate :=
  UpdateFunc (λ old new,
    Ok (negb (bool_decide (om_Generation (any_meta new) = om_Generation (any_meta old))))).

(** ** The predicates of the operator *)

Definition HasLabel (label : string) : Predicate :=
  NewPredicateFuncs (λ o, negb (bool_decide (omap_get (om_Labels (any_meta o)) label = ""))).

Definition skipDeletions : Predicate := λ e,
  match e with DeleteEvent _ => Ok false | _ => Ok true end.

Definition clusterClaim (name : string) (clusterClaims : list ManagedClusterClaim)
    : option ManagedClusterClaim :=
  List.find (λ c, bool_decide (claim_Name c = name)) clusterClaims.

Definition kmmClusterClaimChanged : Predicate :=
  UpdateFunc (λ old new,
    match assert_kind KManagedCluster old, assert_kind KManagedCluster new with
    | Some oldManagedCluster, Some newManagedCluster =>
        match clusterClaim KernelVersionsClusterClaimName (mc_ClusterClaims newManagedCluster) with
        | None => Ok false
        | Some newClusterClaim =>
            Ok (negb (bool_decide (Some newClusterClaim =
              clusterClaim KernelVersionsClusterClaimName (mc_ClusterClaims oldManagedCluster))))
        end
    | _, _ => Ok false
    end).

Definition ModuleReconcilerNodePredicate (kernelLabel : string) : Predicate :=
  predicate_And [skipDeletions; HasLabel kernelLabel; LabelChangedPredicate].

Definition interface_conversion := "interface conversion".

Definition NodeKernelReconcilerPredicate (labelName : string) : Predicate := λ e,
  match e with
  | UpdateEvent old new =>
      match assert_kind KNode new, assert_kind KNode old with
      | Some newNode, Some oldNode =>
          let kernelVersionChanged :=
            negb (bool_decide (omap_get (om_Labels (node_meta newNode)) labelName
                               = node_KernelVersion newNode)) in
          let osImageChanged := negb (bool_decide (node_OSImage newNode = node_OSImage oldNode)) in
          Ok (kernelVersionChanged || osImageChanged)
      | _, _ => Panic interface_conversion
      end
  | DeleteEvent _ => Ok false
  | _ => Ok true
  end.

(** The map from tag to image; a tag without [from] panics. *)
Fixpoint tags_map (tags : list TagReference) (m : strmap) : result strmap :=
  match tags with
  | [] => Ok m
  | t :: tags =>
      match tag_From t with
      | None => Panic "runtime error: invalid memory address or nil pointer dereference"
      | Some from => tags_map tags (<[tag_Name t := from]> m)
      end
  end.

Definition ImageStreamReconcilerPredicate : Predicate :=
  UpdateFunc (λ old new,
    match assert_kind KImageStream new, assert_kind KImageStream old with
    | Some newIS, Some oldIS =>
        newTags ← tags_map (is_Tags newIS) ∅;
        oldTags ← tags_map (is_Tags oldIS) ∅;
        Ok (negb (bool_decide (newTags = oldTags)))
    | _, _ => Panic interface_conversion
    end).

Definition NodeUpdateKernelChangedPredicate : Predicate :=
  UpdateFunc (λ old new,
    match assert_kind KNode old, assert_kind KNode new with
    | Some oldNode, Some newNode =>
        Ok (negb (bool_decide (node_KernelVersion oldNode = node_KernelVersion newNode)))
    | _, _ => Ok false
    end).

Definition ManagedClusterModuleReconcilerManagedClusterPredicate : Predicate :=
  predicate_Or [LabelChangedPredicate; kmmClusterClaimChanged].

Definition DeletingPredicate : Predicate :=
  NewPredicateFuncs (λ o, negb (deletion_is_zero (any_meta o))).

Definition MatchesNamespacedNamePredicate (nsn : NamespacedName) : Predicate :=
  NewPredicateFuncs (λ o, bool_decide (om_Name (any_meta o) = nn_Name nsn)
                          && bool_decide (om_Namespace (any_meta o) = nn_Namespace nsn)).

Definition PodHasSpecNodeName : Predicate :=
  NewPredicateFuncs (λ o,
    match assert_kind KPod o with
    | Some pod => negb (bool_decide (pod_NodeName pod = ""))
    | None => false
    end).

Definition PodReadinessChangedPredicate : Predicate :=
  UpdateFunc (λ old new,
    match assert_kind KPod old, assert_kind KPod new with
    | Some oldPod, Some newPod =>
        Ok (negb (bool_decide (IsPodReady oldPod = IsPodReady newPod)))
    | _, _ => Ok true
    end).

Definition PreflightReconcilerUpdatePredicate : Predicate := GenerationChangedPredicate.
Definition PreflightOCPReconcilerUpdatePredicate : Predicate := GenerationChangedPredicate.

(** ** Mapping an object to reconciliation requests *)

(** labels.NewRequirement(k, Equals, {v}) succeeds: the key is a qualified
    name and the value a label value. *)
Class LabelValidation := valid_requirement : string → string → bool.
Definition valid_all : LabelValidation := λ _ _, true.

Section find.
Context {LV : LabelValidation}.

Definition valid_selector (sel : strmap) : bool :=
  forallb (λ r, valid_requirement r.1 r.2) (map_to_list sel).

(** The loop over the objects: an invalid requirement ends it with what was
    found so far. *)
Fixpoint find_matching {A} (selector : A → strmap) (key : A → NamespacedName)
    (ls : option strmap) (mods : list A) : list NamespacedName :=
  match mods with
  | [] => []
  | m :: mods =>
      if negb (valid_selector (selector m)) then []
      else if negb (labels_match (selector m) ls) then find_matching selector key ls mods
      else key m :: find_matching selector key ls mods
  end.

Definition FindModulesForNode (node : AnyObj) : M (list NamespacedName) :=
  prog_bind (λ r, match r with
    | Err _ => Ret []
    | Panic w => Crash w
    | Ok mods => Ret (find_matching (λ m, Selector (mod_Spec m))
                        (λ m, NN (mod_Namespace m) (mod_Name m)) (om_Labels (any_meta node)) mods)
    end) (List_ KModule list_all).

Definition FindManagedClusterModulesForCluster (cluster : AnyObj) : M (list NamespacedName) :=
  prog_bind (λ r, match r with
    | Err _ => Ret []
    | Panic w => Crash w
    | Ok mods => Ret (find_matching (λ m, mcms_Selector (mcm_Spec m))
                        (λ m, NN "" (om_Name (mcm_meta m))) (om_Labels (any_meta cluster)) mods)
    end) (List_ KManagedClusterModule list_all).
End find.

Definition EnqueueAllPreflightValidations (m : AnyObj) : M (list NamespacedName) :=
  prog_bind (λ r, match r with
    | Err _ => Ret []
    | Panic w => Crash w
    | Ok preflights =>
        Ret (List.map (λ p, object_key (pv_meta p))
               (List.filter (λ p, negb (isSome (om_DeletionTimestamp (pv_meta p)))) preflights))
    end) (List_ KPreflight list_all).

(** ** Facts *)

Lemma find_matching_take {LV : LabelValidation} {A} (sel : A → strmap) key ls mods :
  ∃ pre post, mods = pre ++ post ∧ Forall (λ m, valid_selector (sel m) = true) pre ∧
    match post with [] => True | m :: _ => valid_selector (sel m) = false end ∧
    find_matching sel key ls mods = List.map key (List.filter (λ m, labels_match (sel m) ls) pre).
Proof.
  induction mods as [|m mods (pre & post & -> & Hpre & Hpost & IH)]; simpl.
  - by exists [], [].
  - destruct (valid_selector (sel m)) eqn:Hv; simpl.
    + exists (m :: pre), post. split_and!; [done|by constructor|done|]. simpl. rewrite IH.
      by destruct (labels_match (sel m) ls).
    + by exists [], (m :: pre ++ post).
Qed.

Lemma assert_kind_any k (o : obj k) : assert_kind k (any k o) = Some o.
Proof. apply as_kind_same. Qed.

(** ** Properties *)

(** Against every API server, a node queues the Modules whose selector
    its labels satisfy, in the order listed, up to the first Module with a
    selector that label validation rejects: that Module and all the ones
    listed after it are not queued; nothing is queued when listing fails, and
    listing is the only call. *)
Theorem FindModulesForNode_spec {LV : LabelValidation} {S} (srv : kserver S) s node :
  let q := RList KModule list_all in
  let p := FindModulesForNode node in
  (ev_req <$> run_trace srv p s) = [q] ∧
  match (srv q s).1 with
  | Ok mods => ∃ pre post, mods = pre ++ post ∧
      Forall (λ m, valid_selector (Selector (mod_Spec m)) = true) pre ∧
      match post with [] => True | m :: _ => valid_selector (Selector (mod_Spec m)) = false end ∧
      ∃ reqs, run_out srv p s = Done reqs ∧
        ∀ nsn, nsn ∈ reqs ↔ ∃ m, m ∈ pre ∧ nsn = NN (mod_Namespace m) (mod_Name m) ∧
          ∀ k v, Selector (mod_Spec m) !! k = Some v →
                 omap_lookup (om_Labels (any_meta node)) k = Some v
  | Err _ => run_out srv p s = Done []
  | Panic w => run_out srv p s = Crashed w
  end.
Proof.
  simpl. unfold run_trace, run_out. simpl.
  destruct (srv (RList KModule list_all) s) as [[mods|e|w] s1]; simpl; split; try done.
  destruct (find_matching_take (λ m, Selector (mod_Spec m)) (λ m, NN (mod_Namespace m) (mod_Name m))
    (om_Labels (any_meta node)) mods) as (pre & post & -> & Hpre & Hpost & ->).
  exists pre, post. split_and!; try done. eexists. split; [done|]. intros nsn.
  rewrite list_elem_of_In, in_map_iff. setoid_rewrite List.filter_In.
  setoid_rewrite <-list_elem_of_In. setoid_rewrite labels_match_spec. split.
  - intros (m & <- & Hin & Hl). by exists m.
  - intros (m & Hin & -> & Hl). by exists m.
Qed.

(** The node controller is told of every update of a node whose kernel
    version ends in a plus sign and whose label holds the version without it,
    as the label it compares with the raw version never equals it; for the
    other nodes, of exactly the updates that change the OS image or find a
    label that differs from the kernel version. *)
Theorem NodeKernelReconcilerPredicate_spec labelName old new b :
  NodeKernelReconcilerPredicate labelName (UpdateEvent (any KNode old) (any KNode new)) = Ok b →
  (omap_get (om_Labels (node_meta new)) labelName = str_trim_suffix "+" (node_KernelVersion new) →
   (∃ v, node_KernelVersion new = v +:+ "+") → b = true) ∧
  (omap_get (om_Labels (node_meta new)) labelName = str_trim_suffix "+" (node_KernelVersion new) →
   (∀ v, node_KernelVersion new ≠ v +:+ "+") → b = negb (bool_decide (node_OSImage new = node_OSImage old))).
Proof.
  unfold NodeKernelReconcilerPredicate. rewrite !assert_kind_any. intros [= <-].
  split.
  - intros -> [v Hv]. rewrite Hv, str_trim_suffix_app, bool_decide_false; [done|].
    intros H. apply (f_equal String.length) in H. rewrite str_length_app in H. simpl in H. lia.
  - intros -> Hv. rewrite str_trim_suffix_other by done. by rewrite bool_decide_true.
Qed.

(** The Module controller is told of an update of a node exactly when the
    node carries a kernel label and its labels changed, of every creation of a
    node with a kernel label, and of no deletion. *)
Theorem ModuleReconcilerNodePredicate_spec kernelLabel e :
  ModuleReconcilerNodePredicate kernelLabel e = Ok (
    let labelled o := negb (bool_decide (omap_get (om_Labels (any_meta o)) kernelLabel = "")) in
    match e with
    | CreateEvent o | GenericEvent o => labelled o
    | UpdateEvent old new =>
        labelled new && negb (bool_decide (om_Labels (any_meta new) = om_Labels (any_meta old)))
    | DeleteEvent _ => false
    end).
Proof.
  destruct e; unfold ModuleReconcilerNodePredicate; simpl; try done;
    by destruct (negb (bool_decide (omap_get _ _ = ""))); simpl; try destruct (negb _).
Qed.

(** the image-stream controller's predicate panics on an update of an
    image stream exactly when one of the two versions has a tag without a
    [from] reference. *)
Theorem ImageStreamReconcilerPredicate_panic old new :
  (∃ w, ImageStreamReconcilerPredicate (UpdateEvent (any KImageStream old) (any KImageStream new))
        = Panic w) ↔
  Exists (λ t, tag_From t = None) (is_Tags new ++ is_Tags old).
Proof.
  assert (∀ tags m, (∃ w, tags_map tags m = Panic w) ↔ Exists (λ t, tag_From t = None) tags) as Hp.
  { intros tags. induction tags as [|t tags IH]; intros m; simpl.
    - rewrite Exists_nil. split; [by intros [??]|done].
    - rewrite Exists_cons. destruct (tag_From t) eqn:Ht; [rewrite IH|split; [by left|eauto]].
      split; [by right|]. intros [?|?]; [congruence|done]. }
  assert (∀ tags m err, tags_map tags m ≠ Err err) as He.
  { intros tags. induction tags as [|t tags IH]; intros m err; simpl; [done|]. by destruct (tag_From t). }
  unfold ImageStreamReconcilerPredicate, UpdateFunc. rewrite !assert_kind_any, Exists_app, <-(Hp (is_Tags new) ∅), <-(Hp (is_Tags old) ∅).
  destruct (tags_map (is_Tags new) ∅) as [n|?|?] eqn:Hn; simpl;
    [|by apply He in Hn|split; [by left; eexists|eauto]].
  destruct (tags_map (is_Tags old) ∅) as [o|?|?] eqn:Ho; simpl;
    [split; [by intros [??]|by intros [[? Hx]|[? Hx]]; congruence]|by apply He in Ho|
     split; [by right; eexists|eauto]].
Qed.

Definition ex_plus_node : Node :=
  mk_node (set_labels (Some {[ KernelLabel := "5.14" ]}) empty_meta) [] "5.14+" "os".

Lemma NodeKernelReconcilerPredicate_spec_witness : ∃ b,
  NodeKernelReconcilerPredicate KernelLabel
    (UpdateEvent (any KNode ex_plus_node) (any KNode ex_plus_node)) = Ok b ∧ b = true.
Proof.
  eexists. split; [reflexivity|].
  refine (proj1 (NodeKernelReconcilerPredicate_spec KernelLabel ex_plus_node ex_plus_node _ _) _ _);
    [reflexivity|reflexivity|by exists "5.14"].
Defined.

(** A Module whose selector label validation rejects hides the next one. *)
Definition ex_bad_module : Module_ :=
  mk_module (meta_named "bad" "gpu")
    (mk_modspec None (mk_mlspec Ex.container "") None {[ "bad key" := "x" ]}) empty_modstatus.
Definition ex_validation : LabelValidation := λ k _, negb (str_contains " " k).
Definition ex_module_list : kserver unit := stateless (λ q,
  match q return ans q with
  | RList KModule _ => Ok [ex_bad_module; Ex.module]
  | q => accept q
  end).
Definition ex_worker : AnyObj :=
  any KNode (set_meta (set_labels (Some {[ "role" := "worker" ]}) (meta_named "n1" "")) ex_plus_node).

Lemma FindModulesForNode_spec_witness :
  run_out ex_module_list (FindModulesForNode (LV := ex_validation) ex_worker) tt = Done [] ∧
  run_out ex_module_list (FindModulesForNode (LV := valid_all) ex_worker) tt = Done [NN "gpu" "nvidia"] ∧
  (ev_req <$> run_trace ex_module_list (FindModulesForNode (LV := ex_validation) ex_worker) tt)
    = [RList KModule list_all].
Proof.
  split; [reflexivity|]. split; [reflexivity|].
  exact (proj1 (FindModulesForNode_spec (LV := ex_validation) ex_module_list tt ex_worker)).
Defined.
