(* ===== verification/Watches.v ===== *)
(** * What wakes each controller

    Every SetupWithManager of controllers/ and controllers/hub says which
    kinds a controller watches, with which predicates, and how an event turns
    into reconciliation requests.  This file models the builder they use, the
    three event handlers of controller-runtime, the watches of the eight
    controllers and the set of controllers each of the two managers starts
    (cmd/manager/main.go, cmd/manager-hub/main.go). *)

From S2P Require Import Prelude Prog K8s Api Client Filter.
From stdpp Require Import options.

Local Open Scope go_scope.

(** ** Event handlers *)

(** meta.RESTMapper, asked for the scope of a kind: discovery of the API
    server. *)
Inductive RESTScope := RESTScopeNamespace | RESTScopeRoot.
Class RESTMapper := RESTMapping : string → string → string → result RESTScope.

(** schema.ParseGroupVersion, with the version: an API version without a
    slash is the version itself. *)
Definition parse_version (gv : string) : string :=
  if bool_decide (gv = "") || bool_decide (gv = "/") then ""
  else match str_split (is_char "/"%char) gv with
       | [v] => v
       | [_; v] => v
       | _ => ""
       end.

(** scheme.ObjectKinds: the API version and the kind of each type. *)
Definition ObjectKinds (k : kind) : string * string :=
  match k with
  | KModule => (gvk_APIVersion Module_, gvk_Kind Module_)
  | KNode => (gvk_APIVersion Node, gvk_Kind Node)
  | KPod => (gvk_APIVersion Pod, gvk_Kind Pod)
  | KDaemonSet => (gvk_APIVersion DaemonSet, gvk_Kind DaemonSet)
  | KJob => (gvk_APIVersion Job, gvk_Kind Job)
  | KBuild => (gvk_APIVersion OCPBuild, gvk_Kind OCPBuild)
  | KConfigMap => (gvk_APIVersion ConfigMap, gvk_Kind ConfigMap)
  | KSecret => ("v1", "Secret")
  | KServiceAccount => ("v1", "ServiceAccount")
  | KPreflight => (gvk_APIVersion PreflightValidation, gvk_Kind PreflightValidation)
  | KPreflightOCP => (gvk_APIVersion PreflightValidationOCP, gvk_Kind PreflightValidationOCP)
  | KImageStream => ("image.openshift.io/v1", "ImageStream")
  | KManagedClusterModule => (gvk_APIVersion ManagedClusterModule, gvk_Kind ManagedClusterModule)
  | KManagedCluster => ("cluster.open-cluster-management.io/v1", "ManagedCluster")
  | KManifestWork => (gvk_APIVersion ManifestWork, gvk_Kind ManifestWork)
  | KClusterClaim => ("cluster.open-cluster-management.io/v1alpha1", "ClusterClaim")
  end.
Definition GroupKind (k : kind) : option string * string :=
  (parse_group (ObjectKinds k).1, (ObjectKinds k).2).

Inductive EventHandler :=
  | EnqueueRequestForObject
  | EnqueueRequestForOwner (OwnerType : kind) (IsController : bool)
  | EnqueueRequestsFromMapFunc (toRequests : AnyObj → M (list NamespacedName)).

Section handlers.
Context {RM : RESTMapper}.

Definition getOwnersReferences (isController : bool) (object : ObjectMeta) : list OwnerReference :=
  if negb isController then om_OwnerReferences object
  else match GetControllerOf object with Some ref => [ref] | None => [] end.

(** The loop over the references; an error ends it with what was found. *)
Fixpoint owner_requests (ownerType : kind) (namespace : string) (refs : list OwnerReference)
    : list NamespacedName :=
  match refs with
  | [] => []
  | ref :: refs =>
      match parse_group (or_APIVersion ref) with
      | None => []
      | Some group =>
          if bool_decide (or_Kind ref = (GroupKind ownerType).2)
             && bool_decide (Some group = (GroupKind ownerType).1)
          then match RESTMapping group (or_Kind ref) (parse_version (or_APIVersion ref)) with
               | Ok scope =>
                   NN (match scope with RESTScopeRoot => "" | RESTScopeNamespace => namespace end)
                     (or_Name ref) :: owner_requests ownerType namespace refs
               | _ => []
               end
          else owner_requests ownerType namespace refs
      end
  end.

Definition getOwnerReconcileRequest (ownerType : kind) (isController : bool) (object : AnyObj)
    : list NamespacedName :=
  owner_requests ownerType (om_Namespace (any_meta object))
    (getOwnersReferences isController (any_meta object)).

(** mapAndEnqueue for the objects of an event, in order: a request that is
    in [reqs] already is not added again. *)
Fixpoint mapAndEnqueue (toRequests : AnyObj → M (list NamespacedName)) (objects : list AnyObj)
    (reqs : list NamespacedName) : M (list NamespacedName) :=
  match objects with
  | [] => Ret reqs
  | o :: objects =>
      prog_bind (λ l, mapAndEnqueue toRequests objects
                        (reqs ++ List.filter (λ r, negb (bool_decide (r ∈ reqs))) (remove_dups l)))
        (toRequests o)
  end.

(** The objects of an event: for an update the old one first. *)
Definition event_objects (e : watch_event) : list AnyObj :=
  match e with
  | CreateEvent o | DeleteEvent o | GenericEvent o => [o]
  | UpdateEvent old new => [old; new]
  end.

(** The object an event is about: for an update the new one. *)
Definition event_object (e : watch_event) : AnyObj :=
  match e with
  | CreateEvent o | DeleteEvent o | GenericEvent o => o
  | UpdateEvent _ new => new
  end.

(** What a handler adds to the work queue; the queue is a set, so that order
    and repetition are of no importance. *)
Definition handle (h : EventHandler) (e : watch_event) : M (list NamespacedName) :=
  match h with
  | EnqueueRequestForObject => Ret [object_key (any_meta (event_object e))]
  | EnqueueRequestForOwner ownerType isController =>
      Ret (remove_dups (concat (List.map (getOwnerReconcileRequest ownerType isController)
                                  (event_objects e))))
  | EnqueueRequestsFromMapFunc f => mapAndEnqueue f (event_objects e) []
  end.

(** ** The builder *)

Record Watch := mk_watch {
  w_src : kind;                     (** source.Kind *)
  w_eventhandler : EventHandler;
  w_predicates : list Predicate }.

Record Builder := mk_builder {
  b_name : string;
  b_forInput : kind * list Predicate;
  b_ownsInput : list (kind * list Predicate);
  b_watchesInput : list Watch;
  b_globalPredicates : list Predicate }.

Definition doWatch (b : Builder) : list Watch :=
  mk_watch (fst (b_forInput b)) EnqueueRequestForObject (b_globalPredicates b ++ snd (b_forInput b))
  :: List.map (λ own, mk_watch (fst own) (EnqueueRequestForOwner (fst (b_forInput b)) true)
                        (b_globalPredicates b ++ snd own)) (b_ownsInput b)
  ++ List.map (λ w, mk_watch (w_src w) (w_eventhandler w) (b_globalPredicates b ++ w_predicates w))
       (b_watchesInput b).

(** OnAdd, OnUpdate and OnDelete of the event source: the event goes to the
    handler when every predicate, asked in order, says so. *)
Definition deliver (w : Watch) (e : watch_event) : M (list NamespacedName) :=
  match predicate_And (w_predicates w) e with
  | Ok true => handle (w_eventhandler w) e
  | Ok false | Err _ => Ret []
  | Panic p => Crash p
  end.

Definition event_kind (e : watch_event) : kind := projT1 (event_object e).

Fixpoint deliver_all (ws : list Watch) (e : watch_event) : M (list NamespacedName) :=
  match ws with
  | [] => Ret []
  | w :: ws =>
      if bool_decide (w_src w = event_kind e)
      then prog_bind (λ l, prog_bind (λ l', Ret (l ++ l')) (deliver_all ws e)) (deliver w e)
      else deliver_all ws e
  end.

(** The requests a controller gets for an event. *)
Definition queued (b : Builder) (e : watch_event) : M (list NamespacedName) :=
  deliver_all (doWatch b) e.
End handlers.

(** ** The controllers *)

Section setup.
Context {LV : LabelValidation}.

Definition ModuleReconciler_SetupWithManager (kernelLabel : string) : Builder :=
  mk_builder "Module" (KModule, []) [(KDaemonSet, []); (KBuild, []); (KJob, [])]
    [mk_watch KNode (EnqueueRequestsFromMapFunc FindModulesForNode)
       [ModuleReconcilerNodePredicate kernelLabel]] [].

Definition NodeKernelReconciler_SetupWithManager (labelName : string) : Builder :=
  mk_builder "NodeKernel" (KNode, []) [] [] [NodeKernelReconcilerPredicate labelName].

(** The predicate of the pod controller. *)
Definition pod_predicate : Predicate :=
  predicate_And [predicate_Or [PodReadinessChangedPredicate; DeletingPredicate];
                 HasLabel ModuleNameLabel; PodHasSpecNodeName].
Definition PodNodeModuleReconciler_SetupWithManager : Builder :=
  mk_builder "PodNodeModule" (KPod, []) [] [] [pod_predicate].

Definition PreflightValidationReconciler_SetupWithManager : Builder :=
  mk_builder "PreflightValidation" (KPreflight, [PreflightReconcilerUpdatePredicate])
    [(KBuild, []); (KJob, [])]
    [mk_watch KModule (EnqueueRequestsFromMapFunc EnqueueAllPreflightValidations)
       [PreflightReconcilerUpdatePredicate]] [].

Definition PreflightValidationOCPReconciler_SetupWithManager : Builder :=
  mk_builder "preflightvalidationocp" (KPreflightOCP, [PreflightOCPReconcilerUpdatePredicate])
    [(KPreflight, [])] [] [].

Definition NodeKernelClusterClaimReconciler_SetupWithManager : Builder :=
  mk_builder "NodeKernelClusterClaim" (KNode, [NodeUpdateKernelChangedPredicate]) []
    [mk_watch KClusterClaim (EnqueueRequestsFromMapFunc (λ _, Ret [NN "" ""]))
       [NewPredicateFuncs (λ o, bool_decide (om_Name (any_meta o) = KernelVersionsClusterClaimName))]]
    [].

Definition ImageStreamReconciler_SetupWithManager (nsn : NamespacedName) : Builder :=
  mk_builder "imagestream"
    (KImageStream, [predicate_And [MatchesNamespacedNamePredicate nsn; ImageStreamReconcilerPredicate]])
    [] [] [].

Definition ManagedClusterModuleReconciler_SetupWithManager : Builder :=
  mk_builder "ManagedClusterModule" (KManagedClusterModule, [])
    [(KManifestWork, []); (KBuild, []); (KJob, [])]
    [mk_watch KManagedCluster (EnqueueRequestsFromMapFunc FindManagedClusterModulesForCluster)
       [ManagedClusterModuleReconcilerManagedClusterPredicate]] [].

(** ** The managers *)

(** strconv.ParseBool *)
Definition ParseBool (s : string) : option bool :=
  if bool_decide (s ∈ ["1"; "t"; "T"; "true"; "TRUE"; "True"]) then Some true
  else if bool_decide (s ∈ ["0"; "f"; "F"; "false"; "FALSE"; "False"]) then Some false
  else None.

Definition GetBoolEnv (name envValue : string) : result bool :=
  if bool_decide (envValue = "") then Ok false
  else match ParseBool envValue with
       | None => Err (errorf (go_quote envValue +:+ ": invalid value for " +:+ name))
       | Some managed => Ok managed
       end.

(** The controllers of cmd/manager/main.go, in the order they are set up,
    for a value of KMM_MANAGED; a value that does not parse disables it. *)
Definition manager_controllers (KMM_MANAGED : string) : list Builder :=
  let managed := match GetBoolEnv "KMM_MANAGED" KMM_MANAGED with Ok b => b | _ => false end in
  [ModuleReconciler_SetupWithManager KernelLabel;
   NodeKernelReconciler_SetupWithManager KernelLabel;
   PodNodeModuleReconciler_SetupWithManager;
   PreflightValidationReconciler_SetupWithManager]
  ++ (if managed then [NodeKernelClusterClaimReconciler_SetupWithManager] else [])
  ++ [ImageStreamReconciler_SetupWithManager dtkNSN;
      PreflightValidationOCPReconciler_SetupWithManager].

(** The controllers of cmd/manager-hub/main.go. *)
Definition hub_controllers : list Builder :=
  [ManagedClusterModuleReconciler_SetupWithManager; ImageStreamReconciler_SetupWithManager dtkNSN].
End setup.
