(* ===== verification/Preflight.v ===== *)
(** * internal/preflight and controllers/preflightvalidation_reconciler.go

    Before a cluster is upgraded, a PreflightValidation names a kernel, and
    every Module is checked for it: its image exists and holds the kernel
    module, or it can be built and signed.  The PreflightValidation is a
    shared pointer that every status update changes, so it is threaded
    through the operations. *)

From S2P Require Import Prelude Prog K8s Api Client Utils Helpers.
From S2P Require Import KernelMapper Auth Registry StatusUpdater Metrics Managers BuildConfig SignJob ModuleReconciler.
From stdpp Require Import options.

Local Open Scope go_scope.

(** fmt.Sprintf(VerificationStatusReasonVerified, msg) *)
Definition VerificationStatusReasonVerified (msg : string) : string :=
  "Verification successful (" +:+ msg +:+ "), this Module will not be verified again in this Preflight CR".

Section preflight.
Context {D : ManifestDecoder} {R : Regexp} {E : Envsubst} {BM : BuildManager} {SM : SignManager}.
Variable goarch : string.

(** ** preflight.go *)

(** The loop over the layers, from the last one to the first. *)
Fixpoint verify_layers (mld : ModuleLoaderData) (repoConfig : RepoPullConfig)
    (digests : list string) : M (bool * string) :=
  let image := mld_ContainerImage mld in
  let moduleFileName := ModuleName (mld_Modprobe mld) +:+ ".ko" in
  let baseDir := DirName (mld_Modprobe mld) in
  let kernelVersion := mld_KernelVersion mld in
  match digests with
  | [] => Ret (false, "image " +:+ image +:+ " does not contain kernel module for kernel "
                      +:+ kernelVersion +:+ " on any layer")
  | digest :: digests =>
      try layer := GetLayerByDigest digest repoConfig
        catch _ => Ret (false, "image " +:+ image +:+ ", layer " +:+ digest +:+ " is inaccessible") in
      prog_bind (λ found : bool,
        if found then Ret (true, VerificationStatusReasonVerified "image accessible and verified")
        else verify_layers mld repoConfig digests)
        (VerifyModuleExists layer baseDir kernelVersion moduleFileName)
  end.

Definition verifyImage (mld : ModuleLoaderData) : M (bool * string) :=
  let image := mld_ContainerImage mld in
  let registryAuthGetter := NewRegistryAuthGetterFrom mld in
  try d := GetLayersDigests goarch image (mld_RegistryTLS mld) (Some registryAuthGetter)
    catch _ => Ret (false, "image " +:+ image +:+ " inaccessible or does not exists") in
  verify_layers mld (snd d) (rev (fst d)).

Definition verified_message (msg : string) (pushed : bool) : string :=
  VerificationStatusReasonVerified (if pushed then msg +:+ " and image pushed" else msg).

Definition verifyBuild (pv : PreflightValidation) (mld : ModuleLoaderData) : M (bool * string) :=
  let push := pvs_PushBuiltImage (pv_Spec pv) in
  prog_bind (λ r, match r with
    | (_, Some err) =>
        Ret (false, "Failed to verify build for module " +:+ mld_Name mld +:+ ", kernel version "
                    +:+ pvs_KernelVersion (pv_Spec pv) +:+ ", error " +:+ Error err)
    | (StatusCompleted, None) => Ret (true, verified_message "build compiles" push)
    | (_, None) => Ret (false, "Waiting for build verification")
    end) (bm_Sync mld push (as_owner pv)).

Definition verifySign (pv : PreflightValidation) (mld : ModuleLoaderData) : M (bool * string) :=
  let push := pvs_PushBuiltImage (pv_Spec pv) in
  let previousImage :=
    if ShouldBeBuilt mld
    then IntermediateImageName (mld_Name mld) (mld_Namespace mld) (mld_ContainerImage mld) else "" in
  prog_bind (λ r, match r with
    | (_, Some err) =>
        Ret (false, "Failed to verify signing for module " +:+ mld_Name mld +:+ ", kernel version "
                    +:+ pvs_KernelVersion (pv_Spec pv) +:+ ", error " +:+ Error err)
    | (StatusCompleted, None) => Ret (true, verified_message "sign completes" push)
    | (_, None) => Ret (false, "Waiting for sign verification")
    end) (sm_Sync mld previousImage push (as_owner pv)).

(** One stage: the stage is recorded (a failure is only logged), then the
    check runs on the pointer's new contents. *)
Definition stage (name : string) (check : PreflightValidation → M (bool * string))
    (pv : PreflightValidation) (mld : ModuleLoaderData)
    : M (PreflightValidation * (bool * string)) :=
  prog_bind (λ r : PreflightValidation * option error,
    prog_bind (λ v, Ret (fst r, v)) (check (fst r)))
    (PreflightSetVerificationStage pv (mld_Name mld) name).

Definition PreflightUpgradeCheck (pv : PreflightValidation) (mod_ : Module_)
    : M (PreflightValidation * (bool * string)) :=
  let kernelVersion := pvs_KernelVersion (pv_Spec pv) in
  try mld := lift_result (GetModuleLoaderDataForKernel mod_ kernelVersion)
    catch _ => Ret (pv, (false, "failed to process kernel mapping in the module " +:+ mod_Name mod_
                                +:+ " for kernel version " +:+ kernelVersion)) in
  prog_bind (λ '(pv, (verified, msg)),
    if (verified : bool) then Ret (pv, (true, msg)) else
    prog_bind (λ '(pv, (verified, msg)),
      if ShouldBeBuilt mld && negb verified then Ret (pv, (false, msg)) else
      prog_bind (λ '(pv, (verified, msg)),
        if ShouldBeSigned mld && negb verified then Ret (pv, (false, msg))
        else Ret (pv, (verified, msg)))
        (if ShouldBeSigned mld then stage VerificationStageSign (λ pv, verifySign pv mld) pv mld
         else Ret (pv, (verified, msg))))
      (if ShouldBeBuilt mld then stage VerificationStageBuild (λ pv, verifyBuild pv mld) pv mld
       else Ret (pv, (verified, msg))))
    (stage VerificationStageImage (λ _, verifyImage mld) pv mld).

(** ** preflightvalidation_reconciler.go *)

Definition reconcileRequeueInSeconds : Z := 180.
(** time.Second *)
Definition Second : Z := 1000000000.

Definition not_deleted (m : Module_) : bool := negb (isSome (om_DeletionTimestamp (mod_meta m))).

Definition presetModulesStatuses (pv : PreflightValidation) (modules : list Module_)
    : M (PreflightValidation * option error) :=
  let pv := set_crstatuses (Some (statuses pv)) pv in
  let existing := List.map mod_Name (List.filter not_deleted modules) in
  let newModulesNames := List.filter (λ n, negb (isSome (statuses pv !! n))) existing in
  PreflightPresetStatuses pv (list_to_set existing) newModulesNames.

(** The loop over the modules; a module without a status is a nil pointer. *)
Fixpoint select_unverified (pv : PreflightValidation) (modules : list Module_)
    : result (list Module_) :=
  match modules with
  | [] => Ok []
  | m :: modules =>
      if isSome (om_DeletionTimestamp (mod_meta m)) then select_unverified pv modules
      else
        match statuses pv !! mod_Name m with
        | None => Panic "runtime error: invalid memory address or nil pointer dereference"
        | Some st =>
            ms ← select_unverified pv modules;
            Ok (if bool_decide (VerificationStatus st = VerificationTrue) then ms else m :: ms)
        end
  end.

Definition getModulesToCheck (pv : PreflightValidation)
    : M (PreflightValidation * result (list Module_)) :=
  prog_bind (λ r, match r with
    | Panic w => Crash w
    | Err err => Ret (pv, Err (errorf_w "failed to get list of all Modules: " err))
    | Ok modules =>
        prog_bind (λ '(pv, e), match e with
          | Some err => Ret (pv, Err (errorf_w "failed to preset new modules' statuses: " err))
          | None =>
              try ms := lift_result (select_unverified pv modules) catch err => Ret (pv, Err err) in
              Ret (pv, Ok ms)
          end) (presetModulesStatuses pv modules)
    end) (List_ KModule list_all).

Definition updatePreflightStatus (pv : PreflightValidation) (moduleName message : string)
    (verified : bool) : M PreflightValidation :=
  let verificationStatus := if verified then VerificationTrue else VerificationFalse in
  let verificationStage := if verified then VerificationStageDone else VerificationStageRequeued in
  prog_bind (λ r : PreflightValidation * option error,
    prog_bind (λ r : PreflightValidation * option error, Ret (fst r))
      (PreflightSetVerificationStage (fst r) moduleName verificationStage))
    (PreflightSetVerificationStatus pv moduleName verificationStatus message).

Fixpoint check_modules (modulesToCheck : list Module_) (pv : PreflightValidation)
    : M PreflightValidation :=
  match modulesToCheck with
  | [] => Ret pv
  | m :: modulesToCheck =>
      prog_bind (λ '(pv, (verified, message)),
        prog_bind (check_modules modulesToCheck)
          (updatePreflightStatus pv (mod_Name m) message verified))
        (PreflightUpgradeCheck pv m)
  end.

(** The statuses say that every module is verified. *)
Definition all_verified (pv : PreflightValidation) : bool :=
  forallb (λ p : string * CRStatus, bool_decide (VerificationStatus p.2 = VerificationTrue))
    (map_to_list (statuses pv)).

Definition checkPreflightCompletion (name namespace : string) : M (result bool) :=
  try pv := Get KPreflight (NN namespace name)
    catch err => Ret (Err (errorf_w "failed to get preflight validation object in checkPreflightCompletion: "
                             err)) in
  Ret (Ok (all_verified pv)).

Definition runPreflightValidation (pv : PreflightValidation)
    : M (PreflightValidation * result bool) :=
  prog_bind (λ '(pv, r), match r with
    | Panic w => Crash w
    | Err err => Ret (pv, Err (errorf_w "failed to get list of modules to check for preflight: " err))
    | Ok modulesToCheck =>
        prog_bind (λ pv,
          prog_bind (λ r, Ret (pv, r))
            (checkPreflightCompletion (om_Name (pv_meta pv)) (om_Namespace (pv_meta pv))))
          (check_modules modulesToCheck pv)
    end) (getModulesToCheck pv).

Definition preflight_Reconcile (req : NamespacedName) : M (result ReconcileResult) :=
  prog_bind (λ r, match r with
    | Panic w => Crash w
    | Err err => if IsNotFound err then Ret (Ok no_requeue) else Ret (Err err)
    | Ok pv =>
        prog_bind (λ _,
          prog_bind (λ '(_, r), match r with
            | Panic w => Crash w
            | Err err => Ret (Err err)
            | Ok reconCompleted =>
                if (reconCompleted : bool) then Ret (Ok no_requeue)
                else Ret (Ok (mk_reconcile false (Second * reconcileRequeueInSeconds)))
            end) (runPreflightValidation pv))
          (SetKMMPreflightsNum 1)
    end) (Get KPreflight req).

(** ** What a verification rests on *)

Context {BS : BuildManagerSpec BM} {SS : SignManagerSpec SM}.

(** The server showed this PreflightValidation. *)
Definition pv_answer (pv : PreflightValidation) (h : hist) : Prop :=
  (∃ key, (Ev (RGet KPreflight key) (Ok pv) : @event req ans) ∈ h) ∨
  (∃ pv', (Ev (RStatusUpdate KPreflight pv') (Ok pv) : @event req ans) ∈ h).

(** ... or one that differs in its statuses only. *)
Definition pv_known (pv : PreflightValidation) (h : hist) : Prop :=
  ∃ pv0, pv_answer pv0 h ∧ pv_meta pv = pv_meta pv0 ∧ pv_Spec pv = pv_Spec pv0.

Definition mod_listed (m : Module_) (h : hist) : Prop :=
  ∃ l, (Ev (RList KModule list_all) (Ok l) : @event req ans) ∈ h ∧ m ∈ l.

Definition status_true (pv : PreflightValidation) (name : string) : Prop :=
  ∃ st, statuses pv !! name = Some st ∧ VerificationStatus st = VerificationTrue.

(** A layer of the image, pulled by a digest of the image's manifest, holds
    the kernel module for the kernel. *)
Definition image_verified (mld : ModuleLoaderData) (h : hist) : Prop :=
  ∃ layer, pulled_from (mld_ContainerImage mld) layer h ∧
    layer_has layer (module_path (DirName (mld_Modprobe mld)) (mld_KernelVersion mld)
                       (ModuleName (mld_Modprobe mld) +:+ ".ko")) h.

(** The stages the Module has completed for this PreflightValidation. *)
Definition build_verified (mld : ModuleLoaderData) (h : hist) : Prop :=
  ∃ pv, pv_known pv h ∧ bm_completed mld (pvs_PushBuiltImage (pv_Spec pv)) (as_owner pv) h.
Definition sign_verified (mld : ModuleLoaderData) (h : hist) : Prop :=
  ∃ pv, pv_known pv h ∧
    sm_completed mld (previousImage mld) (pvs_PushBuiltImage (pv_Spec pv)) (as_owner pv) h.

Definition module_verified (mld : ModuleLoaderData) (h : hist) : Prop :=
  image_verified mld h ∨
  ((mld_Build mld ≠ None ∨ mld_Sign mld ≠ None) ∧
   (mld_Build mld = None ∨ build_verified mld h) ∧ (mld_Sign mld = None ∨ sign_verified mld h)).

(** Why a module's status may be true: the server said so, or the Module was
    verified for the kernel of the PreflightValidation. *)
Definition justified (name : string) (h : hist) : Prop :=
  (∃ pv0, pv_answer pv0 h ∧ status_true pv0 name) ∨
  (∃ m mld pv, mod_listed m h ∧ not_deleted m = true ∧ mod_Name m = name ∧ pv_known pv h ∧
     GetModuleLoaderDataForKernel m (pvs_KernelVersion (pv_Spec pv)) = Ok mld ∧
     module_verified mld h).

(** The settings a listed Module has for the kernel of the PreflightValidation. *)
Definition preflight_data (mld : ModuleLoaderData) (h : hist) : Prop :=
  ∃ m pv, mod_listed m h ∧ not_deleted m = true ∧ pv_known pv h ∧
    GetModuleLoaderDataForKernel m (pvs_KernelVersion (pv_Spec pv)) = Ok mld.

(** A call of the build or sign manager, on behalf of the
    PreflightValidation, which says whether to push. *)
Definition verification_call (h : hist) (q : req) : Prop :=
  ∃ pv mld, pv_known pv h ∧ preflight_data mld h ∧
    let push := pvs_PushBuiltImage (pv_Spec pv) in
    (bm_call mld push (as_owner pv) h q ∨ sm_call mld (previousImage mld) push (as_owner pv) h q).

(** The calls preflight may make: it writes the status of the
    PreflightValidation with justified statuses, and what the build and sign
    managers do for it. *)
Definition preflight_allowed (h : hist) (q : req) : Prop :=
  is_write q = false ∨
  (∃ pv, q = RStatusUpdate KPreflight pv ∧ pv_known pv h ∧
         ∀ name, status_true pv name → justified name h) ∨
  verification_call h q.

Lemma pv_answer_monotone pv : monotone (pv_answer pv).
Proof.
  intros h h' [t ->] [[k H]|[p H]]; [left; exists k|right; exists p]; apply elem_of_app; by left.
Qed.
Lemma pv_known_monotone pv : monotone (pv_known pv).
Proof. intros h h' Hp (pv0 & H & ?). exists pv0. split; [by eapply pv_answer_monotone|done]. Qed.
Lemma mod_listed_monotone m : monotone (mod_listed m).
Proof. intros h h' [t ->] (l & H & ?). exists l. split; [apply elem_of_app; by left|done]. Qed.
Lemma preflight_data_monotone mld : monotone (preflight_data mld).
Proof.
  intros h h' Hp (m & pv & H1 & H2 & H3 & H4). exists m, pv.
  split_and!; [by eapply mod_listed_monotone|done|by eapply pv_known_monotone|done].
Qed.
Lemma image_verified_monotone mld : monotone (image_verified mld).
Proof.
  intros h h' Hp (l & H1 & H2). exists l.
  split; [by eapply pulled_from_monotone|by eapply layer_has_monotone].
Qed.
Lemma build_verified_monotone mld : monotone (build_verified mld).
Proof.
  intros h h' Hp (pv & H1 & H2). exists pv.
  split; [by eapply pv_known_monotone|by eapply bm_completed_monotone].
Qed.
Lemma sign_verified_monotone mld : monotone (sign_verified mld).
Proof.
  intros h h' Hp (pv & H1 & H2). exists pv.
  split; [by eapply pv_known_monotone|by eapply sm_completed_monotone].
Qed.
Lemma module_verified_monotone mld : monotone (module_verified mld).
Proof.
  intros h h' Hp [H|(H1 & H2 & H3)]; [left; by eapply image_verified_monotone|right].
  split; [done|]. split.
  - destruct H2; [by left|right; by eapply build_verified_monotone].
  - destruct H3; [by left|right; by eapply sign_verified_monotone].
Qed.
Lemma justified_monotone name : monotone (justified name).
Proof.
  intros h h' Hp [(pv0 & H & ?)|(m & mld & pv & H1 & H2 & H3 & H4 & H5 & H6)]; [left|right].
  - exists pv0. split; [by eapply pv_answer_monotone|done].
  - exists m, mld, pv. split_and!; [by eapply mod_listed_monotone|done|done|
      by eapply pv_known_monotone|done|by eapply module_verified_monotone].
Qed.

(** ** The pointer *)

(** What holds of the PreflightValidation between the operations. *)
Definition pv_ok (pv : PreflightValidation) (h : hist) : Prop :=
  pv_known pv h ∧ ∀ name, status_true pv name → justified name h.

Lemma pv_ok_monotone pv : monotone (pv_ok pv).
Proof.
  intros h h' Hp [H1 H2]. split; [by eapply pv_known_monotone|].
  intros name Hn. eapply justified_monotone; eauto.
Qed.
Lemma pv_ok_answer pv h : pv_answer pv h → pv_ok pv h.
Proof. intros H. split; [by exists pv|]. intros name Hn. left. by exists pv. Qed.

Lemma pv_ok_set pv st h :
  pv_ok pv h →
  (∀ name s, default ∅ st !! name = Some s → VerificationStatus s = VerificationTrue →
     status_true pv name ∨ justified name h) →
  pv_ok (set_crstatuses st pv) h.
Proof.
  intros [(pv0 & H0 & Hm & Hs) Hj] Hst. split; [by exists pv0|].
  intros name (s & Hn & Ht). destruct (Hst name s Hn Ht) as [H|H]; [by apply Hj|done].
Qed.

Definition pv_post {A} (o : outcome (PreflightValidation * A)) (h : hist) : Prop :=
  match o with Done (pv, _) => pv_ok pv h | Crashed _ => True end.

Lemma wp_update_pv pv h :
  pv_ok pv h → wp preflight_allowed (update_pv pv) pv_post h.
Proof.
  intros [Hk Hj]. unfold update_pv. apply wp_bind. split; [right; left; by exists pv|].
  intros [pv'|e|w]; simpl; [| |done].
  - apply pv_ok_answer. right. exists pv. in_hist.
  - eapply (pv_ok_monotone pv h); [by apply prefix_app_r|done].
Qed.

Lemma wp_PreflightSetVerificationStage pv name st h :
  pv_ok pv h → wp preflight_allowed (PreflightSetVerificationStage pv name st) pv_post h.
Proof.
  intros H. unfold PreflightSetVerificationStage.
  destruct (statuses pv !! name) as [s|] eqn:Hs; [|exact H].
  apply wp_bind. split; [by left|]. intros now. apply wp_update_pv.
  eapply pv_ok_monotone in H; [|by apply prefix_app_r]. apply pv_ok_set; [exact H|].
  cbn [default from_option id]. intros n s' [[<- <-]|[_ Hn]]%lookup_insert_Some Ht; left; [by exists s|by exists s'].
Qed.

Lemma wp_PreflightSetVerificationStatus pv name st msg h :
  pv_ok pv h → (st = VerificationTrue → justified name h) →
  wp preflight_allowed (PreflightSetVerificationStatus pv name st msg) pv_post h.
Proof.
  intros H Hj. unfold PreflightSetVerificationStatus.
  destruct (statuses pv !! name) as [s|] eqn:Hs; [|exact H].
  apply wp_bind. split; [by left|]. intros now. apply wp_update_pv.
  assert (h `prefix_of` h ++ [Ev RNow now]) as Hp by by apply prefix_app_r.
  eapply pv_ok_monotone in H; [|exact Hp]. apply pv_ok_set; [exact H|].
  cbn [default from_option id]. intros n s' [[<- <-]|[_ Hn]]%lookup_insert_Some Ht; [right|left; by exists s'].
  eapply justified_monotone; [exact Hp|]. by apply Hj.
Qed.

Lemma wp_PreflightPresetStatuses pv ex new h :
  pv_ok pv h → wp preflight_allowed (PreflightPresetStatuses pv ex new) pv_post h.
Proof.
  intros H. unfold PreflightPresetStatuses.
  set (st := _ <$> pv_CRStatuses pv).
  assert (pv_ok (set_crstatuses st pv) h) as Hst.
  { apply pv_ok_set; [done|]. intros n s Hn Ht. left. exists s. split; [|done].
    unfold st, statuses in *. destruct (pv_CRStatuses pv); [|done]. simpl in *.
    by apply map_lookup_filter_Some in Hn as [? _]. }
  clearbody st. clear H. revert st h Hst.
  induction new as [|n new IH]; intros st h Hst; [by apply wp_update_pv|].
  simpl. split; [by left|]. intros now. destruct st as [st|]; [|done].
  apply (IH (Some _)). eapply pv_ok_monotone in Hst; [|by apply prefix_app_r].
  split; [apply Hst|].
  intros n' (s & Hn & Ht). unfold statuses in Hn. simpl in Hn. apply lookup_insert_Some in Hn as [[<- <-]|[_ Hn]]; [done|].
  apply Hst. by exists s.
Qed.

(** ** The checks *)

(** What a positive answer of a check leaves in the history. *)
Definition check_post (P : hist → Prop) (o : outcome (bool * string)) (h : hist) : Prop :=
  match o with Done (true, _) => P h | _ => True end.

Lemma wp_verify_layers mld c ds all h :
  digests_of (mld_ContainerImage mld) all c h → (∀ d, d ∈ ds → d ∈ all) →
  wp preflight_allowed (verify_layers mld c ds) (check_post (image_verified mld)) h.
Proof.
  revert h. induction ds as [|d ds IH]; intros h Hall Hds; [done|].
  cbn [verify_layers]. apply wp_bind. split; [by left|]. intros [layer|e|w]; try done.
  set (h1 := h ++ _). apply wp_bind.
  eapply wp_reads; [apply reads_VerifyModuleExists|apply wp_VerifyModuleExists|by left|].
  intros [[]|w] h2 Hp _ Hv; try done.
  - exists layer. split; [|by apply Hv]. eapply (pulled_from_monotone _ _ h1); [done|].
    exists all, c, d. split_and!; [|set_solver|unfold h1; in_hist].
    eapply digests_of_monotone, Hall. by apply prefix_app_r.
  - apply IH; [|set_solver]. eapply digests_of_monotone, Hall. trans h1; [by apply prefix_app_r|done].
Qed.

Lemma wp_verifyImage mld h :
  wp preflight_allowed (verifyImage mld) (check_post (image_verified mld)) h.
Proof.
  unfold verifyImage. apply wp_bind.
  eapply wp_reads; [apply reads_GetLayersDigests|apply wp_GetLayersDigests|by left|].
  intros [[[ds c]|e|w]|w] h1 _ _ Hd; try done.
  eapply wp_verify_layers; [exact Hd|]. intros d. by rewrite !list_elem_of_In, <-in_rev.
Qed.

Lemma wp_verifyBuild pv mld h :
  pv_known pv h → preflight_data mld h →
  wp preflight_allowed (verifyBuild pv mld) (check_post (build_verified mld)) h.
Proof.
  intros Hpv Hmld. unfold verifyBuild. apply wp_bind. eapply wp_mono; [apply wp_bm_Sync| |].
  - intros h' q Hp Hq. right. right. exists pv, mld.
    split_and!; [by eapply pv_known_monotone|by eapply preflight_data_monotone|by left].
  - intros [[[] [e|]]|w] h' Hp H; try done. exists pv. split; [by eapply pv_known_monotone|done].
Qed.

Lemma wp_verifySign pv mld h :
  pv_known pv h → preflight_data mld h →
  wp preflight_allowed (verifySign pv mld) (check_post (sign_verified mld)) h.
Proof.
  intros Hpv Hmld. unfold verifySign. apply wp_bind. eapply wp_mono; [apply wp_sm_Sync| |].
  - intros h' q Hp Hq. right. right. exists pv, mld.
    split_and!; [by eapply pv_known_monotone|by eapply preflight_data_monotone|by right].
  - intros [[[] [e|]]|w] h' Hp H; try done. exists pv. split; [by eapply pv_known_monotone|done].
Qed.

Definition stage_post (P : hist → Prop) (o : outcome (PreflightValidation * (bool * string)))
    (h : hist) : Prop :=
  match o with Done (pv, (verified, _)) => pv_ok pv h ∧ (verified = true → P h) | _ => True end.

Lemma wp_stage n check pv mld P h :
  pv_ok pv h →
  (∀ pv' h', h `prefix_of` h' → pv_known pv' h' →
     wp preflight_allowed (check pv') (check_post P) h') →
  wp preflight_allowed (stage n check pv mld) (stage_post P) h.
Proof.
  intros Hpv Hc. unfold stage. apply wp_bind.
  eapply wp_post; [by apply wp_PreflightSetVerificationStage|].
  intros [[pv' e]|w] h1 Hp1 H1; [|done]. apply wp_bind.
  eapply wp_post; [apply Hc; [done|apply H1]|].
  intros [[[] msg]|w] h2 Hp2 H2; [| |done]; (split; [by eapply pv_ok_monotone|done]).
Qed.

(** Verified modules have the evidence. *)
Lemma wp_PreflightUpgradeCheck pv m h :
  pv_ok pv h → mod_listed m h → not_deleted m = true →
  wp preflight_allowed (PreflightUpgradeCheck pv m) (stage_post (justified (mod_Name m))) h.
Proof.
  intros Hpv Hm Hdel. unfold PreflightUpgradeCheck. apply wp_bind, wp_lift_result;
    [|by split|done]. intros mld Hmld.
  assert (∀ h', h `prefix_of` h' → module_verified mld h' → justified (mod_Name m) h') as Hj.
  { intros h' Hp Hv. right. exists m, mld, pv.
    split_and!; [by eapply mod_listed_monotone|done|done|eapply pv_known_monotone, Hpv; done|done|done]. }
  assert (∀ h', h `prefix_of` h' → preflight_data mld h') as Hdata.
  { intros h' Hp. eapply preflight_data_monotone; [exact Hp|]. exists m, pv. by destruct Hpv. }
  apply wp_bind. eapply wp_post.
  { apply wp_stage; [exact Hpv|]. intros pv' h' _ _. apply wp_verifyImage. }
  intros [[pv1 [v1 msg1]]|w] h1 Hp1 Hs1; [|done]. destruct Hs1 as [Hpv1 Hv1].
  destruct v1; [split; [done|intros _; apply Hj; [done|left; by apply Hv1]]|].
  apply wp_bind. eapply (wp_post _ _ (λ o h', match o with
    | Done (pv2, (v2, _)) => pv_ok pv2 h' ∧
        (v2 = true → mld_Build mld ≠ None ∧ build_verified mld h')
    | _ => True end)).
  { unfold ShouldBeBuilt. destruct (mld_Build mld) as [b|] eqn:Hb; [|by split].
    eapply wp_post.
    - apply wp_stage; [exact Hpv1|]. intros pv' h' Hp' Hk. apply wp_verifyBuild; [done|]. apply Hdata. by trans h1.
    - intros [[pv2 [v2 msg2]]|w] h2 _ H2; [|done]. destruct H2 as [H2 H3].
      split; [done|]. intros Ht. split; [done|by apply H3]. }
  intros [[pv2 [v2 msg2]]|w] h2 Hp2 H2; [|done]. destruct H2 as [Hpv2 Hv2].
  destruct (ShouldBeBuilt mld && negb v2) eqn:Hbv; [by split|].
  apply wp_bind. eapply (wp_post _ _ (λ o h', match o with
    | Done (pv3, (v3, _)) => pv_ok pv3 h' ∧
        (v3 = true → (mld_Sign mld = None ∧ v2 = true) ∨ (mld_Sign mld ≠ None ∧ sign_verified mld h'))
    | _ => True end)).
  { unfold ShouldBeSigned. destruct (mld_Sign mld) as [sg|] eqn:Hsg; [|split; [done|by left]].
    eapply wp_post.
    - apply wp_stage; [exact Hpv2|]. intros pv' h' Hp' Hk. apply wp_verifySign; [done|]. apply Hdata.
      by do 2 (etrans; [|done]).
    - intros [[pv3 [v3 msg3]]|w] h3 _ H3; [|done]. destruct H3 as [H3 H4].
      split; [done|]. intros Ht. right. split; [done|by apply H4]. }
  intros [[pv3 [v3 msg3]]|w] h3 Hp3 H3; [|done]. destruct H3 as [Hpv3 Hv3].
  destruct (ShouldBeSigned mld && negb v3); [by split|]. split; [done|]. intros ->.
  apply Hj; [by do 2 (etrans; [|done])|]. right. destruct (Hv3 eq_refl) as [[Hs ->]|[Hs Hv]].
  - destruct (Hv2 eq_refl) as [Hb Hbv']. split; [by left|].
    split; [right; by eapply build_verified_monotone|by left].
  - split; [by right|]. split; [|by right].
    unfold ShouldBeBuilt in Hbv. destruct (mld_Build mld); [right|by left].
    destruct v2; [|done]. destruct (Hv2 eq_refl). by eapply build_verified_monotone.
Qed.

(** ** The reconciler *)

Lemma wp_updatePreflightStatus pv name msg verified h :
  pv_ok pv h → (verified = true → justified name h) →
  wp preflight_allowed (updatePreflightStatus pv name msg verified)
    (λ o h', match o with Done pv' => pv_ok pv' h' | _ => True end) h.
Proof.
  intros Hpv Hj. unfold updatePreflightStatus. apply wp_bind.
  eapply wp_post; [apply wp_PreflightSetVerificationStatus; [done|]|].
  { destruct verified; [auto|done]. }
  intros [[pv1 e1]|w] h1 _ H1; [|done]. apply wp_bind.
  eapply wp_post; [by apply wp_PreflightSetVerificationStage|]. by intros [[pv2 e2]|w] h2 _ H2.
Qed.

Lemma wp_check_modules ms pv h :
  pv_ok pv h → (∀ m, m ∈ ms → mod_listed m h ∧ not_deleted m = true) →
  wp preflight_allowed (check_modules ms pv)
    (λ o h', match o with Done pv' => pv_ok pv' h' | _ => True end) h.
Proof.
  revert pv h. induction ms as [|m ms IH]; intros pv h Hpv Hms; [done|].
  cbn [check_modules]. destruct (Hms m) as [Hm Hd]; [by left|].
  apply wp_bind. eapply wp_post; [by apply wp_PreflightUpgradeCheck|].
  intros [[pv1 [v msg]]|w] h1 Hp1 H1; [|done]. destruct H1 as [H1 Hv].
  apply wp_bind. eapply wp_post; [by apply wp_updatePreflightStatus|].
  intros [pv2|w] h2 Hp2 H2; [|done]. apply IH; [done|]. intros m' Hin.
  destruct (Hms m') as [Hm' ?]; [by right|]. split; [|done].
  eapply mod_listed_monotone, Hm'. by trans h1.
Qed.

Lemma select_unverified_Ok pv ms ms' :
  select_unverified pv ms = Ok ms' →
  ms' = List.filter (λ m, not_deleted m &&
          negb (bool_decide (VerificationStatus <$> statuses pv !! mod_Name m = Some VerificationTrue))) ms.
Proof.
  revert ms'. induction ms as [|m ms IH]; intros ms'; simpl; [by intros [= <-]|].
  unfold not_deleted at 1. destruct (om_DeletionTimestamp (mod_meta m)); simpl; [apply IH|].
  destruct (statuses pv !! mod_Name m) as [st|]; [|done]. simpl.
  intros (ms1 & H & [= <-])%result_bind_Ok. rewrite <-(IH ms1) by done.
  repeat case_bool_decide; simpl; congruence.
Qed.

Lemma wp_getModulesToCheck pv h :
  pv_ok pv h →
  wp preflight_allowed (getModulesToCheck pv) (λ o h', match o with
    | Done (pv', Ok ms) => pv_ok pv' h' ∧ ∀ m, m ∈ ms → mod_listed m h' ∧ not_deleted m = true
    | Done (pv', _) => pv_ok pv' h'
    | _ => True end) h.
Proof.
  intros Hpv. unfold getModulesToCheck. apply wp_bind. split; [by left|].
  intros [l|e|w]; [|by eapply pv_ok_monotone, Hpv; apply prefix_app_r|done].
  set (h1 := h ++ _). assert (h `prefix_of` h1) as Hp by by apply prefix_app_r.
  assert (∀ m, m ∈ l → mod_listed m h1) as Hl by (intros m Hm; exists l; split; [in_hist|done]).
  clearbody h1. apply wp_bind. unfold presetModulesStatuses. eapply wp_post.
  { apply wp_PreflightPresetStatuses. eapply pv_ok_monotone in Hpv; [|exact Hp].
    apply pv_ok_set; [done|]. intros n s Hn Ht. left. by exists s. }
  intros [[pv1 [e|]]|w] h2 Hp2 H2; [done| |done].
  apply wp_bind, wp_lift_result; [|done..]. intros ms Hms. split; [done|].
  apply select_unverified_Ok in Hms as ->. intros m [Hin Hb]%list_elem_of_In%List.filter_In.
  apply andb_true_iff in Hb as [Hd _]. split; [|done].
  eapply mod_listed_monotone, Hl; [done|]. by apply list_elem_of_In.
Qed.

(** How a reconciliation ends. *)
Definition preflight_post (key : NamespacedName) (o : outcome (result ReconcileResult)) (h : hist)
    : Prop :=
  match o with
  | Done (Ok r) =>
      (r = no_requeue ∧ ∃ err, h = [Ev (RGet KPreflight key) (Err err)] ∧ IsNotFound err = true) ∨
      (∃ h' key' pv, h = h' ++ [Ev (RGet KPreflight key') (Ok pv)] ∧
         r = if all_verified pv then no_requeue
             else mk_reconcile false (Second * reconcileRequeueInSeconds))
  | _ => True
  end.

Lemma wp_preflight_Reconcile key :
  wp preflight_allowed (preflight_Reconcile key) (preflight_post key) [].
Proof.
  unfold preflight_Reconcile. apply wp_bind. split; [by left|].
  intros [pv|err|w]; [| |done]; cycle 1.
  { cbn [wp]. destruct (IsNotFound err) eqn:Ev1; [|done]. left. split; [done|by exists err]. }
  apply wp_bind. split; [by left|]. intros []. apply wp_bind. unfold runPreflightValidation.
  apply wp_bind. eapply wp_post.
  { apply wp_getModulesToCheck, pv_ok_answer. left. exists key. set_solver. }
  intros [[pv1 [ms|e|w]]|w] h1 _ H1; [|done..]. destruct H1 as [Hpv1 Hms].
  apply wp_bind. eapply wp_post; [by apply wp_check_modules|].
  intros [pv2|w] h2 _ H2; [|done]. unfold checkPreflightCompletion.
  do 2 apply wp_bind. split; [by left|]. intros [pv3|e|w]; [|done..].
  cbn. destruct (all_verified pv3) eqn:Ev3; right; eexists _, _, pv3; (split; [done|]);
    by rewrite Ev3.
Qed.

Lemma all_verified_spec pv :
  all_verified pv = true ↔
  ∀ name st, statuses pv !! name = Some st → VerificationStatus st = VerificationTrue.
Proof.
  unfold all_verified. rewrite forallb_forall. split.
  - intros H n st Hn. specialize (H (n, st)). rewrite <-list_elem_of_In, elem_of_map_to_list in H.
    by apply bool_decide_eq_true in H.
  - intros H [n st] Hin. rewrite <-list_elem_of_In, elem_of_map_to_list in Hin.
    apply bool_decide_eq_true. by eapply H.
Qed.

(** ** Properties *)

(** C12: against every API server and registry, and for any build and sign
    managers, preflight only ever writes the status of the PreflightValidation
    it read, builds and jobs; and whenever it writes a status that says a
    module is verified, either the server already said so, or a listed Module
    of that name, not being deleted, has for the kernel of the
    PreflightValidation an image with a layer that holds the kernel module, or
    every configured one of its build and its signing was seen complete.
    Builds and Jobs come only from the managers' Syncs, for a Module it
    listed, and push only if the PreflightValidation asks for it. *)
Theorem preflight_safety {S} (srv : kserver S) s key h1 e h2 :
  run_trace srv (preflight_Reconcile key) s = h1 ++ e :: h2 →
  preflight_allowed h1 (ev_req e).
Proof. apply (wp_run _ _ _ srv s (wp_preflight_Reconcile key)). Qed.

(** C22: a preflight reconciliation ends without a requeue only when the
    PreflightValidation is gone, or when the last one read has every status
    true; when one is not, it comes back in 180 seconds. *)
Theorem preflight_completion {S} (srv : kserver S) s key r :
  run_out srv (preflight_Reconcile key) s = Done (Ok r) →
  let h := run_trace srv (preflight_Reconcile key) s in
  (r = no_requeue ∧ ∃ err, h = [Ev (RGet KPreflight key) (Err err)] ∧ IsNotFound err = true) ∨
  (∃ h' key' pv, h = h' ++ [Ev (RGet KPreflight key') (Ok pv)] ∧
     ((r = no_requeue ∧ ∀ name st, statuses pv !! name = Some st →
                          VerificationStatus st = VerificationTrue) ∨
      (r = mk_reconcile false 180000000000 ∧ ∃ name st, statuses pv !! name = Some st ∧
                          VerificationStatus st ≠ VerificationTrue))).
Proof using Type*.
  intros Hr h. pose proof (wp_run _ _ _ srv s (wp_preflight_Reconcile key)) as [H _].
  rewrite Hr in H. destruct H as [H|(h' & key' & pv & H & ->)]; [by left|right].
  exists h', key', pv. split; [done|]. destruct (all_verified pv) eqn:Ha.
  - left. split; [done|]. by apply all_verified_spec.
  - right. split; [done|].
    assert (¬ map_Forall (λ _ st, VerificationStatus st = VerificationTrue) (statuses pv)) as Hn.
    { intros Hall. assert (all_verified pv = true); [|congruence]. apply all_verified_spec.
      intros n st Hn. by apply (Hall n). }
    by apply map_not_Forall in Hn; [|intros; apply _].
Qed.

(** Without PushBuiltImage in any version of the PreflightValidation the
    server shows, preflight never creates a Build or a signing Job that
    pushes. *)
Theorem preflight_no_push {S} (srv : kserver S) s key h1 e h2 :
  run_trace srv (preflight_Reconcile key) s = h1 ++ e :: h2 →
  (∀ pv, pv_answer pv h1 → pvs_PushBuiltImage (pv_Spec pv) = false) →
  ¬ pushes (ev_req e).
Proof using Type*.
  intros Htr Hpv Hp.
  pose proof (wp_run _ _ _ srv s (wp_preflight_Reconcile key)) as [_ H].
  destruct (H _ _ _ Htr) as [Hq|[(pv & Hq & _)|(pv & mld & (pv0 & H0 & _ & Hs) & _ & Hq)]].
  - by destruct (ev_req e).
  - by rewrite Hq in Hp.
  - rewrite Hs, Hpv in Hq by done.
    by destruct Hq as [Hq%bm_call_sync%sync_call_no_push|Hq%sm_call_sync%sync_call_no_push].
Qed.

(** When every Module that is not being deleted has a status, exactly
    those whose name has no true status are checked.  The statuses are kept
    by name only, so of two Modules of the same name in different namespaces
    either both are checked or none: one verified hides the other. *)
Theorem select_unverified_spec pv ms :
  (∀ m, m ∈ ms → not_deleted m = true → is_Some (statuses pv !! mod_Name m)) →
  ∃ ms', select_unverified pv ms = Ok ms' ∧
    (∀ m, m ∈ ms' ↔ m ∈ ms ∧ not_deleted m = true ∧ ¬ status_true pv (mod_Name m)) ∧
    (∀ m1 m2, m1 ∈ ms → m2 ∈ ms → not_deleted m1 = true → not_deleted m2 = true →
       mod_Name m1 = mod_Name m2 → m1 ∈ ms' ↔ m2 ∈ ms').
Proof.
  intros Hms. assert (∃ ms', select_unverified pv ms = Ok ms') as [ms' Hs].
  { induction ms as [|m ms IH]; simpl; [by eexists|].
    destruct IH as [ms' ->]; [intros m' ?; apply Hms; by right|].
    destruct (om_DeletionTimestamp (mod_meta m)) eqn:Hd; [by eexists|].
    destruct (Hms m) as [st ->]; [by left|unfold not_deleted; by rewrite Hd|]. by eexists. }
  exists ms'. split; [done|].
  assert (∀ m, m ∈ ms' ↔ m ∈ ms ∧ not_deleted m = true ∧ ¬ status_true pv (mod_Name m)) as Hin.
  { intros m. apply select_unverified_Ok in Hs as ->.
    rewrite !list_elem_of_In, List.filter_In, andb_true_iff, negb_true_iff, bool_decide_eq_false.
    unfold status_true. destruct (statuses pv !! mod_Name m) as [st|]; simpl.
    - split; intros (H1 & H2 & H3); (split_and!; [done..|]); [|intros [= H4]; apply H3; eauto].
      intros (st' & [= <-] & H4). apply H3. by rewrite H4.
    - split; intros (H1 & H2 & H3); (split_and!; [done..|]); [by intros (? & ? & ?)|done]. }
  split; [exact Hin|]. intros m1 m2 H1 H2 Hd1 Hd2 Hn. rewrite !Hin, Hn. tauto.
Qed.
End preflight.

(** ** Example: an upgrade that is safe *)

Definition ex_pv : PreflightValidation :=
  mk_pv (meta_named "upgrade" "gpu") (mk_pvspec Ex.kernel false) None.

Definition ex_layer : TarStream :=
  mk_tarstream [mk_tar ("opt/lib/modules/" +:+ Ex.kernel +:+ "/nvidia.ko") (Ok "ELF")] None.

(** A cluster that stores the PreflightValidation, and a registry whose image
    holds the kernel module. *)
Definition ex_preflight_server : kserver PreflightValidation := λ q pv,
  match q return ans q * PreflightValidation with
  | RGet KPreflight _ => (Ok pv, pv)
  | RStatusUpdate KPreflight pv' => (Ok pv', pv')
  | RList KModule _ => (Ok [Ex.module], pv)
  | RManifest _ _ => (Ok "manifest", pv)
  | RKeychainFromSA _ _ => (Ok "keychain", pv)
  | RPullLayer _ _ => (Ok "layer", pv)
  | RUncompressed _ => (Ok ex_layer, pv)
  | q => (accept q, pv)
  end.

Definition ex_preflight : M (result ReconcileResult) :=
  preflight_Reconcile (D := ex_decoder) (R := regexp_substring) (E := envsubst_id)
    (BM := buildconfig_manager (D := ex_decoder) (Hs := ex_hasher) "amd64")
    (SM := signjob_manager (D := ex_decoder) (Hs := ex_hasher) "amd64")
    "amd64" (NN "gpu" "upgrade").

Example ex_preflight_runs :
  run_out ex_preflight_server ex_preflight ex_pv = Done (Ok no_requeue) ∧
  VerificationStatus <$> statuses (run_state ex_preflight_server ex_preflight ex_pv) !! "nvidia"
    = Some VerificationTrue.
Proof. vm_compute. done. Qed.

(** The call that records the success. *)
Definition ex_records (e : @event req ans) : bool :=
  match ev_req e with
  | RStatusUpdate KPreflight pv =>
      bool_decide (VerificationStatus <$> statuses pv !! "nvidia" = Some VerificationTrue)
  | _ => false
  end.

Lemma ex_preflight_records :
  ∃ h1 e h2, run_trace ex_preflight_server ex_preflight ex_pv = h1 ++ e :: h2 ∧ ex_records e = true.
Proof.
  assert (existsb ex_records (run_trace ex_preflight_server ex_preflight ex_pv) = true) as H
    by (vm_compute; reflexivity).
  exact (existsb_split _ _ H).
Qed.

Lemma preflight_safety_witness :
  ∃ h1 q, is_write q = true ∧
    preflight_allowed (D := ex_decoder) (R := regexp_substring) (E := envsubst_id)
      (BS := buildconfig_manager_spec (D := ex_decoder) (Hs := ex_hasher) "amd64")
      (SS := signjob_manager_spec (D := ex_decoder) (Hs := ex_hasher) "amd64") h1 q.
Proof.
  destruct ex_preflight_records as (h1 & e & h2 & Htr & He). exists h1, (ev_req e). split.
  - unfold ex_records in He. by destruct (ev_req e).
  - exact (preflight_safety (BM := buildconfig_manager (D := ex_decoder) (Hs := ex_hasher) "amd64")
      (SM := signjob_manager (D := ex_decoder) (Hs := ex_hasher) "amd64")
      "amd64" ex_preflight_server ex_pv (NN "gpu" "upgrade") h1 e h2 Htr).
Defined.

Lemma preflight_completion_witness :
  ∃ h' key' pv, run_trace ex_preflight_server ex_preflight ex_pv
                = h' ++ [Ev (RGet KPreflight key') (Ok pv)].
Proof.
  destruct (preflight_completion (D := ex_decoder) (R := regexp_substring) (E := envsubst_id)
      (BS := buildconfig_manager_spec (D := ex_decoder) (Hs := ex_hasher) "amd64")
      (SS := signjob_manager_spec (D := ex_decoder) (Hs := ex_hasher) "amd64")
      "amd64" ex_preflight_server ex_pv (NN "gpu" "upgrade") no_requeue (proj1 ex_preflight_runs))
    as [(_ & err & H & _)|(h' & key' & pv & H & _)].
  - exfalso. destruct ex_preflight_records as (h1 & e & h2 & Htr & He). unfold ex_preflight in Htr.
    rewrite H in Htr. destruct h1 as [|? [|? ?]]; [|discriminate..].
    injection Htr as <- <-. discriminate He.
  - exists h', key', pv. exact H.
Defined.

Lemma preflight_no_push_witness :
  ∃ h1 e, ex_records e = true ∧ ¬ pushes (ev_req e) ∧
    ∃ h2, run_trace ex_preflight_server ex_preflight ex_pv = h1 ++ e :: h2.
Proof.
  destruct ex_preflight_records as (h1 & e & h2 & Htr & He). exists h1, e.
  split; [exact He|]. split; [|exists h2; exact Htr].
  refine (preflight_no_push (D := ex_decoder) (R := regexp_substring) (E := envsubst_id)
      (BS := buildconfig_manager_spec (D := ex_decoder) (Hs := ex_hasher) "amd64")
      (SS := signjob_manager_spec (D := ex_decoder) (Hs := ex_hasher) "amd64")
      "amd64" ex_preflight_server ex_pv (NN "gpu" "upgrade") h1 e h2 Htr _).
  (* every version the server shows has the same spec *)
  intros pv Hpv.
  assert (Forall (λ e, match e with
      | Ev (RGet KPreflight _) (Ok pv) | Ev (RStatusUpdate KPreflight _) (Ok pv) =>
          pvs_PushBuiltImage (pv_Spec pv) = false
      | _ => True end) (run_trace ex_preflight_server ex_preflight ex_pv)) as Hall
    by (vm_compute; repeat constructor).
  rewrite Htr, Forall_app in Hall. destruct Hall as [Hall _]. rewrite Forall_forall in Hall.
  destruct Hpv as [[k Hk]|[p Hk]]; exact (Hall _ Hk).
Defined.

(** Two Modules of the same name, and a status for that name. *)
Definition ex_namesake : Module_ := set_meta (meta_named "nvidia" "other") Ex.module.
Definition ex_verified : PreflightValidation :=
  set_crstatuses (Some {[ "nvidia" := mk_crstatus VerificationTrue "" VerificationStageDone 0 ]}) ex_pv.

Lemma select_unverified_spec_witness :
  select_unverified ex_verified [Ex.module; ex_namesake] = Ok [] ∧
  ∃ ms', select_unverified ex_verified [Ex.module; ex_namesake] = Ok ms' ∧ ex_namesake ∉ ms'.
Proof.
  split; [reflexivity|].
  destruct (select_unverified_spec ex_verified [Ex.module; ex_namesake]) as (ms' & H1 & H2 & _).
  - intros m Hm _. apply elem_of_cons in Hm as [->|Hm]; [by eexists|].
    apply list_elem_of_singleton in Hm as ->. by eexists.
  - exists ms'. split; [exact H1|]. intros Hin. apply H2 in Hin as (_ & _ & Hn).
    apply Hn. by eexists.
Defined.
