(* ===== verification/PreflightOCP.v ===== *)
(** * controllers/preflightvalidationocp_reconciler.go

    A PreflightValidationOCP names an OpenShift release image.  The controller
    finds the release's driver toolkit image in it, and the kernel in that
    image, registers both in the shared mapping if the kernel is not known
    yet, and creates the PreflightValidation for the kernel; once that exists
    its statuses are copied back. *)

From S2P Require Import Prelude Prog K8s Api Client Auth Registry StatusUpdater ModuleReconciler.
From stdpp Require Import options.

Local Open Scope go_scope.

Definition driverToolkitSpecName := "driver-toolkit".
Definition driverToolkitJSONFilePath := "etc/driver-toolkit-release.json".
Definition releaseManifestImagesRefFile := "release-manifests/image-references".

Record dtkRelease := mk_dtkrelease {
  dtk_KernelVersion : string; dtk_RTKernelVersion : string; dtk_RHELVersion : string }.

(** What json.Unmarshal makes of the two files: the tags of an ImageStream,
    and a [dtkRelease]. *)
Class ReleaseDecoder := {
  unmarshal_imagestream : string → result (list TagReference);
  unmarshal_dtkRelease : string → result dtkRelease }.

Section preflight_ocp.
Context {D : ManifestDecoder} {RD : ReleaseDecoder}.
Variable goarch : string.

(** The reconciler's registryAuthGetter. *)
Definition ocp_auth : option RegistryAuthGetter := Some NewClusterAuthGetter.

(** The loop over the tags. *)
Definition find_dtk (tags : list TagReference) : result string :=
  match List.find (λ t, bool_decide (tag_Name t = driverToolkitSpecName)) tags with
  | Some t =>
      match tag_From t with
      | None => Err (errorf (driverToolkitSpecName +:+ " local reference is missing from "
                             +:+ releaseManifestImagesRefFile))
      | Some name => Ok name
      end
  | None => Err (errorf ("failed to find " +:+ driverToolkitSpecName +:+ " entry in the "
                         +:+ releaseManifestImagesRefFile +:+ " file"))
  end.

Definition getDTKFromImage (image : string) : M (result string) :=
  try layer := LastLayer goarch image None ocp_auth
    catch err => Ret (Err (errorf ("failed to get last layer of image " +:+ image +:+ ": "
                                   +:+ Error err))) in
  try data := GetHeaderDataFromLayer layer releaseManifestImagesRefFile
    catch err => Ret (Err (errorf ("failed to get image spec from image " +:+ image +:+ ": "
                                   +:+ Error err))) in
  try tags := lift_result (unmarshal_imagestream data)
    catch err => Ret (Err (errorf ("failed to unmarshal " +:+ releaseManifestImagesRefFile
                                   +:+ " data: " +:+ Error err))) in
  lift_result (find_dtk tags).

Definition check_release (r : dtkRelease) : result dtkRelease :=
  if bool_decide (dtk_KernelVersion r = "") || bool_decide (dtk_RHELVersion r = "")
  then Err (errorf ("failed format of " +:+ driverToolkitJSONFilePath +:+ " file, both KernelVersion <"
                    +:+ dtk_KernelVersion r +:+ "> and RHEL_VERSION <" +:+ dtk_RHELVersion r
                    +:+ "> should not be empty"))
  else Ok r.

(** The loop over the layers, from the last one to the first; [digests] is
    reversed, so the index of its head is the length of its tail. *)
Fixpoint release_from_layers (dtkImage : string) (repo : RepoPullConfig) (digests : list string)
    : M (result dtkRelease) :=
  match digests with
  | [] => Ret (Err (errorf ("file " +:+ driverToolkitJSONFilePath +:+ " is not present in the image "
                            +:+ dtkImage)))
  | digest :: digests =>
      try layer := GetLayerByDigest digest repo
        catch err => Ret (Err (errorf ("failed to get layer " +:+ show_nat (length digests)
                                       +:+ " for DTK image " +:+ dtkImage +:+ ": " +:+ Error err))) in
      try data := GetHeaderDataFromLayer layer driverToolkitJSONFilePath
        catch _ => release_from_layers dtkImage repo digests in
      try dtkData := lift_result (unmarshal_dtkRelease data)
        catch err => Ret (Err (errorf ("failed to unmarshal " +:+ driverToolkitJSONFilePath
                                       +:+ " data: " +:+ Error err))) in
      lift_result (check_release dtkData)
  end.

Definition getKernelVersionAndOSFromDTK (dtkImage : string) : M (result dtkRelease) :=
  try d := GetLayersDigests goarch dtkImage None ocp_auth
    catch err => Ret (Err (errorf ("failed to get layers digests for DTK image " +:+ dtkImage +:+ ": "
                                   +:+ Error err))) in
  release_from_layers dtkImage (snd d) (rev (fst d)).

(** The kernel of the release the PreflightValidationOCP asks for. *)
Definition ocp_kernel (pvo : PreflightValidationOCP) (r : dtkRelease) : result string :=
  if pvos_UseRTKernel (pvo_Spec pvo) then
    if bool_decide (dtk_RTKernelVersion r = "")
    then Err (errorf "rt_kernel_version is missing for this release, probably not and x86_64 architecture")
    else Ok (dtk_RTKernelVersion r)
  else Ok (dtk_KernelVersion r).

Definition compatible_pv (pvo : PreflightValidationOCP) (kernelVersion : string)
    : PreflightValidation :=
  mk_pv (meta_named (om_Name (pvo_meta pvo)) (om_Namespace (pvo_meta pvo)))
    (mk_pvspec kernelVersion (pvos_PushBuiltImage (pvo_Spec pvo))) None.

Definition preparePreflightValidation (pvo : PreflightValidationOCP)
    : M (result PreflightValidation) :=
  let image := pvos_ReleaseImage (pvo_Spec pvo) in
  try dtkImage := getDTKFromImage image
    catch err => Ret (Err (errorf ("failed to get DTK image from Release Image " +:+ image +:+ ": "
                                   +:+ Error err))) in
  try r := getKernelVersionAndOSFromDTK dtkImage
    catch err => Ret (Err (errorf ("failed to get kernel/os version from DTK image " +:+ dtkImage
                                   +:+ ": " +:+ Error err))) in
  try kernelVersion := lift_result (ocp_kernel pvo r) catch err => Ret (Err err) in
  prog_bind (λ _ : unit,
    let pv := compatible_pv pvo kernelVersion in
    match SetControllerReference (as_owner pvo) (pv_meta pv) with
    | Err err => Ret (Err (errorf ("failed to set owner reference for pv " +:+ om_Name (pv_meta pv)
                                   +:+ "/" +:+ om_Namespace (pv_meta pv) +:+ ": " +:+ Error err)))
    | Panic w => Crash w
    | Ok m => Ret (Ok (set_meta m pv))
    end)
    (prog_bind (λ known, match known with
      | Err _ =>
          prog_bind (λ _, call (RSetImageStreamInfo (dtk_RHELVersion r) dtkImage))
            (call (RSetNodeInfo kernelVersion (dtk_RHELVersion r)))
      | Ok _ => Ret tt
      | Panic w => Crash w
      end) (call (RGetImage kernelVersion))).

Definition runPreflightValidationOCP (pvo : PreflightValidationOCP) : M (result unit) :=
  let nsn := NN (om_Namespace (pvo_meta pvo)) (om_Name (pvo_meta pvo)) in
  prog_bind (λ r, match r with
    | Panic w => Crash w
    | Err err =>
        if IsNotFound err then
          try pv := preparePreflightValidation pvo
            catch err => Ret (Err (errorf ("failed to prepare the data for compatible PreflightValidation: "
                                           +:+ Error err))) in
          try _ := Create KPreflight pv
            catch err => Ret (Err (errorf ("failed to create PreflightValidation " +:+ nsn_string nsn
                                   +:+ " with kernel version " +:+ pvs_KernelVersion (pv_Spec pv)
                                   +:+ ": " +:+ Error err))) in
          Ret (Ok tt)
        else Ret (Err (errorf ("failed to get the compatible PreflightValidation, " +:+ nsn_string nsn
                               +:+ ": " +:+ Error err)))
    | Ok pv =>
        prog_bind (λ u, match snd u with
          | Some err => Ret (Err (errorf ("failed to update the statuses from compatible PreflightValidations: "
                                          +:+ Error err)))
          | None => Ret (Ok tt)
          end) (PreflightOCPUpdateStatus pvo pv)
    end) (Get KPreflight nsn).

Definition ocp_Reconcile (req : NamespacedName) : M (result ReconcileResult) :=
  prog_bind (λ r, match r with
    | Panic w => Crash w
    | Err err => if IsNotFound err then Ret (Ok no_requeue) else Ret (Err err)
    | Ok pvo =>
        try _ := runPreflightValidationOCP pvo
          catch err => Ret (Err (errorf ("runPreflightValidationOCP failed: " +:+ Error err))) in
        Ret (Ok no_requeue)
    end) (Get KPreflightOCP req).

(** ** What the release says *)

(** The driver toolkit image of a release image. *)
Definition dtk_image_of (image dtk : string) (h : hist) : Prop :=
  ∃ layer data tags, pulled_from image layer h ∧
    layer_file layer releaseManifestImagesRefFile data h ∧
    unmarshal_imagestream data = Ok tags ∧ find_dtk tags = Ok dtk.

(** The release file of a driver toolkit image. *)
Definition release_of (dtk : string) (r : dtkRelease) (h : hist) : Prop :=
  ∃ layer data, pulled_from dtk layer h ∧ layer_file layer driverToolkitJSONFilePath data h ∧
    unmarshal_dtkRelease data = Ok r ∧ dtk_KernelVersion r ≠ "" ∧ dtk_RHELVersion r ≠ "".

(** The kernel to validate and where it comes from. *)
Definition kernel_of (pvo : PreflightValidationOCP) (dtk : string) (r : dtkRelease) (k : string)
    (h : hist) : Prop :=
  dtk_image_of (pvos_ReleaseImage (pvo_Spec pvo)) dtk h ∧ release_of dtk r h ∧ k ≠ "" ∧
  k = if pvos_UseRTKernel (pvo_Spec pvo) then dtk_RTKernelVersion r else dtk_KernelVersion r.

Definition pvo_key (pvo : PreflightValidationOCP) : NamespacedName :=
  NN (om_Namespace (pvo_meta pvo)) (om_Name (pvo_meta pvo)).

(** What the controller may do. *)
Definition ocp_allowed (key : NamespacedName) (h : hist) (q : req) : Prop :=
  (is_write q = false ∧ mapping_write q = false) ∨
  ∃ pvo, (Ev (RGet KPreflightOCP key) (Ok pvo) : @event req ans) ∈ h ∧
    ( (* the statuses are copied *)
     (∃ pv, (Ev (RGet KPreflight (pvo_key pvo)) (Ok pv) : @event req ans) ∈ h ∧
        q = RStatusUpdate KPreflightOCP (mk_pvo (pvo_meta pvo) (pvo_Spec pvo) (pv_CRStatuses pv))) ∨
     (∃ err dtk r k, (Ev (RGet KPreflight (pvo_key pvo)) (Err err) : @event req ans) ∈ h ∧
        IsNotFound err = true ∧ kernel_of pvo dtk r k h ∧
        ( (* an unknown kernel is registered *)
         ((∃ err, (Ev (RGetImage k) (Err err) : @event req ans) ∈ h) ∧
          (q = RSetNodeInfo k (dtk_RHELVersion r) ∨ q = RSetImageStreamInfo (dtk_RHELVersion r) dtk)) ∨
         (* the PreflightValidation is created *)
         (∃ pv, q = RCreate KPreflight pv ∧ object_key (pv_meta pv) = pvo_key pvo ∧
            pv_Spec pv = mk_pvspec k (pvos_PushBuiltImage (pvo_Spec pvo)) ∧
            controlled_by (as_owner pvo) (pv_meta pv))))).

Lemma dtk_image_of_monotone image dtk : monotone (dtk_image_of image dtk).
Proof.
  intros h h' Hp (l & d & t & H1 & H2 & H3). exists l, d, t.
  split_and!; [by eapply pulled_from_monotone|by eapply layer_file_monotone|apply H3..].
Qed.
Lemma release_of_monotone dtk r : monotone (release_of dtk r).
Proof.
  intros h h' Hp (l & d & H1 & H2 & H3). exists l, d.
  split; [by eapply pulled_from_monotone|]. split; [by eapply layer_file_monotone|done].
Qed.
Lemma kernel_of_monotone pvo dtk r k : monotone (kernel_of pvo dtk r k).
Proof.
  intros h h' Hp (H1 & H2 & H3). split; [by eapply dtk_image_of_monotone|].
  split; [by eapply release_of_monotone|done].
Qed.

(** Calls that neither write nor touch the mapping. *)
Abbreviation quiet := (calls (λ q, is_write q = false ∧ mapping_write q = false)).

Lemma quiet_GetKeyChain g : quiet (GetKeyChain g).
Proof. destruct g; unfold GetKeyChain, secret_GetKeyChain, serviceAccount_GetKeyChain, Get; go_calls. Qed.
#[local] Hint Resolve quiet_GetKeyChain : calls.
Lemma quiet_GetLayersDigests image tls g : quiet (GetLayersDigests goarch image tls g).
Proof.
  unfold GetLayersDigests, getImageManifest, getPullOptions, getManifestStreamFromImage. go_calls.
Qed.
#[local] Hint Resolve quiet_GetLayersDigests : calls.
Lemma quiet_LastLayer image tls g : quiet (LastLayer goarch image tls g).
Proof. unfold LastLayer, GetLayerByDigest. go_calls. Qed.
Lemma quiet_GetHeaderDataFromLayer l n : quiet (GetHeaderDataFromLayer l n).
Proof. unfold GetHeaderDataFromLayer, getHeaderReaderFromLayer. go_calls. Qed.
#[local] Hint Resolve quiet_LastLayer quiet_GetHeaderDataFromLayer : calls.
Lemma quiet_getDTKFromImage image : quiet (getDTKFromImage image).
Proof. unfold getDTKFromImage. go_calls. Qed.
Lemma quiet_release_from_layers image c ds : quiet (release_from_layers image c ds).
Proof. induction ds; cbn [release_from_layers]; unfold GetLayerByDigest; go_calls. Qed.
#[local] Hint Resolve quiet_release_from_layers : calls.
Lemma quiet_getKernelVersionAndOSFromDTK image : quiet (getKernelVersionAndOSFromDTK image).
Proof. unfold getKernelVersionAndOSFromDTK. go_calls. Qed.

Lemma wp_getDTKFromImage image h :
  wp (λ _ _, True) (getDTKFromImage image) (λ o h', match o with
    | Done (Ok dtk) => dtk_image_of image dtk h' | _ => True end) h.
Proof.
  unfold getDTKFromImage. apply wp_bind. eapply wp_post; [apply wp_LastLayer|].
  intros [[l|e|w]|w] h1 _ Hl; try done.
  apply wp_bind. eapply wp_post; [apply wp_GetHeaderDataFromLayer|].
  intros [[d|e|w]|w] h2 Hp Hd; try done.
  apply wp_bind, wp_lift_result; [|done..]. intros tags Ht.
  apply wp_lift_result; [|done..]. intros dtk Hdtk. exists l, d, tags.
  split_and!; [by eapply pulled_from_monotone|done..].
Qed.

Lemma check_release_Ok r r' :
  check_release r = Ok r' → r' = r ∧ dtk_KernelVersion r ≠ "" ∧ dtk_RHELVersion r ≠ "".
Proof. unfold check_release. repeat case_bool_decide; simpl; by intros [= <-]. Qed.

Lemma wp_release_from_layers dtk c all ds h :
  digests_of dtk all c h → (∀ d, d ∈ ds → d ∈ all) →
  wp (λ _ _, True) (release_from_layers dtk c ds) (λ o h', match o with
    | Done (Ok r) => release_of dtk r h' | _ => True end) h.
Proof.
  revert h. induction ds as [|d ds IH]; intros h Hd Hin; [done|].
  cbn [release_from_layers]. apply wp_bind. split; [done|]. intros [layer|e|w]; try done.
  set (h1 := h ++ _). assert (h `prefix_of` h1) as Hp1 by by apply prefix_app_r.
  eapply digests_of_monotone in Hd; [|exact Hp1].
  apply wp_bind. eapply wp_post; [apply wp_GetHeaderDataFromLayer|].
  intros [[data|e|w]|w] h2 Hp2 Hf; try done.
  - apply wp_bind, wp_lift_result; [|done..]. intros r Hr.
    apply wp_lift_result; [|done..]. intros r' [-> Hne]%check_release_Ok.
    exists layer, data. split_and!; [|done..|apply Hne|apply Hne].
    eapply pulled_from_monotone; [exact Hp2|]. exists all, c, d.
    split_and!; [done|set_solver|unfold h1; in_hist].
  - apply IH; [|set_solver]. by eapply digests_of_monotone.
Qed.

Lemma wp_getKernelVersionAndOSFromDTK dtk h :
  wp (λ _ _, True) (getKernelVersionAndOSFromDTK dtk) (λ o h', match o with
    | Done (Ok r) => release_of dtk r h' | _ => True end) h.
Proof.
  unfold getKernelVersionAndOSFromDTK. apply wp_bind. eapply wp_post; [apply wp_GetLayersDigests|].
  intros [[[ds c]|e|w]|w] h1 _ Hd; try done. eapply wp_release_from_layers; [exact Hd|].
  intros d. by rewrite !list_elem_of_In, <-in_rev.
Qed.

(** ** The reconciler *)

Lemma quiet_ok key h q : is_write q = false ∧ mapping_write q = false → ocp_allowed key h q.
Proof. by left. Qed.

(** A quiet program, with what it established. *)
Lemma wp_quiet key {A} (p : M A) (R Q : outcome A → hist → Prop) h :
  quiet p → wp (λ _ _, True) p R h → (∀ o h', h `prefix_of` h' → R o h' → Q o h') →
  wp (ocp_allowed key) p Q h.
Proof.
  intros Hq HR HQ. eapply wp_mono; [apply (wp_and _ _ _ _ _ _ HR (Hq h))| |].
  - intros h' q _ [_ H]. by left.
  - intros o h' Hp [H _]. by apply HQ.
Qed.

Lemma ocp_kernel_Ok pvo r k :
  ocp_kernel pvo r = Ok k → dtk_KernelVersion r ≠ "" →
  k ≠ "" ∧ k = if pvos_UseRTKernel (pvo_Spec pvo) then dtk_RTKernelVersion r else dtk_KernelVersion r.
Proof.
  unfold ocp_kernel. destruct (pvos_UseRTKernel _); [case_bool_decide; [done|]|]; by intros [= <-].
Qed.

(** What the preparation of a PreflightValidation yields. *)
Definition prepared (pvo : PreflightValidationOCP) (pv : PreflightValidation) (h : hist) : Prop :=
  ∃ dtk r k, kernel_of pvo dtk r k h ∧ object_key (pv_meta pv) = pvo_key pvo ∧
    pv_Spec pv = mk_pvspec k (pvos_PushBuiltImage (pvo_Spec pvo)) ∧
    controlled_by (as_owner pvo) (pv_meta pv).

Lemma wp_preparePreflightValidation key pvo err h :
  (Ev (RGet KPreflightOCP key) (Ok pvo) : @event req ans) ∈ h →
  (Ev (RGet KPreflight (pvo_key pvo)) (Err err) : @event req ans) ∈ h → IsNotFound err = true →
  wp (ocp_allowed key) (preparePreflightValidation pvo) (λ o h', match o with
    | Done (Ok pv) => prepared pvo pv h' | _ => True end) h.
Proof.
  intros Hpvo Hpv Herr. unfold preparePreflightValidation.
  apply wp_bind. eapply wp_quiet; [apply quiet_getDTKFromImage|apply wp_getDTKFromImage|].
  intros [[dtk|e|w]|w] h1 Hp1 Hdtk; try done.
  apply wp_bind. eapply wp_quiet;
    [apply quiet_getKernelVersionAndOSFromDTK|apply wp_getKernelVersionAndOSFromDTK|].
  intros [[r|e|w]|w] h2 Hp2 Hr; try done.
  apply wp_bind, wp_lift_result; [|done..]. intros k Hk.
  assert (kernel_of pvo dtk r k h2) as Hkern.
  { split; [by eapply dtk_image_of_monotone|]. split; [done|].
    destruct Hr as (_ & _ & _ & _ & _ & Hne & _). by apply ocp_kernel_Ok. }
  assert (h `prefix_of` h2) as Hp by by trans h1.
  apply wp_bind, (wp_post _ _ (λ _ h', h2 `prefix_of` h')).
  { apply wp_bind. split; [by left|]. intros [img|e|w]; [by apply prefix_app_r| |by apply prefix_app_r].
    assert (∀ q t, q = RSetNodeInfo k (dtk_RHELVersion r) ∨ q = RSetImageStreamInfo (dtk_RHELVersion r) dtk →
      ocp_allowed key ((h2 ++ [Ev (RGetImage k) (Err e)]) ++ t) q) as Hok.
    { intros q t Hq. right. exists pvo.
      assert (∀ ev, ev ∈ h → ev ∈ (h2 ++ [Ev (RGetImage k) (Err e)]) ++ t) as Hin
        by (intros ev ?; destruct Hp as [t' ->]; rewrite !elem_of_app; auto).
      split; [by apply Hin|]. right. exists err, dtk, r, k. split; [by apply Hin|]. split; [done|].
      split; [eapply kernel_of_monotone, Hkern; rewrite <-app_assoc; by apply prefix_app_r|].
      left. split; [|done]. exists e. rewrite !elem_of_app. left. right. by left. }
    apply wp_bind. split; [pose proof (Hok _ [] (or_introl eq_refl)) as H; by rewrite app_nil_r in H|].
    intros []. split; [by apply Hok; right|]. intros [].
    rewrite <-!app_assoc. by apply prefix_app_r. }
  intros [[]|w] h3 _ Hp3; [|done]. cbv zeta.
  destruct (SetControllerReference _ _) as [m|e|w] eqn:Hm; [|done..].
  exists dtk, r, k. split; [by eapply kernel_of_monotone|].
  pose proof (SetControllerReference_controlled_by _ _ _ Hm) as Hc.
  apply SetControllerReference_fields in Hm as (Hn & Hns & _).
  split_and!; [|done|done]. unfold object_key. simpl. by rewrite Hn, Hns.
Qed.

Lemma wp_ocp_Reconcile key :
  wp (ocp_allowed key) (ocp_Reconcile key) (λ _ _, True) [].
Proof.
  unfold ocp_Reconcile. apply wp_bind. split; [by left|].
  intros [pvo|err|w]; [|cbn [wp]; by destruct (IsNotFound err)|done].
  set (h := _ ++ _). assert ((Ev (RGet KPreflightOCP key) (Ok pvo) : @event req ans) ∈ h) as Hpvo
    by set_solver. clearbody h.
  apply wp_bind, (wp_post _ _ (λ _ _, True)); [|by intros [[]|] ??].
  unfold runPreflightValidationOCP. apply wp_bind. split; [by left|]. intros [pv|err|w]; [| |done].
  - unfold PreflightOCPUpdateStatus. do 2 apply wp_bind. split; [|by intros []].
    right. exists pvo. split; [apply elem_of_app; by left|]. left. exists pv.
    split; [in_hist|done].
  - cbn [wp]. destruct (IsNotFound err) eqn:Herr; [|done]. apply wp_bind.
    set (h1 := h ++ _).
    assert ((Ev (RGet KPreflightOCP key) (Ok pvo) : @event req ans) ∈ h1) as Hpvo1
      by (apply elem_of_app; by left).
    assert ((Ev (RGet KPreflight (pvo_key pvo)) (Err err) : @event req ans) ∈ h1) as Hpv by in_hist.
    clearbody h1. eapply wp_post; [by eapply wp_preparePreflightValidation|].
    intros [[pv|e|w]|w] h2 [t ->] Hprep; try done.
    apply wp_bind. split; [|by intros []].
    destruct Hprep as (dtk & r & k & H1 & H2 & H3 & H4).
    right. exists pvo. split; [apply elem_of_app; by left|]. right.
    exists err, dtk, r, k. split; [apply elem_of_app; by left|]. split_and!; [done|done|].
    right. by exists pv.
Qed.

(** ** Properties *)

(** C27: against every API server and registry, the controller of
    PreflightValidationOCPs writes nothing but, for the object it read: the
    statuses of the PreflightValidation of the same name, copied; or, when
    that one is not found, the PreflightValidation it creates and controls,
    for the kernel that the release file of the driver toolkit image of the
    release image names (the real-time one when asked for), never empty, with
    the same PushBuiltImage.  The shared mapping changes only for a kernel it does not
    resolve, to that image and OS version. *)
Theorem ocp_Reconcile_safety {S} (srv : kserver S) s key h1 e h2 :
  run_trace srv (ocp_Reconcile key) s = h1 ++ e :: h2 →
  ocp_allowed key h1 (ev_req e).
Proof. apply (wp_run _ _ _ srv s (wp_ocp_Reconcile key)). Qed.
End preflight_ocp.

(** ** Example *)

Definition ex_release : dtkRelease := mk_dtkrelease "5.14.0-70.el9" "5.14.0-70.rt.el9" "9.2".
Definition ex_release_decoder : ReleaseDecoder := {|
  unmarshal_imagestream _ := Ok [mk_tag "cli" None; mk_tag driverToolkitSpecName (Some "quay.io/dtk@sha256:1")];
  unmarshal_dtkRelease _ := Ok ex_release |}.
Definition ex_pvo : PreflightValidationOCP :=
  mk_pvo (meta_named "upgrade" "gpu") (mk_pvospec "quay.io/release@sha256:0" true false) None.

(** A registry whose layers hold both files, and no PreflightValidation. *)
Definition ex_ocp_server : kserver unit := stateless (λ q,
  match q return ans q with
  | RGet KPreflightOCP _ => Ok ex_pvo
  | RGet KSecret _ => Ok (mk_secret (meta_named "pull-secret" "openshift-config") ∅ "")
  | RKeychainFromSecret _ => Ok "keychain"
  | RManifest _ _ => Ok "manifest"
  | RPullLayer _ _ => Ok "layer"
  | RUncompressed _ => Ok (mk_tarstream [mk_tar releaseManifestImagesRefFile (Ok "{}");
                                         mk_tar driverToolkitJSONFilePath (Ok "{}")] None)
  | q => accept q
  end).

Definition ex_ocp : M (result ReconcileResult) :=
  ocp_Reconcile (D := ex_decoder) (RD := ex_release_decoder) "amd64" (NN "gpu" "upgrade").

Definition ex_creates_pv (e : @event req ans) : bool :=
  match ev_req e with
  | RCreate KPreflight pv => bool_decide (pvs_KernelVersion (pv_Spec pv) = "5.14.0-70.rt.el9")
  | _ => false
  end.

Example ex_ocp_runs :
  run_out ex_ocp_server ex_ocp tt = Done (Ok no_requeue) ∧
  existsb ex_creates_pv (run_trace ex_ocp_server ex_ocp tt) = true.
Proof. vm_compute. done. Qed.

Lemma ocp_Reconcile_safety_witness :
  ∃ h1 e, ex_creates_pv e = true ∧
    ocp_allowed (D := ex_decoder) (RD := ex_release_decoder) (NN "gpu" "upgrade") h1 (ev_req e).
Proof.
  destruct (existsb_split _ _ (proj2 ex_ocp_runs)) as (h1 & e & h2 & Htr & He).
  exists h1, e. split; [exact He|].
  exact (ocp_Reconcile_safety (D := ex_decoder) (RD := ex_release_decoder) "amd64" ex_ocp_server tt
    (NN "gpu" "upgrade") h1 e h2 Htr).
Defined.
