(* ===== verification/NodeControllers.v ===== *)
(** * The controllers of nodes, their pods and the DTK image stream

    controllers/node_kernel_reconciler.go labels each node with its kernel and
    registers the kernel's OS version; node_kernel_clusterclaim.go publishes
    the kernels of a spoke cluster to the hub; pod_node_module_reconciler.go
    labels a node while a module's pod is ready on it; and
    imagestream_reconciler.go registers the driver toolkit image of each OS
    version. *)

From S2P Require Import Prelude Prog K8s Api Client DaemonSet ModuleReconciler.
From stdpp Require Import options.

Local Open Scope go_scope.

(** ** osVersionRegexp *)

Definition is_digit (c : ascii) : bool :=
  let n := Ascii.nat_of_ascii c in (48 <=? n) && (n <=? 57).

(** The longest prefix of digits, and the rest. *)
Fixpoint take_digits (s : string) : string * string :=
  match s with
  | EmptyString => ("", "")
  | String c s' =>
      if is_digit c then let '(d, r) := take_digits s' in (String c d, r) else ("", s)
  end.

(** [\d+] followed by the byte [sep]: a shorter run of digits is followed by
    a digit, so the greedy one is the only one that can match. *)
Definition digits_then (sep : ascii) (s : string) : option (string * string) :=
  match take_digits s with
  | (EmptyString, _) => None
  | (d, String c r) => if bool_decide (c = sep) then Some (d +:+ String c "", r) else None
  | _ => None
  end.

(** The match of [\d+\.\d+\.\d+\-\d] at the start of the string. *)
Definition match_os_version (s : string) : option string :=
  '(a, s) ← digits_then "."%char s;
  '(b, s) ← digits_then "."%char s;
  '(c, s) ← digits_then "-"%char s;
  match s with
  | String d _ => if is_digit d then Some (a +:+ b +:+ c +:+ String d "") else None
  | EmptyString => None
  end.

(** osVersionRegexp.FindString: the leftmost match, or the empty string. *)
Fixpoint osVersion_FindString (s : string) : string :=
  match match_os_version s with
  | Some m => m
  | None => match s with EmptyString => "" | String _ s' => osVersion_FindString s' end
  end.

Example osVersion_ex :
  osVersion_FindString "Red Hat Enterprise Linux CoreOS 411.86.202210072320-0 (Ootpa)"
  = "411.86.202210072320-0".
Proof. reflexivity. Qed.

(** ** node_kernel_reconciler.go *)

Section node_kernel_controller.
Variable labelName : string.

(** node.Labels[labelName] = value, on a possibly nil map *)
Definition with_node_label (node : Node) (label value : string) : Node :=
  set_meta (set_labels (Some (<[label := value]> (default ∅ (om_Labels (node_meta node)))))
              (node_meta node)) node.

Definition node_kernel_Reconcile (req : NamespacedName) : M (result ReconcileResult) :=
  try node := Get KNode (NN "" (nn_Name req))
    catch err => Ret (Err (errorf ("could not get node: " +:+ Error err))) in
  let kernelVersion := node_kernel node in
  let osImageVersion := osVersion_FindString (node_OSImage node) in
  if bool_decide (osImageVersion = "")
  then Ret (Err (errorf ("could not get node " +:+ om_Name (node_meta node) +:+ " osImageVersion")))
  else
    prog_bind (λ _,
      try _ := Patch KNode (with_node_label node labelName kernelVersion) node
        catch err => Ret (Err (errorf ("could not patch the node: " +:+ Error err))) in
      Ret (Ok no_requeue)) (call (RSetNodeInfo kernelVersion osImageVersion)).
End node_kernel_controller.

(** ** node_kernel_clusterclaim.go *)

Section cluster_claim.
Context {MO : MapOrder}.

Definition newline : string := String (Ascii.ascii_of_nat 10) "".
Definition is_newline (c : ascii) : bool := is_char (Ascii.ascii_of_nat 10) c.

(** The kernels of the nodes, as the map the loop fills. *)
Definition kernelsMap (nodes : list Node) : gmap string () :=
  foldl (λ m n, <[node_KernelVersion n := ()]> m) ∅ nodes.

Definition claim_value (nodes : list Node) : string :=
  str_join newline (sort_strings (List.map fst (range_map (kernelsMap nodes)))).

Definition cluster_claim_Reconcile : M (result ReconcileResult) :=
  try nodes := List_ KNode list_all
    catch err => Ret (Err (errorf ("could not list nodes: " +:+ Error err))) in
  let cc := mk_cc (meta_named KernelVersionsClusterClaimName "") "" in
  prog_bind (λ r, match r with
    | Ok _ => Ret (Ok no_requeue)
    | Err err => Ret (Err err)
    | Panic w => Crash w
    end)
    (CreateOrPatch KClusterClaim cc (λ cc : ClusterClaim, Ok (mk_cc (cc_meta cc) (claim_value nodes)))).
End cluster_claim.

(** ** pod_node_module_reconciler.go *)

Section pod_node_module.
Variable kernelLabel : string.

Definition get_node (nodeName : string) : M (result Node) :=
  try node := Get KNode (NN "" nodeName)
    catch err => Ret (Err (errorf ("could not get node " +:+ nodeName +:+ ": " +:+ Error err))) in
  Ret (Ok node).

Definition addLabel (nodeName labelName : string) : M (result unit) :=
  try node := get_node nodeName catch err => Ret (Err err) in
  try _ := Patch KNode (with_node_label node labelName "") node catch err => Ret (Err err) in
  Ret (Ok tt).

Definition without_node_label (node : Node) (label : string) : Node :=
  set_meta (set_labels (delete label <$> om_Labels (node_meta node)) (node_meta node)) node.

Definition deleteLabel (nodeName labelName : string) : M (result unit) :=
  try node := get_node nodeName catch err => Ret (Err err) in
  try _ := Patch KNode (without_node_label node labelName) node catch err => Ret (Err err) in
  Ret (Ok tt).

Definition without_finalizer (pod : Pod) : Pod :=
  set_meta (RemoveFinalizer (pod_meta pod) NodeLabelerFinalizer) pod.

Definition deleteFinalizer (pod : Pod) : M (result unit) :=
  try _ := Patch KPod (without_finalizer pod) pod catch err => Ret (Err err) in
  Ret (Ok tt).

Definition pod_Reconcile (req : NamespacedName) : M (result ReconcileResult) :=
  prog_bind (λ r, match r with
    | Panic w => Crash w
    | Err err =>
        if IsNotFound err then Ret (Ok no_requeue)
        else Ret (Err (errorf ("could not get pod " +:+ nsn_string req +:+ ": " +:+ Error err)))
    | Ok pod =>
        let nodeName := pod_NodeName pod in
        match omap_lookup (om_Labels (pod_meta pod)) ModuleNameLabel with
        | None => Ret (Err (errorf ("pod " +:+ nsn_string req +:+ " has no " +:+ go_quote ModuleNameLabel
                                    +:+ " label")))
        | Some moduleName =>
            let labelName := GetNodeLabelFromPod kernelLabel pod moduleName in
            let deleting := negb (deletion_is_zero (pod_meta pod)) in
            if negb (IsPodReady pod) || deleting then
              try _ := deleteLabel nodeName labelName
                catch err => Ret (Err (errorf ("could not unlabel node " +:+ nodeName +:+ ": "
                                               +:+ Error err))) in
              if deleting then
                try _ := deleteFinalizer pod
                  catch err =>
                    (if IsNotFound err then Ret (Ok no_requeue)
                     else Ret (Err (errorf ("could not delete the pod finalizer: " +:+ Error err)))) in
                Ret (Ok no_requeue)
              else Ret (Ok no_requeue)
            else
              try _ := addLabel nodeName labelName
                catch err => Ret (Err (errorf ("could not label node " +:+ nodeName +:+ " with "
                                               +:+ go_quote labelName +:+ ": " +:+ Error err))) in
              Ret (Ok no_requeue)
        end
    end) (Get KPod req).
End pod_node_module.

(** ** imagestream_reconciler.go *)

Section image_stream.
Variable nsn : NamespacedName.

(** The loop over the tags; [t.From] is dereferenced unchecked. *)
Fixpoint register_tags (tags : list TagReference) : M unit :=
  match tags with
  | [] => Ret tt
  | t :: tags =>
      if bool_decide (tag_Name t = "latest") then register_tags tags
      else
        match tag_From t with
        | None => Crash "runtime error: invalid memory address or nil pointer dereference"
        | Some image =>
            prog_bind (λ _, register_tags tags) (call (RSetImageStreamInfo (tag_Name t) image))
        end
  end.

Definition imagestream_Reconcile : M (result ReconcileResult) :=
  try ist := Get KImageStream nsn
    catch err => Ret (Err (errorf ("could not get imagestream " +:+ nsn_string nsn +:+ ": "
                                   +:+ Error err))) in
  prog_bind (λ _, Ret (Ok no_requeue)) (register_tags (is_Tags ist)).
End image_stream.

(** ** The expression *)

(** The strings the expression describes. *)
Definition os_version (m : string) : Prop :=
  ∃ a b c d, a ≠ "" ∧ b ≠ "" ∧ c ≠ "" ∧ str_forall is_digit a ∧ str_forall is_digit b ∧
    str_forall is_digit c ∧ is_digit d ∧
    m = a +:+ "." +:+ b +:+ "." +:+ c +:+ "-" +:+ String d "".

Lemma take_digits_spec s d r :
  take_digits s = (d, r) →
  s = d +:+ r ∧ str_forall is_digit d.
Proof.
  revert d r. induction s as [|c s IH]; intros d r; simpl; [by intros [= <- <-]|].
  destruct (is_digit c) eqn:Hc; [|by intros [= <- <-]].
  destruct (take_digits s) as [d' r']. intros [= <- <-].
  destruct (IH d' r' eq_refl) as [-> Hd]. rewrite str_app_cons. simpl. by rewrite Hc.
Qed.

Lemma take_digits_app d c r :
  str_forall is_digit d → is_digit c = false →
  take_digits (d +:+ String c r) = (d, String c r).
Proof.
  intros Hd Hc. induction d as [|x d IH].
  - rewrite str_app_nil_l. simpl. by rewrite Hc.
  - simpl in Hd. apply andb_True in Hd as [Hx Hd]. rewrite str_app_cons. simpl.
    rewrite (IH Hd). by destruct (is_digit x).
Qed.

Lemma digits_then_Some sep s x r :
  digits_then sep s = Some (x, r) →
  ∃ d, d ≠ "" ∧ str_forall is_digit d ∧ x = d +:+ String sep "" ∧ s = x +:+ r.
Proof.
  unfold digits_then. destruct (take_digits s) as [d r'] eqn:Ht.
  apply take_digits_spec in Ht as [-> Hd].
  destruct d as [|c d]; [done|]. destruct r' as [|c' r']; [done|].
  case_bool_decide; [|done]. intros [= <- <-]. subst c'. exists (String c d).
  split_and!; [done|done|done|]. by rewrite str_app_assoc.
Qed.

Lemma digits_then_app sep d r :
  d ≠ "" → str_forall is_digit d → is_digit sep = false →
  digits_then sep (d +:+ String sep r) = Some (d +:+ String sep "", r).
Proof.
  intros Hne Hd Hsep. unfold digits_then. rewrite take_digits_app by done.
  destruct d; [done|]. by rewrite bool_decide_true.
Qed.

Lemma match_os_version_sound s m :
  match_os_version s = Some m → os_version m ∧ ∃ q, s = m +:+ q.
Proof.
  unfold match_os_version. intros H.
  destruct (digits_then "."%char s) as [[a s1]|] eqn:Ha; [|done]. simpl in H.
  destruct (digits_then "."%char s1) as [[b s2]|] eqn:Hb; [|done]. simpl in H.
  destruct (digits_then "-"%char s2) as [[c s3]|] eqn:Hc; [|done]. simpl in H.
  apply digits_then_Some in Ha as (a' & Ha1 & Ha2 & -> & ->).
  apply digits_then_Some in Hb as (b' & Hb1 & Hb2 & -> & ->).
  apply digits_then_Some in Hc as (c' & Hc1 & Hc2 & -> & ->).
  destruct s3 as [|d q]; [done|]. destruct (is_digit d) eqn:Hd; [|done]. injection H as <-. split.
  - exists a', b', c', d. split_and!; try done; [by rewrite Hd|]. by rewrite !str_app_assoc.
  - exists q. by rewrite !str_app_assoc.
Qed.

Lemma match_os_version_complete m q : os_version m → match_os_version (m +:+ q) = Some m.
Proof.
  intros (a & b & c & d & Ha1 & Hb1 & Hc1 & Ha & Hb & Hc & Hd & ->). unfold match_os_version.
  rewrite ?str_app_assoc, ?str_app_cons, ?str_app_nil_l, digits_then_app by done. simpl.
  rewrite ?str_app_assoc, ?str_app_cons, ?str_app_nil_l, digits_then_app by done. simpl.
  rewrite ?str_app_assoc, ?str_app_cons, ?str_app_nil_l, digits_then_app by done. simpl.
  destruct (is_digit d); [|done]. by rewrite ?str_app_assoc, ?str_app_cons, ?str_app_nil_l.
Qed.

Lemma os_version_not_empty m : os_version m → m ≠ "".
Proof. intros (a & b & c & d & Ha & _ & _ & _ & _ & _ & _ & ->). by destruct a. Qed.

(** Whatever is found is a version. *)
Lemma osVersion_found s : osVersion_FindString s = "" ∨ os_version (osVersion_FindString s).
Proof.
  induction s as [|c s IH]; cbn [osVersion_FindString]; [by left|].
  destruct (match_os_version (String c s)) as [m|] eqn:Hm; [|done].
  right. by apply match_os_version_sound in Hm as [? _].
Qed.

(** ** Labels and kernels *)

Lemma with_node_label_lookup node l v k :
  omap_lookup (om_Labels (node_meta (with_node_label node l v))) k =
  if decide (k = l) then Some v else omap_lookup (om_Labels (node_meta node)) k.
Proof.
  simpl. destruct (decide (k = l)) as [->|Hne]; [apply lookup_insert_eq|].
  rewrite lookup_insert_ne by done. by destruct (om_Labels (node_meta node)).
Qed.

Lemma without_node_label_lookup node l k :
  omap_lookup (om_Labels (node_meta (without_node_label node l))) k =
  if decide (k = l) then None else omap_lookup (om_Labels (node_meta node)) k.
Proof.
  simpl. destruct (om_Labels (node_meta node)) as [ls|]; simpl.
  - destruct (decide (k = l)) as [->|Hne]; [apply lookup_delete_eq|by apply lookup_delete_ne].
  - by destruct (decide _).
Qed.

Lemma kernelsMap_lookup nodes k :
  kernelsMap nodes !! k = Some () ↔ ∃ n, n ∈ nodes ∧ node_KernelVersion n = k.
Proof.
  unfold kernelsMap. cut (∀ m : gmap string (),
    foldl (λ m n, <[node_KernelVersion n := ()]> m) m nodes !! k = Some () ↔
    m !! k = Some () ∨ ∃ n, n ∈ nodes ∧ node_KernelVersion n = k).
  { intros H. rewrite H, lookup_empty. split; [by intros [?|?]|by right]. }
  induction nodes as [|n nodes IH]; intros m; simpl; [set_solver|].
  rewrite IH, lookup_insert_Some. split.
  - intros [[[<- _]|[_ ?]]|(x & ? & ?)]; [right; exists n; set_solver|by left|].
    right. exists x. set_solver.
  - intros [H|(x & [->|Hx]%elem_of_cons & Hk)]; [|by left; left|by right; exists x].
    left. destruct (decide (node_KernelVersion n = k)); [by left|by right].
Qed.

Lemma claim_keys {MO : MapOrder} nodes k :
  k ∈ sort_strings (List.map fst (range_map (kernelsMap nodes))) ↔
  ∃ n, n ∈ nodes ∧ node_KernelVersion n = k.
Proof.
  rewrite sort_strings_perm, list_elem_of_In, in_map_iff, <-kernelsMap_lookup. split.
  - intros ([k' []] & <- & Hin%list_elem_of_In). by apply elem_of_range_map in Hin.
  - intros H. exists (k, ()). split; [done|]. by apply list_elem_of_In, elem_of_range_map.
Qed.

Lemma claim_value_map (MO1 MO2 : MapOrder) nodes1 nodes2 :
  kernelsMap nodes1 = kernelsMap nodes2 →
  claim_value (MO := MO1) nodes1 = claim_value (MO := MO2) nodes2.
Proof.
  intros H. unfold claim_value. rewrite H. f_equal. apply sort_strings_proper.
  apply Permutation_map. by rewrite (range_map_perm (MapOrder := MO1)), (range_map_perm (MapOrder := MO2)).
Qed.

(** The hub's split of the value gives back the list that was joined. *)
Lemma claim_split {MO : MapOrder} nodes :
  nodes ≠ [] →
  (∀ n, n ∈ nodes → str_forall (λ c, negb (is_newline c)) (node_KernelVersion n)) →
  str_split is_newline (claim_value nodes) =
  sort_strings (List.map fst (range_map (kernelsMap nodes))).
Proof.
  intros Hne Hnl. apply str_split_join.
  - destruct nodes as [|n nodes]; [done|]. intros H.
    pose proof (proj2 (claim_keys (n :: nodes) (node_KernelVersion n))) as Hin.
    rewrite H in Hin. assert (node_KernelVersion n ∈ []) as Hbad; [|by apply not_elem_of_nil in Hbad].
    apply Hin. exists n. split; [by left|done].
  - apply Forall_forall. intros k (n & Hn & <-)%claim_keys. by apply Hnl.
Qed.

Lemma kernelsMap_ext nodes1 nodes2 :
  (∀ k, (∃ n, n ∈ nodes1 ∧ node_KernelVersion n = k) ↔ (∃ n, n ∈ nodes2 ∧ node_KernelVersion n = k)) →
  kernelsMap nodes1 = kernelsMap nodes2.
Proof.
  intros H. apply map_eq. intros k. apply option_eq. intros []. by rewrite !kernelsMap_lookup.
Qed.

(** ** The tags *)

Definition registrations (tags : list TagReference) : list req :=
  List.map (λ t, RSetImageStreamInfo (tag_Name t) (default "" (tag_From t)))
    (List.filter (λ t, negb (bool_decide (tag_Name t = "latest"))) tags).

Lemma register_tags_Done {S} (srv : kserver S) s tags :
  (∀ t, t ∈ tags → tag_Name t ≠ "latest" → tag_From t ≠ None) →
  ∃ tr, run srv (register_tags tags) s = (Done tt, run_state srv (register_tags tags) s, tr) ∧
    List.map ev_req tr = registrations tags.
Proof.
  unfold run_state. revert s. induction tags as [|t tags IH]; intros s Hall; [by exists []|].
  cbn [register_tags]. unfold registrations. cbn [List.filter].
  case_bool_decide as Hn; simpl; [apply IH; intros; apply Hall; [by right|done]|].
  destruct (tag_From t) as [img|] eqn:Hf; [|by destruct (Hall t); [left| |]].
  simpl. destruct (srv _ s) as [u s1].
  destruct (IH s1) as (tr & Hrun & Htr); [intros; apply Hall; [by right|done]|].
  rewrite Hrun. simpl. eexists. split; [done|]. simpl. by rewrite Htr.
Qed.

Lemma register_tags_Crash {S} (srv : kserver S) s l1 t l2 :
  tag_Name t ≠ "latest" → tag_From t = None →
  (∀ t', t' ∈ l1 → tag_Name t' ≠ "latest" → tag_From t' ≠ None) →
  ∃ why s2 tr, run srv (register_tags (l1 ++ t :: l2)) s = (Crashed why, s2, tr) ∧
    List.map ev_req tr = registrations l1.
Proof.
  intros Hn Hf. revert s. induction l1 as [|t1 l1 IH]; intros s Hall.
  - simpl. rewrite bool_decide_false, Hf by done. by eexists _, _, _.
  - cbn [register_tags app]. unfold registrations. cbn [List.filter].
    case_bool_decide as Hn1; simpl; [apply IH; intros; apply Hall; [by right|done]|].
    destruct (tag_From t1) as [img|] eqn:Hf1; [|by destruct (Hall t1); [left| |]].
    simpl. destruct (srv _ s) as [u s1].
    destruct (IH s1) as (why & s2 & tr & Hrun & Htr); [intros; apply Hall; [by right|done]|].
    rewrite Hrun. simpl. eexists _, _, _. split; [done|]. simpl. by rewrite Htr.
Qed.

(** ** Properties *)

(** OsVersionRegexp finds the leftmost part of the string of the form
    digits, dot, digits, dot, digits, dash, digit, and the empty string only
    when there is none. *)
Theorem osVersion_FindString_spec s :
  let m := osVersion_FindString s in
  (m = "" ∧ ∀ p m' q, os_version m' → s ≠ p +:+ m' +:+ q) ∨
  (∃ p q, s = p +:+ m +:+ q ∧ os_version m ∧
     ∀ p' m' q', s = p' +:+ m' +:+ q' → os_version m' → String.length p ≤ String.length p').
Proof.
  cbv zeta. induction s as [|c s IH]; cbn [osVersion_FindString].
  - left. split; [done|]. intros p m' q Hm Heq. apply os_version_not_empty in Hm.
    by destruct p, m'.
  - destruct (match_os_version (String c s)) as [m|] eqn:Hm.
    + apply match_os_version_sound in Hm as [Hm [q Hq]]. right. exists "", q.
      split_and!; [done|done|]. simpl. lia.
    + assert (∀ p m' q, String c s = p +:+ m' +:+ q → os_version m' →
        ∃ p', p = String c p' ∧ s = p' +:+ m' +:+ q) as Hp.
      { intros [|c' p'] m' q Heq Hos.
        - rewrite str_app_nil_l in Heq. apply (match_os_version_complete m' q) in Hos.
          rewrite <-Heq in Hos. congruence.
        - rewrite str_app_cons in Heq. injection Heq as <- Heq. by exists p'. }
      destruct IH as [[-> IH]|(p & q & Hs & Hos & IH)]; [left|right].
      * split; [done|]. intros p m' q Hos Heq. destruct (Hp p m' q Heq Hos) as (p' & _ & Hs).
        by apply (IH p' m' q).
      * exists (String c p), q. rewrite str_app_cons. split_and!; [by f_equal|done|].
        intros p' m' q' Heq Hos'. destruct (Hp p' m' q' Heq Hos') as (p1 & -> & Hs1). simpl.
        pose proof (IH p1 m' q' Hs1 Hos'). lia.
Qed.

(** Reconciling a node reads it, registers its kernel (without a trailing
    plus) with the OS version in its OS image, and then patches exactly one
    label of the node as read, to that kernel; without an OS version it
    changes nothing.  It succeeds only if the patch did. *)
Theorem node_kernel_Reconcile_spec {S} (srv : kserver S) s labelName key :
  let p := node_kernel_Reconcile labelName key in
  let get r := Ev (RGet KNode (NN "" (nn_Name key))) r : @event req ans in
  (∃ e, run_trace srv p s = [get e] ∧ run_out srv p s ≠ Done (Ok no_requeue)) ∨
  (∃ node os node' u r, os_version os ∧ osVersion_FindString (node_OSImage node) = os ∧
     run_trace srv p s = [get (Ok node); Ev (RSetNodeInfo (node_kernel node) os) u;
                          Ev (RPatch KNode node' node) r] ∧
     (run_out srv p s = Done (Ok no_requeue) ↔ is_ok r = true) ∧
     (∀ k, omap_lookup (om_Labels (node_meta node')) k =
             if decide (k = labelName) then Some (node_kernel node)
             else omap_lookup (om_Labels (node_meta node)) k) ∧
     set_meta (set_labels (om_Labels (node_meta node)) (node_meta node')) node' = node).
Proof.
  cbv zeta. unfold run_trace, run_out, node_kernel_Reconcile, Get, Patch, call. simpl.
  destruct (srv (RGet KNode _) s) as [[node|e|w] s1]; simpl; [|left; by eexists..].
  case_bool_decide as Hos; simpl; [left; by eexists|].
  destruct (srv (RSetNodeInfo _ _) s1) as [u s2]; simpl.
  destruct (srv (RPatch KNode _ _) s2) as [r s3] eqn:Hr.
  right. exists node, (osVersion_FindString (node_OSImage node)),
    (with_node_label node labelName (node_kernel node)), u, r.
  split_and!; [|done|by destruct r|by destruct r|apply with_node_label_lookup|].
  - pose proof (osVersion_found (node_OSImage node)) as [H|H]; [congruence|exact H].
  - destruct node as [[] ? ? ?]. done.
Qed.

(** C36: the value published for a spoke's kernels depends only on the set of
    kernels of its nodes, not on the order of nodes or of map iteration; and
    splitting it at its newlines, as the hub does, gives back each kernel
    once, in byte order. *)
Theorem claim_value_spec (MO1 MO2 : MapOrder) nodes1 nodes2 :
  (∀ k, (∃ n, n ∈ nodes1 ∧ node_KernelVersion n = k) ↔ (∃ n, n ∈ nodes2 ∧ node_KernelVersion n = k)) →
  nodes1 ≠ [] →
  (∀ n, n ∈ nodes1 → str_forall (λ c, negb (is_newline c)) (node_KernelVersion n)) →
  let v := claim_value (MO := MO1) nodes1 in
  let ks := str_split is_newline v in
  v = claim_value (MO := MO2) nodes2 ∧
  (∀ k, k ∈ ks ↔ ∃ n, n ∈ nodes2 ∧ node_KernelVersion n = k) ∧ NoDup ks ∧
  StronglySorted String.le ks.
Proof.
  intros Heq Hne Hnl v ks. split; [by apply claim_value_map, kernelsMap_ext|].
  unfold ks, v. rewrite claim_split by done.
  split_and!.
  - intros k. by rewrite claim_keys.
  - rewrite sort_strings_perm. apply range_map_NoDup.
  - apply sort_strings_sorted.
Qed.

(** What the cluster claim controller may do. *)
Definition claim_allowed {MO : MapOrder} (h : hist) (q : req) : Prop :=
  is_write q = false ∨
  ∃ nodes, (Ev (RList KNode list_all) (Ok nodes) : @event req ans) ∈ h ∧
    (q = RCreate KClusterClaim
           (mk_cc (meta_named KernelVersionsClusterClaimName "") (claim_value nodes)) ∨
     ∃ cc, (Ev (RGet KClusterClaim (NN "" KernelVersionsClusterClaimName)) (Ok cc) : @event req ans) ∈ h ∧
       q = RPatch KClusterClaim (mk_cc (cc_meta cc) (claim_value nodes)) cc ∧
       cc_Value cc ≠ claim_value nodes).

Lemma wp_cluster_claim {MO : MapOrder} : wp claim_allowed cluster_claim_Reconcile (λ _ _, True) [].
Proof.
  unfold cluster_claim_Reconcile. apply wp_bind. split; [by left|]. intros [nodes|err|w]; try done.
  apply wp_bind. unfold CreateOrPatch, CreateOrPatch_with. apply wp_bind. split; [by left|].
  intros [cc|err|w]; [| |done].
  - cbn [wp]. unfold mutate. case_bool_decide; [|done]. apply wp_bind. simpl.
    case_bool_decide as Heq; [done|]. simpl. split; [|by intros [r|e|w]].
    right. exists nodes. split; [set_solver|]. right. exists cc. split_and!; [set_solver|done|].
    intros Hv. apply Heq. destruct cc. simpl in *. by rewrite Hv.
  - cbn [wp]. destruct (IsNotFound err); [|done]. apply wp_bind. simpl. split; [|by intros [r|e|w]].
    right. exists nodes. split; [set_solver|by left].
Qed.

(** The controller writes at most the cluster claim, with the value of
    the nodes it listed, and patches it only when the value differs from the
    one on the server. *)
Theorem cluster_claim_safety {MO : MapOrder} {S} (srv : kserver S) s h1 e h2 :
  run_trace srv cluster_claim_Reconcile s = h1 ++ e :: h2 → claim_allowed h1 (ev_req e).
Proof. apply (wp_run _ _ _ srv s wp_cluster_claim). Qed.

(** What the controller of module pods may change: it removes the finalizer
    of a pod that is being deleted, right after the label of its node was
    removed; it removes the label of a pod that is not ready or being
    deleted, and adds that of a pod that is ready and is not. *)
Definition pod_allowed (kernelLabel : string) (key : NamespacedName) (h : hist) (q : req) : Prop :=
  is_write q = false ∨
  ∃ pod moduleName node,
    let label := GetNodeLabelFromPod kernelLabel pod moduleName in
    let read := [Ev (RGet KPod key) (Ok pod);
                 Ev (RGet KNode (NN "" (pod_NodeName pod))) (Ok node)] : hist in
    let unlabel := without_node_label node label in
    omap_lookup (om_Labels (pod_meta pod)) ModuleNameLabel = Some moduleName ∧
    ((h = read ∧ q = RPatch KNode unlabel node ∧
      (IsPodReady pod = false ∨ deletion_is_zero (pod_meta pod) = false)) ∨
     (h = read ∧ q = RPatch KNode (with_node_label node label "") node ∧
      IsPodReady pod = true ∧ deletion_is_zero (pod_meta pod) = true) ∨
     (∃ node', h = read ++ [Ev (RPatch KNode unlabel node) (Ok node')] ∧
      q = RPatch KPod (without_finalizer pod) pod ∧ deletion_is_zero (pod_meta pod) = false)).

Lemma wp_pod_Reconcile kernelLabel key :
  wp (pod_allowed kernelLabel key) (pod_Reconcile kernelLabel key) (λ _ _, True) [].
Proof.
  unfold pod_Reconcile. apply wp_bind. split; [by left|].
  intros [pod|err|w]; [|cbn [wp]; by destruct (IsNotFound err)|done]. cbn [wp].
  destruct (omap_lookup _ ModuleNameLabel) as [name|] eqn:Hname; [|done]. cbv zeta.
  destruct (negb (IsPodReady pod) || negb (deletion_is_zero (pod_meta pod))) eqn:Hcase;
    apply wp_bind; [unfold deleteLabel|unfold addLabel]; apply wp_bind; unfold get_node;
    apply wp_bind; (split; [by left|]); intros [node|err|w]; try done; apply wp_bind; split.
  - right. exists pod, name, node. cbv zeta. split; [done|]. left. split_and!; [done|done|].
    apply orb_true_iff in Hcase as [H|H]; apply negb_true_iff in H; auto.
  - intros [node'|err|w]; try done. cbn [wp].
    destruct (deletion_is_zero (pod_meta pod)) eqn:Hdel; simpl; [done|]. split.
    + right. exists pod, name, node. cbv zeta. split; [done|]. right. right. by exists node'.
    + intros [pod'|err|w]; simpl; [done|by destruct (IsNotFound err)|done].
  - right. exists pod, name, node. cbv zeta. split; [done|]. right. left.
    apply orb_false_iff in Hcase as [H1 H2]. apply negb_false_iff in H1, H2. done.
  - by intros [node'|err|w].
Qed.

(** C21: a node carries a module's label only while a pod of the module is
    ready: the controller sets the label of the pod's node only when it read
    the pod ready and not being deleted, removes it otherwise, and touches no
    other label; it removes the pod's finalizer, and only that finalizer,
    only when the pod is being deleted and the call before it removed the
    label from the node successfully. *)
Theorem pod_Reconcile_safety {S} (srv : kserver S) s kernelLabel key h1 e h2 :
  run_trace srv (pod_Reconcile kernelLabel key) s = h1 ++ e :: h2 →
  pod_allowed kernelLabel key h1 (ev_req e) ∧
  (∀ node label k, omap_lookup (om_Labels (node_meta (without_node_label node label))) k =
     if decide (k = label) then None else omap_lookup (om_Labels (node_meta node)) k) ∧
  (∀ pod f, f ∈ om_Finalizers (pod_meta (without_finalizer pod)) ↔
     f ∈ om_Finalizers (pod_meta pod) ∧ f ≠ NodeLabelerFinalizer).
Proof.
  intros Htr. split_and!.
  - by apply (wp_run _ _ _ srv s (wp_pod_Reconcile kernelLabel key)) in Htr.
  - apply without_node_label_lookup.
  - intros pod f. simpl. rewrite !list_elem_of_In, List.filter_In, negb_true_iff, bool_decide_eq_false.
    done.
Qed.

(** reconciling the DTK image stream registers the image of each tag but
    "latest", in order, when every one of them has a reference; the first
    other tag without one crashes the controller. *)
Theorem imagestream_Reconcile_spec {S} (srv : kserver S) s nsn ist s1 :
  srv (RGet KImageStream nsn) s = (Ok ist, s1) →
  let p := imagestream_Reconcile nsn in
  let registered l := List.map (λ t, RSetImageStreamInfo (tag_Name t) (default "" (tag_From t)))
                        (List.filter (λ t, negb (bool_decide (tag_Name t = "latest"))) l) in
  ((∀ t, t ∈ is_Tags ist → tag_Name t ≠ "latest" → tag_From t ≠ None) →
     run_out srv p s = Done (Ok no_requeue) ∧
     List.map ev_req (run_trace srv p s) = RGet KImageStream nsn :: registered (is_Tags ist)) ∧
  (∀ l1 t l2, is_Tags ist = l1 ++ t :: l2 → tag_Name t ≠ "latest" → tag_From t = None →
     (∀ t', t' ∈ l1 → tag_Name t' ≠ "latest" → tag_From t' ≠ None) →
     (∃ why, run_out srv p s = Crashed why) ∧
     List.map ev_req (run_trace srv p s) = RGet KImageStream nsn :: registered l1).
Proof.
  intros Hget p registered. unfold p, imagestream_Reconcile, Get, call, run_out, run_trace. simpl.
  rewrite Hget. rewrite run_bind. split.
  - intros Hall. assert (∃ tr, run srv (register_tags (is_Tags ist)) s1
      = (Done tt, run_state srv (register_tags (is_Tags ist)) s1, tr) ∧
        List.map ev_req tr = registered (is_Tags ist)) as (tr & -> & Htr)
      by by apply register_tags_Done.
    simpl. rewrite app_nil_r. split; [done|]. simpl. by rewrite Htr.
  - intros l1 t l2 Htags Hn Hf Hl1.
    destruct (register_tags_Crash srv s1 l1 t l2 Hn Hf Hl1) as (why & s2 & tr & Hrun & Htr).
    rewrite Htags, Hrun. simpl. split; [by eexists|]. by rewrite Htr.
Qed.

(** ** Examples *)

Definition ex_nodes : list Node :=
  [mk_node (meta_named "n1" "") [] "5.14.0-70.el9" "RHCOS";
   mk_node (meta_named "n2" "") [] "4.18.0-372.el8" "RHCOS";
   mk_node (meta_named "n3" "") [] "5.14.0-70.el9" "RHCOS"].

Lemma claim_value_spec_witness :
  claim_value (MO := map_order_std) ex_nodes = claim_value (MO := map_order_std) (rev ex_nodes) ∧
  str_split is_newline (claim_value (MO := map_order_std) ex_nodes)
    = ["4.18.0-372.el8"; "5.14.0-70.el9"].
Proof.
  split; [|vm_compute; reflexivity].
  refine (proj1 (claim_value_spec map_order_std map_order_std ex_nodes (rev ex_nodes) _ _ _)).
  - intros k. split; intros (n & Hn & Hk); exists n; (split; [|exact Hk]);
      rewrite list_elem_of_In in *; [apply in_rev; by rewrite rev_involutive|by apply in_rev].
  - discriminate.
  - intros n Hn. unfold ex_nodes in Hn.
    repeat (apply elem_of_cons in Hn as [->|Hn]; [by vm_compute|]). by apply not_elem_of_nil in Hn.
Defined.

(** A spoke whose claim is out of date. *)
Definition ex_spoke : kserver unit := stateless (λ q,
  match q return ans q with
  | RList KNode _ => Ok ex_nodes
  | RGet KClusterClaim _ => Ok (mk_cc (meta_named KernelVersionsClusterClaimName "") "4.18.0-372.el8")
  | q => accept q
  end).

Lemma cluster_claim_safety_witness :
  ∃ (h1 : hist) (e : @event req ans), is_write (ev_req e) = true ∧ claim_allowed (MO := map_order_std) h1 (ev_req e).
Proof.
  assert (existsb (λ e, is_write (ev_req e))
    (run_trace ex_spoke (cluster_claim_Reconcile (MO := map_order_std)) tt) = true) as H
    by (vm_compute; reflexivity).
  apply existsb_split in H as (h1 & e & h2 & Htr & He). exists h1, e. split; [exact He|].
  exact (cluster_claim_safety (MO := map_order_std) ex_spoke tt h1 e h2 Htr).
Defined.

Definition ex_pod : Pod :=
  mk_pod (mk_meta "nvidia-x" "" "gpu" "" (Some {[ ModuleNameLabel := "nvidia" ]}) None []
            [NodeLabelerFinalizer] (Some 5%Z) 0) "n1" [mk_podcond "Ready" "True"].

(** A cluster with a pod that is being deleted. *)
Definition ex_pod_server : kserver unit := stateless (λ q,
  match q return ans q with
  | RGet KPod _ => Ok ex_pod
  | RGet KNode _ => Ok (set_meta (set_labels (Some {[ getDriverContainerNodeLabel "nvidia" := "" ]})
                                   (meta_named "n1" "")) (mk_node empty_meta [] Ex.kernel "RHCOS"))
  | q => accept q
  end).

Lemma pod_Reconcile_safety_witness :
  ∃ (h1 : hist) (e : @event req ans),
    om_Finalizers <$> (pod_meta <$> patched KPod (ev_req e)) = Some [] ∧
    pod_allowed KernelLabel (NN "gpu" "nvidia-x") h1 (ev_req e).
Proof.
  assert (existsb (λ e, bool_decide (om_Finalizers <$> (pod_meta <$> patched KPod (ev_req e)) = Some []))
    (run_trace ex_pod_server (pod_Reconcile KernelLabel (NN "gpu" "nvidia-x")) tt) = true) as H
    by (vm_compute; reflexivity).
  apply existsb_split in H as (h1 & e & h2 & Htr & He).
  exists h1, e. split; [by apply bool_decide_eq_true in He|].
  exact (proj1 (pod_Reconcile_safety ex_pod_server tt KernelLabel (NN "gpu" "nvidia-x") h1 e h2 Htr)).
Defined.

Lemma imagestream_Reconcile_spec_witness :
  let ist := mk_is (meta_named "driver-toolkit" "openshift")
               [mk_tag "latest" None; mk_tag "411.86.1-0" (Some "quay.io/dtk@sha256:1")] in
  let srv : kserver unit := stateless (λ q, match q return ans q with
    | RGet KImageStream _ => Ok ist | q => accept q end) in
  let nsn := NN "openshift" "driver-toolkit" in
  run_out srv (imagestream_Reconcile nsn) tt = Done (Ok no_requeue) ∧
  List.map ev_req (run_trace srv (imagestream_Reconcile nsn) tt)
    = [RGet KImageStream nsn; RSetImageStreamInfo "411.86.1-0" "quay.io/dtk@sha256:1"].
Proof.
  intros ist srv nsn.
  refine (proj1 (imagestream_Reconcile_spec srv tt nsn ist tt eq_refl) _).
  intros t Ht Hn. unfold ist in Ht. simpl in Ht.
  apply elem_of_cons in Ht as [->|Ht]; [by destruct Hn|].
  apply list_elem_of_singleton in Ht as ->. discriminate.
Defined.
