(* ===== verification/PodLabels.v ===== *)
(** * Node labels and pod finalizers over time

    The controller of module pods (controllers/pod_node_module_reconciler.go)
    labels a node while a pod of the module is ready on it, and holds the pod
    with a finalizer until the label is gone.  Here its program runs call by
    call against a cluster that moves between the calls: the pod is deleted,
    other controllers write the node, the process restarts.  What the
    controller relies on is stated as the laws of the cluster; under them the
    label never outlives the pod.  One law is about the cache the client reads
    nodes from, and a cluster without it breaks the property. *)

From S2P Require Import Prelude Prog K8s Api Client Utils Helpers KernelMapper DaemonSet ModuleReconciler NodeControllers.
From stdpp Require Import options.

(** ** The cluster *)

(** The parts of a cluster that one pod's reconciliations touch. *)
Class PodCluster := {
  world : Type;
  labelled : world → Prop;          (** the server's node carries the module's label *)
  held : world → Prop;              (** the server has the pod, with the operator's finalizer *)
  env : world → world → Prop;       (** a step of somebody else *)
  (** a call of the controller, after the calls it made before *)
  serve : hist → world → ∀ q, ans q → world → Prop }.

Section protocol.
Variables (kernelLabel : string) (key : NamespacedName) (nodeName label : string).

(** The pod was read while it was being deleted. *)
Definition saw_deletion (h : hist) : Prop :=
  ∃ pod, (Ev (RGet KPod key) (Ok pod) : @event req ans) ∈ h ∧ deletion_is_zero (pod_meta pod) = false.

(** What the server and its caches promise. *)
Class PodClusterLaws (C : PodCluster) := {
  (** Only this controller sets the label, and the finalizer holds the pod
      until this controller removes it. *)
  env_labelled w w' : env w w' → labelled w' → labelled w;
  env_held w w' : env w w' → held w → held w';
  (** Reads change nothing. *)
  serve_get h w k nsn r w' : serve h w (RGet k nsn) r w' → w' = w;
  (** The pod is always on the same node, with the same labels; and the cache
      of pods never goes back in time. *)
  serve_pod h w pod w' : serve h w (RGet KPod key) (Ok pod) w' →
    pod_NodeName pod = nodeName ∧
    ∀ name, omap_lookup (om_Labels (pod_meta pod)) ModuleNameLabel = Some name →
      GetNodeLabelFromPod kernelLabel pod name = label;
  serve_pod_monotone h w pod w' : serve h w (RGet KPod key) (Ok pod) w' →
    saw_deletion h → deletion_is_zero (pod_meta pod) = false;
  (** A merge patch of the node changes the keys in which its two arguments
      differ; when it fails, it may have been applied or not. *)
  serve_node_adds h w new base r w' : serve h w (RPatch KNode new base) r w' →
    labelled w' → labelled w ∨ is_Some (omap_lookup (om_Labels (node_meta new)) label);
  serve_node_removes h w new base n w' : serve h w (RPatch KNode new base) (Ok n) w' →
    omap_lookup (om_Labels (node_meta new)) label = None →
    is_Some (omap_lookup (om_Labels (node_meta base)) label) → ¬ labelled w';
  serve_node_held h w new base r w' : serve h w (RPatch KNode new base) r w' → held w → held w';
  serve_pod_patch h w new base r w' : serve h w (RPatch KPod new base) r w' → labelled w' → labelled w }.

(** The client reads the node as it is on the server. *)
Definition fresh_nodes (C : PodCluster) : Prop :=
  ∀ h w node w', serve h w (RGet KNode (NN "" nodeName)) (Ok node) w' → labelled w →
    is_Some (omap_lookup (om_Labels (node_meta node)) label).

(** ** Its runs *)

Context {C : PodCluster}.

Record config := mk_config { cf_world : world; cf_hist : hist; cf_prog : M (result ReconcileResult) }.

(** The controller reconciles one key at a time; a reconciliation may be
    abandoned at any point, when the process dies. *)
Inductive pod_step : config → config → Prop :=
  | step_env w w' h p : env w w' → pod_step (mk_config w h p) (mk_config w' h p)
  | step_call w w' h q x k : serve h w q x w' →
      pod_step (mk_config w h (Call q k)) (mk_config w' (h ++ [Ev q x]) (k x))
  | step_start w h p : pod_step (mk_config w h p) (mk_config w h (pod_Reconcile kernelLabel key)).

(** A pod that was just created: held by its finalizer, its node unlabelled. *)
Definition pod_created (c : config) : Prop :=
  held (cf_world c) ∧ ¬ labelled (cf_world c) ∧ cf_hist c = [] ∧ cf_prog c = Ret (Ok no_requeue).

(** A reconciliation from its first call to its last, with steps of others
    between them. *)
Fixpoint reconciled {A} (p : M A) (w : world) (h : hist) (a : A) (w' : world) (h' : hist) : Prop :=
  match p with
  | Ret b => b = a ∧ rtc env w w' ∧ h' = h
  | Crash _ => False
  | Call q k => ∃ w1 x w2, rtc env w w1 ∧ serve h w1 q x w2 ∧ reconciled (k x) w2 (h ++ [Ev q x]) a w' h'
  end.

Lemma pod_step_env w w' h p : rtc env w w' → rtc pod_step (mk_config w h p) (mk_config w' h p).
Proof. intros Hr. induction Hr as [|w w1 w2 He _ IH]; [done|]. eapply rtc_l; [by apply step_env|done]. Qed.

(** It is one of the runs. *)
Lemma reconciled_steps p w h a w' h' :
  reconciled p w h a w' h' → rtc pod_step (mk_config w h p) (mk_config w' h' (Ret a)).
Proof.
  revert w h. induction p as [b|y|q k IH]; intros w h; cbn [reconciled]; [|done|].
  - intros (-> & Hr & ->). by apply pod_step_env.
  - intros (w1 & x & w2 & Hr & Hs & Hk). etrans; [by apply pod_step_env|].
    eapply rtc_l; [by apply step_call|]. by apply IH.
Qed.

(** ** The invariant *)

(** A labelled node has its pod, and only a pod that was seen being deleted
    is let go. *)
Definition label_inv (w : world) (h : hist) : Prop :=
  (labelled w → held w) ∧ (¬ saw_deletion h → held w).

(** A program that keeps the invariant, whatever happens between its calls. *)
Fixpoint safe {A} (p : M A) (w : world) (h : hist) : Prop :=
  label_inv w h ∧
  match p with
  | Call q k => ∀ w1 x w', rtc env w w1 → serve h w1 q x w' → safe (k x) w' (h ++ [Ev q x])
  | _ => True
  end.

Section laws.
Context {CL : PodClusterLaws C}.

Lemma label_inv_env w w' h : rtc env w w' → label_inv w h → label_inv w' h.
Proof using Type*.
  intros Hrtc. induction Hrtc as [|w w1 w' Henv _ IH]; [done|]. intros [H1 H2]. apply IH. split.
  - intros Hl. eapply env_held, H1, env_labelled; done.
  - intros Hs. by eapply env_held, H2.
Qed.
Lemma labelled_env w w' : rtc env w w' → labelled w' → labelled w.
Proof using Type*. intros Hrtc. induction Hrtc; [done|]. eauto using env_labelled. Qed.
Lemma held_env w w' : rtc env w w' → held w → held w'.
Proof using Type*. intros Hrtc. induction Hrtc; [done|]. eauto using env_held. Qed.

Lemma safe_inv {A} (p : M A) w h : safe p w h → label_inv w h.
Proof. destruct p; by intros [? _]. Qed.
Lemma safe_env {A} (p : M A) w w' h : env w w' → safe p w h → safe p w' h.
Proof using Type*.
  intros Henv. destruct p as [a|y|q k]; intros [Hi Hk]; split; try done;
    try (by eapply label_inv_env, Hi; apply rtc_once).
  intros w1 x w2 Hr. apply Hk. by eapply rtc_l.
Qed.
Lemma safe_call {A} q (k : ans q → M A) w h :
  label_inv w h →
  (∀ w1 x w', rtc env w w1 → label_inv w1 h → serve h w1 q x w' → safe (k x) w' (h ++ [Ev q x])) →
  safe (Call q k) w h.
Proof using Type*. intros Hi Hk. split; [done|]. intros w1 x w' Hr. apply Hk; [done|]. by eapply label_inv_env. Qed.

(** Only a read of the pod being deleted makes [saw_deletion] true. *)
Definition pod_read (e : @event req ans) : option Pod :=
  match ev_req e as q return ans q → option Pod with
  | RGet KPod _ => λ r : result Pod, match r with Ok pod => Some pod | _ => None end
  | _ => λ _, None
  end (ev_ans e).

Lemma saw_deletion_more h e :
  (∀ pod, pod_read e = Some pod → deletion_is_zero (pod_meta pod) = true) →
  saw_deletion (h ++ [e]) → saw_deletion h.
Proof.
  intros Hq (pod & [Hin|Heq%list_elem_of_singleton]%elem_of_app & Hd); [by exists pod|].
  apply (f_equal pod_read) in Heq. rewrite (Hq pod) in Hd; done.
Qed.
Lemma saw_deletion_app h e : saw_deletion h → saw_deletion (h ++ [e]).
Proof. intros (p & Hp & Hd). exists p. split; [apply elem_of_app; by left|done]. Qed.
Lemma label_inv_more w h e : label_inv w h → label_inv w (h ++ [e]).
Proof. intros [H1 H2]. split; [done|]. intros Hs. apply H2. intros Hd. by apply Hs, saw_deletion_app. Qed.

(** The program is over. *)
Ltac safe_end := split; [assumption || by apply label_inv_more|exact I].

(** Patching the node keeps the invariant when it does not add the label, or
    when the pod was never seen being deleted. *)
Lemma label_inv_node_patch h w new base r w' :
  label_inv w h → serve h w (RPatch KNode new base) r w' →
  omap_lookup (om_Labels (node_meta new)) label = None ∨ ¬ saw_deletion h →
  label_inv w' (h ++ [Ev (RPatch KNode new base) r]).
Proof using Type*.
  intros [H1 H2] Hs Hc. pose proof (serve_node_held _ _ _ _ _ _ Hs) as Hheld. split.
  - intros Hl. apply Hheld. destruct Hc as [Hn|Hn]; [|by apply H2].
    apply H1. destruct (serve_node_adds _ _ _ _ _ _ Hs Hl) as [?|[? ?]]; [done|congruence].
  - intros Hsaw. apply Hheld, H2. intros ?. by apply Hsaw, saw_deletion_app.
Qed.

Lemma safe_pod_Reconcile w h :
  fresh_nodes C → label_inv w h → safe (pod_Reconcile kernelLabel key) w h.
Proof using Type*.
  intros Hfresh Hi. unfold pod_Reconcile, Get. apply safe_call; [done|].
  intros w0 r w' _ Hi0 Hs. pose proof (serve_get _ _ _ _ _ _ Hs) as ->. clear w Hi.
  rename w0 into w, Hi0 into Hi. cbn [prog_bind].
  destruct r as [pod|err|y]; [|destruct (IsNotFound err); safe_end|safe_end].
  pose proof (serve_pod _ _ _ _ Hs) as [Hnode Hlab]. pose proof (serve_pod_monotone _ _ _ _ Hs) as Hmono.
  destruct (omap_lookup _ ModuleNameLabel) as [name|]; [|safe_end].
  cbv zeta. rewrite (Hlab name eq_refl), Hnode. apply (label_inv_more _ _ (Ev (RGet KPod key) (Ok pod))) in Hi.
  set (h1 := h ++ [_]) in *. clear Hlab Hs.
  destruct (negb (IsPodReady pod) || _) eqn:Hcase; unfold deleteLabel, addLabel, get_node, Get, Patch, call.
  - apply safe_call; [done|]. intros w1 r1 w1' _ Hi1 Hs1. pose proof (serve_get _ _ _ _ _ _ Hs1) as ->.
    apply (label_inv_more _ _ (Ev _ r1)) in Hi1. cbn [prog_bind].
    destruct r1 as [node|err|y]; [|safe_end..].
    pose proof (without_node_label_lookup node label label) as Hnone. rewrite decide_True in Hnone by done.
    apply safe_call; [done|]. intros w2 r2 w2' Henv2 Hi2 Hs2.
    pose proof (label_inv_node_patch _ _ _ _ _ _ Hi2 Hs2 (or_introl Hnone)) as Hi2'. cbn [prog_bind].
    destruct r2 as [node'|err|y]; [|safe_end..].
    destruct (negb (deletion_is_zero (pod_meta pod))) eqn:Hdel; [|safe_end].
    assert (¬ labelled w2') as Hunl.
    { intros Hl. destruct (serve_node_adds _ _ _ _ _ _ Hs2 Hl) as [Hl1|[? ?]]; [|congruence].
      apply (labelled_env _ _ Henv2) in Hl1. pose proof (Hfresh _ _ _ _ Hs1 Hl1).
      by eapply serve_node_removes. }
    unfold deleteFinalizer, Patch, call. apply safe_call; [done|]. intros w3 r3 w3' Henv3 Hi3 Hs3.
    assert (label_inv w3' ((((h1 ++ [Ev (RGet KNode (NN "" nodeName)) (Ok node)])
      ++ [Ev (RPatch KNode (without_node_label node label) node) (Ok node')]))
      ++ [Ev (RPatch KPod (without_finalizer pod) pod) r3])) as Hi3'.
    { split.
      - intros Hl%(serve_pod_patch _ _ _ _ _ _ Hs3). destruct Hunl. by eapply labelled_env.
      - intros Hsaw. destruct Hsaw. do 3 apply saw_deletion_app. exists pod.
        split; [unfold h1; in_hist|by apply negb_true_iff]. }
    cbn [prog_bind]. destruct r3 as [p|err|y]; [|destruct (IsNotFound err)|]; safe_end.
  - apply orb_false_iff in Hcase as [_ Hdel%negb_false_iff].
    assert (¬ saw_deletion h1) as Hno.
    { intros Hsaw. apply saw_deletion_more in Hsaw; [apply Hmono in Hsaw; congruence|].
      intros pod' [= <-]. done. }
    apply safe_call; [done|]. intros w1 r1 w1' _ Hi1 Hs1. pose proof (serve_get _ _ _ _ _ _ Hs1) as ->.
    apply (label_inv_more _ _ (Ev _ r1)) in Hi1. cbn [prog_bind].
    destruct r1 as [node|err|y]; [|safe_end..].
    apply safe_call; [done|]. intros w2 r2 w2' Henv2 Hi2 Hs2. cbn [prog_bind].
    assert (label_inv w2' ((h1 ++ [Ev (RGet KNode (NN "" nodeName)) (Ok node)])
      ++ [Ev (RPatch KNode (with_node_label node label "") node) r2])) as Hi2'.
    { eapply label_inv_node_patch; [done..|]. right. intros Hsaw. apply Hno.
      eapply saw_deletion_more, Hsaw. done. }
    destruct r2 as [node'|err|y]; safe_end.
Qed.

Lemma safe_step c c' :
  fresh_nodes C → pod_step c c' → safe (cf_prog c) (cf_world c) (cf_hist c) →
  safe (cf_prog c') (cf_world c') (cf_hist c').
Proof using Type*.
  intros Hf [w w' h p Henv|w w' h q x k Hs|w h p]; cbn [cf_prog cf_world cf_hist].
  - by apply safe_env.
  - intros [_ Hk]. by eapply Hk; [reflexivity|].
  - intros H%safe_inv. by apply safe_pod_Reconcile.
Qed.

(** ** Properties *)

(** C10: from the creation of a pod on, whatever the interleaving of the
    controller's calls with its environment, its crashes and restarts: the
    node carries the module's label only while the server still has the pod,
    held by the finalizer - provided that the client reads nodes as they are
    on the server. *)
Theorem label_has_pod c0 c :
  fresh_nodes C → pod_created c0 → rtc pod_step c0 c →
  labelled (cf_world c) → held (cf_world c).
Proof using Type*.
  intros Hf (Hh & Hl & Hhist & Hp) Hr.
  assert (safe (cf_prog c0) (cf_world c0) (cf_hist c0)) as Hsafe.
  { rewrite Hp. split; [|done]. by split. }
  assert (safe (cf_prog c) (cf_world c) (cf_hist c)) as H.
  { clear Hh Hl Hhist Hp. induction Hr as [|c0 c1 c2 Hst _ IH]; [done|].
    by eapply IH, safe_step. }
  by apply safe_inv in H as [H _].
Qed.

(** ** Nodes from a cache that lags behind *)

(** What more is known of patches: one of the node that leaves the label alone,
    because both its arguments agree on it, keeps it; a pod that was seen being
    deleted goes with the finalizer, or has gone.  And nobody else touches the
    label, or brings the pod back. *)
Class PodClusterPatches := {
  serve_node_keeps h w new base n w' : serve h w (RPatch KNode new base) (Ok n) w' →
    omap_lookup (om_Labels (node_meta new)) label = omap_lookup (om_Labels (node_meta base)) label →
    labelled w → labelled w';
  serve_pod_keeps h w new base r w' : serve h w (RPatch KPod new base) r w' → labelled w → labelled w';
  serve_pod_goes h w new base r w' : serve h w (RPatch KPod new base) r w' →
    saw_deletion h → NodeLabelerFinalizer ∉ om_Finalizers (pod_meta new) →
    match r with Ok _ => True | Err err => IsNotFound err = true | Panic _ => False end → ¬ held w';
  env_keeps w w' : env w w' → labelled w → labelled w';
  env_gone w w' : env w w' → ¬ held w → ¬ held w' }.
Context {CP : PodClusterPatches}.

Lemma env_keeps_rtc w w' : rtc env w w' → labelled w → labelled w'.
Proof using CP. induction 1; [done|]. eauto using env_keeps. Qed.
Lemma env_gone_rtc w w' : rtc env w w' → ¬ held w → ¬ held w'.
Proof using CP. induction 1; [done|]. eauto using env_gone. Qed.

Definition node_read (e : @event req ans) : option Node :=
  match ev_req e as q return ans q → option Node with
  | RGet KNode _ => λ r : result Node, match r with Ok node => Some node | _ => None end
  | _ => λ _, None
  end (ev_ans e).
Lemma read_in {A B} (f : A → option B) (x : A) b (l : list A) : x ∈ l → f x = Some b → b ∈ omap f l.
Proof. intros Hx Hf. apply list_elem_of_omap. by exists x. Qed.

(** Removing a label that is not there makes no difference. *)
Lemma without_node_label_none node l :
  omap_lookup (om_Labels (node_meta node)) l = None → without_node_label node l = node.
Proof.
  destruct node as [[n g ns u ls a r f d ge] t kv os]. unfold without_node_label. cbn.
  destruct ls as [ls|]; [|done]. cbn. intros Hl. by rewrite delete_id.
Qed.
Lemma without_finalizer_gone pod : NodeLabelerFinalizer ∉ om_Finalizers (pod_meta (without_finalizer pod)).
Proof.
  apply RemoveFinalizer_not_in.
Qed.

(** C31: without the promise that nodes are read as they are, the label
    outlives the pod.  Take any cluster that keeps all the other promises, and
    a reconciliation that succeeds and has read the pod being deleted and a
    node without the label, while the server's node has it.  Then it has made
    four calls - the two reads, a patch of the node computed between two equal
    objects, and the patch that removes the pod's finalizer - and leaves the
    node labelled and the pod gone. *)
Theorem stale_node_leaks_label w h tr r w' pod node :
  reconciled (pod_Reconcile kernelLabel key) w h (Ok r) w' (h ++ tr) → labelled w →
  (Ev (RGet KPod key) (Ok pod) : @event req ans) ∈ tr → deletion_is_zero (pod_meta pod) = false →
  (Ev (RGet KNode (NN "" nodeName)) (Ok node) : @event req ans) ∈ tr →
  omap_lookup (om_Labels (node_meta node)) label = None →
  labelled w' ∧ ¬ held w' ∧ ∃ n x,
    tr = [Ev (RGet KPod key) (Ok pod); Ev (RGet KNode (NN "" nodeName)) (Ok node);
          Ev (RPatch KNode node node) (Ok n); Ev (RPatch KPod (without_finalizer pod) pod) x].
Proof using Type*.
  intros Hrun Hl Hpod Hdel Hnode Hnone.
  apply (read_in pod_read _ pod) in Hpod; [|done]. apply (read_in node_read _ node) in Hnode; [|done].
  unfold pod_Reconcile, Get in Hrun. destruct Hrun as (w1 & [pod'|err|y] & w2 & Hr1 & Hs1 & Hk); cbn [prog_bind reconciled] in Hk; [| |done].
  2:{ destruct (IsNotFound err); destruct Hk as (Hk & _ & Htr); [|done].
      apply (inj _) in Htr as ->. by apply not_elem_of_nil in Hpod. }
  pose proof (serve_get _ _ _ _ _ _ Hs1) as ->. destruct (serve_pod _ _ _ _ Hs1) as [Hnn Hlab]. rewrite Hnn in Hk.
  destruct (omap_lookup _ ModuleNameLabel) as [name|]; [|by destruct Hk].
  rewrite (Hlab name eq_refl) in Hk.
  unfold deleteLabel, addLabel, deleteFinalizer, get_node, Get, Patch, call in Hk.
  destruct (negb (IsPodReady pod') || negb (deletion_is_zero (pod_meta pod'))) eqn:Hcase; cbn [prog_bind reconciled] in Hk;
    destruct Hk as (w3 & [node'|err|y] & w4 & Hr2 & Hs2 & Hk); cbn [prog_bind reconciled] in Hk; try first [done|by destruct Hk as [? _]].
  all: destruct Hk as (w5 & [n|err|y] & w6 & Hr3 & Hs3 & Hk); cbn [prog_bind reconciled] in Hk; try first [done|by destruct Hk as [? _]].
  2:{ destruct Hk as (_ & _ & Htr). rewrite <-!app_assoc in Htr. apply (inj _) in Htr as ->.
      apply list_elem_of_singleton in Hpod as ->. apply orb_false_iff in Hcase as [_ Hcase].
      by rewrite Hdel in Hcase. }
  destruct (negb (deletion_is_zero (pod_meta pod'))) eqn:Hdel'.
  2:{ destruct Hk as (_ & _ & Htr). rewrite <-!app_assoc in Htr. apply (inj _) in Htr as ->.
      apply list_elem_of_singleton in Hpod as ->. by rewrite Hdel in Hdel'. }
  destruct Hk as (w7 & x & w8 & Hr4 & Hs4 & Hk).
  assert (rtc env w8 w' ∧ match x with Ok _ => True | Err err => IsNotFound err = true | Panic _ => False end ∧
    h ++ tr = (((h ++ [Ev (RGet KPod key) (Ok pod')]) ++ [Ev (RGet KNode (NN "" nodeName)) (Ok node')])
      ++ [Ev (RPatch KNode (without_node_label node' label) node') (Ok n)])
      ++ [Ev (RPatch KPod (without_finalizer pod') pod') x]) as (Hr5 & Hx & Htr).
  { destruct x as [p|err|y]; cbn [prog_bind reconciled] in Hk; [by destruct Hk as (_ & ? & ?); split_and!| |done].
    destruct (IsNotFound err); cbn [prog_bind reconciled] in Hk; [by destruct Hk as (_ & ? & ?); split_and!|by destruct Hk]. }
  rewrite <-!app_assoc in Htr. apply (inj _) in Htr as ->.
  apply list_elem_of_singleton in Hpod as ->. apply list_elem_of_singleton in Hnode as ->.
  rewrite (without_node_label_none node') in * by done.
  pose proof (serve_get _ _ _ _ _ _ Hs2) as ->. split_and!.
  - eapply env_keeps_rtc, serve_pod_keeps, env_keeps_rtc, serve_node_keeps, env_keeps_rtc, env_keeps_rtc, env_keeps_rtc;
      done.
  - eapply env_gone_rtc, serve_pod_goes; [exact Hr5|exact Hs4| |apply without_finalizer_gone|exact Hx].
    exists pod'. split; [in_hist|exact Hdel].
  - by exists n, x.
Qed.
End laws.
End protocol.

(** ** Two clusters *)

(** A pod of the example Module, ready, created or being deleted. *)
Definition ex_module_pod (deleting : bool) : Pod :=
  mk_pod (mk_meta "nvidia-x" "" "gpu" "" (Some {[ ModuleNameLabel := "nvidia"; KernelLabel := Ex.kernel ]})
            None [] [NodeLabelerFinalizer] (if deleting then Some 5%Z else None) 0)
    "n1" [mk_podcond "Ready" "True"].
Definition ex_label : string := getDriverContainerNodeLabel "nvidia".
Definition ex_labelled_node (l : bool) : Node :=
  mk_node (mk_meta "n1" "" "" "" (if l then Some {[ ex_label := "" ]} else None) None [] [] None 0)
    [] Ex.kernel "RHCOS".

Inductive pod_phase := PodRunning | PodDeleting | PodGone.

(** The label on the server and in the client's cache, and the pod. *)
Record ex_world := mk_world { ew_label : bool; ew_cached : bool; ew_pod : pod_phase }.

(** The pod may be deleted, and the cache catches up with the server. *)
Inductive ex_env : ex_world → ex_world → Prop :=
  | ex_delete l c : ex_env (mk_world l c PodRunning) (mk_world l c PodDeleting)
  | ex_sync l c p : ex_env (mk_world l c p) (mk_world l l p).

Section ex_cluster.
(** Whether nodes are read from the cache or from the server. *)
Variable cached_nodes : bool.

Definition ex_answer (w : ex_world) (q : req) : ans q * ex_world :=
  match q return ans q * ex_world with
  | RGet KPod _ =>
      (match ew_pod w with
       | PodRunning => Ok (ex_module_pod false)
       | PodDeleting => Ok (ex_module_pod true)
       | PodGone => Err NotFoundError
       end, w)
  | RGet KNode _ => (Ok (ex_labelled_node (if cached_nodes then ew_cached w else ew_label w)), w)
  | RPatch KNode new base =>
      let v o := omap_lookup (om_Labels (node_meta o)) ex_label in
      (Ok new, if bool_decide (v new = v base) then w
               else mk_world (isSome (v new)) (ew_cached w) (ew_pod w))
  | RPatch KPod new _ =>
      (Ok new, match ew_pod w with
               | PodDeleting => mk_world (ew_label w) (ew_cached w) PodGone
               | _ => w
               end)
  | q => (deny q, w)
  end.

Definition ex_pod_cluster : PodCluster := {|
  world := ex_world;
  labelled w := ew_label w = true;
  held w := ew_pod w ≠ PodGone;
  env := ex_env;
  serve h w q x w' := ex_answer w q = (x, w') ∧
    (* a pod that was being deleted does not come back *)
    (saw_deletion (NN "gpu" "nvidia-x") h → ew_pod w ≠ PodRunning) |}.

#[export] Program Instance ex_pod_laws :
  PodClusterLaws KernelLabel (NN "gpu" "nvidia-x") "n1" ex_label ex_pod_cluster.
Next Obligation. by intros w w' []. Qed.
Next Obligation. by intros w w' []. Qed.
Next Obligation. intros h w k nsn r w' [H _]. destruct k; simpl in H; congruence. Qed.
Next Obligation.
  intros h w pod w' [H _]. simpl in H. destruct (ew_pod w); simplify_eq/=; (split; [done|]);
    intros name [= <-]; reflexivity.
Qed.
Next Obligation.
  intros h w pod w' [H Hmono] Hsaw. specialize (Hmono Hsaw). simpl in H.
  destruct (ew_pod w); by simplify_eq/=.
Qed.
Next Obligation.
  intros h w new base r w' [H _]. simpl in H. simplify_eq/=. case_bool_decide; simpl; [by left|].
  unfold isSome. destruct (omap_lookup (om_Labels (node_meta new)) ex_label); [by right; eexists|done].
Qed.
Next Obligation.
  intros h w new base n w' [H _] Hn [x Hb]. simpl in H. simplify_eq/=.
  rewrite Hn, Hb, bool_decide_false by done. done.
Qed.
Next Obligation. intros h w new base r w' [H _]. simpl in H. simplify_eq/=. by case_bool_decide. Qed.
Next Obligation. intros h w new base r w' [H _]. simpl in H. simplify_eq/=. by destruct (ew_pod w). Qed.
End ex_cluster.

(** Running a program to its end, undisturbed. *)
Definition no_deletion_read (h : hist) : bool :=
  forallb (λ e, match pod_read e with Some p => deletion_is_zero (pod_meta p) | None => true end) h.

Lemma no_deletion_read_spec key h : no_deletion_read h = true → ¬ saw_deletion key h.
Proof.
  intros Hno (pod & Hin%list_elem_of_In & Hd). unfold no_deletion_read in Hno.
  rewrite forallb_forall in Hno. specialize (Hno _ Hin). simpl in Hno. congruence.
Qed.

Lemma ex_run_reconciled {A} cached (p : M A) w h :
  (ew_pod w = PodRunning → no_deletion_read h = true) →
  let '(o, w', tr) := run (λ q w, ex_answer cached w q) p w in
  match o with
  | Done a => reconciled (C := ex_pod_cluster cached) p w h a w' (h ++ tr)
  | Crashed _ => True
  end.
Proof.
  revert w h. induction p as [a|y|q k IH]; intros w h Hw; simpl; [by rewrite app_nil_r|done|].
  destruct (ex_answer cached w q) as [x w1] eqn:Hx.
  assert (ew_pod w1 = PodRunning → no_deletion_read (h ++ [Ev q x]) = true) as Hw1.
  { intros Hr. assert (ew_pod w = PodRunning) as Hr0.
    { destruct q as [k'| | |k'| | | | | | | | | | | | | | ]; try (by simplify_eq/=);
        destruct k'; simplify_eq/=; try done; [by case_bool_decide|by destruct w as [? ? []]]. }
    unfold no_deletion_read. rewrite forallb_app. apply andb_true_intro. split; [by apply Hw|].
    destruct q as [k'| | | | | | | | | | | | | | | | | ]; try done. destruct k'; try done. simpl in Hx. rewrite Hr0 in Hx. by simplify_eq/=. }
  specialize (IH x w1 (h ++ [Ev q x]) Hw1).
  destruct (run _ (k x) w1) as [[o w2] tr]. destruct o as [a|y]; [|done]. rewrite <-app_assoc in IH.
  exists w, x, w1. split_and!; [done|done| |exact IH].
  intros Hsaw Hr. by eapply no_deletion_read_spec, Hsaw; apply Hw.
Qed.

#[local] Instance ex_pod_patches cached :
  PodClusterPatches (NN "gpu" "nvidia-x") ex_label (C := ex_pod_cluster cached).
Proof.
  split.
  - intros h w new base n w' [H _] Hsame. simpl in H. by rewrite bool_decide_true in H by done; simplify_eq/=.
  - intros h w new base r w' [H _]. simpl in H. simplify_eq/=. by destruct (ew_pod w).
  - intros h w new base r w' [H Hmono] Hsaw _ _. specialize (Hmono Hsaw). simpl in H. simplify_eq/=.
    destruct (ew_pod w) eqn:Hw; [done|intros Hh; by apply Hh|intros Hh; by apply Hh].
  - by intros w w' [].
  - intros w w' []; [|done]. intros Hh Hn. by apply Hh.
Qed.

(** A cache of nodes that has not seen the label, when the pod is deleted. *)
Definition ex_stale_trace : hist :=
  let pod := ex_module_pod true in let node := ex_labelled_node false in
  [Ev (RGet KPod (NN "gpu" "nvidia-x")) (Ok pod); Ev (RGet KNode (NN "" "n1")) (Ok node);
   Ev (RPatch KNode node node) (Ok node); Ev (RPatch KPod (without_finalizer pod) pod) (Ok (without_finalizer pod))].

Lemma ex_stale_run :
  run (λ q w, ex_answer true w q) (pod_Reconcile KernelLabel (NN "gpu" "nvidia-x")) (mk_world true false PodDeleting)
  = (Done (Ok no_requeue), mk_world true false PodGone, ex_stale_trace).
Proof. vm_compute. reflexivity. Qed.

Lemma stale_node_leaks_label_witness :
  ∃ w' tr, reconciled (C := ex_pod_cluster true) (pod_Reconcile KernelLabel (NN "gpu" "nvidia-x"))
      (mk_world true false PodDeleting) [] (Ok no_requeue) w' tr ∧
    labelled (PodCluster := ex_pod_cluster true) w' ∧ ¬ held (PodCluster := ex_pod_cluster true) w'.
Proof.
  pose proof (ex_run_reconciled true (pod_Reconcile KernelLabel (NN "gpu" "nvidia-x"))
    (mk_world true false PodDeleting) []) as H.
  rewrite ex_stale_run in H. specialize (H ltac:(done)). exists (mk_world true false PodGone), ex_stale_trace.
  split; [exact H|].
  destruct (stale_node_leaks_label KernelLabel (NN "gpu" "nvidia-x") "n1" ex_label (C := ex_pod_cluster true)
    (mk_world true false PodDeleting) [] ex_stale_trace no_requeue (mk_world true false PodGone)
    (ex_module_pod true) (ex_labelled_node false) H eq_refl) as (H1 & H2 & _).
  - by left.
  - reflexivity.
  - right. by left.
  - reflexivity.
  - exact (conj H1 H2).
Defined.

Lemma label_has_pod_witness :
  ∃ c, labelled (PodCluster := ex_pod_cluster false) (cf_world c) ∧ held (cf_world c).
Proof.
  pose (p := pod_Reconcile KernelLabel (NN "gpu" "nvidia-x")).
  pose proof (ex_run_reconciled false p (mk_world false false PodRunning) [] (λ _, eq_refl)) as H1.
  destruct (run (λ q w, ex_answer false w q) p (mk_world false false PodRunning)) as [[o w1] tr] eqn:Hrun.
  assert (o = Done (Ok no_requeue) ∧ w1 = mk_world true false PodRunning) as [-> ->]
    by (vm_compute in Hrun; injection Hrun as <- <- _; split; reflexivity).
  exists (mk_config (C := ex_pod_cluster false) (mk_world true false PodRunning) tr (Ret (Ok no_requeue))).
  split; [reflexivity|].
  apply (label_has_pod KernelLabel (NN "gpu" "nvidia-x") "n1" ex_label
    (mk_config (C := ex_pod_cluster false) (mk_world false false PodRunning) [] (Ret (Ok no_requeue)))).
  - intros h w node w' [H _] Hl. simpl in H, Hl. rewrite Hl in H. simplify_eq/=. by eexists.
  - repeat split; by intros ?.
  - eapply rtc_l; [apply step_start|]. by apply (reconciled_steps _ _ (C := ex_pod_cluster false)).
  - reflexivity.
Defined.
