(* ===== verification/Hub.v ===== *)
(** * The hub: internal/cluster, internal/manifestwork and
    controllers/hub/managedclustermodule_reconciler.go

    A ManagedClusterModule describes a Module for many spoke clusters.  For
    each selected cluster the hub builds and signs the images of the kernels
    the cluster claims to run, and then sends the Module, without its build and
    sign settings, in a ManifestWork.

    Go passes the ManagedClusterModule by value, but its kernel mappings are a
    slice: the copies share them.  [SetManifestWorkAsDesired] clears the build
    and sign settings of the shared mappings, so it returns the caller's
    ManagedClusterModule as well, and the loop over the clusters threads it. *)

From S2P Require Import Prelude Prog K8s Api Client Utils Helpers.
From S2P Require Import KernelMapper Managers BuildConfig SignJob Registry StatusUpdater ModuleReconciler NodeControllers.
From stdpp Require Import options.

Local Open Scope go_scope.

Definition mcm_Name (mcm : ManagedClusterModule) : string := om_Name (mcm_meta mcm).

(** ** manifestwork.go *)

Definition moduleStatusJSONPaths : list JsonPath :=
  [mk_jsonpath "devicePlugin.availableNumber" ".status.devicePlugin.availableNumber";
   mk_jsonpath "devicePlugin.desiredNumber" ".status.devicePlugin.desiredNumber";
   mk_jsonpath "devicePlugin.nodesMatchingSelectorNumber"
     ".status.devicePlugin.nodesMatchingSelectorNumber";
   mk_jsonpath "moduleLoader.availableNumber" ".status.moduleLoader.availableNumber";
   mk_jsonpath "moduleLoader.desiredNumber" ".status.moduleLoader.desiredNumber";
   mk_jsonpath "moduleLoader.nodesMatchingSelectorNumber"
     ".status.moduleLoader.nodesMatchingSelectorNumber"].

Definition strip_mapping (m : KernelMapping) : KernelMapping :=
  mk_mapping None None (km_ContainerImage m) (km_Literal m) (km_RegistryTLS m) (km_Regexp m).

(** A ModuleSpec with another container. *)
Definition set_container (c : ModuleLoaderContainerSpec) (s : ModuleSpec) : ModuleSpec :=
  mk_modspec (DevicePlugin s) (mk_mlspec c (ml_ServiceAccountName (ModuleLoader s)))
    (ImageRepoSecret s) (Selector s).
Definition set_mcm_spec (s : ModuleSpec) (mcm : ManagedClusterModule) : ManagedClusterModule :=
  mk_mcm (mcm_meta mcm)
    (mk_mcmspec s (mcms_SpokeNamespace (mcm_Spec mcm)) (mcms_Selector (mcm_Spec mcm)))
    (mcm_Status mcm).

(** The loop over the mappings: what the caller sees of the call. *)
Definition strip_mappings (mcm : ManagedClusterModule) : ManagedClusterModule :=
  let s := mcms_ModuleSpec (mcm_Spec mcm) in
  let c := ml_Container (ModuleLoader s) in
  set_mcm_spec (set_container (mk_mlcontainer (mlc_Build c) (mlc_Sign c) (mlc_ContainerImage c)
    (mlc_ImagePullPolicy c) (List.map strip_mapping (mlc_KernelMappings c)) (mlc_Modprobe c)
    (mlc_RegistryTLS c)) s) mcm.

(** The spec the spoke receives: the fields of the copy are cleared too. *)
Definition spoke_spec (mcm : ManagedClusterModule) : ModuleSpec :=
  let s := mcms_ModuleSpec (mcm_Spec mcm) in
  let c := ml_Container (ModuleLoader s) in
  set_container (mk_mlcontainer None None (mlc_ContainerImage c) (mlc_ImagePullPolicy c)
    (List.map strip_mapping (mlc_KernelMappings c)) (mlc_Modprobe c) (mlc_RegistryTLS c)) s.

Definition spoke_module (mcm : ManagedClusterModule) : Module_ :=
  mk_module (meta_named (mcm_Name mcm) (mcms_SpokeNamespace (mcm_Spec mcm))) (spoke_spec mcm)
    empty_modstatus.

Definition spoke_work_spec (mcm : ManagedClusterModule) : ManifestWorkSpec :=
  let m := spoke_module mcm in
  mk_mwspec [m] [mk_mconfig "kmm.sigs.x-k8s.io" "modules" (mod_Name m) (mod_Namespace m) "JSONPaths"
                   moduleStatusJSONPaths].

Definition SetManifestWorkAsDesired (mw : option ManifestWork) (mcm : ManagedClusterModule)
    : result ManifestWork * ManagedClusterModule :=
  match mw with
  | None => (Err (errorf "mw cannot be nil"), mcm)
  | Some mw =>
      let standardLabels : strmap := {[ ManagedClusterModuleNameLabel := mcm_Name mcm ]} in
      (m ← SetControllerReference (as_owner mcm) (set_labels (Some standardLabels) (mw_meta mw));
       Ok (mk_mw m (spoke_work_spec mcm) (mw_Conditions mw)),
       strip_mappings mcm)
  end.

Definition getOwnedManifestWorks (mcm : ManagedClusterModule) : M (result (list ManifestWork)) :=
  List_ KManifestWork (mk_listopts None (Some {[ ManagedClusterModuleNameLabel := mcm_Name mcm ]})).

Fixpoint delete_works (clusterNames : gset string) (works : list ManifestWork) : M (result unit) :=
  match works with
  | [] => Ret (Ok tt)
  | mw :: works =>
      if bool_decide (om_Namespace (mw_meta mw) ∈ clusterNames) then delete_works clusterNames works
      else
        try _ := Delete KManifestWork mw false
          catch err => Ret (Err (errorf_w ("failed to delete ManifestWork " +:+ om_Namespace (mw_meta mw)
                                           +:+ "/" +:+ om_Name (mw_meta mw) +:+ ": ") err)) in
        delete_works clusterNames works
  end.

Definition mc_Name (c : ManagedCluster) : string := om_Name (mc_meta c).

Definition mw_GarbageCollect (clusters : list ManagedCluster) (mcm : ManagedClusterModule)
    : M (result unit) :=
  try manifestWorks := getOwnedManifestWorks mcm
    catch err => Ret (Err (errorf_w "failed to get owned ManifestWorks: " err)) in
  delete_works (list_to_set (List.map mc_Name clusters)) manifestWorks.

(** ** cluster.go *)

(** The kernels of the first claim of that name. *)
Definition kernelVersions (cluster : ManagedCluster) : result (list string) :=
  match List.find (λ c, bool_decide (claim_Name c = KernelVersionsClusterClaimName))
          (mc_ClusterClaims cluster) with
  | Some c => Ok (str_split is_newline (claim_Value c))
  | None => Err (errorf "KMM ClusterClaim not found")
  end.

Section hub.
Context {R : Regexp} {E : Envsubst} {MO : MapOrder} {BM : BuildManager} {SM : SignManager}.
(** The namespace the builds and signing jobs run in. *)
Variable namespace : string.

Definition RequestedManagedClusterModule (namespacedName : NamespacedName)
    : M (result ManagedClusterModule) :=
  try mcm := Get KManagedClusterModule namespacedName
    catch err => Ret (Err (errorf_w ("failed to get the ManagedClusterModule "
                                     +:+ nsn_string namespacedName +:+ ": ") err)) in
  Ret (Ok mcm).

Definition clusters_opts (mcm : ManagedClusterModule) : ListOptions :=
  mk_listopts None (Some (mcms_Selector (mcm_Spec mcm))).

Definition SelectedManagedClusters (mcm : ManagedClusterModule) : M (result (list ManagedCluster)) :=
  List_ KManagedCluster (clusters_opts mcm).

(** The Module whose images the hub builds. *)
Definition hub_module (mcm : ManagedClusterModule) : Module_ :=
  mk_module (meta_named (mcm_Name mcm) namespace) (mcms_ModuleSpec (mcm_Spec mcm)) empty_modstatus.

Definition trim_kernel (kernelVersion : string) : string := str_trim_suffix "+" kernelVersion.

Fixpoint kernel_mappings_loop (m : Module_) (versions : list string)
    (mldMappings : gmap string ModuleLoaderData) : result (gmap string ModuleLoaderData) :=
  match versions with
  | [] => Ok mldMappings
  | v :: versions =>
      let kernelVersion := trim_kernel v in
      match mldMappings !! kernelVersion with
      | Some _ => kernel_mappings_loop m versions mldMappings
      | None =>
          match GetModuleLoaderDataForKernel m kernelVersion with
          | Err _ => kernel_mappings_loop m versions mldMappings
          | Panic w => Panic w
          | Ok mld => kernel_mappings_loop m versions (<[kernelVersion := mld]> mldMappings)
          end
      end
  end.

Definition kernelMappingsByKernelVersion (m : Module_) (cluster : ManagedCluster)
    : result (gmap string ModuleLoaderData) :=
  versions ← kernelVersions cluster;
  kernel_mappings_loop m versions ∅.

Definition hub_build (mld : ModuleLoaderData) (mcm : ManagedClusterModule) : M (result bool) :=
  try shouldSync := bm_ShouldSync mld
    catch err => Ret (Err (errorf ("could not check if build synchronization is needed: "
                                   +:+ Error err))) in
  if negb shouldSync then Ret (Ok true)
  else
    prog_bind (λ r, match r with
      | (_, Some err) => Ret (Err (errorf_w "could not synchronize the build: " err))
      | (buildStatus, None) => Ret (Ok (bool_decide (buildStatus = StatusCompleted)))
      end) (bm_Sync mld true (as_owner mcm)).

Definition hub_sign (mld : ModuleLoaderData) (mcm : ManagedClusterModule) : M (result bool) :=
  try shouldSync := sm_ShouldSync mld
    catch err => Ret (Err (errorf ("could not check if signing synchronization is needed: "
                                   +:+ Error err))) in
  if negb shouldSync then Ret (Ok true)
  else
    let previousImage :=
      if ShouldBeBuilt mld
      then IntermediateImageName (mld_Name mld) (mld_Namespace mld) (mld_ContainerImage mld) else "" in
    prog_bind (λ r, match r with
      | (_, Some err) => Ret (Err (errorf_w "could not synchronize the signing: " err))
      | (signStatus, None) => Ret (Ok (bool_decide (signStatus = StatusCompleted)))
      end) (sm_Sync mld previousImage true (as_owner mcm)).

(** The body of the loop over the mappings; the state is
    [completedSuccessfully]. *)
Definition build_and_sign_kernel (mcm : ManagedClusterModule) (mld : ModuleLoaderData)
    (completedSuccessfully : bool) : M (ctl bool (result bool)) :=
  try buildCompleted := hub_build mld mcm catch err => Ret (Return (Err err)) in
  if negb buildCompleted then Ret (Next false) else
  try signCompleted := hub_sign mld mcm catch err => Ret (Return (Err err)) in
  if negb signCompleted then Ret (Next false) else Ret (Next completedSuccessfully).

Definition BuildAndSign (mcm : ManagedClusterModule) (cluster : ManagedCluster) : M (result bool) :=
  try mldMappings := lift_result (kernelMappingsByKernelVersion (hub_module mcm) cluster)
    catch err => Ret (Err err) in
  if bool_decide (size mldMappings = 0) then Ret (Ok false)
  else
    prog_bind (λ c, match c with
      | Return r => Ret r
      | Next completedSuccessfully => Ret (Ok completedSuccessfully)
      end)
      (range_loop (range_map mldMappings) (λ p b, build_and_sign_kernel mcm (snd p) b) true).

Definition GarbageCollectBuilds (mcm : ManagedClusterModule) : M (result (list string)) :=
  bm_GarbageCollect (mcm_Name mcm) namespace (as_owner mcm).

(** ** managedclustermodule_reconciler.go *)

(** The body of the loop over the clusters: errors are only logged. *)
Definition handle_cluster (cluster : ManagedCluster) (mcm : ManagedClusterModule)
    : M ManagedClusterModule :=
  prog_bind (λ r, match r with
    | Panic w => Crash w
    | Err _ | Ok false => Ret mcm
    | Ok true =>
        let mw := mk_mw (meta_named (mcm_Name mcm) (mc_Name cluster)) (mk_mwspec [] []) [] in
        prog_bind (λ r : result (OperationResult * ManifestWork) * bool,
          Ret (if snd r then strip_mappings mcm else mcm))
          (CreateOrPatch_tracked KManifestWork mw
             (λ mw : ManifestWork, fst (SetManifestWorkAsDesired (Some mw) mcm)))
    end) (BuildAndSign mcm cluster).

Fixpoint handle_clusters (clusters : list ManagedCluster) (mcm : ManagedClusterModule)
    : M ManagedClusterModule :=
  match clusters with
  | [] => Ret mcm
  | cluster :: clusters => prog_bind (handle_clusters clusters) (handle_cluster cluster mcm)
  end.

Definition hub_Reconcile (req : NamespacedName) : M (result ReconcileResult) :=
  prog_bind (λ r, match r with
    | Panic w => Crash w
    | Err err =>
        if IsNotFound err then Ret (Ok no_requeue)
        else Ret (Err (errorf ("failed to get the requested CR: " +:+ Error err)))
    | Ok mcm =>
        try clusters := SelectedManagedClusters mcm
          catch err => Ret (Err (errorf ("failed to get selected clusters: " +:+ Error err))) in
        prog_bind (λ mcm : ManagedClusterModule,
          try _ := mw_GarbageCollect clusters mcm
            catch err => Ret (Err (errorf ("failed to garbage collect ManifestWorks with no matching cluster selector: "
                                           +:+ Error err))) in
          try _ := GarbageCollectBuilds mcm
            catch err => Ret (Err (errorf ("failed to garbage collect build objects: " +:+ Error err))) in
          try works := getOwnedManifestWorks mcm
            catch err => Ret (Err (errorf ("failed to fetch owned ManifestWorks of the ManagedClusterModule: "
                                           +:+ Error err))) in
          try _ := ManagedClusterModuleUpdateStatus mcm works
            catch err => Ret (Err (errorf ("failed to update status of the ManagedClusterModule: "
                                           +:+ Error err))) in
          Ret (Ok no_requeue))
          (handle_clusters clusters mcm)
    end) (RequestedManagedClusterModule req).

(** ** Facts *)

Lemma find_none_forall {A} (f : A → bool) l : (∀ x, x ∈ l → f x = false) → List.find f l = None.
Proof.
  induction l as [|x l IH]; intros H; [done|]. simpl. rewrite H by by left.
  apply IH. intros y ?. apply H. by right.
Qed.

Lemma kernel_mappings_loop_Ok m versions c c' :
  cache_ok m c → kernel_mappings_loop m versions c = Ok c' →
  ∀ k mld, c' !! k = Some mld ↔
    c !! k = Some mld ∨
    (GetModuleLoaderDataForKernel m k = Ok mld ∧ ∃ v, v ∈ versions ∧ trim_kernel v = k).
Proof.
  revert c. induction versions as [|v versions IH]; intros c Hc H k mld; simpl in H.
  { simplify_eq. split; [by left|]. intros [?|(_ & v & Hv & _)]; [done|]. by apply not_elem_of_nil in Hv. }
  destruct (c !! trim_kernel v) as [mld0|] eqn:Hv.
  - rewrite (IH c Hc H). split; [intros [?|(Hg & x & ? & ?)]; [by left|right]|].
    + split; [done|]. exists x. set_solver.
    + intros [?|(Hg & x & [->|Hx]%elem_of_cons & Hk)]; [by left| |right; eauto].
      left. rewrite <-Hk, Hv. f_equal. apply Hc in Hv. rewrite Hk in Hv. congruence.
  - destruct (GetModuleLoaderDataForKernel m (trim_kernel v)) as [mld0|e|w] eqn:Hg0; [| |done].
    + assert (cache_ok m (<[trim_kernel v := mld0]> c)) as Hc'.
      { intros k' mld' [[<- <-]|[_ ?]]%lookup_insert_Some; [done|by apply Hc]. }
      rewrite (IH _ Hc' H), lookup_insert_Some. split.
      * intros [[[<- <-]|[_ ?]]|(Hg & x & ? & ?)]; [right|by left|right]; (split; [done|]);
          [exists v|exists x]; set_solver.
      * intros [?|(Hg & x & [->|Hx]%elem_of_cons & Hk)]; [left; right| |right; eauto].
        -- split; [|done]. intros <-. congruence.
        -- left. left. split; [done|]. rewrite Hk in Hg0. congruence.
    + rewrite (IH c Hc H). split; [intros [?|(Hg & x & ? & ?)]; [by left|right]|].
      * split; [done|]. exists x. set_solver.
      * intros [?|(Hg & x & [->|Hx]%elem_of_cons & Hk)]; [by left| |right; eauto].
        rewrite Hk in Hg0. congruence.
Qed.

Lemma kernelMappings_Ok m cluster c :
  kernelMappingsByKernelVersion m cluster = Ok c →
  ∃ versions, kernelVersions cluster = Ok versions ∧
    ∀ k mld, c !! k = Some mld ↔
      GetModuleLoaderDataForKernel m k = Ok mld ∧ ∃ v, v ∈ versions ∧ trim_kernel v = k.
Proof.
  intros (versions & Hv & H)%result_bind_Ok. exists versions. split; [done|]. intros k mld.
  assert (cache_ok m ∅) as Hc by (intros k' mld' Hk; by rewrite lookup_empty in Hk).
  rewrite (kernel_mappings_loop_Ok m versions ∅ c Hc H), lookup_empty.
  split; [by intros [?|?]|by right].
Qed.

(** ** What the hub may do *)

Context {BS : BuildManagerSpec BM} {SS : SignManagerSpec SM}.

Definition hub_build_ready (mcm : ManagedClusterModule) (mld : ModuleLoaderData) (h : hist) : Prop :=
  bm_skipped mld h ∨ bm_completed mld true (as_owner mcm) h.
Definition hub_sign_ready (mcm : ManagedClusterModule) (mld : ModuleLoaderData) (h : hist) : Prop :=
  sm_skipped mld h ∨ sm_completed mld (previousImage mld) true (as_owner mcm) h.

(** Every image the ManagedClusterModule gives for a kernel of the cluster
    is built and signed, and there is one. *)
Definition images_ready (mcm : ManagedClusterModule) (cluster : ManagedCluster) (h : hist) : Prop :=
  ∃ versions, kernelVersions cluster = Ok versions ∧
    (∃ v mld, v ∈ versions ∧ GetModuleLoaderDataForKernel (hub_module mcm) (trim_kernel v) = Ok mld) ∧
    ∀ v mld, v ∈ versions → GetModuleLoaderDataForKernel (hub_module mcm) (trim_kernel v) = Ok mld →
      hub_build_ready mcm mld h ∧ hub_sign_ready mcm mld h.

(** The ManifestWork of a cluster: the Module without its build and sign
    settings, labelled and controlled. *)
Definition work_for (mcm : ManagedClusterModule) (cluster : ManagedCluster) (mw : ManifestWork) : Prop :=
  object_key (mw_meta mw) = NN (mc_Name cluster) (mcm_Name mcm) ∧
  om_Labels (mw_meta mw) = Some {[ ManagedClusterModuleNameLabel := mcm_Name mcm ]} ∧
  controlled_by (as_owner mcm) (mw_meta mw) ∧ mw_Spec mw = spoke_work_spec mcm.

(** A call of the build or sign manager, for a kernel the cluster publishes. *)
Definition image_call (mcm : ManagedClusterModule) (cluster : ManagedCluster) (h : hist) (q : req)
    : Prop :=
  is_write q = false ∨
  ∃ versions v mld, kernelVersions cluster = Ok versions ∧ v ∈ versions ∧
    GetModuleLoaderDataForKernel (hub_module mcm) (trim_kernel v) = Ok mld ∧
    (bm_call mld true (as_owner mcm) h q ∨ sm_call mld (previousImage mld) true (as_owner mcm) h q).

Definition stores_work (mw : ManifestWork) (q : req) : Prop :=
  q = RCreate KManifestWork mw ∨ ∃ b, q = RPatch KManifestWork mw b.

(** What the hub knows of the ManagedClusterModule at a point of a run: as it was read, or
    with the settings of its mappings gone. *)
Definition mcm_view (mcm view : ManagedClusterModule) : Prop := view = mcm ∨ view = strip_mappings mcm.

Definition hub_allowed (key : NamespacedName) (h : hist) (q : req) : Prop :=
  is_write q = false ∨ gc_call KBuild q ∨
  ∃ mcm clusters, (Ev (RGet KManagedClusterModule key) (Ok mcm) : @event req ans) ∈ h ∧
    (Ev (RList KManagedCluster (clusters_opts mcm)) (Ok clusters) : @event req ans) ∈ h ∧
    ((∃ view cluster, mcm_view mcm view ∧ cluster ∈ clusters ∧ image_call view cluster h q) ∨
     (∃ view cluster mw, mcm_view mcm view ∧ cluster ∈ clusters ∧ images_ready view cluster h ∧
        work_for mcm cluster mw ∧ stores_work mw q) ∨
     (∃ works mw, (Ev (RList KManifestWork (mk_listopts None
           (Some {[ ManagedClusterModuleNameLabel := mcm_Name mcm ]}))) (Ok works) : @event req ans) ∈ h ∧
        mw ∈ works ∧ (∀ c, c ∈ clusters → mc_Name c ≠ om_Namespace (mw_meta mw)) ∧
        q = RDelete KManifestWork mw false) ∨
     (∃ view works, mcm_view mcm view ∧
        q = RStatusPatch KManagedClusterModule (mcm_status view works) view)).

Lemma hub_build_ready_monotone mcm mld : monotone (hub_build_ready mcm mld).
Proof.
  intros h h' Hp [H|H]; [left; by eapply bm_skipped_monotone|right; by eapply bm_completed_monotone].
Qed.
Lemma hub_sign_ready_monotone mcm mld : monotone (hub_sign_ready mcm mld).
Proof.
  intros h h' Hp [H|H]; [left; by eapply sm_skipped_monotone|right; by eapply sm_completed_monotone].
Qed.
Lemma images_ready_monotone mcm cluster : monotone (images_ready mcm cluster).
Proof.
  intros h h' Hp (vs & H1 & H2 & H3). exists vs. split_and!; [done..|]. intros v mld Hv Hm.
  destruct (H3 v mld Hv Hm).
  split; [by eapply hub_build_ready_monotone|by eapply hub_sign_ready_monotone].
Qed.

(** The copies of a ManagedClusterModule differ in the mappings only. *)
Lemma strip_mapping_idem ms : List.map strip_mapping (List.map strip_mapping ms) = List.map strip_mapping ms.
Proof. rewrite map_map. by apply map_ext. Qed.
Lemma strip_mappings_idem mcm : strip_mappings (strip_mappings mcm) = strip_mappings mcm.
Proof. unfold strip_mappings, set_mcm_spec, set_container. simpl. by rewrite strip_mapping_idem. Qed.
Lemma spoke_work_spec_view mcm view : mcm_view mcm view → spoke_work_spec view = spoke_work_spec mcm.
Proof.
  intros [->| ->]; [done|]. unfold spoke_work_spec, spoke_module, spoke_spec, set_container. simpl.
  by rewrite strip_mapping_idem.
Qed.
Lemma mcm_view_owner mcm view : mcm_view mcm view → as_owner view = as_owner mcm ∧ mcm_meta view = mcm_meta mcm.
Proof. by intros [->| ->]. Qed.
Lemma mcm_view_strip mcm view : mcm_view mcm view → mcm_view mcm (strip_mappings view).
Proof. intros [->| ->]; right; [done|apply strip_mappings_idem]. Qed.

Section one_image.
Context (mcm : ManagedClusterModule) (cluster : ManagedCluster).
Context (versions : list string) (v : string) (mld : ModuleLoaderData).
Hypothesis Hversions : kernelVersions cluster = Ok versions.
Hypothesis Hv : v ∈ versions.
Hypothesis Hmld : GetModuleLoaderDataForKernel (hub_module mcm) (trim_kernel v) = Ok mld.

Lemma wp_hub_build h :
  wp (image_call mcm cluster) (hub_build mld mcm)
     (λ o h', match o with Done (Ok true) => hub_build_ready mcm mld h' | _ => True end) h.
Proof using Type*.
  unfold hub_build. apply wp_bind. eapply wp_mono; [apply wp_bm_ShouldSync|by left|].
  intros [[[]|e|w]|w] h1 _ H1; simpl; try done; [|by left].
  apply wp_bind. eapply wp_mono; [apply wp_bm_Sync| |].
  { intros h' q _ Hq. right. exists versions, v, mld. by split_and!; [..|left]. }
  intros [[st [e|]]|w] h2 _ H2; try done. destruct st; try done. by right.
Qed.

Lemma wp_hub_sign h :
  wp (image_call mcm cluster) (hub_sign mld mcm)
     (λ o h', match o with Done (Ok true) => hub_sign_ready mcm mld h' | _ => True end) h.
Proof using Type*.
  unfold hub_sign. apply wp_bind. eapply wp_mono; [apply wp_sm_ShouldSync|by left|].
  intros [[[]|e|w]|w] h1 _ H1; simpl; try done; [|by left].
  apply wp_bind. eapply wp_mono; [apply wp_sm_Sync| |].
  { intros h' q _ Hq. right. exists versions, v, mld. by split_and!; [..|right]. }
  intros [[st [e|]]|w] h2 _ H2; try done. destruct st; try done. by right.
Qed.

Lemma wp_build_and_sign_kernel b h :
  wp (image_call mcm cluster) (build_and_sign_kernel mcm mld b) (λ o h', match o with
    | Done (Next true) => b = true ∧ hub_build_ready mcm mld h' ∧ hub_sign_ready mcm mld h'
    | Done (Return (Ok _)) => False
    | _ => True end) h.
Proof using Type*.
  unfold build_and_sign_kernel. apply wp_bind. eapply wp_post; [apply wp_hub_build|].
  intros [[[]|e|w]|w] h1 _ Hb; try done. simpl.
  apply wp_bind. eapply wp_post; [apply wp_hub_sign|].
  intros [[[]|e|w]|w] h2 Hp Hs; try done. simpl. destruct b; [|done].
  split_and!; [done|by eapply hub_build_ready_monotone|done].
Qed.
End one_image.

Lemma wp_BuildAndSign mcm cluster h :
  wp (image_call mcm cluster) (BuildAndSign mcm cluster)
     (λ o h', match o with Done (Ok true) => images_ready mcm cluster h' | _ => True end) h.
Proof.
  unfold BuildAndSign. apply wp_bind, wp_lift_result; [|done..]. intros c Hc.
  case_bool_decide as Hsize; [done|]. destruct (kernelMappings_Ok _ _ _ Hc) as (vs & Hvs & Hk).
  apply wp_bind.
  eapply (wp_range_loop _ _ _ _ (λ done b h', b = true → ∀ k mld, (k, mld) ∈ done →
    hub_build_ready mcm mld h' ∧ hub_sign_ready mcm mld h')).
  - intros _ k mld H. by apply not_elem_of_nil in H.
  - intros done [k mld] rest b h1 Heq HI. simpl.
    assert ((k, mld) ∈ range_map c) as Hin by (rewrite Heq; set_solver).
    apply elem_of_range_map, Hk in Hin as (Hg & v0 & Hv0 & <-).
    eapply wp_post; [by eapply wp_build_and_sign_kernel|].
    intros [[b'|[v|e|w]]|w] h2 Hp H; try done. intros ->. destruct H as (-> & Hb & Hs).
    intros k' mld' [Hin|Hin]%elem_of_app.
    + destruct (HI eq_refl _ _ Hin).
      split; [by eapply hub_build_ready_monotone|by eapply hub_sign_ready_monotone].
    + apply list_elem_of_singleton in Hin. by injection Hin as -> ->.
  - intros [] h1 HI; [|done].
    exists vs. split; [done|]. split.
    + destruct (map_choose c) as (k & mld & Hin).
      { intros ->. by apply Hsize, map_size_empty. }
      apply Hk in Hin as (Hg & v & Hv & <-). by exists v, mld.
    + intros v mld Hv Hg. apply (HI eq_refl (trim_kernel v)). apply elem_of_range_map, Hk. eauto.
Qed.

Lemma SetManifestWorkAsDesired_Ok mw mcm mw' :
  fst (SetManifestWorkAsDesired (Some mw) mcm) = Ok mw' →
  om_Labels (mw_meta mw') = Some {[ ManagedClusterModuleNameLabel := mcm_Name mcm ]} ∧
  controlled_by (as_owner mcm) (mw_meta mw') ∧ mw_Spec mw' = spoke_work_spec mcm ∧
  mw_Conditions mw' = mw_Conditions mw ∧ object_key (mw_meta mw') = object_key (mw_meta mw).
Proof.
  cbn [SetManifestWorkAsDesired fst]. intros (m & Hm & [= <-])%result_bind_Ok. simpl.
  pose proof (SetControllerReference_controlled_by _ _ _ Hm) as Hc.
  apply SetControllerReference_fields in Hm as (Hn & Hns & _ & Hl & _).
  split_and!; [done|done|done|done|]. unfold object_key. simpl in *. by rewrite Hn, Hns.
Qed.

Section one_run.
Context (key : NamespacedName) (mcm : ManagedClusterModule) (clusters : list ManagedCluster).

(** What was read at the start. *)
Definition hub_read (h : hist) : Prop :=
  (Ev (RGet KManagedClusterModule key) (Ok mcm) : @event req ans) ∈ h ∧
  (Ev (RList KManagedCluster (clusters_opts mcm)) (Ok clusters) : @event req ans) ∈ h.

Lemma hub_read_monotone : monotone hub_read.
Proof. intros h h' [t ->] [H1 H2]. split; apply elem_of_app; by left. Qed.

Lemma wp_handle_cluster cluster view h :
  hub_read h → mcm_view mcm view → cluster ∈ clusters →
  wp (hub_allowed key) (handle_cluster cluster view)
    (λ o h', match o with Done view' => mcm_view mcm view' | _ => True end) h.
Proof.
  intros Hread Hview Hc. unfold handle_cluster. apply wp_bind.
  eapply wp_mono; [apply wp_BuildAndSign| |].
  { intros h' q Hp Hq. right. right. exists mcm, clusters.
    destruct (hub_read_monotone h h' Hp Hread). split_and!; [done|done|]. left. by exists view, cluster. }
  intros [[[]|e|w]|w] h1 Hp1 Hr; try done.
  pose proof (mcm_view_owner _ _ Hview) as [Ho Hmeta].
  assert (∀ h' b mw, h1 `prefix_of` h' →
    mutate (k := KManifestWork) (λ mw : ManifestWork, fst (SetManifestWorkAsDesired (Some mw) view))
      (NN (mc_Name cluster) (mcm_Name view)) b = Ok mw →
    mw_Conditions mw = mw_Conditions b ∧ ∀ q, stores_work mw q → hub_allowed key h' q) as Hok.
  { intros h' b mw Hp [(H1 & H2 & H3 & H4 & _)%SetManifestWorkAsDesired_Ok H5]%mutate_Ok.
    split; [done|]. intros q Hq. right. right. exists mcm, clusters.
    destruct (hub_read_monotone h h') as [Hr1 Hr2]; [by trans h1|done|].
    split_and!; [done|done|]. right. left. exists view, cluster, mw.
    split_and!; [done|done|by eapply images_ready_monotone| |done].
    unfold mcm_Name in *. rewrite Hmeta in *. split_and!; [done|done|by rewrite <-Ho|].
    by rewrite H3, (spoke_work_spec_view mcm). }
  apply wp_bind, wp_CreateOrPatch_tracked.
  - by left.
  - intros h' o' Hp H. eapply Hok; [exact Hp|exact H|by left].
  - intros h' b o' Hp H. eapply Hok; [exact Hp|exact H|right; by exists b].
  - intros h' b o' c Hp H Hst. destruct (Hok h' b o' Hp H) as [Hcond _]. simpl in Hst.
    by rewrite bool_decide_true in Hst.
  - intros [[r b]|w] h' _; [|done]. simpl. destruct b; [by apply mcm_view_strip|done].
Qed.

Lemma wp_handle_clusters cs view h :
  hub_read h → mcm_view mcm view → (∀ c, c ∈ cs → c ∈ clusters) →
  wp (hub_allowed key) (handle_clusters cs view)
    (λ o h', match o with Done view' => mcm_view mcm view' | _ => True end) h.
Proof.
  revert view h. induction cs as [|c cs IH]; intros view h Hread Hview Hcs; [done|].
  cbn [handle_clusters]. apply wp_bind.
  eapply wp_post; [apply wp_handle_cluster; [done..|apply Hcs; by left]|].
  intros [view'|w] h1 Hp H1; [|done].
  apply IH; [by eapply hub_read_monotone|done|]. intros c' ?. apply Hcs. by right.
Qed.

Lemma wp_delete_works works all h :
  hub_read h → (∀ mw, mw ∈ works → mw ∈ all) →
  (Ev (RList KManifestWork (mk_listopts None
     (Some {[ ManagedClusterModuleNameLabel := mcm_Name mcm ]}))) (Ok all) : @event req ans) ∈ h →
  wp (hub_allowed key) (delete_works (list_to_set (List.map mc_Name clusters)) works) (λ _ _, True) h.
Proof.
  revert h. induction works as [|mw works IH]; intros h Hread Hin Hl; [done|]. cbn [delete_works].
  case_bool_decide as Hmem; [apply IH; [done| |done]; intros; apply Hin; by right|].
  apply wp_bind. split.
  - right. right. exists mcm, clusters. destruct Hread as [Hr1 Hr2].
    split_and!; [done|done|]. do 2 right. left. exists all, mw.
    split_and!; [done|apply Hin; by left| |done]. intros c Hc Heq. apply Hmem.
    rewrite <-Heq. apply elem_of_list_to_set, list_elem_of_In, in_map. by apply list_elem_of_In.
  - intros [u|e|w]; [|done..]. assert (h `prefix_of` h ++ [Ev (RDelete KManifestWork mw false) (Ok u)])
      as Hp by by apply prefix_app_r.
    apply IH; [by eapply hub_read_monotone|intros; apply Hin; by right|apply elem_of_app; by left].
Qed.
End one_run.

Lemma wp_hub_Reconcile key : wp (hub_allowed key) (hub_Reconcile key) (λ _ _, True) [].
Proof.
  unfold hub_Reconcile, RequestedManagedClusterModule. do 2 apply wp_bind. split; [by left|].
  intros [mcm|err|w]; [|cbn [wp]; by destruct (IsNotFound _)|done].
  apply wp_bind. split; [by left|]. intros [clusters|err|w]; [|done..].
  set (h := _ ++ _). assert (hub_read key mcm clusters h) as Hread by (unfold h; split; set_solver).
  clearbody h. apply wp_bind. eapply wp_post.
  { by apply (wp_handle_clusters key mcm clusters clusters mcm); [|left|]. }
  intros [view|w] h1 Hp1 Hview; [|done]. pose proof (mcm_view_owner _ _ Hview) as [Ho Hmeta].
  eapply hub_read_monotone in Hread; [|exact Hp1].
  apply wp_bind, (wp_post _ _ (λ _ h', h1 `prefix_of` h')).
  { unfold mw_GarbageCollect. apply wp_bind. split; [by left|].
    intros [works|err|w]; [|by apply prefix_app_r..].
    set (h2 := h1 ++ _). assert (h1 `prefix_of` h2) as Hp by by apply prefix_app_r.
    cbn [wp]. eapply wp_post; [eapply (wp_delete_works key mcm clusters works works)|].
    - by eapply hub_read_monotone.
    - done.
    - unfold h2, mcm_Name. rewrite Hmeta. in_hist.
    - intros o h' Hp' _. by trans h2. }
  intros [[[]|e|w]|w] h2 _ Hp2; [|done..]. eapply hub_read_monotone in Hread; [|exact Hp2].
  apply wp_bind. eapply wp_calls; [apply calls_bm_GarbageCollect| |].
  { intros h' q _ Hq. by right; left. }
  intros [[l|e|w]|w] h3 Hp3; [|done..]. eapply hub_read_monotone in Hread; [|exact Hp3].
  apply wp_bind. split; [by left|]. intros [works|e|w]; [|done..].
  apply wp_bind. split; [|by intros [r|e|w]].
  right. right. exists mcm, clusters. destruct Hread as [Hr1 Hr2].
  split_and!; [apply elem_of_app; by left|apply elem_of_app; by left|]. do 3 right. by exists view, works.
Qed.

(** ** Properties *)

(** C13: against every API server and registry, and for any build and sign
    managers, the hub stores a ManifestWork only for a cluster it selected,
    in that cluster's namespace, labelled and controlled, holding the Module
    without build and sign settings; and only after every image that the
    ManagedClusterModule - as it was read, or without the settings of its
    kernel mappings - gives for a kernel the cluster claims was seen built and
    signed, one at least.  It deletes only works it listed for clusters that
    are not selected, garbage-collects builds, writes its status, and creates
    Builds and Jobs only through the managers' Syncs for those kernels. *)
Theorem hub_Reconcile_safety {S} (srv : kserver S) s key h1 e h2 :
  run_trace srv (hub_Reconcile key) s = h1 ++ e :: h2 → hub_allowed key h1 (ev_req e).
Proof. apply (wp_run _ _ _ srv s (wp_hub_Reconcile key)). Qed.

(** the kernels considered for a cluster are those of its first
    kernel-versions claim, without a trailing plus, that have a mapping; each
    of them gets the data the kernel mapper gives; without the claim it is an
    error. *)
Theorem kernelMappingsByKernelVersion_spec m cluster :
  (∀ c, kernelMappingsByKernelVersion m cluster = Ok c →
     ∃ versions, kernelVersions cluster = Ok versions ∧
       ∀ k mld, c !! k = Some mld ↔
         GetModuleLoaderDataForKernel m k = Ok mld ∧ ∃ v, v ∈ versions ∧ trim_kernel v = k) ∧
  ((∀ c, c ∈ mc_ClusterClaims cluster → claim_Name c ≠ KernelVersionsClusterClaimName) →
     ∃ err, kernelMappingsByKernelVersion m cluster = Err err) ∧
  (∀ l1 c l2, mc_ClusterClaims cluster = l1 ++ c :: l2 →
     claim_Name c = KernelVersionsClusterClaimName →
     (∀ c', c' ∈ l1 → claim_Name c' ≠ KernelVersionsClusterClaimName) →
     kernelVersions cluster = Ok (str_split is_newline (claim_Value c))).
Proof.
  split_and!; [apply kernelMappings_Ok|intros Hn|intros l1 c l2 Hl Hc Hn];
    unfold kernelMappingsByKernelVersion, kernelVersions.
  - rewrite find_none_forall; [by eexists|]. intros c Hc. by apply bool_decide_false, Hn.
  - rewrite Hl. clear Hl. induction l1 as [|c1 l1 IH]; simpl; [by rewrite bool_decide_true|].
    rewrite bool_decide_false by (apply Hn; by left). apply IH. intros c' ?. apply Hn. by right.
Qed.
End hub.

(** The ManifestWork asks for exactly one Module, named after the
    ManagedClusterModule in its spoke namespace, whose container and mappings
    have no build and sign settings and are otherwise those of the
    ManagedClusterModule; its name, namespace and conditions stay.  The call
    leaves the caller's ManagedClusterModule with the settings of every kernel
    mapping erased, those of the container kept. *)
Theorem SetManifestWorkAsDesired_spec mw mcm mw' mcm' :
  SetManifestWorkAsDesired (Some mw) mcm = (Ok mw', mcm') →
  (∃ m, mws_Manifests (mw_Spec mw') = [m] ∧
     mod_Name m = mcm_Name mcm ∧ mod_Namespace m = mcms_SpokeNamespace (mcm_Spec mcm) ∧
     let c := mod_container m in
     let c0 := ml_Container (ModuleLoader (mcms_ModuleSpec (mcm_Spec mcm))) in
     mlc_Build c = None ∧ mlc_Sign c = None ∧
     Forall (λ km, km_Build km = None ∧ km_Sign km = None) (mlc_KernelMappings c) ∧
     mlc_ContainerImage c = mlc_ContainerImage c0 ∧ mlc_Modprobe c = mlc_Modprobe c0 ∧
     List.map (λ km, (km_ContainerImage km, km_Literal km, km_Regexp km, km_RegistryTLS km)) (mlc_KernelMappings c)
       = List.map (λ km, (km_ContainerImage km, km_Literal km, km_Regexp km, km_RegistryTLS km)) (mlc_KernelMappings c0) ∧
     DevicePlugin (mod_Spec m) = DevicePlugin (mcms_ModuleSpec (mcm_Spec mcm)) ∧
     Selector (mod_Spec m) = Selector (mcms_ModuleSpec (mcm_Spec mcm))) ∧
  om_Labels (mw_meta mw') = Some {[ ManagedClusterModuleNameLabel := mcm_Name mcm ]} ∧
  IsControlledBy (mw_meta mw') (as_owner mcm) = true ∧
  object_key (mw_meta mw') = object_key (mw_meta mw) ∧ mw_Conditions mw' = mw_Conditions mw ∧
  let c' := ml_Container (ModuleLoader (mcms_ModuleSpec (mcm_Spec mcm'))) in
  let c0 := ml_Container (ModuleLoader (mcms_ModuleSpec (mcm_Spec mcm))) in
  mlc_Build c' = mlc_Build c0 ∧ mlc_Sign c' = mlc_Sign c0 ∧
  Forall (λ km, km_Build km = None ∧ km_Sign km = None) (mlc_KernelMappings c').
Proof.
  intros H. assert (fst (SetManifestWorkAsDesired (Some mw) mcm) = Ok mw') as Hf by by rewrite H.
  assert (mcm' = strip_mappings mcm) as -> by by injection H.
  apply SetManifestWorkAsDesired_Ok in Hf as (H1 & H2 & H3 & H4 & H5).
  assert (∀ ms, Forall (λ km, km_Build km = None ∧ km_Sign km = None) (List.map strip_mapping ms)) as Hms
    by (intros ms; apply Forall_forall; intros km Hin; apply list_elem_of_In, in_map_iff in Hin as (x & <- & _); done).
  apply controlled_by_IsControlledBy in H2.
  cbv zeta. split_and!; try done; [|apply Hms]. exists (spoke_module mcm). rewrite H3.
  split_and!; try done; [apply Hms|]. simpl. by rewrite map_map.
Qed.

(** ** Example: two clusters

    The image of each kernel is to be built; the first cluster's exists, the
    second cluster's does not. *)

Definition ex_hub_mapping (image regexp : string) : KernelMapping :=
  mk_mapping (Some Ex.build) None image "" None regexp.
Definition ex_mcm : ManagedClusterModule :=
  mk_mcm (meta_named "nvidia" "")
    (mk_mcmspec (set_container (mk_mlcontainer None None "" ""
       [ex_hub_mapping "quay.io/org/driver:el9" "el9"; ex_hub_mapping "quay.io/org/driver:el8" "el8"]
       Ex.modprobe empty_tls) Ex.spec) "spoke-ns" ∅)
    (mk_mcmstatus 0 0 0).
Definition ex_managed (name kernel : string) : ManagedCluster :=
  mk_mc (meta_named name "") [mk_claim KernelVersionsClusterClaimName kernel].

Definition ex_hub_server : kserver unit := stateless (λ q,
  match q return ans q with
  | RGet KManagedClusterModule _ => Ok ex_mcm
  | RList KManagedCluster _ =>
      Ok [ex_managed "cluster-1" "5.14.0-70.el9"; ex_managed "cluster-2" "4.18.0-372.el8"]
  | RKeychainFromSA _ _ => Ok "keychain"
  | RManifest image _ =>
      if bool_decide (image = "quay.io/org/driver:el9") then Ok "manifest"
      else Err (mk_error "not found" [CTransport 404])
  | q => accept q
  end).

Definition ex_hub : M (result ReconcileResult) :=
  hub_Reconcile (R := regexp_substring) (E := envsubst_id) (MO := map_order_std)
    (BM := buildconfig_manager (D := ex_decoder) (Hs := ex_hasher) "amd64")
    (SM := signjob_manager (D := ex_decoder) (Hs := ex_hasher) "amd64")
    "kmm-hub" (NN "" "nvidia").

Definition ex_creates_work (cluster : string) (e : @event req ans) : bool :=
  match created KManifestWork (ev_req e) with
  | Some mw => bool_decide (om_Namespace (mw_meta mw) = cluster)
  | None => false
  end.
Definition ex_asks_image (image : string) (e : @event req ans) : bool :=
  match ev_req e with RManifest i _ => bool_decide (i = image) | _ => false end.

(** The ManifestWork of the first cluster erases the build settings that the
    second one needs ([HubSharing]): it is sent the Module although its image does
    not exist and was never asked for; alone it is not. *)
Example ex_second_cluster :
  let two := run_trace ex_hub_server ex_hub tt in
  let one := run_trace (λ q s, match q return ans q * unit with
                               | RList KManagedCluster _ => (Ok [ex_managed "cluster-2" "4.18.0-372.el8"], s)
                               | q => ex_hub_server q s end) ex_hub tt in
  existsb (ex_creates_work "cluster-2") two = true ∧
  existsb (ex_asks_image "quay.io/org/driver:el8") two = false ∧
  existsb (ex_creates_work "cluster-2") one = false ∧
  existsb (ex_asks_image "quay.io/org/driver:el8") one = true.
Proof. vm_compute. repeat split. Qed.

Lemma hub_Reconcile_safety_witness :
  ∃ h1 e, ex_creates_work "cluster-1" e = true ∧
    hub_allowed (R := regexp_substring) (E := envsubst_id)
      (BS := buildconfig_manager_spec (D := ex_decoder) (Hs := ex_hasher) "amd64")
      (SS := signjob_manager_spec (D := ex_decoder) (Hs := ex_hasher) "amd64")
      "kmm-hub" (NN "" "nvidia") h1 (ev_req e).
Proof.
  assert (existsb (ex_creates_work "cluster-1") (run_trace ex_hub_server ex_hub tt) = true) as H
    by (vm_compute; reflexivity).
  apply existsb_split in H as (h1 & e & h2 & Htr & He). exists h1, e. split; [exact He|].
  exact (hub_Reconcile_safety (MO := map_order_std)
    (BM := buildconfig_manager (D := ex_decoder) (Hs := ex_hasher) "amd64")
    (SM := signjob_manager (D := ex_decoder) (Hs := ex_hasher) "amd64")
    "kmm-hub" ex_hub_server tt (NN "" "nvidia") h1 e h2 Htr).
Defined.

Lemma SetManifestWorkAsDesired_spec_witness :
  ∃ mw', fst (SetManifestWorkAsDesired
                (Some (mk_mw (meta_named "nvidia" "cluster-1") (mk_mwspec [] []) [])) ex_mcm) = Ok mw' ∧
    om_Labels (mw_meta mw') = Some {[ ManagedClusterModuleNameLabel := "nvidia" ]}.
Proof.
  eexists. split; [reflexivity|].
  eapply (SetManifestWorkAsDesired_spec
            (mk_mw (meta_named "nvidia" "cluster-1") (mk_mwspec [] []) []) ex_mcm). reflexivity.
Defined.
