(* ===== verification/HubConvergence.v ===== *)
(** * Convergence of the hub

    Over an API server that keeps its laws ([ApiServer]), one run of the
    ManagedClusterModule controller sends the Module to every selected cluster
    whose images are there, takes it back from the clusters that are not
    selected any more, and leaves the works of the clusters that wait for a
    kernel, and everybody else's, as they are; a run on that state changes no
    work. *)

From S2P Require Import Prelude Prog K8s Api Client Utils Helpers KernelMapper Auth Registry.
From S2P Require Import Managers BuildConfig SignJob ApiServer StatusUpdater ModuleReconciler ApiRuns ApiMemory Hub.
From stdpp Require Import options.

Local Open Scope go_scope.

(** Setting the controller that is there already changes nothing. *)
Lemma SetControllerReference_owned owner m :
  om_OwnerReferences m = [owner_ref owner true] → ow_Namespace owner = "" →
  isSome (parse_group (ow_APIVersion owner)) = true → SetControllerReference owner m = Ok m.
Proof.
  destruct m as [n g ns u l a r f d ge]. cbn. intros -> Hns Hg.
  unfold SetControllerReference, validateOwner. rewrite Hns, bool_decide_true by done. cbn.
  unfold upsertOwnerRef, set_owners. cbn.
  assert (referSameObject (owner_ref owner true) (owner_ref owner true) = true) as ->; [|done].
  unfold referSameObject. cbn. destruct (parse_group _); [|done]. by rewrite !bool_decide_true.
Qed.

(** Whichever copy of the ManagedClusterModule it is made from, the work is the
    same. *)
Lemma SetManifestWorkAsDesired_view mw mcm v :
  mcm_view mcm v → fst (SetManifestWorkAsDesired mw v) = fst (SetManifestWorkAsDesired mw mcm).
Proof.
  intros Hv. destruct mw as [mw|]; [|done]. cbn [SetManifestWorkAsDesired fst].
  rewrite (spoke_work_spec_view mcm v Hv). destruct (mcm_view_owner _ _ Hv) as [-> Hm].
  unfold mcm_Name. by rewrite Hm.
Qed.

(** ** What the hub works for *)

Section hub_convergence.
Context {S : Type} {srv : kserver S} {view : S → ∀ k, gmap NamespacedName (obj k)}.
Context {default_spec : DaemonSetSpec → DaemonSetSpec} {valid : ∀ k, obj k → Prop}.
Context {AS : ApiServer srv view default_spec valid}.
Context {D : ManifestDecoder} {Hs : Hasher} {R : Regexp} {E : Envsubst} {MO : MapOrder}.
Variables (goarch namespace : string) (mcm : ManagedClusterModule).

Abbreviation swp := (swp srv).
Abbreviation BM := (buildconfig_manager goarch).
Abbreviation SM := (signjob_manager goarch).
Abbreviation same := (same (view := view)).
Abbreviation same_but := (same_but (view := view)).
Abbreviation writes_works := (writes_view view KManifestWork).
Abbreviation works_map := (gmap NamespacedName ManifestWork).

Definition work_labels : strmap := {[ ManagedClusterModuleNameLabel := mcm_Name mcm ]}.
Definition labelled (w : ManifestWork) : Prop :=
  omap_lookup (om_Labels (mw_meta w)) ManagedClusterModuleNameLabel = Some (mcm_Name mcm).

(** The work of a cluster, and how it is wanted. *)
Definition work_key (c : ManagedCluster) : NamespacedName := NN (mc_Name c) (mcm_Name mcm).
Definition desired_work (w : ManifestWork) : Prop :=
  om_Labels (mw_meta w) = Some work_labels ∧
  om_OwnerReferences (mw_meta w) = [owner_ref (as_owner mcm) true] ∧ mw_Spec w = spoke_work_spec mcm.

Definition is_selected (s : S) (c : ManagedCluster) : Prop :=
  view s KManagedCluster !! object_key (mc_meta c) = Some c ∧
  selected KManagedCluster (clusters_opts mcm) c = true.

(** A cluster that claims a kernel with a mapping, with all its images there:
    as the ManagedClusterModule says, and as it says without the settings of
    its mappings. *)
Definition images_there (mappings : gmap string ModuleLoaderData) : Prop :=
  ∀ k mld, mappings !! k = Some mld → ∀ s,
    run_out srv (build_ShouldSync goarch mld) s = Done (Ok false) ∧
    run_out srv (sign_ShouldSync goarch mld) s = Done (Ok false).
Record cluster_ready (c : ManagedCluster) : Prop := {
  cr_mappings v : mcm_view mcm v → ∃ mappings,
    kernelMappingsByKernelVersion (hub_module namespace v) c = Ok mappings ∧ mappings ≠ ∅ ∧
    images_there mappings;
  cr_valid b w : fst (SetManifestWorkAsDesired (Some b) mcm) = Ok w → valid KManifestWork w }.

(** A cluster without the claim, or without a mapping for a kernel of it. *)
Definition cluster_waits (c : ManagedCluster) : Prop :=
  ∀ v, mcm_view mcm v → (∃ err, kernelMappingsByKernelVersion (hub_module namespace v) c = Err err) ∨
    kernelMappingsByKernelVersion (hub_module namespace v) c = Ok ∅.

Lemma ready_not_waits c : cluster_ready c → ¬ cluster_waits c.
Proof.
  intros Hr Hw. destruct (cr_mappings c Hr mcm) as (mp & Hmp & Hne & _); [by left|].
  destruct (Hw mcm) as [[err He]|He]; [by left|congruence..].
Qed.

(** A state the hub works from. *)
Record hub_ready (key : NamespacedName) (s : S) : Prop := {
  hr_mcm : view s KManagedClusterModule !! key = Some mcm;
  hr_scope : om_Namespace (mcm_meta mcm) = "";
  hr_clusters c : is_selected s c → cluster_ready c ∨ cluster_waits c;
  (** the works it would write are its own *)
  hr_owned c w : is_selected s c → cluster_ready c → view s KManifestWork !! work_key c = Some w →
    om_OwnerReferences (mw_meta w) = [owner_ref (as_owner mcm) true];
  (** those it would delete go at once *)
  hr_unselected k w : view s KManifestWork !! k = Some w → labelled w →
    (∀ c, is_selected s c → mc_Name c ≠ nn_Namespace k) → om_Finalizers (mw_meta w) = [] }.

(** The works [v'] that a run makes of [v]. *)
Record hub_converged (s : S) (v v' : works_map) : Prop := {
  hc_sent c : is_selected s c → cluster_ready c → ∃ w, v' !! work_key c = Some w ∧ desired_work w;
  hc_gone k w : v' !! k = Some w → labelled w → ∃ c, is_selected s c ∧ mc_Name c = nn_Namespace k;
  (** a work stays with what the spoke reported, unless it is of a cluster that
      is not selected; it is only written if it is not as it is wanted *)
  hc_stays k b : v !! k = Some b →
    (labelled b → ∃ c, is_selected s c ∧ mc_Name c = nn_Namespace k) →
    ∃ w, v' !! k = Some w ∧ mw_Conditions w = mw_Conditions b ∧ (desired_work b → w = b) ∧
      (w = b ∨ ∃ c, is_selected s c ∧ cluster_ready c ∧ k = work_key c);
  hc_kept k : (∀ c, is_selected s c → cluster_ready c → k ≠ work_key c) →
    (∀ w, v !! k = Some w → labelled w → ∃ c, is_selected s c ∧ mc_Name c = nn_Namespace k) →
    v' !! k = v !! k }.

(** The ManagedClusterModule with the status that counts the works [v]. *)
Definition hub_status_of (v : works_map) (mcm' : ManagedClusterModule) : Prop :=
  ∃ works, NoDup (object_key ∘ mw_meta <$> works) ∧
    (∀ w, w ∈ works ↔ v !! object_key (mw_meta w) = Some w ∧ labelled w) ∧
    mcm' = mcm_status mcm works.

(** ** The images *)

Lemma swp_hub_build v mld s :
  (∀ s, run_out srv (build_ShouldSync goarch mld) s = Done (Ok false)) →
  swp (hub_build (BM := BM) mld v) (λ o s', o = Done (Ok true) ∧ same s s') s.
Proof using AS.
  intros Hr. unfold hub_build. apply swp_bind. eapply swp_mono.
  - apply (swp_same _ (λ o _, o = Done (Ok false))).
    + intros h. by eapply wp_mono; [apply wp_bm_ShouldSync|..].
    + apply swp_run, Hr.
  - intros o s' [-> Hs']. by split.
Qed.
Lemma swp_hub_sign v mld s :
  (∀ s, run_out srv (sign_ShouldSync goarch mld) s = Done (Ok false)) →
  swp (hub_sign (SM := SM) mld v) (λ o s', o = Done (Ok true) ∧ same s s') s.
Proof using AS.
  intros Hr. unfold hub_sign. apply swp_bind. eapply swp_mono.
  - apply (swp_same _ (λ o _, o = Done (Ok false))).
    + intros h. by eapply wp_mono; [apply wp_sm_ShouldSync|..].
    + apply swp_run, Hr.
  - intros o s' [-> Hs']. by split.
Qed.

Abbreviation images_of := (BuildAndSign (BM := BM) (SM := SM) namespace).

Lemma swp_BuildAndSign_ready v c s :
  cluster_ready c → mcm_view mcm v →
  swp (images_of v c) (λ o s', o = Done (Ok true) ∧ same s s') s.
Proof using AS.
  intros Hr Hv. destruct (cr_mappings c Hr v Hv) as (mp & Hmp & Hne & Himg).
  unfold BuildAndSign. rewrite Hmp. cbn [lift_result prog_bind].
  rewrite bool_decide_false by (by rewrite map_size_empty_iff). apply swp_bind.
  eapply (swp_range_loop _ _ _ (λ _ b s', b = true ∧ same s s')).
  - split; [done|apply same_refl].
  - intros done [k mld] rest b s1 Heq [-> Hs1].
    assert (mp !! k = Some mld) as Hk by (apply elem_of_range_map; rewrite Heq; set_solver).
    unfold build_and_sign_kernel. cbn [snd].
    apply swp_bind. eapply swp_mono; [apply swp_hub_build; intros; by eapply Himg|].
    intros o s2 [-> Hs2]. cbn [negb]. apply swp_bind.
    eapply swp_mono; [apply swp_hub_sign; intros; by eapply Himg|].
    intros o s3 [-> Hs3]. cbn [negb swp]. eexists. split_and!; [done|done|].
    eapply same_trans; [|exact Hs3]. by eapply same_trans.
  - intros b s1 [-> Hs1]. by split.
Qed.

Lemma swp_BuildAndSign_waits v c s :
  cluster_waits c → mcm_view mcm v →
  swp (images_of v c) (λ o s', (o = Done (Ok false) ∨ ∃ err, o = Done (Err err)) ∧ s' = s) s.
Proof.
  intros Hw Hv. unfold BuildAndSign. destruct (Hw v Hv) as [[err ->]| ->]; cbn [lift_result prog_bind swp].
  - split; [|done]. right. by eexists.
  - rewrite map_size_empty, bool_decide_true by done. split; [by left|done].
Qed.

(** ** The work of a cluster *)

Definition set_work (b : ManifestWork) : ManifestWork :=
  mk_mw (set_owners [owner_ref (as_owner mcm) true] (set_labels (Some work_labels) (mw_meta b)))
    (spoke_work_spec mcm) (mw_Conditions b).

(** The mutation: of a work without owner, or of one of its own. *)
Lemma mutate_work v c b :
  mcm_view mcm v → om_Namespace (mcm_meta mcm) = "" → object_key (mw_meta b) = work_key c →
  om_OwnerReferences (mw_meta b) = [] ∨ om_OwnerReferences (mw_meta b) = [owner_ref (as_owner mcm) true] →
  fst (SetManifestWorkAsDesired (Some b) mcm) = Ok (set_work b) ∧
  mutate (k := KManifestWork) (λ mw : ManifestWork, fst (SetManifestWorkAsDesired (Some mw) v))
    (work_key c) b = Ok (set_work b).
Proof.
  intros Hv Hscope Hkey Ho.
  assert (fst (SetManifestWorkAsDesired (Some b) mcm) = Ok (set_work b)) as Hf.
  { cbn [SetManifestWorkAsDesired fst]. destruct Ho as [Ho|Ho].
    - rewrite SetControllerReference_fresh; [done|done|by left].
    - rewrite SetControllerReference_owned by done. destruct b as [[n g ns u l a r f d ge] sp cs].
      cbn in *. by rewrite Ho. }
  split; [done|]. unfold mutate. rewrite (SetManifestWorkAsDesired_view _ mcm) by done. rewrite Hf.
  by rewrite bool_decide_true.
Qed.

Lemma set_work_desired b : desired_work (set_work b).
Proof. done. Qed.
Lemma desired_set_work b : desired_work b → set_work b = b.
Proof.
  destruct b as [[n g ns u l a r f d ge] sp cs]. intros (Hl & Ho & Hsp). cbn in *.
  unfold set_work, set_owners, set_labels. cbn. by rewrite Hl, Ho, Hsp.
Qed.

(** What a run makes of the work of a cluster, if there is one. *)
Definition work_kept (b : option ManifestWork) (w : ManifestWork) : Prop :=
  ∀ b', b = Some b' → mw_Conditions w = mw_Conditions b' ∧ (desired_work b' → w = b').

Section send.
Context (c : ManagedCluster) (v : ManagedClusterModule) (s : S).
Hypothesis Hview : mcm_view mcm v.
Hypothesis Hscope : om_Namespace (mcm_meta mcm) = "".
Hypothesis Hready : cluster_ready c.

Abbreviation new := (mk_mw (meta_named (mcm_Name mcm) (mc_Name c)) (mk_mwspec [] []) []).
Abbreviation send := (CreateOrPatch_tracked KManifestWork new
  (λ mw : ManifestWork, fst (SetManifestWorkAsDesired (Some mw) v))).

Definition sent (o : outcome (result (OperationResult * ManifestWork) * bool)) (s' : S) : Prop :=
  ∃ op w, o = Done (Ok (op, w), true) ∧ desired_work w ∧
    writes_works s s' (<[work_key c := w]> (view s KManifestWork)) ∧
    work_kept (view s KManifestWork !! work_key c) w.

Lemma swp_send_new : view s KManifestWork !! work_key c = None → mcm_Name mcm ≠ "" → swp send sent s.
Proof using Type*.
  intros Hnone Hname. unfold CreateOrPatch_tracked, Get. cbn [prog_bind call swp]. cbn [obj_meta].
  change (object_key (mw_meta new)) with (work_key c).
  assert (same s (srv (RGet KManifestWork (work_key c)) s).2) as Hs1 by by apply same_read.
  destruct (api_get_None KManifestWork (work_key c) s Hnone) as (err & -> & Herr).
  generalize dependent ((srv (RGet KManifestWork (work_key c)) s).2). intros s1 Hs1.
  unfold CreateOrPatch_with. cbn [obj_meta mutation_runs]. rewrite Herr. cbn [negb].
  change (object_key (mw_meta new)) with (work_key c).
  destruct (mutate_work v c new Hview Hscope eq_refl (or_introl eq_refl)) as [Hf ->].
  cbn [lift_result prog_bind]. unfold Create. cbn [prog_bind call swp].
  destruct (api_create KManifestWork (set_work new) s1) as (w & -> & _ & [Hv Hoth] & Hm & Hn & Hsp).
  - by eapply (cr_valid c Hready).
  - rewrite Hs1. exact Hnone.
  - done.
  - cbn [swp prog_bind obj_meta stored] in *.
    assert (object_key (mw_meta w) = work_key c) as Hk.
    { unfold named in Hn. rewrite bool_decide_false in Hn by done. unfold object_key, work_key.
      rewrite Hn, Hm. done. }
    rewrite Hk, Hs1 in Hv. exists OpCreated, w. split_and!; [done| | |].
    + split_and!; [by rewrite Hm..|done].
    + split; [done|]. intros k Hne. by rewrite Hoth, Hs1.
    + cbn [obj] in *. rewrite Hnone. by intros b.
Qed.

Lemma swp_send_existing b :
  view s KManifestWork !! work_key c = Some b →
  om_OwnerReferences (mw_meta b) = [owner_ref (as_owner mcm) true] → swp send sent s.
Proof using Type*.
  intros Hb Ho. unfold CreateOrPatch_tracked, Get. cbn [prog_bind call swp]. cbn [obj_meta].
  change (object_key (mw_meta new)) with (work_key c).
  assert (same s (srv (RGet KManifestWork (work_key c)) s).2) as Hs1 by by apply same_read.
  pose proof (api_get_Some KManifestWork (work_key c) s b Hb) as Hget. rewrite Hget. clear Hget.
  generalize dependent ((srv (RGet KManifestWork (work_key c)) s).2). intros s1 Hs1.
  destruct (api_keys s KManifestWork _ _ Hb) as [Hkey _]. cbn [obj_meta] in Hkey.
  unfold CreateOrPatch_with. cbn [obj_meta mutation_runs].
  change (object_key (mw_meta new)) with (work_key c).
  destruct (mutate_work v c b Hview Hscope Hkey (or_intror Ho)) as [Hf ->]. cbn [lift_result prog_bind].
  assert (status_eqb (k := KManifestWork) b (set_work b) = true) as Hst by by apply bool_decide_true.
  rewrite Hst. destruct (body_eqb (k := KManifestWork) b (set_work b)) eqn:Hbody.
  - apply andb_prop in Hbody as [Hm%bool_decide_eq_true Hsp%bool_decide_eq_true].
    assert (set_work b = b) as Heq by (destruct b; unfold set_work in *; cbn in *; by rewrite <-Hm, <-Hsp).
    cbn [swp prog_bind]. exists OpNone, b. rewrite Heq. split_and!; [done| | |].
    + rewrite <-Heq. apply set_work_desired.
    + split; [|intros k _; apply Hs1]. rewrite insert_id by done. apply Hs1.
    + cbn [obj] in *. rewrite Hb. by intros b' [= <-].
  - unfold Patch. cbn [prog_bind call swp].
    destruct (api_patch KManifestWork (set_work b) b s1) as (w & -> & [Hv Hoth] & Hm & _ & _ & Hsp & Hc).
    { rewrite Hs1. cbn [obj_meta]. by rewrite <-Hkey in Hb. }
    { split; [by eapply (cr_valid c Hready)|]. by do 2 eexists. }
    cbn [swp prog_bind obj_meta stored patch_effect] in *. exists OpUpdated, w.
    change (object_key (mw_meta (set_work b))) with (object_key (mw_meta b)) in Hv.
    rewrite Hkey in Hv. split_and!; [done| | |].
    + split_and!; [by rewrite Hm..|done].
    + split; [by rewrite Hv, Hs1|]. intros k Hne. by rewrite Hoth, Hs1.
    + cbn [obj] in *. rewrite Hb. intros b' [= <-]. split; [done|]. intros Hd. exfalso.
      rewrite (desired_set_work b Hd) in Hbody. cbn in Hbody. by rewrite !bool_decide_true in Hbody.
Qed.
End send.

(** ** The loop over the clusters *)

Abbreviation step_of := (handle_cluster (BM := BM) (SM := SM) namespace).
Abbreviation steps_of := (handle_clusters (BM := BM) (SM := SM) namespace).

(** The works [v] that the loop over [done] makes of [v0]. *)
Record loop_inv (done : list ManagedCluster) (v0 v : works_map) : Prop := {
  li_sent c : c ∈ done → cluster_ready c → ∃ w, v !! work_key c = Some w ∧ desired_work w;
  li_exists k b : v0 !! k = Some b → ∃ w, v !! k = Some w ∧
    mw_Conditions w = mw_Conditions b ∧ (desired_work b → w = b) ∧
    (w = b ∨ ∃ c, c ∈ done ∧ cluster_ready c ∧ k = work_key c);
  li_kept k : (∀ c, c ∈ done → cluster_ready c → k ≠ work_key c) → v !! k = v0 !! k }.

Definition owned_works (cs : list ManagedCluster) (v : works_map) : Prop :=
  ∀ c w, c ∈ cs → cluster_ready c → v !! work_key c = Some w →
    om_OwnerReferences (mw_meta w) = [owner_ref (as_owner mcm) true].

Lemma loop_inv_start v : loop_inv [] v v.
Proof. split; [by intros c []%not_elem_of_nil|intros k b Hb; exists b; by auto|done]. Qed.

Lemma loop_inv_skip done c v0 v : cluster_waits c → loop_inv done v0 v → loop_inv (done ++ [c]) v0 v.
Proof.
  intros Hw [H1 H2 H3]. split.
  - intros c' [Hc'| ->%list_elem_of_singleton]%elem_of_app Hr; [by apply H1|].
    by apply ready_not_waits in Hr.
  - intros k b Hb. destruct (H2 k b Hb) as (w & Hv & Hc & Hid & Hor). exists w. split_and!; [done..|].
    destruct Hor as [?|(c' & Hc' & ?)]; [by left|right]. exists c'. split; [|done]. apply elem_of_app. by left.
  - intros k Hk. apply H3. intros c' Hc'. apply Hk, elem_of_app. by left.
Qed.

Lemma loop_inv_send done c v0 v w :
  cluster_ready c → desired_work w → work_kept (v !! work_key c) w →
  loop_inv done v0 v → loop_inv (done ++ [c]) v0 (<[work_key c := w]> v).
Proof.
  intros Hr Hd Hk [H1 H2 H3]. split.
  - intros c' Hc' Hr'. rewrite lookup_insert. case_decide; [by exists w|].
    apply H1; [|done]. apply elem_of_app in Hc' as [?| ->%list_elem_of_singleton]; done.
  - intros k b Hb. destruct (H2 k b Hb) as (w' & Hw' & Hc & Hid & Hor).
    rewrite lookup_insert. case_decide as Hkey.
    2:{ exists w'. split_and!; [done..|]. destruct Hor as [?|(c' & Hc' & ?)]; [by left|right].
        exists c'. split; [|done]. apply elem_of_app. by left. }
    subst k. destruct (Hk w' Hw') as [Hc' Hid'].
    exists w. split_and!; [done|by rewrite Hc'| |].
    + intros Hdb. rewrite <-(Hid Hdb). apply Hid'. by rewrite (Hid Hdb).
    + right. exists c. split_and!; [|done..]. apply elem_of_app. right. by left.
  - intros k Hne. rewrite lookup_insert_ne; [|apply not_eq_sym, Hne; [apply elem_of_app; right; by left|done]].
    apply H3. intros c' Hc'. apply Hne, elem_of_app. by left.
Qed.

Lemma owned_works_insert cs v k w :
  desired_work w → owned_works cs v → owned_works cs (<[k := w]> v).
Proof.
  intros (_ & Ho & _) H c w' Hc Hr. rewrite lookup_insert_Some. intros [[_ <-]|[_ ?]]; [done|by eapply H].
Qed.

Section loop.
Context (clusters : list ManagedCluster).
Hypothesis Hscope : om_Namespace (mcm_meta mcm) = "".
Hypothesis Hname : mcm_Name mcm ≠ "".
Hypothesis Hclusters : ∀ c, c ∈ clusters → cluster_ready c ∨ cluster_waits c.

Lemma swp_handle_cluster done c v v0 s :
  c ∈ clusters → mcm_view mcm v → loop_inv done v0 (view s KManifestWork) →
  owned_works clusters (view s KManifestWork) →
  swp (step_of c v) (λ o s', ∃ v', o = Done v' ∧ mcm_view mcm v' ∧
    loop_inv (done ++ [c]) v0 (view s' KManifestWork) ∧
    owned_works clusters (view s' KManifestWork) ∧ same_but KManifestWork s s') s.
Proof using Type*.
  intros Hc Hv Hinv Hown. unfold handle_cluster.
  assert (mcm_Name v = mcm_Name mcm) as ->.
  { unfold mcm_Name. by destruct (mcm_view_owner _ _ Hv) as [_ ->]. }
  apply swp_bind. destruct (Hclusters c Hc) as [Hr|Hw].
  - eapply swp_mono; [by apply swp_BuildAndSign_ready|]. intros o s1 [-> Hs1]. cbn beta iota.
    rewrite <-Hs1 in Hinv, Hown. apply swp_bind. eapply (swp_mono _ _ (sent c s1)).
    + destruct (view s1 KManifestWork !! work_key c) as [b|] eqn:Hb.
      * eapply swp_send_existing; [done..|exact Hb|]. by eapply Hown.
      * by apply swp_send_new.
    + intros o s2 (op & w & -> & Hd & [Hv2 Hoth] & Hkept). cbn [swp snd]. eexists.
      split_and!; [done|by apply mcm_view_strip| | |].
      * rewrite Hv2. by apply loop_inv_send.
      * rewrite Hv2. by apply owned_works_insert.
      * intros k Hk. by rewrite Hoth, Hs1.
  - eapply swp_mono; [by apply swp_BuildAndSign_waits|]. intros o s1 [Ho ->].
    assert (∃ v', Done v = Done v' ∧ mcm_view mcm v' ∧ loop_inv (done ++ [c]) v0 (view s KManifestWork) ∧
      owned_works clusters (view s KManifestWork) ∧ same_but KManifestWork s s) as Hres.
    { eexists. split_and!; [done..|by apply loop_inv_skip|done|by intros k _]. }
    destruct Ho as [->|[err ->]]; exact Hres.
Qed.

Lemma swp_handle_clusters cs done v v0 s :
  clusters = done ++ cs → mcm_view mcm v → loop_inv done v0 (view s KManifestWork) →
  owned_works clusters (view s KManifestWork) →
  swp (steps_of cs v) (λ o s', ∃ v', o = Done v' ∧ mcm_view mcm v' ∧
    loop_inv clusters v0 (view s' KManifestWork) ∧ same_but KManifestWork s s') s.
Proof using Type*.
  revert done v s. induction cs as [|c cs IH]; intros done v s Hcs Hv Hinv Hown.
  - cbn [handle_clusters swp]. exists v. rewrite app_nil_r in Hcs. subst done. split_and!; [done..|by intros k _].
  - cbn [handle_clusters]. apply swp_bind. eapply swp_mono; [apply (swp_handle_cluster done); try done|].
    { rewrite Hcs. set_solver. }
    intros o s1 (v' & -> & Hv' & Hinv' & Hown' & Hb). cbn beta iota. eapply swp_mono.
    { apply (IH (done ++ [c])); [by rewrite <-app_assoc|done..]. }
    intros o s2 (v'' & -> & Hv'' & Hinv'' & Hb'). exists v''. split_and!; [done..|].
    intros k Hk. by rewrite Hb', Hb.
Qed.
End loop.

(** ** The works of the clusters that are not selected *)

Lemma swp_delete_works (names : gset string) works s :
  NoDup (object_key ∘ mw_meta <$> works) →
  (∀ w, w ∈ works → view s KManifestWork !! object_key (mw_meta w) = Some w ∧
     (om_Namespace (mw_meta w) ∉ names → om_Finalizers (mw_meta w) = [])) →
  swp (delete_works names works) (λ o s', o = Done (Ok tt) ∧ same_but KManifestWork s s' ∧
    (∀ w, w ∈ works → om_Namespace (mw_meta w) ∉ names →
       view s' KManifestWork !! object_key (mw_meta w) = None) ∧
    ∀ k, (∀ w, w ∈ works → om_Namespace (mw_meta w) ∉ names → object_key (mw_meta w) ≠ k) →
       view s' KManifestWork !! k = view s KManifestWork !! k) s.
Proof using AS.
  revert s. induction works as [|w works IH]; intros s Hnd Hw; cbn [delete_works].
  { cbn [swp]. split_and!; [done|by intros k _|by intros w []%not_elem_of_nil|done]. }
  rewrite fmap_cons in Hnd. apply NoDup_cons in Hnd as [Hni Hnd]. case_bool_decide as Hns.
  - eapply swp_mono; [apply IH; [done|intros; apply Hw; by right]|].
    intros o s' (-> & Hb & Hgone & Hk). split_and!; [done|done| |].
    + intros w' [->|Hw']%elem_of_cons Hn; [done|by apply Hgone].
    + intros k Hne. apply Hk. intros w' Hw' Hn. apply Hne; [by right|done].
  - destruct (Hw w) as [Hw1 Hf]; [by left|]. unfold Delete. cbn [prog_bind call swp].
    destruct (api_delete KManifestWork w false s Hw1) as (-> & Hb1 & Hk1 & Hgone1). cbn [prog_bind].
    specialize (Hgone1 (Hf Hns)). cbn [obj_meta] in *.
    generalize dependent ((srv (RDelete KManifestWork w false) s).2). intros s1 Hb1 Hk1 Hgone1.
    assert (∀ w', w' ∈ works → object_key (mw_meta w') ≠ object_key (mw_meta w)) as Hne.
    { intros w' Hw' Heq. apply Hni. rewrite <-(Heq : (object_key ∘ mw_meta) w' = (object_key ∘ mw_meta) w). by apply list_elem_of_fmap_2. }
    eapply swp_mono; [apply IH; [done|]|].
    { intros w' Hw'. destruct (Hw w') as [H1 H2]; [by right|]. split; [|done].
      rewrite Hk1; [done|by apply Hne]. }
    intros o s' (-> & Hb & Hgone & Hk). split_and!; [done| | |].
    + intros k Hne'. by rewrite Hb, Hb1.
    + intros w' [->|Hw']%elem_of_cons Hn; [|by apply Hgone].
      rewrite Hk; [done|]. intros w' Hw' _. by apply Hne.
    + intros k Hne'. rewrite Hk.
      * apply Hk1. apply not_eq_sym, Hne'; [by left|done].
      * intros w' Hw' Hn. apply Hne'; [by right|done].
Qed.

#[local] Instance labelled_dec w : Decision (labelled w).
Proof. unfold labelled. apply _. Defined.

(** The works the hub asks for. *)
Lemma swp_getOwnedManifestWorks v s :
  mcm_view mcm v →
  swp (getOwnedManifestWorks v) (λ o s', same s s' ∧ ∃ works, o = Done (Ok works) ∧
    NoDup (object_key ∘ mw_meta <$> works) ∧
    ∀ w, w ∈ works ↔ view s KManifestWork !! object_key (mw_meta w) = Some w ∧ labelled w) s.
Proof using AS.
  intros Hv. unfold getOwnedManifestWorks, List_, mcm_Name at 1.
  destruct (mcm_view_owner _ _ Hv) as [_ ->]. cbn [prog_bind call swp].
  set (opts := mk_listopts _ _).
  assert (same s (srv (RList KManifestWork opts) s).2) as Hs1 by by apply same_read.
  destruct (api_list KManifestWork opts s) as (works & -> & Hnd & Hl). split; [done|].
  exists works. split_and!; [done|done|]. intros w. etrans; [apply Hl|].
  assert (selected KManifestWork opts w = true ↔ labelled w) as Hsel; [|cbn [obj obj_meta]; by rewrite Hsel].
  unfold selected. cbn [opts lo_Namespace lo_Labels obj_meta andb]. rewrite labels_match_spec. split.
  - intros H. apply H, lookup_singleton_eq.
  - by intros H k x [<- <-]%lookup_singleton_Some.
Qed.

(** A work that the hub keeps. *)
Definition kept_work (names : gset string) (p : NamespacedName * ManifestWork) : Prop :=
  labelled p.2 → nn_Namespace p.1 ∈ names.

Lemma swp_mw_GarbageCollect clusters v s :
  let names : gset string := list_to_set (List.map mc_Name clusters) in
  mcm_view mcm v →
  (∀ k w, view s KManifestWork !! k = Some w → ¬ kept_work names (k, w) → om_Finalizers (mw_meta w) = []) →
  swp (mw_GarbageCollect clusters v) (λ o s', o = Done (Ok tt) ∧ same_but KManifestWork s s' ∧
    (view s' KManifestWork : works_map) = filter (kept_work names) (view s KManifestWork : works_map)) s.
Proof using AS.
  intros names Hv Hf. unfold mw_GarbageCollect. fold names. apply swp_bind.
  eapply swp_mono; [by apply swp_getOwnedManifestWorks|].
  intros o s1 [Hs1 (works & -> & Hnd & Hw)]. cbn beta iota.
  assert (∀ w, w ∈ works → om_Namespace (mw_meta w) ∉ names →
    ¬ kept_work names (object_key (mw_meta w), w)) as Hdel.
  { intros w [_ Hl]%Hw Hns Hk. by apply Hns, Hk. }
  eapply swp_mono; [apply (swp_delete_works names works); [done|]|].
  { intros w Hin. pose proof (Hdel w Hin) as Hd. apply Hw in Hin as [Hk Hl]. rewrite Hs1. split; [done|].
    intros Hns. eapply Hf; [exact Hk|by apply Hd]. }
  intros o s2 (-> & Hb & Hgone & Hkept). split_and!; [done|intros k Hk; by rewrite Hb, Hs1|].
  apply map_eq. intros k. rewrite map_lookup_filter.
  change (view s KManifestWork : works_map) with (view s KManifestWork).
  destruct ((view s KManifestWork : works_map) !! k) as [b|] eqn:Hk; cbn [mbind option_bind].
  - change (view s KManifestWork !! k = Some b) in Hk. pose proof (api_keys s KManifestWork k b Hk) as [Hkey _]. cbn [obj_meta] in Hkey.
    case_guard as Hc; cbn.
    + rewrite Hkept, Hs1; [done|]. intros w Hin Hns Heq. apply (Hdel w Hin Hns).
      apply Hw in Hin as [Hw1 _]. rewrite Heq in Hw1 |- *.
      assert (Some w = Some b) as [= ->] by (rewrite <-Hw1; exact Hk). exact Hc.
    + assert (labelled b ∧ nn_Namespace k ∉ names) as [Hl Hns].
      { split; [destruct (decide (labelled b)) as [?|Hn]; [done|exfalso; apply Hc; intros Hl; by destruct Hn]|].
        intros Hin. apply Hc. by intros _. }
      rewrite <-Hkey. apply Hgone; [apply Hw; by rewrite Hkey|]. by rewrite <-Hkey in Hns.
  - rewrite Hkept, Hs1; [done|]. intros w [Hw1 _]%Hw _ Heq. rewrite Heq in Hw1.
    assert (Some w = None) as [=] by (rewrite <-Hw1; exact Hk).
Qed.

(** ** A run *)

Lemma hub_converged_run s clusters v0 v1 :
  (∀ c, c ∈ clusters ↔ is_selected s c) → loop_inv clusters v0 v1 →
  hub_converged s v0 (filter (kept_work (list_to_set (List.map mc_Name clusters))) v1).
Proof.
  intros Hsel [H1 H2 H3]. set (names := list_to_set _).
  assert (∀ ns, ns ∈ names ↔ ∃ c, is_selected s c ∧ mc_Name c = ns) as Hnames.
  { intros ns. unfold names. rewrite elem_of_list_to_set, list_elem_of_In, in_map_iff.
    split; intros (c & Hc & Hc'); exists c; [|rewrite <-list_elem_of_In, Hsel; done].
    rewrite <-list_elem_of_In, Hsel in Hc'. done. }
  split.
  - intros c Hc Hr. apply Hsel in Hc as Hc'. destruct (H1 c Hc' Hr) as (w & Hw & Hd). exists w.
    split; [|done]. apply map_lookup_filter_Some. split; [done|]. intros _. apply Hnames. by exists c.
  - intros k w [Hw Hk]%map_lookup_filter_Some Hl. by apply Hnames, Hk.
  - intros k b Hb Hl. destruct (H2 k b Hb) as (w & Hw & Hcond & Hid & Hor). exists w.
    assert (w = b ∨ ∃ c, is_selected s c ∧ cluster_ready c ∧ k = work_key c) as Hor'.
    { destruct Hor as [?|(c & Hc%Hsel & ?)]; [by left|right; by exists c]. }
    split_and!; [|done..]. apply map_lookup_filter_Some. split; [done|]. intros Hlw. apply Hnames. cbn.
    destruct Hor' as [->|(c & Hc & _ & ->)]; [by apply Hl|by exists c].
  - intros k Hne Hl. assert (v1 !! k = v0 !! k) as Heq.
    { apply H3. intros c Hc%Hsel. by apply Hne. }
    rewrite map_lookup_filter, Heq. destruct (v0 !! k) as [w|]; [|done]. cbn.
    case_guard as Hc; [done|]. destruct Hc. intros Hlw. apply Hnames. by apply (Hl w).
Qed.

Abbreviation run_of := (hub_Reconcile (BM := BM) (SM := SM) namespace).

Lemma swp_hub_run key s :
  hub_ready key s →
  swp (run_of key) (λ o s', o = Done (Ok no_requeue) ∧
    hub_converged s (view s KManifestWork) (view s' KManifestWork) ∧
    (∃ mcm', hub_status_of (view s' KManifestWork) mcm' ∧
       view s' KManagedClusterModule = <[key := mcm']> (view s KManagedClusterModule)) ∧
    ∀ k, k ≠ KManifestWork → k ≠ KManagedClusterModule → view s' k = view s k) s.
Proof using AS.
  intros [Hmcm Hscope Hcl Hown Hfin]. pose proof (api_keys s KManagedClusterModule _ _ Hmcm) as [Hkey Hname].
  cbn [obj_meta] in Hkey. rewrite <-Hkey in Hname.
  unfold hub_Reconcile, RequestedManagedClusterModule, Get. apply swp_bind. cbn [prog_bind call swp].
  assert (same s (srv (RGet KManagedClusterModule key) s).2) as Hs1 by by apply same_read.
  pose proof (api_get_Some KManagedClusterModule key s mcm Hmcm) as Hget. rewrite Hget. clear Hget.
  cbn [swp prog_bind]. generalize dependent ((srv (RGet KManagedClusterModule key) s).2). intros s1 Hs1.
  unfold SelectedManagedClusters, List_. cbn [prog_bind call swp].
  assert (same s1 (srv (RList KManagedCluster (clusters_opts mcm)) s1).2) as Hs2 by by apply same_read.
  destruct (api_list KManagedCluster (clusters_opts mcm) s1) as (clusters & -> & _ & Hl).
  generalize dependent ((srv (RList KManagedCluster (clusters_opts mcm)) s1).2). intros s2 Hs2.
  assert (same s s2) as Hss by by eapply same_trans. clear Hs2.
  assert (∀ c, c ∈ clusters ↔ is_selected s c) as Hsel.
  { intros c. etrans; [apply Hl|]. by rewrite Hs1. }
  apply swp_bind. eapply swp_mono.
  { apply (swp_handle_clusters clusters Hscope Hname) with (done := []) (v0 := view s KManifestWork).
    - intros c Hc%Hsel. by apply Hcl.
    - done.
    - by left.
    - rewrite Hss. apply loop_inv_start.
    - intros c w Hc%Hsel Hr. rewrite Hss. by apply Hown. }
  intros o s3 (v & -> & Hv & Hinv & Hb3). cbn [swp]. apply swp_bind. eapply swp_mono.
  { apply (swp_mw_GarbageCollect clusters v s3 Hv). intros k w Hw Hk.
    assert (labelled w ∧ ∀ c, is_selected s c → mc_Name c ≠ nn_Namespace k) as [Hlw Hns].
    { split; [destruct (decide (labelled w)) as [?|Hn]; [done|exfalso; apply Hk; intros Hlw; by destruct Hn]|].
      intros c Hc%Hsel Heq. apply Hk. intros _. rewrite elem_of_list_to_set, list_elem_of_In.
      apply in_map_iff. exists c. by rewrite <-list_elem_of_In. }
    eapply Hfin; [|exact Hlw|exact Hns]. rewrite <-(li_kept _ _ _ Hinv); [exact Hw|].
    intros c Hc%Hsel _ ->. by apply (Hns c). }
  intros o s4 (-> & Hb4 & Hv4). cbn [swp GarbageCollectBuilds bm_GarbageCollect buildconfig_manager build_GarbageCollect prog_bind].
  apply swp_bind. eapply swp_mono; [by apply swp_getOwnedManifestWorks|].
  intros o s5 [Hs5 (works & -> & Hnd & Hworks)]. cbn beta iota.
  unfold ManagedClusterModuleUpdateStatus, StatusPatch. cbn [prog_bind call swp].
  assert (mcm_meta (mcm_status v works) = mcm_meta mcm ∧ mcm_Status v = mcm_Status mcm) as [Hmeta Hst].
  { split; [|by destruct Hv as [-> | ->]]. apply (mcm_view_owner _ _ Hv). }
  destruct (api_mcm_status (mcm_status v works) v mcm s5) as (-> & Hv6 & Hb6).
  { rewrite Hmeta. cbn [obj_meta] in *. by rewrite Hkey, Hs5, Hb4, Hb3, Hss. }
  { done. }
  cbn [swp]. split_and!; [done| | |].
  - rewrite Hb6, Hs5 by done. cbn [obj] in *. rewrite Hv4. by apply hub_converged_run.
  - exists (mcm_status mcm works). split.
    + exists works. rewrite Hb6 by done. split_and!; [done| |done]. intros w. rewrite Hs5. apply Hworks.
    + rewrite Hv6, Hmeta, Hkey. by rewrite Hs5, Hb4, Hb3, Hss.
  - intros k H1 H2. by rewrite Hb6, Hs5, Hb4, Hb3, Hss.
Qed.
End hub_convergence.

(** ** Run after run *)

(** A ManagedClusterModule that differs in its status asks for the same. *)
Definition with_status (st : ManagedClusterModuleStatus) (mcm : ManagedClusterModule) : ManagedClusterModule :=
  mk_mcm (mcm_meta mcm) (mcm_Spec mcm) st.

Lemma mcm_view_status namespace st mcm v :
  mcm_view (with_status st mcm) v →
  ∃ v0, mcm_view mcm v0 ∧ hub_module namespace v = hub_module namespace v0.
Proof. intros [-> | ->]; [exists mcm|exists (strip_mappings mcm)]; (split; [by constructor|done]). Qed.

Section repeated.
Context {S : Type} {srv : kserver S} {view : S → ∀ k, gmap NamespacedName (obj k)}.
Context {default_spec : DaemonSetSpec → DaemonSetSpec} {valid : ∀ k, obj k → Prop}.
Context {AS : ApiServer srv view default_spec valid}.
Context {D : ManifestDecoder} {Hs : Hasher} {R : Regexp} {E : Envsubst} {MO : MapOrder}.
Variables (goarch namespace : string).

Abbreviation cluster_ready := (cluster_ready (srv := srv) (valid := valid) goarch namespace).
Abbreviation hub_ready := (hub_ready (srv := srv) (view := view) (valid := valid) goarch namespace).
Abbreviation hub_converged := (hub_converged (srv := srv) (view := view) (valid := valid) goarch namespace).
Abbreviation run :=
  (hub_Reconcile (BM := buildconfig_manager goarch) (SM := signjob_manager goarch) namespace).
Abbreviation run_once key := (run_state srv (run key)).

Lemma cluster_ready_status st mcm c : cluster_ready mcm c → cluster_ready (with_status st mcm) c.
Proof.
  intros [H1 H2]. split; [|done]. intros v (v0 & Hv0 & ->)%(mcm_view_status namespace). by apply H1.
Qed.
Lemma cluster_ready_status_iff st mcm c : cluster_ready (with_status st mcm) c ↔ cluster_ready mcm c.
Proof.
  split; [|apply cluster_ready_status]. intros H%(cluster_ready_status (mcm_Status mcm)). by destruct mcm.
Qed.
Lemma cluster_waits_status st mcm c :
  cluster_waits namespace mcm c → cluster_waits namespace (with_status st mcm) c.
Proof. intros H v (v0 & Hv0 & ->)%(mcm_view_status namespace). by apply H. Qed.

Lemma hub_converged_status st mcm s v v' :
  hub_converged (with_status st mcm) s v v' → hub_converged mcm s v v'.
Proof.
  intros [H1 H2 H3 H4]. split.
  - intros c Hc Hr%(cluster_ready_status st). by apply (H1 c).
  - exact H2.
  - intros k b Hb Hl. destruct (H3 k b Hb Hl) as (w & Hw & Hc & Hid & Hor). exists w. split_and!; [done..|].
    destruct Hor as [?|(c & Hc' & Hr & ?)]; [by left|right]. exists c.
    by apply cluster_ready_status_iff in Hr.
  - intros k Hk. apply H4. intros c Hc Hr. apply Hk; [done|by apply cluster_ready_status_iff in Hr].
Qed.

Lemma is_selected_view mcm s s' c :
  view s' KManagedCluster = view s KManagedCluster →
  is_selected (view := view) mcm s' c ↔ is_selected (view := view) mcm s c.
Proof. unfold is_selected. by intros ->. Qed.

(** A run leaves a state to work from. *)
Lemma hub_ready_again st mcm key s s' :
  hub_ready mcm key s → view s' KManagedClusterModule !! key = Some (with_status st mcm) →
  view s' KManagedCluster = view s KManagedCluster →
  hub_converged mcm s (view s KManifestWork) (view s' KManifestWork) → hub_ready (with_status st mcm) key s'.
Proof.
  intros [H1 H2 H3 H4 H5] Hm Hc Hconv. split.
  - done.
  - done.
  - intros c Hsel%(is_selected_view mcm s s' c Hc). destruct (H3 c Hsel) as [Hr|Hw].
    + left. by apply cluster_ready_status.
    + right. by apply cluster_waits_status.
  - intros c w Hsel%(is_selected_view mcm s s' c Hc) Hr%cluster_ready_status_iff Hw.
    destruct (hc_sent _ _ _ _ _ _ Hconv c Hsel Hr) as (w' & Hw' & _ & Ho & _).
    assert (Some w = Some w') as [= ->] by (rewrite <-Hw; exact Hw'). exact Ho.
  - intros k w Hw Hl Hns. destruct (hc_gone _ _ _ _ _ _ Hconv k w Hw Hl) as (c & Hsel & Heq).
    apply (is_selected_view mcm s s' c Hc) in Hsel. by apply Hns in Hsel.
Qed.

(** On a state that a run made, a run writes no work. *)
Lemma hub_converged_stable mcm s s' v0 v v' :
  view s' KManagedCluster = view s KManagedCluster →
  hub_converged mcm s v0 v → hub_converged mcm s' v v' → v' = v.
Proof.
  intros Hc [A1 A2 _ _] [B1 B2 B3 B4]. apply map_eq. intros k.
  destruct (v !! k) as [b|] eqn:Hk.
  - destruct (B3 k b Hk) as (w & Hw & _ & Hid & Hor).
    { intros Hl. destruct (A2 k b Hk Hl) as (c & Hsel & Heq). exists c.
      by apply (is_selected_view mcm s s' c Hc) in Hsel. }
    rewrite Hw. f_equal. destruct Hor as [?|(c & Hsel%(is_selected_view mcm s s' c Hc) & Hr & ->)]; [done|].
    apply Hid. destruct (A1 c Hsel Hr) as (w' & Hw' & Hd). congruence.
  - rewrite B4; [done| |intros w Hw; congruence]. intros c Hsel%(is_selected_view mcm s s' c Hc) Hr ->.
    destruct (A1 c Hsel Hr) as (w' & Hw' & _). congruence.
Qed.

Lemma hub_run st mcm key s :
  hub_ready (with_status st mcm) key s → let s' := run_once key s in
  run_out srv (run key) s = Done (Ok no_requeue) ∧
  hub_converged mcm s (view s KManifestWork) (view s' KManifestWork) ∧
  (∀ k, k ≠ KManifestWork → k ≠ KManagedClusterModule → view s' k = view s k) ∧
  ∃ st', view s' KManagedClusterModule !! key = Some (with_status st' mcm) ∧
    hub_status_of mcm (view s' KManifestWork) (with_status st' mcm) ∧
    hub_ready (with_status st' mcm) key s'.
Proof using AS.
  intros Hr. cbn zeta. pose proof (swp_hub_run goarch namespace _ key s Hr) as H.
  apply swp_run in H as (Hok & Hc & (mcm' & (works & Hnd & Hw & ->) & Hm) & Hb).
  split_and!; [done|by eapply hub_converged_status|done|].
  exists (mcm_Status (mcm_status mcm works)).
  assert (view (run_once key s) KManagedClusterModule !! key = Some (mcm_status mcm works)) as Hm'.
  { rewrite Hm. apply lookup_insert_eq. }
  split_and!; [exact Hm'| |].
  - exists works. split_and!; [done| |done]. exact Hw.
  - eapply (hub_ready_again _ (with_status st mcm)); [exact Hr|exact Hm'|by apply Hb|exact Hc].
Qed.

Lemma hub_runs mcm key s n :
  hub_ready mcm key s → let s' := Nat.iter (1 + n) (run_once key) s in
  hub_converged mcm s (view s KManifestWork) (view s' KManifestWork) ∧
  (∀ k, k ≠ KManifestWork → k ≠ KManagedClusterModule → view s' k = view s k) ∧
  ∃ st, view s' KManagedClusterModule !! key = Some (with_status st mcm) ∧
    hub_status_of mcm (view s' KManifestWork) (with_status st mcm) ∧ hub_ready (with_status st mcm) key s'.
Proof using AS.
  intros Hr. cbn zeta. induction n as [|n IH].
  - destruct (hub_run (mcm_Status mcm) mcm key s) as (_ & Hc & Hb & Hst); [by destruct mcm|]. done.
  - destruct IH as (Hc & Hb & st & Hm & _ & Hr').
    destruct (hub_run st mcm key _ Hr') as (_ & Hc' & Hb' & st' & Hm' & Hst & Hr'').
    change (Nat.iter (1 + Datatypes.S n) (run_once key) s) with (run_once key (Nat.iter (1 + n) (run_once key) s)).
    assert (view (run_once key (Nat.iter (1 + n) (run_once key) s)) KManifestWork =
            view (Nat.iter (1 + n) (run_once key) s) KManifestWork) as Hv.
    { eapply hub_converged_stable; [|exact Hc|exact Hc']. by apply Hb. }
    split_and!.
    + by rewrite Hv.
    + intros k H1 H2. by rewrite Hb', Hb.
    + by exists st'.
Qed.

(** C3: the hub converges.  Take an API server that keeps its laws, in a state
    with a ManagedClusterModule and selected clusters each of which either has
    every image of its kernels there, or has no kernel to send the Module for;
    the works of the former are the ManagedClusterModule's own.  Each of any
    number of runs of the controller then succeeds.  After every run - after
    the first already - each cluster with its images has a ManifestWork with
    the label, the owner and the Module without build and sign settings; no
    cluster that is not selected has one of this ManagedClusterModule; a work
    that stays keeps the conditions its spoke reported; the works of the
    clusters that wait, those of others, and all other kinds of objects are as
    they were; and the status counts the works there are.  The second run and
    those after it leave every work as it is. *)
Theorem hub_Reconcile_converges mcm key s n :
  hub_ready mcm key s →
  let before := Nat.iter n (run_once key) s in
  let after := run_once key before in
  run_out srv (run key) before = Done (Ok no_requeue) ∧
  hub_converged mcm s (view s KManifestWork) (view after KManifestWork) ∧
  (∀ k, k ≠ KManifestWork → k ≠ KManagedClusterModule → view after k = view s k) ∧
  (∃ mcm', view after KManagedClusterModule !! key = Some mcm' ∧
     hub_status_of mcm (view after KManifestWork) mcm') ∧
  (0 < n → view after KManifestWork = view before KManifestWork).
Proof using AS.
  intros Hr. cbn zeta. destruct (hub_runs mcm key s n Hr) as (Hc & Hb & st & Hm & Hst & _).
  split_and!; [|done..|by exists (with_status st mcm)|].
  - destruct n as [|n].
    + by apply (hub_run (mcm_Status mcm) mcm key s); destruct mcm.
    + destruct (hub_runs mcm key s n Hr) as (_ & _ & st' & _ & _ & Hr').
      by apply (hub_run st' mcm key _ Hr').
  - intros Hn. destruct n as [|n]; [lia|].
    destruct (hub_runs mcm key s n Hr) as (Hc1 & Hb1 & st' & _ & _ & Hr').
    destruct (hub_run st' mcm key _ Hr') as (_ & Hc2 & _).
    eapply hub_converged_stable; [|exact Hc1|exact Hc2]. by apply Hb1.
Qed.
End repeated.

(** ** An example

    Three clusters: one with its image built, one that publishes no kernel,
    and one that is not selected and still has a work. *)

Definition ex_selected (c : ManagedCluster) : ManagedCluster :=
  mk_mc (set_labels (Some {[ "gpu" := "true" ]}) (mc_meta c)) (mc_ClusterClaims c).
Definition ex_sel_mcm : ManagedClusterModule :=
  mk_mcm (mcm_meta ex_mcm)
    (mk_mcmspec (mcms_ModuleSpec (mcm_Spec ex_mcm)) (mcms_SpokeNamespace (mcm_Spec ex_mcm))
       {[ "gpu" := "true" ]}) (mcm_Status ex_mcm).
Definition ex_built : ManagedCluster := ex_selected (ex_managed "cluster-1" "5.14.0-70.el9").
Definition ex_silent : ManagedCluster := ex_selected (mk_mc (meta_named "cluster-2" "") []).
Definition ex_left : ManagedCluster := ex_managed "cluster-3" "5.14.0-70.el9".
Definition ex_old_work : ManifestWork :=
  mk_mw (set_labels (Some {[ ManagedClusterModuleNameLabel := "nvidia" ]}) (meta_named "nvidia" "cluster-3"))
    (mk_mwspec [] []) [].
Definition ex_hub_key : NamespacedName := NN "" "nvidia".
Definition ex_hub_state : state := λ k,
  match k with
  | KManagedClusterModule => {[ ex_hub_key := ex_sel_mcm ]}
  | KManagedCluster => list_to_map ((λ c, (object_key (mc_meta c), c)) <$> [ex_built; ex_silent; ex_left])
  | KManifestWork => {[ object_key (mw_meta ex_old_work) := ex_old_work ]}
  | _ => ∅
  end.
Definition ex_hub_memory : kserver state := memory_server (λ image, bool_decide (image = "quay.io/org/driver:el9")).

#[local] Existing Instances ex_decoder ex_hasher map_order_std regexp_substring envsubst_id.

Lemma ex_is_selected s c :
  view s KManagedCluster = view ex_hub_state KManagedCluster →
  is_selected (view := view) ex_sel_mcm s c → c = ex_built ∨ c = ex_silent.
Proof.
  intros Hv [Hc Hs]. rewrite Hv in Hc.
  assert (view ex_hub_state KManagedCluster =
    list_to_map ((λ c, (object_key (mc_meta c), c)) <$> [ex_built; ex_silent; ex_left])) as Hex.
  { apply view_id; [reflexivity|]. cbn [list_to_map foldr fmap list_fmap fst snd].
    repeat (apply map_Forall_insert_2; [vm_compute; reflexivity|]). apply map_Forall_empty. }
  rewrite Hex in Hc. apply elem_of_list_to_map_2 in Hc. cbn [fmap list_fmap] in Hc.
  apply (list_elem_of_fmap_2 snd) in Hc.
  assert (c ∈ [ex_built; ex_silent; ex_left]) as Hin by exact Hc. clear Hc Hex Hv.
  apply elem_of_cons in Hin as [Hin|Hin]; [left; exact Hin|].
  apply elem_of_cons in Hin as [Hin|Hin]; [right; exact Hin|].
  apply list_elem_of_singleton in Hin. rewrite Hin in Hs.
  vm_compute in Hs. discriminate Hs.
Qed.

Definition ex_hub_mld (v : ManagedClusterModule) : ModuleLoaderData :=
  match GetModuleLoaderDataForKernel (hub_module "kmm-hub" v) "5.14.0-70.el9" with
  | Ok mld => mld | _ => Ex.mld
  end.

Lemma ex_built_ready :
  cluster_ready (srv := ex_hub_memory) (valid := valid) "amd64" "kmm-hub" ex_sel_mcm ex_built.
Proof.
  split; [|intros b w _; by right; right].
  intros v Hv. exists {[ "5.14.0-70.el9" := ex_hub_mld v ]}. split; [|split].
  - destruct Hv as [-> | ->]; vm_compute; reflexivity.
  - apply map_non_empty_singleton.
  - intros k mld [_ <-]%lookup_singleton_Some s. destruct Hv as [-> | ->]; split; vm_compute; reflexivity.
Qed.

Lemma ex_hub_ready :
  hub_ready (srv := ex_hub_memory) (view := view) (valid := valid) "amd64" "kmm-hub" ex_sel_mcm ex_hub_key
    ex_hub_state.
Proof.
  assert (view ex_hub_state KManifestWork = {[ object_key (mw_meta ex_old_work) := ex_old_work ]}) as Hw.
  { apply view_id; [reflexivity|]. apply map_Forall_singleton. vm_compute. reflexivity. }
  split.
  - vm_compute. reflexivity.
  - reflexivity.
  - intros c [-> | ->]%ex_is_selected; [left; apply ex_built_ready|right|reflexivity].
    intros v _. left. by eexists.
  - intros c w [-> | ->]%ex_is_selected _; [..|reflexivity]; rewrite Hw; intros [Hk _]%lookup_singleton_Some;
      discriminate Hk.
  - intros k w. rewrite Hw. by intros [_ <-]%lookup_singleton_Some.
Qed.

Lemma hub_Reconcile_converges_witness :
  let run := run_state ex_hub_memory (hub_Reconcile (BM := buildconfig_manager "amd64")
               (SM := signjob_manager "amd64") "kmm-hub" ex_hub_key) in
  let once := run ex_hub_state in
  let twice := run once in
  (∃ w, view twice KManifestWork !! NN "cluster-1" "nvidia" = Some w ∧ desired_work ex_sel_mcm w) ∧
  view twice KManifestWork = view once KManifestWork ∧
  view once KManifestWork !! NN "cluster-2" "nvidia" = None ∧
  view once KManifestWork !! NN "cluster-3" "nvidia" = None ∧
  isSome (view ex_hub_state KManifestWork !! NN "cluster-3" "nvidia") = true.
Proof.
  cbn zeta. destruct (hub_Reconcile_converges "amd64" "kmm-hub" ex_sel_mcm ex_hub_key ex_hub_state 1 ex_hub_ready)
    as (_ & Hc & _ & _ & Hs).
  split; [|split; [exact (Hs (le_n 1))|repeat split; vm_compute; reflexivity]].
  apply (hc_sent _ _ _ _ _ _ Hc ex_built); [|apply ex_built_ready].
  split; vm_compute; reflexivity.
Defined.
