(* ===== verification/TarReader.v ===== *)
(** * Reading a file of an archive

    [ExtractBytesFromTar] of internal/registry/registry.go: a loop that reads
    into the rest of a buffer until the reader says io.EOF.  The reader is a
    state and a [Read] method, as io.Reader documents it; the reader the code
    passes is archive/tar's, which stops at the end of the current file.  What
    the loop returns there is what [SignImage.ExtractFileToFile] takes as the
    data of an entry. *)

From S2P Require Import Prelude Prog K8s Api Client.
From stdpp Require Import options.

Local Open Scope go_scope.

(** ** io.Reader *)

Inductive read_error := EOF | ReadError (err : error).

(** [Read] fills a prefix of the buffer, whose length it says; it may use the
    rest of the buffer as scratch space. *)
Definition reader (St : Type) := St → list ascii → (list ascii * Z * option read_error) * St.

(** ** internal/registry/registry.go *)

Section extract.
Context {St : Type}.
Variable Read : reader St.

(** One [for] loop: [None] is a loop that has not ended yet. *)
Fixpoint extract_loop (fuel : nat) (contents : list ascii) (offset : Z) (tarreader : St)
    : option (result (list ascii)) :=
  match fuel with
  | O => None
  | S fuel =>
      if ((offset <? 0) || (Z.of_nat (length contents) <? offset))%Z
      then Some (Panic "slice bounds out of range")
      else
        let '((buf, rc, err), tarreader) := Read tarreader (drop (Z.to_nat offset) contents) in
        let contents := take (Z.to_nat offset) contents ++ buf in
        match err with
        | Some (ReadError err) =>
            Some (Err (errorf ("could not read from tar: " +:+ Error err +:+ " ")))
        | Some EOF => Some (Ok contents)
        | None => extract_loop fuel contents (offset + rc)%Z tarreader
        end
  end.

Definition ExtractBytesFromTar (fuel : nat) (size : Z) (tarreader : St) : option (result (list ascii)) :=
  if (size <? 0)%Z then Some (Panic "makeslice: len out of range")
  else extract_loop fuel (replicate (Z.to_nat size) zero) 0 tarreader.
End extract.

(** ** archive/tar *)

(** The bytes of the current file that are still to come, the error that was
    met, the reader of the archive. *)
Record tar_state (St : Type) := mk_tar_state { nb : nat; tar_err : option error; archive : St }.
Arguments mk_tar_state {St}.
Arguments nb {St}.
Arguments tar_err {St}.
Arguments archive {St}.

Definition ErrUnexpectedEOF : error := errorf "unexpected EOF".

Section tar.
Context {St : Type}.
Variable Read : reader St.

(** regFileReader.Read and Reader.Read of archive/tar: the buffer is cut to
    what is left of the file; an archive that ends inside the file is an
    error; the end of the file is io.EOF. *)
Definition tar_Read : reader (tar_state St) := λ tr b,
  match tar_err tr with
  | Some err => ((b, 0%Z, Some (ReadError err)), tr)
  | None =>
      let cut := take (nb tr) b in
      let '((buf, n, err), r) :=
        match cut with
        | [] => (([], 0%Z, None), archive tr)
        | _ => Read (archive tr) cut
        end in
      let left := nb tr - Z.to_nat n in
      let err := match err with
                 | Some EOF => if 0 <? left then Some (ReadError ErrUnexpectedEOF) else Some EOF
                 | None => if left =? 0 then Some EOF else None
                 | err => err
                 end in
      ((buf ++ drop (nb tr) b, n, err),
       mk_tar_state left (match err with Some (ReadError err) => Some err | _ => None end) r)
  end.

(** What the documentation of io.Reader says of a reader that delivers the
    bytes [rest] and then ends, with io.EOF or with an error.  It only
    discourages a read of no bytes without an error: [idle] bounds how many of
    them the reader still makes. *)
Class IoReader (delivers : St → list ascii → option error → Prop) (idle : St → nat) : Prop := {
  read_len st rest e b : delivers st rest e → b ≠ [] →
    length (Read st b).1.1.1 = length b ∧
    (0 ≤ (Read st b).1.1.2 ≤ Z.of_nat (length b))%Z;
  read_bytes st rest e b : delivers st rest e → b ≠ [] →
    let n := Z.to_nat (Read st b).1.1.2 in
    n ≤ length rest ∧ take n (Read st b).1.1.1 = take n rest ∧
    delivers (Read st b).2 (drop n rest) e;
  read_end st rest e b : delivers st rest e → b ≠ [] →
    let n := Z.to_nat (Read st b).1.1.2 in
    match (Read st b).1.2 with
    | None => idle (Read st b).2 ≤ idle st ∧ (n = 0 → idle (Read st b).2 < idle st)
    | Some EOF => e = None ∧ drop n rest = []
    | Some (ReadError x) => e = Some x ∧ drop n rest = []
    end
}.

(** ** The loop on a file of an archive *)

(** What the loop returns when it has [done], [left] bytes of the file are to
    come, and the archive delivers [rest]. *)
Definition outcome (done : list ascii) (left : nat) (rest : list ascii) (e : option error)
    (r : result (list ascii)) : Prop :=
  match r with
  | Ok contents => left ≤ length rest ∧ contents = done ++ take left rest
  | Err err =>
      err = errorf ("could not read from tar: " +:+ Error (default ErrUnexpectedEOF e) +:+ " ") ∧
      (length rest < left ∨ length rest = left ∧ e ≠ None)
  | Panic _ => False
  end.

Context {delivers : St → list ascii → option error → Prop} {idle : St → nat} `{!IoReader delivers idle}.

Lemma outcome_step done n left rest e r :
  n ≤ left → n ≤ length rest →
  outcome (done ++ take n rest) (left - n) (drop n rest) e r → outcome done left rest e r.
Proof.
  intros Hn Hr. destruct r as [c|err|w]; cbn [outcome]; rewrite ?length_drop; [| |done].
  - intros [Hl ->]. split; [lia|]. rewrite <-app_assoc. f_equal.
    rewrite take_take_drop. f_equal. lia.
  - intros [-> [H|[H He]]]; (split; [done|]); [left; lia|right; split; [lia|done]].
Qed.

(** One read, from a buffer as long as what is left of the file. *)
Lemma tar_Read_step tr b rest e :
  tar_err tr = None → length b = nb tr → delivers (archive tr) rest e →
  let '((buf, n, err), tr') := tar_Read tr b in
  let k := Z.to_nat n in
  length buf = length b ∧ (0 ≤ n)%Z ∧ k ≤ nb tr ∧ k ≤ length rest ∧ take k buf = take k rest ∧
  match err with
  | None => nb tr' + idle (archive tr') < nb tr + idle (archive tr) ∧ nb tr' = nb tr - k ∧
            tar_err tr' = None ∧ delivers (archive tr') (drop k rest) e
  | Some EOF => k = nb tr
  | Some (ReadError x) =>
      x = default ErrUnexpectedEOF e ∧ length rest = k ∧ (k < nb tr ∨ e ≠ None)
  end.
Proof using Type*.
  intros He Hb Hd. unfold tar_Read. rewrite He, (take_ge b) by lia.
  destruct b as [|c b']; [cbn in *; rewrite <-Hb; cbn; split_and!; lia || done|].
  set (b := c :: b') in *. assert (b ≠ []) as Hne by done.
  destruct (read_len _ _ _ _ Hd Hne) as [Hlen Hn], (read_bytes _ _ _ _ Hd Hne) as (Hr & Ht & Hd').
  pose proof (read_end _ _ _ _ Hd Hne) as Hend. cbn zeta in *.
  destruct (Read (archive tr) b) as [[[buf n] err] r]. cbn [fst snd] in *.
  rewrite drop_ge, app_nil_r by lia.
  assert (Z.to_nat n ≤ nb tr) by lia.
  destruct err as [[|x]|].
  - destruct Hend as [-> Hz]. apply (f_equal length) in Hz. rewrite length_drop in Hz. cbn in Hz.
    destruct (Nat.ltb_spec 0 (nb tr - Z.to_nat n)); split_and!; try lia; try done; left; lia.
  - destruct Hend as [-> Hz]. apply (f_equal length) in Hz. rewrite length_drop in Hz. cbn in Hz.
    split_and!; try lia; try done; by right.
  - destruct Hend as [Hle Hlt].
    destruct (Nat.eqb_spec (nb tr - Z.to_nat n) 0); cbn [nb tar_err archive]; split_and!; try lia; done.
Qed.

Lemma extract_loop_outcome fuel contents k tr rest e :
  length contents = k + nb tr → tar_err tr = None → delivers (archive tr) rest e → nb tr + idle (archive tr) < fuel →
  ∃ r, extract_loop tar_Read fuel contents (Z.of_nat k) tr = Some r ∧
       outcome (take k contents) (nb tr) rest e r.
Proof using Type*.
  revert contents k tr rest. induction fuel as [|fuel IH]; intros contents k tr rest Hlen He Hd Hf; [lia|].
  cbn [extract_loop]. replace (_ || _)%Z with false by lia. rewrite Nat2Z.id.
  assert (length (drop k contents) = nb tr) as Hb by (rewrite length_drop; lia).
  pose proof (tar_Read_step tr (drop k contents) rest e He Hb Hd) as Hs.
  destruct (tar_Read tr (drop k contents)) as [[[buf n] err] tr'].
  destruct Hs as (Hbuf & Hn & Hnb & Hr & Ht & Hend). rewrite length_drop in Hbuf.
  destruct err as [[|x]|].
  - eexists. split; [done|]. cbn [outcome]. split; [lia|]. f_equal.
    rewrite <-Hend, <-Ht, take_ge by lia. done.
  - eexists. split; [done|]. destruct Hend as (-> & Hl & Hor). split; [done|].
    destruct Hor; [left; lia|]. destruct (decide (Z.to_nat n = nb tr)); [right|left]; lia || auto.
    split; [lia|done].
  - destruct Hend as (Hk & Hnb' & He' & Hd').
    destruct (IH (take k contents ++ buf) (k + Z.to_nat n) tr' (drop (Z.to_nat n) rest)) as (r & Hrun & Ho);
      [rewrite length_app, length_take; lia|done|done|lia|].
    exists r. split; [by rewrite <-Hrun; f_equal; lia|].
    apply (outcome_step _ (Z.to_nat n)); [done..|]. rewrite <-Hnb', <-Ht.
    rewrite take_app_ge in Ho by (rewrite length_take; lia).
    rewrite length_take, Nat.min_l in Ho by lia. by rewrite Nat.add_comm, Nat.add_sub in Ho.
Qed.

(** A buffer shorter than what is left of the file is never done: once it is
    full the reader has nothing to read into and no end to report. *)
Lemma extract_loop_short fuel contents k tr rest :
  length contents < k + nb tr → k ≤ length contents → tar_err tr = None →
  delivers (archive tr) rest None → nb tr ≤ length rest →
  extract_loop tar_Read fuel contents (Z.of_nat k) tr = None.
Proof using Type*.
  revert contents k tr rest. induction fuel as [|fuel IH]; intros contents k tr rest Hlen Hk He Hd Hnb; [done|].
  cbn [extract_loop]. replace (_ || _)%Z with false by lia. rewrite Nat2Z.id.
  unfold tar_Read at 1. rewrite He, (take_ge (drop _ _)) by (rewrite length_drop; lia).
  rewrite (drop_ge (drop _ _)) by (rewrite length_drop; lia).
  assert (length (drop k contents) = length contents - k) as Hdl by apply length_drop.
  destruct (drop k contents) as [|c b'] eqn:Hdr.
  - cbn [length] in Hdl. rewrite (proj2 (Nat.eqb_neq (nb tr - Z.to_nat 0) 0)) by lia.
    rewrite Z.add_0_r. apply (IH _ _ _ rest); cbn [tar_err archive nb]; try done;
      rewrite ?length_app, ?length_take; cbn; lia.
  - assert (c :: b' ≠ []) as Hne by done. set (b := c :: b') in *.
    destruct (read_len _ _ _ _ Hd Hne) as [Hl Hn], (read_bytes _ _ _ _ Hd Hne) as (Hr & Ht & Hd').
    pose proof (read_end _ _ _ _ Hd Hne) as Hend. cbn zeta in *.
    destruct (Read (archive tr) b) as [[[buf n] err] r]. cbn [fst snd] in *.
    destruct err as [[|x]|]; [|by destruct Hend|].
    + destruct Hend as [_ Hz]. apply (f_equal length) in Hz. rewrite length_drop in Hz. cbn in Hz. lia.
    + rewrite (proj2 (Nat.eqb_neq (nb tr - Z.to_nat n) 0)) by lia. rewrite app_nil_r.
      replace (Z.of_nat k + n)%Z with (Z.of_nat (k + Z.to_nat n)) by lia.
      apply (IH _ _ _ (drop (Z.to_nat n) rest)); cbn [tar_err archive nb]; try done;
        rewrite ?length_app, ?length_take, ?length_drop; lia.
Qed.
End tar.

(** A call for fewer bytes than the file still has never returns. *)
Lemma ExtractBytesFromTar_short {St} (Read : reader St) {delivers} {idle} `{!IoReader Read delivers idle}
    fuel size left archive rest :
  size < left → left ≤ length rest → delivers archive rest None →
  ExtractBytesFromTar (tar_Read Read) fuel (Z.of_nat size) (mk_tar_state left None archive) = None.
Proof.
  intros Hs Hl Hd. unfold ExtractBytesFromTar.
  rewrite (proj2 (Z.ltb_ge (Z.of_nat size) 0)), Nat2Z.id by lia.
  apply (extract_loop_short _ (delivers := delivers) (idle := idle) _ _ 0 _ rest); cbn; rewrite ?length_replicate; done || lia.
Qed.

(** What [tar_Data] is for an entry of [size] bytes in an archive that
    delivers [rest] from there. *)
Definition tar_contents (size : nat) (rest : list ascii) (e : option error) : result string :=
  if size <=? length rest then Ok (String.string_of_list_ascii (take size rest))
  else Err (default ErrUnexpectedEOF e).

(** ** Properties *)

(** C35: [ExtractBytesFromTar] reads a file of an archive completely.  Called as
    [ExtractFileToFile] calls it, for the size of the entry and with
    archive/tar's reader at its start, over any reader that keeps the contract
    of io.Reader - in chunks of any length, the end reported with the last
    bytes or after them, finitely many reads of nothing in between - it returns
    after at most one read per byte, those reads of nothing, and one read
    more, never slices out of bounds, and returns the data of the entry
    exactly: its [size] bytes, or, when the archive ends or fails before them,
    the read error.  Only when the archive fails right at the end of the entry
    can it be either. *)
Theorem ExtractBytesFromTar_reads {St} (Read : reader St) {delivers} {idle} `{!IoReader Read delivers idle}
    fuel size archive rest e :
  delivers archive rest e → size + idle archive < fuel →
  ∃ r, ExtractBytesFromTar (tar_Read Read) fuel (Z.of_nat size) (mk_tar_state size None archive) = Some r ∧
    (r = match tar_contents size rest e with
         | Ok data => Ok (String.list_ascii_of_string data)
         | Err err => Err (errorf ("could not read from tar: " +:+ Error err +:+ " "))
         | Panic w => Panic w
         end ∨
     length rest = size ∧ ∃ x, e = Some x ∧ r = Err (errorf ("could not read from tar: " +:+ Error x +:+ " "))).
Proof.
  intros Hd Hf. unfold ExtractBytesFromTar.
  rewrite (proj2 (Z.ltb_ge (Z.of_nat size) 0)), Nat2Z.id by lia.
  destruct (extract_loop_outcome Read fuel (replicate size zero) 0 (mk_tar_state size None archive) rest e)
    as (r & Hrun & Ho); [by rewrite length_replicate|done|done|done|].
  exists r. split; [exact Hrun|]. unfold tar_contents. destruct r as [c|err|w]; cbn in Ho; [| |done].
  - destruct Ho as [Hl ->]. left. rewrite (proj2 (Nat.leb_le _ _)) by done.
    by rewrite String.list_ascii_of_string_of_list_ascii.
  - destruct Ho as [-> [Hl|[Hl He]]].
    + left. by rewrite (proj2 (Nat.leb_gt _ _)) by done.
    + right. split; [done|]. destruct e as [x|]; [|done]. by exists x.
Qed.

(** An archive that delivers at most two bytes at a time, reads nothing
    before each of these reads or after it, and reports the end on its own. *)
Definition ex_archive : reader (list ascii * bool) := λ '(rest, pause) b,
  if pause then ((b, 0%Z, None), (rest, false))
  else
    let n := length rest `min` (length b `min` 2) in
    ((take n rest ++ drop n b, Z.of_nat n, if n =? 0 then Some EOF else None), (drop n rest, true)).
Definition ex_idle (st : list ascii * bool) : nat := length st.1 + Nat.b2n st.2.
#[local] Instance ex_archive_reader : IoReader ex_archive (λ st rest e, st.1 = rest ∧ e = None) ex_idle.
Proof.
  split; intros [rest' [|]] rest e b [Hr ->] Hb; cbn in Hr; subst rest'; unfold ex_archive, ex_idle;
    cbn [fst snd Nat.b2n]; rewrite ?Nat2Z.id; try (cbn; split_and!; try done; lia).
  all: destruct b as [|x b]; [done|]; clear Hb; set (n := length rest `min` (length (x :: b) `min` 2));
    assert (n ≤ length rest ∧ n ≤ length (x :: b)) as [H1 H2] by (subst n; lia).
  - split; [|lia]. rewrite length_app, length_take, length_drop. lia.
  - split_and!; try done. by rewrite take_app_le, take_take, Nat.min_id by (rewrite length_take; lia).
  - destruct (Nat.eqb_spec n 0) as [Hn|Hn]; [|rewrite length_drop; lia].
    split; [done|]. subst n. destruct rest; cbn in Hn; [done|lia].
Qed.

Lemma ExtractBytesFromTar_reads_witness :
  ∃ r, ExtractBytesFromTar (tar_Read ex_archive) 19 5
         (mk_tar_state 5 None (String.list_ascii_of_string "hello, world", true)) = Some r ∧
       r = Ok (String.list_ascii_of_string "hello").
Proof.
  destruct (ExtractBytesFromTar_reads ex_archive 19 5 (String.list_ascii_of_string "hello, world", true)
    (String.list_ascii_of_string "hello, world") None (conj eq_refl eq_refl) (le_n 19)) as (r & Hr & [Ho|(Hl & _)]).
  - exists r. split; [exact Hr|exact Ho].
  - vm_compute in Hl. discriminate Hl.
Defined.
