(* ===== verification/SignImage.v ===== *)
(** * cmd/signimage

    The program that runs in a signing Job: it pulls an image, walks the
    files of its layers from the top one down, extracts and signs the kernel
    modules it was asked to sign, and pushes the image with a layer of the
    signed files on top.  Its calls - the registry library, the file system,
    the sign-file tool - are a signature of their own; the program ends with
    an exit code. *)

From S2P Require Import Prelude Prog K8s Api Client.
From stdpp Require Import options.

Local Open Scope go_scope.

(** ** Calls *)

(** Handles of the registry library and of authn. *)
Definition Image := string.
Definition Authenticator := string.
Definition Anonymous : Authenticator := "anonymous".

(** What filepath.WalkDir finds: files, and directories with the entries it
    could read. *)
Inductive DirEntry :=
  | DFile (path : string)
  | DDir (path : string) (children : list DirEntry).

Inductive sreq :=
  | SMkdirTemp
  | SLstat (path : string)                                   (** the tree WalkDir goes through *)
  | SOpen (path : string)
  | SReadAll (path : string)
  | SPull (name : string) (auth : Authenticator) (opts : list CraneOption)
  | SLayers (image : Image)
  | SUncompressed (layer : Layer)
  | SMkdirAll (dir : string)
  | SWriteFile (path contents : string)
  | SSignFile (filename publickey privatekey : string)      (** running the tool *)
  | SStat (path : string)                                    (** whether it is a directory *)
  | SWriteTar (path : string) (entries : list (string * string))
  | SMediaType (layer : Layer)
  | SLayerFromFile (path mediaType : string)
  | SAppendLayers (image : Image) (layer : Layer)
  | SImageMediaType (image : Image)
  | SSetMediaType (image : Image) (mediaType : string)
  | SPush (name : string) (image : Image) (auth : Authenticator) (opts : list CraneOption).

Definition sans (q : sreq) : Type :=
  match q with
  | SMkdirTemp => result string
  | SLstat _ => result DirEntry
  | SOpen _ => result unit
  | SReadAll _ => result string
  | SPull _ _ _ => result Image
  | SLayers _ => result (list Layer)
  | SUncompressed _ => result TarStream
  | SMkdirAll _ => result unit
  | SWriteFile _ _ => result unit
  | SSignFile _ _ _ => result unit
  | SStat _ => result bool
  | SWriteTar _ _ => result unit
  | SMediaType _ => result string
  | SLayerFromFile _ _ => result Layer
  | SAppendLayers _ _ => result Image
  | SImageMediaType _ => result string
  | SSetMediaType _ _ => Image
  | SPush _ _ _ _ => result unit
  end.

Abbreviation SM := (prog sans).
Abbreviation shist := (list (@event sreq sans)).

Definition scall (q : sreq) : SM (sans q) := call q.

(** The decoded forms of a secrets file: its raw fields, and a map of
    credentials. *)
Class AuthDecoder := {
  unmarshal_raw : string → result (gmap string string);
  unmarshal_auths : string → result (gmap string Authenticator) }.

(** ** internal/registry, the part used here *)

Definition getTransportOptions (insecure skipTLSVerify : bool) : list CraneOption :=
  (if insecure then [CraneInsecure] else []) ++ (if skipTLSVerify then [CraneSkipTLSVerify] else []).

Definition GetImageByName (imageName : string) (auth : Authenticator) (insecure skipTLSVerify : bool)
    : SM (result Image) :=
  try img := scall (SPull imageName auth (getTransportOptions insecure skipTLSVerify))
    catch err => Ret (Err (errorf ("could not get image: " +:+ Error err))) in
  Ret (Ok img).

Definition WriteImageByName (imageName : string) (image : Image) (auth : Authenticator)
    (insecure skipTLSVerify : bool) : SM (result unit) :=
  try _ := scall (SPush imageName image auth (getTransportOptions insecure skipTLSVerify))
    catch err => Ret (Err (errorf ("failed to push signed image: " +:+ Error err))) in
  Ret (Ok tt).

(** An image without layers panics: [layers[len(layers)-1]]. *)
Definition GetLayerMediaType (image : Image) : SM (result string) :=
  try layers := scall (SLayers image)
    catch err => Ret (Err (errorf ("could not get the layers from image: " +:+ Error err))) in
  match last layers with
  | None => Crash "runtime error: index out of range [-1]"
  | Some l => scall (SMediaType l)
  end.

Definition AddLayerToImage (tarfile : string) (image : Image) : SM (result Image) :=
  try mt := GetLayerMediaType image catch err => Ret (Err err) in
  try signedLayer := scall (SLayerFromFile tarfile mt)
    catch err => Ret (Err (errorf ("failed to generate layer from tar: " +:+ Error err))) in
  try newImage := scall (SAppendLayers image signedLayer)
    catch err => Ret (Err (errorf ("failed to append layer: " +:+ Error err))) in
  prog_bind (λ imageMediaType : result string,
    prog_bind (λ img : Image, Ret (Ok img))
      (scall (SSetMediaType newImage (match imageMediaType with Ok t => t | _ => "" end))))
    (scall (SImageMediaType image)).

(** filepath.Dir: what is before the last slash, cleaned. *)
Definition path_dir (p : string) : string :=
  match str_split (is_char "/"%char) p with
  | [] | [_] => path_clean ""
  | fields => path_clean (str_join "/" (removelast fields) +:+ "/")
  end.
Example path_dir_ex : path_dir "/tmp/kmod_signer1/opt/lib/a.ko" = "/tmp/kmod_signer1/opt/lib".
Proof. reflexivity. Qed.

Definition ExtractFileToFile (destination : string) (header : TarEntry) : SM (result unit) :=
  try contents := lift_result (tar_Data header)
    catch err => Ret (Err (errorf ("could not read file " +:+ destination +:+ ": could not read from tar: "
                                   +:+ Error err +:+ " "))) in
  try _ := scall (SMkdirAll (path_dir destination))
    catch err => Ret (Err (errorf ("could not create directory structure for " +:+ destination +:+ ": "
                                   +:+ Error err))) in
  try _ := scall (SWriteFile destination contents)
    catch err => Ret (Err (errorf ("could not create temp " +:+ destination +:+ ": " +:+ Error err))) in
  Ret (Ok tt).

Section walk.
Context {St : Type}.
Variable fn : TarEntry → St → SM (result unit * St).

Fixpoint walk_entries (entries : list TarEntry) (st : St) : SM (result unit * St) :=
  match entries with
  | [] => Ret (Ok tt, st)
  | e :: entries =>
      prog_bind (λ r : result unit * St, match r with
        | (Ok _, st) => walk_entries entries st
        | (Err err, st) =>
            Ret (Err (errorf ("died processing file " +:+ tar_Name e +:+ ": " +:+ Error err)), st)
        | (Panic w, _) => Crash w
        end) (fn e st)
  end.

(** A header that cannot be read ends the layer like the end of the archive
    does. *)
Fixpoint walk_layers (layers : list Layer) (st : St) : SM (result unit * St) :=
  match layers with
  | [] => Ret (Ok tt, st)
  | layer :: layers =>
      try stream := scall (SUncompressed layer)
        catch err => Ret (Err (errorf ("could not get layer: " +:+ Error err)), st) in
      prog_bind (λ r : result unit * St, match r with
        | (Ok _, st) => walk_layers layers st
        | r => Ret r
        end) (walk_entries (ts_Entries stream) st)
  end.

(** [fn] gets the state its data argument points to. *)
Definition WalkFilesInImage (image : Image) (st : St) : SM (result unit * St) :=
  try layers := scall (SLayers image)
    catch err => Ret (Err (errorf ("could not get the layers from the fetched image: " +:+ Error err)), st) in
  walk_layers (rev layers) st.
End walk.

(** ** Credentials *)

Record repoAuth := mk_repoauth {
  pullRepo : string; pushRepo : string;
  PullAuth : option Authenticator; PushAuth : option Authenticator }.

Section signimage.
Context {AD : AuthDecoder} {MO : MapOrder}.

Definition getAuthFromSingleFile (secretFile : string) (r : repoAuth) : SM (result unit * repoAuth) :=
  try _ := scall (SOpen secretFile)
    catch err => Ret (Err (errorf ("unable to open secret file " +:+ secretFile +:+ ": " +:+ Error err)), r) in
  try byteValue := scall (SReadAll secretFile)
    catch err => Ret (Err (errorf ("error reading secret file " +:+ secretFile +:+ ": " +:+ Error err)), r) in
  try raw := lift_result (unmarshal_raw byteValue)
    catch err => Ret (Err (errorf ("error unmarshalling " +:+ secretFile +:+ ": " +:+ Error err)), r) in
  try allAuthConfigs := lift_result (unmarshal_auths (match raw !! "auths" with Some a => a | None => byteValue end))
    catch err => Ret (Err (errorf ("error unmarshalling file to authconfig " +:+ secretFile +:+ ": "
                                   +:+ Error err)), r) in
  Ret (Ok tt, mk_repoauth (pullRepo r) (pushRepo r)
    (match allAuthConfigs !! pullRepo r with Some a => Some a | None => PullAuth r end)
    (match allAuthConfigs !! pushRepo r with Some a => Some a | None => PushAuth r end)).

(** authDirFileHandler on a file: errors are only logged. *)
Definition auth_file (path : string) (r : repoAuth) : SM repoAuth :=
  if str_contains ".." path then Ret r
  else prog_bind (λ x : result unit * repoAuth, Ret (snd x)) (getAuthFromSingleFile path r).

(** filepath.WalkDir with authDirFileHandler: a directory below the root is
    skipped when its path has two dots in a row. *)
Fixpoint walk_auth (configDir : string) (e : DirEntry) (r : repoAuth) : SM repoAuth :=
  match e with
  | DFile path => if bool_decide (path = configDir) then Ret r else auth_file path r
  | DDir path children =>
      if negb (bool_decide (path = configDir)) && str_contains ".." path then Ret r
      else
        (fix walk_all (es : list DirEntry) (r : repoAuth) : SM repoAuth :=
           match es with
           | [] => Ret r
           | e :: es => prog_bind (walk_all es) (walk_auth configDir e r)
           end) children r
  end.

Definition NewRepoAuth (configDir pullRepo pushRepo : string) : SM (Authenticator * Authenticator) :=
  let r := mk_repoauth pullRepo (if bool_decide (pushRepo = "") then pullRepo else pushRepo) None None in
  let configDir := path_clean configDir in
  prog_bind (λ r, Ret (default Anonymous (PullAuth r), default Anonymous (PushAuth r)))
    (if bool_decide (configDir = "") then Ret r
     else prog_bind (λ t, match t with
                          | Ok tree => walk_auth configDir tree r
                          | Err _ => Ret r
                          | Panic w => Crash w
                          end) (scall (SLstat configDir))).

(** ** The files to sign *)

Definition not_found := "not found".

Definition canonicalisePath (path : string) : string := path_clean ("/" +:+ path).

Definition signFile (filename publickey privatekey : string) : SM (result unit) :=
  try _ := scall (SSignFile filename publickey privatekey)
    catch err => Ret (Err (errorf ("signing " +:+ filename +:+ " returned: error: " +:+ Error err))) in
  Ret (Ok tt).

(** [s[len(s)-3:] == ".ko"]; slicing below zero panics. *)
Definition has_ko_suffix (s : string) : result bool :=
  if bool_decide (String.length s < 3) then Panic "runtime error: slice bounds out of range"
  else Ok (bool_decide (str_drop (String.length s - 3) s = ".ko")).

(** Whether processFile takes the file. *)
Definition wanted (filesList canonfilename : string) (kmodsToSign : gmap string string) : result bool :=
  if bool_decide (kmodsToSign !! canonfilename = Some not_found) then Ok true
  else if bool_decide (filesList = "") && bool_decide (default "" (kmodsToSign !! canonfilename) = "")
  then has_ko_suffix canonfilename
  else Ok false.

Definition processFile (extractionDir filesList privKeyFile pubKeyFile : string) (header : TarEntry)
    (kmodsToSign : gmap string string) : SM (result unit * gmap string string) :=
  let canonfilename := canonicalisePath (tar_Name header) in
  try w := lift_result (wanted filesList canonfilename kmodsToSign) catch err => Ret (Err err, kmodsToSign) in
  if (w : bool) then
    let destination := extractionDir +:+ "/" +:+ tar_Name header in
    try _ := ExtractFileToFile destination header catch err => Ret (Err err, kmodsToSign) in
    let kmodsToSign := <[canonfilename := destination]> kmodsToSign in
    try _ := signFile destination pubKeyFile privKeyFile
      catch err => Ret (Err (errorf ("error signing file " +:+ canonfilename +:+ ": " +:+ Error err)), kmodsToSign) in
    Ret (Ok tt, kmodsToSign)
  else Ret (Ok tt, kmodsToSign).

(** The tar archive of the new layer, as its entries. *)
Definition addFileToTarball (sourcename filename : string) (tarball : list (string * string))
    : SM (result unit * list (string * string)) :=
  try isDir := scall (SStat sourcename)
    catch err => Ret (Err (errorf_w ("failed to stat " +:+ filename +:+ ": ") err), tarball) in
  if (isDir : bool) then Ret (Ok tt, tarball)
  else
    try _ := scall (SOpen sourcename)
      catch err => Ret (Err (errorf_w "failed to open file to add to the tar: " err), tarball) in
    try data := scall (SReadAll sourcename)
      catch err => Ret (Err (errorf_w "failed to read file into the tar: " err), tarball) in
    Ret (Ok tt, tarball ++ [(filename, data)]).

(** The loop over kmodsToSign: whether one is missing, and the archive. *)
Fixpoint collect (kmods : list (string * string)) (missing : bool) (tarball : list (string * string))
    : SM (result bool * list (string * string)) :=
  match kmods with
  | [] => Ret (Ok missing, tarball)
  | (k, v) :: kmods =>
      if bool_decide (v = not_found) then collect kmods true tarball
      else
        prog_bind (λ r : result unit * list (string * string), match r with
          | (Ok _, tarball) => collect kmods missing tarball
          | (Err err, tarball) => Ret (Err err, tarball)
          | (Panic w, _) => Crash w
          end) (addFileToTarball v k tarball)
  end.

(** ** main *)

(** The flags, after flag.Parse. *)
Record Flags := mk_flags {
  unsignedImageName : string; signedImageName : string; filesList : string;
  privKeyFile : string; pubKeyFile : string; secretDir : string; nopush : bool;
  insecurePull : bool; skipTlsVerifyPull : bool; insecurePush : bool; skipTlsVerifyPush : bool }.

(** [None]: the process exits with code 0. *)
Definition checkArg (arg fallback : string) : option string :=
  if bool_decide (arg = "") then (if bool_decide (fallback = "") then None else Some fallback)
  else Some arg.

Definition checkArgs (f : Flags) : option Flags :=
  unsignedImageName' ← checkArg (unsignedImageName f) "";
  signedImageName' ← checkArg (signedImageName f) (unsignedImageName' +:+ "signed");
  filesList' ← checkArg (filesList f) "";
  privKeyFile' ← checkArg (privKeyFile f) "";
  pubKeyFile' ← checkArg (pubKeyFile f) "";
  secretDir' ← checkArg (secretDir f) "";
  Some (mk_flags unsignedImageName' signedImageName' filesList' privKeyFile' pubKeyFile' secretDir'
    (nopush f) (insecurePull f) (skipTlsVerifyPull f) (insecurePush f) (skipTlsVerifyPush f)).

(** The loop over the list of files; [None]: a path is not canonical. *)
Definition kmods_to_sign (files : list string) : option (gmap string string) :=
  if forallb (λ x, bool_decide (canonicalisePath x = x)) files
  then Some (list_to_map (List.map (λ x, (x, not_found)) files)) else None.

(** strings.Split(name, "/")[0] *)
Definition registry_host (name : string) : string := default "" (head (str_split (is_char "/"%char) name)).

(** The exit code. *)
Definition main (f : Flags) : SM nat :=
  match checkArgs f with
  | None => Ret 0
  | Some f =>
      try extractionDir := scall SMkdirTemp catch _ => Ret 1 in
      match kmods_to_sign (str_split (is_char ":"%char) (filesList f)) with
      | None => Ret 9
      | Some kmodsToSign =>
          prog_bind (λ a : Authenticator * Authenticator,
            try img := GetImageByName (unsignedImageName f) (fst a) (insecurePull f) (skipTlsVerifyPull f)
              catch _ => Ret 3 in
            prog_bind (λ w : result unit * gmap string string, match w with
              | (Panic why, _) => Crash why
              | (Err _, _) => Ret 9
              | (Ok _, kmodsToSign) =>
                  prog_bind (λ c : result bool * list (string * string), match c with
                    | (Panic why, _) => Crash why
                    | (Err _, _) => Ret 1
                    | (Ok missing, tarball) =>
                        if missing then Ret 4
                        else
                          let outputTarFile := extractionDir +:+ "/layerfile.tar" in
                          try _ := scall (SWriteTar outputTarFile tarball) catch _ => Ret 5 in
                          try signedImage := AddLayerToImage outputTarFile img catch _ => Ret 6 in
                          if nopush f then Ret 0
                          else
                            try _ := WriteImageByName (signedImageName f) signedImage (snd a)
                                       (insecurePush f) (skipTlsVerifyPush f) catch _ => Ret 8 in
                            Ret 0
                    end) (collect (range_map kmodsToSign) false [])
              end)
              (WalkFilesInImage (processFile extractionDir (filesList f) (privKeyFile f) (pubKeyFile f))
                 img kmodsToSign))
            (NewRepoAuth (secretDir f) (registry_host (unsignedImageName f)) (registry_host (signedImageName f)))
      end
  end.

(** ** What a push rests on *)

Lemma wp_lift_sresult {A} ok (r : result A) (Q : outcome (result A) → shist → Prop) h :
  (∀ x, r = Ok x → Q (Done (Ok x)) h) → (∀ e, r = Err e → Q (Done (Err e)) h) →
  (∀ w, r = Panic w → Q (Crashed w) h) → wp ok (lift_result r) Q h.
Proof. destruct r; simpl; auto. Qed.

Definition is_push (q : sreq) : bool := match q with SPush _ _ _ _ => true | _ => false end.

Definition did (q : sreq) (x : sans q) (h : shist) : Prop := (Ev q x : @event sreq sans) ∈ h.

(** The kernel module [path], as found in a layer of the image, was extracted
    to [file] and signed there. *)
Definition signed_file (f : Flags) (dir : string) (img : Image) (path file : string) (h : shist) : Prop :=
  ∃ layers layer stream entry data,
    did (SLayers img) (Ok layers) h ∧ layer ∈ layers ∧ did (SUncompressed layer) (Ok stream) h ∧
    entry ∈ ts_Entries stream ∧ canonicalisePath (tar_Name entry) = path ∧ tar_Data entry = Ok data ∧
    file = dir +:+ "/" +:+ tar_Name entry ∧ did (SWriteFile file data) (Ok tt) h ∧
    did (SSignFile file (pubKeyFile f) (privKeyFile f)) (Ok tt) h.

(** The archive holds what was read of the file afterwards. *)
Definition archived (path file : string) (tarball : list (string * string)) (h : shist) : Prop :=
  did (SStat file) (Ok true) h ∨ ∃ data, did (SReadAll file) (Ok data) h ∧ (path, data) ∈ tarball.

Definition files_to_sign (f : Flags) : list string := str_split (is_char ":"%char) (filesList f).

Definition push_ready (f : Flags) (q : sreq) (h : shist) : Prop :=
  nopush f = false ∧ ∃ dir auth opts img tarball mt layer img1 img2 t pauth,
    let tar := dir +:+ "/layerfile.tar" in
    did SMkdirTemp (Ok dir) h ∧ did (SPull (unsignedImageName f) auth opts) (Ok img) h ∧
    (∀ path, path ∈ files_to_sign f → canonicalisePath path = path ∧ ∃ file,
       signed_file f dir img path file h ∧ archived path file tarball h) ∧
    (∀ path data, (path, data) ∈ tarball → path ∈ files_to_sign f) ∧
    did (SWriteTar tar tarball) (Ok tt) h ∧ did (SLayerFromFile tar mt) (Ok layer) h ∧
    did (SAppendLayers img layer) (Ok img1) h ∧ did (SSetMediaType img1 t) img2 h ∧
    q = SPush (signedImageName f) img2 pauth (getTransportOptions (insecurePush f) (skipTlsVerifyPush f)).

(** The only restricted call is the push. *)
Definition main_allowed (f0 : Flags) (h : shist) (q : sreq) : Prop :=
  is_push q = true → ∃ f, checkArgs f0 = Some f ∧ push_ready f q h.

Lemma did_mono q x h h' : h `prefix_of` h' → did q x h → did q x h'.
Proof. intros [t ->] H. apply elem_of_app. by left. Qed.

Lemma signed_file_mono f dir img path file h h' :
  h `prefix_of` h' → signed_file f dir img path file h → signed_file f dir img path file h'.
Proof.
  intros Hp (ls & l & s & e & d & H1 & H2 & H3 & H4 & H5 & H6 & H7 & H8 & H9).
  exists ls, l, s, e, d. split_and!; eauto using did_mono.
Qed.

Lemma archived_mono path file tb tb' h h' :
  h `prefix_of` h' → (∀ x, x ∈ tb → x ∈ tb') → archived path file tb h → archived path file tb' h'.
Proof.
  intros Hp Htb [H|(d & H1 & H2)]; [left; by eapply did_mono|right].
  exists d. split; [by eapply did_mono|auto].
Qed.

Section one_run.
Context (f0 f : Flags) (dir : string) (img : Image).

Lemma no_push_ok h q : is_push q = false → main_allowed f0 h q.
Proof. intros Hq Hp. congruence. Qed.

(** The map of kernel modules between two files. *)
Definition kmods_ok (keys : gset string) (m : gmap string string) (h : shist) : Prop :=
  dom m = keys ∧ ∀ k v, m !! k = Some v → v = not_found ∨ signed_file f dir img k v h.

Lemma kmods_ok_mono keys m h h' : h `prefix_of` h' → kmods_ok keys m h → kmods_ok keys m h'.
Proof.
  intros Hp [H1 H2]. split; [done|]. intros k v Hk.
  destruct (H2 k v Hk); [by left|right; by eapply signed_file_mono].
Qed.

Definition walk_post (keys : gset string) (o : outcome (result unit * gmap string string)) (h : shist)
    : Prop :=
  match o with Done (Ok _, m) => kmods_ok keys m h | _ => True end.

Lemma wp_processFile keys layers layer stream e m h :
  filesList f ≠ "" → did (SLayers img) (Ok layers) h → layer ∈ layers →
  did (SUncompressed layer) (Ok stream) h → e ∈ ts_Entries stream → kmods_ok keys m h →
  wp (main_allowed f0) (processFile dir (filesList f) (privKeyFile f) (pubKeyFile f) e m)
     (walk_post keys) h.
Proof.
  intros Hf Hls Hl Hst He Hm. unfold processFile, wanted.
  destruct (bool_decide (m !! canonicalisePath (tar_Name e) = Some not_found)) eqn:Hw;
    [|rewrite (bool_decide_false (filesList f = "")) by done; exact Hm].
  apply bool_decide_eq_true in Hw. cbn [andb lift_result prog_bind].
  apply wp_bind. unfold ExtractFileToFile.
  apply wp_bind, wp_lift_sresult; [|done..]. intros data Hd.
  apply wp_bind. split; [by apply no_push_ok|]. intros [[]|err|w]; try done.
  apply wp_bind. split; [by apply no_push_ok|]. intros [[]|err|w]; try done.
  apply wp_bind. unfold signFile. apply wp_bind. split; [by apply no_push_ok|].
  intros [[]|err|w]; try done. set (file := dir +:+ "/" +:+ tar_Name e).
  set (h1 := ((h ++ _) ++ _) ++ _). assert (h `prefix_of` h1) as Hp.
  { unfold h1. rewrite <-!app_assoc. by apply prefix_app_r. }
  destruct Hm as [Hdom Hm]. split.
  - rewrite dom_insert_L. apply elem_of_dom_2 in Hw. set_solver.
  - intros k v [[<- <-]|[_ Hk]]%lookup_insert_Some.
    + right. exists layers, layer, stream, e, data.
      split_and!; try done; try (by eapply did_mono); unfold h1, did; in_hist.
    + destruct (Hm k v Hk); [by left|right; by eapply signed_file_mono].
Qed.

Abbreviation step := (processFile dir (filesList f) (privKeyFile f) (pubKeyFile f)).

Lemma wp_walk_entries keys layers layer stream es m h :
  filesList f ≠ "" → did (SLayers img) (Ok layers) h → layer ∈ layers →
  did (SUncompressed layer) (Ok stream) h → (∀ e, e ∈ es → e ∈ ts_Entries stream) → kmods_ok keys m h →
  wp (main_allowed f0) (walk_entries step es m) (walk_post keys) h.
Proof.
  intros Hf Hls Hl. revert m h Hls. induction es as [|e es IH]; intros m h Hls Hst Hes Hm; [done|].
  cbn [walk_entries]. apply wp_bind.
  eapply wp_post; [eapply wp_processFile; eauto; apply Hes; by left|].
  intros [[[[]|err|w] m']|w] h' Hp Hm'; try done.
  apply IH; [by eapply did_mono..| |done]. intros e' ?. apply Hes. by right.
Qed.

Lemma wp_walk_layers keys layers ls m h :
  filesList f ≠ "" → did (SLayers img) (Ok layers) h → (∀ l, l ∈ ls → l ∈ layers) → kmods_ok keys m h →
  wp (main_allowed f0) (walk_layers step ls m) (walk_post keys) h.
Proof.
  intros Hf. revert m h. induction ls as [|l ls IH]; intros m h Hls Hin Hm; [done|].
  cbn [walk_layers]. apply wp_bind. split; [by apply no_push_ok|]. intros [stream|err|w]; try done.
  set (h1 := h ++ _). assert (h `prefix_of` h1) as Hp by by apply prefix_app_r.
  apply wp_bind. eapply wp_post.
  { eapply (wp_walk_entries keys layers l stream); [done|by eapply did_mono|apply Hin; by left| |done|].
    - unfold did, h1. in_hist.
    - by eapply kmods_ok_mono. }
  intros [[[[]|err|w] m']|w] h' Hp' Hm'; try done.
  apply IH; [|intros; apply Hin; by right|done]. eapply did_mono, Hls. by trans h1.
Qed.

Lemma wp_WalkFilesInImage keys m h :
  filesList f ≠ "" → kmods_ok keys m h →
  wp (main_allowed f0) (WalkFilesInImage step img m) (walk_post keys) h.
Proof.
  intros Hf Hm. unfold WalkFilesInImage. apply wp_bind. split; [by apply no_push_ok|].
  intros [layers|err|w]; try done. set (h1 := h ++ _).
  assert (h `prefix_of` h1) as Hp by by apply prefix_app_r.
  apply (wp_walk_layers keys layers); [done|unfold did, h1; in_hist| |by eapply kmods_ok_mono].
  intros l. by rewrite !list_elem_of_In, <-in_rev.
Qed.

Lemma wp_collect kmods missing tb h :
  wp (main_allowed f0) (collect kmods missing tb) (λ o h', match o with
    | Done (Ok missing', tb') => (∀ x, x ∈ tb → x ∈ tb') ∧
        (missing' = false → missing = false ∧
           ∀ k v, (k, v) ∈ kmods → v ≠ not_found ∧ archived k v tb' h') ∧
        (∀ k d, (k, d) ∈ tb' → (k, d) ∈ tb ∨ k ∈ kmods.*1)
    | _ => True end) h.
Proof.
  revert missing tb h. induction kmods as [|[k v] kmods IH]; intros missing tb h.
  { split_and!; [done|intros ->; split; [done|]; intros ?? Hin; by apply not_elem_of_nil in Hin|by left]. }
  cbn [collect]. case_bool_decide as Hv.
  - eapply wp_post; [apply IH|]. intros [[[miss|err|w] tb']|w'] h' Hp H; try done.
    destruct H as (H1 & H2 & H3). split_and!; [done| |].
    + intros Hm. by destruct (H2 Hm).
    + intros k' d Hin. destruct (H3 k' d Hin); [by left|right; set_solver].
  - apply wp_bind. eapply (wp_post _ _ (λ o h', match o with
      | Done (Ok _, tb1) => archived k v tb1 h' ∧ (∀ x, x ∈ tb → x ∈ tb1) ∧
          (∀ k' d, (k', d) ∈ tb1 → (k', d) ∈ tb ∨ k' = k)
      | _ => True end)).
    { unfold addFileToTarball. apply wp_bind. split; [by apply no_push_ok|].
      intros [[]|err|w]; try done.
      - split_and!; [left; unfold did; in_hist|done|by left].
      - apply wp_bind. split; [by apply no_push_ok|]. intros [[]|err|w]; try done.
        apply wp_bind. split; [by apply no_push_ok|]. intros [data|err|w]; try done.
        split_and!; [right; exists data; unfold did; split; [in_hist|set_solver]|set_solver|].
        intros k' d [?|Hin]%elem_of_app; [by left|]. apply list_elem_of_singleton in Hin.
        right. by injection Hin. }
    intros [[[u|err|w] tb1]|w] h1 Hp1 H1; try done. destruct H1 as (Ha & Htb & Hk).
    eapply wp_post; [apply IH|]. intros [[[miss|err|w] tb']|w'] h' Hp H; try done.
    destruct H as (H1 & H2 & H3). split_and!; [auto| |].
    + intros Hm. destruct (H2 Hm) as [-> H4]. split; [done|].
      intros k' v' [[= -> ->]|Hin]%elem_of_cons; [|by apply H4].
      split; [done|]. by eapply archived_mono.
    + intros k' d Hin. destruct (H3 k' d Hin) as [Hin'|?]; [|right; set_solver].
      destruct (Hk k' d Hin') as [?| ->]; [by left|right; set_solver].
Qed.

Lemma wp_AddLayerToImage tar image h :
  wp (main_allowed f0) (AddLayerToImage tar image) (λ o h', match o with
    | Done (Ok img2) => ∃ mt layer img1 t, did (SLayerFromFile tar mt) (Ok layer) h' ∧
        did (SAppendLayers image layer) (Ok img1) h' ∧ did (SSetMediaType img1 t) img2 h'
    | _ => True end) h.
Proof.
  unfold AddLayerToImage, GetLayerMediaType. do 2 apply wp_bind. split; [by apply no_push_ok|].
  intros [layers|err|w]; try done. cbn [wp]. destruct (last layers) as [l|]; [|done].
  split; [by apply no_push_ok|]. intros [mt|err|w]; try done.
  apply wp_bind. split; [by apply no_push_ok|]. intros [layer|err|w]; try done.
  apply wp_bind. split; [by apply no_push_ok|]. intros [img1|err|w]; try done.
  apply wp_bind. split; [by apply no_push_ok|]. intros imt.
  apply wp_bind. split; [by apply no_push_ok|]. intros img2.
  exists mt, layer, img1, (match imt with Ok t => t | _ => "" end).
  unfold did. split_and!; in_hist.
Qed.
End one_run.

(** ** Credentials touch no image *)

Abbreviation no_push := (calls (λ q, is_push q = false)).

Lemma no_push_auth_file p r : no_push (auth_file p r).
Proof. unfold auth_file, getAuthFromSingleFile, scall. go_calls. Qed.

Fixpoint no_push_walk_auth c e r : no_push (walk_auth c e r).
Proof.
  destruct e as [p|p es]; cbn [walk_auth]; case_bool_decide; cbn [andb negb];
    try apply calls_ret; try apply no_push_auth_file.
  - revert r. induction es as [|e es IH]; intros r; [apply calls_ret|].
    apply calls_bind; [apply no_push_walk_auth|exact IH].
  - destruct (str_contains _ _); [apply calls_ret|]. revert r.
    induction es as [|e es IH]; intros r; [apply calls_ret|].
    apply calls_bind; [apply no_push_walk_auth|exact IH].
Qed.
#[local] Hint Resolve no_push_walk_auth : calls.

Lemma no_push_NewRepoAuth c p1 p2 : no_push (NewRepoAuth c p1 p2).
Proof. unfold NewRepoAuth, scall. go_calls. Qed.

(** ** main *)

Lemma checkArgs_files f0 f : checkArgs f0 = Some f → filesList f ≠ "" ∧ nopush f = nopush f0.
Proof.
  unfold checkArgs. intros H.
  do 6 (apply bind_Some in H as (? & ? & H)). injection H as <-. cbn [filesList nopush]. split; [|done].
  unfold checkArg in *. repeat case_bool_decide; congruence.
Qed.

Lemma kmods_to_sign_Some files m :
  kmods_to_sign files = Some m →
  dom m = list_to_set files ∧ (∀ k v, m !! k = Some v → v = not_found) ∧
  ∀ path, path ∈ files → canonicalisePath path = path.
Proof.
  unfold kmods_to_sign. destruct (forallb _ files) eqn:Hf; [|done]. intros [= <-]. split_and!.
  - rewrite dom_list_to_map_L. f_equal. rewrite <-list_fmap_compose. apply list_fmap_id.
  - intros k v Hk%elem_of_list_to_map_2. apply list_elem_of_In, in_map_iff in Hk as (x & [= _ <-] & _). done.
  - intros path Hp. rewrite forallb_forall in Hf. apply list_elem_of_In in Hp.
    by apply Hf, bool_decide_eq_true in Hp.
Qed.

(** How the program ends. *)
Definition main_post (f0 : Flags) (o : outcome nat) (h : shist) : Prop :=
  o = Done 0 →
  (checkArgs f0 = None ∧ h = []) ∨
  ∃ f, checkArgs f0 = Some f ∧
    (nopush f = true ∨
     ∃ h' name img auth opts, h = h' ++ [Ev (SPush name img auth opts) (Ok tt)]).

Lemma wp_main f0 : wp (main_allowed f0) (main f0) (main_post f0) [].
Proof.
  unfold main. destruct (checkArgs f0) as [f|] eqn:Hf0; [|intros _; by left].
  destruct (checkArgs_files _ _ Hf0) as [Hfiles _].
  apply wp_bind. split; [by apply no_push_ok|]. intros [dir|err|w]; try done. cbn [wp].
  destruct (kmods_to_sign _) as [kmods|] eqn:Hk; [|done].
  destruct (kmods_to_sign_Some _ _ Hk) as (Hdom & Hnf & Hcanon).
  apply wp_bind. eapply wp_calls; [apply no_push_NewRepoAuth|by intros; apply no_push_ok|].
  intros [[pull push]|w] h1 Hp1; [|done]. set (h0 := [] ++ _) in Hp1.
  assert (did SMkdirTemp (Ok dir) h1) as Hdir by (eapply did_mono; [exact Hp1|]; unfold h0, did; set_solver).
  apply wp_bind. unfold GetImageByName. apply wp_bind. split; [by apply no_push_ok|].
  intros [img|err|w]; try done. set (h2 := h1 ++ _).
  assert (h1 `prefix_of` h2) as Hp2 by by apply prefix_app_r.
  apply wp_bind. eapply wp_post.
  { apply (wp_WalkFilesInImage f0 f dir img (dom kmods)); [done|].
    split; [done|]. intros k v Hkv. left. by eapply Hnf. }
  intros [[[[]|err|w] m]|w] h3 Hp3 Hm; try done. destruct Hm as [Hmdom Hm].
  apply wp_bind. eapply wp_post; [apply wp_collect|].
  intros [[[[]|err|w] tb]|w] h4 Hp4 Hc; try done. destruct Hc as (_ & Hc & Htb).
  destruct (Hc eq_refl) as [_ Harch].
  apply wp_bind. split; [by apply no_push_ok|]. intros [[]|err|w]; try done. set (h5 := h4 ++ _).
  assert (h4 `prefix_of` h5) as Hp5 by by apply prefix_app_r.
  apply wp_bind. eapply wp_post; [apply wp_AddLayerToImage|].
  intros [[img2|err|w]|w] h6 Hp6 Hl; try done. destruct Hl as (mt & layer & img1 & t & Hl1 & Hl2 & Hl3).
  destruct (nopush f) eqn:Hnp; [intros _; right; exists f; auto|].
  apply wp_bind. unfold WriteImageByName. apply wp_bind. split.
  - intros _. exists f. split; [done|]. split; [done|].
    exists dir, pull, (getTransportOptions (insecurePull f) (skipTlsVerifyPull f)), img, tb, mt, layer,
      img1, img2, t, push.
    assert (h2 `prefix_of` h6) as Hp26 by (by do 3 (etrans; [|eassumption])).
    cbv zeta. split_and!; try done.
    + eapply did_mono, Hdir. by trans h2.
    + eapply did_mono; [exact Hp26|]. unfold h2, did. in_hist.
    + intros path Hpath. split; [by apply Hcanon|].
      assert (path ∈ dom m) as Hin by (rewrite Hmdom, Hdom; by apply elem_of_list_to_set).
      apply elem_of_dom in Hin as [v Hv].
      destruct (Harch path v) as [Hvn Ha]; [by apply elem_of_range_map|].
      destruct (Hm path v Hv) as [?|Hs]; [done|]. exists v. split.
      * eapply signed_file_mono, Hs. trans h4; [done|by trans h5].
      * eapply archived_mono, Ha; [by trans h5|done].
    + intros path data Hin. destruct (Htb path data Hin) as [Hn|Hkeys]; [by apply not_elem_of_nil in Hn|].
      apply list_elem_of_fmap in Hkeys as ([k v] & -> & Hkv). apply elem_of_range_map in Hkv.
      apply elem_of_dom_2 in Hkv. rewrite Hmdom, Hdom in Hkv. by apply elem_of_list_to_set in Hkv.
    + eapply did_mono; [exact Hp6|]. unfold h5, did. in_hist.
  - intros [[]|err|w]; try done. intros _. right. exists f. split; [done|]. right.
    by eexists _, _, _, _, _.
Qed.

(** ** Properties *)

(** C11: against every registry and file system, signimage pushes only
    without -no-push, to the signed image name, the pulled image with one
    layer added, and only when every file it was asked to sign has a
    canonical path, was found in a layer of that image, written to the work
    directory, signed with the key and certificate given, and - when it is a
    regular file - archived under its path as it was after; and the layer
    holds nothing else. *)
Theorem signimage_push_safety {S} (srv : server sans S) s f0 h1 e h2 :
  run_trace srv (main f0) s = h1 ++ e :: h2 → is_push (ev_req e) = true →
  ∃ f, checkArgs f0 = Some f ∧ push_ready f (ev_req e) h1.
Proof. intros Htr. by apply (wp_run _ _ _ srv s (wp_main f0)) in Htr. Qed.

(** C37: signimage exits with code 0 only when the last call pushed the image
    successfully, when it was told not to push, or - having done nothing at
    all - when a flag is missing.  A Job whose Module lists no files to sign
    is such a case: it succeeds without signing anything. *)
Theorem signimage_exit_spec {S} (srv : server sans S) s f0 :
  (run_out srv (main f0) s = Done 0 →
    (checkArgs f0 = None ∧ run_trace srv (main f0) s = []) ∨
    ∃ f, checkArgs f0 = Some f ∧
      (nopush f = true ∨ ∃ h' name img auth opts,
         run_trace srv (main f0) s = h' ++ [Ev (SPush name img auth opts) (Ok tt)])) ∧
  (filesList f0 = "" → run_out srv (main f0) s = Done 0 ∧ run_trace srv (main f0) s = []).
Proof using Type*.
  split.
  - pose proof (wp_run _ _ _ srv s (wp_main f0)) as [H _]. exact H.
  - intros Hf. assert (checkArgs f0 = None) as Hn.
    { destruct (checkArgs f0) as [f|] eqn:Hc; [|done]. unfold checkArgs in Hc.
      apply bind_Some in Hc as (? & _ & Hc). apply bind_Some in Hc as (? & _ & Hc).
      apply bind_Some in Hc as (? & Hc & _). by rewrite Hf in Hc. }
    unfold run_out, run_trace, main. by rewrite Hn.
Qed.
End signimage.

(** ** Example *)

Definition ex_auth_decoder : AuthDecoder := {|
  unmarshal_raw _ := Ok {[ "auths" := "x" ]};
  unmarshal_auths _ := Ok {[ "quay.io" := "robot" ]} |}.

Definition ex_flags (files : string) : Flags :=
  mk_flags "quay.io/org/driver:v1" "quay.io/org/driver:v1-signed" files "/signingkey/key.priv"
    "/signingcert/public.der" "/docker_config" false false false false false.

(** An image with the module in its lower layer, and another version of it
    that the upper layer hides it with. *)
Definition ex_image_server : server sans unit := λ q s,
  (match q return sans q with
   | SMkdirTemp => Ok "/tmp/kmod_signer1"
   | SLstat _ => Ok (DDir "/docker_config" [DFile "/docker_config/.dockerconfigjson"])
   | SOpen _ => Ok tt
   | SReadAll _ => Ok "SIGNED"
   | SPull _ _ _ => Ok "img"
   | SLayers _ => Ok ["lower"; "upper"]
   | SUncompressed l =>
       Ok (mk_tarstream
             (if bool_decide (l = "upper") then [mk_tar "./opt/a.ko" (Ok "new")]
              else [mk_tar "opt/a.ko" (Ok "old"); mk_tar "opt/b.ko" (Ok "b")]) None)
   | SMkdirAll _ => Ok tt
   | SWriteFile _ _ => Ok tt
   | SSignFile _ _ _ => Ok tt
   | SStat _ => Ok false
   | SWriteTar _ _ => Ok tt
   | SMediaType _ => Ok "layer"
   | SLayerFromFile _ _ => Ok "signed layer"
   | SAppendLayers _ _ => Ok "img+layer"
   | SImageMediaType _ => Ok "manifest"
   | SSetMediaType img _ => img
   | SPush _ _ _ _ => Ok tt
   end, s).

Definition ex_main (files : string) : SM nat :=
  main (AD := ex_auth_decoder) (MO := map_order_std) (ex_flags files).

(** The upper layer's file is the one that is signed; with a file that is in
    no layer nothing is pushed, and the exit code is 4. *)
Example ex_signimage_runs :
  run_out ex_image_server (ex_main "/opt/a.ko:/opt/b.ko") tt = Done 0 ∧
  run_out ex_image_server (ex_main "/opt/a.ko:/opt/c.ko") tt = Done 4 ∧
  run_out ex_image_server (ex_main "opt/a.ko") tt = Done 9 ∧
  List.filter (λ q, match q with SWriteFile _ _ => true | _ => false end)
    (List.map ev_req (run_trace ex_image_server (ex_main "/opt/a.ko") tt))
    = [SWriteFile "/tmp/kmod_signer1/./opt/a.ko" "new"].
Proof. vm_compute. done. Qed.

(** The names of the archive's entries are joined to the work directory as
    they are: one that climbs out of it is written elsewhere. *)
Example ex_signimage_escapes :
  let e := mk_tar "../../etc/x.ko" (Ok "x") in
  let p := processFile "/tmp/kmod_signer1" "/etc/x.ko" "key" "cert" e {[ "/etc/x.ko" := not_found ]} in
  existsb (λ ev, match ev_req ev with
                 | SWriteFile path _ => bool_decide (path_clean path = "/etc/x.ko")
                 | _ => false end) (run_trace ex_image_server p tt) = true.
Proof. vm_compute. done. Qed.

Lemma signimage_push_safety_witness :
  ∃ (h1 : shist) (e : @event sreq sans), is_push (ev_req e) = true ∧
    ∃ f, checkArgs (ex_flags "/opt/a.ko") = Some f ∧ push_ready f (ev_req e) h1.
Proof.
  assert (existsb (λ e, is_push (ev_req e)) (run_trace ex_image_server (ex_main "/opt/a.ko") tt) = true) as H
    by (vm_compute; reflexivity).
  apply existsb_split in H as (h1 & e & h2 & Htr & He). exists h1, e. split; [exact He|].
  exact (signimage_push_safety (AD := ex_auth_decoder) (MO := map_order_std) ex_image_server tt
    (ex_flags "/opt/a.ko") h1 e h2 Htr He).
Defined.
