(* ===== verification/Fleet.v ===== *)
(** * The hub and its spokes together

    A spoke publishes the kernels of its nodes in a ClusterClaim
    (controllers/node_kernel_clusterclaim.go); the hub reads them from the
    ManagedCluster, builds and signs an image for each kernel and sends the
    Module without its build and sign settings (internal/cluster,
    internal/manifestwork); the operator of the spoke runs that Module
    (controllers/module_reconciler.go).  Here the three are composed: the
    image a spoke runs for a kernel is the one the hub has built and signed,
    and the spoke creates no build or signing job of its own. *)

From S2P Require Import Prelude Prog K8s Api Client Utils Helpers KernelMapper DaemonSet Registry.
From S2P Require Import CA Managers BuildConfig SignJob StatusUpdater ModuleReconciler Operator NodeControllers Hub.
From stdpp Require Import options.

(** ** The mapper on the hub and on the spoke *)

Section mapper.
Context {R : Regexp} {E : Envsubst}.

(** The mappings a spoke receives match the same kernels. *)
Lemma findKernelMapping_strip ms k :
  findKernelMapping (List.map strip_mapping ms) k =
  (m ← findKernelMapping ms k; Ok (strip_mapping m)).
Proof.
  induction ms as [|m ms IH]; [done|]. simpl. rewrite IH.
  repeat case_match; done.
Qed.

Variables (namespace : string) (mcm : ManagedClusterModule) (m : Module_).
(** The Module of the spoke: its spec is the one the ManifestWork holds. *)
Hypothesis Hspec : mod_Spec m = spoke_spec mcm.

Abbreviation hub_data := (GetModuleLoaderDataForKernel (hub_module namespace mcm)).
Abbreviation hub_container := (ml_Container (ModuleLoader (mcms_ModuleSpec (mcm_Spec mcm)))).

(** What the two have in common. *)
Definition same_kernel_module (hub spoke : ModuleLoaderData) : Prop :=
  mld_ContainerImage spoke = mld_ContainerImage hub ∧
  mld_KernelVersion spoke = mld_KernelVersion hub ∧
  mld_RegistryTLS spoke = mld_RegistryTLS hub ∧ mld_Modprobe spoke = mld_Modprobe hub ∧
  mld_Selector spoke = mld_Selector hub ∧
  mld_ImageRepoSecret spoke = mld_ImageRepoSecret hub.

Lemma spoke_data_Ok k mld' :
  GetModuleLoaderDataForKernel m k = Ok mld' ↔
  ∃ mapping env image,
    findKernelMapping (mlc_KernelMappings hub_container) k = Ok mapping ∧
    KernelComponentsAsEnvVars k = Ok env ∧
    envsubst env (effective_image mapping hub_container) = Ok image ∧
    mld' = mld_of_mapping (strip_mapping mapping) m k None image.
Proof using Type*.
  rewrite GetModuleLoaderDataForKernel_Ok. unfold mod_container. rewrite Hspec. simpl. split.
  - intros (mp & env & sign & image & Hf & Henv & Hs & Hi & ->).
    rewrite findKernelMapping_strip in Hf. apply result_bind_Ok in Hf as (mp0 & Hf & [= <-]).
    simpl in Hs. subst sign. by exists mp0, env, image.
  - intros (mp & env & image & Hf & Henv & Hi & ->).
    exists (strip_mapping mp), env, None, image. by rewrite findKernelMapping_strip, Hf.
Qed.

Lemma same_kernel_module_of mapping k sign image :
  same_kernel_module (mld_of_mapping mapping (hub_module namespace mcm) k sign image)
                     (mld_of_mapping (strip_mapping mapping) m k None image).
Proof using Type*. unfold same_kernel_module, mld_of_mapping, mod_container. simpl. by rewrite Hspec. Qed.

Lemma spoke_of_hub k mld :
  hub_data k = Ok mld →
  ∃ mld', GetModuleLoaderDataForKernel m k = Ok mld' ∧ same_kernel_module mld mld'.
Proof using Type*.
  intros (mp & env & sign & image & Hf & Henv & _ & Hi & ->)%GetModuleLoaderDataForKernel_Ok.
  eexists. split; [apply spoke_data_Ok; by exists mp, env, image|apply same_kernel_module_of].
Qed.

(** A kernel the spoke has data for has data on the hub, unless the hub
    cannot substitute the kernel in the settings for signing. *)
Definition hub_signing_fails (k : string) : Prop :=
  ∃ mapping err, findKernelMapping (mlc_KernelMappings hub_container) k = Ok mapping ∧
    GetRelevantSign (mlc_Sign hub_container) (km_Sign mapping) k = Err err ∧
    is_ok (hub_data k) = false.

Lemma hub_of_spoke k mld' :
  GetModuleLoaderDataForKernel m k = Ok mld' →
  (∃ mld, hub_data k = Ok mld ∧ same_kernel_module mld mld') ∨ hub_signing_fails k.
Proof using Type*.
  intros (mp & env & image & Hf & Henv & Hi & ->)%spoke_data_Ok.
  assert (∀ sign, match mergeSign (mlc_Sign hub_container) (km_Sign mp) with
                  | None => sign = None
                  | Some _ => ∃ s, sign = Some s ∧
                      GetRelevantSign (mlc_Sign hub_container) (km_Sign mp) k = Ok s
                  end →
    ∃ mld, hub_data k = Ok mld ∧
      same_kernel_module mld (mld_of_mapping (strip_mapping mp) m k None image)) as Hok.
  { intros sign Hs. eexists. split; [|apply same_kernel_module_of].
    apply GetModuleLoaderDataForKernel_Ok. by exists mp, env, sign, image. }
  destruct (mergeSign (mlc_Sign hub_container) (km_Sign mp)) as [ms|] eqn:Hms; [|left; by apply (Hok None)].
  destruct (GetRelevantSign (mlc_Sign hub_container) (km_Sign mp) k) as [s|err|w] eqn:Hs.
  - left. apply (Hok (Some s)). by exists s.
  - right. exists mp, err. split_and!; [done..|].
    destruct (hub_data k) as [mld| |] eqn:Hhub; [|done..].
    apply GetModuleLoaderDataForKernel_Ok in Hhub as (mp' & env' & sign & image' & Hf' & _ & Hs' & _).
    unfold mod_container in Hf', Hs'. simpl in Hf', Hs'. rewrite Hf in Hf'. injection Hf' as <-.
    rewrite Hms in Hs'. destruct Hs' as (s & _ & Hs'). congruence.
  - exfalso. assert (length (str_split kernelRegexp k) < 3) as Hlt.
    { apply (GetRelevantSign_panics (mlc_Sign hub_container) (km_Sign mp)); [congruence|by exists w]. }
    apply KernelComponents_panic_iff in Hlt as [w' Hw']. congruence.
Qed.

Lemma spoke_panics k :
  (∃ w, hub_data k = Panic w) ↔ (∃ w, GetModuleLoaderDataForKernel m k = Panic w).
Proof using Type*.
  rewrite !GetModuleLoaderDataForKernel_panics. unfold mod_container. rewrite Hspec. simpl.
  rewrite findKernelMapping_strip.
  destruct (findKernelMapping (mlc_KernelMappings hub_container) k) as [mp| |]; simpl;
    [|tauto..]. split; intros [H _]; (split; [done|by eexists]).
Qed.
End mapper.

(** ** From a node of the spoke to the images of the hub *)

Section fleet.
Context {R : Regexp} {E : Envsubst} {MO : MapOrder} {BM : BuildManager} {SM : SignManager}.
Context {BS : BuildManagerSpec BM} {SS : SignManagerSpec SM}.
Variable namespace : string.

(** The hub sees the value the spoke's claim controller computed for its
    nodes: the ClusterClaim of the spoke is copied into the ManagedCluster. *)
Definition publishes (nodes : list Node) (cluster : ManagedCluster) : Prop :=
  kernelVersions cluster = Ok (str_split is_newline (claim_value nodes)).

Definition single_line (nodes : list Node) : Prop :=
  ∀ n, n ∈ nodes → str_forall (λ c, negb (is_newline c)) (node_KernelVersion n).

Lemma published_kernel nodes cluster node :
  publishes nodes cluster → single_line nodes → node ∈ nodes →
  ∃ versions, kernelVersions cluster = Ok versions ∧ node_KernelVersion node ∈ versions.
Proof.
  intros Hp Hl Hn. eexists. split; [exact Hp|]. rewrite claim_split; [|by destruct nodes; set_solver|done].
  apply claim_keys. by exists node.
Qed.

(** Managers do not store ManifestWorks. *)
Lemma stores_work_not_gc mw q : stores_work mw q → ¬ gc_call KBuild q.
Proof. intros [->|[b ->]] [H|(o & bg & H)]; done. Qed.
Lemma stores_work_not_image mw view cluster h q :
  stores_work mw q → ¬ image_call namespace view cluster h q.
Proof.
  intros Hst [H|(vs & v & mld & _ & _ & _ & [H%bm_call_sync|H%sm_call_sync])];
    destruct Hst as [->|[b ->]]; by inversion H.
Qed.

(** The ManifestWork stored is for a ManagedClusterModule the hub read, and
    the images of its cluster are ready. *)
Lemma hub_stores_work {S} (srv : kserver S) s key h1 e h2 mw :
  run_trace srv (hub_Reconcile namespace key) s = h1 ++ e :: h2 → stores_work mw (ev_req e) →
  ∃ mcm clusters view cluster,
    (Ev (RGet KManagedClusterModule key) (Ok mcm) : @event req ans) ∈ h1 ∧
    (Ev (RList KManagedCluster (clusters_opts mcm)) (Ok clusters) : @event req ans) ∈ h1 ∧
    mcm_view mcm view ∧ cluster ∈ clusters ∧ images_ready namespace view cluster h1 ∧
    work_for mcm cluster mw.
Proof.
  intros Htr Hst. pose proof (wp_run _ _ _ srv s (wp_hub_Reconcile namespace key)) as [_ Hok].
  assert (∀ mw' q, stores_work mw q → stores_work mw' q → mw' = mw) as Hinj.
  { assert (∀ x q, stores_work x q → created KManifestWork q = Some x ∨ patched KManifestWork q = Some x) as H.
    { intros x q [->|[b ->]]; [left|right]; apply as_kind_same. }
    assert (∀ x q, stores_work x q → created KManifestWork q = None ∨ patched KManifestWork q = None) as Hn.
    { intros x q [->|[b ->]]; auto. }
    intros x q H1 H2. pose proof (Hn _ _ H1) as H3. destruct (H _ _ H1), (H _ _ H2), H3; congruence. }
  destruct (Hok _ _ _ Htr) as [H|[H|(mcm & clusters & H1 & H2 & H)]].
  { by destruct Hst as [Heq|[b Heq]]; rewrite Heq in H. }
  { by apply (stores_work_not_gc mw) in H. }
  destruct H as [(view & cluster & _ & _ & H)|[(view & cluster & mw' & Hv & Hc & Hr & Hw & Hs)|
    [(ws & mw' & _ & _ & _ & Heq)|(view & ws & _ & Heq)]]].
  - by apply (stores_work_not_image mw) in H.
  - rewrite (Hinj mw' _ Hst Hs) in Hw. by exists mcm, clusters, view, cluster.
  - by destruct Hst as [Heq'|[b Heq']]; rewrite Heq' in Heq.
  - by destruct Hst as [Heq'|[b Heq']]; rewrite Heq' in Heq.
Qed.

(** No mapping has build or sign settings of its own, so that erasing those
    of the shared mappings changes nothing. *)
Definition plain_mappings (mcm : ManagedClusterModule) : Prop := strip_mappings mcm = mcm.

(** C7: from a node of a spoke to the images the hub checked: when the hub
    stores a ManifestWork for a cluster whose claim was computed from the
    spoke's nodes, and the spoke's Module has the spec the work holds, then
    for every node the data the spoke's operator computes name an image that
    the hub has seen built and signed, for the ManagedClusterModule it read
    or - only if mappings have settings of their own - without those
    settings.  The one exception is a kernel that cannot be substituted in
    the signing settings: the hub skips it. *)
Theorem fleet_images_ready {S} (srv : kserver S) s key h1 e h2 mw m0 m nodes node mld' :
  run_trace srv (hub_Reconcile namespace key) s = h1 ++ e :: h2 → stores_work mw (ev_req e) →
  mws_Manifests (mw_Spec mw) = [m0] → mod_Spec m = mod_Spec m0 →
  (∀ opts cs c, (Ev (RList KManagedCluster opts) (Ok cs) : @event req ans) ∈ h1 → c ∈ cs →
     mc_Name c = om_Namespace (mw_meta mw) → publishes nodes c) →
  single_line nodes → node ∈ nodes →
  GetModuleLoaderDataForKernel m (node_kernel node) = Ok mld' →
  ∃ mcm view, (Ev (RGet KManagedClusterModule key) (Ok mcm) : @event req ans) ∈ h1 ∧
    mcm_view mcm view ∧ (plain_mappings mcm → view = mcm) ∧
    ((∃ mld, GetModuleLoaderDataForKernel (hub_module namespace view) (node_kernel node) = Ok mld ∧
        same_kernel_module mld mld' ∧ hub_build_ready view mld h1 ∧ hub_sign_ready view mld h1) ∨
     hub_signing_fails namespace view (node_kernel node)).
Proof.
  intros Htr Hst Hm0 Hm Hpub Hl Hn Hmld.
  destruct (hub_stores_work _ _ _ _ _ _ _ Htr Hst)
    as (mcm & clusters & view & cluster & Hget & Hlist & Hview & Hc & Hr & Hkey & _ & _ & Hspec).
  assert (mod_Spec m = spoke_spec view) as Hs.
  { rewrite Hspec, <-(spoke_work_spec_view mcm view Hview) in Hm0. simpl in Hm0.
    injection Hm0 as <-. by rewrite Hm. }
  exists mcm, view. split_and!; [done|done|by intros Hp; destruct Hview as [-> | ->]|].
  destruct (hub_of_spoke namespace view m Hs _ _ Hmld) as [(mld & Hhub & Hsame)|?]; [left|by right].
  exists mld. split_and!; [done|done| |].
  all: destruct Hr as (vs & Hvs & _ & Hready);
    destruct (published_kernel nodes cluster node) as (vs' & Hvs' & Hin);
    [eapply Hpub; [exact Hlist|done|by injection Hkey]|done|done|];
    rewrite Hvs in Hvs'; injection Hvs' as <-; by eapply Hready.
Qed.
End fleet.

(** The operator of a spoke computes, from the Module a ManifestWork
    holds, data without build and sign settings that name the image, the TLS
    options, the modprobe arguments, the selector and the pull secret the hub
    computes for the same kernel; it has data for every kernel the hub has
    data for, and for no other, except those the hub fails to substitute in
    the signing settings; and it panics exactly when the hub does. *)
Theorem spoke_data_spec {R : Regexp} {E : Envsubst} namespace mcm m k :
  mod_Spec m = spoke_spec mcm →
  (∀ mld, GetModuleLoaderDataForKernel (hub_module namespace mcm) k = Ok mld →
     ∃ mld', GetModuleLoaderDataForKernel m k = Ok mld' ∧ same_kernel_module mld mld') ∧
  (∀ mld', GetModuleLoaderDataForKernel m k = Ok mld' →
     mld_Build mld' = None ∧ mld_Sign mld' = None ∧
     ((∃ mld, GetModuleLoaderDataForKernel (hub_module namespace mcm) k = Ok mld ∧
              same_kernel_module mld mld') ∨ hub_signing_fails namespace mcm k)) ∧
  ((∃ w, GetModuleLoaderDataForKernel (hub_module namespace mcm) k = Panic w) ↔
   (∃ w, GetModuleLoaderDataForKernel m k = Panic w)).
Proof.
  intros Hm. split_and!.
  - intros mld. by apply (spoke_of_hub namespace mcm m Hm).
  - intros mld' Hmld. split_and!; [..|by apply (hub_of_spoke namespace mcm m Hm)];
      apply (spoke_data_Ok mcm m Hm) in Hmld as (mp & env & image & _ & _ & _ & ->); simpl;
      try done; unfold mod_container; by rewrite Hm.
  - by apply (spoke_panics namespace mcm m Hm).
Qed.

(** ** A spoke builds and signs nothing *)

Section spoke.
Context {D : ManifestDecoder} {Hs : Hasher} {R : Regexp} {E : Envsubst} {MO : MapOrder}.
Variables (goarch operatorNamespace : string).
#[local] Existing Instance buildconfig_manager.
#[local] Existing Instance signjob_manager.
Let BM : BuildManager := buildconfig_manager goarch.
Let SM : SignManager := signjob_manager goarch.

(** Nothing to build and nothing to sign. *)
Lemma handleBuild_none mld : mld_Build mld = None → handleBuild (BM := BM) mld = Ret (Ok true).
Proof. intros H. unfold handleBuild. simpl. unfold build_ShouldSync, ShouldBeBuilt. by rewrite H. Qed.
Lemma handleSigning_none mld : mld_Sign mld = None → handleSigning (SM := SM) mld = Ret (Ok true).
Proof. intros H. unfold handleSigning. simpl. unfold sign_ShouldSync, ShouldBeSigned. by rewrite H. Qed.

Lemma calls_sign_GC name ns owner : calls starts_no_job (sign_GarbageCollect name ns owner).
Proof.
  intros h. eapply wp_mono; [apply wp_sign_GarbageCollect| |done].
  intros h' q _ [Hq|(j & l & -> & _)]; [by apply starts_no_job_read|done].
Qed.
#[local] Hint Resolve calls_sign_GC : calls.

Lemma calls_handle_kernel k mld dss :
  mld_Build mld = None → mld_Sign mld = None →
  calls starts_no_job (handle_kernel (BM := BM) (SM := SM) KernelLabel operatorNamespace k mld dss).
Proof.
  intros Hb Hsn. unfold handle_kernel. rewrite handleBuild_none, handleSigning_none by done.
  cbn [prog_bind negb]. apply calls_bind; [|go_calls].
  unfold handleDriverContainer. apply calls_bind; [by apply calls_CreateOrPatch|go_calls].
Qed.

Lemma calls_finish m mappings mapped targeted dss :
  calls starts_no_job (finish_reconcile (BM := BM) (SM := SM) KernelLabel operatorNamespace m
                         mappings mapped targeted dss).
Proof.
  unfold finish_reconcile. apply calls_bind.
  { unfold handleDevicePlugin. destruct (negb _); [apply calls_ret|].
    apply calls_bind; [by apply calls_CreateOrPatch|go_calls]. }
  intros [[]|e|w]; [|go_calls..]. apply calls_bind.
  { unfold garbageCollect. apply calls_bind; [by intros h; apply wp_GarbageCollect|].
    intros [r|e|w]; [|go_calls..]. apply calls_bind; [apply calls_ret|].
    intros [r2|e|w]; [|go_calls..]. apply calls_bind; [apply calls_sign_GC|go_calls]. }
  intros [[]|e|w]; [|go_calls..]. apply calls_bind; [|go_calls].
  unfold ModuleUpdateStatus, StatusPatch. go_calls.
Qed.

Lemma calls_spoke_reconcile mcm m :
  mod_Spec m = spoke_spec mcm →
  calls starts_no_job (reconcile_module (BM := BM) (SM := SM) KernelLabel operatorNamespace m).
Proof.
  intros Hm h. unfold reconcile_module, getNodesListBySelector. do 2 apply wp_bind. split; [done|].
  intros [nodes|e|w]; try done. apply wp_bind, wp_lift_result; [|done..].
  intros [mappings mapped] Hrel. apply getRelevant_Ok in Hrel as [_ Hmap]. cbn [fst snd].
  apply wp_bind, wp_ModuleDaemonSetsByKernelVersion; [done|].
  intros [[dss|e|w]|w] h0 _ _; try done.
  apply (calls_bind starts_no_job); [|intros [dss'|r]; [apply calls_finish|apply calls_ret]].
  apply calls_range_loop. intros [k mld] dss' Hin%elem_of_range_map%Hmap. destruct Hin as [Hg _].
  apply (spoke_data_Ok mcm m Hm) in Hg as (mp & env & image & _ & _ & _ & ->).
  apply calls_handle_kernel; simpl; try done; unfold mod_container; by rewrite Hm.
Qed.

(** C23: the operator of a spoke never creates a Build or a signing Job: as
    long as the Module it reads has the spec of a ManifestWork, the hub does
    all the building and signing. *)
Theorem spoke_builds_nothing {S} (srv : kserver S) s key h1 e h2 :
  run_trace srv (operator_Reconcile goarch operatorNamespace key) s = h1 ++ e :: h2 →
  (∀ m, (Ev (RGet KModule key) (Ok m) : @event req ans) ∈ h1 → ∃ mcm, mod_Spec m = spoke_spec mcm) →
  starts_no_job (ev_req e).
Proof.
  revert h1 e h2. apply (wp_run (λ h q,
    (∀ m, (Ev (RGet KModule key) (Ok m) : @event req ans) ∈ h → ∃ mcm, mod_Spec m = spoke_spec mcm) →
    starts_no_job q) _ (λ _ _, True)).
  unfold operator_Reconcile, Reconcile, getRequestedModule. do 2 apply wp_bind. split; [done|].
  intros [m|err|w]; [|cbn [wp prog_bind]; by destruct (IsNotFound _)|done].
  set (h := [] ++ _). assert ((Ev (RGet KModule key) (Ok m) : @event req ans) ∈ h) as Hin by (by left).
  clearbody h. apply wp_bind. eapply (wp_calls _ starts_no_job); [|auto|].
  { destruct (bool_decide _); [apply calls_ret|].
    eapply calls_mono; [apply calls_ca_Sync|]. intros q Hq. by apply plain_configmaps. }
  intros [[[]|e|w]|w] h1 Hp1; try done. apply wp_bind.
  eapply wp_calls; [apply reads_setKMMOMetrics|intros h' q _ Hq _; by apply starts_no_job_read|].
  intros [[]|w] h2 Hp2; try done.
  eapply wp_mono; [apply (wp_when (∃ mcm, mod_Spec m = spoke_spec mcm) starts_no_job)| |done].
  - intros [mcm Hm]. by eapply calls_spoke_reconcile.
  - intros h' q Hp Hq Hall. apply Hq, Hall.
    assert (h `prefix_of` h') as [l ->] by (trans h1; [done|]; by trans h2).
    apply elem_of_app. by left.
Qed.
End spoke.

(** ** Examples *)

(** The spoke that runs the first cluster of the hub's example, and the
    Module its ManifestWork holds. *)
Definition ex_spoke_nodes : list Node :=
  [mk_node (meta_named "worker-0" "") [] "5.14.0-70.el9" "RHCOS"].
Definition ex_spoke_module : Module_ :=
  mk_module (meta_named "nvidia" "spoke-ns") (spoke_spec ex_mcm) empty_modstatus.

Lemma spoke_data_spec_witness :
  ∃ mld mld', GetModuleLoaderDataForKernel (R := regexp_substring) (E := envsubst_id)
      (hub_module "kmm-hub" ex_mcm) "5.14.0-70.el9" = Ok mld ∧
    GetModuleLoaderDataForKernel (R := regexp_substring) (E := envsubst_id)
      ex_spoke_module "5.14.0-70.el9" = Ok mld' ∧ same_kernel_module mld mld'.
Proof.
  destruct (GetModuleLoaderDataForKernel (R := regexp_substring) (E := envsubst_id)
    (hub_module "kmm-hub" ex_mcm) "5.14.0-70.el9") as [mld|e|w] eqn:H; [|discriminate H..].
  destruct (proj1 (spoke_data_spec (R := regexp_substring) (E := envsubst_id) "kmm-hub" ex_mcm
    ex_spoke_module "5.14.0-70.el9" eq_refl) mld H) as (mld' & H1 & H2).
  exists mld, mld'. exact (conj eq_refl (conj H1 H2)).
Defined.

(** A hub with one cluster. *)
Definition ex_fleet_server : kserver unit := λ q s,
  match q return ans q * unit with
  | RList KManagedCluster _ => (Ok [ex_managed "cluster-1" "5.14.0-70.el9"], s)
  | q => ex_hub_server q s
  end.

Definition ex_claim_seen (e : @event req ans) : bool :=
  match ev_req e as q return ans q → bool with
  | RList KManagedCluster _ => λ r : result (list ManagedCluster),
      match r with
      | Ok cs => forallb (λ c, bool_decide (kernelVersions c = Ok ["5.14.0-70.el9"])) cs
      | _ => true
      end
  | _ => λ _, true
  end (ev_ans e).
Definition ex_holds_spoke_module (e : @event req ans) : bool :=
  match created KManifestWork (ev_req e) with
  | Some mw => bool_decide (mws_Manifests (mw_Spec mw) = [ex_spoke_module])
  | None => true
  end.

Lemma forallb_split {A} (f : A → bool) l l1 x l2 :
  forallb f l = true → l = l1 ++ x :: l2 → (∀ y, y ∈ l1 → f y = true) ∧ f x = true.
Proof.
  intros H ->. rewrite forallb_app in H. apply andb_prop in H as [H1 H2]. simpl in H2.
  apply andb_prop in H2 as [H2 _]. split; [|done]. intros y Hy. rewrite forallb_forall in H1.
  by apply H1, list_elem_of_In.
Qed.

Lemma ex_fleet_creates :
  ∃ h1 e h2 mw, run_trace ex_fleet_server ex_hub tt = h1 ++ e :: h2 ∧
    ev_req e = RCreate KManifestWork mw ∧ mws_Manifests (mw_Spec mw) = [ex_spoke_module] ∧
    ∀ e', e' ∈ h1 → ex_claim_seen e' = true.
Proof.
  set (t := run_trace ex_fleet_server ex_hub tt).
  assert (existsb (ex_creates_work "cluster-1") t = true) as H by (vm_compute; reflexivity).
  assert (forallb (λ e, ex_claim_seen e && ex_holds_spoke_module e) t = true) as Hall
    by (vm_compute; reflexivity).
  clearbody t. apply existsb_split in H as (h1 & e & h2 & Htr & He). unfold ex_creates_work in He.
  destruct (forallb_split _ _ _ _ _ Hall Htr) as [H1 [_ H2]%andb_prop].
  destruct (created KManifestWork (ev_req e)) as [mw|] eqn:Hc; [|done].
  unfold ex_holds_spoke_module in H2. rewrite Hc in H2. apply bool_decide_eq_true in H2.
  apply created_inv in Hc. exists h1, e, h2, mw. split_and!; [done..|].
  intros e' He'. by apply H1, andb_prop in He' as [? _].
Qed.

Lemma fleet_images_ready_witness :
  ∃ h1 mld' view,
    GetModuleLoaderDataForKernel (R := regexp_substring) (E := envsubst_id)
      ex_spoke_module "5.14.0-70.el9" = Ok mld' ∧
    ((∃ mld, same_kernel_module mld mld' ∧
        hub_build_ready (BS := buildconfig_manager_spec (D := ex_decoder) (Hs := ex_hasher) "amd64")
          view mld h1) ∨
     hub_signing_fails (R := regexp_substring) (E := envsubst_id) "kmm-hub" view "5.14.0-70.el9").
Proof.
  destruct ex_fleet_creates as (h1 & e & h2 & mw & Htr & He & Hm & Hall).
  destruct (GetModuleLoaderDataForKernel (R := regexp_substring) (E := envsubst_id)
    ex_spoke_module "5.14.0-70.el9") as [mld'|err|w] eqn:Hmld; [|discriminate Hmld..].
  destruct (fleet_images_ready (R := regexp_substring) (E := envsubst_id) (MO := map_order_std)
    (BS := buildconfig_manager_spec (D := ex_decoder) (Hs := ex_hasher) "amd64")
    (SS := signjob_manager_spec (D := ex_decoder) (Hs := ex_hasher) "amd64")
    "kmm-hub" ex_fleet_server tt (NN "" "nvidia") h1 e h2 mw ex_spoke_module ex_spoke_module
    ex_spoke_nodes (mk_node (meta_named "worker-0" "") [] "5.14.0-70.el9" "RHCOS") mld'
    Htr (or_introl He) Hm eq_refl) as (mcm & view & _ & _ & _ & H).
  - intros opts cs c Hin Hc _. specialize (Hall _ Hin). unfold ex_claim_seen in Hall. simpl in Hall.
    rewrite forallb_forall in Hall. apply list_elem_of_In, Hall, bool_decide_eq_true in Hc. exact Hc.
  - intros n Hn. apply list_elem_of_singleton in Hn as ->. vm_compute. tauto.
  - by left.
  - exact Hmld.
  - exists h1, mld', view. split; [reflexivity|].
    destruct H as [(mld & _ & H1 & H2 & _)|H]; [left; exists mld; exact (conj H1 H2)|by right].
Defined.

(** A spoke's cluster with that Module. *)
Definition ex_spoke_cluster : kserver unit := λ q s,
  match q return ans q * unit with
  | RGet KModule _ => (Ok ex_spoke_module, s)
  | RList KNode _ => (Ok ex_spoke_nodes, s)
  | q => ex_cluster q s
  end.

Definition ex_reads_module (e : @event req ans) : bool :=
  match ev_req e as q return ans q → bool with
  | RGet KModule _ => λ r : result Module_, bool_decide (r = Ok ex_spoke_module)
  | _ => λ _, true
  end (ev_ans e).

Lemma spoke_builds_nothing_witness :
  ∃ e, starts_no_job (ev_req e) ∧ ex_loader_create e = true.
Proof.
  set (p := operator_Reconcile (D := ex_decoder) (Hs := ex_hasher) (R := regexp_substring)
    (E := envsubst_id) (MO := map_order_std) "amd64" "spoke-ns" (NN "spoke-ns" "nvidia")).
  assert (existsb ex_loader_create (run_trace ex_spoke_cluster p tt) = true) as H
    by (vm_compute; reflexivity).
  assert (forallb ex_reads_module (run_trace ex_spoke_cluster p tt) = true) as Hall
    by (vm_compute; reflexivity).
  apply existsb_split in H as (h1 & e & h2 & Htr & He). exists e. split; [|exact He].
  refine (spoke_builds_nothing (D := ex_decoder) (Hs := ex_hasher) (R := regexp_substring)
    (E := envsubst_id) (MO := map_order_std) "amd64" "spoke-ns" ex_spoke_cluster tt
    (NN "spoke-ns" "nvidia") h1 e h2 Htr _).
  intros m Hm. destruct (forallb_split _ _ _ _ _ Hall Htr) as [H1 _]. specialize (H1 _ Hm).
  unfold ex_reads_module in H1. simpl in H1. apply bool_decide_eq_true in H1. injection H1 as ->.
  exists ex_mcm. reflexivity.
Defined.
