(* ===== verification/HubSharing.v ===== *)
(** * What the clusters of a run share

    [SetManifestWorkAsDesired] (internal/manifestwork/manifestwork.go) clears
    the build and sign settings of the kernel mappings of the
    ManagedClusterModule it is given, and these are those of the caller.  Here:
    what that means for the clusters that the loop of
    controllers/hub/managedclustermodule_reconciler.go comes to afterwards, when
    the settings are in the mappings, not in the container. *)

From S2P Require Import Prelude Prog K8s Api Client Utils Helpers KernelMapper Registry Managers BuildConfig SignJob.
From S2P Require Import StatusUpdater ModuleReconciler ApiServer ApiRuns Hub HubConvergence Fleet.
From stdpp Require Import options.

Local Open Scope go_scope.

(** ** Traces *)

Lemma run_trace_bind {S A B} (srv : kserver S) (p : M A) (f : A → M B) s :
  run_trace srv (prog_bind f p) s = run_trace srv p s ++
    match run_out srv p s with Done a => run_trace srv (f a) (run_state srv p s) | Crashed _ => [] end.
Proof.
  unfold run_trace, run_out, run_state. rewrite run_bind.
  destruct (run srv p s) as [[[a|w] s1] t]; cbn [fst snd]; [|by rewrite app_nil_r].
  by destruct (run srv (f a) s1) as [[o s2] t2].
Qed.
Lemma run_out_bind {S A B} (srv : kserver S) (p : M A) (f : A → M B) s :
  run_out srv (prog_bind f p) s =
    match run_out srv p s with Done a => run_out srv (f a) (run_state srv p s) | Crashed w => Crashed w end.
Proof.
  unfold run_out, run_state. rewrite run_bind.
  destruct (run srv p s) as [[[a|w] s1] t]; cbn [fst snd]; [|done].
  by destruct (run srv (f a) s1) as [[o s2] t2].
Qed.

Lemma split_in_app {A} (l1 : list A) x l2 t1 t2 :
  t1 ++ t2 = l1 ++ x :: l2 →
  (∃ t, t1 = l1 ++ x :: t ∧ l2 = t ++ t2) ∨ (∃ t, l1 = t1 ++ t ∧ t2 = t ++ x :: l2).
Proof.
  revert t1. induction l1 as [|y l1 IH]; intros [|z t1] H; cbn in *.
  - right. by exists [].
  - injection H as -> <-. left. by exists t1.
  - right. by exists (y :: l1).
  - injection H as -> H. destruct (IH t1 H) as [(t & -> & ->)|(t & -> & ->)]; [left|right]; by exists t.
Qed.

Lemma run_trace_call {S A} (srv : kserver S) q (k : ans q → M A) s :
  run_trace srv (Call q k) s = Ev q (srv q s).1 :: run_trace srv (k (srv q s).1) (srv q s).2.
Proof. unfold run_trace. cbn [run]. destruct (srv q s) as [x s1]. cbn. by destruct (run srv (k x) s1) as [[o s2] t]. Qed.
Lemma run_out_call {S A} (srv : kserver S) q (k : ans q → M A) s :
  run_out srv (Call q k) s = run_out srv (k (srv q s).1) (srv q s).2.
Proof. unfold run_out. cbn [run]. destruct (srv q s) as [x s1]. cbn. by destruct (run srv (k x) s1) as [[o s2] t]. Qed.

(** ** A cluster *)

Section sharing.
Context {D : ManifestDecoder} {Hs : Hasher} {R : Regexp} {E : Envsubst} {MO : MapOrder}.
Variables (goarch namespace : string).

Abbreviation BM := (buildconfig_manager goarch).
Abbreviation SM := (signjob_manager goarch).
Abbreviation step_of := (handle_cluster (BM := BM) (SM := SM) namespace).
Abbreviation steps_of := (handle_clusters (BM := BM) (SM := SM) namespace).
Abbreviation images_of := (BuildAndSign (BM := BM) (SM := SM) namespace).
Abbreviation work_key mcm c := (NN (mc_Name c) (mcm_Name mcm)).

(** The calls about works and ManagedClusterModules: none of the registry, and
    none about Builds, Jobs or what they need. *)
Definition works_call (q : req) : bool :=
  match q with
  | RGet k _ | RList k _ | RCreate k _ | RPatch k _ _ | RDelete k _ _ | RStatusPatch k _ _ | RStatusUpdate k _ =>
      bool_decide (k = KManifestWork) || bool_decide (k = KManagedClusterModule)
  | _ => false
  end.
Definition stores_none (q : req) : Prop := ∀ mw, ¬ stores_work mw q.

(** The settings for building and signing are those of the mappings. *)
Definition settings_on_mappings (mcm : ManagedClusterModule) : Prop :=
  let c := ml_Container (ModuleLoader (mcms_ModuleSpec (mcm_Spec mcm))) in
  mlc_Build c = None ∧ mlc_Sign c = None.

(** There is a mapping for a kernel of the cluster. *)
Definition has_kernel (mcm : ManagedClusterModule) (c : ManagedCluster) : Prop :=
  ∃ mappings, kernelMappingsByKernelVersion (hub_module namespace (strip_mappings mcm)) c = Ok mappings ∧
    mappings ≠ ∅.

(** The cluster is sent the Module: its work is read, and created if there is
    none. *)
Definition sent_in (mcm : ManagedClusterModule) (c : ManagedCluster) (h : hist) : Prop :=
  ∃ r, (Ev (RGet KManifestWork (work_key mcm c)) r : @event req ans) ∈ h ∧
    ∀ err, r = Err err → IsNotFound err = true → ∃ w x,
      (Ev (RCreate KManifestWork w) x : @event req ans) ∈ h ∧
      object_key (mw_meta w) = work_key mcm c ∧ mw_Spec w = spoke_work_spec mcm.

Lemma sent_in_app mcm c h h1 h2 : sent_in mcm c h → sent_in mcm c (h1 ++ h ++ h2).
Proof.
  intros (r & Hr & Hc). exists r. split; [set_solver|]. intros err He Hn.
  destruct (Hc err He Hn) as (w & x & Hin & Hw). exists w, x. split; [set_solver|done].
Qed.

(** What is cleared, every kernel has nothing to build or to sign. *)
Lemma stripped_plain mcm k mld :
  settings_on_mappings mcm →
  GetModuleLoaderDataForKernel (hub_module namespace (strip_mappings mcm)) k = Ok mld →
  mld_Build mld = None ∧ mld_Sign mld = None.
Proof.
  intros [Hb Hsn] Hg.
  assert (mod_Spec (hub_module namespace (strip_mappings mcm)) = spoke_spec mcm) as Hspec.
  { unfold hub_module, strip_mappings, spoke_spec, set_mcm_spec, set_container. cbn. by rewrite Hb, Hsn. }
  apply (spoke_data_Ok mcm _ Hspec) in Hg as (mp & env & image & _ & _ & _ & ->).
  unfold mld_of_mapping, mod_container. by rewrite Hspec.
Qed.

Lemma range_loop_idle {X St Rt} (xs : list X) (body : X → St → M (ctl St Rt)) st :
  (∀ x, x ∈ xs → body x st = Ret (Next st)) → range_loop xs body st = Ret (Next st).
Proof.
  induction xs as [|x xs IH]; intros Hb; [done|]. cbn. rewrite Hb by by left. cbn.
  apply IH. intros y Hy. apply Hb. by right.
Qed.

(** So its images are taken to be there without a look. *)
Lemma BuildAndSign_stripped mcm c mappings :
  settings_on_mappings mcm →
  kernelMappingsByKernelVersion (hub_module namespace (strip_mappings mcm)) c = Ok mappings →
  images_of (strip_mappings mcm) c = Ret (Ok (bool_decide (mappings ≠ ∅))).
Proof.
  intros Hset Hm. unfold BuildAndSign. rewrite Hm. cbn [lift_result prog_bind].
  destruct (decide (mappings = ∅)) as [->|Hne].
  - by rewrite bool_decide_true, bool_decide_false by (rewrite ?map_size_empty; auto).
  - rewrite bool_decide_false, bool_decide_true by (by rewrite ?map_size_empty_iff).
    rewrite range_loop_idle; [done|]. intros [k mld] Hin. apply elem_of_range_map in Hin. cbn [snd].
    destruct (kernelMappings_Ok _ _ _ Hm) as (vs & Hvs & Hk). destruct (proj1 (Hk k mld) Hin) as [Hg _].
    destruct (stripped_plain mcm k mld Hset Hg) as [Hb Hsn].
    unfold build_and_sign_kernel, hub_build, hub_sign. cbn [bm_ShouldSync sm_ShouldSync buildconfig_manager signjob_manager].
    unfold build_ShouldSync, sign_ShouldSync, ShouldBeBuilt, ShouldBeSigned. by rewrite Hb, Hsn.
Qed.

(** ** Writing the work of a cluster *)

Lemma stores_work_create mw w : stores_work mw (RCreate KManifestWork w) → mw = w.
Proof.
  intros [H|[b H]]; [|done]. apply (f_equal (created KManifestWork)) in H. cbn in H.
  rewrite !as_kind_same in H. congruence.
Qed.
Lemma stores_work_patch mw w b : stores_work mw (RPatch KManifestWork w b) → mw = w.
Proof.
  intros [H|[b' H]]; [done|]. apply (f_equal (patched KManifestWork)) in H. cbn in H.
  rewrite !as_kind_same in H. congruence.
Qed.

Section tracked.
Context (v : ManagedClusterModule) (c : ManagedCluster).
Abbreviation new := (mk_mw (meta_named (mcm_Name v) (mc_Name c)) (mk_mwspec [] []) []).
Abbreviation f := (λ mw : ManifestWork, fst (SetManifestWorkAsDesired (Some mw) v)).

Definition tracked_call (q : req) : Prop :=
  works_call q = true ∧ ∀ mw, stores_work mw q → object_key (mw_meta mw) = work_key v c.

Lemma calls_CreateOrPatch_with_tracked r :
  calls tracked_call (CreateOrPatch_with KManifestWork new f r).
Proof.
  intros h. apply wp_CreateOrPatch_with; [| | |done].
  - intros h' w _ [_ Hk]%mutate_Ok. split; [done|]. by intros mw ->%stores_work_create.
  - intros h' b w _ [_ Hk]%mutate_Ok. split; [done|]. by intros mw ->%stores_work_patch.
  - intros h' b w c' _ _ _. split; [done|]. by intros mw [Hq|[b' Hq]].
Qed.

(** Its calls: the read, and the others only if the mutation runs. *)
Definition tracked_trace (r : result ManifestWork) (tr : hist) : Prop :=
  Forall (λ e, tracked_call (ev_req e)) tr ∧ (mutation_runs r = false → tr = []) ∧
  ∀ err w, r = Err err → IsNotFound err = true → mutate (k := KManifestWork) f (work_key v c) new = Ok w →
    ∃ x, (Ev (RCreate KManifestWork w) x : @event req ans) ∈ tr.

Definition tracked_post (h : hist) (o : outcome (result (OperationResult * ManifestWork) * bool)) (h' : hist) : Prop :=
  ∃ r tr, h' = h ++ Ev (RGet KManifestWork (work_key v c)) r :: tr ∧ tracked_trace r tr ∧
    match o with Done (_, b) => b = mutation_runs r | Crashed _ => True end.

Lemma wp_tracked h :
  wp (λ _ _, True) (CreateOrPatch_tracked KManifestWork new f) (tracked_post h) h.
Proof.
  unfold CreateOrPatch_tracked. split; [done|]. intros r. cbn [prog_bind].
  change (object_key (obj_meta KManifestWork new)) with (work_key v c).
  assert (∀ tr o, tracked_trace r tr → match o with Done (_, b) => b = mutation_runs r | Crashed _ => True end →
    tracked_post h o ((h ++ [Ev (RGet KManifestWork (work_key v c)) r]) ++ tr)) as Hdone.
  { intros tr o Htr Ho. exists r, tr. split; [by rewrite <-app_assoc|done]. }
  assert (∀ o, tracked_trace r [] → match o with Done (_, b) => b = mutation_runs r | Crashed _ => True end →
    tracked_post h o (h ++ [Ev (RGet KManifestWork (work_key v c)) r])) as Hnone.
  { intros o Htr Ho. specialize (Hdone [] o Htr Ho). by rewrite app_nil_r in Hdone. }
  apply wp_bind. destruct r as [b|err|y].
  - eapply wp_mono; [apply wp_calls_trace, calls_CreateOrPatch_with_tracked|done|].
    intros o h' _ (tr & -> & Hall). assert (tracked_trace (Ok b) tr) as Htr by by split_and!.
    destruct o as [x|y]; cbn [wp]; by apply Hdone.
  - unfold CreateOrPatch_with.
    change (object_key (obj_meta KManifestWork new)) with (work_key v c).
    destruct (IsNotFound err) eqn:Hn; cbn [negb].
    2:{ cbn [wp]. apply Hnone; [|cbn; by rewrite Hn]. split_and!; [done|done|]. intros ? ? [= <-]. by rewrite Hn. }
    destruct (mutate (k := KManifestWork) f (work_key v c) new) as [w|e|y] eqn:Hm; cbn [lift_result prog_bind].
    + split; [done|]. intros x. cbn [prog_bind].
      assert (tracked_trace (Err err) [Ev (RCreate KManifestWork w) x]) as Htr.
      { pose proof (mutate_Ok _ _ _ _ Hm) as [_ Hk]. split_and!.
        - apply Forall_singleton. split; [done|]. by intros mw ->%stores_work_create.
        - cbn. by rewrite Hn.
        - intros ? w' [= <-] _ Hw. assert (w' = w) as -> by congruence. exists x. by left. }
      destruct x as [x|e|y]; cbn [wp prog_bind]; (apply Hdone; [exact Htr|cbn; by rewrite ?Hn]).
    + cbn [wp]. apply Hnone; [|cbn; by rewrite Hn]. split_and!; [done|done|]. intros ? ? _ _ Hw. congruence.
    + cbn [wp]. apply Hnone; [|done]. split_and!; [done|done|]. intros ? ? _ _ Hw. congruence.
  - cbn [CreateOrPatch_with wp]. apply Hnone; [|done]. by split_and!.
Qed.
End tracked.

(** ** The loop over the clusters *)

Section loop.
Context {St : Type} (srv : kserver St) (mcm : ManagedClusterModule).

(** What follows the images of a cluster, when they are there. *)
Abbreviation new v c := (mk_mw (meta_named (mcm_Name v) (mc_Name c)) (mk_mwspec [] []) []).
Abbreviation write_of v c := (prog_bind
  (λ r : result (OperationResult * ManifestWork) * bool, Ret (if snd r then strip_mappings v else v))
  (CreateOrPatch_tracked KManifestWork (new v c)
    (λ mw : ManifestWork, fst (SetManifestWorkAsDesired (Some mw) v)))).

Lemma run_write v c s : ∃ r tr,
  run_trace srv (write_of v c) s = Ev (RGet KManifestWork (work_key v c)) r :: tr ∧ tracked_trace v c r tr ∧
  match run_out srv (write_of v c) s with
  | Done v' => v' = if mutation_runs r then strip_mappings v else v
  | Crashed _ => True
  end.
Proof.
  destruct (wp_run _ _ _ srv s (wp_tracked v c [])) as [(r & tr & Htr & Hok & Ho) _]. exists r, tr.
  rewrite run_trace_bind, run_out_bind. cbn [obj] in *. rewrite Htr.
  destruct (run_out _ _ _) as [[x b]|y].
  - split_and!; [by rewrite app_nil_r|done|]. cbn. by rewrite <-Ho.
  - split_and!; [by rewrite app_nil_r|done..].
Qed.

Lemma tracked_works v c (tr : hist) : Forall (λ e, tracked_call v c (ev_req e)) tr → Forall (λ e, works_call (ev_req e) = true) tr.
Proof. intros H. eapply Forall_impl; [exact H|]. by intros e [? _]. Qed.

Lemma view_key v c : mcm_view mcm v → work_key v c = work_key mcm c.
Proof. intros [_ Hm]%mcm_view_owner. unfold mcm_Name. by rewrite Hm. Qed.

(** A write sends the Module. *)
Lemma write_sends v c r tr :
  mcm_view mcm v → om_Namespace (mcm_meta mcm) = "" → tracked_trace v c r tr →
  sent_in mcm c (Ev (RGet KManifestWork (work_key v c)) r :: tr).
Proof.
  intros Hv Hns (_ & _ & Hc). exists r. rewrite (view_key v c Hv) in *. split; [by left|].
  intros err He Hn.
  destruct (mutate_work mcm v c (new v c) Hv Hns) as [_ Hm]; [|by left|].
  { unfold mcm_Name. destruct (mcm_view_owner _ _ Hv) as [_ ->]. done. }
  destruct (Hc err _ He Hn Hm) as [x Hx]. exists (set_work mcm (new v c)), x. split; [by right|].
  split; [|done]. exact (proj2 (mutate_Ok (k := KManifestWork) _ _ _ _ Hm)).
Qed.

(** Once the settings are gone. *)
Abbreviation gone := (strip_mappings mcm).

Lemma run_cluster_after c s :
  settings_on_mappings mcm → let p := step_of c gone in
  Forall (λ e, works_call (ev_req e) = true) (run_trace srv p s) ∧
  match run_out srv p s with
  | Done v' => v' = gone ∧
      (om_Namespace (mcm_meta mcm) = "" → has_kernel mcm c → sent_in mcm c (run_trace srv p s))
  | Crashed _ => True
  end.
Proof.
  intros Hset. cbn zeta. unfold handle_cluster.
  destruct (kernelMappingsByKernelVersion (hub_module namespace gone) c) as [mp|err|y] eqn:Hk.
  3: by unfold BuildAndSign; rewrite Hk.
  2:{ unfold BuildAndSign. rewrite Hk. cbn. split; [done|]. split; [done|]. intros _ (mp & Hmp & _). congruence. }
  rewrite (BuildAndSign_stripped mcm c mp) by done. cbn [prog_bind].
  case_bool_decide as Hne.
  - destruct (run_write gone c s) as (r & tr & -> & Htr & Ho). split.
    { apply Forall_cons. split; [done|]. apply (tracked_works gone c), Htr. }
    destruct (run_out srv (write_of gone c) s) as [v'|y]; [|done].
    split; [destruct (mutation_runs r); by rewrite ?strip_mappings_idem in Ho|].
    intros Hns _. apply write_sends; [by right|done|done].
  - cbn. split; [done|]. split; [done|]. intros _ (mp' & Hmp & Hne'). congruence.
Qed.

Lemma run_clusters_after cs s :
  settings_on_mappings mcm → let p := steps_of cs gone in
  Forall (λ e, works_call (ev_req e) = true) (run_trace srv p s) ∧
  match run_out srv p s with
  | Done _ => om_Namespace (mcm_meta mcm) = "" → ∀ c, c ∈ cs → has_kernel mcm c → sent_in mcm c (run_trace srv p s)
  | Crashed _ => True
  end.
Proof.
  intros Hset. cbn zeta. revert s. induction cs as [|c cs IH]; intros s.
  { split; [done|]. by intros _ c []%not_elem_of_nil. }
  cbn [handle_clusters]. rewrite run_trace_bind, run_out_bind.
  destruct (run_cluster_after c s Hset) as [H1 H2].
  destruct (run_out srv (step_of c gone) s) as [v'|y]; [|by rewrite app_nil_r].
  destruct H2 as [-> Hsent]. destruct (IH (run_state srv (step_of c gone) s)) as [H3 H4].
  split; [by apply Forall_app|].
  destruct (run_out srv (steps_of cs gone) _) as [v''|y]; [|done].
  intros Hns c' [->|Hc']%elem_of_cons Hk.
  - rewrite <-(app_nil_l (_ ++ _)). apply sent_in_app. by apply Hsent.
  - specialize (H4 Hns c' Hc' Hk). apply (sent_in_app mcm c' _ (run_trace srv (step_of c gone) s) []) in H4.
    by rewrite app_nil_r in H4.
Qed.

(** No manager stores a work. *)
Lemma calls_images v c : calls stores_none (images_of v c).
Proof.
  intros h. eapply wp_mono; [apply (wp_BuildAndSign namespace v c)|cbn beta|done].
  intros h' q _ Hq mw Hst. by eapply stores_work_not_image in Hst.
Qed.

(** What a stored work means for the clusters after it. *)
Definition after_store (cs : list ManagedCluster) (completed : Prop) (mw : ManifestWork) (h2 : hist) : Prop :=
  ∃ l1 c l2, cs = l1 ++ c :: l2 ∧ object_key (mw_meta mw) = work_key mcm c ∧
    (settings_on_mappings mcm →
       Forall (λ e, works_call (ev_req e) = true) h2 ∧
       (completed → om_Namespace (mcm_meta mcm) = "" → ∀ c', c' ∈ l2 → has_kernel mcm c' → sent_in mcm c' h2)).

Lemma run_cluster_store c v s h1 e h2 mw :
  mcm_view mcm v → run_trace srv (step_of c v) s = h1 ++ e :: h2 → stores_work mw (ev_req e) →
  object_key (mw_meta mw) = work_key mcm c ∧ Forall (λ e, works_call (ev_req e) = true) h2 ∧
  match run_out srv (step_of c v) s with Done v' => v' = gone | Crashed _ => True end.
Proof.
  intros Hv. unfold handle_cluster. rewrite run_trace_bind, run_out_bind.
  pose proof (calls_run stores_none (images_of v c) srv s (calls_images v c)) as Hnone.
  assert (∀ t, run_trace srv (images_of v c) s = h1 ++ e :: t → ¬ stores_work mw (ev_req e)) as Hno.
  { intros t Ht. rewrite Ht in Hnone. apply Forall_app in Hnone as [_ [Hn _]%Forall_cons]. apply Hn. }
  intros Htr Hst. apply split_in_app in Htr as [(t & Ht & _)|(t & -> & Ht)]; [by apply Hno in Ht|].
  destruct (run_out srv (images_of v c) s) as [[[]|err|y]|y];
    try (by apply (f_equal length) in Ht; rewrite length_app in Ht; cbn in Ht; lia).
  destruct (run_write v c (run_state srv (images_of v c) s)) as (r & tr & Hrun & Htr & Ho).
  rewrite Hrun in Ht. destruct t as [|e0 t]; cbn in Ht; injection Ht as <- Ht.
  { by destruct Hst as [?|[? ?]]. }
  destruct Htr as (Hall & Hmut & _). rewrite Ht in Hall. apply Forall_app in Hall as [_ [[_ Hkey] Hall]%Forall_cons].
  rewrite <-(view_key v c) by done. split_and!; [by apply Hkey|by apply tracked_works in Hall|].
  destruct (run_out srv (write_of v c) _) as [v'|y]; [|done]. rewrite Ho.
  destruct (mutation_runs r) eqn:Hr; [|rewrite (Hmut Hr) in Ht; by destruct t].
  destruct Hv as [-> | ->]; [done|apply strip_mappings_idem].
Qed.

Lemma run_cluster_view c v s :
  mcm_view mcm v → match run_out srv (step_of c v) s with Done v' => mcm_view mcm v' | Crashed _ => True end.
Proof.
  intros Hv. unfold handle_cluster. rewrite run_out_bind.
  destruct (run_out srv (images_of v c) s) as [[[]|err|y]|y]; try done.
  destruct (run_write v c (run_state srv (images_of v c) s)) as (r & tr & _ & _ & Ho).
  destruct (run_out srv (write_of v c) _) as [v'|y]; [|done]. rewrite Ho.
  destruct (mutation_runs r); [by apply mcm_view_strip|done].
Qed.

Lemma run_clusters_store cs v s h1 e h2 mw :
  mcm_view mcm v → run_trace srv (steps_of cs v) s = h1 ++ e :: h2 → stores_work mw (ev_req e) →
  after_store cs (∃ v', run_out srv (steps_of cs v) s = Done v') mw h2.
Proof.
  revert v s h1. induction cs as [|c cs IH]; intros v s h1 Hv Htr Hst.
  { by apply (f_equal length) in Htr; rewrite length_app in Htr; cbn in Htr; lia. }
  cbn [handle_clusters] in *. rewrite run_trace_bind in Htr. rewrite run_out_bind.
  pose proof (run_cluster_view c v s Hv) as Hv'.
  apply split_in_app in Htr as [(t & Ht & ->)|(t & -> & Ht)].
  - destruct (run_cluster_store c v s h1 e t mw Hv Ht Hst) as (Hk & Hw & Ho).
    exists [], c, cs. split_and!; [done|done|]. intros Hset.
    destruct (run_out srv (step_of c v) s) as [v'|y].
    + subst v'. destruct (run_clusters_after cs (run_state srv (step_of c v) s) Hset) as [H1 H2].
      split; [by apply Forall_app|]. intros [v'' Hdone] Hns c' Hc' Hkern. rewrite Hdone in H2.
      specialize (H2 Hns c' Hc' Hkern). apply (sent_in_app mcm c' _ t []) in H2. by rewrite app_nil_r in H2.
    + rewrite app_nil_r. split; [done|]. by intros [? ?].
  - destruct (run_out srv (step_of c v) s) as [v'|y].
    + destruct (IH v' _ t Hv' Ht Hst) as (l1 & c0 & l2 & -> & H). exists (c :: l1), c0, l2. by split.
    + by destruct t.
Qed.
End loop.

(** ** The run *)

(** What follows the loop stores no work. *)
Definition last_call (q : req) : Prop := stores_none q ∧ works_call q = true.

Lemma last_call_read q : is_write q = false → works_call q = true → last_call q.
Proof. intros Hq Hw. split; [|done]. by intros mw [->|[b ->]]. Qed.

Lemma calls_delete_works names works : calls last_call (delete_works names works).
Proof.
  induction works as [|w works IH]; cbn [delete_works]; [apply calls_ret|].
  case_bool_decide; [done|]. apply calls_bind; [|go_calls].
  refine (calls_call last_call (RDelete KManifestWork w false) _). split; [|done]. by intros mw [?|[? ?]].
Qed.

Lemma calls_after_loop (clusters : list ManagedCluster) v :
  calls last_call
    (try _ := mw_GarbageCollect clusters v
       catch err => Ret (Err (errorf ("failed to garbage collect ManifestWorks with no matching cluster selector: "
                                      +:+ Error err))) in
     try _ := GarbageCollectBuilds (BM := BM) namespace v
       catch err => Ret (Err (errorf ("failed to garbage collect build objects: " +:+ Error err))) in
     try works := getOwnedManifestWorks v
       catch err => Ret (Err (errorf ("failed to fetch owned ManifestWorks of the ManagedClusterModule: "
                                      +:+ Error err))) in
     try _ := ManagedClusterModuleUpdateStatus v works
       catch err => Ret (Err (errorf ("failed to update status of the ManagedClusterModule: "
                                      +:+ Error err))) in
     Ret (Ok no_requeue)).
Proof.
  assert (∀ opts, calls last_call (List_ KManifestWork opts)) as Hlist.
  { intros opts. by refine (calls_call last_call (RList KManifestWork opts) _); apply last_call_read. }
  apply calls_bind.
  { unfold mw_GarbageCollect. apply calls_bind; [apply Hlist|]. intros [works|err|y]; [|go_calls..].
    apply calls_delete_works. }
  intros [[]|err|y]; [|go_calls..]. apply calls_bind; [apply calls_ret|].
  intros [l|err|y]; [|go_calls..]. apply calls_bind; [apply Hlist|].
  intros [works|err|y]; [|go_calls..]. apply calls_bind; [|go_calls].
  refine (calls_call last_call (RStatusPatch KManagedClusterModule (mcm_status v works) v) _).
  split; [|done]. by intros mw [?|[? ?]].
Qed.

Lemma run_loop_store {St} (srv : kserver St) mcm clusters (after : ManagedClusterModule → M (result ReconcileResult))
    s h1 e h2 mw :
  (∀ v, calls last_call (after v)) →
  run_trace srv (prog_bind after (steps_of clusters mcm)) s = h1 ++ e :: h2 → stores_work mw (ev_req e) →
  after_store mcm clusters (∃ r, run_out srv (prog_bind after (steps_of clusters mcm)) s = Done r) mw h2.
Proof.
  intros Hafter Htr Hst. rewrite run_trace_bind in Htr. rewrite run_out_bind.
  assert (Forall (λ e, last_call (ev_req e)) (match run_out srv (steps_of clusters mcm) s with
      Done v => run_trace srv (after v) (run_state srv (steps_of clusters mcm) s) | Crashed _ => [] end)) as Hlast.
  { destruct (run_out srv (steps_of clusters mcm) s); [apply calls_run, Hafter|done]. }
  apply split_in_app in Htr as [(t & Ht & ->)|(t & -> & Ht)].
  - destruct (run_clusters_store srv mcm clusters mcm s h1 e t mw (or_introl eq_refl) Ht Hst)
      as (l1 & c & l2 & Hcs & Hk & H). exists l1, c, l2. split_and!; [done|done|]. intros Hset.
    destruct (H Hset) as [H1 H2]. split.
    + apply Forall_app. split; [done|]. eapply Forall_impl; [exact Hlast|]. by intros e' [_ ?].
    + intros Hdone Hns c' Hc' Hkern. rewrite <-(app_nil_l (t ++ _)). apply sent_in_app. apply H2; [|done..].
      destruct (run_out srv (steps_of clusters mcm) s); [by eexists|by destruct Hdone].
  - rewrite Ht in Hlast. apply Forall_app in Hlast as [_ [[Hn _] _]%Forall_cons]. by apply Hn in Hst.
Qed.

Abbreviation run_of key := (hub_Reconcile (BM := BM) (SM := SM) namespace key).

(** C32: the first cluster that is sent the Module leaves the others without a
    check.  When the settings for building and signing are in the kernel
    mappings only, every call of a run after it stores a ManifestWork is about
    works or the ManagedClusterModule: no image is looked up, no Build and no
    Job is listed or created, whatever the server and the registry hold.  And
    when the run completes, each cluster listed after the one whose work it was,
    with a mapping for one of its kernels, is sent the Module all the same: its
    work is read, and created if there is none. *)
Theorem hub_shared_mappings_skip_build {St} (srv : kserver St) s key h1 e h2 mw :
  run_trace srv (run_of key) s = h1 ++ e :: h2 → stores_work mw (ev_req e) →
  ∃ mcm clusters l1 c l2,
    (Ev (RGet KManagedClusterModule key) (Ok mcm) : @event req ans) ∈ h1 ∧
    (Ev (RList KManagedCluster (clusters_opts mcm)) (Ok clusters) : @event req ans) ∈ h1 ∧
    clusters = l1 ++ c :: l2 ∧ object_key (mw_meta mw) = work_key mcm c ∧
    (settings_on_mappings mcm →
       Forall (λ e, works_call (ev_req e) = true) h2 ∧
       ((∃ r, run_out srv (run_of key) s = Done r) → om_Namespace (mcm_meta mcm) = "" →
        ∀ c', c' ∈ l2 → has_kernel mcm c' → sent_in mcm c' h2)).
Proof.
  unfold hub_Reconcile, RequestedManagedClusterModule, Get, SelectedManagedClusters, List_.
  cbn [prog_bind call]. rewrite run_trace_call, run_out_call. intros Htr Hst.
  destruct h1 as [|e1 h1]; injection Htr as <- Htr; [by destruct Hst as [?|[? ?]]|].
  destruct (srv (RGet KManagedClusterModule key) s) as [[mcm|err|y] s1]; cbn [fst snd prog_bind] in *.
  2:{ exfalso. destruct (IsNotFound _); by destruct h1. }
  2: by destruct h1.
  rewrite run_trace_call in Htr. rewrite run_out_call.
  destruct h1 as [|e2 h1]; injection Htr as <- Htr; [by destruct Hst as [?|[? ?]]|].
  destruct (srv (RList KManagedCluster (clusters_opts mcm)) s1) as [[clusters|err|y] s2]; cbn [fst snd prog_bind] in *;
    [|by destruct h1..].
  destruct (run_loop_store srv mcm clusters _ s2 h1 e h2 mw (calls_after_loop clusters) Htr Hst)
    as (l1 & c & l2 & Hcs & Hk & H).
  exists mcm, clusters, l1, c, l2. split_and!; [by left|right; by left|done|done|exact H].
Qed.
End sharing.

(** ** The example of [Hub]

    The first cluster's image is there, the second's is not; each is built from
    the settings of its mapping. *)

Definition mcm_read (e : @event req ans) : option ManagedClusterModule :=
  match ev_req e as q return ans q → option ManagedClusterModule with
  | RGet KManagedClusterModule _ => λ r : result ManagedClusterModule, match r with Ok mcm => Some mcm | _ => None end
  | _ => λ _, None
  end (ev_ans e).
Definition clusters_read (e : @event req ans) : option (list ManagedCluster) :=
  match ev_req e as q return ans q → option (list ManagedCluster) with
  | RList KManagedCluster _ => λ r : result (list ManagedCluster), match r with Ok l => Some l | _ => None end
  | _ => λ _, None
  end (ev_ans e).
Definition ex_clusters : list ManagedCluster :=
  [ex_managed "cluster-1" "5.14.0-70.el9"; ex_managed "cluster-2" "4.18.0-372.el8"].

Lemma read_once {B} (f : @event req ans → option B) (h1 h2 : hist) e e' b b' :
  omap f (h1 ++ e :: h2) = [b] → e' ∈ h1 → f e' = Some b' → b' = b.
Proof.
  intros Ho Hin Hf. assert (b' ∈ omap f (h1 ++ e :: h2)) as Hb.
  { apply list_elem_of_omap. exists e'. split; [apply elem_of_app; by left|done]. }
  rewrite Ho in Hb. by apply list_elem_of_singleton in Hb.
Qed.

Lemma hub_shared_mappings_skip_build_witness :
  ∃ h1 e h2, run_trace ex_hub_server ex_hub tt = h1 ++ e :: h2 ∧ ex_creates_work "cluster-1" e = true ∧
    Forall (λ e, works_call (ev_req e) = true) h2 ∧
    sent_in ex_mcm (ex_managed "cluster-2" "4.18.0-372.el8") h2.
Proof.
  assert (existsb (ex_creates_work "cluster-1") (run_trace ex_hub_server ex_hub tt) = true) as H
    by (vm_compute; reflexivity).
  assert (omap mcm_read (run_trace ex_hub_server ex_hub tt) = [ex_mcm]) as Hm1 by (vm_compute; reflexivity).
  assert (omap clusters_read (run_trace ex_hub_server ex_hub tt) = [ex_clusters]) as Hc1 by (vm_compute; reflexivity).
  apply existsb_split in H as (h1 & e & h2 & Htr & He). exists h1, e, h2.
  split; [exact Htr|]. split; [exact He|]. unfold ex_creates_work in He.
  destruct (created KManifestWork (ev_req e)) as [mw|] eqn:Hc; [|discriminate He].
  apply bool_decide_eq_true in He. apply created_inv in Hc.
  destruct (hub_shared_mappings_skip_build (R := regexp_substring) (E := envsubst_id) (MO := map_order_std)
    (D := ex_decoder) (Hs := ex_hasher) "amd64" "kmm-hub" ex_hub_server tt (NN "" "nvidia") h1 e h2 mw Htr (or_introl Hc))
    as (mcm & clusters & l1 & c & l2 & Hm & Hcs & Heq & Hkey & Hskip).
  rewrite Htr in Hm1, Hc1. pose proof (read_once _ _ _ _ _ _ _ Hm1 Hm eq_refl) as ->.
  pose proof (read_once _ _ _ _ _ _ _ Hc1 Hcs eq_refl) as ->. clear Hm1 Hc1 Hm Hcs.
  apply (f_equal nn_Namespace) in Hkey. cbn in Hkey. rewrite He in Hkey.
  assert (l2 = [ex_managed "cluster-2" "4.18.0-372.el8"]) as ->.
  { destruct l1 as [|c1 l1]; [by injection Heq as _ <-|]. injection Heq as _ Heq.
    destruct l1 as [|c2 l1]; [|by destruct l1]. injection Heq as <- _. discriminate Hkey. }
  destruct (Hskip (conj eq_refl eq_refl)) as [H1 H2]. split; [exact H1|].
  apply H2; [|reflexivity|by left|].
  - assert (is_Some (match run_out ex_hub_server ex_hub tt with Done r => Some r | Crashed _ => None end)) as [r Hr]
      by (vm_compute; eexists; reflexivity).
    change (run_out ex_hub_server (hub_Reconcile (BM := buildconfig_manager "amd64") (SM := signjob_manager "amd64")
      "kmm-hub" (NN "" "nvidia")) tt) with (run_out ex_hub_server ex_hub tt).
    destruct (run_out ex_hub_server ex_hub tt) as [r'|y]; [by exists r'|discriminate Hr].
  - exists (match kernelMappingsByKernelVersion (R := regexp_substring) (E := envsubst_id)
        (hub_module "kmm-hub" (strip_mappings ex_mcm)) (ex_managed "cluster-2" "4.18.0-372.el8") with Ok mp => mp | _ => ∅ end).
    split; [vm_compute; reflexivity|]. intros Hn. apply (f_equal size) in Hn. vm_compute in Hn. discriminate Hn.
Defined.
