(* ===== verification/FleetConvergence.v ===== *)
(** * Convergence of the fleet

    The hub and a spoke, each over an API server of its own that keeps its laws
    ([ApiServer]).  The runs of the hub ([HubConvergence]) leave a ManifestWork
    for the cluster; the agent of the cluster, which is not part of the program,
    applies the Module it holds; the runs of the operator there ([Convergence])
    make its DaemonSets.  What runs on the nodes in the end is what the
    ManagedClusterModule says, with the images the hub has found there. *)

From S2P Require Import Prelude Prog K8s Api Client Utils Helpers KernelMapper DaemonSet Registry.
From S2P Require Import CA Managers BuildConfig SignJob ApiServer StatusUpdater ModuleReconciler Operator.
From S2P Require Import ApiRuns ApiMemory Convergence NodeControllers Hub HubConvergence Fleet.
From stdpp Require Import options.

Local Open Scope go_scope.

(** ** What the hub has looked at *)

Section hub.
Context {R : Regexp} {E : Envsubst}.

(** The hub computes data for every kernel a cluster publishes. *)
Lemma kernel_mappings_loop_no_panic m versions c c' v w :
  cache_ok m c → kernel_mappings_loop m versions c = Ok c' → v ∈ versions →
  GetModuleLoaderDataForKernel m (trim_kernel v) ≠ Panic w.
Proof.
  revert c. induction versions as [|v0 vs IH]; intros c Hc Hl; [by intros []%not_elem_of_nil|].
  cbn [kernel_mappings_loop] in Hl. intros [->|Hv]%elem_of_cons.
  - destruct (c !! trim_kernel v0) as [mld|] eqn:H0.
    + apply Hc in H0. congruence.
    + by destruct (GetModuleLoaderDataForKernel m (trim_kernel v0)) as [mld|err|w'].
  - destruct (c !! trim_kernel v0) as [mld|]; [by eapply IH|].
    destruct (GetModuleLoaderDataForKernel m (trim_kernel v0)) as [mld|err|w'] eqn:Hg;
      [|by eapply IH|done].
    eapply IH; [|exact Hl|done]. intros k' mld'. rewrite lookup_insert_Some.
    intros [[<- <-]|[_ H]]; [exact Hg|by apply Hc].
Qed.

Lemma kernelMappings_no_panic m cluster c versions v w :
  kernelMappingsByKernelVersion m cluster = Ok c → kernelVersions cluster = Ok versions → v ∈ versions →
  GetModuleLoaderDataForKernel m (trim_kernel v) ≠ Panic w.
Proof.
  intros (vs & Hvs & Hl)%result_bind_Ok Hv. rewrite Hvs in Hv. injection Hv as ->.
  by eapply (kernel_mappings_loop_no_panic m versions ∅).
Qed.
End hub.

(** ** The spoke *)

Section spoke.
Context {S : Type} {srv : kserver S} {view : S → ∀ k, gmap NamespacedName (obj k)}.
Context {default_spec : DaemonSetSpec → DaemonSetSpec} {valid : ∀ k, obj k → Prop}.
Context {AS : ApiServer srv view default_spec valid}.
Context {R : Regexp} {E : Envsubst} {MO : MapOrder}.
Variables (operatorNamespace : string) (m : Module_).

Abbreviation targets := (targets (view := view) m).
Abbreviation default_sa := (bool_decide (mod_Namespace m = operatorNamespace)).

(** The data of the kernels of the nodes that the Module selects. *)
Definition node_mappings (s : S) (mappings : gmap string ModuleLoaderData) : Prop :=
  ∀ k mld, mappings !! k = Some mld ↔
    GetModuleLoaderDataForKernel m k = Ok mld ∧ ∃ node, targets s node ∧ node_kernel node = k.

Lemma node_mappings_exist s :
  (∀ node w, targets s node → GetModuleLoaderDataForKernel m (node_kernel node) ≠ Panic w) →
  ∃ mappings, node_mappings s mappings.
Proof using AS.
  intros Hp. destruct (api_list KNode (node_opts m) s) as (l & _ & _ & Hl). cbn [obj obj_meta] in Hl.
  set (targeted := List.filter isNodeSchedulable l).
  assert (∀ node, node ∈ targeted ↔ targets s node) as Htg.
  { intros node. unfold targeted. rewrite list_elem_of_In, List.filter_In, <-list_elem_of_In, Hl.
    unfold Convergence.targets. cbn [obj]. tauto. }
  destruct (mappings_loop_not_Ok m targeted ∅) as [He Hw]; [by intros ??|].
  destruct (mappings_loop m targeted ∅) as [[c ns]|err|w] eqn:Hloop.
  - exists c. intros k mld. rewrite (proj2 (getRelevant_Ok m targeted c ns Hloop) k mld).
    by setoid_rewrite Htg.
  - by destruct (He err).
  - destruct (proj1 Hw) as (node & w' & Hin & Hp'); [by eexists|].
    exfalso. eapply Hp; [by apply Htg|exact Hp'].
Qed.

(** A state the operator of the spoke works from: what [ready] asks for, less
    the images, the mappings and that nothing panics, which the hub sees to. *)
Record spoke_ready (key : NamespacedName) (s : S) : Prop := {
  sr_module : view s KModule !! key = Some m;
  sr_daemonsets : well_formed m (view s KDaemonSet);
  sr_configmaps : cm_ok (mod_Namespace m) (view s KConfigMap);
  sr_kernels node mld : targets s node → GetModuleLoaderDataForKernel m (node_kernel node) = Ok mld →
    node_kernel node ≠ "" ∧ mld_ContainerImage mld ≠ "" ∧
    ∀ ds0 ds, SetDriverContainerAsDesired KernelLabel (Some ds0) mld default_sa = Ok ds → valid KDaemonSet ds;
  sr_cluster_ca : valid KConfigMap (new_cluster_cm (mod_Namespace m));
  sr_service_ca : valid KConfigMap (new_service_cm (mod_Namespace m));
  sr_device_plugin : device_plugin_valid (valid := valid) operatorNamespace m }.

(** The claim of the cluster was computed from the nodes of the spoke. *)
Definition claims (s : S) (c : ManagedCluster) : Prop :=
  ∃ nodes, publishes nodes c ∧ single_line nodes ∧ ∀ node, targets s node → node ∈ nodes.

(** The agent has applied a ManifestWork: the Module has the spec it holds. *)
Definition applied (w : ManifestWork) (key : NamespacedName) (s : S) : Prop :=
  ∃ m0, mws_Manifests (mw_Spec w) = [m0] ∧ key = object_key (mod_meta m0) ∧
    view s KModule !! key = Some m ∧ mod_Spec m = mod_Spec m0.
End spoke.

(** ** The two together *)

Section fleet.
Context {S1 : Type} {srv1 : kserver S1} {view1 : S1 → ∀ k, gmap NamespacedName (obj k)}.
Context {default1 : DaemonSetSpec → DaemonSetSpec} {valid1 : ∀ k, obj k → Prop}.
Context {AS1 : ApiServer srv1 view1 default1 valid1}.
Context {S2 : Type} {srv2 : kserver S2} {view2 : S2 → ∀ k, gmap NamespacedName (obj k)}.
Context {default2 : DaemonSetSpec → DaemonSetSpec} {valid2 : ∀ k, obj k → Prop}.
Context {AS2 : ApiServer srv2 view2 default2 valid2}.
Context {D : ManifestDecoder} {Hs : Hasher} {R : Regexp} {E : Envsubst} {MO : MapOrder}.
Variables (goarch namespace operatorNamespace : string).
Variables (mcm : ManagedClusterModule) (m : Module_) (c : ManagedCluster).

Abbreviation hub_ready := (hub_ready (srv := srv1) (view := view1) (valid := valid1) goarch namespace mcm).
Abbreviation cluster_ready := (cluster_ready (srv := srv1) (valid := valid1) goarch namespace mcm).
Abbreviation hub_run key := (run_state srv1
  (hub_Reconcile (BM := buildconfig_manager goarch) (SM := signjob_manager goarch) namespace key)).
Abbreviation spoke_program := (operator_Reconcile goarch operatorNamespace).
Abbreviation spoke_run key := (run_state srv2 (spoke_program key)).
Abbreviation spoke_ready := (spoke_ready (view := view2) (valid := valid2) operatorNamespace m).
Abbreviation spoke_targets := (targets (view := view2) m).
Abbreviation hub_data := (GetModuleLoaderDataForKernel (hub_module namespace mcm)).
Abbreviation claims := (claims (view := view2) m).

(** The hub finds the image of a kernel built and signed. *)
Definition image_there (mld : ModuleLoaderData) : Prop :=
  ∀ s, run_out srv1 (build_ShouldSync goarch mld) s = Done (Ok false) ∧
       run_out srv1 (sign_ShouldSync goarch mld) s = Done (Ok false).

Lemma claimed_kernel s node mappings :
  claims s c → spoke_targets s node →
  kernelMappingsByKernelVersion (hub_module namespace mcm) c = Ok mappings →
  ∃ versions v, kernelVersions c = Ok versions ∧ v ∈ versions ∧ trim_kernel v = node_kernel node.
Proof using Type.
  intros (nodes & Hp & Hl & Hn) Ht Hmp.
  destruct (published_kernel nodes c node Hp Hl (Hn _ Ht)) as (vs & Hvs & Hv).
  by exists vs, (node_KernelVersion node).
Qed.

(** Of the kernel of a node, the hub has the images there. *)
Lemma claimed_image s node mld :
  cluster_ready c → claims s c → spoke_targets s node → hub_data (node_kernel node) = Ok mld → image_there mld.
Proof using Type.
  intros Hr Hcl Ht Hmld s1. destruct (cr_mappings goarch namespace mcm c Hr mcm) as (mp & Hmp & _ & Himg); [by left|].
  apply (Himg (node_kernel node)). destruct (kernelMappings_Ok _ _ _ Hmp) as (vs & Hvs & Hk).
  apply Hk. split; [exact Hmld|]. destruct (claimed_kernel _ _ _ Hcl Ht Hmp) as (vs' & v & Hvs' & Hv & Heq).
  rewrite Hvs in Hvs'. injection Hvs' as <-. by exists v.
Qed.

Section spec.
Hypothesis Hspec : mod_Spec m = spoke_spec mcm.

(** Nor does the operator of the spoke panic. *)
Lemma claimed_no_panic s node w :
  cluster_ready c → claims s c → spoke_targets s node →
  GetModuleLoaderDataForKernel m (node_kernel node) ≠ Panic w.
Proof using Hspec.
  intros Hr Hcl Ht Hp. destruct (cr_mappings goarch namespace mcm c Hr mcm) as (mp & Hmp & _); [by left|].
  destruct (claimed_kernel _ _ _ Hcl Ht Hmp) as (vs & v & Hvs & Hv & Heq).
  destruct (proj2 (spoke_panics namespace mcm m Hspec (node_kernel node))) as [w' Hw']; [by eexists|].
  rewrite <-Heq in Hw'. by eapply kernelMappings_no_panic in Hw'.
Qed.

(** The spoke's data have nothing to build or sign. *)
Lemma spoke_data_plain k mld' :
  GetModuleLoaderDataForKernel m k = Ok mld' → mld_Build mld' = None ∧ mld_Sign mld' = None.
Proof using Hspec.
  intros (mp & env & image & _ & _ & _ & ->)%(spoke_data_Ok mcm m Hspec). cbn.
  unfold mod_container. by rewrite Hspec.
Qed.

Lemma spoke_image_there mld' s :
  mld_Build mld' = None → mld_Sign mld' = None →
  run_out srv2 (build_ShouldSync goarch mld') s = Done (Ok false) ∧
  run_out srv2 (sign_ShouldSync goarch mld') s = Done (Ok false).
Proof using Type.
  intros Hb Hsn. unfold build_ShouldSync, sign_ShouldSync, ShouldBeBuilt, ShouldBeSigned. by rewrite Hb, Hsn.
Qed.

(** So a spoke that has the Module is ready. *)
Lemma spoke_is_ready key s :
  cluster_ready c → claims s c → spoke_ready key s →
  ∃ mappings, node_mappings (view := view2) m s mappings ∧
    ready (srv := srv2) (view := view2) (valid := valid2) goarch operatorNamespace m key mappings s.
Proof using AS2 Hspec.
  intros Hr Hcl [H1 H2 H3 H4 H5 H6 H7].
  destruct (node_mappings_exist (srv := srv2) m s) as [mp Hmp]; [intros; by eapply claimed_no_panic|].
  exists mp. split; [done|]. split; [done..| | |done|done|done].
  - intros node w Ht. by apply (claimed_no_panic s).
  - intros k mld (Hg & node & Ht & <-)%Hmp. destruct (H4 node mld Ht Hg) as (Hk & Hi & Hv).
    destruct (spoke_data_plain _ _ Hg) as [Hb Hsn].
    split; [done..|intros s'; by apply spoke_image_there|intros s'; by apply spoke_image_there|done].
Qed.
End spec.

(** The work the hub has made holds the spec of the ManagedClusterModule. *)
Lemma hub_work_applied hkey s1 i w skey s2 :
  hub_ready hkey s1 → is_selected (view := view1) mcm s1 c → cluster_ready c →
  view1 (Nat.iter (1 + i) (hub_run hkey) s1) KManifestWork !! work_key mcm c = Some w →
  applied (view := view2) m w skey s2 →
  mod_Spec m = spoke_spec mcm ∧ skey = NN (mcms_SpokeNamespace (mcm_Spec mcm)) (mcm_Name mcm).
Proof using AS1.
  intros Hr Hsel Hc Hw (m0 & Hm0 & -> & _ & Hspec).
  destruct (hub_runs goarch namespace mcm hkey s1 i Hr) as (Hconv & _).
  destruct (hc_sent _ _ _ _ _ _ Hconv c Hsel Hc) as (w' & Hw' & _ & _ & Hsp).
  assert (Some w = Some w') as [= ->] by (rewrite <-Hw; exact Hw').
  rewrite Hsp in Hm0. cbn in Hm0. injection Hm0 as <-. split; [by rewrite Hspec|done].
Qed.

(** C4: hub and spoke converge together.  Take a hub ready to work, a selected
    cluster that claims the kernels of its nodes and whose images are there, and
    a spoke, in a state of its own, where the agent has applied the ManifestWork
    that any number of runs of the hub (at least one) leave for the cluster.
    Then the operator of the spoke has data for the kernels of its nodes -
    without anything to build or to sign, and without a panic - and each of any
    number of its runs succeeds and leaves, of the Module, exactly the
    DaemonSets of these kernels; what is not the Module's is as it was.  Every
    kernel of a node that the ManagedClusterModule has data for gets one, with
    the image, the modprobe arguments and the selector of these data, and the
    hub finds the image built and signed; and no other kernel gets one, but for
    those the hub cannot substitute in the settings for signing. *)
Theorem fleet_converges hkey s1 i w skey s2 j :
  hub_ready hkey s1 → is_selected (view := view1) mcm s1 c → cluster_ready c →
  view1 (Nat.iter (1 + i) (hub_run hkey) s1) KManifestWork !! work_key mcm c = Some w →
  applied (view := view2) m w skey s2 → spoke_ready skey s2 → claims s2 c →
  let before := Nat.iter j (spoke_run skey) s2 in
  let after := spoke_run skey before in
  run_out srv2 (spoke_program skey) before = Done (Ok no_requeue) ∧
  others_kept m (view2 s2 KDaemonSet) (view2 after KDaemonSet) ∧
  ∃ mappings, node_mappings (view := view2) m s2 mappings ∧
    converged (default_spec := default2) operatorNamespace m mappings (view2 after KDaemonSet) ∧
    (∀ node mld, spoke_targets s2 node → hub_data (node_kernel node) = Ok mld →
       image_there mld ∧
       ∃ mld', mappings !! node_kernel node = Some mld' ∧ same_kernel_module mld mld') ∧
    ∀ k mld', mappings !! k = Some mld' → mld_Build mld' = None ∧ mld_Sign mld' = None ∧
      ((∃ mld, hub_data k = Ok mld ∧ same_kernel_module mld mld' ∧ image_there mld) ∨
       hub_signing_fails namespace mcm k).
Proof using AS1 AS2.
  intros Hr Hsel Hc Hw Happ Hsr Hcl. cbn zeta.
  destruct (hub_work_applied _ _ _ _ _ _ Hr Hsel Hc Hw Happ) as [Hspec _].
  destruct (spoke_is_ready Hspec skey s2 Hc Hcl Hsr) as (mp & Hmp & Hready).
  destruct (runs_converge goarch operatorNamespace m skey mp s2 j Hready) as (Hok & Hconv & Ho).
  split_and!; [exact Hok|exact Ho|]. exists mp. split_and!; [exact Hmp|exact Hconv| |].
  - intros node mld Ht Hmld. split; [by eapply claimed_image|].
    destruct (spoke_of_hub namespace mcm m Hspec _ _ Hmld) as (mld' & Hmld' & Hsame).
    exists mld'. split; [|done]. apply Hmp. split; [done|]. by exists node.
  - intros k mld' Hk. apply Hmp in Hk as (Hg & node & Ht & <-).
    destruct (spoke_data_plain Hspec _ _ Hg) as [Hb Hsn]. split_and!; [done..|].
    destruct (hub_of_spoke namespace mcm m Hspec _ _ Hg) as [(mld & Hmld & Hsame)|?]; [left|by right].
    exists mld. split_and!; [done..|]. by eapply claimed_image.
Qed.
End fleet.

(** ** An example

    The hub of [HubConvergence] and the spoke that runs its first cluster, with
    one node. *)

#[local] Existing Instances ex_decoder ex_hasher map_order_std regexp_substring envsubst_id.

Definition ex_applied_module : Module_ := spoke_module ex_sel_mcm.
Definition ex_spoke_key : NamespacedName := object_key (mod_meta ex_applied_module).
Definition ex_spoke_node : Node :=
  mk_node (set_labels (Some (Selector (mod_Spec ex_applied_module))) (meta_named "worker-0" "")) []
    "5.14.0-70.el9" "RHCOS".
Definition ex_spoke_state : state := λ k,
  match k with
  | KModule => {[ ex_spoke_key := ex_applied_module ]}
  | KNode => {[ object_key (node_meta ex_spoke_node) := ex_spoke_node ]}
  | _ => ∅
  end.
Definition ex_spoke_memory : kserver state := memory_server (λ _, false).

Lemma ex_spoke_targets node : targets (view := view) ex_applied_module ex_spoke_state node → node = ex_spoke_node.
Proof.
  assert (view ex_spoke_state KNode = {[ object_key (node_meta ex_spoke_node) := ex_spoke_node ]}) as Hn.
  { apply view_id; [reflexivity|]. apply map_Forall_singleton. vm_compute. reflexivity. }
  intros [H _]. rewrite Hn in H. by apply lookup_singleton_Some in H as [_ H].
Qed.

Lemma ex_targets_node : targets (view := view) ex_applied_module ex_spoke_state ex_spoke_node.
Proof. split_and!; vm_compute; reflexivity. Qed.

Lemma ex_spoke_ready :
  spoke_ready (view := view) (valid := valid) "kmm" ex_applied_module ex_spoke_key ex_spoke_state.
Proof.
  assert (view ex_spoke_state KDaemonSet = ∅) as Hds by (vm_compute; reflexivity).
  assert (view ex_spoke_state KConfigMap = ∅) as Hcm by (vm_compute; reflexivity).
  split.
  - vm_compute. reflexivity.
  - rewrite Hds. split; intros *; by rewrite lookup_empty.
  - rewrite Hcm. intros T k1 k2 c1 c2 H. by rewrite lookup_empty in H.
  - intros node mld ->%ex_spoke_targets Hg. split_and!; [discriminate| |intros ds0 ds _; by left].
    apply (f_equal (λ r, match r with Ok mld => mld_ContainerImage mld | _ => "" end)) in Hg.
    rewrite <-Hg. vm_compute. discriminate.
  - by right; left.
  - by right; left.
  - intros ds0 ds _. by left.
Qed.

Lemma ex_spoke_claims : claims (view := view) ex_applied_module ex_spoke_state ex_built.
Proof.
  exists [ex_spoke_node]. split_and!.
  - vm_compute. reflexivity.
  - intros n ->%list_elem_of_singleton. vm_compute. tauto.
  - intros node ->%ex_spoke_targets. by left.
Qed.

(** The operator makes the DaemonSet of the node's kernel, with the image the
    hub has found. *)
Lemma fleet_converges_witness :
  let sent := run_state ex_hub_memory (hub_Reconcile (BM := buildconfig_manager "amd64")
                (SM := signjob_manager "amd64") "kmm-hub" ex_hub_key) ex_hub_state in
  let after := run_state ex_spoke_memory (operator_Reconcile "amd64" "kmm" ex_spoke_key) ex_spoke_state in
  ∃ mappings mld',
    mappings !! "5.14.0-70.el9" = Some mld' ∧ mld_ContainerImage mld' = "quay.io/org/driver:el9" ∧
    converged (default_spec := default_spec) "kmm" ex_applied_module mappings (view after KDaemonSet) ∧
    isSome (view sent KManifestWork !! NN "cluster-1" "nvidia") = true ∧ size (view after KDaemonSet) = 2.
Proof.
  cbn zeta.
  set (sent := run_state ex_hub_memory _ _).
  assert (is_selected (view := view) ex_sel_mcm ex_hub_state ex_built) as Hsel by (split; vm_compute; reflexivity).
  assert (option_map (λ w, mws_Manifests (mw_Spec w)) (view sent KManifestWork !! work_key ex_sel_mcm ex_built)
    = Some [ex_applied_module]) as Hm by (vm_compute; reflexivity).
  destruct (view sent KManifestWork !! work_key ex_sel_mcm ex_built) as [w|] eqn:Hw; [|discriminate Hm].
  apply (inj Some) in Hm.
  destruct (fleet_converges (srv1 := ex_hub_memory) (srv2 := ex_spoke_memory) "amd64" "kmm-hub" "kmm" ex_sel_mcm
    ex_applied_module ex_built ex_hub_key ex_hub_state 0 w ex_spoke_key ex_spoke_state 0 ex_hub_ready Hsel
    ex_built_ready Hw) as (_ & _ & mp & Hmp & Hconv & Himg & _).
  - exists ex_applied_module. split_and!; [exact Hm|reflexivity| |reflexivity]. vm_compute. reflexivity.
  - exact ex_spoke_ready.
  - exact ex_spoke_claims.
  - destruct (Himg ex_spoke_node (ex_hub_mld ex_sel_mcm) ex_targets_node) as (_ & mld' & Hk & Hsame & _);
      [vm_compute; reflexivity|].
    exists mp, mld'. split; [exact Hk|]. split; [rewrite Hsame; vm_compute; reflexivity|].
    split; [exact Hconv|]. split; vm_compute; reflexivity.
Defined.
