(* ===== verification/Wakeups.v ===== *)
(** * A controller hears what becomes of the objects it makes

    A reconciliation that waits for a build, a signing job or the pods of a
    DaemonSet returns without asking to be called again: it relies on the
    event of that object to come back.  Here the watches of Watches.v meet
    the safety results of the controllers: whatever DaemonSet, Build, Job,
    PreflightValidation or ManifestWork a controller stores, every later event
    of the object queues the key the controller was reconciling. *)

From S2P Require Import Prelude Prog K8s Api Client Utils Helpers KernelMapper DaemonSet Registry.
From S2P Require Import CA Managers BuildConfig SignJob StatusUpdater ModuleReconciler Operator.
From S2P Require Import Filter Watches Preflight PreflightOCP Hub.
From stdpp Require Import options.

Local Open Scope go_scope.

(** ** From a controller reference to a request *)

(** The scopes of the operator's resources, as their definitions declare them
    (the resource markers of api/ and api-hub/). *)
Class CRDScopes (RM : RESTMapper) := {
  scope_Module : RESTMapping "kmm.sigs.x-k8s.io" "Module" "v1beta1" = Ok RESTScopeNamespace;
  scope_Preflight :
    RESTMapping "kmm.sigs.x-k8s.io" "PreflightValidation" "v1beta1" = Ok RESTScopeRoot;
  scope_PreflightOCP :
    RESTMapping "kmm.sigs.x-k8s.io" "PreflightValidationOCP" "v1beta1" = Ok RESTScopeRoot;
  scope_ManagedClusterModule :
    RESTMapping "hub.kmm.sigs.x-k8s.io" "ManagedClusterModule" "v1beta1" = Ok RESTScopeRoot }.

Section requests.
Context {RM : RESTMapper}.

(** A kind that can own: its resource is known, with this scope. *)
Definition owner_kind (T : kind) (scope : RESTScope) : Prop :=
  ∃ g, (GroupKind T).1 = Some g ∧
    RESTMapping g (ObjectKinds T).2 (parse_version (ObjectKinds T).1) = Ok scope.

Definition owner_of_kind (T : kind) (owner : Owner) : Prop :=
  (ow_APIVersion owner, ow_Kind owner) = ObjectKinds T.

(** Where the objects of a scope live. *)
Definition in_scope (scope : RESTScope) (key : NamespacedName) : Prop :=
  match scope with
  | RESTScopeNamespace => nn_Namespace key ≠ ""
  | RESTScopeRoot => nn_Namespace key = ""
  end.

Definition owner_key (owner : Owner) : NamespacedName := NN (ow_Namespace owner) (ow_Name owner).

Lemma controller_request T scope owner o :
  owner_kind T scope → owner_of_kind T owner → in_scope scope (owner_key owner) →
  controlled_by owner (any_meta o) →
  getOwnerReconcileRequest T true o = [owner_key owner].
Proof.
  intros (g & Hg & Hs) Ht Hns [Hc Hn]. unfold owner_of_kind in Ht.
  unfold getOwnerReconcileRequest, getOwnersReferences. rewrite Hc. simpl.
  unfold GroupKind in *. rewrite <-Ht in Hg, Hs |- *. simpl in *. rewrite Hg.
  rewrite !bool_decide_true by done. simpl. rewrite Hs. unfold owner_key in *. simpl in *.
  destruct scope; simpl in Hns; [|by rewrite Hns]. by destruct Hn as [Hn|<-].
Qed.

(** ** From an event to the request *)

(** The only watch of a kind is the one [Owns] sets up, without predicates. *)
Definition owns_only (b : Builder) (k : kind) : Prop :=
  List.filter (λ w, bool_decide (w_src w = k)) (doWatch b) =
  [mk_watch k (EnqueueRequestForOwner (fst (b_forInput b)) true) []].

Lemma deliver_all_filter ws e :
  deliver_all ws e = deliver_all (List.filter (λ w, bool_decide (w_src w = event_kind e)) ws) e.
Proof.
  induction ws as [|w ws IH]; [done|]. simpl.
  destruct (bool_decide (w_src w = event_kind e)) eqn:Hw; [|done]. simpl. by rewrite Hw, IH.
Qed.

Lemma queued_owned b k e :
  owns_only b k → event_kind e = k →
  queued b e = Ret (remove_dups (concat (List.map (getOwnerReconcileRequest (fst (b_forInput b)) true)
                                           (event_objects e))) ++ []).
Proof.
  intros Hb He. unfold queued. rewrite deliver_all_filter, He. rewrite Hb. simpl.
  by rewrite bool_decide_true.
Qed.

(** The event shows an object with the metadata that matter here. *)
Definition shows (e : watch_event) (k : kind) (o : obj k) : Prop :=
  event_kind e = k ∧
  ∃ x, x ∈ event_objects e ∧
    om_OwnerReferences (any_meta x) = om_OwnerReferences (obj_meta k o) ∧
    om_Namespace (any_meta x) = om_Namespace (obj_meta k o).

Lemma owned_event b k scope owner e (o : obj k) :
  owns_only b k → owner_kind (fst (b_forInput b)) scope →
  owner_of_kind (fst (b_forInput b)) owner → in_scope scope (owner_key owner) →
  controlled_by owner (obj_meta k o) → shows e k o →
  ∃ l, queued b e = Ret l ∧ owner_key owner ∈ l.
Proof.
  intros Hb Hk Ho Hs [Hc Hn] [He (x & Hx & Href & Hns)].
  eexists. split; [by eapply queued_owned|].
  rewrite app_nil_r, elem_of_remove_dups, list_elem_of_In, in_concat.
  exists [owner_key owner]. split; [|by left].
  apply in_map_iff. exists x. split; [|by apply list_elem_of_In].
  eapply controller_request; [done..|]. unfold controlled_by, GetControllerOf.
  by rewrite Href, Hns.
Qed.

(** ** Controllers *)

(** The run only sees the object it reconciles: what the server shows of its
    kind has the key asked for. *)
Definition sees_own (k : kind) (key : NamespacedName) (h : hist) : Prop :=
  ∀ o, ((∃ key', (Ev (RGet k key') (Ok o) : @event req ans) ∈ h) ∨
        (∃ o', (Ev (RStatusUpdate k o') (Ok o) : @event req ans) ∈ h)) →
       object_key (obj_meta k o) = key.

Definition stored (k : kind) (o : obj k) (q : req) : Prop :=
  q = RCreate k o ∨ ∃ b, q = RPatch k o b.

(** Whatever object of these kinds a controller stores, an event of the object
    queues the key that was reconciled. *)
Definition hears_its_objects (b : Builder) (kinds : list kind) (scope : RESTScope)
    (reconcile : NamespacedName → M (result ReconcileResult)) : Prop :=
  ∀ S (srv : kserver S) s key h1 e h2 k (o : obj k) evt,
    run_trace srv (reconcile key) s = h1 ++ e :: h2 →
    sees_own (fst (b_forInput b)) key h1 → in_scope scope key →
    k ∈ kinds → stored k o (ev_req e) → shows evt k o →
    ∃ l, queued b evt = Ret l ∧ key ∈ l.

(** It is enough that everything stored is controlled by an owner of the key. *)
Definition stores_owned (T : kind) (kinds : list kind) (key : NamespacedName) (q : req) : Prop :=
  ∀ k (o : obj k), k ∈ kinds → stored k o q →
    ∃ owner, owner_of_kind T owner ∧ owner_key owner = key ∧
      controlled_by owner (obj_meta k o).

Lemma hears_intro b kinds scope reconcile :
  owner_kind (fst (b_forInput b)) scope →
  (∀ k, k ∈ kinds → owns_only b k) →
  (∀ S (srv : kserver S) s key h1 e h2, run_trace srv (reconcile key) s = h1 ++ e :: h2 →
     sees_own (fst (b_forInput b)) key h1 →
     stores_owned (fst (b_forInput b)) kinds key (ev_req e)) →
  hears_its_objects b kinds scope reconcile.
Proof.
  intros Hk Hb Hr S srv s key h1 e h2 k o evt Htr Hown Hs Hin Hst Hev.
  destruct (Hr _ _ _ _ _ _ _ Htr Hown k o Hin Hst) as (owner & H1 & <- & H3).
  eapply owned_event; eauto.
Qed.

Lemma stored_inj k k' (o : obj k) (o' : obj k') q :
  stored k o q → stored k' o' q → existT k o = existT k' o'.
Proof.
  intros [->|[b ->]] [H|[b' H]]; try done; injection H as H1 H2; subst;
    by simplify_eq.
Qed.

Lemma stored_sync_call k' push owner k (o : obj k) q :
  sync_call k' push owner q → stored k o q → controlled_by owner (obj_meta k o).
Proof.
  intros Hc Hst. destruct Hc as [q Hq|o' Ho _|o' bg].
  - by destruct Hst as [->|[b ->]].
  - assert (existT k o = existT k' o') as Heq by (eapply stored_inj; [exact Hst|by left]).
    by simplify_eq.
  - by destruct Hst as [?|[b ?]].
Qed.
End requests.

Section controllers.
Context {D : ManifestDecoder} {RD : ReleaseDecoder} {R : Regexp} {E : Envsubst} {MO : MapOrder}.
Context {BM : BuildManager} {SM : SignManager} {BS : BuildManagerSpec BM} {SS : SignManagerSpec SM}.
Context {LV : LabelValidation}.

(** ** The Module controller *)

Lemma Module_stores_owned kernelLabel operatorNamespace {S} (srv : kserver S) s key h1 e h2 :
  run_trace srv (Reconcile kernelLabel operatorNamespace key) s = h1 ++ e :: h2 →
  sees_own KModule key h1 →
  stores_owned KModule [KDaemonSet; KBuild; KJob] key (ev_req e).
Proof using Type*.
  intros Htr Hown k o Hk Hst.
  pose proof (wp_run _ _ _ srv s (wp_Reconcile kernelLabel operatorNamespace key)) as [_ Hok].
  assert (¬ plain_call (ev_req e)) as Hplain.
  { intros (Hd & Hj & _). simpl in Hk. destruct Hst as [Hq|[b Hq]]; rewrite Hq in Hd, Hj; simpl in Hd, Hj;
      apply bool_decide_eq_false in Hd; set_solver. }
  destruct (Hok _ _ _ Htr) as [?|(m & Hm & Hok')]; [done|].
  exists (as_owner (A := Module_) m). split; [done|]. split; [apply (Hown m); left; by exists key|].
  destruct Hok' as [?|[(kv & mld & _ & [Hq%bm_call_sync|Hq%sm_call_sync])|
    [(mld & ds0 & ds & sa & Hg & _ & _ & Hd & Hs)|[(ds0 & ds & sa & Hd & Hs)|(ds & nodes & Hq & _)]]]].
  - done.
  - by eapply stored_sync_call.
  - by eapply stored_sync_call.
  - assert (existT k o = existT KDaemonSet ds) as Heq by by eapply stored_inj. simplify_eq.
    rewrite <-(mld_owner _ _ _ Hg). by eapply SetDriverContainerAsDesired_controlled.
  - assert (existT k o = existT KDaemonSet ds) as Heq by by eapply stored_inj. simplify_eq.
    by eapply SetDevicePluginAsDesired_controlled.
  - rewrite Hq in Hst. by destruct Hst as [?|[b ?]].
Qed.

(** ** Preflight *)

Lemma Preflight_stores_owned goarch {S} (srv : kserver S) s key h1 e h2 :
  run_trace srv (preflight_Reconcile goarch key) s = h1 ++ e :: h2 →
  sees_own KPreflight key h1 →
  stores_owned KPreflight [KBuild; KJob] key (ev_req e).
Proof using Type*.
  intros Htr Hown k o Hk Hst.
  pose proof (wp_run _ _ _ srv s (wp_preflight_Reconcile goarch key)) as [_ Hok].
  destruct (Hok _ _ _ Htr) as [Hq|[(pv & Hq & _)|(pv & mld & Hpv & _ & Hq)]].
  - by destruct Hst as [Heq|[b Heq]]; rewrite Heq in Hq.
  - by destruct Hst as [Heq|[b Heq]]; rewrite Heq in Hq.
  - exists (as_owner pv). split; [done|]. split.
    + destruct Hpv as (pv0 & Hpv0 & Hmeta & _).
      assert (object_key (pv_meta pv0) = key) as <- by (by apply (Hown pv0)).
      unfold object_key, owner_key. simpl. by rewrite Hmeta.
    + destruct Hq as [Hq%bm_call_sync|Hq%sm_call_sync]; by eapply stored_sync_call.
Qed.

Lemma PreflightOCP_stores_owned goarch {S} (srv : kserver S) s key h1 e h2 :
  run_trace srv (ocp_Reconcile goarch key) s = h1 ++ e :: h2 →
  sees_own KPreflightOCP key h1 →
  stores_owned KPreflightOCP [KPreflight] key (ev_req e).
Proof using Type*.
  intros Htr Hown k o Hk Hst.
  pose proof (wp_run _ _ _ srv s (wp_ocp_Reconcile goarch key)) as [_ Hok].
  destruct (Hok _ _ _ Htr) as [[Hq _]|(pvo & Hpvo & H)].
  { by destruct Hst as [Heq|[b Heq]]; rewrite Heq in Hq. }
  exists (as_owner (A := PreflightValidationOCP) pvo). split; [done|]. split; [apply (Hown pvo); left; by exists key|].
  destruct H as [(pv & _ & Hq)|(err & dtk & r & kv & _ & _ & _ & [(_ & [Hq|Hq])|(pv & Hq & _ & _ & Hc)])];
    try by (destruct Hst as [Heq|[b Heq]]; rewrite Heq in Hq).
  assert (existT k o = existT KPreflight pv) as Heq by by (eapply stored_inj; [exact Hst|by left]).
  by simplify_eq.
Qed.

(** ** The hub *)

Lemma Hub_stores_owned namespace {S} (srv : kserver S) s key h1 e h2 :
  run_trace srv (hub_Reconcile namespace key) s = h1 ++ e :: h2 →
  sees_own KManagedClusterModule key h1 →
  stores_owned KManagedClusterModule [KManifestWork; KBuild; KJob] key (ev_req e).
Proof using Type*.
  intros Htr Hown k o Hk Hst.
  pose proof (wp_run _ _ _ srv s (wp_hub_Reconcile namespace key)) as [_ Hok].
  assert (∀ q, ev_req e = q → is_write q = true) as Hwr.
  { intros q <-. by destruct Hst as [->|[b ->]]. }
  destruct (Hok _ _ _ Htr) as [Hq|[[Hq|(b & bg & Hq)]|(mcm & clusters & Hm & _ & H)]].
  - by rewrite (Hwr _ eq_refl) in Hq.
  - by rewrite (Hwr _ eq_refl) in Hq.
  - rewrite Hq in Hst. by destruct Hst as [?|[? ?]].
  - exists (as_owner (A := ManagedClusterModule) mcm). split; [done|]. split; [apply (Hown mcm); left; by exists key|].
    destruct H as [(view & cluster & [Ho _]%mcm_view_owner & _ & [Hq|(vs & v & mld & _ & _ & _ & Hq)])|
      [(view & cluster & mw & _ & _ & _ & (_ & _ & Hc & _) & Hs)|[(ws & mw & _ & _ & _ & Hq)|(view & ws & _ & Hq)]]].
    + by rewrite (Hwr _ eq_refl) in Hq.
    + rewrite <-Ho. destruct Hq as [Hq%bm_call_sync|Hq%sm_call_sync]; by eapply stored_sync_call.
    + assert (existT k o = existT KManifestWork mw) as Heq by by eapply stored_inj. by simplify_eq.
    + rewrite Hq in Hst. by destruct Hst as [?|[? ?]].
    + rewrite Hq in Hst. by destruct Hst as [?|[? ?]].
Qed.

(** ** Their kinds *)

Context {RM : RESTMapper} {CS : CRDScopes RM}.

Lemma Module_owner_kind : owner_kind KModule RESTScopeNamespace.
Proof using Type*. exists "kmm.sigs.x-k8s.io". split; [reflexivity|exact scope_Module]. Qed.
Lemma Preflight_owner_kind : owner_kind KPreflight RESTScopeRoot.
Proof using Type*. exists "kmm.sigs.x-k8s.io". split; [reflexivity|exact scope_Preflight]. Qed.
Lemma PreflightOCP_owner_kind : owner_kind KPreflightOCP RESTScopeRoot.
Proof using Type*. exists "kmm.sigs.x-k8s.io". split; [reflexivity|exact scope_PreflightOCP]. Qed.
Lemma ManagedClusterModule_owner_kind : owner_kind KManagedClusterModule RESTScopeRoot.
Proof using Type*. exists "hub.kmm.sigs.x-k8s.io". split; [reflexivity|exact scope_ManagedClusterModule]. Qed.

(** ** Property *)

(** C9: no controller misses what becomes of its objects.  Whatever DaemonSet,
    Build or Job the Module controller creates or patches, Build or Job the
    preflight controller, PreflightValidation the controller of OpenShift
    releases, ManifestWork, Build or Job the hub: every creation, update,
    deletion or generic event that shows the object with its owner references
    queues the key the controller was reconciling, as long as the server answers with the
    object of that key and serves the operator's resources in the scope their
    definitions declare. *)
Theorem controllers_hear_their_objects kernelLabel operatorNamespace namespace goarch :
  hears_its_objects (ModuleReconciler_SetupWithManager kernelLabel)
    [KDaemonSet; KBuild; KJob] RESTScopeNamespace
    (Reconcile kernelLabel operatorNamespace) ∧
  hears_its_objects PreflightValidationReconciler_SetupWithManager [KBuild; KJob] RESTScopeRoot
    (preflight_Reconcile goarch) ∧
  hears_its_objects PreflightValidationOCPReconciler_SetupWithManager [KPreflight] RESTScopeRoot
    (ocp_Reconcile goarch) ∧
  hears_its_objects ManagedClusterModuleReconciler_SetupWithManager
    [KManifestWork; KBuild; KJob] RESTScopeRoot
    (hub_Reconcile namespace).
Proof using Type*.
  split_and!; apply hears_intro.
  all: try (intros k Hk; simpl in Hk; repeat (apply elem_of_cons in Hk as [->|Hk]; [reflexivity|]);
            by apply not_elem_of_nil in Hk).
  - exact Module_owner_kind.
  - intros S srv s key h1 e h2. apply Module_stores_owned.
  - exact Preflight_owner_kind.
  - intros S srv s key h1 e h2. apply Preflight_stores_owned.
  - exact PreflightOCP_owner_kind.
  - intros S srv s key h1 e h2. apply PreflightOCP_stores_owned.
  - exact ManagedClusterModule_owner_kind.
  - intros S srv s key h1 e h2. apply Hub_stores_owned.
Qed.
End controllers.

(** ** Example *)

(** The API server as the resource definitions describe it. *)
Definition crd_mapper : RESTMapper := λ _ k _,
  if bool_decide (k = "Module") then Ok RESTScopeNamespace else Ok RESTScopeRoot.
#[export] Instance crd_mapper_scopes : CRDScopes crd_mapper.
Proof. split; reflexivity. Qed.

Definition updates_status (e : @event req ans) : bool :=
  match ev_req e with RStatusUpdate _ _ => true | _ => false end.
Lemma ex_no_status_update :
  forallb (λ e, negb (updates_status e)) (run_trace (stateless ex_answers) ex_reconcile tt) = true.
Proof. vm_compute. reflexivity. Qed.

(** Somebody deletes the DaemonSet the operator created: its Module is queued. *)
Lemma controllers_hear_their_objects_witness : ∃ ds l, loads_modules ds ∧
  queued (RM := crd_mapper) (ModuleReconciler_SetupWithManager (LV := valid_all) KernelLabel)
    (DeleteEvent (any KDaemonSet ds)) = Ret l ∧ NN "gpu" "nvidia" ∈ l.
Proof.
  destruct ex_reconcile_creates as (h1 & e & h2 & ds & Htr & He & Hds).
  assert (∀ e', e' ∈ h1 → e' ∈ run_trace (stateless ex_answers) ex_reconcile tt) as Hin
    by (intros e' He'; unfold ex_cluster in Htr; rewrite Htr; apply elem_of_app; by left).
  destruct (proj1 (controllers_hear_their_objects (D := ex_decoder) (RD := ex_release_decoder)
      (R := regexp_substring) (E := envsubst_id) (MO := map_order_std)
      (BM := buildconfig_manager (D := ex_decoder) (Hs := ex_hasher) "amd64")
      (SM := signjob_manager (D := ex_decoder) (Hs := ex_hasher) "amd64")
      (LV := valid_all) (RM := crd_mapper) KernelLabel "gpu" "gpu" "amd64")
    unit ex_cluster tt (NN "gpu" "nvidia") h1 e h2 KDaemonSet ds (DeleteEvent (any KDaemonSet ds)))
    as (l & Hl & Hkey).
  - exact Htr.
  - intros o [[key Ho]|[o' Ho]].
    + pose proof (stateless_answers ex_answers ex_reconcile _ (Hin _ Ho)) as Heq.
      by injection Heq as ->.
    + apply Hin, list_elem_of_In in Ho.
      by pose proof (proj1 (forallb_forall _ _) ex_no_status_update _ Ho).
  - discriminate.
  - apply list_elem_of_here.
  - left. exact He.
  - split; [reflexivity|]. exists (any KDaemonSet ds). split; [apply list_elem_of_here|split; reflexivity].
  - exists ds, l. exact (conj Hds (conj Hl Hkey)).
Defined.
