(* ===== verification/SharedMapping.v ===== *)
(** * The mapping the controllers share

    Every controller of a manager process runs concurrently with the others,
    and some of them talk through the kernel / OS / driver-toolkit mapping of
    internal/syncronizedmap, which main.go creates empty and hands to them.
    This file runs whole controllers side by side, call by call in every
    order, against an API server and registries that answer anything; the
    mapping's operations take effect at the call, which SyncMap justifies.
    What a controller may do on its own ([wp]) carries over to the whole
    process, and gives the provenance of what is in the mapping, of the
    driver toolkit images builds are given, and a consequence of which
    controllers main.go starts on the hub. *)

From S2P Require Import Prelude Prog K8s Api Client Utils Helpers KernelMapper DaemonSet Registry SyncMap.
From S2P Require Import CA Managers BuildConfig SignJob StatusUpdater ModuleReconciler Operator.
From S2P Require Import Preflight PreflightOCP NodeControllers Hub.
From stdpp Require Import options.

(** ** A process *)

(** The mapping's calls: what they do to it and what they answer. *)
Definition mapping_effect (q : req) (m : kernelOsDtkMapping) : kernelOsDtkMapping :=
  match q with
  | RSetNodeInfo k os => SetNodeInfo k os m
  | RSetImageStreamInfo os d => SetImageStreamInfo os d m
  | _ => m
  end.
Definition mapping_answers (m : kernelOsDtkMapping) (q : req) : ans q → Prop :=
  match q with
  | RGetImage k => λ x : result string, x = GetImage k m
  | _ => λ _, True
  end.

(** The mapping, the calls of all controllers in order, and the
    reconciliations under way: the calls each made and what is left of it. *)
Record process := mk_process {
  pr_mapping : kernelOsDtkMapping;
  pr_hist : hist;
  pr_threads : list (hist * M (result ReconcileResult)) }.

Section process.
Variable controllers : M (result ReconcileResult) → Prop.

Inductive process_step : process → process → Prop :=
  | process_start m h ts p : controllers p →
      process_step (mk_process m h ts) (mk_process m h (ts ++ [([], p)]))
  | process_call m h ts i th q k x :
      ts !! i = Some (th, Call q k) → mapping_answers m q x →
      process_step (mk_process m h ts)
        (mk_process (mapping_effect q m) (h ++ [Ev q x]) (<[i := (th ++ [Ev q x], k x)]> ts))
  | process_restart m h ts :
      process_step (mk_process m h ts) (mk_process NewKernelOsDtkMapping h []).

Definition process_init : process := mk_process NewKernelOsDtkMapping [] [].
Definition reachable (c : process) : Prop := rtc process_step process_init c.

(** ** From one controller to all of them *)

Variable ok : hist → req → Prop.
Hypothesis controllers_ok : ∀ p, controllers p → wp ok p (λ _ _, True) [].

Definition within (th h : hist) : Prop := ∀ e, e ∈ th → e ∈ h.

(** A reconciliation under way has made calls of the process, and what is
    left of it makes allowed ones. *)
Definition thread_ok (h : hist) (t : hist * M (result ReconcileResult)) : Prop :=
  within (fst t) h ∧ wp ok (snd t) (λ _ _, True) (fst t).

(** Every call was allowed, by the calls its own reconciliation had made. *)
Definition calls_ok (h : hist) : Prop := ∀ e, e ∈ h → ∃ th, within th h ∧ ok th (ev_req e).

Lemma within_app th h e : within th h → within th (h ++ [e]).
Proof. intros H x Hx. apply elem_of_app. left. by apply H. Qed.

Lemma calls_ok_app th h e : calls_ok h → within th h → ok th (ev_req e) → calls_ok (h ++ [e]).
Proof.
  intros Hh Hth Hok x [Hx|Hx]%elem_of_app.
  - destruct (Hh x Hx) as (th' & Hin & Hok'). exists th'. split; [by apply within_app|done].
  - apply list_elem_of_singleton in Hx as ->. exists th. split; [by apply within_app|done].
Qed.

Lemma thread_call h ts i th q k x :
  Forall (thread_ok h) ts → ts !! i = Some (th, Call q k) →
  ok th q ∧ within th h ∧ Forall (thread_ok (h ++ [Ev q x])) (<[i := (th ++ [Ev q x], k x)]> ts).
Proof.
  intros Hts Hi. pose proof (proj1 (Forall_lookup _ _) Hts _ _ Hi) as [Hin [Hok Hk]]. simpl in *.
  split_and!; [done|done|]. apply Forall_insert.
  - eapply Forall_impl; [exact Hts|]. intros t [H1 H2]. split; [by apply within_app|done].
  - split; [|apply Hk]. intros e [He|He]%elem_of_app; apply elem_of_app; [left; by apply Hin|by right].
Qed.

(** An invariant of the mapping that every allowed call keeps. *)
Lemma process_invariant (inv : kernelOsDtkMapping → hist → Prop) :
  inv NewKernelOsDtkMapping [] →
  (∀ m h, inv m h → inv NewKernelOsDtkMapping h) →
  (∀ m h th q x, inv m h → within th h → ok th q → mapping_answers m q x →
     inv (mapping_effect q m) (h ++ [Ev q x])) →
  ∀ c, reachable c →
    inv (pr_mapping c) (pr_hist c) ∧ calls_ok (pr_hist c) ∧
    Forall (thread_ok (pr_hist c)) (pr_threads c).
Proof using Type*.
  intros H0 Hr Hq c. apply (rtc_ind_r (λ c, inv (pr_mapping c) (pr_hist c) ∧ calls_ok (pr_hist c) ∧
    Forall (thread_ok (pr_hist c)) (pr_threads c))).
  { split_and!; [done|by intros e ?%not_elem_of_nil|by constructor]. }
  clear c. intros c c' _ Hstep (Hi & Hc & Ht).
  destruct Hstep as [m h ts p Hp|m h ts i th q k x Hlook Hx|m h ts]; simpl in *.
  - split_and!; [done|done|]. apply Forall_app. split; [done|]. constructor; [|done].
    split; [by intros e ?%not_elem_of_nil|by apply controllers_ok].
  - destruct (thread_call h ts i th q k x Ht Hlook) as (Hok & Hin & Hts').
    split_and!; [by eapply Hq|by eapply calls_ok_app|done].
  - split_and!; [by eapply Hr|done|by constructor].
Qed.
End process.

(** ** Where the entries come from *)

Section sources.
Context {D : ManifestDecoder} {RD : ReleaseDecoder}.

(** A node runs the kernel, and its OS image names the version. *)
Definition node_source (k os : string) (h : hist) : Prop :=
  ∃ key node, (Ev (RGet KNode key) (Ok node) : @event req ans) ∈ h ∧
    node_kernel node = k ∧ osVersion_FindString (node_OSImage node) = os ∧ os ≠ "".

(** A tag of the driver toolkit's image stream refers to the image. *)
Definition tag_source (os image : string) (h : hist) : Prop :=
  ∃ ist t, (Ev (RGet KImageStream dtkNSN) (Ok ist) : @event req ans) ∈ h ∧
    t ∈ is_Tags ist ∧ tag_Name t = os ∧ tag_From t = Some image.

(** The release a PreflightValidationOCP asks for has this driver toolkit
    image, whose release file names the kernel and the OS version. *)
Definition release_source (k os image : string) (h : hist) : Prop :=
  ∃ key pvo r, (Ev (RGet KPreflightOCP key) (Ok pvo) : @event req ans) ∈ h ∧
    kernel_of pvo image r k h ∧ dtk_RHELVersion r = os.

Definition kernel_source (k os : string) (h : hist) : Prop :=
  node_source k os h ∨ ∃ image, release_source k os image h.
Definition image_source (os image : string) (h : hist) : Prop :=
  tag_source os image h ∨ ∃ k, release_source k os image h.

(** ** What each controller does to the mapping *)

Context {Hs : Hasher} {R : Regexp} {E : Envsubst} {MO : MapOrder}.

(** The entries a controller adds have a source among its own calls, and the
    Builds it creates are those of the template. *)
Definition mapping_ok (h : hist) (q : req) : Prop :=
  match q with
  | RSetNodeInfo k os => kernel_source k os h
  | RSetImageStreamInfo os image => image_source os image h
  | _ => True
  end.
Definition build_ok (h : hist) (q : req) : Prop :=
  ∀ b, created KBuild q = Some b →
    ∃ mld push owner h', h' `prefix_of` h ∧ template_of mld push owner h' b.
Definition controller_ok (h : hist) (q : req) : Prop := mapping_ok h q ∧ build_ok h q.

Lemma controller_ok_other h q : mapping_write q = false → created KBuild q = None → controller_ok h q.
Proof. intros Hm Hb. split; [by destruct q|]. intros b Hq. congruence. Qed.

Lemma controller_ok_read h q : is_write q = false → controller_ok h q.
Proof. intros Hq. apply controller_ok_other; by destruct q. Qed.

Lemma controller_ok_plain h q : plain_call q → controller_ok h q.
Proof.
  intros (_ & Hj & Hm). apply controller_ok_other; [done|]. destruct q as [| |k o| | | | | | | | | | | | | | |]; try done.
  simpl in *. unfold as_kind. destruct (decide _); [by destruct Hj|done].
Qed.

Lemma controller_ok_build mld push owner n h q :
  build_allowed mld push owner n h q → controller_ok h q.
Proof.
  intros [Hq|(_ & h' & t & Ht & [[-> ->]|(b & -> & _ & ->)])]; [by apply controller_ok_read| |done].
  split; [done|]. intros b Hb.
  assert (created KBuild (RCreate KBuild t) = Some t) as Ht' by apply as_kind_same.
  rewrite Ht' in Hb. injection Hb as <-.
  exists mld, push, owner, h'. split; [by apply prefix_app_r|done].
Qed.

Lemma controller_ok_sign mld image push owner n h q :
  sign_allowed mld image push owner n h q → controller_ok h q.
Proof.
  intros [Hq|(_ & h' & t & l & Ht & -> & [[_ ->]|(b & _ & _ & ->)])]; [by apply controller_ok_read|done..].
Qed.

Lemma controller_ok_stored k (o : obj k) h q :
  k ≠ KBuild → (q = RCreate k o ∨ ∃ b, q = RPatch k o b) → controller_ok h q.
Proof.
  intros Hk [->|[b ->]]; apply controller_ok_other; try done. simpl. unfold as_kind.
  by destruct (decide _).
Qed.

Section managers.
Variables (goarch operatorNamespace namespace : string).
Abbreviation operator_preflight :=
  (preflight_Reconcile (BM := buildconfig_manager goarch) (SM := signjob_manager goarch) goarch).
Abbreviation operator_hub :=
  (hub_Reconcile (BM := buildconfig_manager goarch) (SM := signjob_manager goarch) namespace).

Lemma wp_operator_mapping key :
  wp controller_ok (operator_Reconcile goarch operatorNamespace key) (λ _ _, True) [].
Proof.
  eapply wp_mono; [apply wp_Reconcile| |done]. intros h q _ [Hq|(m & _ & Hq)].
  { by apply controller_ok_plain. }
  destruct Hq as [Hq|[(k & mld & _ & [[n Hq]|[n Hq]])|[(mld & ds0 & ds & sa & _ & _ & _ & _ & Hst)|
    [(ds0 & ds & sa & _ & Hst)|(ds & nodes & -> & _)]]]].
  - by apply controller_ok_plain.
  - by eapply controller_ok_build.
  - by eapply controller_ok_sign.
  - by eapply (controller_ok_stored KDaemonSet).
  - by eapply (controller_ok_stored KDaemonSet).
  - by apply controller_ok_other.
Qed.

Lemma wp_preflight_mapping key :
  wp controller_ok (operator_preflight key) (λ _ _, True) [].
Proof.
  eapply wp_mono; [apply wp_preflight_Reconcile| |done].
  intros h q _ [Hq|[(pv & -> & _)|(pv & mld & _ & _ & [[n Hq]|[n Hq]])]].
  - by apply controller_ok_read.
  - by apply controller_ok_other.
  - by eapply controller_ok_build.
  - by eapply controller_ok_sign.
Qed.

Lemma wp_hub_mapping key : wp controller_ok (operator_hub key) (λ _ _, True) [].
Proof.
  eapply wp_mono; [apply wp_hub_Reconcile| |done].
  intros h q _ [Hq|[[Hq|(b & bg & ->)]|(mcm & clusters & _ & _ & Hq)]].
  1,2: by apply controller_ok_read.
  { by apply controller_ok_other. }
  destruct Hq as [(view & cluster & _ & _ & [Hq|(vs & v & mld & _ & _ & _ & [[n Hq]|[n Hq]])])|
    [(view & cluster & mw & _ & _ & _ & _ & Hst)|[(ws & mw & _ & _ & _ & ->)|(view & ws & _ & ->)]]].
  - by apply controller_ok_read.
  - by eapply controller_ok_build.
  - by eapply controller_ok_sign.
  - by eapply (controller_ok_stored KManifestWork).
  - by apply controller_ok_other.
  - by apply controller_ok_other.
Qed.

Lemma wp_ocp_mapping key : wp controller_ok (ocp_Reconcile goarch key) (λ _ _, True) [].
Proof.
  eapply wp_mono; [apply wp_ocp_Reconcile| |done].
  intros h q _ [[Hq _]|(pvo & Hpvo & [(pv & _ & ->)|(err & dtk & r & k & _ & _ & Hk & Hq)])].
  - by apply controller_ok_read.
  - by apply controller_ok_other.
  - destruct Hq as [(_ & [->| ->])|(pv & -> & _)]; [| |by apply controller_ok_other].
    + split; [|done]. right. exists dtk, key, pvo, r. by split_and!.
    + split; [|done]. right. exists k, key, pvo, r. by split_and!.
Qed.

Lemma wp_node_kernel_mapping labelName key :
  wp controller_ok (node_kernel_Reconcile labelName key) (λ _ _, True) [].
Proof.
  unfold node_kernel_Reconcile. apply wp_bind. split; [by apply controller_ok_read|].
  intros [node|e|w]; [|done..]. cbn [wp]. case_bool_decide as Hos; [done|].
  split.
  - split; [|done]. left. exists (NN "" (nn_Name key)), node. split_and!; [by left|done..].
  - intros []. split; [by apply controller_ok_other|]. by intros [r|e|w].
Qed.

Lemma wp_register_tags ist tags h :
  (Ev (RGet KImageStream dtkNSN) (Ok ist) : @event req ans) ∈ h → (∀ t, t ∈ tags → t ∈ is_Tags ist) →
  wp controller_ok (register_tags tags) (λ _ _, True) h.
Proof.
  revert h. induction tags as [|t tags IH]; intros h Hin Htags; [done|]. cbn [register_tags].
  case_bool_decide; [apply IH; [done|]; intros; apply Htags; by right|].
  destruct (tag_From t) as [image|] eqn:Hf; [|done]. split.
  - split; [|done]. left. exists ist, t. split_and!; [done|apply Htags; by left|done..].
  - intros []. apply IH; [apply elem_of_app; by left|]. intros; apply Htags; by right.
Qed.

Lemma wp_imagestream_mapping : wp controller_ok (imagestream_Reconcile dtkNSN) (λ _ _, True) [].
Proof.
  unfold imagestream_Reconcile. apply wp_bind. split; [by apply controller_ok_read|].
  intros [ist|e|w]; [|done..]. apply wp_bind. eapply wp_post; [|by intros [[]|w]].
  eapply wp_register_tags; [by left|done].
Qed.

Lemma wp_pod_mapping kernelLabel key :
  wp controller_ok (pod_Reconcile kernelLabel key) (λ _ _, True) [].
Proof.
  eapply wp_mono; [apply wp_pod_Reconcile| |done].
  intros h q _ [Hq|(pod & name & node & _ & [(_ & -> & _)|[(_ & -> & _)|(node' & _ & -> & _)]])];
    [by apply controller_ok_read|by apply controller_ok_other..].
Qed.

Lemma wp_claim_mapping : wp controller_ok cluster_claim_Reconcile (λ _ _, True) [].
Proof.
  eapply wp_mono; [apply wp_cluster_claim| |done].
  intros h q _ [Hq|(nodes & _ & [->|(cc & _ & -> & _)])];
    [by apply controller_ok_read|by apply controller_ok_other..].
Qed.

(** ** The two processes *)

(** The reconciliations of cmd/manager/main.go. *)
Inductive manager_reconciles : M (result ReconcileResult) → Prop :=
  | run_Module key : manager_reconciles (operator_Reconcile goarch operatorNamespace key)
  | run_NodeKernel key : manager_reconciles (node_kernel_Reconcile KernelLabel key)
  | run_PodNodeModule key : manager_reconciles (pod_Reconcile KernelLabel key)
  | run_Preflight key : manager_reconciles (operator_preflight key)
  | run_ClusterClaim : manager_reconciles cluster_claim_Reconcile
  | run_ImageStream : manager_reconciles (imagestream_Reconcile dtkNSN)
  | run_PreflightOCP key : manager_reconciles (ocp_Reconcile goarch key).

(** The reconciliations of cmd/manager-hub/main.go. *)
Inductive hub_reconciles : M (result ReconcileResult) → Prop :=
  | run_Hub key : hub_reconciles (operator_hub key)
  | run_HubImageStream : hub_reconciles (imagestream_Reconcile dtkNSN).

Lemma manager_controllers_ok p : manager_reconciles p → wp controller_ok p (λ _ _, True) [].
Proof.
  intros [key|key|key|key| | |key]; eauto using wp_operator_mapping, wp_node_kernel_mapping,
    wp_pod_mapping, wp_preflight_mapping, wp_claim_mapping, wp_imagestream_mapping, wp_ocp_mapping.
Qed.

Lemma hub_controllers_ok p : hub_reconciles p → wp controller_ok p (λ _ _, True) [].
Proof. intros [key|]; [apply wp_hub_mapping|apply wp_imagestream_mapping]. Qed.

(** ** The invariant *)

(** Something holds of the calls of one reconciliation of the process. *)
Definition witnessed (P : hist → Prop) (h : hist) : Prop := ∃ th, within th h ∧ P th.

Lemma witnessed_app P h e : witnessed P h → witnessed P (h ++ [e]).
Proof. intros (th & Hin & Hp). exists th. split; [by apply within_app|done]. Qed.

Definition mapping_sourced (m : kernelOsDtkMapping) (h : hist) : Prop :=
  (∀ k os, kernelToOs m !! k = Some os → witnessed (kernel_source k os) h) ∧
  (∀ os image, osToDtk m !! os = Some image → witnessed (image_source os image) h).

(** An image the mapping gave for a kernel belongs to an OS version of it. *)
Definition image_for_kernel (k image : string) (h : hist) : Prop :=
  ∃ os, witnessed (kernel_source k os) h ∧ witnessed (image_source os image) h.
Definition answers_sourced (h : hist) : Prop :=
  ∀ k image, (Ev (RGetImage k) (Ok image) : @event req ans) ∈ h → image_for_kernel k image h.

Lemma mapping_sourced_app m h e : mapping_sourced m h → mapping_sourced m (h ++ [e]).
Proof. intros [H1 H2]. split; intros; apply witnessed_app; auto. Qed.

Lemma mapping_sourced_empty h : mapping_sourced NewKernelOsDtkMapping h.
Proof. split; intros ?? H; simpl in H; by rewrite lookup_empty in H. Qed.

Lemma mapping_sourced_call m h th q x :
  mapping_sourced m h → within th h → mapping_ok th q →
  mapping_sourced (mapping_effect q m) (h ++ [Ev q x]).
Proof.
  intros Hm Hin Hq. apply (mapping_sourced_app _ _ (Ev q x)) in Hm as [H1 H2].
  assert (∀ P, P th → witnessed P (h ++ [Ev q x])) as Hw.
  { intros P Hp. apply witnessed_app. by exists th. }
  destruct q as [| | | | | | | | | | | | | | |k0 os0|os0 image0|]; try (by split); split; simpl.
  - intros k os [[<- <-]|[_ ?]]%lookup_insert_Some; [by apply Hw|by apply H1].
  - exact H2.
  - exact H1.
  - intros os image [[<- <-]|[_ ?]]%lookup_insert_Some; [by apply Hw|by apply H2].
Qed.

Lemma GetImage_Ok k m image :
  GetImage k m = Ok image ↔ ∃ os, kernelToOs m !! k = Some os ∧ osToDtk m !! os = Some image.
Proof.
  unfold GetImage. split.
  - destruct (kernelToOs m !! k) as [os|]; [|done].
    destruct (osToDtk m !! os) as [d|] eqn:Hd; [|done]. intros [= ->]. by exists os.
  - by intros (os & -> & ->).
Qed.

Lemma answers_sourced_call m h q x :
  mapping_sourced m h → answers_sourced h → mapping_answers m q x → answers_sourced (h ++ [Ev q x]).
Proof.
  intros [H1 H2] Ha Hx k image [Hin|Hin]%elem_of_app.
  - destruct (Ha k image Hin) as (os & Hk & Hi). exists os. split; by apply witnessed_app.
  - apply list_elem_of_singleton in Hin.
    assert (∀ e, e = Ev q x → mapping_answers m (ev_req e) (ev_ans e)) as Hx' by by intros e ->.
    apply Hx' in Hin. simpl in Hin. symmetry in Hin. apply GetImage_Ok in Hin as (os & Hk & Hi). exists os.
    split; apply witnessed_app; auto.
Qed.

Lemma process_sourced controllers c :
  (∀ p, controllers p → wp controller_ok p (λ _ _, True) []) → reachable controllers c →
  (mapping_sourced (pr_mapping c) (pr_hist c) ∧ answers_sourced (pr_hist c)) ∧
  calls_ok controller_ok (pr_hist c).
Proof.
  intros Hok Hc.
  edestruct (process_invariant controllers controller_ok Hok
    (λ m h, mapping_sourced m h ∧ answers_sourced h)) as (H1 & H2 & _); [..|exact Hc|by split].
  - split; [apply mapping_sourced_empty|]. by intros k image ?%not_elem_of_nil.
  - intros m h [_ Ha]. split; [apply mapping_sourced_empty|done].
  - intros m h th q x [Hm Ha] Hin [Hq _] Hx.
    split; [by eapply mapping_sourced_call|by eapply answers_sourced_call].
Qed.

(** ** The driver toolkit of a Build *)

Definition dockerfile_asks (b : OCPBuild) : Prop :=
  ∃ data, bs_Dockerfile (bsp_Source (ob_Spec b)) = Some data ∧ str_contains dtkBuildArg data = true.

Lemma template_dtk mld push owner h b :
  template_of mld push owner h b → dockerfile_asks b →
  ∃ k image, (Ev (RGetImage k) (Ok image) : @event req ans) ∈ h ∧
    mk_env "KERNEL_VERSION" k ∈ dst_BuildArgs (bsp_DockerStrategy (ob_Spec b)) ∧
    (∀ v, mk_env dtkBuildArg v ∈ dst_BuildArgs (bsp_DockerStrategy (ob_Spec b)) ↔ v = image).
Proof.
  intros Ht (data0 & Hdata & Hc). pose proof (template_of_facts _ _ _ _ _ Ht) as (_ & _ & _ & _ & Hk).
  destruct Ht as (kb & ref & cm & data & ov & n & m & _ & _ & _ & _ & _ & Hov & _ & ->).
  simpl in Hdata. injection Hdata as <-. destruct Hov as [[Hn _]|(_ & image & Hin & ->)]; [congruence|].
  exists (mld_KernelVersion mld), image. split_and!; [done|exact Hk|]. intros v. simpl.
  unfold envVarsFromKMMBuildArgs. rewrite list_elem_of_In, in_map_iff. split.
  - intros ([name val] & [= -> ->] & Ha). apply list_elem_of_In, ApplyBuildArgOverrides_elem in Ha.
    destruct Ha as [Ha|[_ Ha]]; simpl in Ha; vm_compute in Ha; congruence.
  - intros ->. exists (mk_buildarg dtkBuildArg image). split; [done|].
    apply list_elem_of_In, ApplyBuildArgOverrides_elem. left. vm_compute. reflexivity.
Qed.

Lemma created_template h b r :
  calls_ok controller_ok h → (Ev (RCreate KBuild b) r : @event req ans) ∈ h →
  ∃ mld push owner th, within th h ∧ template_of mld push owner th b.
Proof.
  intros Hc Hin. destruct (Hc _ Hin) as (th & Hth & _ & Hb).
  destruct (Hb b) as (mld & push & owner & h' & [t ->] & Ht); [apply as_kind_same|].
  exists mld, push, owner, h'. split; [|done]. intros e He. apply Hth, elem_of_app. by left.
Qed.

(** ** Properties *)

(** C8: in every interleaving of the reconciliations of the operator, with
    restarts at any point, the shared mapping tells the truth about what some
    reconciliation read: the OS version of a kernel is that of a node with
    the kernel, or of the release a PreflightValidationOCP asks for; the image
    of an OS version is that of a tag of the driver toolkit's image stream
    ([dtkNSN]), or of such a release.  So every Build whose Dockerfile asks for the driver
    toolkit gets exactly one image for it, and that image belongs to an OS
    version of the kernel it is built for. *)
Theorem shared_mapping_provenance c :
  reachable (manager_reconciles) c →
  mapping_sourced (pr_mapping c) (pr_hist c) ∧
  ∀ b r, (Ev (RCreate KBuild b) r : @event req ans) ∈ pr_hist c → dockerfile_asks b →
    ∃ k image, mk_env "KERNEL_VERSION" k ∈ dst_BuildArgs (bsp_DockerStrategy (ob_Spec b)) ∧
      (∀ v, mk_env dtkBuildArg v ∈ dst_BuildArgs (bsp_DockerStrategy (ob_Spec b)) ↔ v = image) ∧
      image_for_kernel k image (pr_hist c).
Proof.
  intros Hc. destruct (process_sourced _ c manager_controllers_ok Hc) as [[Hm Ha] Hcalls].
  split; [done|]. intros b r Hin Hd.
  destruct (created_template _ _ _ Hcalls Hin) as (mld & push & owner & th & Hth & Ht).
  destruct (template_dtk _ _ _ _ _ Ht Hd) as (k & image & Hk & Hkv & Hv).
  exists k, image. split_and!; [done..|]. by apply Ha, Hth.
Qed.

(** ** The hub *)

Definition no_node_info (q : req) : Prop := match q with RSetNodeInfo _ _ => False | _ => True end.

Lemma no_node_info_other q : mapping_write q = false → no_node_info q.
Proof. by destruct q. Qed.

Lemma sync_call_no_mapping k push owner q : sync_call k push owner q → mapping_write q = false.
Proof. intros [q' Hq| |]; [by apply read_not_mapping|done..]. Qed.

Lemma wp_hub_no_node_info key : wp (λ _ q, no_node_info q) (operator_hub key) (λ _ _, True) [].
Proof.
  eapply wp_mono; [apply wp_hub_Reconcile| |done].
  intros h q _ Hq. apply no_node_info_other.
  destruct Hq as [Hq|[[Hq|(b & bg & ->)]|(mcm & clusters & _ & _ & Hq)]].
  1,2: by apply read_not_mapping. { done. }
  destruct Hq as [(view & cluster & _ & _ & [Hq|(vs & v & mld & _ & _ & _ & [Hq|Hq])])|
    [(view & cluster & mw & _ & _ & _ & _ & [->|[b ->]])|[(ws & mw & _ & _ & _ & ->)|(view & ws & _ & ->)]]];
    try done; [by apply read_not_mapping| |].
  - by apply bm_call_sync, sync_call_no_mapping in Hq.
  - by apply sm_call_sync, sync_call_no_mapping in Hq.
Qed.

Lemma calls_register_tags tags : calls no_node_info (register_tags tags).
Proof.
  induction tags as [|t tags IH]; [apply calls_ret|]. cbn [register_tags]. case_bool_decide; [done|].
  destruct (tag_From t); [|apply calls_crash]. go_calls.
Qed.

Lemma hub_controllers_no_node_info p :
  hub_reconciles p → wp (λ h q, controller_ok h q ∧ no_node_info q) p (λ _ _, True) [].
Proof.
  intros Hp. eapply wp_post; [apply wp_and; [by apply hub_controllers_ok|]|by intros].
  destruct Hp as [key|]; [apply wp_hub_no_node_info|].
  assert (calls no_node_info (imagestream_Reconcile dtkNSN)) as H; [|apply H].
  unfold imagestream_Reconcile, Get. go_calls. apply calls_register_tags.
Qed.

Lemma hub_knows_no_kernel c :
  reachable hub_reconciles c →
  (kernelToOs (pr_mapping c) = ∅ ∧
   ∀ k image, (Ev (RGetImage k) (Ok image) : @event req ans) ∉ pr_hist c) ∧
  calls_ok (λ h q, controller_ok h q ∧ no_node_info q) (pr_hist c).
Proof.
  intros Hc. edestruct (process_invariant hub_reconciles _ hub_controllers_no_node_info
    (λ m h, kernelToOs m = ∅ ∧ ∀ k image, (Ev (RGetImage k) (Ok image) : @event req ans) ∉ h))
    as (H1 & H2 & _); [..|exact Hc|by split].
  - split; [done|]. by intros k image ?%not_elem_of_nil.
  - intros m h [_ Ha]. by split.
  - intros m h th q x [Hm Ha] _ [_ Hq] Hx. split; [by destruct q|].
    intros k image [Hin|Hin%list_elem_of_singleton]%elem_of_app; [by apply Ha in Hin|].
    assert (∀ e, e = Ev q x → mapping_answers m (ev_req e) (ev_ans e)) as Hx' by by intros e ->.
    apply Hx' in Hin. simpl in Hin. symmetry in Hin. apply GetImage_Ok in Hin as (os & Hk & _).
    by rewrite Hm, lookup_empty in Hk.
Qed.

(** C26: the hub never builds with the driver toolkit.  No controller that
    cmd/manager-hub/main.go starts registers the kernels of nodes, so that in
    every interleaving the hub's mapping resolves no kernel, and no Build is
    ever created whose Dockerfile asks for the driver toolkit image. *)
Theorem hub_never_builds_with_dtk c b r :
  reachable hub_reconciles c → (Ev (RCreate KBuild b) r : @event req ans) ∈ pr_hist c →
  ¬ dockerfile_asks b ∧ ∀ k, GetImage k (pr_mapping c) = Err (ErrNoKernel k).
Proof using D E Hs MO R RD goarch namespace.
  intros Hc Hin. destruct (hub_knows_no_kernel c Hc) as [[Hm Ha] Hcalls]. split.
  - intros Hd. assert (calls_ok controller_ok (pr_hist c)) as Hcalls'.
    { intros e He. destruct (Hcalls e He) as (th & ? & ? & _). by exists th. }
    destruct (created_template _ _ _ Hcalls' Hin) as (mld & push & owner & th & Hth & Ht).
    destruct (template_dtk _ _ _ _ _ Ht Hd) as (k & image & Hk & _). by apply Hth, Ha in Hk.
  - intros k. unfold GetImage. by rewrite Hm, lookup_empty.
Qed.
End managers.
End sources.

(** ** Examples *)

(** A server for a process of its own: it answers as [f] does, and keeps the
    mapping. *)
Definition mapping_server (f : ∀ q, ans q) : kserver kernelOsDtkMapping := λ q m,
  (match q return ans q with RGetImage k => GetImage k m | q => f q end, mapping_effect q m).

(** A reconciliation run to its end is one way for a process to go on. *)
Lemma process_run controllers f (p : M (result ReconcileResult)) m h ts i th :
  ts !! i = Some (th, p) →
  ∃ ts', rtc (process_step controllers) (mk_process m h ts)
    (mk_process (run_state (mapping_server f) p m) (h ++ run_trace (mapping_server f) p m) ts').
Proof.
  revert m h ts th. unfold run_state, run_trace.
  induction p as [a|w|q k IH]; intros m h ts th Hi; simpl; [by exists ts; rewrite app_nil_r..|].
  set (x := match q return ans q with RGetImage k => GetImage k m | q => f q end).
  destruct (IH x (mapping_effect q m) (h ++ [Ev q x]) (<[i := (th ++ [Ev q x], k x)]> ts)
    (th ++ [Ev q x])) as [ts' Hts'].
  { apply list_lookup_insert_eq. by eapply lookup_lt_Some. }
  exists ts'. eapply rtc_l; [by eapply (process_call _ _ _ _ i th q k x); [|unfold x; destruct q]|].
  destruct (run (mapping_server f) (k x) (mapping_effect q m)) as [[o s] tr]. simpl in *.
  by rewrite <-app_assoc in Hts'.
Qed.

Lemma reachable_run controllers f p m h ts :
  controllers p → reachable controllers (mk_process m h ts) →
  ∃ ts', reachable controllers
    (mk_process (run_state (mapping_server f) p m) (h ++ run_trace (mapping_server f) p m) ts').
Proof.
  intros Hp Hr. destruct (process_run controllers f p m h (ts ++ [([], p)]) (length ts) []) as [ts' H].
  { by rewrite lookup_app_r, Nat.sub_diag by done. }
  exists ts'. unfold reachable. etrans; [exact Hr|]. eapply rtc_l; [by apply process_start|exact H].
Qed.

(** One node, the image stream of the driver toolkit, and a Module whose
    Dockerfile asks for it; no image exists yet. *)
Definition ex_dtk_node : Node :=
  mk_node (meta_named "node-1" "") [] Ex.kernel "Red Hat Enterprise Linux CoreOS 411.86.202210072320-0 (Ootpa)".
Definition ex_dtk_stream : ImageStream :=
  mk_is (meta_named "driver-toolkit" DTKImageStreamNamespace)
    [mk_tag "411.86.202210072320-0" (Some "quay.io/dtk@sha256:1")].
Definition ex_dtk_module : Module_ :=
  mk_module Ex.meta (set_container (mk_mlcontainer (Some Ex.build) None "quay.io/org/driver:v1" "Always"
    [Ex.mapping] Ex.modprobe empty_tls) Ex.spec) empty_modstatus.
Definition ex_dtk_answers (q : req) : ans q :=
  match q return ans q with
  | RGet KModule _ => Ok ex_dtk_module
  | RGet KNode _ => Ok ex_dtk_node
  | RList KNode _ => Ok [ex_dtk_node]
  | RGet KImageStream _ => Ok ex_dtk_stream
  | RGet KConfigMap _ =>
      Ok (mk_cm (meta_named "dockerfile" "gpu") {[ DockerfileCMKey := "FROM ${DTK_AUTO}" ]})
  | RManifest _ _ => Err (mk_error "not found" [CTransport 404])
  | RKeychainFromSA _ _ => Ok "keychain"
  | q => accept q
  end.

Definition ex_asks (e : @event req ans) : bool :=
  match created KBuild (ev_req e) with
  | Some b => str_contains dtkBuildArg (default "" (bs_Dockerfile (bsp_Source (ob_Spec b))))
  | None => false
  end.

Lemma ex_asks_created h :
  existsb ex_asks h = true →
  ∃ b r, (Ev (RCreate KBuild b) r : @event req ans) ∈ h ∧ dockerfile_asks b.
Proof.
  intros (h1 & [q r] & h2 & -> & He)%existsb_split. unfold ex_asks in He. cbn [ev_req] in He.
  destruct (created KBuild q) as [b|] eqn:Hc; [|done]. apply created_inv in Hc as ->.
  exists b, r. split; [apply elem_of_app; right; by left|].
  unfold dockerfile_asks. destruct (bs_Dockerfile _) as [d|]; [by exists d|done].
Qed.

Abbreviation ex_manager :=
  (manager_reconciles (D := ex_decoder) (RD := ex_release_decoder) (Hs := ex_hasher)
     (R := regexp_substring) (E := envsubst_id) (MO := map_order_std) "amd64" "gpu").
Abbreviation ex_server := (mapping_server ex_dtk_answers).

(** The node and the image stream are reconciled, then the Module. *)
Definition ex_learn_node := node_kernel_Reconcile KernelLabel (NN "" "node-1").
Definition ex_learn_image := imagestream_Reconcile dtkNSN.
Definition ex_known : kernelOsDtkMapping :=
  run_state ex_server ex_learn_image (run_state ex_server ex_learn_node NewKernelOsDtkMapping).

Lemma ex_process : ∃ c b r, reachable ex_manager c ∧
  (Ev (RCreate KBuild b) r : @event req ans) ∈ pr_hist c ∧ dockerfile_asks b.
Proof.
  assert (existsb ex_asks (run_trace ex_server ex_reconcile ex_known) = true) as H
    by (vm_compute; reflexivity).
  apply ex_asks_created in H as (b & r & Hin & Hd).
  destruct (reachable_run ex_manager ex_dtk_answers ex_learn_node NewKernelOsDtkMapping [] [])
    as [ts1 H1]; [constructor|apply rtc_refl|].
  eapply (reachable_run ex_manager ex_dtk_answers ex_learn_image) in H1 as [ts2 H2]; [|constructor].
  eapply (reachable_run ex_manager ex_dtk_answers ex_reconcile) in H2 as [ts3 H3]; [|constructor].
  eexists _, b, r. split; [exact H3|]. split; [|exact Hd]. apply elem_of_app. right. exact Hin.
Qed.

Lemma shared_mapping_provenance_witness : ∃ c b k image, reachable ex_manager c ∧
  (∀ v, mk_env dtkBuildArg v ∈ dst_BuildArgs (bsp_DockerStrategy (ob_Spec b)) ↔ v = image) ∧
  image_for_kernel (D := ex_decoder) (RD := ex_release_decoder) k image (pr_hist c).
Proof.
  destruct ex_process as (c & b & r & Hc & Hin & Hd).
  destruct (proj2 (shared_mapping_provenance (D := ex_decoder) (RD := ex_release_decoder)
    (Hs := ex_hasher) (R := regexp_substring) (E := envsubst_id) (MO := map_order_std) "amd64" "gpu" c Hc)
    b r Hin Hd) as (k & image & _ & Hv & Hk).
  exists c, b, k, image. exact (conj Hc (conj Hv Hk)).
Defined.

(** The hub builds for a cluster, from a Dockerfile with a base image of its own. *)
Definition ex_hub_answers (dockerfile : string) (q : req) : ans q :=
  match q return ans q with
  | RGet KManagedClusterModule _ => Ok ex_mcm
  | RList KManagedCluster _ => Ok [ex_managed "cluster-2" "4.18.0-372.el8"]
  | RGet KConfigMap _ => Ok (mk_cm (meta_named "dockerfile" "kmm-hub") {[ DockerfileCMKey := dockerfile ]})
  | RManifest _ _ => Err (mk_error "not found" [CTransport 404])
  | RKeychainFromSA _ _ => Ok "keychain"
  | q => accept q
  end.

Abbreviation ex_hub_process :=
  (hub_reconciles (D := ex_decoder) (Hs := ex_hasher) (R := regexp_substring) (E := envsubst_id)
     (MO := map_order_std) "amd64" "kmm-hub").

Definition ex_creates_build (e : @event req ans) : bool := isSome (created KBuild (ev_req e)).

(** Asked for the driver toolkit, it builds nothing. *)
Example ex_hub_dtk :
  existsb ex_creates_build (run_trace (mapping_server (ex_hub_answers "FROM ubi8")) ex_hub
                              NewKernelOsDtkMapping) = true ∧
  existsb ex_creates_build (run_trace (mapping_server (ex_hub_answers "FROM ${DTK_AUTO}")) ex_hub
                              NewKernelOsDtkMapping) = false.
Proof. vm_compute. done. Qed.

Lemma hub_never_builds_with_dtk_witness : ∃ c b r, reachable ex_hub_process c ∧
  (Ev (RCreate KBuild b) r : @event req ans) ∈ pr_hist c ∧ ¬ dockerfile_asks b.
Proof.
  destruct ex_hub_dtk as [H _]. apply existsb_split in H as (h1 & [q r] & h2 & Htr & He).
  unfold ex_creates_build in He. cbn [ev_req] in He.
  destruct (created KBuild q) as [b|] eqn:Hb; [|discriminate He]. apply created_inv in Hb as ->.
  destruct (reachable_run ex_hub_process (ex_hub_answers "FROM ubi8") ex_hub NewKernelOsDtkMapping [] [])
    as [ts Hc]; [constructor|apply rtc_refl|]. rewrite Htr in Hc.
  eexists _, b, r. split; [exact Hc|].
  assert ((Ev (RCreate KBuild b) r : @event req ans) ∈ [] ++ h1 ++ Ev (RCreate KBuild b) r :: h2) as Hin
    by (apply elem_of_app; right; apply elem_of_app; right; by left).
  split; [exact Hin|].
  exact (proj1 (hub_never_builds_with_dtk (D := ex_decoder) (RD := ex_release_decoder) (Hs := ex_hasher)
    (R := regexp_substring) (E := envsubst_id) (MO := map_order_std) "amd64" "kmm-hub" _ b r Hc Hin)).
Defined.
