(* ===== verification/Events.v ===== *)
(** * The events the controllers leave out

    A predicate that drops an event is right when reconciling would have
    changed nothing.  For each controller with predicates of its own this
    file says which updates are dropped, and that nothing is lost by it, or
    what is: the program the controller would run is the one it ran before,
    or its writes change nothing. *)

From S2P Require Import Prelude Prog K8s Api Client Utils Registry Filter Watches.
From S2P Require Import DaemonSet SyncMap KernelMapper Managers BuildConfig SignJob ModuleReconciler NodeControllers Hub SharedMapping.
From stdpp Require Import options.

Local Open Scope go_scope.

(** ** Pods *)

(** The deletion of an object is not taken back. *)
Definition keeps_deletion (old new : ObjectMeta) : Prop :=
  deletion_is_zero new = true → deletion_is_zero old = true.

(** The pod controller loses nothing by its predicate: an update of a
    pod on a node, with the labels it had, is dropped only if reconciling the
    pod does the same as reconciling the pod before the update, whatever the
    server answers. *)
Theorem pod_updates_complete kernelLabel key old new :
  pod_predicate (UpdateEvent (any KPod old) (any KPod new)) = Ok false →
  om_Labels (pod_meta new) = om_Labels (pod_meta old) →
  pod_NodeName new = pod_NodeName old → pod_NodeName new ≠ "" →
  omap_get (om_Labels (pod_meta new)) ModuleNameLabel ≠ "" →
  keeps_deletion (pod_meta old) (pod_meta new) →
  ∃ k, pod_Reconcile kernelLabel key = Call (RGet KPod key) k ∧ k (Ok new) = k (Ok old).
Proof.
  intros Hp Hl Hn Hne Hlabel Hdel.
  assert (IsPodReady new = IsPodReady old ∧ deletion_is_zero (pod_meta new) = true) as [Hr Hz].
  { revert Hp. unfold pod_predicate, PodReadinessChangedPredicate, DeletingPredicate, HasLabel,
      PodHasSpecNodeName. cbn [predicate_And predicate_Or UpdateFunc NewPredicateFuncs].
    rewrite !assert_kind_any. simpl. rewrite !(bool_decide_false _ Hlabel), (bool_decide_false _ Hne).
    simpl. case_bool_decide as Hrd; simpl; [|by intros [=]].
    change (any_meta (any KPod new)) with (pod_meta new).
    destruct (deletion_is_zero (pod_meta new)); simpl; [by rewrite Hrd|by intros [=]]. }
  eexists. split; [reflexivity|]. simpl.
  assert (deletion_is_zero (pod_meta old) = true) as Hz' by by apply Hdel.
  unfold GetNodeLabelFromPod. by rewrite Hl, Hn, Hr, Hz, Hz'.
Qed.

(** ** Nodes and their kernel labels *)

Lemma with_node_label_same node label v :
  omap_lookup (om_Labels (node_meta node)) label = Some v → with_node_label node label v = node.
Proof.
  intros H. unfold with_node_label. destruct node as [[n g ns u ls an ow fi de ge] ta kv os]. simpl in *.
  destruct ls as [ls|]; simpl in *; [|done]. by rewrite insert_id.
Qed.

(** The node controller loses nothing by its predicate, for a kernel
    version that is not empty and does not end in a plus sign: an update is
    dropped only if the node keeps its OS image and has its label already, so
    that reconciling it would register the kernel with the OS version of the
    old node, and patch nothing. *)
Theorem node_updates_complete labelName key old new {S} (srv : kserver S) s s1 :
  NodeKernelReconcilerPredicate labelName (UpdateEvent (any KNode old) (any KNode new)) = Ok false →
  node_KernelVersion new ≠ "" → (∀ v, node_KernelVersion new ≠ v +:+ "+") →
  srv (RGet KNode (NN "" (nn_Name key))) s = (Ok new, s1) →
  Forall (λ e : @event req ans,
      is_write (ev_req e) = false ∨
      ev_req e = RSetNodeInfo (node_kernel new) (osVersion_FindString (node_OSImage old)) ∨
      ev_req e = RPatch KNode new new)
    (run_trace srv (node_kernel_Reconcile labelName key) s).
Proof.
  unfold NodeKernelReconcilerPredicate. rewrite !assert_kind_any. intros [= Hp] Hne Hplus Hsrv.
  apply orb_false_elim in Hp as [Hl Ho].
  apply negb_false_iff, bool_decide_eq_true in Hl, Ho.
  assert (node_kernel new = node_KernelVersion new) as Hk by by apply str_trim_suffix_other.
  assert (with_node_label new labelName (node_kernel new) = new) as Hsame.
  { apply with_node_label_same. rewrite Hk. unfold omap_get in Hl.
    destruct (om_Labels (node_meta new)) as [ls|]; simpl in *; [|congruence].
    unfold map_get in Hl. destruct (ls !! labelName); simpl in Hl; congruence. }
  unfold run_trace, node_kernel_Reconcile, Get, Patch, call. simpl. rewrite Hsrv. simpl.
  case_bool_decide; simpl; [by repeat constructor|].
  destruct (srv (RSetNodeInfo _ _) s1) as [u s2]. simpl.
  destruct (srv (RPatch KNode _ _) s2) as [r s3]. rewrite Hsame.
  destruct r; simpl; (constructor; [by left|]; constructor; [right; left; by rewrite Ho|];
    constructor; [by right; right|by constructor]).
Qed.

(** ** Image streams *)

Lemma register_tags_state f tags acc base m tm :
  tags_map tags acc = Ok tm → osToDtk m = delete "latest" acc ∪ base →
  run_state (mapping_server f) (register_tags tags) m =
    mk_mapping_state (kernelToOs m) (delete "latest" tm ∪ base).
Proof.
  unfold run_state. revert acc m. induction tags as [|t tags IH]; intros acc m Htags Hm; simpl in *.
  { injection Htags as <-. rewrite <-Hm. by destruct m. }
  destruct (tag_From t) as [image|]; [|done]. case_bool_decide as Hn.
  - apply (IH _ _ Htags). by rewrite Hm, Hn, delete_insert_eq.
  - simpl. specialize (IH _ (SetImageStreamInfo (tag_Name t) image m) Htags).
    destruct (run _ (register_tags tags) _) as [[o s] tr]. simpl in *. apply IH.
    by rewrite Hm, delete_insert_ne, insert_union_l by done.
Qed.

(** C28: the image-stream controller loses nothing by its predicate: an update
    is dropped only if reconciling the new stream leaves the shared mapping
    as reconciling the old one does, duplicate tags included. *)
Theorem imagestream_updates_complete nsn old new (f g : ∀ q, ans q) m :
  ImageStreamReconcilerPredicate (UpdateEvent (any KImageStream old) (any KImageStream new)) = Ok false →
  f (RGet KImageStream nsn) = Ok new → g (RGet KImageStream nsn) = Ok old →
  run_state (mapping_server f) (imagestream_Reconcile nsn) m =
  run_state (mapping_server g) (imagestream_Reconcile nsn) m.
Proof.
  unfold ImageStreamReconcilerPredicate, UpdateFunc. rewrite !assert_kind_any.
  intros (tn & Hn & (to & Ho & [= Heq])%result_bind_Ok)%result_bind_Ok Hf Hg.
  apply negb_false_iff, bool_decide_eq_true in Heq as ->.
  assert (∀ (h : ∀ q, ans q) ist, h (RGet KImageStream nsn) = Ok ist →
    run_state (mapping_server h) (imagestream_Reconcile nsn) m =
    run_state (mapping_server h) (register_tags (is_Tags ist)) m) as Hrun.
  { intros h ist Hh. unfold run_state, imagestream_Reconcile, Get, call. simpl. rewrite Hh, run_bind.
    by destruct (run _ (register_tags _) m) as [[[[]|w] s] tr]. }
  rewrite (Hrun f new Hf), (Hrun g old Hg).
  assert (osToDtk m = delete "latest" (∅ : strmap) ∪ osToDtk m) as Hm
    by by rewrite delete_empty, (left_id_L ∅ (∪)).
  by rewrite (register_tags_state f _ _ _ _ _ Hn Hm), (register_tags_state g _ _ _ _ _ Ho Hm).
Qed.

(** ** Spoke clusters *)

(** The hub loses nothing by its predicate on clusters: an update that
    keeps the name is dropped only if the labels, which select the cluster,
    are the same, and the loop over the clusters does for the new cluster what
    it did for the old one, or nothing at all - that when the claim is gone. *)
Theorem cluster_updates_complete {R : Regexp} {E : Envsubst} {MO : MapOrder}
    {BM : BuildManager} {SM : SignManager} namespace old new mcm :
  ManagedClusterModuleReconcilerManagedClusterPredicate
    (UpdateEvent (any KManagedCluster old) (any KManagedCluster new)) = Ok false →
  mc_Name new = mc_Name old →
  om_Labels (mc_meta new) = om_Labels (mc_meta old) ∧
  (handle_cluster namespace new mcm = handle_cluster namespace old mcm ∨
   handle_cluster namespace new mcm = Ret mcm).
Proof.
  unfold ManagedClusterModuleReconcilerManagedClusterPredicate, LabelChangedPredicate,
    kmmClusterClaimChanged. cbn [predicate_Or UpdateFunc]. rewrite !assert_kind_any. intros Hp Hn.
  change (any_meta (any KManagedCluster new)) with (mc_meta new) in Hp.
  change (any_meta (any KManagedCluster old)) with (mc_meta old) in Hp.
  case_bool_decide as Hl; [|done]. split; [done|]. simpl in Hp.
  assert (kernelVersions new = kernelVersions old ∨ ∃ e, kernelVersions new = Err e) as [Hv|[e Hv]].
  { unfold kernelVersions. unfold clusterClaim in Hp.
    destruct (List.find _ (mc_ClusterClaims new)) as [c|] eqn:Hc; [|right; by eexists].
    simpl in Hp. case_bool_decide as Ho; [|done]. left. by rewrite <-Ho. }
  - left. unfold handle_cluster, BuildAndSign, kernelMappingsByKernelVersion. by rewrite Hv, Hn.
  - right. unfold handle_cluster, BuildAndSign, kernelMappingsByKernelVersion. by rewrite Hv.
Qed.

(** ** Nodes and Modules *)

Section modules.
Context {LV : LabelValidation} {RM : RESTMapper}.
Variable kernelLabel : string.

Abbreviation module_queue old new :=
  (queued (ModuleReconciler_SetupWithManager kernelLabel) (UpdateEvent (any KNode old) (any KNode new))).

(** The update shows a node with a kernel label, and other labels than before. *)
Definition labels_changed (old new : Node) : Prop :=
  omap_get (om_Labels (node_meta new)) kernelLabel ≠ "" ∧
  om_Labels (node_meta new) ≠ om_Labels (node_meta old).

Lemma ModuleReconcilerNodePredicate_update old new :
  ModuleReconcilerNodePredicate kernelLabel (UpdateEvent (any KNode old) (any KNode new)) =
  Ok (bool_decide (labels_changed old new)).
Proof.
  unfold ModuleReconcilerNodePredicate, labels_changed. simpl.
  repeat (case_bool_decide; simpl); try done; tauto.
Qed.

Lemma find_matching_valid {A} (sel : A → strmap) key ls mods nsn :
  Forall (λ m, valid_selector (sel m) = true) mods →
  nsn ∈ find_matching sel key ls mods ↔
  ∃ m, m ∈ mods ∧ labels_match (sel m) ls = true ∧ nsn = key m.
Proof.
  intros Hv. destruct (find_matching_take sel key ls mods) as (pre & post & -> & _ & Hpost & ->).
  assert (post = []) as ->.
  { apply Forall_app in Hv as [_ Hv]. destruct Hv; [done|congruence]. }
  rewrite app_nil_r, list_elem_of_In, in_map_iff. setoid_rewrite List.filter_In.
  setoid_rewrite <-list_elem_of_In. naive_solver.
Qed.

(** The Modules listed whose selector the labels of the node satisfy. *)
Definition selects (mods : list Module_) (node : Node) (key : NamespacedName) : Prop :=
  ∃ m, m ∈ mods ∧ labels_match (Selector (mod_Spec m)) (om_Labels (node_meta node)) = true ∧
       key = NN (mod_Namespace m) (mod_Name m).

(** C29: which Modules an event of a node wakes.  An update that changes the
    labels of a node with a kernel label queues exactly the Modules whose
    selector its old or its new labels satisfy, each list read from the server
    and its selectors valid.  Every other update queues none and reads
    nothing, whatever else changed - taints and the kernel version included,
    both of which decide what a reconciliation does - and neither does a
    deletion. *)
Theorem node_events_wake_modules old new :
  (¬ labels_changed old new → module_queue old new = Ret []) ∧
  queued (ModuleReconciler_SetupWithManager kernelLabel) (DeleteEvent (any KNode old)) = Ret [] ∧
  (labels_changed old new → ∀ S (srv : kserver S) s mods1 s1 mods2 s2,
     srv (RList KModule list_all) s = (Ok mods1, s1) →
     srv (RList KModule list_all) s1 = (Ok mods2, s2) →
     Forall (λ m, valid_selector (Selector (mod_Spec m)) = true) (mods1 ++ mods2) →
     ∃ l, run_out srv (module_queue old new) s = Done l ∧
       ∀ key, key ∈ l ↔ selects mods1 old key ∨ selects mods2 new key).
Proof.
  assert (∀ b : bool, ModuleReconcilerNodePredicate kernelLabel
      (UpdateEvent (any KNode old) (any KNode new)) = Ok b →
    module_queue old new = if b then prog_bind (λ l, Ret (l ++ []))
      (mapAndEnqueue FindModulesForNode [any KNode old; any KNode new] []) else Ret []) as Hq.
  { intros b Hb. unfold queued. cbn [doWatch ModuleReconciler_SetupWithManager b_forInput b_ownsInput
      b_watchesInput b_globalPredicates List.map app fst snd deliver_all w_src event_kind event_object].
    simpl. unfold deliver. cbn [w_predicates predicate_And]. rewrite Hb. by destruct b. }
  specialize (Hq _ (ModuleReconcilerNodePredicate_update old new)). split_and!; [|done|].
  - intros Hn. by rewrite Hq, bool_decide_false.
  - intros Hc S srv s mods1 s1 mods2 s2 H1 H2 [Hv1 Hv2]%Forall_app.
    rewrite Hq, bool_decide_true by done. unfold run_out. simpl. rewrite H1. simpl. rewrite H2.
    eexists. split; [reflexivity|]. intros key.
    assert (∀ reqs l, key ∈ reqs ++ List.filter (λ r, negb (bool_decide (r ∈ reqs))) (remove_dups l) ↔
      key ∈ reqs ∨ key ∈ l) as Hadd.
    { intros reqs l. rewrite elem_of_app, (list_elem_of_In (List.filter _ _)), List.filter_In,
        <-list_elem_of_In, elem_of_remove_dups, negb_true_iff, bool_decide_eq_false.
      destruct (decide (key ∈ reqs)); tauto. }
    pose proof (Hadd []) as Hnil. cbn [app] in Hnil.
    rewrite app_nil_r, Hadd, Hnil, !find_matching_valid by done. unfold selects. set_solver.
Qed.
End modules.

(** ** Examples *)

Definition ex_ready_pod (finalizers : list string) : Pod :=
  mk_pod (mk_meta "nvidia-x" "" "gpu" "" (Some {[ ModuleNameLabel := "nvidia" ]}) None []
            finalizers None 0) "n1" [mk_podcond "Ready" "True"].

(** A finalizer goes: nothing to do. *)
Lemma pod_updates_complete_witness : ex_ready_pod [NodeLabelerFinalizer] ≠ ex_ready_pod [] ∧
  ∃ k, pod_Reconcile KernelLabel (NN "gpu" "pod") = Call (RGet KPod (NN "gpu" "pod")) k ∧
       k (Ok (ex_ready_pod [])) = k (Ok (ex_ready_pod [NodeLabelerFinalizer])).
Proof.
  split; [discriminate|].
  apply (pod_updates_complete KernelLabel (NN "gpu" "pod") (ex_ready_pod [NodeLabelerFinalizer]) (ex_ready_pod []));
    [reflexivity|reflexivity|reflexivity|discriminate|discriminate|intros _; reflexivity].
Defined.

(** A node's taints change: its label is right already. *)
Definition ex_labelled_node (taints : list Taint) : Node :=
  mk_node (set_labels (Some {[ KernelLabel := "5.14.0" ]}) (meta_named "n1" "")) taints "5.14.0"
    "CoreOS 411.86.202210072320-0".
Definition ex_taint : Taint := mk_taint "key" TaintEffectNoSchedule.
Definition ex_node_server : kserver unit := stateless (λ q,
  match q return ans q with RGet KNode _ => Ok (ex_labelled_node [ex_taint]) | q => accept q end).

Lemma node_updates_complete_witness :
  let tr := run_trace ex_node_server (node_kernel_Reconcile KernelLabel (NN "" "n1")) tt in
  length tr = 3 ∧
  Forall (λ e : @event req ans,
      is_write (ev_req e) = false ∨
      ev_req e = RSetNodeInfo "5.14.0" "411.86.202210072320-0" ∨
      ev_req e = RPatch KNode (ex_labelled_node [ex_taint]) (ex_labelled_node [ex_taint])) tr.
Proof.
  split; [reflexivity|].
  refine (node_updates_complete KernelLabel (NN "" "n1") (ex_labelled_node [])
            (ex_labelled_node [ex_taint]) ex_node_server tt tt _ _ _ _);
    [reflexivity|discriminate| |reflexivity].
  intros v Hv. assert (str_trim_suffix "+" "5.14.0" = v) as Ht by (change "5.14.0" with (node_KernelVersion (ex_labelled_node [ex_taint])); rewrite Hv; apply str_trim_suffix_app).
  rewrite <-Ht in Hv. discriminate Hv.
Defined.

Definition ex_stream (tags : list TagReference) : ImageStream :=
  mk_is (meta_named "driver-toolkit" "openshift") tags.
Definition ex_stream_answers (tags : list TagReference) (q : req) : ans q :=
  match q return ans q with RGet KImageStream _ => Ok (ex_stream tags) | q => accept q end.

(** The order of two tags changes. *)
Lemma imagestream_updates_complete_witness :
  let tags := [mk_tag "411" (Some "a"); mk_tag "412" (Some "b")] in
  let p := imagestream_Reconcile (NN "openshift" "driver-toolkit") in
  run_state (mapping_server (ex_stream_answers (rev tags))) p NewKernelOsDtkMapping =
  run_state (mapping_server (ex_stream_answers tags)) p NewKernelOsDtkMapping.
Proof.
  intros tags p.
  exact (imagestream_updates_complete (NN "openshift" "driver-toolkit") (ex_stream tags)
    (ex_stream (rev tags)) (ex_stream_answers (rev tags)) (ex_stream_answers tags)
    NewKernelOsDtkMapping eq_refl eq_refl eq_refl).
Defined.

(** Something else of a cluster changes. *)
Lemma cluster_updates_complete_witness :
  let new := mk_mc (set_finalizers ["x"] (meta_named "cluster-1" ""))
               [mk_claim KernelVersionsClusterClaimName "5.14.0-70.el9"] in
  let handle c := handle_cluster (R := regexp_substring) (E := envsubst_id) (MO := map_order_std)
    (BM := buildconfig_manager (D := ex_decoder) (Hs := ex_hasher) "amd64")
    (SM := signjob_manager (D := ex_decoder) (Hs := ex_hasher) "amd64") "kmm-hub" c ex_mcm in
  handle new = handle (ex_managed "cluster-1" "5.14.0-70.el9") ∨ handle new = Ret ex_mcm.
Proof.
  intros new handle.
  exact (proj2 (cluster_updates_complete (R := regexp_substring) (E := envsubst_id) (MO := map_order_std)
    (BM := buildconfig_manager (D := ex_decoder) (Hs := ex_hasher) "amd64")
    (SM := signjob_manager (D := ex_decoder) (Hs := ex_hasher) "amd64") "kmm-hub"
    (ex_managed "cluster-1" "5.14.0-70.el9") new ex_mcm eq_refl eq_refl)).
Defined.
