(* ===== verification/Startup.v ===== *)
(** * From main to the controllers

    cmd/manager/main.go and cmd/manager-hub/main.go as programs over the calls
    that start a manager: flags, environment, configuration, the scheme, the
    set-up of each controller, the start.  A fatal error exits with code 1
    ([cmd.FatalError]), and flag.Parse with 0 or 2 when it is asked for help or
    given a flag it does not know; what a program does before it starts the
    manager is a history of these calls.  The scheme says which kinds the client of the
    manager can be used for: those the packages of api/ and api-hub/ register,
    and those of the libraries the mains install. *)

From S2P Require Import Prelude Prog K8s Api Client Utils Helpers KernelMapper DaemonSet Auth Registry SyncMap.
From S2P Require Import CA Managers BuildConfig SignJob StatusUpdater Metrics ModuleReconciler Operator.
From S2P Require Import Filter Watches Preflight PreflightOCP NodeControllers Hub SharedMapping.
From stdpp Require Import options.

Local Open Scope go_scope.

(** ** The scheme *)

(** The packages a main adds to its scheme, in one call each. *)
Inductive api_group :=
  | ClientGo | KMM | HubKMM | BuildV1 | ImageV1 | ClusterV1 | ClusterV1alpha1 | WorkV1.
#[export] Instance api_group_eq_dec : EqDecision api_group.
Proof. solve_decision. Defined.

(** What the init functions of the API packages register with SchemeBuilder. *)
Definition Module_types : list kind := [KModule].
Definition PreflightValidation_types : list kind := [KPreflight].
Definition PreflightValidationOCP_types : list kind := [KPreflightOCP].
Definition ManagedClusterModule_types : list kind := [KManagedClusterModule].

(** AddToScheme, or Install, of a package.  The types of the libraries are
    those the operator uses. *)
Definition group_kinds (g : api_group) : list kind :=
  match g with
  | ClientGo => [KNode; KPod; KDaemonSet; KJob; KConfigMap; KSecret; KServiceAccount]
  | KMM => Module_types ++ PreflightValidation_types ++ PreflightValidationOCP_types
  | HubKMM => ManagedClusterModule_types
  | BuildV1 => [KBuild]
  | ImageV1 => [KImageStream]
  | ClusterV1 => [KManagedCluster]
  | ClusterV1alpha1 => [KClusterClaim]
  | WorkV1 => [KManifestWork]
  end.

(** ** The calls of a start *)

Inductive ureq :=
  | UInstall (g : api_group)                 (** AddToScheme on the scheme *)
  | UParseFlags                              (** flag.Parse *)
  | UReadBuildInfo
  | UGetenv (name : string)
  | UConfigFile (path : string)              (** options.AndFrom *)
  | UGetConfig
  | UNewManager
  | UMustRegister (reg : list Desc)
  | UNewForConfig
  | USetup (b : Builder)                     (** SetupWithManager *)
  | UAddHealthzCheck | UAddReadyzCheck
  | UStart.
(** What flag.Parse makes of the command line, with its policy ExitOnError:
    the value of -config, or the end of the process. *)
Inductive flags_result := FlagsParsed (configFile : string) | FlagsHelp | FlagsBad.
Definition uans (q : ureq) : Type :=
  match q with
  | UParseFlags => flags_result
  | UGetenv _ => string
  | UReadBuildInfo => option (list (string * string))
  | _ => result unit
  end.
Abbreviation U := (prog uans).
Abbreviation uhist := (list (@event ureq uans)).

(** The exit code of a process. *)
Definition exit_code := nat.

(** ** internal/cmd *)

(** os.Exit(1) after a log line. *)
Definition FatalError : U exit_code := Ret 1.

Definition GetEnvOrFatalError (name : string) (k : string → U exit_code) : U exit_code :=
  prog_bind (λ val : string, if bool_decide (val = "") then FatalError else k val) (call (UGetenv name)).

Definition vcsRevisionKey := "vcs.revision".

Definition GitCommit : U (result string) :=
  prog_bind (λ bi : option (list (string * string)), Ret match bi with
    | None => Err (errorf "build info is not available")
    | Some settings =>
        match List.find (λ s, bool_decide (s.1 = vcsRevisionKey)) settings with
        | Some s => Ok s.2
        | None => Err (errorf (vcsRevisionKey +:+ " not found in build info settings"))
        end
    end) (call UReadBuildInfo).

(** ** The mains *)

(** flag.Parse exits with 0 after -help, and with 2 after a bad flag. *)
Definition parse_flags (k : string → U exit_code) : U exit_code :=
  prog_bind (λ f, match f with
    | FlagsParsed configFile => k configFile
    | FlagsHelp => Ret 0
    | FlagsBad => Ret 2
    end) (call UParseFlags).

(** A step whose error is fatal. *)
Definition fatal (p : U (result unit)) (k : U exit_code) : U exit_code :=
  try _ := p catch _ => FatalError in k.

(** internal/test: the scheme of the unit tests, as the packages in it; the
    first error ends it. *)
Definition TestScheme_funcs : list api_group := [ClientGo; KMM; HubKMM; ClusterV1; WorkV1].
Fixpoint add_to_scheme (funcs s : list api_group) : U (result (list api_group)) :=
  match funcs with
  | [] => Ret (Ok s)
  | f :: funcs => try _ := call (UInstall f) catch err => Ret (Err err) in add_to_scheme funcs (s ++ [f])
  end.
Definition TestScheme : U (result (list api_group)) := add_to_scheme TestScheme_funcs [].

(** A step whose error panics: utilruntime.Must, MustRegister, ...OrDie. *)
Definition must (p : U (result unit)) (k : U exit_code) : U exit_code :=
  try _ := p catch err => Crash (Error err) in k.

Fixpoint init (gs : list api_group) (k : U exit_code) : U exit_code :=
  match gs with
  | [] => k
  | g :: gs => must (call (UInstall g)) (init gs k)
  end.

Definition OperatorNamespaceEnvVar := "OPERATOR_NAMESPACE".

(** metrics.New and Register, and the client set of the registry
    credentials; GetConfigOrDie exits, NewForConfigOrDie panics. *)
Definition new_components (k : U exit_code) : U exit_code :=
  must (call (UMustRegister (registered New)))
    (fatal (call UGetConfig) (must (call UNewForConfig) k)).

(** SetupWithManager of controllers, one after the other. *)
Fixpoint setup (bs : list Builder) (k : U exit_code) : U exit_code :=
  match bs with
  | [] => k
  | b :: bs => fatal (call (USetup b)) (setup bs k)
  end.

(** The end of both mains. *)
Definition start_manager : U exit_code :=
  fatal (call UAddHealthzCheck) (fatal (call UAddReadyzCheck) (fatal (call UStart) (Ret 0))).

Section mains.
Context {LV : LabelValidation}.

(** cmd/manager/main.go *)
Definition manager_init : list api_group := [ClientGo; KMM; BuildV1; ImageV1].
Definition manager_main : U exit_code :=
  init manager_init
  (parse_flags (λ configFile,
   prog_bind (λ _,
   GetEnvOrFatalError OperatorNamespaceEnvVar (λ operatorNamespace,
   prog_bind (λ KMM_MANAGED : string,
     let managed := match GetBoolEnv "KMM_MANAGED" KMM_MANAGED with Ok b => b | _ => false end in
     fatal (call (UConfigFile configFile)) (fatal (call UGetConfig) (fatal (call UNewManager)
     (new_components
     (setup [ModuleReconciler_SetupWithManager KernelLabel;
             NodeKernelReconciler_SetupWithManager KernelLabel;
             PodNodeModuleReconciler_SetupWithManager;
             PreflightValidationReconciler_SetupWithManager]
     ((if managed
       then λ k, fatal (call (UInstall ClusterV1alpha1))
                   (setup [NodeKernelClusterClaimReconciler_SetupWithManager] k)
       else λ k, k)
     (setup [ImageStreamReconciler_SetupWithManager dtkNSN;
             PreflightValidationOCPReconciler_SetupWithManager]
      start_manager))))))) (call (UGetenv "KMM_MANAGED")))) GitCommit)).

(** cmd/manager-hub/main.go *)
Definition hub_init : list api_group := [ClientGo; HubKMM; BuildV1; ClusterV1; ImageV1; WorkV1].
Definition hub_main : U exit_code :=
  init hub_init
  (parse_flags (λ configFile,
   prog_bind (λ _,
     fatal (call (UConfigFile configFile)) (fatal (call UGetConfig) (fatal (call UNewManager)
     (GetEnvOrFatalError OperatorNamespaceEnvVar (λ operatorNamespace,
      new_components
     (setup [ManagedClusterModuleReconciler_SetupWithManager;
             ImageStreamReconciler_SetupWithManager dtkNSN]
      start_manager)))))) GitCommit)).

(** ** What happened before a call *)

(** The result of a step, for those that have one. *)
Definition step_result (e : @event ureq uans) : option (result unit) :=
  match ev_req e as q return uans q → option (result unit) with
  | UParseFlags => λ _, None
  | UGetenv _ => λ _, None
  | UReadBuildInfo => λ _, None
  | UInstall _ | UConfigFile _ | UGetConfig | UNewManager | UMustRegister _ | UNewForConfig
  | USetup _ | UAddHealthzCheck | UAddReadyzCheck | UStart => λ r, Some r
  end (ev_ans e).

(** No step failed. *)
Definition no_failure (h : uhist) : Prop :=
  Forall (λ e, match step_result e with Some r => r = Ok tt | None => True end) h.

Definition setups (h : uhist) : list Builder :=
  omap (λ e, match ev_req e with USetup b => Some b | _ => None end) h.
Definition installed (h : uhist) : list api_group :=
  omap (λ e, match ev_req e with UInstall g => Some g | _ => None end) h.

(** The kinds a controller watches are in the scheme. *)
Definition watches_known (b : Builder) (gs : list api_group) : bool :=
  forallb (λ w, existsb (λ g, bool_decide (w_src w ∈ group_kinds g)) gs) (doWatch b).

(** The values read of an environment variable. *)
Definition getenvs (name : string) (h : uhist) : list string :=
  omap (λ e, match ev_req e as q return uans q → option string with
             | UGetenv n => λ v : string, if bool_decide (n = name) then Some v else None
             | _ => λ _, None
             end (ev_ans e)) h.

(** When a main makes a call: nothing failed before; the types a controller
    watches are installed when it is set up; and the manager is started when
    the controllers are set up, in order, with the checks in place. *)
Definition startup_ok (controllers : uhist → list Builder) (groups : uhist → list api_group)
    (h : uhist) (q : ureq) : Prop :=
  no_failure h ∧
  (∀ b, q = USetup b → watches_known b (installed h) = true) ∧
  (q = UStart → setups h = controllers h ∧ installed h = groups h ∧
     ∀ q', q' ∈ [UMustRegister (registered New); UAddHealthzCheck; UAddReadyzCheck] →
       ∃ r, (Ev q' r : @event ureq uans) ∈ h).

(** The values of KMM_MANAGED that say the cluster is managed. *)
Definition managed_value (v : string) : bool :=
  bool_decide (v ∈ ["1"; "t"; "T"; "true"; "TRUE"; "True"]).

(** The controllers and the packages of the operator, in a managed cluster and
    in any other; and the packages of the hub. *)
Definition operator_controllers (managed : bool) : list Builder :=
  [ModuleReconciler_SetupWithManager KernelLabel; NodeKernelReconciler_SetupWithManager KernelLabel;
   PodNodeModuleReconciler_SetupWithManager; PreflightValidationReconciler_SetupWithManager]
  ++ (if managed then [NodeKernelClusterClaimReconciler_SetupWithManager] else [])
  ++ [ImageStreamReconciler_SetupWithManager (NN DTKImageStreamNamespace "driver-toolkit");
      PreflightValidationOCPReconciler_SetupWithManager].
Definition operator_groups (managed : bool) : list api_group :=
  [ClientGo; KMM; BuildV1; ImageV1] ++ (if managed then [ClusterV1alpha1] else []).
Definition hub_groups : list api_group := [ClientGo; HubKMM; BuildV1; ClusterV1; ImageV1; WorkV1].

(** Those for the environment that was read. *)
Definition controllers_of_env (h : uhist) : list Builder :=
  match getenvs "KMM_MANAGED" h with [env] => operator_controllers (managed_value env) | _ => [] end.
Definition groups_of_env (h : uhist) : list api_group :=
  match getenvs "KMM_MANAGED" h with [env] => operator_groups (managed_value env) | _ => [] end.

(** The code's reading of the variable; a value that is none disables it. *)
Lemma GetBoolEnv_managed name v :
  match GetBoolEnv name v with Ok b => b | _ => false end = managed_value v.
Proof.
  unfold GetBoolEnv, ParseBool, managed_value. case_bool_decide as H0; [by subst v|].
  case_bool_decide; [done|]. by case_bool_decide.
Qed.
Lemma manager_controllers_env v : manager_controllers v = operator_controllers (managed_value v).
Proof. unfold manager_controllers. by rewrite GetBoolEnv_managed. Qed.

(** The code with which flag.Parse ended the process, if it did. *)
Definition flags_exit (h : uhist) : option exit_code :=
  head (omap (λ e, match ev_req e as q return uans q → option exit_code with
                   | UParseFlags => λ f, match f with
                                         | FlagsParsed _ => None | FlagsHelp => Some 0 | FlagsBad => Some 2
                                         end
                   | _ => λ _, None
                   end (ev_ans e)) h).

(** The manager was started and stopped without an error. *)
Definition served (h : uhist) : bool :=
  existsb (λ e, match ev_req e as q return uans q → bool with
                | UStart => λ r : result unit, is_ok r
                | _ => λ _, false
                end (ev_ans e)) h.

(** How it ends: as flag.Parse says, before anything is set up; and after that
    with code 0 exactly when the manager served. *)
Definition startup_end (o : outcome exit_code) (h : uhist) : Prop :=
  match o with
  | Done c => (c = 0 → no_failure h) ∧
      match flags_exit h with
      | Some c' => c = c' ∧ setups h = [] ∧ served h = false
      | None => c = (if served h then 0 else 1)
      end
  | Crashed _ => served h = false ∧ flags_exit h = None
  end.

Ltac up_ok := split_and!; [by repeat constructor|intros ? [= <-]; reflexivity|done].
Ltac up_end :=
  cbn [wp prog_bind]; first [by split_and!
    | split; [first [done|by (intros _; repeat constructor)]|first [reflexivity|by split_and!]]].
(** flag.Parse, which may end the program. *)
Ltac up_flags :=
  unfold parse_flags; cbn [prog_bind call wp]; split; [up_ok|]; intros [configFile| |]; [|up_end..].
(** One call whose error ends the program. *)
Ltac up_step :=
  cbn [init setup fatal must new_components start_manager prog_bind call wp];
  split; [up_ok|]; let r := fresh in intros [[]|r|r]; cbn [wp prog_bind]; [|up_end..].

Ltac up_start :=
  cbn [setup fatal must prog_bind call wp]; split; [|intros [[]|?|?]; up_end];
  split_and!; [by repeat constructor|done|]; intros _; split_and!;
  [| |intros q Hq; repeat (apply elem_of_cons in Hq as [->|Hq]; [exists (Ok tt); in_hist|]);
    by apply not_elem_of_nil in Hq].

Lemma wp_manager_main : wp (startup_ok controllers_of_env groups_of_env) manager_main startup_end [].
Proof.
  unfold manager_main, manager_init, new_components, start_manager, FatalError.
  do 4 up_step. up_flags.
  unfold GitCommit. cbn [prog_bind call wp]. split; [up_ok|]. intros bi.
  unfold GetEnvOrFatalError. cbn [prog_bind call wp]. split; [up_ok|]. intros ns.
  case_bool_decide; [up_end|]. cbn [prog_bind call wp]. split; [up_ok|]. intros env.
  rewrite GetBoolEnv_managed. do 10 up_step. destruct (managed_value env) eqn:Henv.
  - do 6 up_step. up_start; [trans (operator_controllers (managed_value env))|trans (operator_groups (managed_value env))];
      first [reflexivity|rewrite Henv; reflexivity].
  - do 4 up_step. up_start; [trans (operator_controllers (managed_value env))|trans (operator_groups (managed_value env))];
      first [reflexivity|rewrite Henv; reflexivity].
Qed.

Lemma wp_hub_main : wp (startup_ok (λ _, hub_controllers) (λ _, hub_groups)) hub_main startup_end [].
Proof.
  unfold hub_main, hub_init, new_components, start_manager, FatalError.
  do 6 up_step. up_flags.
  unfold GitCommit. cbn [prog_bind call wp]. split; [up_ok|]. intros bi.
  cbn [prog_bind]. do 3 up_step. unfold GetEnvOrFatalError. cbn [prog_bind call wp].
  split; [up_ok|]. intros ns. case_bool_decide; [up_end|]. do 7 up_step. up_start; reflexivity.
Qed.
End mains.

(** ** Properties *)

(** A scheme without error holds every package, in order. *)
Lemma wp_TestScheme :
  wp (λ _ q, ∃ g, g ∈ TestScheme_funcs ∧ q = UInstall g) TestScheme
    (λ o _, match o with Done (Ok s) => s = TestScheme_funcs | _ => True end) [].
Proof.
  unfold TestScheme. cut (∀ funcs s h, TestScheme_funcs = s ++ funcs →
    wp (λ _ q, ∃ g, g ∈ TestScheme_funcs ∧ q = UInstall g) (add_to_scheme funcs s)
      (λ o _, match o with Done (Ok s) => s = TestScheme_funcs | _ => True end) h).
  { intros H. by apply (H TestScheme_funcs []). }
  intros funcs. induction funcs as [|f funcs IH]; intros s h Hs; cbn [add_to_scheme].
  - cbn. by rewrite Hs, app_nil_r.
  - apply wp_bind. split; [|intros [[]|e|w]; [|done..]].
    + exists f. split; [|done]. rewrite Hs. set_solver.
    + apply IH. by rewrite <-app_assoc.
Qed.

(** C25: both mains start their manager only when it is ready.  Whatever the
    environment answers, every call is made after nothing failed; when a
    controller is set up, the types of everything it watches are in the
    scheme; and when the manager is started, the controllers set up are, in
    order, those of the operator for the value of KMM_MANAGED that was read -
    the cluster-claim controller, and the types of the cluster claims in the
    scheme, only when it is one of 1, t, T, true, TRUE and True - or those of
    the hub, the metrics are registered and the health checks installed.  A
    main ends as flag.Parse ends it - with code 0 after -help, with 2 after a
    bad flag - before any controller is set up; and otherwise with code 0
    exactly when the manager was started and stopped without an error, with no
    step failed before, and with code 1 if not, unless it panics. *)
Theorem mains_start_ready {LV : LabelValidation} {S} (srv : server uans S) s :
  (∀ h1 e h2, run_trace srv manager_main s = h1 ++ e :: h2 →
     startup_ok controllers_of_env groups_of_env h1 (ev_req e)) ∧
  startup_end (run_out srv manager_main s) (run_trace srv manager_main s) ∧
  (∀ h1 e h2, run_trace srv hub_main s = h1 ++ e :: h2 →
     startup_ok (λ _, hub_controllers) (λ _, hub_groups) h1 (ev_req e)) ∧
  startup_end (run_out srv hub_main s) (run_trace srv hub_main s).
Proof.
  destruct (wp_run _ _ _ srv s wp_manager_main) as [H1 H2].
  destruct (wp_run _ _ _ srv s wp_hub_main) as [H3 H4]. by split_and!.
Qed.

(** A start in a managed cluster, one without a namespace, and one that is
    asked for help. *)
Definition ex_up (env : string → string) (q : ureq) : uans q :=
  match q return uans q with
  | UParseFlags => FlagsParsed "controller_manager_config.yaml"
  | UGetenv n => env n
  | UReadBuildInfo => None
  | _ => Ok tt
  end.
Definition ex_help (q : ureq) : uans q :=
  match q return uans q with UParseFlags => FlagsHelp | q => ex_up (λ _, "true") q end.
Example ex_starts :
  let run env := run (λ q s, (env q, s)) (manager_main (LV := valid_all)) tt in
  let '(o1, _, h1) := run (ex_up (λ n, if bool_decide (n = OperatorNamespaceEnvVar) then "kmm" else "true")) in
  let '(o2, _, h2) := run (ex_up (λ _, "")) in
  let '(o3, _, h3) := run ex_help in
  o1 = Done 0 ∧ length (setups h1) = 7 ∧ installed h1 = [ClientGo; KMM; BuildV1; ImageV1; ClusterV1alpha1] ∧
  o2 = Done 1 ∧ setups h2 = [] ∧ o3 = Done 0 ∧ served h3 = false.
Proof. vm_compute. done. Qed.
