(* ===== verification/Kinds.v ===== *)
(** * The kinds the controllers use

    A client only serves the types its scheme knows.  Here every call of every
    controller is followed to the kinds it is about, which the scheme of its
    manager holds when the controller is set up. *)

From S2P Require Import Prelude Prog K8s Api Client Utils Helpers KernelMapper DaemonSet Auth Registry SyncMap.
From S2P Require Import CA Managers BuildConfig SignJob StatusUpdater Metrics ModuleReconciler Operator.
From S2P Require Import Filter Watches Preflight PreflightOCP NodeControllers Hub SharedMapping Startup.
From stdpp Require Import options.

Definition client_kind (q : req) : option kind :=
  match q with
  | RGet k _ | RList k _ | RCreate k _ | RPatch k _ _ | RDelete k _ _ | RStatusPatch k _ _
  | RStatusUpdate k _ => Some k
  | _ => None
  end.

(** A call of the client is for one of these kinds. *)
Definition uses (ks : list kind) (q : req) : Prop :=
  match client_kind q with Some k => bool_decide (k ∈ ks) = true | None => True end.
Abbreviation in_kinds ks := (calls (uses ks)).

Definition common_kinds := [KSecret; KServiceAccount; KConfigMap; KBuild; KJob].
Definition scheme_of (gs : list api_group) : list kind := concat (List.map group_kinds gs).
Definition manager_kinds := scheme_of manager_init.
Definition managed_kinds := scheme_of (manager_init ++ [ClusterV1alpha1]).
Definition hub_kinds := scheme_of hub_init.

Lemma uses_subset ks ks' {A} (p : M A) :
  forallb (λ k, bool_decide (k ∈ ks')) ks = true → in_kinds ks p → in_kinds ks' p.
Proof.
  intros Hs Hp. eapply calls_mono; [exact Hp|]. intros q. unfold uses.
  destruct (client_kind q) as [k|]; [|done]. intros Hk%bool_decide_eq_true.
  rewrite forallb_forall in Hs. apply Hs. by apply list_elem_of_In.
Qed.
Lemma common_manager {A} (p : M A) : in_kinds common_kinds p → in_kinds manager_kinds p.
Proof. by apply uses_subset. Qed.
Lemma common_hub {A} (p : M A) : in_kinds common_kinds p → in_kinds hub_kinds p.
Proof. by apply uses_subset. Qed.
#[local] Hint Resolve common_manager common_hub : calls.


(** Goes through a program like [go_calls], into what it calls. *)
Ltac get_head p := match p with ?f _ => get_head f | _ => p end.
Ltac go_uses :=
  repeat first
    [ progress intros
    | apply calls_ret | apply calls_crash | apply calls_lift_result
    | solve [eauto with calls]
    | match goal with |- calls ?P (call ?q) => refine (calls_call P q _); solve [done] end
    | apply calls_bind
    | apply calls_range_loop
    | apply calls_CreateOrPatch | apply calls_CreateOrPatch_tracked
    | done
    | match goal with |- calls _ (let _ := _ in _) => cbv zeta end
    | case_match
    | match goal with |- calls _ ?p => let f := get_head p in unfold f; cbv beta end ].

Section uses.
Context {D : ManifestDecoder} {RD : ReleaseDecoder} {Hs : Hasher} {R : Regexp} {E : Envsubst} {MO : MapOrder}.
Context {LV : LabelValidation}.
Variables (goarch operatorNamespace namespace : string).
Abbreviation BM := (buildconfig_manager goarch).
Abbreviation SM := (signjob_manager goarch).

Lemma uses_getImageManifest image tls g : in_kinds common_kinds (getImageManifest goarch image tls g).
Proof. go_uses. Qed.
#[local] Hint Resolve uses_getImageManifest : calls.
Lemma uses_build_Sync mld push owner : in_kinds common_kinds (bm_Sync (BuildManager := BM) mld push owner).
Proof. simpl. go_uses. Qed.
Lemma uses_build_ShouldSync mld : in_kinds common_kinds (bm_ShouldSync (BuildManager := BM) mld).
Proof. simpl. go_uses. Qed.
Lemma uses_build_GC n ns o : in_kinds common_kinds (bm_GarbageCollect (BuildManager := BM) n ns o).
Proof. simpl. go_uses. Qed.
Lemma uses_sign_Sync mld image push owner : in_kinds common_kinds (sm_Sync (SignManager := SM) mld image push owner).
Proof. simpl. go_uses. Qed.
Lemma uses_sign_ShouldSync mld : in_kinds common_kinds (sm_ShouldSync (SignManager := SM) mld).
Proof. simpl. go_uses. Qed.
Lemma uses_sign_GC n ns o : in_kinds common_kinds (sm_GarbageCollect (SignManager := SM) n ns o).
Proof. simpl. go_uses. Qed.
Lemma uses_ca_Sync ns o : in_kinds common_kinds (ca_Sync ns o).
Proof. go_uses. Qed.
#[local] Hint Resolve uses_build_Sync uses_build_ShouldSync uses_build_GC uses_sign_Sync
  uses_sign_ShouldSync uses_sign_GC uses_ca_Sync : calls.

(** The recursive functions. *)
Lemma uses_metrics mods : in_kinds manager_kinds (set_all_modprobe_metrics mods).
Proof. induction mods; cbn [set_all_modprobe_metrics]; go_uses. Qed.
Lemma uses_verify_layers mld rc ds : in_kinds manager_kinds (verify_layers mld rc ds).
Proof. induction ds; cbn [verify_layers]; go_uses. Qed.
Lemma uses_register_tags tags ks : in_kinds ks (register_tags tags).
Proof. induction tags; cbn [register_tags]; go_uses. Qed.
Lemma uses_release_from_layers image cfg ds : in_kinds manager_kinds (release_from_layers image cfg ds).
Proof. induction ds; cbn [release_from_layers]; go_uses. Qed.
Lemma uses_new_statuses ms st : in_kinds manager_kinds (add_new_statuses ms st).
Proof. revert st. induction ms; intros st; cbn [add_new_statuses]; go_uses. Qed.
#[local] Hint Resolve uses_new_statuses uses_metrics uses_verify_layers uses_register_tags uses_release_from_layers : calls.

Lemma uses_check_modules pv ms : in_kinds manager_kinds (check_modules (BM := BM) (SM := SM) goarch ms pv).
Proof. revert pv. induction ms; intros pv; cbn [check_modules]; go_uses. Qed.
#[local] Hint Resolve uses_check_modules : calls.

Lemma uses_operator key : in_kinds manager_kinds (operator_Reconcile goarch operatorNamespace key).
Proof. go_uses. Qed.
Lemma uses_preflight key : in_kinds manager_kinds (preflight_Reconcile (BM := BM) (SM := SM) goarch key).
Proof. go_uses. Qed.
Lemma uses_ocp key : in_kinds manager_kinds (ocp_Reconcile goarch key).
Proof. go_uses. Qed.
Lemma uses_node label key : in_kinds manager_kinds (node_kernel_Reconcile label key).
Proof. go_uses. Qed.
Lemma uses_pod label key : in_kinds manager_kinds (pod_Reconcile label key).
Proof. go_uses. Qed.
Lemma uses_claim : in_kinds managed_kinds cluster_claim_Reconcile.
Proof. go_uses. Qed.
Lemma uses_imagestream nsn : in_kinds manager_kinds (imagestream_Reconcile nsn).
Proof. go_uses. Qed.
Lemma uses_hub_imagestream nsn : in_kinds hub_kinds (imagestream_Reconcile nsn).
Proof. go_uses. Qed.

(** ** The hub *)

Lemma uses_delete_works names ws : in_kinds hub_kinds (delete_works names ws).
Proof. induction ws; cbn [delete_works]; go_uses. Qed.
#[local] Hint Resolve uses_delete_works : calls.
Lemma uses_handle_clusters cs mcm : in_kinds hub_kinds (handle_clusters (BM := BM) (SM := SM) namespace cs mcm).
Proof. revert mcm. induction cs; intros mcm; cbn [handle_clusters]; go_uses. Qed.
#[local] Hint Resolve uses_handle_clusters : calls.
Lemma uses_hub key : in_kinds hub_kinds (hub_Reconcile (BM := BM) (SM := SM) namespace key).
Proof. go_uses. Qed.

(** ** The controllers the mains set up *)

(** The reconciliations of the controller a builder sets up. *)
Inductive runs : Builder → M (result ReconcileResult) → Prop :=
  | runs_Module key : runs (ModuleReconciler_SetupWithManager KernelLabel)
                        (operator_Reconcile goarch operatorNamespace key)
  | runs_NodeKernel key : runs (NodeKernelReconciler_SetupWithManager KernelLabel)
                            (node_kernel_Reconcile KernelLabel key)
  | runs_PodNodeModule key : runs PodNodeModuleReconciler_SetupWithManager (pod_Reconcile KernelLabel key)
  | runs_Preflight key : runs PreflightValidationReconciler_SetupWithManager
                           (preflight_Reconcile (BM := BM) (SM := SM) goarch key)
  | runs_ClusterClaim : runs NodeKernelClusterClaimReconciler_SetupWithManager cluster_claim_Reconcile
  | runs_ImageStream : runs (ImageStreamReconciler_SetupWithManager dtkNSN) (imagestream_Reconcile dtkNSN)
  | runs_PreflightOCP key : runs PreflightValidationOCPReconciler_SetupWithManager (ocp_Reconcile goarch key)
  | runs_Hub key : runs ManagedClusterModuleReconciler_SetupWithManager
                     (hub_Reconcile (BM := BM) (SM := SM) namespace key).

Lemma manager_managed {A} (p : M A) : in_kinds manager_kinds p → in_kinds managed_kinds p.
Proof. by apply uses_subset. Qed.

(** A controller that watches cluster claims needs their types. *)
Lemma runs_manager managed b p :
  b ∈ operator_controllers managed → runs b p → in_kinds (scheme_of (operator_groups managed)) p.
Proof.
  unfold operator_controllers, operator_groups. intros Hb Hr.
  destruct managed; cbn [app] in *;
    repeat (apply elem_of_cons in Hb as [->|Hb]); try (by apply not_elem_of_nil in Hb); inversion Hr; subst;
    first [apply uses_operator|apply uses_node|apply uses_pod|apply uses_preflight|apply uses_claim
          |apply uses_imagestream|apply uses_ocp
          |apply manager_managed; first [apply uses_operator|apply uses_node|apply uses_pod|apply uses_preflight
          |apply uses_imagestream|apply uses_ocp]].
Qed.

Lemma runs_hub b p : b ∈ hub_controllers → runs b p → in_kinds hub_kinds p.
Proof.
  intros Hb Hr. repeat (apply elem_of_cons in Hb as [->|Hb]); try (by apply not_elem_of_nil in Hb);
    inversion Hr; subst; [apply uses_hub|apply uses_hub_imagestream].
Qed.
End uses.

(** ** Properties *)

(** What a started main has set up and installed. *)
Lemma started_manager {LV : LabelValidation} {S} (srv : server uans S) s h1 r h2 :
  run_trace srv manager_main s = h1 ++ Ev UStart r :: h2 →
  ∃ managed, setups h1 = operator_controllers managed ∧ installed h1 = operator_groups managed ∨
             setups h1 = [] ∧ installed h1 = [].
Proof.
  intros Hrun. destruct (wp_run _ _ _ srv s wp_manager_main) as [_ Hok].
  destruct (Hok h1 _ h2 Hrun) as (_ & _ & Hst). destruct (Hst eq_refl) as (Hc & Hg & _).
  rewrite Hc, Hg. unfold controllers_of_env, groups_of_env.
  destruct (getenvs "KMM_MANAGED" h1) as [|env [|? ?]]; [exists false|eexists|exists false]; eauto.
Qed.

Lemma started_hub {LV : LabelValidation} {S} (srv : server uans S) s h1 r h2 :
  run_trace srv hub_main s = h1 ++ Ev UStart r :: h2 →
  setups h1 = hub_controllers ∧ installed h1 = hub_groups.
Proof.
  intros Hrun. destruct (wp_run _ _ _ srv s wp_hub_main) as [_ Hok].
  destruct (Hok h1 _ h2 Hrun) as (_ & _ & Hst). destruct (Hst eq_refl) as (Hc & Hg & _). auto.
Qed.

(** C24: no controller asks its client for a type the client does not know.
    Take any start of either main that reaches the start of the manager, with
    any environment, and any controller it has set up: whatever the cluster
    answers, every object the controller's Reconcile gets, lists, creates,
    patches, updates or deletes is of a kind the packages installed in the
    scheme by then register - the types of the cluster claims for the
    controller that is only set up in a managed cluster, the build and job
    types for the image builds of the hub too. *)
Theorem clients_know_kinds
    {D : ManifestDecoder} {RD : ReleaseDecoder} {Hs : Hasher} {R : Regexp} {E : Envsubst} {MO : MapOrder}
    {LV : LabelValidation} (goarch ns : string) {S T} (env : server uans S) (srv : kserver T) main s t h1 r h2 b p e :
  main ∈ [manager_main; hub_main] →
  run_trace env main s = h1 ++ Ev UStart r :: h2 →
  b ∈ setups h1 → runs goarch ns ns b p → e ∈ run_trace srv p t →
  uses (scheme_of (installed h1)) (ev_req e).
Proof.
  intros Hmain Hrun Hb Hp. revert e. apply Forall_forall, (calls_run (uses _)).
  repeat (apply elem_of_cons in Hmain as [->|Hmain]); [..|by apply not_elem_of_nil in Hmain].
  - destruct (started_manager _ _ _ _ _ Hrun) as (v & [[Hs1 Hs2]|[Hs1 _]]);
      rewrite Hs1 in Hb; [|by apply not_elem_of_nil in Hb].
    rewrite Hs2. by eapply runs_manager.
  - destruct (started_hub _ _ _ _ _ Hrun) as [Hs1 Hs2]. rewrite Hs1 in Hb. rewrite Hs2.
    by eapply runs_hub.
Qed.

(** A managed cluster: the claim the controller writes is of an installed kind. *)
Definition ex_managed_env : server uans unit := λ q s, (ex_up (λ _, "true") q, s).
Definition ex_is_start (e : @event ureq uans) : bool := match ev_req e with UStart => true | _ => false end.
Definition ex_writes_claim (e : @event req ans) : bool :=
  is_write (ev_req e) && bool_decide (client_kind (ev_req e) = Some KClusterClaim).

(** The calls before the manager is started. *)
Fixpoint before_start (h : uhist) : uhist :=
  match h with
  | [] => []
  | e :: h => if ex_is_start e then [] else e :: before_start h
  end.
Lemma before_start_split h :
  existsb ex_is_start h = true → ∃ e h2, h = before_start h ++ e :: h2 ∧ ex_is_start e = true.
Proof.
  induction h as [|e h IH]; cbn [existsb before_start]; [done|].
  destruct (ex_is_start e) eqn:He; [by exists e, h|]. intros (e' & h2 & Heq & He')%IH.
  exists e', h2. split; [|done]. cbn [app]. by f_equal.
Qed.

Lemma clients_know_kinds_witness : ∃ (h1 : uhist) (e : @event req ans),
  ex_writes_claim e = true ∧ uses (scheme_of (installed h1)) (ev_req e).
Proof.
  assert (existsb ex_is_start (run_trace ex_managed_env (manager_main (LV := valid_all)) tt) = true) as H1
    by (vm_compute; reflexivity).
  assert (existsb ex_writes_claim (run_trace ex_spoke (cluster_claim_Reconcile (MO := map_order_std)) tt) = true)
    as H2 by (vm_compute; reflexivity).
  apply before_start_split in H1 as ([q r] & h2 & Htr & He).
  apply existsb_split in H2 as (k1 & e & k2 & Hctr & Hw).
  unfold ex_is_start in He. cbn [ev_req] in He. destruct q; try discriminate He.
  eexists _, e. split; [exact Hw|].
  eapply (clients_know_kinds (D := ex_decoder) (RD := ex_release_decoder)
    (Hs := ex_hasher) (R := regexp_substring) (E := envsubst_id) (MO := map_order_std) (LV := valid_all)
    "amd64" "kmm" ex_managed_env ex_spoke manager_main tt tt _ r h2
    NodeKernelClusterClaimReconciler_SetupWithManager cluster_claim_Reconcile e).
  - apply list_elem_of_here.
  - exact Htr.
  - apply (list_elem_of_lookup_2 _ 4). vm_compute. reflexivity.
  - apply runs_ClusterClaim.
  - rewrite Hctr. apply elem_of_app. right. apply list_elem_of_here.
Defined.
