(* ===== verification/Gomock.v ===== *)
(** * Expectations of the generated mocks

    What the generated mocks rely on of github.com/golang/mock/gomock (vendored
    under src/): values behind Go's [interface{}], matchers, and a controller
    that records expected calls and answers the calls that are made.  Fatalf
    ends the test: it is a [Panic].  Messages are left out, and so is the lock:
    one goroutine uses the controller.  Actions only compute what is returned. *)

From S2P Require Import Prelude.
From stdpp Require Import options.

(** ** Types and values *)

(** reflect.Kind, as far as the mocks tell kinds apart. *)
Inductive rkind := KInterface | KPtr | KSlice | KMap | KFunc | KOther.
#[export] Instance rkind_eq_dec : EqDecision rkind.
Proof. solve_decision. Defined.

Inductive gotype :=
  | TNamed (name : string) (k : rkind)
  | TPtr (t : gotype)
  | TSlice (t : gotype)
  | TMap (key t : gotype)
  | TFunc (signature : string).
#[export] Instance gotype_eq_dec : EqDecision gotype.
Proof. solve_decision. Defined.

Definition ty_kind (t : gotype) : rkind :=
  match t with
  | TNamed _ k => k | TPtr _ => KPtr | TSlice _ => KSlice | TMap _ _ => KMap | TFunc _ => KFunc
  end.

(** A value behind [interface{}]: its type and its contents.  The contents are
    the zero value of the type, the elements of a slice that was made by
    reflection, or a text. *)
Inductive any :=
  | nil_any
  | dyn (t : gotype) (v : val)
with val :=
  | zero
  | elements (xs : anys)
  | text (s : string)
with anys :=
  | no_any
  | cons_any (x : any) (xs : anys).

Scheme any_rec3 := Induction for any Sort Set
  with val_rec3 := Induction for val Sort Set
  with anys_rec3 := Induction for anys Sort Set.

#[export] Instance any_eq_dec : EqDecision any.
Proof.
  intros x. apply (any_rec3 (λ x, ∀ y, Decision (x = y)) (λ v, ∀ w, Decision (v = w))
    (λ xs, ∀ ys, Decision (xs = ys))); clear x.
  - intros [|t v]; [by left|by right].
  - intros t v IH [|t' v']; [by right|]. destruct (decide (t = t')) as [->|]; [|right; congruence].
    destruct (IH v') as [->|]; [by left|right; congruence].
  - intros [| |]; [by left|by right..].
  - intros xs IH [|ys|]; [by right| |by right]. destruct (IH ys) as [->|]; [by left|right; congruence].
  - intros s [| |s']; [by right..|]. destruct (decide (s = s')) as [->|]; [by left|right; congruence].
  - intros [|y ys]; [by left|by right].
  - intros x IHx xs IH [|y ys]; [by right|]. destruct (IHx y) as [->|]; [|right; congruence].
    destruct (IH ys) as [->|]; [by left|right; congruence].
Defined.
#[export] Instance val_eq_dec : EqDecision val.
Proof.
  intros v w. destruct (decide (dyn (TFunc "") v = dyn (TFunc "") w)) as [H|H]; [left|right]; congruence.
Defined.

Fixpoint anys_of (xs : list any) : anys :=
  match xs with [] => no_any | x :: xs => cons_any x (anys_of xs) end.

(** What a variable of a type holds. *)
Definition goval (t : gotype) : Set := match ty_kind t with KInterface => any | _ => val end.

(** Its conversion to [interface{}]. *)
Definition to_any (t : gotype) : goval t → any :=
  match ty_kind t as k return match k with KInterface => any | _ => val end → any with
  | KInterface => λ x, x
  | _ => λ v, dyn t v
  end.

Definition zero_any (t : gotype) : any :=
  match ty_kind t with KInterface => nil_any | _ => dyn t zero end.

(** reflect's AssignableTo: every type is assignable to itself. *)
Class Reflect := {
  AssignableTo : gotype → gotype → bool;
  assignable_refl t : AssignableTo t t = true }.

(** [v, _ := x.(T)] *)
Definition type_assert `{Reflect} (t : gotype) (x : any) : goval t :=
  match ty_kind t as k return match k with KInterface => any | _ => val end with
  | KInterface => match x with dyn t' _ => if AssignableTo t' t then x else nil_any | nil_any => nil_any end
  | _ => match x with dyn t' v => if bool_decide (t' = t) then v else zero | nil_any => zero end
  end.

(** An interface holds a value of a type that implements it. *)
Definition holds `{Reflect} (t : gotype) (x : any) : Prop :=
  match x with
  | nil_any => ty_kind t = KInterface
  | dyn t' _ => if decide (ty_kind t = KInterface) then AssignableTo t' t = true else t' = t
  end.

Lemma type_assert_to_any `{Reflect} t (v : goval t) : holds t (to_any t v) → type_assert t (to_any t v) = v.
Proof.
  unfold goval, to_any, type_assert, holds in *. destruct (ty_kind t); cbn; intros Hh;
    try by rewrite bool_decide_true. destruct v as [|t' v]; [done|]. by rewrite Hh.
Qed.

(** reflect.DeepEqual: functions are only equal when both are nil. *)
Definition DeepEqual (x y : any) : bool :=
  match x, y with
  | dyn t v, dyn t' w =>
      bool_decide (t = t') && bool_decide (v = w) &&
      match ty_kind t with KFunc => bool_decide (v = zero) | _ => true end
  | nil_any, nil_any => true
  | _, _ => false
  end.

(** ** Matchers *)

Inductive matcher :=
  | anyMatcher
  | eqMatcher (x : any)
  | nilMatcher
  | notMatcher (m : matcher)
  | otherMatcher (f : any → bool).

(** An argument of a recorder: a Matcher, or the value that is expected. *)
Inductive expected_arg :=
  | AMatcher (m : matcher)
  | AValue (x : any).

Fixpoint Matches `{Reflect} (m : matcher) (x : any) : bool :=
  match m with
  | anyMatcher => true
  | eqMatcher e =>
      match e, x with
      | dyn t v, dyn t' _ => if AssignableTo t t' then DeepEqual (dyn t' v) x else false
      | _, _ => DeepEqual e x
      end
  | nilMatcher =>
      match x with
      | nil_any => true
      | dyn t v =>
          match ty_kind t with KOther => false | _ => bool_decide (v = zero) end
      end
  | notMatcher m => negb (Matches m x)
  | otherMatcher f => f x
  end.

Definition matcher_of (e : expected_arg) : matcher :=
  match e with
  | AMatcher m => m
  | AValue nil_any => nilMatcher
  | AValue x => eqMatcher x
  end.

Definition accepts `{Reflect} (e : expected_arg) (x : any) : Prop := Matches (matcher_of e) x = true.

(** A value is accepted where it is expected, unless it is a function. *)
Lemma accepts_value `{Reflect} x :
  (∀ t v, x = dyn t v → ty_kind t ≠ KFunc) → accepts (AValue x) x.
Proof.
  intros Hf. destruct x as [|t v]; [done|]. unfold accepts. cbn.
  rewrite assignable_refl, !bool_decide_true by done. specialize (Hf t v eq_refl). by destruct (ty_kind t).
Qed.

(** ** Controllers *)

(** A pointer to a mock: its type and its address. *)
Definition pointer : Type := string * nat.

(** The type of a method: its parameters, the elements of a variadic one, and
    its results. *)
Record methodtype := mk_mt { mt_in : list gotype; mt_variadic : option gotype; mt_out : list gotype }.
Definition NumIn (mt : methodtype) : nat := length (mt_in mt) + if mt_variadic mt then 1 else 0.
Definition IsVariadic (mt : methodtype) : bool := if mt_variadic mt then true else false.

Definition action : Type := list any → option (list any).
Definition call_id := nat.

Record mock_call := mk_call {
  c_receiver : pointer; c_method : string; c_type : methodtype; c_args : list matcher;
  c_preReqs : list call_id; c_minCalls : Z; c_maxCalls : Z; c_numCalls : Z; c_actions : list action }.

Definition satisfied (c : mock_call) : bool := (c_minCalls c <=? c_numCalls c)%Z.
Definition call_exhausted (c : mock_call) : bool := (c_maxCalls c <=? c_numCalls c)%Z.

(** The calls live on a heap; the two sets hold pointers to them. *)
Abbreviation callSetKey := (pointer * string)%type.
Record controller := mk_ctrl {
  ctrl_heap : gmap call_id mock_call; ctrl_next : call_id; ctrl_mocks : nat;
  ctrl_expected : gmap callSetKey (list call_id); ctrl_exhausted : gmap callSetKey (list call_id) }.

Definition NewController : controller := mk_ctrl ∅ 0 0 ∅ ∅.

Definition gomock (A : Type) : Type := controller → result (A * controller).
#[export] Instance gomock_ret : MRet gomock := λ A a c, Ok (a, c).
#[export] Instance gomock_bind : MBind gomock := λ A B f m c,
  match m c with Ok (a, c') => f a c' | Err e => Err e | Panic w => Panic w end.
Definition Fatalf {A} (why : string) : gomock A := λ _, Panic why.

Lemma gomock_bind_Ok {A B} (m : gomock A) (f : A → gomock B) c a c' :
  m c = Ok (a, c') → (m ≫= f) c = f a c'.
Proof. intros Hm. unfold mbind, gomock_bind. by rewrite Hm. Qed.

(** A step on the controller's own fields. *)
Definition on_ctrl {A} (f : controller → result (A * controller)) : gomock A := f.

Definition deref (id : call_id) : gomock mock_call := λ c,
  match ctrl_heap c !! id with Some x => Ok (x, c) | None => Panic "nil pointer dereference" end.
Definition store (id : call_id) (x : mock_call) : gomock unit := λ c,
  Ok (tt, mk_ctrl (<[id := x]> (ctrl_heap c)) (ctrl_next c) (ctrl_mocks c) (ctrl_expected c) (ctrl_exhausted c)).
Definition alloc (x : mock_call) : gomock call_id := λ c,
  Ok (ctrl_next c, mk_ctrl (<[ctrl_next c := x]> (ctrl_heap c)) (S (ctrl_next c)) (ctrl_mocks c)
        (ctrl_expected c) (ctrl_exhausted c)).

(** Reading a missing entry of a Go map gives nil. *)
Definition calls_at (m : gmap callSetKey (list call_id)) (k : callSetKey) : list call_id := default [] (m !! k).

Definition callSet_Add (id : call_id) : gomock unit :=
  call ← deref id;
  on_ctrl (λ c,
    let key := (c_receiver call, c_method call) in
    if call_exhausted call
    then Ok (tt, mk_ctrl (ctrl_heap c) (ctrl_next c) (ctrl_mocks c) (ctrl_expected c)
               (<[key := calls_at (ctrl_exhausted c) key ++ [id]]> (ctrl_exhausted c)))
    else Ok (tt, mk_ctrl (ctrl_heap c) (ctrl_next c) (ctrl_mocks c)
               (<[key := calls_at (ctrl_expected c) key ++ [id]]> (ctrl_expected c)) (ctrl_exhausted c))).

(** The list without the first occurrence, if there is one. *)
Fixpoint remove_first (id : call_id) (ids : list call_id) : option (list call_id) :=
  match ids with
  | [] => None
  | i :: ids => if bool_decide (i = id) then Some ids else cons i <$> remove_first id ids
  end.

Definition callSet_Remove (id : call_id) : gomock unit :=
  call ← deref id;
  on_ctrl (λ c,
    let key := (c_receiver call, c_method call) in
    match remove_first id (calls_at (ctrl_expected c) key) with
    | None => Ok (tt, c)
    | Some ids =>
        Ok (tt, mk_ctrl (ctrl_heap c) (ctrl_next c) (ctrl_mocks c) (<[key := ids]> (ctrl_expected c))
              (<[key := calls_at (ctrl_exhausted c) key ++ [id]]> (ctrl_exhausted c)))
    end).

(** ** Recording a call *)

Definition newCall (recv : pointer) (method : string) (mt : methodtype) (args : list expected_arg) : mock_call :=
  mk_call recv method mt (matcher_of <$> args) [] 1 1 0 [λ _, Some (zero_any <$> mt_out mt)].

Definition RecordCallWithMethodType (recv : pointer) (method : string) (mt : methodtype)
    (args : list expected_arg) : gomock call_id :=
  call ← alloc (newCall recv method mt args);
  _ ← callSet_Add call;
  mret call.

Section with_types.
Context `{Reflect}.

(** The checks of Return on one value. *)
Definition returnable (ret : any) (want : gotype) : bool :=
  match ret with
  | nil_any => match ty_kind want with KOther => false | _ => true end
  | dyn got _ => bool_decide (got = want) || AssignableTo got want
  end.

(** A value that is assigned to a variable that is no interface gets its type. *)
Definition assigned (ret : any) (want : gotype) : any :=
  match ret, ty_kind want with
  | nil_any, _ | dyn _ _, KInterface => ret
  | dyn _ v, _ => dyn want v
  end.

Definition Return (id : call_id) (rets : list any) : gomock call_id :=
  call ← deref id;
  let mt := c_type call in
  if negb (bool_decide (length rets = length (mt_out mt)))
  then Fatalf "wrong number of arguments to Return"
  else if negb (forallb (λ p, returnable p.1 p.2) (zip rets (mt_out mt)))
  then Fatalf "wrong type of argument to Return"
  else
    let rets := zip_with assigned rets (mt_out mt) in
    _ ← store id (mk_call (c_receiver call) (c_method call) mt (c_args call) (c_preReqs call) (c_minCalls call)
           (c_maxCalls call) (c_numCalls call)
           (c_actions call ++ [λ _, if is_nil rets then None else Some rets]));
    mret id.

Definition Times (id : call_id) (n : Z) : gomock call_id :=
  call ← deref id;
  _ ← store id (mk_call (c_receiver call) (c_method call) (c_type call) (c_args call) (c_preReqs call) n n
         (c_numCalls call) (c_actions call));
  mret id.

(** ** Making a call *)

(** The loop of [matches] over the matchers, from position [i]. *)
Fixpoint match_args (mt : methodtype) (i : nat) (ms : list matcher) (args : list any) : result bool :=
  match ms with
  | [] => Ok true
  | m :: ms =>
      let fixed := negb (IsVariadic mt) || bool_decide (i < NumIn mt - 1) in
      match args with
      | a :: args' =>
          if Matches m a then match_args mt (S i) ms args'
          else if fixed then Ok false
          else if existsb (λ x, bool_decide (x = nil_any)) args then Panic "reflect: call of Append on zero Value"
          else Ok (Matches m (dyn (TSlice (default (TFunc "") (mt_variadic mt))) (elements (anys_of args))))
      | [] =>
          if fixed then Panic "index out of range"
          else Ok (Matches m (dyn (TSlice (default (TFunc "") (mt_variadic mt))) (elements no_any)))
      end
  end.

(** The counts that [matches] asks for first. *)
Definition counts_match (call : mock_call) (args : list any) : bool :=
  let mt := c_type call in
  let nm := length (c_args call) in
  if negb (IsVariadic mt) then bool_decide (length args = nm)
  else negb (bool_decide (nm < NumIn mt - 1))
    && negb (negb (bool_decide (nm = NumIn mt)) && negb (bool_decide (length args = nm)))
    && negb (bool_decide (length args < nm - 1)).

Fixpoint all_satisfied (ids : list call_id) : gomock bool :=
  match ids with
  | [] => mret true
  | id :: ids => call ← deref id; if satisfied call then all_satisfied ids else mret false
  end.

Definition matches (call : mock_call) (args : list any) : gomock bool :=
  if negb (counts_match call args) then mret false
  else match match_args (c_type call) 0 (c_args call) args with
  | Panic w => Fatalf w
  | Err _ | Ok false => mret false
  | Ok true =>
      ok ← all_satisfied (c_preReqs call);
      mret (ok && negb (call_exhausted call))
  end.

Fixpoint find_match (ids : list call_id) (args : list any) : gomock (option call_id) :=
  match ids with
  | [] => mret None
  | id :: ids =>
      call ← deref id;
      m ← matches call args;
      if (m : bool) then mret (Some id) else find_match ids args
  end.

(** The search among the exhausted calls is for the message only. *)
Fixpoint explain (ids : list call_id) (args : list any) : gomock unit :=
  match ids with
  | [] => mret tt
  | id :: ids => call ← deref id; _ ← matches call args; explain ids args
  end.

Definition FindMatch (recv : pointer) (method : string) (args : list any) : gomock (option call_id) := λ c,
  (found ← find_match (calls_at (ctrl_expected c) (recv, method)) args;
   match found with
   | Some id => mret (Some id)
   | None => _ ← explain (calls_at (ctrl_exhausted c) (recv, method)) args; mret None
   end) c.

Definition dropPrereqs (id : call_id) : gomock (list call_id) :=
  call ← deref id;
  _ ← store id (mk_call (c_receiver call) (c_method call) (c_type call) (c_args call) [] (c_minCalls call)
         (c_maxCalls call) (c_numCalls call) (c_actions call));
  mret (c_preReqs call).

Fixpoint remove_all (ids : list call_id) : gomock unit :=
  match ids with [] => mret tt | id :: ids => _ ← callSet_Remove id; remove_all ids end.

Definition call_call (id : call_id) : gomock (list action) :=
  call ← deref id;
  _ ← store id (mk_call (c_receiver call) (c_method call) (c_type call) (c_args call) (c_preReqs call)
         (c_minCalls call) (c_maxCalls call) (c_numCalls call + 1) (c_actions call));
  mret (c_actions call).

Definition run_actions (actions : list action) (args : list any) : list any :=
  default [] (foldl (λ rets f, match f args with Some r => Some r | None => rets end) None actions).

Definition Controller_Call (recv : pointer) (method : string) (args : list any) : gomock (list any) :=
  found ← FindMatch recv method args;
  match found with
  | None => Fatalf ("Unexpected call to " +:+ fst recv +:+ "." +:+ method)
  | Some expected =>
      preReqCalls ← dropPrereqs expected;
      _ ← remove_all preReqCalls;
      actions ← call_call expected;
      call ← deref expected;
      _ ← (if call_exhausted call then callSet_Remove expected else mret tt);
      mret (run_actions actions args)
  end.
End with_types.

(** The calls that are still to be made. *)
Definition Failures (c : controller) : list call_id :=
  List.filter (λ id, match ctrl_heap c !! id with Some call => negb (satisfied call) | None => false end)
    (concat (map_to_list (ctrl_expected c)).*2).

(** ** Facts on the controller *)

Lemma elem_of_Failures c id :
  id ∈ Failures c ↔ ∃ key ids call, ctrl_expected c !! key = Some ids ∧ id ∈ ids ∧
    ctrl_heap c !! id = Some call ∧ satisfied call = false.
Proof.
  unfold Failures. rewrite list_elem_of_In, List.filter_In, in_concat. split.
  - intros [(ids & Hids & Hin) Hs]. apply list_elem_of_In, list_elem_of_fmap in Hids as ([key ids'] & -> & Hk).
    apply elem_of_map_to_list in Hk. destruct (ctrl_heap c !! id) as [call|] eqn:Hc; [|done].
    exists key, ids', call. rewrite list_elem_of_In. split_and!; [done..|]. by destruct (satisfied call).
  - intros (key & ids & call & Hk & Hin & -> & ->). split; [|done]. exists ids. rewrite <-!list_elem_of_In.
    split; [|done]. apply list_elem_of_fmap. exists (key, ids). by rewrite elem_of_map_to_list.
Qed.

(** Pointers are allocated in order. *)
Definition controller_wf (c : controller) : Prop :=
  ∀ key ids id, ctrl_expected c !! key = Some ids → id ∈ ids → id < ctrl_next c.

(** Nothing is expected of the method of a mock. *)
Definition nothing_expected (c : controller) (recv : pointer) (method : string) : Prop :=
  calls_at (ctrl_expected c) (recv, method) = [].

(** What a test and a method do at a state. *)
Definition fails {A} (r : result A) : Prop := ∃ why, r = Panic why.

Definition with_expected (c : controller) (key : callSetKey) (id : call_id) (call : mock_call) : controller :=
  mk_ctrl (<[id := call]> (ctrl_heap c)) (S id) (ctrl_mocks c)
    (<[key := calls_at (ctrl_expected c) key ++ [id]]> (ctrl_expected c)) (ctrl_exhausted c).

Lemma RecordCall_run c recv method mt es :
  RecordCallWithMethodType recv method mt es c =
  Ok (ctrl_next c, with_expected c (recv, method) (ctrl_next c) (newCall recv method mt es)).
Proof.
  unfold RecordCallWithMethodType, callSet_Add, alloc, deref, mbind, gomock_bind. cbn.
  by rewrite lookup_insert_eq.
Qed.

Section facts.
Context `{Reflect}.

Definition told (call : mock_call) (rets : list any) : mock_call :=
  mk_call (c_receiver call) (c_method call) (c_type call) (c_args call) (c_preReqs call) (c_minCalls call)
    (c_maxCalls call) (c_numCalls call) (c_actions call ++ [λ _, if is_nil rets then None else Some rets]).

Lemma Return_run c key id call rets :
  Forall2 holds (mt_out (c_type call)) rets →
  Return id rets (with_expected c key id call) = Ok (id, with_expected c key id (told call rets)).
Proof.
  intros Hr. unfold Return, deref, store, mbind, gomock_bind. cbn. rewrite lookup_insert_eq.
  rewrite bool_decide_true by (symmetry; by eapply Forall2_length). cbn [negb].
  assert (forallb (λ p : any * gotype, returnable p.1 p.2) (zip rets (mt_out (c_type call))) = true) as ->.
  { induction Hr as [|t x ts xs Ht _ IH]; [done|]. cbn. rewrite IH, andb_true_r.
    unfold holds, returnable in *. destruct x as [|t' v]; [by rewrite Ht|].
    destruct (decide (ty_kind t = KInterface)); [by rewrite Ht, orb_true_r|]. by rewrite bool_decide_true. }
  assert (zip_with assigned rets (mt_out (c_type call)) = rets) as ->.
  { induction Hr as [|t x ts xs Ht _ IH]; [done|]. cbn. rewrite IH. f_equal. unfold holds, assigned in *.
    destruct x as [|t' v]; [done|]. by destruct (ty_kind t) eqn:Hk; cbn in Ht; try rewrite Ht. }
  cbn. unfold with_expected. cbn. by rewrite insert_insert_eq.
Qed.

(** The arguments a method passes: as many as it has parameters, and any
    number for a variadic one. *)
Definition arity_ok (mt : methodtype) (xs : list any) : Prop :=
  if mt_variadic mt then length (mt_in mt) ≤ length xs else length xs = length (mt_in mt).

Lemma match_args_accepts mt es xs i :
  Forall2 accepts es xs → match_args mt i (matcher_of <$> es) xs = Ok true.
Proof.
  intros Hes. revert i. induction Hes as [|e x es xs He _ IH]; intros i; [done|]. cbn.
  unfold accepts in He. rewrite He. apply IH.
Qed.

Lemma counts_accept recv method mt es xs :
  Forall2 accepts es xs → arity_ok mt xs → counts_match (newCall recv method mt es) xs = true.
Proof.
  intros Hes%Forall2_length Ha. unfold counts_match, arity_ok, newCall, IsVariadic, NumIn in *. cbn.
  rewrite length_fmap. destruct (mt_variadic mt); cbn; [|apply bool_decide_true; lia].
  rewrite (bool_decide_true (length xs = length es)) by lia. rewrite (bool_decide_false (length xs < _)) by lia.
  rewrite bool_decide_false by lia. by destruct (bool_decide _).
Qed.

Lemma matches_run c recv method mt es xs rets :
  Forall2 accepts es xs → arity_ok mt xs →
  matches (told (newCall recv method mt es) rets) xs c = Ok (true, c).
Proof.
  intros Hes Ha. unfold matches.
  assert (counts_match (told (newCall recv method mt es) rets) xs = true) as -> by by eapply counts_accept.
  cbn. by rewrite match_args_accepts.
Qed.

Definition made (call : mock_call) : mock_call :=
  mk_call (c_receiver call) (c_method call) (c_type call) (c_args call) [] (c_minCalls call)
    (c_maxCalls call) (c_numCalls call + 1) (c_actions call).

Lemma run_actions_told mt recv method es xs rets :
  length rets = length (mt_out mt) → run_actions (c_actions (told (newCall recv method mt es) rets)) xs = rets.
Proof. intros Hl. unfold run_actions. cbn. destruct rets; [|done]. cbn. by destruct (mt_out mt). Qed.

Definition after_call (c : controller) (recv : pointer) (method : string) (call : mock_call) : controller :=
  let key := (recv, method) in
  mk_ctrl (<[ctrl_next c := made call]> (ctrl_heap c)) (S (ctrl_next c)) (ctrl_mocks c)
    (<[key := []]> (ctrl_expected c))
    (<[key := calls_at (ctrl_exhausted c) key ++ [ctrl_next c]]> (ctrl_exhausted c)).

Lemma Call_run c recv method mt es xs rets :
  Forall2 accepts es xs → arity_ok mt xs → length rets = length (mt_out mt) → nothing_expected c recv method →
  let call := told (newCall recv method mt es) rets in
  Controller_Call recv method xs (with_expected c (recv, method) (ctrl_next c) call) =
  Ok (rets, after_call c recv method call).
Proof.
  intros Hes Ha Hl Hnone call. set (key := (recv, method)). set (id := ctrl_next c). set (c1 := with_expected c key id call).
  assert (calls_at (ctrl_expected c1) key = [id]) as Hexp.
  { unfold calls_at at 1, c1. cbn. rewrite lookup_insert_eq. cbn. unfold key. by rewrite Hnone. }
  assert (ctrl_heap c1 !! id = Some call) as Hheap by apply lookup_insert_eq.
  assert (FindMatch recv method xs c1 = Ok (Some id, c1)) as Hfind.
  { unfold FindMatch. fold key. rewrite Hexp.
    rewrite (gomock_bind_Ok _ _ _ (Some id) c1); [done|]. cbn [find_match].
    rewrite (gomock_bind_Ok _ _ _ call c1) by (unfold deref; by rewrite Hheap).
    by rewrite (gomock_bind_Ok _ _ _ true c1) by by apply matches_run. }
  unfold Controller_Call. rewrite (gomock_bind_Ok _ _ _ _ _ Hfind). cbn beta iota.
  unfold dropPrereqs, call_call, deref, store, mbind, gomock_bind. rewrite Hheap. cbn.
  repeat (rewrite !lookup_insert_eq; cbn).
  unfold call_exhausted. cbn [c_maxCalls c_numCalls]. change (1 <=? 0 + 1)%Z with true. cbn iota.
  unfold callSet_Remove, deref, mbind, gomock_bind. cbn. rewrite lookup_insert_eq. cbn.
  unfold on_ctrl. cbn. fold key.
  match goal with |- context [remove_first id ?l] => replace l with [id] by (symmetry; exact Hexp) end. cbn.
  rewrite bool_decide_true by done. cbn. unfold after_call. rewrite !insert_insert_eq.
  unfold mret, gomock_ret. do 2 f_equal. by apply (run_actions_told mt recv method es xs).
Qed.
End facts.

Section unexpected.
Context `{Reflect}.

(** [matches] changes nothing and may only fail. *)
Lemma all_satisfied_pure ids c : (∃ b, all_satisfied ids c = Ok (b, c)) ∨ fails (all_satisfied ids c).
Proof.
  induction ids as [|id ids IH]; [left; by eexists|]. cbn. unfold deref, mbind, gomock_bind.
  destruct (ctrl_heap c !! id) as [call|]; [|right; by eexists]. destruct (satisfied call); [done|].
  left. by eexists.
Qed.

Lemma matches_pure call xs c : (∃ b, matches call xs c = Ok (b, c)) ∨ fails (matches call xs c).
Proof.
  unfold matches. destruct (counts_match call xs); [|left; by eexists]. cbn.
  destruct (match_args _ _ _ _) as [[]|e|w]; [|left; by eexists..|right; by eexists].
  destruct (all_satisfied_pure (c_preReqs call) c) as [[b Hb]|[w Hw]].
  - left. eexists. by rewrite (gomock_bind_Ok _ _ _ _ _ Hb).
  - right. exists w. unfold mbind, gomock_bind. by rewrite Hw.
Qed.

Lemma explain_pure ids xs c : explain ids xs c = Ok (tt, c) ∨ fails (explain ids xs c).
Proof.
  induction ids as [|id ids IH]; [by left|]. cbn [explain].
  destruct (ctrl_heap c !! id) as [call|] eqn:Hc.
  - rewrite (gomock_bind_Ok _ _ _ call c) by (unfold deref; by rewrite Hc).
    destruct (matches_pure call xs c) as [[b Hb]|[w Hw]].
    + by rewrite (gomock_bind_Ok _ _ _ _ _ Hb).
    + right. exists w. unfold mbind, gomock_bind. by rewrite Hw.
  - right. eexists. unfold mbind, gomock_bind, deref. by rewrite Hc.
Qed.

(** A call that nothing expects ends the test. *)
Lemma Call_unexpected c recv method xs :
  nothing_expected c recv method → fails (Controller_Call recv method xs c).
Proof.
  intros Hn. unfold Controller_Call.
  assert (FindMatch recv method xs c = Ok (None, c) ∨ fails (FindMatch recv method xs c)) as [Hf|[w Hf]].
  { unfold FindMatch. rewrite Hn. cbn [find_match]. rewrite (gomock_bind_Ok _ _ _ None c) by done.
    destruct (explain_pure (calls_at (ctrl_exhausted c) (recv, method)) xs c) as [He|[w He]].
    - left. by rewrite (gomock_bind_Ok _ _ _ _ _ He).
    - right. exists w. unfold mbind, gomock_bind. by rewrite He. }
  - rewrite (gomock_bind_Ok _ _ _ _ _ Hf). by eexists.
  - exists w. unfold mbind, gomock_bind. by rewrite Hf.
Qed.

(** Expecting, telling, calling. *)
Lemma expect_call c recv method mt es xs rets :
  controller_wf c → nothing_expected c recv method → Forall2 accepts es xs → arity_ok mt xs →
  Forall2 holds (mt_out mt) rets →
  ∃ id c1 c2 c3,
    RecordCallWithMethodType recv method mt es c = Ok (id, c1) ∧ Return id rets c1 = Ok (id, c2) ∧
    id ∈ Failures c2 ∧ Controller_Call recv method xs c2 = Ok (rets, c3) ∧
    (∀ id', id' ∈ Failures c3 ↔ id' ∈ Failures c) ∧ nothing_expected c3 recv method.
Proof.
  intros Hwf Hn Hes Ha Hr. pose proof (Forall2_length _ _ _ Hr) as Hl.
  exists (ctrl_next c). do 3 eexists. split; [apply RecordCall_run|]. split; [by apply Return_run|].
  split; [|split; [by apply Call_run|split]].
  - apply elem_of_Failures. exists (recv, method), (calls_at (ctrl_expected c) (recv, method) ++ [ctrl_next c]).
    eexists. split_and!; [apply lookup_insert_eq|apply elem_of_app; right; by left|apply lookup_insert_eq|done].
  - intros id'. rewrite !elem_of_Failures. cbn. set (key := (recv, method)).
    assert (∀ ids, ctrl_expected c !! key = Some ids → ids = []) as Hkey.
    { intros ids Hids. unfold nothing_expected, calls_at in Hn. fold key in Hn. by rewrite Hids in Hn. }
    split; intros (k & ids & call & Hk & Hin & Hc & Hs); exists k, ids, call.
    + apply lookup_insert_Some in Hk as [[_ <-]|[Hne Hk]]; [by apply not_elem_of_nil in Hin|].
      rewrite lookup_insert_ne in Hc; [done|]. pose proof (Hwf k ids id' Hk Hin). lia.
    + rewrite lookup_insert_ne, lookup_insert_ne; [done| |].
      * pose proof (Hwf k ids id' Hk Hin). lia.
      * intros <-. rewrite (Hkey ids Hk) in Hin. by apply not_elem_of_nil in Hin.
  - unfold nothing_expected, calls_at, after_call. cbn. by rewrite lookup_insert_eq.
Qed.
End unexpected.

(** ** Mocked methods *)

(** A mock of a type is a pointer; its recorder points back at it. *)
Inductive mock (name : string) := mk_mock (addr : nat).
Arguments mk_mock {_} _.
Record recorder (name : string) := mk_recorder { rec_mock : mock name }.
Arguments mk_recorder {_} _.
Arguments rec_mock {_} _.

Definition pointer_of {name} (m : mock name) : pointer := (name, match m with mk_mock a => a end).

Definition new_mock {name} : gomock (mock name) := on_ctrl (λ c,
  Ok (mk_mock (ctrl_mocks c),
      mk_ctrl (ctrl_heap c) (ctrl_next c) (S (ctrl_mocks c)) (ctrl_expected c) (ctrl_exhausted c))).

(** The Go function types: of a method, and of its recorder. *)
Fixpoint go_fn (ins : list gotype) (variadic : option gotype) (R : Type) : Type :=
  match ins with
  | [] => match variadic with None => R | Some t => list (goval t) → R end
  | t :: ins => goval t → go_fn ins variadic R
  end.
Fixpoint go_rets (outs : list gotype) : Set :=
  match outs with
  | [] => unit
  | t :: outs' => match outs' with [] => goval t | _ => goval t * go_rets outs' end
  end.
Definition method_of (mt : methodtype) : Type := go_fn (mt_in mt) (mt_variadic mt) (gomock (go_rets (mt_out mt))).

Fixpoint recorder_fn (ins : list gotype) (variadic : option gotype) (R : Type) : Type :=
  match ins with
  | [] => match variadic with None => R | Some _ => list expected_arg → R end
  | _ :: ins => expected_arg → recorder_fn ins variadic R
  end.
Definition recorder_of (mt : methodtype) : Type := recorder_fn (mt_in mt) (mt_variadic mt) (gomock call_id).

(** [ret[i]] *)
Definition index (ret : list any) (i : nat) : gomock any :=
  match ret !! i with Some x => mret x | None => Fatalf "index out of range" end.

(** Their arguments, and applying them. *)
Fixpoint go_args (ins : list gotype) (variadic : option gotype) : Set :=
  match ins with
  | [] => match variadic with None => unit | Some t => list (goval t) end
  | t :: ins => goval t * go_args ins variadic
  end.
Fixpoint apply_fn {ins variadic R} : go_fn ins variadic R → go_args ins variadic → R :=
  match ins return go_fn ins variadic R → go_args ins variadic → R with
  | [] => match variadic return go_fn [] variadic R → go_args [] variadic → R with
          | None => λ f _, f
          | Some _ => λ f xs, f xs
          end
  | _ :: ins => λ f xs, apply_fn (f xs.1) xs.2
  end.
Fixpoint anys_of_args {ins variadic} : go_args ins variadic → list any :=
  match ins return go_args ins variadic → list any with
  | [] => match variadic return go_args [] variadic → list any with
          | None => λ _, []
          | Some t => λ xs, to_any t <$> xs
          end
  | t :: ins => λ xs, to_any t xs.1 :: anys_of_args xs.2
  end.

Fixpoint rec_args (ins : list gotype) (variadic : option gotype) : Type :=
  match ins with
  | [] => match variadic with None => unit | Some _ => list expected_arg end
  | _ :: ins => expected_arg * rec_args ins variadic
  end.
Fixpoint apply_recorder {ins variadic R} : recorder_fn ins variadic R → rec_args ins variadic → R :=
  match ins return recorder_fn ins variadic R → rec_args ins variadic → R with
  | [] => match variadic return recorder_fn [] variadic R → rec_args [] variadic → R with
          | None => λ f _, f
          | Some _ => λ f es, f es
          end
  | _ :: ins => λ f es, apply_recorder (f es.1) es.2
  end.
Fixpoint list_of_args {ins variadic} : rec_args ins variadic → list expected_arg :=
  match ins return rec_args ins variadic → list expected_arg with
  | [] => match variadic return rec_args [] variadic → list expected_arg with
          | None => λ _, []
          | Some _ => λ es, es
          end
  | _ :: ins => λ es, es.1 :: list_of_args es.2
  end.

(** The results as values behind [interface{}], and back. *)
Fixpoint anys_of_rets {outs} : go_rets outs → list any :=
  match outs return go_rets outs → list any with
  | [] => λ _, []
  | t :: outs' =>
      match outs' as l return (go_rets l → list any) → go_rets (t :: l) → list any with
      | [] => λ _ r, [to_any t r]
      | _ => λ rest r, to_any t r.1 :: rest r.2
      end anys_of_rets
  end.

Section rets.
Context `{Reflect}.
Fixpoint rets_of_anys (outs : list gotype) (ret : list any) : result (go_rets outs) :=
  match outs return result (go_rets outs) with
  | [] => Ok tt
  | t :: outs' =>
      match ret with
      | [] => Panic "index out of range"
      | x :: ret =>
          match outs' as l return result (go_rets l) → result (go_rets (t :: l)) with
          | [] => λ _, Ok (type_assert t x)
          | _ => λ rest, r ← rest; Ok (type_assert t x, r)
          end (rets_of_anys outs' ret)
      end
  end.

Lemma rets_roundtrip outs (r : go_rets outs) :
  Forall2 holds outs (anys_of_rets r) → rets_of_anys outs (anys_of_rets r) = Ok r.
Proof.
  induction outs as [|t outs IH]; intros Hh; [by destruct r|].
  destruct outs as [|t' outs]; cbn [anys_of_rets rets_of_anys] in *.
  - apply Forall2_cons in Hh as [Hh _]. by rewrite type_assert_to_any.
  - destruct r as [x r]. cbn [fst snd] in *. apply Forall2_cons in Hh as [Hh Hr].
    specialize (IH r Hr). cbn [anys_of_rets rets_of_anys] in IH. rewrite IH. cbn.
    by rewrite type_assert_to_any.
Qed.
End rets.

Lemma anys_of_args_arity mt (xs : go_args (mt_in mt) (mt_variadic mt)) : arity_ok mt (anys_of_args xs).
Proof.
  destruct mt as [ins variadic outs]. unfold arity_ok. cbn in *.
  induction ins as [|t ins IH]; cbn; [by destruct variadic; cbn; [lia|]|].
  specialize (IH xs.2). destruct variadic; cbn in *; lia.
Qed.
