(* ===== verification/Mocks.v ===== *)
(** * The generated mocks

    Every mock_*.go: each method of a mock, and of its recorder, as mockgen
    writes them, over the controller of [Gomock].  A method has the Go type
    that reflection reports for it ([.._type]), and its recorder takes a
    matcher or a value for each parameter. *)

From S2P Require Import Prelude Gomock.
From stdpp Require Import options.

(** ** The types in the signatures *)

Definition api_ModuleLoaderData : gotype := TNamed "internal/api.ModuleLoaderData" KOther.
Definition appsv1_DaemonSet : gotype := TNamed "k8s.io/api/apps/v1.DaemonSet" KOther.
Definition auth_RegistryAuthGetter : gotype := TNamed "internal/auth.RegistryAuthGetter" KInterface.
Definition authn_Authenticator : gotype := TNamed "github.com/google/go-containerregistry/pkg/authn.Authenticator" KInterface.
Definition authn_Keychain : gotype := TNamed "github.com/google/go-containerregistry/pkg/authn.Keychain" KInterface.
Definition batchv1_Job : gotype := TNamed "k8s.io/api/batch/v1.Job" KOther.
Definition bool_ : gotype := TNamed "bool" KOther.
Definition buildv1_Build : gotype := TNamed "github.com/openshift/api/build/v1.Build" KOther.
Definition byte_ : gotype := TNamed "byte" KOther.
Definition ca_ConfigMap : gotype := TNamed "internal/ca.ConfigMap" KOther.
Definition client_CreateOption : gotype := TNamed "sigs.k8s.io/controller-runtime/pkg/client.CreateOption" KInterface.
Definition client_DeleteAllOfOption : gotype := TNamed "sigs.k8s.io/controller-runtime/pkg/client.DeleteAllOfOption" KInterface.
Definition client_DeleteOption : gotype := TNamed "sigs.k8s.io/controller-runtime/pkg/client.DeleteOption" KInterface.
Definition client_GetOption : gotype := TNamed "sigs.k8s.io/controller-runtime/pkg/client.GetOption" KInterface.
Definition client_ListOption : gotype := TNamed "sigs.k8s.io/controller-runtime/pkg/client.ListOption" KInterface.
Definition client_Object : gotype := TNamed "sigs.k8s.io/controller-runtime/pkg/client.Object" KInterface.
Definition client_ObjectList : gotype := TNamed "sigs.k8s.io/controller-runtime/pkg/client.ObjectList" KInterface.
Definition client_Patch : gotype := TNamed "sigs.k8s.io/controller-runtime/pkg/client.Patch" KInterface.
Definition client_PatchOption : gotype := TNamed "sigs.k8s.io/controller-runtime/pkg/client.PatchOption" KInterface.
Definition client_StatusWriter : gotype := TNamed "sigs.k8s.io/controller-runtime/pkg/client.StatusWriter" KInterface.
Definition client_UpdateOption : gotype := TNamed "sigs.k8s.io/controller-runtime/pkg/client.UpdateOption" KInterface.
Definition clusterv1_ManagedCluster : gotype := TNamed "open-cluster-management.io/api/cluster/v1.ManagedCluster" KOther.
Definition clusterv1_ManagedClusterList : gotype := TNamed "open-cluster-management.io/api/cluster/v1.ManagedClusterList" KOther.
Definition context_Context : gotype := TNamed "context.Context" KInterface.
Definition corev1_Node : gotype := TNamed "k8s.io/api/core/v1.Node" KOther.
Definition corev1_Pod : gotype := TNamed "k8s.io/api/core/v1.Pod" KOther.
Definition crtypes_MediaType : gotype := TNamed "github.com/google/go-containerregistry/pkg/v1/types.MediaType" KOther.
Definition crv1_Image : gotype := TNamed "github.com/google/go-containerregistry/pkg/v1.Image" KInterface.
Definition crv1_Layer : gotype := TNamed "github.com/google/go-containerregistry/pkg/v1.Layer" KInterface.
Definition error_ : gotype := TNamed "error" KInterface.
Definition hubv1beta1_ManagedClusterModule : gotype := TNamed "api-hub/v1beta1.ManagedClusterModule" KOther.
Definition int64_ : gotype := TNamed "int64" KOther.
Definition int_ : gotype := TNamed "int" KOther.
Definition interface_ : gotype := TNamed "interface {}" KInterface.
Definition io_Reader : gotype := TNamed "io.Reader" KInterface.
Definition k8stypes_NamespacedName : gotype := TNamed "k8s.io/apimachinery/pkg/types.NamespacedName" KOther.
Definition meta_RESTMapper : gotype := TNamed "k8s.io/apimachinery/pkg/api/meta.RESTMapper" KInterface.
Definition metav1_Object : gotype := TNamed "k8s.io/apimachinery/pkg/apis/meta/v1.Object" KInterface.
Definition registry_RepoPullConfig : gotype := TNamed "internal/registry.RepoPullConfig" KOther.
Definition runtime_Scheme : gotype := TNamed "k8s.io/apimachinery/pkg/runtime.Scheme" KOther.
Definition sets_String : gotype := TNamed "k8s.io/apimachinery/pkg/util/sets.String" KMap.
Definition string_ : gotype := TNamed "string" KOther.
Definition tar_Header : gotype := TNamed "archive/tar.Header" KOther.
Definition utils_Status : gotype := TNamed "internal/utils.Status" KOther.
Definition v1beta1_Build : gotype := TNamed "api/v1beta1.Build" KOther.
Definition v1beta1_BuildArg : gotype := TNamed "api/v1beta1.BuildArg" KOther.
Definition v1beta1_KernelMapping : gotype := TNamed "api/v1beta1.KernelMapping" KOther.
Definition v1beta1_Module : gotype := TNamed "api/v1beta1.Module" KOther.
Definition v1beta1_PreflightValidation : gotype := TNamed "api/v1beta1.PreflightValidation" KOther.
Definition v1beta1_PreflightValidationOCP : gotype := TNamed "api/v1beta1.PreflightValidationOCP" KOther.
Definition v1beta1_Sign : gotype := TNamed "api/v1beta1.Sign" KOther.
Definition v1beta1_TLSOptions : gotype := TNamed "api/v1beta1.TLSOptions" KOther.
Definition workv1_ManifestWork : gotype := TNamed "open-cluster-management.io/api/work/v1.ManifestWork" KOther.
Definition workv1_ManifestWorkList : gotype := TNamed "open-cluster-management.io/api/work/v1.ManifestWorkList" KOther.

Section mocks.
Context `{Reflect}.

(** ** controllers/mock_module_reconciler.go *)

Definition MockmoduleReconcilerHelperAPI : Type := mock "controllers.MockmoduleReconcilerHelperAPI".
Definition MockmoduleReconcilerHelperAPIMockRecorder : Type := recorder "controllers.MockmoduleReconcilerHelperAPI".
Definition NewMockmoduleReconcilerHelperAPI : gomock MockmoduleReconcilerHelperAPI := new_mock.
Definition MockmoduleReconcilerHelperAPI_EXPECT (m : MockmoduleReconcilerHelperAPI) : MockmoduleReconcilerHelperAPIMockRecorder := mk_recorder m.

Definition MockmoduleReconcilerHelperAPI_garbageCollect_type : methodtype :=
  mk_mt [context_Context; TPtr v1beta1_Module; TMap string_ (TPtr api_ModuleLoaderData); TMap string_ (TPtr appsv1_DaemonSet)] None [error_].
Definition MockmoduleReconcilerHelperAPI_garbageCollect (m : MockmoduleReconcilerHelperAPI) : method_of MockmoduleReconcilerHelperAPI_garbageCollect_type :=
  λ ctx mod_ mldMappings existingDS,
    ret ← Controller_Call (pointer_of m) "garbageCollect"
           [to_any context_Context ctx; to_any (TPtr v1beta1_Module) mod_; to_any (TMap string_ (TPtr api_ModuleLoaderData)) mldMappings; to_any (TMap string_ (TPtr appsv1_DaemonSet)) existingDS];
    ret0 ← index ret 0;
    mret (type_assert error_ ret0).
Definition MockmoduleReconcilerHelperAPIMockRecorder_garbageCollect (mr : MockmoduleReconcilerHelperAPIMockRecorder) : recorder_of MockmoduleReconcilerHelperAPI_garbageCollect_type :=
  λ ctx mod_ mldMappings existingDS,
    RecordCallWithMethodType (pointer_of (rec_mock mr)) "garbageCollect" MockmoduleReconcilerHelperAPI_garbageCollect_type
       [ctx; mod_; mldMappings; existingDS].

Definition MockmoduleReconcilerHelperAPI_getNodesListBySelector_type : methodtype :=
  mk_mt [context_Context; TPtr v1beta1_Module] None [TSlice corev1_Node; error_].
Definition MockmoduleReconcilerHelperAPI_getNodesListBySelector (m : MockmoduleReconcilerHelperAPI) : method_of MockmoduleReconcilerHelperAPI_getNodesListBySelector_type :=
  λ ctx mod_,
    ret ← Controller_Call (pointer_of m) "getNodesListBySelector"
           [to_any context_Context ctx; to_any (TPtr v1beta1_Module) mod_];
    ret0 ← index ret 0;
    ret1 ← index ret 1;
    mret (type_assert (TSlice corev1_Node) ret0, type_assert error_ ret1).
Definition MockmoduleReconcilerHelperAPIMockRecorder_getNodesListBySelector (mr : MockmoduleReconcilerHelperAPIMockRecorder) : recorder_of MockmoduleReconcilerHelperAPI_getNodesListBySelector_type :=
  λ ctx mod_,
    RecordCallWithMethodType (pointer_of (rec_mock mr)) "getNodesListBySelector" MockmoduleReconcilerHelperAPI_getNodesListBySelector_type
       [ctx; mod_].

Definition MockmoduleReconcilerHelperAPI_getRelevantKernelMappingsAndNodes_type : methodtype :=
  mk_mt [context_Context; TPtr v1beta1_Module; TSlice corev1_Node] None [TMap string_ (TPtr api_ModuleLoaderData); TSlice corev1_Node; error_].
Definition MockmoduleReconcilerHelperAPI_getRelevantKernelMappingsAndNodes (m : MockmoduleReconcilerHelperAPI) : method_of MockmoduleReconcilerHelperAPI_getRelevantKernelMappingsAndNodes_type :=
  λ ctx mod_ targetedNodes,
    ret ← Controller_Call (pointer_of m) "getRelevantKernelMappingsAndNodes"
           [to_any context_Context ctx; to_any (TPtr v1beta1_Module) mod_; to_any (TSlice corev1_Node) targetedNodes];
    ret0 ← index ret 0;
    ret1 ← index ret 1;
    ret2 ← index ret 2;
    mret (type_assert (TMap string_ (TPtr api_ModuleLoaderData)) ret0, (type_assert (TSlice corev1_Node) ret1, type_assert error_ ret2)).
Definition MockmoduleReconcilerHelperAPIMockRecorder_getRelevantKernelMappingsAndNodes (mr : MockmoduleReconcilerHelperAPIMockRecorder) : recorder_of MockmoduleReconcilerHelperAPI_getRelevantKernelMappingsAndNodes_type :=
  λ ctx mod_ targetedNodes,
    RecordCallWithMethodType (pointer_of (rec_mock mr)) "getRelevantKernelMappingsAndNodes" MockmoduleReconcilerHelperAPI_getRelevantKernelMappingsAndNodes_type
       [ctx; mod_; targetedNodes].

Definition MockmoduleReconcilerHelperAPI_getRequestedModule_type : methodtype :=
  mk_mt [context_Context; k8stypes_NamespacedName] None [TPtr v1beta1_Module; error_].
Definition MockmoduleReconcilerHelperAPI_getRequestedModule (m : MockmoduleReconcilerHelperAPI) : method_of MockmoduleReconcilerHelperAPI_getRequestedModule_type :=
  λ ctx namespacedName,
    ret ← Controller_Call (pointer_of m) "getRequestedModule"
           [to_any context_Context ctx; to_any k8stypes_NamespacedName namespacedName];
    ret0 ← index ret 0;
    ret1 ← index ret 1;
    mret (type_assert (TPtr v1beta1_Module) ret0, type_assert error_ ret1).
Definition MockmoduleReconcilerHelperAPIMockRecorder_getRequestedModule (mr : MockmoduleReconcilerHelperAPIMockRecorder) : recorder_of MockmoduleReconcilerHelperAPI_getRequestedModule_type :=
  λ ctx namespacedName,
    RecordCallWithMethodType (pointer_of (rec_mock mr)) "getRequestedModule" MockmoduleReconcilerHelperAPI_getRequestedModule_type
       [ctx; namespacedName].

Definition MockmoduleReconcilerHelperAPI_handleBuild_type : methodtype :=
  mk_mt [context_Context; TPtr api_ModuleLoaderData] None [bool_; error_].
Definition MockmoduleReconcilerHelperAPI_handleBuild (m : MockmoduleReconcilerHelperAPI) : method_of MockmoduleReconcilerHelperAPI_handleBuild_type :=
  λ ctx mld,
    ret ← Controller_Call (pointer_of m) "handleBuild"
           [to_any context_Context ctx; to_any (TPtr api_ModuleLoaderData) mld];
    ret0 ← index ret 0;
    ret1 ← index ret 1;
    mret (type_assert bool_ ret0, type_assert error_ ret1).
Definition MockmoduleReconcilerHelperAPIMockRecorder_handleBuild (mr : MockmoduleReconcilerHelperAPIMockRecorder) : recorder_of MockmoduleReconcilerHelperAPI_handleBuild_type :=
  λ ctx mld,
    RecordCallWithMethodType (pointer_of (rec_mock mr)) "handleBuild" MockmoduleReconcilerHelperAPI_handleBuild_type
       [ctx; mld].

Definition MockmoduleReconcilerHelperAPI_handleDevicePlugin_type : methodtype :=
  mk_mt [context_Context; TPtr v1beta1_Module] None [error_].
Definition MockmoduleReconcilerHelperAPI_handleDevicePlugin (m : MockmoduleReconcilerHelperAPI) : method_of MockmoduleReconcilerHelperAPI_handleDevicePlugin_type :=
  λ ctx mod_,
    ret ← Controller_Call (pointer_of m) "handleDevicePlugin"
           [to_any context_Context ctx; to_any (TPtr v1beta1_Module) mod_];
    ret0 ← index ret 0;
    mret (type_assert error_ ret0).
Definition MockmoduleReconcilerHelperAPIMockRecorder_handleDevicePlugin (mr : MockmoduleReconcilerHelperAPIMockRecorder) : recorder_of MockmoduleReconcilerHelperAPI_handleDevicePlugin_type :=
  λ ctx mod_,
    RecordCallWithMethodType (pointer_of (rec_mock mr)) "handleDevicePlugin" MockmoduleReconcilerHelperAPI_handleDevicePlugin_type
       [ctx; mod_].

Definition MockmoduleReconcilerHelperAPI_handleDriverContainer_type : methodtype :=
  mk_mt [context_Context; TPtr api_ModuleLoaderData; TMap string_ (TPtr appsv1_DaemonSet)] None [error_].
Definition MockmoduleReconcilerHelperAPI_handleDriverContainer (m : MockmoduleReconcilerHelperAPI) : method_of MockmoduleReconcilerHelperAPI_handleDriverContainer_type :=
  λ ctx mld dsByKernelVersion,
    ret ← Controller_Call (pointer_of m) "handleDriverContainer"
           [to_any context_Context ctx; to_any (TPtr api_ModuleLoaderData) mld; to_any (TMap string_ (TPtr appsv1_DaemonSet)) dsByKernelVersion];
    ret0 ← index ret 0;
    mret (type_assert error_ ret0).
Definition MockmoduleReconcilerHelperAPIMockRecorder_handleDriverContainer (mr : MockmoduleReconcilerHelperAPIMockRecorder) : recorder_of MockmoduleReconcilerHelperAPI_handleDriverContainer_type :=
  λ ctx mld dsByKernelVersion,
    RecordCallWithMethodType (pointer_of (rec_mock mr)) "handleDriverContainer" MockmoduleReconcilerHelperAPI_handleDriverContainer_type
       [ctx; mld; dsByKernelVersion].

Definition MockmoduleReconcilerHelperAPI_handleSigning_type : methodtype :=
  mk_mt [context_Context; TPtr api_ModuleLoaderData] None [bool_; error_].
Definition MockmoduleReconcilerHelperAPI_handleSigning (m : MockmoduleReconcilerHelperAPI) : method_of MockmoduleReconcilerHelperAPI_handleSigning_type :=
  λ ctx mld,
    ret ← Controller_Call (pointer_of m) "handleSigning"
           [to_any context_Context ctx; to_any (TPtr api_ModuleLoaderData) mld];
    ret0 ← index ret 0;
    ret1 ← index ret 1;
    mret (type_assert bool_ ret0, type_assert error_ ret1).
Definition MockmoduleReconcilerHelperAPIMockRecorder_handleSigning (mr : MockmoduleReconcilerHelperAPIMockRecorder) : recorder_of MockmoduleReconcilerHelperAPI_handleSigning_type :=
  λ ctx mld,
    RecordCallWithMethodType (pointer_of (rec_mock mr)) "handleSigning" MockmoduleReconcilerHelperAPI_handleSigning_type
       [ctx; mld].

Definition MockmoduleReconcilerHelperAPI_setKMMOMetrics_type : methodtype := mk_mt [context_Context] None [].
Definition MockmoduleReconcilerHelperAPI_setKMMOMetrics (m : MockmoduleReconcilerHelperAPI) : method_of MockmoduleReconcilerHelperAPI_setKMMOMetrics_type :=
  λ ctx,
    _ ← Controller_Call (pointer_of m) "setKMMOMetrics" [to_any context_Context ctx];
    mret tt.
Definition MockmoduleReconcilerHelperAPIMockRecorder_setKMMOMetrics (mr : MockmoduleReconcilerHelperAPIMockRecorder) : recorder_of MockmoduleReconcilerHelperAPI_setKMMOMetrics_type :=
  λ ctx,
    RecordCallWithMethodType (pointer_of (rec_mock mr)) "setKMMOMetrics" MockmoduleReconcilerHelperAPI_setKMMOMetrics_type
       [ctx].


(** ** internal/auth/mock_auth.go *)

Definition MockRegistryAuthGetter : Type := mock "auth.MockRegistryAuthGetter".
Definition MockRegistryAuthGetterMockRecorder : Type := recorder "auth.MockRegistryAuthGetter".
Definition NewMockRegistryAuthGetter : gomock MockRegistryAuthGetter := new_mock.
Definition MockRegistryAuthGetter_EXPECT (m : MockRegistryAuthGetter) : MockRegistryAuthGetterMockRecorder := mk_recorder m.

Definition MockRegistryAuthGetter_GetKeyChain_type : methodtype :=
  mk_mt [context_Context] None [authn_Keychain; error_].
Definition MockRegistryAuthGetter_GetKeyChain (m : MockRegistryAuthGetter) : method_of MockRegistryAuthGetter_GetKeyChain_type :=
  λ ctx,
    ret ← Controller_Call (pointer_of m) "GetKeyChain" [to_any context_Context ctx];
    ret0 ← index ret 0;
    ret1 ← index ret 1;
    mret (type_assert authn_Keychain ret0, type_assert error_ ret1).
Definition MockRegistryAuthGetterMockRecorder_GetKeyChain (mr : MockRegistryAuthGetterMockRecorder) : recorder_of MockRegistryAuthGetter_GetKeyChain_type :=
  λ ctx,
    RecordCallWithMethodType (pointer_of (rec_mock mr)) "GetKeyChain" MockRegistryAuthGetter_GetKeyChain_type [ctx].

Definition MockRegistryAuthGetterFactory : Type := mock "auth.MockRegistryAuthGetterFactory".
Definition MockRegistryAuthGetterFactoryMockRecorder : Type := recorder "auth.MockRegistryAuthGetterFactory".
Definition NewMockRegistryAuthGetterFactory : gomock MockRegistryAuthGetterFactory := new_mock.
Definition MockRegistryAuthGetterFactory_EXPECT (m : MockRegistryAuthGetterFactory) : MockRegistryAuthGetterFactoryMockRecorder := mk_recorder m.

Definition MockRegistryAuthGetterFactory_NewClusterAuthGetter_type : methodtype :=
  mk_mt [] None [auth_RegistryAuthGetter].
Definition MockRegistryAuthGetterFactory_NewClusterAuthGetter (m : MockRegistryAuthGetterFactory) : method_of MockRegistryAuthGetterFactory_NewClusterAuthGetter_type :=
    ret ← Controller_Call (pointer_of m) "NewClusterAuthGetter" [];
    ret0 ← index ret 0;
    mret (type_assert auth_RegistryAuthGetter ret0).
Definition MockRegistryAuthGetterFactoryMockRecorder_NewClusterAuthGetter (mr : MockRegistryAuthGetterFactoryMockRecorder) : recorder_of MockRegistryAuthGetterFactory_NewClusterAuthGetter_type :=
    RecordCallWithMethodType (pointer_of (rec_mock mr)) "NewClusterAuthGetter" MockRegistryAuthGetterFactory_NewClusterAuthGetter_type
       [].

Definition MockRegistryAuthGetterFactory_NewRegistryAuthGetterFrom_type : methodtype :=
  mk_mt [TPtr api_ModuleLoaderData] None [auth_RegistryAuthGetter].
Definition MockRegistryAuthGetterFactory_NewRegistryAuthGetterFrom (m : MockRegistryAuthGetterFactory) : method_of MockRegistryAuthGetterFactory_NewRegistryAuthGetterFrom_type :=
  λ mld,
    ret ← Controller_Call (pointer_of m) "NewRegistryAuthGetterFrom" [to_any (TPtr api_ModuleLoaderData) mld];
    ret0 ← index ret 0;
    mret (type_assert auth_RegistryAuthGetter ret0).
Definition MockRegistryAuthGetterFactoryMockRecorder_NewRegistryAuthGetterFrom (mr : MockRegistryAuthGetterFactoryMockRecorder) : recorder_of MockRegistryAuthGetterFactory_NewRegistryAuthGetterFrom_type :=
  λ mld,
    RecordCallWithMethodType (pointer_of (rec_mock mr)) "NewRegistryAuthGetterFrom" MockRegistryAuthGetterFactory_NewRegistryAuthGetterFrom_type
       [mld].


(** ** internal/build/buildconfig/mock_maker.go *)

Definition MockMaker : Type := mock "buildconfig.MockMaker".
Definition MockMakerMockRecorder : Type := recorder "buildconfig.MockMaker".
Definition NewMockMaker : gomock MockMaker := new_mock.
Definition MockMaker_EXPECT (m : MockMaker) : MockMakerMockRecorder := mk_recorder m.

Definition MockMaker_MakeBuildTemplate_type : methodtype :=
  mk_mt [context_Context; TPtr api_ModuleLoaderData; bool_; metav1_Object] None [TPtr buildv1_Build; error_].
Definition MockMaker_MakeBuildTemplate (m : MockMaker) : method_of MockMaker_MakeBuildTemplate_type :=
  λ ctx mld pushImage owner,
    ret ← Controller_Call (pointer_of m) "MakeBuildTemplate"
           [to_any context_Context ctx; to_any (TPtr api_ModuleLoaderData) mld; to_any bool_ pushImage; to_any metav1_Object owner];
    ret0 ← index ret 0;
    ret1 ← index ret 1;
    mret (type_assert (TPtr buildv1_Build) ret0, type_assert error_ ret1).
Definition MockMakerMockRecorder_MakeBuildTemplate (mr : MockMakerMockRecorder) : recorder_of MockMaker_MakeBuildTemplate_type :=
  λ ctx mld pushImage owner,
    RecordCallWithMethodType (pointer_of (rec_mock mr)) "MakeBuildTemplate" MockMaker_MakeBuildTemplate_type
       [ctx; mld; pushImage; owner].


(** ** internal/build/buildconfig/mock_manager.go *)

Definition MockOpenShiftBuildsHelper : Type := mock "buildconfig.MockOpenShiftBuildsHelper".
Definition MockOpenShiftBuildsHelperMockRecorder : Type := recorder "buildconfig.MockOpenShiftBuildsHelper".
Definition NewMockOpenShiftBuildsHelper : gomock MockOpenShiftBuildsHelper := new_mock.
Definition MockOpenShiftBuildsHelper_EXPECT (m : MockOpenShiftBuildsHelper) : MockOpenShiftBuildsHelperMockRecorder := mk_recorder m.

Definition MockOpenShiftBuildsHelper_GetBuild_type : methodtype :=
  mk_mt [context_Context; TPtr api_ModuleLoaderData] None [TPtr buildv1_Build; error_].
Definition MockOpenShiftBuildsHelper_GetBuild (m : MockOpenShiftBuildsHelper) : method_of MockOpenShiftBuildsHelper_GetBuild_type :=
  λ ctx mld,
    ret ← Controller_Call (pointer_of m) "GetBuild"
           [to_any context_Context ctx; to_any (TPtr api_ModuleLoaderData) mld];
    ret0 ← index ret 0;
    ret1 ← index ret 1;
    mret (type_assert (TPtr buildv1_Build) ret0, type_assert error_ ret1).
Definition MockOpenShiftBuildsHelperMockRecorder_GetBuild (mr : MockOpenShiftBuildsHelperMockRecorder) : recorder_of MockOpenShiftBuildsHelper_GetBuild_type :=
  λ ctx mld,
    RecordCallWithMethodType (pointer_of (rec_mock mr)) "GetBuild" MockOpenShiftBuildsHelper_GetBuild_type [ctx; mld].


(** ** internal/build/mock_helper.go *)

Definition build_MockHelper : Type := mock "build.MockHelper".
Definition build_MockHelperMockRecorder : Type := recorder "build.MockHelper".
Definition build_NewMockHelper : gomock build_MockHelper := new_mock.
Definition build_MockHelper_EXPECT (m : build_MockHelper) : build_MockHelperMockRecorder := mk_recorder m.

Definition build_MockHelper_ApplyBuildArgOverrides_type : methodtype :=
  mk_mt [TSlice v1beta1_BuildArg] (Some v1beta1_BuildArg) [TSlice v1beta1_BuildArg].
Definition build_MockHelper_ApplyBuildArgOverrides (m : build_MockHelper) : method_of build_MockHelper_ApplyBuildArgOverrides_type :=
  λ args overrides,
    let varargs := [to_any (TSlice v1beta1_BuildArg) args] in
    let varargs := foldl (λ varargs a, varargs ++ [to_any v1beta1_BuildArg a]) varargs overrides in
    ret ← Controller_Call (pointer_of m) "ApplyBuildArgOverrides" varargs;
    ret0 ← index ret 0;
    mret (type_assert (TSlice v1beta1_BuildArg) ret0).
Definition build_MockHelperMockRecorder_ApplyBuildArgOverrides (mr : build_MockHelperMockRecorder) : recorder_of build_MockHelper_ApplyBuildArgOverrides_type :=
  λ args overrides,
    let varargs := [args] ++ overrides in
    RecordCallWithMethodType (pointer_of (rec_mock mr)) "ApplyBuildArgOverrides" build_MockHelper_ApplyBuildArgOverrides_type varargs.

Definition build_MockHelper_GetRelevantBuild_type : methodtype :=
  mk_mt [TPtr v1beta1_Build; TPtr v1beta1_Build] None [TPtr v1beta1_Build].
Definition build_MockHelper_GetRelevantBuild (m : build_MockHelper) : method_of build_MockHelper_GetRelevantBuild_type :=
  λ moduleBuild mappingBuild,
    ret ← Controller_Call (pointer_of m) "GetRelevantBuild"
           [to_any (TPtr v1beta1_Build) moduleBuild; to_any (TPtr v1beta1_Build) mappingBuild];
    ret0 ← index ret 0;
    mret (type_assert (TPtr v1beta1_Build) ret0).
Definition build_MockHelperMockRecorder_GetRelevantBuild (mr : build_MockHelperMockRecorder) : recorder_of build_MockHelper_GetRelevantBuild_type :=
  λ moduleBuild mappingBuild,
    RecordCallWithMethodType (pointer_of (rec_mock mr)) "GetRelevantBuild" build_MockHelper_GetRelevantBuild_type
       [moduleBuild; mappingBuild].


(** ** internal/build/mock_manager.go *)

Definition MockManager : Type := mock "build.MockManager".
Definition MockManagerMockRecorder : Type := recorder "build.MockManager".
Definition NewMockManager : gomock MockManager := new_mock.
Definition MockManager_EXPECT (m : MockManager) : MockManagerMockRecorder := mk_recorder m.

Definition MockManager_GarbageCollect_type : methodtype :=
  mk_mt [context_Context; string_; string_; metav1_Object] None [TSlice string_; error_].
Definition MockManager_GarbageCollect (m : MockManager) : method_of MockManager_GarbageCollect_type :=
  λ ctx modName namespace owner,
    ret ← Controller_Call (pointer_of m) "GarbageCollect"
           [to_any context_Context ctx; to_any string_ modName; to_any string_ namespace; to_any metav1_Object owner];
    ret0 ← index ret 0;
    ret1 ← index ret 1;
    mret (type_assert (TSlice string_) ret0, type_assert error_ ret1).
Definition MockManagerMockRecorder_GarbageCollect (mr : MockManagerMockRecorder) : recorder_of MockManager_GarbageCollect_type :=
  λ ctx modName namespace owner,
    RecordCallWithMethodType (pointer_of (rec_mock mr)) "GarbageCollect" MockManager_GarbageCollect_type
       [ctx; modName; namespace; owner].

Definition MockManager_ShouldSync_type : methodtype :=
  mk_mt [context_Context; TPtr api_ModuleLoaderData] None [bool_; error_].
Definition MockManager_ShouldSync (m : MockManager) : method_of MockManager_ShouldSync_type :=
  λ ctx mld,
    ret ← Controller_Call (pointer_of m) "ShouldSync"
           [to_any context_Context ctx; to_any (TPtr api_ModuleLoaderData) mld];
    ret0 ← index ret 0;
    ret1 ← index ret 1;
    mret (type_assert bool_ ret0, type_assert error_ ret1).
Definition MockManagerMockRecorder_ShouldSync (mr : MockManagerMockRecorder) : recorder_of MockManager_ShouldSync_type :=
  λ ctx mld,
    RecordCallWithMethodType (pointer_of (rec_mock mr)) "ShouldSync" MockManager_ShouldSync_type [ctx; mld].

Definition MockManager_Sync_type : methodtype :=
  mk_mt [context_Context; TPtr api_ModuleLoaderData; bool_; metav1_Object] None [utils_Status; error_].
Definition MockManager_Sync (m : MockManager) : method_of MockManager_Sync_type :=
  λ ctx mld pushImage owner,
    ret ← Controller_Call (pointer_of m) "Sync"
           [to_any context_Context ctx; to_any (TPtr api_ModuleLoaderData) mld; to_any bool_ pushImage; to_any metav1_Object owner];
    ret0 ← index ret 0;
    ret1 ← index ret 1;
    mret (type_assert utils_Status ret0, type_assert error_ ret1).
Definition MockManagerMockRecorder_Sync (mr : MockManagerMockRecorder) : recorder_of MockManager_Sync_type :=
  λ ctx mld pushImage owner,
    RecordCallWithMethodType (pointer_of (rec_mock mr)) "Sync" MockManager_Sync_type [ctx; mld; pushImage; owner].


(** ** internal/ca/mock_helper.go *)

Definition ca_MockHelper : Type := mock "ca.MockHelper".
Definition ca_MockHelperMockRecorder : Type := recorder "ca.MockHelper".
Definition ca_NewMockHelper : gomock ca_MockHelper := new_mock.
Definition ca_MockHelper_EXPECT (m : ca_MockHelper) : ca_MockHelperMockRecorder := mk_recorder m.

Definition ca_MockHelper_GetClusterCA_type : methodtype :=
  mk_mt [context_Context; string_] None [TPtr ca_ConfigMap; error_].
Definition ca_MockHelper_GetClusterCA (m : ca_MockHelper) : method_of ca_MockHelper_GetClusterCA_type :=
  λ ctx namespace,
    ret ← Controller_Call (pointer_of m) "GetClusterCA" [to_any context_Context ctx; to_any string_ namespace];
    ret0 ← index ret 0;
    ret1 ← index ret 1;
    mret (type_assert (TPtr ca_ConfigMap) ret0, type_assert error_ ret1).
Definition ca_MockHelperMockRecorder_GetClusterCA (mr : ca_MockHelperMockRecorder) : recorder_of ca_MockHelper_GetClusterCA_type :=
  λ ctx namespace,
    RecordCallWithMethodType (pointer_of (rec_mock mr)) "GetClusterCA" ca_MockHelper_GetClusterCA_type
       [ctx; namespace].

Definition ca_MockHelper_GetServiceCA_type : methodtype :=
  mk_mt [context_Context; string_] None [TPtr ca_ConfigMap; error_].
Definition ca_MockHelper_GetServiceCA (m : ca_MockHelper) : method_of ca_MockHelper_GetServiceCA_type :=
  λ ctx namespace,
    ret ← Controller_Call (pointer_of m) "GetServiceCA" [to_any context_Context ctx; to_any string_ namespace];
    ret0 ← index ret 0;
    ret1 ← index ret 1;
    mret (type_assert (TPtr ca_ConfigMap) ret0, type_assert error_ ret1).
Definition ca_MockHelperMockRecorder_GetServiceCA (mr : ca_MockHelperMockRecorder) : recorder_of ca_MockHelper_GetServiceCA_type :=
  λ ctx namespace,
    RecordCallWithMethodType (pointer_of (rec_mock mr)) "GetServiceCA" ca_MockHelper_GetServiceCA_type
       [ctx; namespace].

Definition ca_MockHelper_Sync_type : methodtype := mk_mt [context_Context; string_; client_Object] None [error_].
Definition ca_MockHelper_Sync (m : ca_MockHelper) : method_of ca_MockHelper_Sync_type :=
  λ ctx namespace owner,
    ret ← Controller_Call (pointer_of m) "Sync"
           [to_any context_Context ctx; to_any string_ namespace; to_any client_Object owner];
    ret0 ← index ret 0;
    mret (type_assert error_ ret0).
Definition ca_MockHelperMockRecorder_Sync (mr : ca_MockHelperMockRecorder) : recorder_of ca_MockHelper_Sync_type :=
  λ ctx namespace owner,
    RecordCallWithMethodType (pointer_of (rec_mock mr)) "Sync" ca_MockHelper_Sync_type [ctx; namespace; owner].


(** ** internal/client/mock_client.go *)

Definition MockClient : Type := mock "client.MockClient".
Definition MockClientMockRecorder : Type := recorder "client.MockClient".
Definition NewMockClient : gomock MockClient := new_mock.
Definition MockClient_EXPECT (m : MockClient) : MockClientMockRecorder := mk_recorder m.

Definition MockClient_Create_type : methodtype :=
  mk_mt [context_Context; client_Object] (Some client_CreateOption) [error_].
Definition MockClient_Create (m : MockClient) : method_of MockClient_Create_type :=
  λ arg0 arg1 arg2,
    let varargs := [to_any context_Context arg0; to_any client_Object arg1] in
    let varargs := foldl (λ varargs a, varargs ++ [to_any client_CreateOption a]) varargs arg2 in
    ret ← Controller_Call (pointer_of m) "Create" varargs;
    ret0 ← index ret 0;
    mret (type_assert error_ ret0).
Definition MockClientMockRecorder_Create (mr : MockClientMockRecorder) : recorder_of MockClient_Create_type :=
  λ arg0 arg1 arg2,
    let varargs := [arg0; arg1] ++ arg2 in
    RecordCallWithMethodType (pointer_of (rec_mock mr)) "Create" MockClient_Create_type varargs.

Definition MockClient_Delete_type : methodtype :=
  mk_mt [context_Context; client_Object] (Some client_DeleteOption) [error_].
Definition MockClient_Delete (m : MockClient) : method_of MockClient_Delete_type :=
  λ arg0 arg1 arg2,
    let varargs := [to_any context_Context arg0; to_any client_Object arg1] in
    let varargs := foldl (λ varargs a, varargs ++ [to_any client_DeleteOption a]) varargs arg2 in
    ret ← Controller_Call (pointer_of m) "Delete" varargs;
    ret0 ← index ret 0;
    mret (type_assert error_ ret0).
Definition MockClientMockRecorder_Delete (mr : MockClientMockRecorder) : recorder_of MockClient_Delete_type :=
  λ arg0 arg1 arg2,
    let varargs := [arg0; arg1] ++ arg2 in
    RecordCallWithMethodType (pointer_of (rec_mock mr)) "Delete" MockClient_Delete_type varargs.

Definition MockClient_DeleteAllOf_type : methodtype :=
  mk_mt [context_Context; client_Object] (Some client_DeleteAllOfOption) [error_].
Definition MockClient_DeleteAllOf (m : MockClient) : method_of MockClient_DeleteAllOf_type :=
  λ arg0 arg1 arg2,
    let varargs := [to_any context_Context arg0; to_any client_Object arg1] in
    let varargs := foldl (λ varargs a, varargs ++ [to_any client_DeleteAllOfOption a]) varargs arg2 in
    ret ← Controller_Call (pointer_of m) "DeleteAllOf" varargs;
    ret0 ← index ret 0;
    mret (type_assert error_ ret0).
Definition MockClientMockRecorder_DeleteAllOf (mr : MockClientMockRecorder) : recorder_of MockClient_DeleteAllOf_type :=
  λ arg0 arg1 arg2,
    let varargs := [arg0; arg1] ++ arg2 in
    RecordCallWithMethodType (pointer_of (rec_mock mr)) "DeleteAllOf" MockClient_DeleteAllOf_type varargs.

Definition MockClient_Get_type : methodtype :=
  mk_mt [context_Context; k8stypes_NamespacedName; client_Object] (Some client_GetOption) [error_].
Definition MockClient_Get (m : MockClient) : method_of MockClient_Get_type :=
  λ arg0 arg1 arg2 arg3,
    let varargs := [to_any context_Context arg0; to_any k8stypes_NamespacedName arg1; to_any client_Object arg2] in
    let varargs := foldl (λ varargs a, varargs ++ [to_any client_GetOption a]) varargs arg3 in
    ret ← Controller_Call (pointer_of m) "Get" varargs;
    ret0 ← index ret 0;
    mret (type_assert error_ ret0).
Definition MockClientMockRecorder_Get (mr : MockClientMockRecorder) : recorder_of MockClient_Get_type :=
  λ arg0 arg1 arg2 arg3,
    let varargs := [arg0; arg1; arg2] ++ arg3 in
    RecordCallWithMethodType (pointer_of (rec_mock mr)) "Get" MockClient_Get_type varargs.

Definition MockClient_List_type : methodtype :=
  mk_mt [context_Context; client_ObjectList] (Some client_ListOption) [error_].
Definition MockClient_List (m : MockClient) : method_of MockClient_List_type :=
  λ arg0 arg1 arg2,
    let varargs := [to_any context_Context arg0; to_any client_ObjectList arg1] in
    let varargs := foldl (λ varargs a, varargs ++ [to_any client_ListOption a]) varargs arg2 in
    ret ← Controller_Call (pointer_of m) "List" varargs;
    ret0 ← index ret 0;
    mret (type_assert error_ ret0).
Definition MockClientMockRecorder_List (mr : MockClientMockRecorder) : recorder_of MockClient_List_type :=
  λ arg0 arg1 arg2,
    let varargs := [arg0; arg1] ++ arg2 in
    RecordCallWithMethodType (pointer_of (rec_mock mr)) "List" MockClient_List_type varargs.

Definition MockClient_Patch_type : methodtype :=
  mk_mt [context_Context; client_Object; client_Patch] (Some client_PatchOption) [error_].
Definition MockClient_Patch (m : MockClient) : method_of MockClient_Patch_type :=
  λ arg0 arg1 arg2 arg3,
    let varargs := [to_any context_Context arg0; to_any client_Object arg1; to_any client_Patch arg2] in
    let varargs := foldl (λ varargs a, varargs ++ [to_any client_PatchOption a]) varargs arg3 in
    ret ← Controller_Call (pointer_of m) "Patch" varargs;
    ret0 ← index ret 0;
    mret (type_assert error_ ret0).
Definition MockClientMockRecorder_Patch (mr : MockClientMockRecorder) : recorder_of MockClient_Patch_type :=
  λ arg0 arg1 arg2 arg3,
    let varargs := [arg0; arg1; arg2] ++ arg3 in
    RecordCallWithMethodType (pointer_of (rec_mock mr)) "Patch" MockClient_Patch_type varargs.

Definition MockClient_RESTMapper_type : methodtype := mk_mt [] None [meta_RESTMapper].
Definition MockClient_RESTMapper (m : MockClient) : method_of MockClient_RESTMapper_type :=
    ret ← Controller_Call (pointer_of m) "RESTMapper" [];
    ret0 ← index ret 0;
    mret (type_assert meta_RESTMapper ret0).
Definition MockClientMockRecorder_RESTMapper (mr : MockClientMockRecorder) : recorder_of MockClient_RESTMapper_type :=
    RecordCallWithMethodType (pointer_of (rec_mock mr)) "RESTMapper" MockClient_RESTMapper_type [].

Definition MockClient_Scheme_type : methodtype := mk_mt [] None [TPtr runtime_Scheme].
Definition MockClient_Scheme (m : MockClient) : method_of MockClient_Scheme_type :=
    ret ← Controller_Call (pointer_of m) "Scheme" [];
    ret0 ← index ret 0;
    mret (type_assert (TPtr runtime_Scheme) ret0).
Definition MockClientMockRecorder_Scheme (mr : MockClientMockRecorder) : recorder_of MockClient_Scheme_type :=
    RecordCallWithMethodType (pointer_of (rec_mock mr)) "Scheme" MockClient_Scheme_type [].

Definition MockClient_Status_type : methodtype := mk_mt [] None [client_StatusWriter].
Definition MockClient_Status (m : MockClient) : method_of MockClient_Status_type :=
    ret ← Controller_Call (pointer_of m) "Status" [];
    ret0 ← index ret 0;
    mret (type_assert client_StatusWriter ret0).
Definition MockClientMockRecorder_Status (mr : MockClientMockRecorder) : recorder_of MockClient_Status_type :=
    RecordCallWithMethodType (pointer_of (rec_mock mr)) "Status" MockClient_Status_type [].

Definition MockClient_Update_type : methodtype :=
  mk_mt [context_Context; client_Object] (Some client_UpdateOption) [error_].
Definition MockClient_Update (m : MockClient) : method_of MockClient_Update_type :=
  λ arg0 arg1 arg2,
    let varargs := [to_any context_Context arg0; to_any client_Object arg1] in
    let varargs := foldl (λ varargs a, varargs ++ [to_any client_UpdateOption a]) varargs arg2 in
    ret ← Controller_Call (pointer_of m) "Update" varargs;
    ret0 ← index ret 0;
    mret (type_assert error_ ret0).
Definition MockClientMockRecorder_Update (mr : MockClientMockRecorder) : recorder_of MockClient_Update_type :=
  λ arg0 arg1 arg2,
    let varargs := [arg0; arg1] ++ arg2 in
    RecordCallWithMethodType (pointer_of (rec_mock mr)) "Update" MockClient_Update_type varargs.

Definition MockStatusWriter : Type := mock "client.MockStatusWriter".
Definition MockStatusWriterMockRecorder : Type := recorder "client.MockStatusWriter".
Definition NewMockStatusWriter : gomock MockStatusWriter := new_mock.
Definition MockStatusWriter_EXPECT (m : MockStatusWriter) : MockStatusWriterMockRecorder := mk_recorder m.

Definition MockStatusWriter_Patch_type : methodtype :=
  mk_mt [context_Context; client_Object; client_Patch] (Some client_PatchOption) [error_].
Definition MockStatusWriter_Patch (m : MockStatusWriter) : method_of MockStatusWriter_Patch_type :=
  λ arg0 arg1 arg2 arg3,
    let varargs := [to_any context_Context arg0; to_any client_Object arg1; to_any client_Patch arg2] in
    let varargs := foldl (λ varargs a, varargs ++ [to_any client_PatchOption a]) varargs arg3 in
    ret ← Controller_Call (pointer_of m) "Patch" varargs;
    ret0 ← index ret 0;
    mret (type_assert error_ ret0).
Definition MockStatusWriterMockRecorder_Patch (mr : MockStatusWriterMockRecorder) : recorder_of MockStatusWriter_Patch_type :=
  λ arg0 arg1 arg2 arg3,
    let varargs := [arg0; arg1; arg2] ++ arg3 in
    RecordCallWithMethodType (pointer_of (rec_mock mr)) "Patch" MockStatusWriter_Patch_type varargs.

Definition MockStatusWriter_Update_type : methodtype :=
  mk_mt [context_Context; client_Object] (Some client_UpdateOption) [error_].
Definition MockStatusWriter_Update (m : MockStatusWriter) : method_of MockStatusWriter_Update_type :=
  λ arg0 arg1 arg2,
    let varargs := [to_any context_Context arg0; to_any client_Object arg1] in
    let varargs := foldl (λ varargs a, varargs ++ [to_any client_UpdateOption a]) varargs arg2 in
    ret ← Controller_Call (pointer_of m) "Update" varargs;
    ret0 ← index ret 0;
    mret (type_assert error_ ret0).
Definition MockStatusWriterMockRecorder_Update (mr : MockStatusWriterMockRecorder) : recorder_of MockStatusWriter_Update_type :=
  λ arg0 arg1 arg2,
    let varargs := [arg0; arg1] ++ arg2 in
    RecordCallWithMethodType (pointer_of (rec_mock mr)) "Update" MockStatusWriter_Update_type varargs.


(** ** internal/cluster/mock_cluster.go *)

Definition MockClusterAPI : Type := mock "cluster.MockClusterAPI".
Definition MockClusterAPIMockRecorder : Type := recorder "cluster.MockClusterAPI".
Definition NewMockClusterAPI : gomock MockClusterAPI := new_mock.
Definition MockClusterAPI_EXPECT (m : MockClusterAPI) : MockClusterAPIMockRecorder := mk_recorder m.

Definition MockClusterAPI_BuildAndSign_type : methodtype :=
  mk_mt [context_Context; hubv1beta1_ManagedClusterModule; clusterv1_ManagedCluster] None [bool_; error_].
Definition MockClusterAPI_BuildAndSign (m : MockClusterAPI) : method_of MockClusterAPI_BuildAndSign_type :=
  λ ctx mcm cluster,
    ret ← Controller_Call (pointer_of m) "BuildAndSign"
           [to_any context_Context ctx; to_any hubv1beta1_ManagedClusterModule mcm; to_any clusterv1_ManagedCluster cluster];
    ret0 ← index ret 0;
    ret1 ← index ret 1;
    mret (type_assert bool_ ret0, type_assert error_ ret1).
Definition MockClusterAPIMockRecorder_BuildAndSign (mr : MockClusterAPIMockRecorder) : recorder_of MockClusterAPI_BuildAndSign_type :=
  λ ctx mcm cluster,
    RecordCallWithMethodType (pointer_of (rec_mock mr)) "BuildAndSign" MockClusterAPI_BuildAndSign_type
       [ctx; mcm; cluster].

Definition MockClusterAPI_GarbageCollectBuilds_type : methodtype :=
  mk_mt [context_Context; hubv1beta1_ManagedClusterModule] None [TSlice string_; error_].
Definition MockClusterAPI_GarbageCollectBuilds (m : MockClusterAPI) : method_of MockClusterAPI_GarbageCollectBuilds_type :=
  λ ctx mcm,
    ret ← Controller_Call (pointer_of m) "GarbageCollectBuilds"
           [to_any context_Context ctx; to_any hubv1beta1_ManagedClusterModule mcm];
    ret0 ← index ret 0;
    ret1 ← index ret 1;
    mret (type_assert (TSlice string_) ret0, type_assert error_ ret1).
Definition MockClusterAPIMockRecorder_GarbageCollectBuilds (mr : MockClusterAPIMockRecorder) : recorder_of MockClusterAPI_GarbageCollectBuilds_type :=
  λ ctx mcm,
    RecordCallWithMethodType (pointer_of (rec_mock mr)) "GarbageCollectBuilds" MockClusterAPI_GarbageCollectBuilds_type
       [ctx; mcm].

Definition MockClusterAPI_RequestedManagedClusterModule_type : methodtype :=
  mk_mt [context_Context; k8stypes_NamespacedName] None [TPtr hubv1beta1_ManagedClusterModule; error_].
Definition MockClusterAPI_RequestedManagedClusterModule (m : MockClusterAPI) : method_of MockClusterAPI_RequestedManagedClusterModule_type :=
  λ ctx namespacedName,
    ret ← Controller_Call (pointer_of m) "RequestedManagedClusterModule"
           [to_any context_Context ctx; to_any k8stypes_NamespacedName namespacedName];
    ret0 ← index ret 0;
    ret1 ← index ret 1;
    mret (type_assert (TPtr hubv1beta1_ManagedClusterModule) ret0, type_assert error_ ret1).
Definition MockClusterAPIMockRecorder_RequestedManagedClusterModule (mr : MockClusterAPIMockRecorder) : recorder_of MockClusterAPI_RequestedManagedClusterModule_type :=
  λ ctx namespacedName,
    RecordCallWithMethodType (pointer_of (rec_mock mr)) "RequestedManagedClusterModule" MockClusterAPI_RequestedManagedClusterModule_type
       [ctx; namespacedName].

Definition MockClusterAPI_SelectedManagedClusters_type : methodtype :=
  mk_mt [context_Context; TPtr hubv1beta1_ManagedClusterModule] None [TPtr clusterv1_ManagedClusterList; error_].
Definition MockClusterAPI_SelectedManagedClusters (m : MockClusterAPI) : method_of MockClusterAPI_SelectedManagedClusters_type :=
  λ ctx mcm,
    ret ← Controller_Call (pointer_of m) "SelectedManagedClusters"
           [to_any context_Context ctx; to_any (TPtr hubv1beta1_ManagedClusterModule) mcm];
    ret0 ← index ret 0;
    ret1 ← index ret 1;
    mret (type_assert (TPtr clusterv1_ManagedClusterList) ret0, type_assert error_ ret1).
Definition MockClusterAPIMockRecorder_SelectedManagedClusters (mr : MockClusterAPIMockRecorder) : recorder_of MockClusterAPI_SelectedManagedClusters_type :=
  λ ctx mcm,
    RecordCallWithMethodType (pointer_of (rec_mock mr)) "SelectedManagedClusters" MockClusterAPI_SelectedManagedClusters_type
       [ctx; mcm].


(** ** internal/daemonset/mock_daemonset.go *)

Definition MockDaemonSetCreator : Type := mock "daemonset.MockDaemonSetCreator".
Definition MockDaemonSetCreatorMockRecorder : Type := recorder "daemonset.MockDaemonSetCreator".
Definition NewMockDaemonSetCreator : gomock MockDaemonSetCreator := new_mock.
Definition MockDaemonSetCreator_EXPECT (m : MockDaemonSetCreator) : MockDaemonSetCreatorMockRecorder := mk_recorder m.

Definition MockDaemonSetCreator_GarbageCollect_type : methodtype :=
  mk_mt [context_Context; TMap string_ (TPtr appsv1_DaemonSet); sets_String] None [TSlice string_; error_].
Definition MockDaemonSetCreator_GarbageCollect (m : MockDaemonSetCreator) : method_of MockDaemonSetCreator_GarbageCollect_type :=
  λ ctx existingDS validKernels,
    ret ← Controller_Call (pointer_of m) "GarbageCollect"
           [to_any context_Context ctx; to_any (TMap string_ (TPtr appsv1_DaemonSet)) existingDS; to_any sets_String validKernels];
    ret0 ← index ret 0;
    ret1 ← index ret 1;
    mret (type_assert (TSlice string_) ret0, type_assert error_ ret1).
Definition MockDaemonSetCreatorMockRecorder_GarbageCollect (mr : MockDaemonSetCreatorMockRecorder) : recorder_of MockDaemonSetCreator_GarbageCollect_type :=
  λ ctx existingDS validKernels,
    RecordCallWithMethodType (pointer_of (rec_mock mr)) "GarbageCollect" MockDaemonSetCreator_GarbageCollect_type
       [ctx; existingDS; validKernels].

Definition MockDaemonSetCreator_GetNodeLabelFromPod_type : methodtype :=
  mk_mt [TPtr corev1_Pod; string_] None [string_].
Definition MockDaemonSetCreator_GetNodeLabelFromPod (m : MockDaemonSetCreator) : method_of MockDaemonSetCreator_GetNodeLabelFromPod_type :=
  λ pod moduleName,
    ret ← Controller_Call (pointer_of m) "GetNodeLabelFromPod"
           [to_any (TPtr corev1_Pod) pod; to_any string_ moduleName];
    ret0 ← index ret 0;
    mret (type_assert string_ ret0).
Definition MockDaemonSetCreatorMockRecorder_GetNodeLabelFromPod (mr : MockDaemonSetCreatorMockRecorder) : recorder_of MockDaemonSetCreator_GetNodeLabelFromPod_type :=
  λ pod moduleName,
    RecordCallWithMethodType (pointer_of (rec_mock mr)) "GetNodeLabelFromPod" MockDaemonSetCreator_GetNodeLabelFromPod_type
       [pod; moduleName].

Definition MockDaemonSetCreator_ModuleDaemonSetsByKernelVersion_type : methodtype :=
  mk_mt [context_Context; string_; string_] None [TMap string_ (TPtr appsv1_DaemonSet); error_].
Definition MockDaemonSetCreator_ModuleDaemonSetsByKernelVersion (m : MockDaemonSetCreator) : method_of MockDaemonSetCreator_ModuleDaemonSetsByKernelVersion_type :=
  λ ctx name namespace,
    ret ← Controller_Call (pointer_of m) "ModuleDaemonSetsByKernelVersion"
           [to_any context_Context ctx; to_any string_ name; to_any string_ namespace];
    ret0 ← index ret 0;
    ret1 ← index ret 1;
    mret (type_assert (TMap string_ (TPtr appsv1_DaemonSet)) ret0, type_assert error_ ret1).
Definition MockDaemonSetCreatorMockRecorder_ModuleDaemonSetsByKernelVersion (mr : MockDaemonSetCreatorMockRecorder) : recorder_of MockDaemonSetCreator_ModuleDaemonSetsByKernelVersion_type :=
  λ ctx name namespace,
    RecordCallWithMethodType (pointer_of (rec_mock mr)) "ModuleDaemonSetsByKernelVersion" MockDaemonSetCreator_ModuleDaemonSetsByKernelVersion_type
       [ctx; name; namespace].

Definition MockDaemonSetCreator_SetDevicePluginAsDesired_type : methodtype :=
  mk_mt [context_Context; TPtr appsv1_DaemonSet; TPtr v1beta1_Module; bool_] None [error_].
Definition MockDaemonSetCreator_SetDevicePluginAsDesired (m : MockDaemonSetCreator) : method_of MockDaemonSetCreator_SetDevicePluginAsDesired_type :=
  λ ctx ds mod_ useDefaultSA,
    ret ← Controller_Call (pointer_of m) "SetDevicePluginAsDesired"
           [to_any context_Context ctx; to_any (TPtr appsv1_DaemonSet) ds; to_any (TPtr v1beta1_Module) mod_; to_any bool_ useDefaultSA];
    ret0 ← index ret 0;
    mret (type_assert error_ ret0).
Definition MockDaemonSetCreatorMockRecorder_SetDevicePluginAsDesired (mr : MockDaemonSetCreatorMockRecorder) : recorder_of MockDaemonSetCreator_SetDevicePluginAsDesired_type :=
  λ ctx ds mod_ useDefaultSA,
    RecordCallWithMethodType (pointer_of (rec_mock mr)) "SetDevicePluginAsDesired" MockDaemonSetCreator_SetDevicePluginAsDesired_type
       [ctx; ds; mod_; useDefaultSA].

Definition MockDaemonSetCreator_SetDriverContainerAsDesired_type : methodtype :=
  mk_mt [context_Context; TPtr appsv1_DaemonSet; TPtr api_ModuleLoaderData; bool_] None [error_].
Definition MockDaemonSetCreator_SetDriverContainerAsDesired (m : MockDaemonSetCreator) : method_of MockDaemonSetCreator_SetDriverContainerAsDesired_type :=
  λ ctx ds mld useDefaultSA,
    ret ← Controller_Call (pointer_of m) "SetDriverContainerAsDesired"
           [to_any context_Context ctx; to_any (TPtr appsv1_DaemonSet) ds; to_any (TPtr api_ModuleLoaderData) mld; to_any bool_ useDefaultSA];
    ret0 ← index ret 0;
    mret (type_assert error_ ret0).
Definition MockDaemonSetCreatorMockRecorder_SetDriverContainerAsDesired (mr : MockDaemonSetCreatorMockRecorder) : recorder_of MockDaemonSetCreator_SetDriverContainerAsDesired_type :=
  λ ctx ds mld useDefaultSA,
    RecordCallWithMethodType (pointer_of (rec_mock mr)) "SetDriverContainerAsDesired" MockDaemonSetCreator_SetDriverContainerAsDesired_type
       [ctx; ds; mld; useDefaultSA].


(** ** internal/manifestwork/mock_manifestwork.go *)

Definition MockManifestWorkCreator : Type := mock "manifestwork.MockManifestWorkCreator".
Definition MockManifestWorkCreatorMockRecorder : Type := recorder "manifestwork.MockManifestWorkCreator".
Definition NewMockManifestWorkCreator : gomock MockManifestWorkCreator := new_mock.
Definition MockManifestWorkCreator_EXPECT (m : MockManifestWorkCreator) : MockManifestWorkCreatorMockRecorder := mk_recorder m.

Definition MockManifestWorkCreator_GarbageCollect_type : methodtype :=
  mk_mt [context_Context; clusterv1_ManagedClusterList; hubv1beta1_ManagedClusterModule] None [error_].
Definition MockManifestWorkCreator_GarbageCollect (m : MockManifestWorkCreator) : method_of MockManifestWorkCreator_GarbageCollect_type :=
  λ ctx clusters mcm,
    ret ← Controller_Call (pointer_of m) "GarbageCollect"
           [to_any context_Context ctx; to_any clusterv1_ManagedClusterList clusters; to_any hubv1beta1_ManagedClusterModule mcm];
    ret0 ← index ret 0;
    mret (type_assert error_ ret0).
Definition MockManifestWorkCreatorMockRecorder_GarbageCollect (mr : MockManifestWorkCreatorMockRecorder) : recorder_of MockManifestWorkCreator_GarbageCollect_type :=
  λ ctx clusters mcm,
    RecordCallWithMethodType (pointer_of (rec_mock mr)) "GarbageCollect" MockManifestWorkCreator_GarbageCollect_type
       [ctx; clusters; mcm].

Definition MockManifestWorkCreator_GetOwnedManifestWorks_type : methodtype :=
  mk_mt [context_Context; hubv1beta1_ManagedClusterModule] None [TPtr workv1_ManifestWorkList; error_].
Definition MockManifestWorkCreator_GetOwnedManifestWorks (m : MockManifestWorkCreator) : method_of MockManifestWorkCreator_GetOwnedManifestWorks_type :=
  λ ctx mcm,
    ret ← Controller_Call (pointer_of m) "GetOwnedManifestWorks"
           [to_any context_Context ctx; to_any hubv1beta1_ManagedClusterModule mcm];
    ret0 ← index ret 0;
    ret1 ← index ret 1;
    mret (type_assert (TPtr workv1_ManifestWorkList) ret0, type_assert error_ ret1).
Definition MockManifestWorkCreatorMockRecorder_GetOwnedManifestWorks (mr : MockManifestWorkCreatorMockRecorder) : recorder_of MockManifestWorkCreator_GetOwnedManifestWorks_type :=
  λ ctx mcm,
    RecordCallWithMethodType (pointer_of (rec_mock mr)) "GetOwnedManifestWorks" MockManifestWorkCreator_GetOwnedManifestWorks_type
       [ctx; mcm].

Definition MockManifestWorkCreator_SetManifestWorkAsDesired_type : methodtype :=
  mk_mt [context_Context; TPtr workv1_ManifestWork; hubv1beta1_ManagedClusterModule] None [error_].
Definition MockManifestWorkCreator_SetManifestWorkAsDesired (m : MockManifestWorkCreator) : method_of MockManifestWorkCreator_SetManifestWorkAsDesired_type :=
  λ ctx mw mcm,
    ret ← Controller_Call (pointer_of m) "SetManifestWorkAsDesired"
           [to_any context_Context ctx; to_any (TPtr workv1_ManifestWork) mw; to_any hubv1beta1_ManagedClusterModule mcm];
    ret0 ← index ret 0;
    mret (type_assert error_ ret0).
Definition MockManifestWorkCreatorMockRecorder_SetManifestWorkAsDesired (mr : MockManifestWorkCreatorMockRecorder) : recorder_of MockManifestWorkCreator_SetManifestWorkAsDesired_type :=
  λ ctx mw mcm,
    RecordCallWithMethodType (pointer_of (rec_mock mr)) "SetManifestWorkAsDesired" MockManifestWorkCreator_SetManifestWorkAsDesired_type
       [ctx; mw; mcm].


(** ** internal/metrics/mock_metrics_api.go *)

Definition MockMetrics : Type := mock "metrics.MockMetrics".
Definition MockMetricsMockRecorder : Type := recorder "metrics.MockMetrics".
Definition NewMockMetrics : gomock MockMetrics := new_mock.
Definition MockMetrics_EXPECT (m : MockMetrics) : MockMetricsMockRecorder := mk_recorder m.

Definition MockMetrics_Register_type : methodtype := mk_mt [] None [].
Definition MockMetrics_Register (m : MockMetrics) : method_of MockMetrics_Register_type :=
    _ ← Controller_Call (pointer_of m) "Register" [];
    mret tt.
Definition MockMetricsMockRecorder_Register (mr : MockMetricsMockRecorder) : recorder_of MockMetrics_Register_type :=
    RecordCallWithMethodType (pointer_of (rec_mock mr)) "Register" MockMetrics_Register_type [].

Definition MockMetrics_SetKMMDevicePluginNum_type : methodtype := mk_mt [int_] None [].
Definition MockMetrics_SetKMMDevicePluginNum (m : MockMetrics) : method_of MockMetrics_SetKMMDevicePluginNum_type :=
  λ value,
    _ ← Controller_Call (pointer_of m) "SetKMMDevicePluginNum" [to_any int_ value];
    mret tt.
Definition MockMetricsMockRecorder_SetKMMDevicePluginNum (mr : MockMetricsMockRecorder) : recorder_of MockMetrics_SetKMMDevicePluginNum_type :=
  λ value,
    RecordCallWithMethodType (pointer_of (rec_mock mr)) "SetKMMDevicePluginNum" MockMetrics_SetKMMDevicePluginNum_type
       [value].

Definition MockMetrics_SetKMMInClusterBuildNum_type : methodtype := mk_mt [int_] None [].
Definition MockMetrics_SetKMMInClusterBuildNum (m : MockMetrics) : method_of MockMetrics_SetKMMInClusterBuildNum_type :=
  λ value,
    _ ← Controller_Call (pointer_of m) "SetKMMInClusterBuildNum" [to_any int_ value];
    mret tt.
Definition MockMetricsMockRecorder_SetKMMInClusterBuildNum (mr : MockMetricsMockRecorder) : recorder_of MockMetrics_SetKMMInClusterBuildNum_type :=
  λ value,
    RecordCallWithMethodType (pointer_of (rec_mock mr)) "SetKMMInClusterBuildNum" MockMetrics_SetKMMInClusterBuildNum_type
       [value].

Definition MockMetrics_SetKMMInClusterSignNum_type : methodtype := mk_mt [int_] None [].
Definition MockMetrics_SetKMMInClusterSignNum (m : MockMetrics) : method_of MockMetrics_SetKMMInClusterSignNum_type :=
  λ value,
    _ ← Controller_Call (pointer_of m) "SetKMMInClusterSignNum" [to_any int_ value];
    mret tt.
Definition MockMetricsMockRecorder_SetKMMInClusterSignNum (mr : MockMetricsMockRecorder) : recorder_of MockMetrics_SetKMMInClusterSignNum_type :=
  λ value,
    RecordCallWithMethodType (pointer_of (rec_mock mr)) "SetKMMInClusterSignNum" MockMetrics_SetKMMInClusterSignNum_type
       [value].

Definition MockMetrics_SetKMMModprobeArgs_type : methodtype := mk_mt [string_; string_; string_] None [].
Definition MockMetrics_SetKMMModprobeArgs (m : MockMetrics) : method_of MockMetrics_SetKMMModprobeArgs_type :=
  λ modName namespace modprobeArgs,
    _ ← Controller_Call (pointer_of m) "SetKMMModprobeArgs"
           [to_any string_ modName; to_any string_ namespace; to_any string_ modprobeArgs];
    mret tt.
Definition MockMetricsMockRecorder_SetKMMModprobeArgs (mr : MockMetricsMockRecorder) : recorder_of MockMetrics_SetKMMModprobeArgs_type :=
  λ modName namespace modprobeArgs,
    RecordCallWithMethodType (pointer_of (rec_mock mr)) "SetKMMModprobeArgs" MockMetrics_SetKMMModprobeArgs_type
       [modName; namespace; modprobeArgs].

Definition MockMetrics_SetKMMModprobeRawArgs_type : methodtype := mk_mt [string_; string_; string_] None [].
Definition MockMetrics_SetKMMModprobeRawArgs (m : MockMetrics) : method_of MockMetrics_SetKMMModprobeRawArgs_type :=
  λ modName namespace modprobeArgs,
    _ ← Controller_Call (pointer_of m) "SetKMMModprobeRawArgs"
           [to_any string_ modName; to_any string_ namespace; to_any string_ modprobeArgs];
    mret tt.
Definition MockMetricsMockRecorder_SetKMMModprobeRawArgs (mr : MockMetricsMockRecorder) : recorder_of MockMetrics_SetKMMModprobeRawArgs_type :=
  λ modName namespace modprobeArgs,
    RecordCallWithMethodType (pointer_of (rec_mock mr)) "SetKMMModprobeRawArgs" MockMetrics_SetKMMModprobeRawArgs_type
       [modName; namespace; modprobeArgs].

Definition MockMetrics_SetKMMModulesNum_type : methodtype := mk_mt [int_] None [].
Definition MockMetrics_SetKMMModulesNum (m : MockMetrics) : method_of MockMetrics_SetKMMModulesNum_type :=
  λ value,
    _ ← Controller_Call (pointer_of m) "SetKMMModulesNum" [to_any int_ value];
    mret tt.
Definition MockMetricsMockRecorder_SetKMMModulesNum (mr : MockMetricsMockRecorder) : recorder_of MockMetrics_SetKMMModulesNum_type :=
  λ value,
    RecordCallWithMethodType (pointer_of (rec_mock mr)) "SetKMMModulesNum" MockMetrics_SetKMMModulesNum_type [value].

Definition MockMetrics_SetKMMPreflightsNum_type : methodtype := mk_mt [int_] None [].
Definition MockMetrics_SetKMMPreflightsNum (m : MockMetrics) : method_of MockMetrics_SetKMMPreflightsNum_type :=
  λ value,
    _ ← Controller_Call (pointer_of m) "SetKMMPreflightsNum" [to_any int_ value];
    mret tt.
Definition MockMetricsMockRecorder_SetKMMPreflightsNum (mr : MockMetricsMockRecorder) : recorder_of MockMetrics_SetKMMPreflightsNum_type :=
  λ value,
    RecordCallWithMethodType (pointer_of (rec_mock mr)) "SetKMMPreflightsNum" MockMetrics_SetKMMPreflightsNum_type
       [value].


(** ** internal/module/mock_kernelmapper.go *)

Definition MockKernelMapper : Type := mock "module.MockKernelMapper".
Definition MockKernelMapperMockRecorder : Type := recorder "module.MockKernelMapper".
Definition NewMockKernelMapper : gomock MockKernelMapper := new_mock.
Definition MockKernelMapper_EXPECT (m : MockKernelMapper) : MockKernelMapperMockRecorder := mk_recorder m.

Definition MockKernelMapper_GetModuleLoaderDataForKernel_type : methodtype :=
  mk_mt [TPtr v1beta1_Module; string_] None [TPtr api_ModuleLoaderData; error_].
Definition MockKernelMapper_GetModuleLoaderDataForKernel (m : MockKernelMapper) : method_of MockKernelMapper_GetModuleLoaderDataForKernel_type :=
  λ mod_ kernelVersion,
    ret ← Controller_Call (pointer_of m) "GetModuleLoaderDataForKernel"
           [to_any (TPtr v1beta1_Module) mod_; to_any string_ kernelVersion];
    ret0 ← index ret 0;
    ret1 ← index ret 1;
    mret (type_assert (TPtr api_ModuleLoaderData) ret0, type_assert error_ ret1).
Definition MockKernelMapperMockRecorder_GetModuleLoaderDataForKernel (mr : MockKernelMapperMockRecorder) : recorder_of MockKernelMapper_GetModuleLoaderDataForKernel_type :=
  λ mod_ kernelVersion,
    RecordCallWithMethodType (pointer_of (rec_mock mr)) "GetModuleLoaderDataForKernel" MockKernelMapper_GetModuleLoaderDataForKernel_type
       [mod_; kernelVersion].

Definition MockkernelMapperHelperAPI : Type := mock "module.MockkernelMapperHelperAPI".
Definition MockkernelMapperHelperAPIMockRecorder : Type := recorder "module.MockkernelMapperHelperAPI".
Definition NewMockkernelMapperHelperAPI : gomock MockkernelMapperHelperAPI := new_mock.
Definition MockkernelMapperHelperAPI_EXPECT (m : MockkernelMapperHelperAPI) : MockkernelMapperHelperAPIMockRecorder := mk_recorder m.

Definition MockkernelMapperHelperAPI_findKernelMapping_type : methodtype :=
  mk_mt [TSlice v1beta1_KernelMapping; string_] None [TPtr v1beta1_KernelMapping; error_].
Definition MockkernelMapperHelperAPI_findKernelMapping (m : MockkernelMapperHelperAPI) : method_of MockkernelMapperHelperAPI_findKernelMapping_type :=
  λ mappings kernelVersion,
    ret ← Controller_Call (pointer_of m) "findKernelMapping"
           [to_any (TSlice v1beta1_KernelMapping) mappings; to_any string_ kernelVersion];
    ret0 ← index ret 0;
    ret1 ← index ret 1;
    mret (type_assert (TPtr v1beta1_KernelMapping) ret0, type_assert error_ ret1).
Definition MockkernelMapperHelperAPIMockRecorder_findKernelMapping (mr : MockkernelMapperHelperAPIMockRecorder) : recorder_of MockkernelMapperHelperAPI_findKernelMapping_type :=
  λ mappings kernelVersion,
    RecordCallWithMethodType (pointer_of (rec_mock mr)) "findKernelMapping" MockkernelMapperHelperAPI_findKernelMapping_type
       [mappings; kernelVersion].

Definition MockkernelMapperHelperAPI_prepareModuleLoaderData_type : methodtype :=
  mk_mt [TPtr v1beta1_KernelMapping; TPtr v1beta1_Module; string_] None [TPtr api_ModuleLoaderData; error_].
Definition MockkernelMapperHelperAPI_prepareModuleLoaderData (m : MockkernelMapperHelperAPI) : method_of MockkernelMapperHelperAPI_prepareModuleLoaderData_type :=
  λ mapping mod_ kernelVersion,
    ret ← Controller_Call (pointer_of m) "prepareModuleLoaderData"
           [to_any (TPtr v1beta1_KernelMapping) mapping; to_any (TPtr v1beta1_Module) mod_; to_any string_ kernelVersion];
    ret0 ← index ret 0;
    ret1 ← index ret 1;
    mret (type_assert (TPtr api_ModuleLoaderData) ret0, type_assert error_ ret1).
Definition MockkernelMapperHelperAPIMockRecorder_prepareModuleLoaderData (mr : MockkernelMapperHelperAPIMockRecorder) : recorder_of MockkernelMapperHelperAPI_prepareModuleLoaderData_type :=
  λ mapping mod_ kernelVersion,
    RecordCallWithMethodType (pointer_of (rec_mock mr)) "prepareModuleLoaderData" MockkernelMapperHelperAPI_prepareModuleLoaderData_type
       [mapping; mod_; kernelVersion].

Definition MockkernelMapperHelperAPI_replaceTemplates_type : methodtype :=
  mk_mt [TPtr api_ModuleLoaderData] None [error_].
Definition MockkernelMapperHelperAPI_replaceTemplates (m : MockkernelMapperHelperAPI) : method_of MockkernelMapperHelperAPI_replaceTemplates_type :=
  λ mld,
    ret ← Controller_Call (pointer_of m) "replaceTemplates" [to_any (TPtr api_ModuleLoaderData) mld];
    ret0 ← index ret 0;
    mret (type_assert error_ ret0).
Definition MockkernelMapperHelperAPIMockRecorder_replaceTemplates (mr : MockkernelMapperHelperAPIMockRecorder) : recorder_of MockkernelMapperHelperAPI_replaceTemplates_type :=
  λ mld,
    RecordCallWithMethodType (pointer_of (rec_mock mr)) "replaceTemplates" MockkernelMapperHelperAPI_replaceTemplates_type
       [mld].


(** ** internal/preflight/mock_preflight_api.go *)

Definition MockPreflightAPI : Type := mock "preflight.MockPreflightAPI".
Definition MockPreflightAPIMockRecorder : Type := recorder "preflight.MockPreflightAPI".
Definition NewMockPreflightAPI : gomock MockPreflightAPI := new_mock.
Definition MockPreflightAPI_EXPECT (m : MockPreflightAPI) : MockPreflightAPIMockRecorder := mk_recorder m.

Definition MockPreflightAPI_PreflightUpgradeCheck_type : methodtype :=
  mk_mt [context_Context; TPtr v1beta1_PreflightValidation; TPtr v1beta1_Module] None [bool_; string_].
Definition MockPreflightAPI_PreflightUpgradeCheck (m : MockPreflightAPI) : method_of MockPreflightAPI_PreflightUpgradeCheck_type :=
  λ ctx pv mod_,
    ret ← Controller_Call (pointer_of m) "PreflightUpgradeCheck"
           [to_any context_Context ctx; to_any (TPtr v1beta1_PreflightValidation) pv; to_any (TPtr v1beta1_Module) mod_];
    ret0 ← index ret 0;
    ret1 ← index ret 1;
    mret (type_assert bool_ ret0, type_assert string_ ret1).
Definition MockPreflightAPIMockRecorder_PreflightUpgradeCheck (mr : MockPreflightAPIMockRecorder) : recorder_of MockPreflightAPI_PreflightUpgradeCheck_type :=
  λ ctx pv mod_,
    RecordCallWithMethodType (pointer_of (rec_mock mr)) "PreflightUpgradeCheck" MockPreflightAPI_PreflightUpgradeCheck_type
       [ctx; pv; mod_].

Definition MockpreflightHelperAPI : Type := mock "preflight.MockpreflightHelperAPI".
Definition MockpreflightHelperAPIMockRecorder : Type := recorder "preflight.MockpreflightHelperAPI".
Definition NewMockpreflightHelperAPI : gomock MockpreflightHelperAPI := new_mock.
Definition MockpreflightHelperAPI_EXPECT (m : MockpreflightHelperAPI) : MockpreflightHelperAPIMockRecorder := mk_recorder m.

Definition MockpreflightHelperAPI_verifyBuild_type : methodtype :=
  mk_mt [context_Context; TPtr v1beta1_PreflightValidation; TPtr api_ModuleLoaderData] None [bool_; string_].
Definition MockpreflightHelperAPI_verifyBuild (m : MockpreflightHelperAPI) : method_of MockpreflightHelperAPI_verifyBuild_type :=
  λ ctx pv mld,
    ret ← Controller_Call (pointer_of m) "verifyBuild"
           [to_any context_Context ctx; to_any (TPtr v1beta1_PreflightValidation) pv; to_any (TPtr api_ModuleLoaderData) mld];
    ret0 ← index ret 0;
    ret1 ← index ret 1;
    mret (type_assert bool_ ret0, type_assert string_ ret1).
Definition MockpreflightHelperAPIMockRecorder_verifyBuild (mr : MockpreflightHelperAPIMockRecorder) : recorder_of MockpreflightHelperAPI_verifyBuild_type :=
  λ ctx pv mld,
    RecordCallWithMethodType (pointer_of (rec_mock mr)) "verifyBuild" MockpreflightHelperAPI_verifyBuild_type
       [ctx; pv; mld].

Definition MockpreflightHelperAPI_verifyImage_type : methodtype :=
  mk_mt [context_Context; TPtr api_ModuleLoaderData] None [bool_; string_].
Definition MockpreflightHelperAPI_verifyImage (m : MockpreflightHelperAPI) : method_of MockpreflightHelperAPI_verifyImage_type :=
  λ ctx mld,
    ret ← Controller_Call (pointer_of m) "verifyImage"
           [to_any context_Context ctx; to_any (TPtr api_ModuleLoaderData) mld];
    ret0 ← index ret 0;
    ret1 ← index ret 1;
    mret (type_assert bool_ ret0, type_assert string_ ret1).
Definition MockpreflightHelperAPIMockRecorder_verifyImage (mr : MockpreflightHelperAPIMockRecorder) : recorder_of MockpreflightHelperAPI_verifyImage_type :=
  λ ctx mld,
    RecordCallWithMethodType (pointer_of (rec_mock mr)) "verifyImage" MockpreflightHelperAPI_verifyImage_type
       [ctx; mld].

Definition MockpreflightHelperAPI_verifySign_type : methodtype :=
  mk_mt [context_Context; TPtr v1beta1_PreflightValidation; TPtr api_ModuleLoaderData] None [bool_; string_].
Definition MockpreflightHelperAPI_verifySign (m : MockpreflightHelperAPI) : method_of MockpreflightHelperAPI_verifySign_type :=
  λ ctx pv mld,
    ret ← Controller_Call (pointer_of m) "verifySign"
           [to_any context_Context ctx; to_any (TPtr v1beta1_PreflightValidation) pv; to_any (TPtr api_ModuleLoaderData) mld];
    ret0 ← index ret 0;
    ret1 ← index ret 1;
    mret (type_assert bool_ ret0, type_assert string_ ret1).
Definition MockpreflightHelperAPIMockRecorder_verifySign (mr : MockpreflightHelperAPIMockRecorder) : recorder_of MockpreflightHelperAPI_verifySign_type :=
  λ ctx pv mld,
    RecordCallWithMethodType (pointer_of (rec_mock mr)) "verifySign" MockpreflightHelperAPI_verifySign_type
       [ctx; pv; mld].


(** ** internal/registry/mock_registry_api.go *)

Definition MockRegistry : Type := mock "registry.MockRegistry".
Definition MockRegistryMockRecorder : Type := recorder "registry.MockRegistry".
Definition NewMockRegistry : gomock MockRegistry := new_mock.
Definition MockRegistry_EXPECT (m : MockRegistry) : MockRegistryMockRecorder := mk_recorder m.

Definition MockRegistry_AddLayerToImage_type : methodtype := mk_mt [string_; crv1_Image] None [crv1_Image; error_].
Definition MockRegistry_AddLayerToImage (m : MockRegistry) : method_of MockRegistry_AddLayerToImage_type :=
  λ tarfile image,
    ret ← Controller_Call (pointer_of m) "AddLayerToImage" [to_any string_ tarfile; to_any crv1_Image image];
    ret0 ← index ret 0;
    ret1 ← index ret 1;
    mret (type_assert crv1_Image ret0, type_assert error_ ret1).
Definition MockRegistryMockRecorder_AddLayerToImage (mr : MockRegistryMockRecorder) : recorder_of MockRegistry_AddLayerToImage_type :=
  λ tarfile image,
    RecordCallWithMethodType (pointer_of (rec_mock mr)) "AddLayerToImage" MockRegistry_AddLayerToImage_type
       [tarfile; image].

Definition MockRegistry_ExtractBytesFromTar_type : methodtype :=
  mk_mt [int64_; io_Reader] None [TSlice byte_; error_].
Definition MockRegistry_ExtractBytesFromTar (m : MockRegistry) : method_of MockRegistry_ExtractBytesFromTar_type :=
  λ size tarreader,
    ret ← Controller_Call (pointer_of m) "ExtractBytesFromTar" [to_any int64_ size; to_any io_Reader tarreader];
    ret0 ← index ret 0;
    ret1 ← index ret 1;
    mret (type_assert (TSlice byte_) ret0, type_assert error_ ret1).
Definition MockRegistryMockRecorder_ExtractBytesFromTar (mr : MockRegistryMockRecorder) : recorder_of MockRegistry_ExtractBytesFromTar_type :=
  λ size tarreader,
    RecordCallWithMethodType (pointer_of (rec_mock mr)) "ExtractBytesFromTar" MockRegistry_ExtractBytesFromTar_type
       [size; tarreader].

Definition MockRegistry_ExtractFileToFile_type : methodtype :=
  mk_mt [string_; TPtr tar_Header; io_Reader] None [error_].
Definition MockRegistry_ExtractFileToFile (m : MockRegistry) : method_of MockRegistry_ExtractFileToFile_type :=
  λ destination header tarreader,
    ret ← Controller_Call (pointer_of m) "ExtractFileToFile"
           [to_any string_ destination; to_any (TPtr tar_Header) header; to_any io_Reader tarreader];
    ret0 ← index ret 0;
    mret (type_assert error_ ret0).
Definition MockRegistryMockRecorder_ExtractFileToFile (mr : MockRegistryMockRecorder) : recorder_of MockRegistry_ExtractFileToFile_type :=
  λ destination header tarreader,
    RecordCallWithMethodType (pointer_of (rec_mock mr)) "ExtractFileToFile" MockRegistry_ExtractFileToFile_type
       [destination; header; tarreader].

Definition MockRegistry_GetHeaderDataFromLayer_type : methodtype :=
  mk_mt [crv1_Layer; string_] None [TSlice byte_; error_].
Definition MockRegistry_GetHeaderDataFromLayer (m : MockRegistry) : method_of MockRegistry_GetHeaderDataFromLayer_type :=
  λ layer headerName,
    ret ← Controller_Call (pointer_of m) "GetHeaderDataFromLayer" [to_any crv1_Layer layer; to_any string_ headerName];
    ret0 ← index ret 0;
    ret1 ← index ret 1;
    mret (type_assert (TSlice byte_) ret0, type_assert error_ ret1).
Definition MockRegistryMockRecorder_GetHeaderDataFromLayer (mr : MockRegistryMockRecorder) : recorder_of MockRegistry_GetHeaderDataFromLayer_type :=
  λ layer headerName,
    RecordCallWithMethodType (pointer_of (rec_mock mr)) "GetHeaderDataFromLayer" MockRegistry_GetHeaderDataFromLayer_type
       [layer; headerName].

Definition MockRegistry_GetImageByName_type : methodtype :=
  mk_mt [string_; authn_Authenticator; bool_; bool_] None [crv1_Image; error_].
Definition MockRegistry_GetImageByName (m : MockRegistry) : method_of MockRegistry_GetImageByName_type :=
  λ imageName auth insecure skipTLSVerify,
    ret ← Controller_Call (pointer_of m) "GetImageByName"
           [to_any string_ imageName; to_any authn_Authenticator auth; to_any bool_ insecure; to_any bool_ skipTLSVerify];
    ret0 ← index ret 0;
    ret1 ← index ret 1;
    mret (type_assert crv1_Image ret0, type_assert error_ ret1).
Definition MockRegistryMockRecorder_GetImageByName (mr : MockRegistryMockRecorder) : recorder_of MockRegistry_GetImageByName_type :=
  λ imageName auth insecure skipTLSVerify,
    RecordCallWithMethodType (pointer_of (rec_mock mr)) "GetImageByName" MockRegistry_GetImageByName_type
       [imageName; auth; insecure; skipTLSVerify].

Definition MockRegistry_GetLayerByDigest_type : methodtype :=
  mk_mt [string_; TPtr registry_RepoPullConfig] None [crv1_Layer; error_].
Definition MockRegistry_GetLayerByDigest (m : MockRegistry) : method_of MockRegistry_GetLayerByDigest_type :=
  λ digest pullConfig,
    ret ← Controller_Call (pointer_of m) "GetLayerByDigest"
           [to_any string_ digest; to_any (TPtr registry_RepoPullConfig) pullConfig];
    ret0 ← index ret 0;
    ret1 ← index ret 1;
    mret (type_assert crv1_Layer ret0, type_assert error_ ret1).
Definition MockRegistryMockRecorder_GetLayerByDigest (mr : MockRegistryMockRecorder) : recorder_of MockRegistry_GetLayerByDigest_type :=
  λ digest pullConfig,
    RecordCallWithMethodType (pointer_of (rec_mock mr)) "GetLayerByDigest" MockRegistry_GetLayerByDigest_type
       [digest; pullConfig].

Definition MockRegistry_GetLayerMediaType_type : methodtype := mk_mt [crv1_Image] None [crtypes_MediaType; error_].
Definition MockRegistry_GetLayerMediaType (m : MockRegistry) : method_of MockRegistry_GetLayerMediaType_type :=
  λ image,
    ret ← Controller_Call (pointer_of m) "GetLayerMediaType" [to_any crv1_Image image];
    ret0 ← index ret 0;
    ret1 ← index ret 1;
    mret (type_assert crtypes_MediaType ret0, type_assert error_ ret1).
Definition MockRegistryMockRecorder_GetLayerMediaType (mr : MockRegistryMockRecorder) : recorder_of MockRegistry_GetLayerMediaType_type :=
  λ image,
    RecordCallWithMethodType (pointer_of (rec_mock mr)) "GetLayerMediaType" MockRegistry_GetLayerMediaType_type
       [image].

Definition MockRegistry_GetLayersDigests_type : methodtype :=
  mk_mt [context_Context; string_; TPtr v1beta1_TLSOptions; auth_RegistryAuthGetter] None [TSlice string_; TPtr registry_RepoPullConfig; error_].
Definition MockRegistry_GetLayersDigests (m : MockRegistry) : method_of MockRegistry_GetLayersDigests_type :=
  λ ctx image tlsOptions registryAuthGetter,
    ret ← Controller_Call (pointer_of m) "GetLayersDigests"
           [to_any context_Context ctx; to_any string_ image; to_any (TPtr v1beta1_TLSOptions) tlsOptions; to_any auth_RegistryAuthGetter registryAuthGetter];
    ret0 ← index ret 0;
    ret1 ← index ret 1;
    ret2 ← index ret 2;
    mret (type_assert (TSlice string_) ret0, (type_assert (TPtr registry_RepoPullConfig) ret1, type_assert error_ ret2)).
Definition MockRegistryMockRecorder_GetLayersDigests (mr : MockRegistryMockRecorder) : recorder_of MockRegistry_GetLayersDigests_type :=
  λ ctx image tlsOptions registryAuthGetter,
    RecordCallWithMethodType (pointer_of (rec_mock mr)) "GetLayersDigests" MockRegistry_GetLayersDigests_type
       [ctx; image; tlsOptions; registryAuthGetter].

Definition MockRegistry_ImageExists_type : methodtype :=
  mk_mt [context_Context; string_; TPtr v1beta1_TLSOptions; auth_RegistryAuthGetter] None [bool_; error_].
Definition MockRegistry_ImageExists (m : MockRegistry) : method_of MockRegistry_ImageExists_type :=
  λ ctx image tlsOptions registryAuthGetter,
    ret ← Controller_Call (pointer_of m) "ImageExists"
           [to_any context_Context ctx; to_any string_ image; to_any (TPtr v1beta1_TLSOptions) tlsOptions; to_any auth_RegistryAuthGetter registryAuthGetter];
    ret0 ← index ret 0;
    ret1 ← index ret 1;
    mret (type_assert bool_ ret0, type_assert error_ ret1).
Definition MockRegistryMockRecorder_ImageExists (mr : MockRegistryMockRecorder) : recorder_of MockRegistry_ImageExists_type :=
  λ ctx image tlsOptions registryAuthGetter,
    RecordCallWithMethodType (pointer_of (rec_mock mr)) "ImageExists" MockRegistry_ImageExists_type
       [ctx; image; tlsOptions; registryAuthGetter].

Definition MockRegistry_LastLayer_type : methodtype :=
  mk_mt [context_Context; string_; TPtr v1beta1_TLSOptions; auth_RegistryAuthGetter] None [crv1_Layer; error_].
Definition MockRegistry_LastLayer (m : MockRegistry) : method_of MockRegistry_LastLayer_type :=
  λ ctx image po registryAuthGetter,
    ret ← Controller_Call (pointer_of m) "LastLayer"
           [to_any context_Context ctx; to_any string_ image; to_any (TPtr v1beta1_TLSOptions) po; to_any auth_RegistryAuthGetter registryAuthGetter];
    ret0 ← index ret 0;
    ret1 ← index ret 1;
    mret (type_assert crv1_Layer ret0, type_assert error_ ret1).
Definition MockRegistryMockRecorder_LastLayer (mr : MockRegistryMockRecorder) : recorder_of MockRegistry_LastLayer_type :=
  λ ctx image po registryAuthGetter,
    RecordCallWithMethodType (pointer_of (rec_mock mr)) "LastLayer" MockRegistry_LastLayer_type
       [ctx; image; po; registryAuthGetter].

Definition MockRegistry_VerifyModuleExists_type : methodtype :=
  mk_mt [crv1_Layer; string_; string_; string_] None [bool_].
Definition MockRegistry_VerifyModuleExists (m : MockRegistry) : method_of MockRegistry_VerifyModuleExists_type :=
  λ layer pathPrefix kernelVersion moduleFileName,
    ret ← Controller_Call (pointer_of m) "VerifyModuleExists"
           [to_any crv1_Layer layer; to_any string_ pathPrefix; to_any string_ kernelVersion; to_any string_ moduleFileName];
    ret0 ← index ret 0;
    mret (type_assert bool_ ret0).
Definition MockRegistryMockRecorder_VerifyModuleExists (mr : MockRegistryMockRecorder) : recorder_of MockRegistry_VerifyModuleExists_type :=
  λ layer pathPrefix kernelVersion moduleFileName,
    RecordCallWithMethodType (pointer_of (rec_mock mr)) "VerifyModuleExists" MockRegistry_VerifyModuleExists_type
       [layer; pathPrefix; kernelVersion; moduleFileName].

Definition MockRegistry_WalkFilesInImage_type : methodtype :=
  mk_mt [crv1_Image; TFunc "func(string, *tar.Header, io.Reader, []interface{}) error"] (Some interface_) [error_].
Definition MockRegistry_WalkFilesInImage (m : MockRegistry) : method_of MockRegistry_WalkFilesInImage_type :=
  λ image fn data,
    let varargs := [to_any crv1_Image image; to_any (TFunc "func(string, *tar.Header, io.Reader, []interface{}) error") fn] in
    let varargs := foldl (λ varargs a, varargs ++ [to_any interface_ a]) varargs data in
    ret ← Controller_Call (pointer_of m) "WalkFilesInImage" varargs;
    ret0 ← index ret 0;
    mret (type_assert error_ ret0).
Definition MockRegistryMockRecorder_WalkFilesInImage (mr : MockRegistryMockRecorder) : recorder_of MockRegistry_WalkFilesInImage_type :=
  λ image fn data,
    let varargs := [image; fn] ++ data in
    RecordCallWithMethodType (pointer_of (rec_mock mr)) "WalkFilesInImage" MockRegistry_WalkFilesInImage_type varargs.

Definition MockRegistry_WriteImageByName_type : methodtype :=
  mk_mt [string_; crv1_Image; authn_Authenticator; bool_; bool_] None [error_].
Definition MockRegistry_WriteImageByName (m : MockRegistry) : method_of MockRegistry_WriteImageByName_type :=
  λ imageName image auth insecure skipTLSVerify,
    ret ← Controller_Call (pointer_of m) "WriteImageByName"
           [to_any string_ imageName; to_any crv1_Image image; to_any authn_Authenticator auth; to_any bool_ insecure; to_any bool_ skipTLSVerify];
    ret0 ← index ret 0;
    mret (type_assert error_ ret0).
Definition MockRegistryMockRecorder_WriteImageByName (mr : MockRegistryMockRecorder) : recorder_of MockRegistry_WriteImageByName_type :=
  λ imageName image auth insecure skipTLSVerify,
    RecordCallWithMethodType (pointer_of (rec_mock mr)) "WriteImageByName" MockRegistry_WriteImageByName_type
       [imageName; image; auth; insecure; skipTLSVerify].


(** ** internal/sign/job/mock_signer.go *)

Definition MockSigner : Type := mock "signjob.MockSigner".
Definition MockSignerMockRecorder : Type := recorder "signjob.MockSigner".
Definition NewMockSigner : gomock MockSigner := new_mock.
Definition MockSigner_EXPECT (m : MockSigner) : MockSignerMockRecorder := mk_recorder m.

Definition MockSigner_MakeJobTemplate_type : methodtype :=
  mk_mt [context_Context; TPtr api_ModuleLoaderData; TMap string_ string_; string_; bool_; metav1_Object] None [TPtr batchv1_Job; error_].
Definition MockSigner_MakeJobTemplate (m : MockSigner) : method_of MockSigner_MakeJobTemplate_type :=
  λ ctx mld labels imageToSign pushImage owner,
    ret ← Controller_Call (pointer_of m) "MakeJobTemplate"
           [to_any context_Context ctx; to_any (TPtr api_ModuleLoaderData) mld; to_any (TMap string_ string_) labels; to_any string_ imageToSign; to_any bool_ pushImage; to_any metav1_Object owner];
    ret0 ← index ret 0;
    ret1 ← index ret 1;
    mret (type_assert (TPtr batchv1_Job) ret0, type_assert error_ ret1).
Definition MockSignerMockRecorder_MakeJobTemplate (mr : MockSignerMockRecorder) : recorder_of MockSigner_MakeJobTemplate_type :=
  λ ctx mld labels imageToSign pushImage owner,
    RecordCallWithMethodType (pointer_of (rec_mock mr)) "MakeJobTemplate" MockSigner_MakeJobTemplate_type
       [ctx; mld; labels; imageToSign; pushImage; owner].


(** ** internal/sign/mock_helper.go *)

Definition sign_MockHelper : Type := mock "sign.MockHelper".
Definition sign_MockHelperMockRecorder : Type := recorder "sign.MockHelper".
Definition sign_NewMockHelper : gomock sign_MockHelper := new_mock.
Definition sign_MockHelper_EXPECT (m : sign_MockHelper) : sign_MockHelperMockRecorder := mk_recorder m.

Definition sign_MockHelper_GetRelevantSign_type : methodtype :=
  mk_mt [TPtr v1beta1_Sign; TPtr v1beta1_Sign; string_] None [TPtr v1beta1_Sign; error_].
Definition sign_MockHelper_GetRelevantSign (m : sign_MockHelper) : method_of sign_MockHelper_GetRelevantSign_type :=
  λ moduleSign mappingSign kernel,
    ret ← Controller_Call (pointer_of m) "GetRelevantSign"
           [to_any (TPtr v1beta1_Sign) moduleSign; to_any (TPtr v1beta1_Sign) mappingSign; to_any string_ kernel];
    ret0 ← index ret 0;
    ret1 ← index ret 1;
    mret (type_assert (TPtr v1beta1_Sign) ret0, type_assert error_ ret1).
Definition sign_MockHelperMockRecorder_GetRelevantSign (mr : sign_MockHelperMockRecorder) : recorder_of sign_MockHelper_GetRelevantSign_type :=
  λ moduleSign mappingSign kernel,
    RecordCallWithMethodType (pointer_of (rec_mock mr)) "GetRelevantSign" sign_MockHelper_GetRelevantSign_type
       [moduleSign; mappingSign; kernel].


(** ** internal/sign/mock_manager.go *)

Definition MockSignManager : Type := mock "sign.MockSignManager".
Definition MockSignManagerMockRecorder : Type := recorder "sign.MockSignManager".
Definition NewMockSignManager : gomock MockSignManager := new_mock.
Definition MockSignManager_EXPECT (m : MockSignManager) : MockSignManagerMockRecorder := mk_recorder m.

Definition MockSignManager_GarbageCollect_type : methodtype :=
  mk_mt [context_Context; string_; string_; metav1_Object] None [TSlice string_; error_].
Definition MockSignManager_GarbageCollect (m : MockSignManager) : method_of MockSignManager_GarbageCollect_type :=
  λ ctx modName namespace owner,
    ret ← Controller_Call (pointer_of m) "GarbageCollect"
           [to_any context_Context ctx; to_any string_ modName; to_any string_ namespace; to_any metav1_Object owner];
    ret0 ← index ret 0;
    ret1 ← index ret 1;
    mret (type_assert (TSlice string_) ret0, type_assert error_ ret1).
Definition MockSignManagerMockRecorder_GarbageCollect (mr : MockSignManagerMockRecorder) : recorder_of MockSignManager_GarbageCollect_type :=
  λ ctx modName namespace owner,
    RecordCallWithMethodType (pointer_of (rec_mock mr)) "GarbageCollect" MockSignManager_GarbageCollect_type
       [ctx; modName; namespace; owner].

Definition MockSignManager_ShouldSync_type : methodtype :=
  mk_mt [context_Context; TPtr api_ModuleLoaderData] None [bool_; error_].
Definition MockSignManager_ShouldSync (m : MockSignManager) : method_of MockSignManager_ShouldSync_type :=
  λ ctx mld,
    ret ← Controller_Call (pointer_of m) "ShouldSync"
           [to_any context_Context ctx; to_any (TPtr api_ModuleLoaderData) mld];
    ret0 ← index ret 0;
    ret1 ← index ret 1;
    mret (type_assert bool_ ret0, type_assert error_ ret1).
Definition MockSignManagerMockRecorder_ShouldSync (mr : MockSignManagerMockRecorder) : recorder_of MockSignManager_ShouldSync_type :=
  λ ctx mld,
    RecordCallWithMethodType (pointer_of (rec_mock mr)) "ShouldSync" MockSignManager_ShouldSync_type [ctx; mld].

Definition MockSignManager_Sync_type : methodtype :=
  mk_mt [context_Context; TPtr api_ModuleLoaderData; string_; bool_; metav1_Object] None [utils_Status; error_].
Definition MockSignManager_Sync (m : MockSignManager) : method_of MockSignManager_Sync_type :=
  λ ctx mld imageToSign pushImage owner,
    ret ← Controller_Call (pointer_of m) "Sync"
           [to_any context_Context ctx; to_any (TPtr api_ModuleLoaderData) mld; to_any string_ imageToSign; to_any bool_ pushImage; to_any metav1_Object owner];
    ret0 ← index ret 0;
    ret1 ← index ret 1;
    mret (type_assert utils_Status ret0, type_assert error_ ret1).
Definition MockSignManagerMockRecorder_Sync (mr : MockSignManagerMockRecorder) : recorder_of MockSignManager_Sync_type :=
  λ ctx mld imageToSign pushImage owner,
    RecordCallWithMethodType (pointer_of (rec_mock mr)) "Sync" MockSignManager_Sync_type
       [ctx; mld; imageToSign; pushImage; owner].


(** ** internal/statusupdater/mock_statusupdater.go *)

Definition MockModuleStatusUpdater : Type := mock "statusupdater.MockModuleStatusUpdater".
Definition MockModuleStatusUpdaterMockRecorder : Type := recorder "statusupdater.MockModuleStatusUpdater".
Definition NewMockModuleStatusUpdater : gomock MockModuleStatusUpdater := new_mock.
Definition MockModuleStatusUpdater_EXPECT (m : MockModuleStatusUpdater) : MockModuleStatusUpdaterMockRecorder := mk_recorder m.

Definition MockModuleStatusUpdater_ModuleUpdateStatus_type : methodtype :=
  mk_mt [context_Context; TPtr v1beta1_Module; TSlice corev1_Node; TSlice corev1_Node; TMap string_ (TPtr appsv1_DaemonSet)] None [error_].
Definition MockModuleStatusUpdater_ModuleUpdateStatus (m : MockModuleStatusUpdater) : method_of MockModuleStatusUpdater_ModuleUpdateStatus_type :=
  λ ctx mod_ kernelMappingNodes targetedNodes dsByKernelVersion,
    ret ← Controller_Call (pointer_of m) "ModuleUpdateStatus"
           [to_any context_Context ctx; to_any (TPtr v1beta1_Module) mod_; to_any (TSlice corev1_Node) kernelMappingNodes; to_any (TSlice corev1_Node) targetedNodes; to_any (TMap string_ (TPtr appsv1_DaemonSet)) dsByKernelVersion];
    ret0 ← index ret 0;
    mret (type_assert error_ ret0).
Definition MockModuleStatusUpdaterMockRecorder_ModuleUpdateStatus (mr : MockModuleStatusUpdaterMockRecorder) : recorder_of MockModuleStatusUpdater_ModuleUpdateStatus_type :=
  λ ctx mod_ kernelMappingNodes targetedNodes dsByKernelVersion,
    RecordCallWithMethodType (pointer_of (rec_mock mr)) "ModuleUpdateStatus" MockModuleStatusUpdater_ModuleUpdateStatus_type
       [ctx; mod_; kernelMappingNodes; targetedNodes; dsByKernelVersion].

Definition MockManagedClusterModuleStatusUpdater : Type := mock "statusupdater.MockManagedClusterModuleStatusUpdater".
Definition MockManagedClusterModuleStatusUpdaterMockRecorder : Type := recorder "statusupdater.MockManagedClusterModuleStatusUpdater".
Definition NewMockManagedClusterModuleStatusUpdater : gomock MockManagedClusterModuleStatusUpdater := new_mock.
Definition MockManagedClusterModuleStatusUpdater_EXPECT (m : MockManagedClusterModuleStatusUpdater) : MockManagedClusterModuleStatusUpdaterMockRecorder := mk_recorder m.

Definition MockManagedClusterModuleStatusUpdater_ManagedClusterModuleUpdateStatus_type : methodtype :=
  mk_mt [context_Context; TPtr hubv1beta1_ManagedClusterModule; TSlice workv1_ManifestWork] None [error_].
Definition MockManagedClusterModuleStatusUpdater_ManagedClusterModuleUpdateStatus (m : MockManagedClusterModuleStatusUpdater) : method_of MockManagedClusterModuleStatusUpdater_ManagedClusterModuleUpdateStatus_type :=
  λ ctx mcm ownedManifestWorks,
    ret ← Controller_Call (pointer_of m) "ManagedClusterModuleUpdateStatus"
           [to_any context_Context ctx; to_any (TPtr hubv1beta1_ManagedClusterModule) mcm; to_any (TSlice workv1_ManifestWork) ownedManifestWorks];
    ret0 ← index ret 0;
    mret (type_assert error_ ret0).
Definition MockManagedClusterModuleStatusUpdaterMockRecorder_ManagedClusterModuleUpdateStatus (mr : MockManagedClusterModuleStatusUpdaterMockRecorder) : recorder_of MockManagedClusterModuleStatusUpdater_ManagedClusterModuleUpdateStatus_type :=
  λ ctx mcm ownedManifestWorks,
    RecordCallWithMethodType (pointer_of (rec_mock mr)) "ManagedClusterModuleUpdateStatus" MockManagedClusterModuleStatusUpdater_ManagedClusterModuleUpdateStatus_type
       [ctx; mcm; ownedManifestWorks].

Definition MockPreflightStatusUpdater : Type := mock "statusupdater.MockPreflightStatusUpdater".
Definition MockPreflightStatusUpdaterMockRecorder : Type := recorder "statusupdater.MockPreflightStatusUpdater".
Definition NewMockPreflightStatusUpdater : gomock MockPreflightStatusUpdater := new_mock.
Definition MockPreflightStatusUpdater_EXPECT (m : MockPreflightStatusUpdater) : MockPreflightStatusUpdaterMockRecorder := mk_recorder m.

Definition MockPreflightStatusUpdater_PreflightPresetStatuses_type : methodtype :=
  mk_mt [context_Context; TPtr v1beta1_PreflightValidation; sets_String; TSlice string_] None [error_].
Definition MockPreflightStatusUpdater_PreflightPresetStatuses (m : MockPreflightStatusUpdater) : method_of MockPreflightStatusUpdater_PreflightPresetStatuses_type :=
  λ ctx pv existingModules newModules,
    ret ← Controller_Call (pointer_of m) "PreflightPresetStatuses"
           [to_any context_Context ctx; to_any (TPtr v1beta1_PreflightValidation) pv; to_any sets_String existingModules; to_any (TSlice string_) newModules];
    ret0 ← index ret 0;
    mret (type_assert error_ ret0).
Definition MockPreflightStatusUpdaterMockRecorder_PreflightPresetStatuses (mr : MockPreflightStatusUpdaterMockRecorder) : recorder_of MockPreflightStatusUpdater_PreflightPresetStatuses_type :=
  λ ctx pv existingModules newModules,
    RecordCallWithMethodType (pointer_of (rec_mock mr)) "PreflightPresetStatuses" MockPreflightStatusUpdater_PreflightPresetStatuses_type
       [ctx; pv; existingModules; newModules].

Definition MockPreflightStatusUpdater_PreflightSetVerificationStage_type : methodtype :=
  mk_mt [context_Context; TPtr v1beta1_PreflightValidation; string_; string_] None [error_].
Definition MockPreflightStatusUpdater_PreflightSetVerificationStage (m : MockPreflightStatusUpdater) : method_of MockPreflightStatusUpdater_PreflightSetVerificationStage_type :=
  λ ctx preflight moduleName stage,
    ret ← Controller_Call (pointer_of m) "PreflightSetVerificationStage"
           [to_any context_Context ctx; to_any (TPtr v1beta1_PreflightValidation) preflight; to_any string_ moduleName; to_any string_ stage];
    ret0 ← index ret 0;
    mret (type_assert error_ ret0).
Definition MockPreflightStatusUpdaterMockRecorder_PreflightSetVerificationStage (mr : MockPreflightStatusUpdaterMockRecorder) : recorder_of MockPreflightStatusUpdater_PreflightSetVerificationStage_type :=
  λ ctx preflight moduleName stage,
    RecordCallWithMethodType (pointer_of (rec_mock mr)) "PreflightSetVerificationStage" MockPreflightStatusUpdater_PreflightSetVerificationStage_type
       [ctx; preflight; moduleName; stage].

Definition MockPreflightStatusUpdater_PreflightSetVerificationStatus_type : methodtype :=
  mk_mt [context_Context; TPtr v1beta1_PreflightValidation; string_; string_; string_] None [error_].
Definition MockPreflightStatusUpdater_PreflightSetVerificationStatus (m : MockPreflightStatusUpdater) : method_of MockPreflightStatusUpdater_PreflightSetVerificationStatus_type :=
  λ ctx preflight moduleName verificationStatus message,
    ret ← Controller_Call (pointer_of m) "PreflightSetVerificationStatus"
           [to_any context_Context ctx; to_any (TPtr v1beta1_PreflightValidation) preflight; to_any string_ moduleName; to_any string_ verificationStatus; to_any string_ message];
    ret0 ← index ret 0;
    mret (type_assert error_ ret0).
Definition MockPreflightStatusUpdaterMockRecorder_PreflightSetVerificationStatus (mr : MockPreflightStatusUpdaterMockRecorder) : recorder_of MockPreflightStatusUpdater_PreflightSetVerificationStatus_type :=
  λ ctx preflight moduleName verificationStatus message,
    RecordCallWithMethodType (pointer_of (rec_mock mr)) "PreflightSetVerificationStatus" MockPreflightStatusUpdater_PreflightSetVerificationStatus_type
       [ctx; preflight; moduleName; verificationStatus; message].

Definition MockPreflightOCPStatusUpdater : Type := mock "statusupdater.MockPreflightOCPStatusUpdater".
Definition MockPreflightOCPStatusUpdaterMockRecorder : Type := recorder "statusupdater.MockPreflightOCPStatusUpdater".
Definition NewMockPreflightOCPStatusUpdater : gomock MockPreflightOCPStatusUpdater := new_mock.
Definition MockPreflightOCPStatusUpdater_EXPECT (m : MockPreflightOCPStatusUpdater) : MockPreflightOCPStatusUpdaterMockRecorder := mk_recorder m.

Definition MockPreflightOCPStatusUpdater_PreflightOCPUpdateStatus_type : methodtype :=
  mk_mt [context_Context; TPtr v1beta1_PreflightValidationOCP; TPtr v1beta1_PreflightValidation] None [error_].
Definition MockPreflightOCPStatusUpdater_PreflightOCPUpdateStatus (m : MockPreflightOCPStatusUpdater) : method_of MockPreflightOCPStatusUpdater_PreflightOCPUpdateStatus_type :=
  λ ctx pvo pv,
    ret ← Controller_Call (pointer_of m) "PreflightOCPUpdateStatus"
           [to_any context_Context ctx; to_any (TPtr v1beta1_PreflightValidationOCP) pvo; to_any (TPtr v1beta1_PreflightValidation) pv];
    ret0 ← index ret 0;
    mret (type_assert error_ ret0).
Definition MockPreflightOCPStatusUpdaterMockRecorder_PreflightOCPUpdateStatus (mr : MockPreflightOCPStatusUpdaterMockRecorder) : recorder_of MockPreflightOCPStatusUpdater_PreflightOCPUpdateStatus_type :=
  λ ctx pvo pv,
    RecordCallWithMethodType (pointer_of (rec_mock mr)) "PreflightOCPUpdateStatus" MockPreflightOCPStatusUpdater_PreflightOCPUpdateStatus_type
       [ctx; pvo; pv].


(** ** internal/syncronizedmap/mock_syncronizedmap.go *)

Definition MockKernelOsDtkMapping : Type := mock "syncronizedmap.MockKernelOsDtkMapping".
Definition MockKernelOsDtkMappingMockRecorder : Type := recorder "syncronizedmap.MockKernelOsDtkMapping".
Definition NewMockKernelOsDtkMapping : gomock MockKernelOsDtkMapping := new_mock.
Definition MockKernelOsDtkMapping_EXPECT (m : MockKernelOsDtkMapping) : MockKernelOsDtkMappingMockRecorder := mk_recorder m.

Definition MockKernelOsDtkMapping_GetImage_type : methodtype := mk_mt [string_] None [string_; error_].
Definition MockKernelOsDtkMapping_GetImage (m : MockKernelOsDtkMapping) : method_of MockKernelOsDtkMapping_GetImage_type :=
  λ kernelVersion,
    ret ← Controller_Call (pointer_of m) "GetImage" [to_any string_ kernelVersion];
    ret0 ← index ret 0;
    ret1 ← index ret 1;
    mret (type_assert string_ ret0, type_assert error_ ret1).
Definition MockKernelOsDtkMappingMockRecorder_GetImage (mr : MockKernelOsDtkMappingMockRecorder) : recorder_of MockKernelOsDtkMapping_GetImage_type :=
  λ kernelVersion,
    RecordCallWithMethodType (pointer_of (rec_mock mr)) "GetImage" MockKernelOsDtkMapping_GetImage_type
       [kernelVersion].

Definition MockKernelOsDtkMapping_SetImageStreamInfo_type : methodtype := mk_mt [string_; string_] None [].
Definition MockKernelOsDtkMapping_SetImageStreamInfo (m : MockKernelOsDtkMapping) : method_of MockKernelOsDtkMapping_SetImageStreamInfo_type :=
  λ osImage dtkImage,
    _ ← Controller_Call (pointer_of m) "SetImageStreamInfo" [to_any string_ osImage; to_any string_ dtkImage];
    mret tt.
Definition MockKernelOsDtkMappingMockRecorder_SetImageStreamInfo (mr : MockKernelOsDtkMappingMockRecorder) : recorder_of MockKernelOsDtkMapping_SetImageStreamInfo_type :=
  λ osImage dtkImage,
    RecordCallWithMethodType (pointer_of (rec_mock mr)) "SetImageStreamInfo" MockKernelOsDtkMapping_SetImageStreamInfo_type
       [osImage; dtkImage].

Definition MockKernelOsDtkMapping_SetNodeInfo_type : methodtype := mk_mt [string_; string_] None [].
Definition MockKernelOsDtkMapping_SetNodeInfo (m : MockKernelOsDtkMapping) : method_of MockKernelOsDtkMapping_SetNodeInfo_type :=
  λ kernelVersion osImage,
    _ ← Controller_Call (pointer_of m) "SetNodeInfo" [to_any string_ kernelVersion; to_any string_ osImage];
    mret tt.
Definition MockKernelOsDtkMappingMockRecorder_SetNodeInfo (mr : MockKernelOsDtkMappingMockRecorder) : recorder_of MockKernelOsDtkMapping_SetNodeInfo_type :=
  λ kernelVersion osImage,
    RecordCallWithMethodType (pointer_of (rec_mock mr)) "SetNodeInfo" MockKernelOsDtkMapping_SetNodeInfo_type
       [kernelVersion; osImage].


(** ** internal/utils/mock_jobhelper.go *)

Definition MockJobHelper : Type := mock "utils.MockJobHelper".
Definition MockJobHelperMockRecorder : Type := recorder "utils.MockJobHelper".
Definition NewMockJobHelper : gomock MockJobHelper := new_mock.
Definition MockJobHelper_EXPECT (m : MockJobHelper) : MockJobHelperMockRecorder := mk_recorder m.

Definition MockJobHelper_CreateJob_type : methodtype := mk_mt [context_Context; TPtr batchv1_Job] None [error_].
Definition MockJobHelper_CreateJob (m : MockJobHelper) : method_of MockJobHelper_CreateJob_type :=
  λ ctx jobTemplate,
    ret ← Controller_Call (pointer_of m) "CreateJob"
           [to_any context_Context ctx; to_any (TPtr batchv1_Job) jobTemplate];
    ret0 ← index ret 0;
    mret (type_assert error_ ret0).
Definition MockJobHelperMockRecorder_CreateJob (mr : MockJobHelperMockRecorder) : recorder_of MockJobHelper_CreateJob_type :=
  λ ctx jobTemplate,
    RecordCallWithMethodType (pointer_of (rec_mock mr)) "CreateJob" MockJobHelper_CreateJob_type [ctx; jobTemplate].

Definition MockJobHelper_DeleteJob_type : methodtype := mk_mt [context_Context; TPtr batchv1_Job] None [error_].
Definition MockJobHelper_DeleteJob (m : MockJobHelper) : method_of MockJobHelper_DeleteJob_type :=
  λ ctx job,
    ret ← Controller_Call (pointer_of m) "DeleteJob" [to_any context_Context ctx; to_any (TPtr batchv1_Job) job];
    ret0 ← index ret 0;
    mret (type_assert error_ ret0).
Definition MockJobHelperMockRecorder_DeleteJob (mr : MockJobHelperMockRecorder) : recorder_of MockJobHelper_DeleteJob_type :=
  λ ctx job,
    RecordCallWithMethodType (pointer_of (rec_mock mr)) "DeleteJob" MockJobHelper_DeleteJob_type [ctx; job].

Definition MockJobHelper_GetJobStatus_type : methodtype := mk_mt [TPtr batchv1_Job] None [utils_Status; error_].
Definition MockJobHelper_GetJobStatus (m : MockJobHelper) : method_of MockJobHelper_GetJobStatus_type :=
  λ job,
    ret ← Controller_Call (pointer_of m) "GetJobStatus" [to_any (TPtr batchv1_Job) job];
    ret0 ← index ret 0;
    ret1 ← index ret 1;
    mret (type_assert utils_Status ret0, type_assert error_ ret1).
Definition MockJobHelperMockRecorder_GetJobStatus (mr : MockJobHelperMockRecorder) : recorder_of MockJobHelper_GetJobStatus_type :=
  λ job,
    RecordCallWithMethodType (pointer_of (rec_mock mr)) "GetJobStatus" MockJobHelper_GetJobStatus_type [job].

Definition MockJobHelper_GetModuleJobByKernel_type : methodtype :=
  mk_mt [context_Context; string_; string_; string_; string_; metav1_Object] None [TPtr batchv1_Job; error_].
Definition MockJobHelper_GetModuleJobByKernel (m : MockJobHelper) : method_of MockJobHelper_GetModuleJobByKernel_type :=
  λ ctx modName namespace targetKernel jobType owner,
    ret ← Controller_Call (pointer_of m) "GetModuleJobByKernel"
           [to_any context_Context ctx; to_any string_ modName; to_any string_ namespace; to_any string_ targetKernel; to_any string_ jobType; to_any metav1_Object owner];
    ret0 ← index ret 0;
    ret1 ← index ret 1;
    mret (type_assert (TPtr batchv1_Job) ret0, type_assert error_ ret1).
Definition MockJobHelperMockRecorder_GetModuleJobByKernel (mr : MockJobHelperMockRecorder) : recorder_of MockJobHelper_GetModuleJobByKernel_type :=
  λ ctx modName namespace targetKernel jobType owner,
    RecordCallWithMethodType (pointer_of (rec_mock mr)) "GetModuleJobByKernel" MockJobHelper_GetModuleJobByKernel_type
       [ctx; modName; namespace; targetKernel; jobType; owner].

Definition MockJobHelper_GetModuleJobs_type : methodtype :=
  mk_mt [context_Context; string_; string_; string_; metav1_Object] None [TSlice batchv1_Job; error_].
Definition MockJobHelper_GetModuleJobs (m : MockJobHelper) : method_of MockJobHelper_GetModuleJobs_type :=
  λ ctx modName namespace jobType owner,
    ret ← Controller_Call (pointer_of m) "GetModuleJobs"
           [to_any context_Context ctx; to_any string_ modName; to_any string_ namespace; to_any string_ jobType; to_any metav1_Object owner];
    ret0 ← index ret 0;
    ret1 ← index ret 1;
    mret (type_assert (TSlice batchv1_Job) ret0, type_assert error_ ret1).
Definition MockJobHelperMockRecorder_GetModuleJobs (mr : MockJobHelperMockRecorder) : recorder_of MockJobHelper_GetModuleJobs_type :=
  λ ctx modName namespace jobType owner,
    RecordCallWithMethodType (pointer_of (rec_mock mr)) "GetModuleJobs" MockJobHelper_GetModuleJobs_type
       [ctx; modName; namespace; jobType; owner].

Definition MockJobHelper_IsJobChanged_type : methodtype :=
  mk_mt [TPtr batchv1_Job; TPtr batchv1_Job] None [bool_; error_].
Definition MockJobHelper_IsJobChanged (m : MockJobHelper) : method_of MockJobHelper_IsJobChanged_type :=
  λ existingJob newJob,
    ret ← Controller_Call (pointer_of m) "IsJobChanged"
           [to_any (TPtr batchv1_Job) existingJob; to_any (TPtr batchv1_Job) newJob];
    ret0 ← index ret 0;
    ret1 ← index ret 1;
    mret (type_assert bool_ ret0, type_assert error_ ret1).
Definition MockJobHelperMockRecorder_IsJobChanged (mr : MockJobHelperMockRecorder) : recorder_of MockJobHelper_IsJobChanged_type :=
  λ existingJob newJob,
    RecordCallWithMethodType (pointer_of (rec_mock mr)) "IsJobChanged" MockJobHelper_IsJobChanged_type
       [existingJob; newJob].

Definition MockJobHelper_JobLabels_type : methodtype := mk_mt [string_; string_; string_] None [TMap string_ string_].
Definition MockJobHelper_JobLabels (m : MockJobHelper) : method_of MockJobHelper_JobLabels_type :=
  λ modName targetKernel jobType,
    ret ← Controller_Call (pointer_of m) "JobLabels"
           [to_any string_ modName; to_any string_ targetKernel; to_any string_ jobType];
    ret0 ← index ret 0;
    mret (type_assert (TMap string_ string_) ret0).
Definition MockJobHelperMockRecorder_JobLabels (mr : MockJobHelperMockRecorder) : recorder_of MockJobHelper_JobLabels_type :=
  λ modName targetKernel jobType,
    RecordCallWithMethodType (pointer_of (rec_mock mr)) "JobLabels" MockJobHelper_JobLabels_type
       [modName; targetKernel; jobType].

(** ** The methods of all mocks *)

(** A mocked method: the mock's type and the method's name, the method of the
    mock at an address, and that of its recorder. *)
Record mocked := entry {
  md_mock : string; md_name : string; md_type : methodtype;
  md_call : nat → method_of md_type; md_expect : nat → recorder_of md_type }.

Definition mocked_methods : list mocked :=
  [
   entry "controllers.MockmoduleReconcilerHelperAPI" "garbageCollect" MockmoduleReconcilerHelperAPI_garbageCollect_type
     (λ a, MockmoduleReconcilerHelperAPI_garbageCollect (mk_mock a)) (λ a, MockmoduleReconcilerHelperAPIMockRecorder_garbageCollect (MockmoduleReconcilerHelperAPI_EXPECT (mk_mock a)));
   entry "controllers.MockmoduleReconcilerHelperAPI" "getNodesListBySelector" MockmoduleReconcilerHelperAPI_getNodesListBySelector_type
     (λ a, MockmoduleReconcilerHelperAPI_getNodesListBySelector (mk_mock a)) (λ a, MockmoduleReconcilerHelperAPIMockRecorder_getNodesListBySelector (MockmoduleReconcilerHelperAPI_EXPECT (mk_mock a)));
   entry "controllers.MockmoduleReconcilerHelperAPI" "getRelevantKernelMappingsAndNodes" MockmoduleReconcilerHelperAPI_getRelevantKernelMappingsAndNodes_type
     (λ a, MockmoduleReconcilerHelperAPI_getRelevantKernelMappingsAndNodes (mk_mock a)) (λ a, MockmoduleReconcilerHelperAPIMockRecorder_getRelevantKernelMappingsAndNodes (MockmoduleReconcilerHelperAPI_EXPECT (mk_mock a)));
   entry "controllers.MockmoduleReconcilerHelperAPI" "getRequestedModule" MockmoduleReconcilerHelperAPI_getRequestedModule_type
     (λ a, MockmoduleReconcilerHelperAPI_getRequestedModule (mk_mock a)) (λ a, MockmoduleReconcilerHelperAPIMockRecorder_getRequestedModule (MockmoduleReconcilerHelperAPI_EXPECT (mk_mock a)));
   entry "controllers.MockmoduleReconcilerHelperAPI" "handleBuild" MockmoduleReconcilerHelperAPI_handleBuild_type
     (λ a, MockmoduleReconcilerHelperAPI_handleBuild (mk_mock a)) (λ a, MockmoduleReconcilerHelperAPIMockRecorder_handleBuild (MockmoduleReconcilerHelperAPI_EXPECT (mk_mock a)));
   entry "controllers.MockmoduleReconcilerHelperAPI" "handleDevicePlugin" MockmoduleReconcilerHelperAPI_handleDevicePlugin_type
     (λ a, MockmoduleReconcilerHelperAPI_handleDevicePlugin (mk_mock a)) (λ a, MockmoduleReconcilerHelperAPIMockRecorder_handleDevicePlugin (MockmoduleReconcilerHelperAPI_EXPECT (mk_mock a)));
   entry "controllers.MockmoduleReconcilerHelperAPI" "handleDriverContainer" MockmoduleReconcilerHelperAPI_handleDriverContainer_type
     (λ a, MockmoduleReconcilerHelperAPI_handleDriverContainer (mk_mock a)) (λ a, MockmoduleReconcilerHelperAPIMockRecorder_handleDriverContainer (MockmoduleReconcilerHelperAPI_EXPECT (mk_mock a)));
   entry "controllers.MockmoduleReconcilerHelperAPI" "handleSigning" MockmoduleReconcilerHelperAPI_handleSigning_type
     (λ a, MockmoduleReconcilerHelperAPI_handleSigning (mk_mock a)) (λ a, MockmoduleReconcilerHelperAPIMockRecorder_handleSigning (MockmoduleReconcilerHelperAPI_EXPECT (mk_mock a)));
   entry "controllers.MockmoduleReconcilerHelperAPI" "setKMMOMetrics" MockmoduleReconcilerHelperAPI_setKMMOMetrics_type
     (λ a, MockmoduleReconcilerHelperAPI_setKMMOMetrics (mk_mock a)) (λ a, MockmoduleReconcilerHelperAPIMockRecorder_setKMMOMetrics (MockmoduleReconcilerHelperAPI_EXPECT (mk_mock a)));
   entry "auth.MockRegistryAuthGetter" "GetKeyChain" MockRegistryAuthGetter_GetKeyChain_type
     (λ a, MockRegistryAuthGetter_GetKeyChain (mk_mock a)) (λ a, MockRegistryAuthGetterMockRecorder_GetKeyChain (MockRegistryAuthGetter_EXPECT (mk_mock a)));
   entry "auth.MockRegistryAuthGetterFactory" "NewClusterAuthGetter" MockRegistryAuthGetterFactory_NewClusterAuthGetter_type
     (λ a, MockRegistryAuthGetterFactory_NewClusterAuthGetter (mk_mock a)) (λ a, MockRegistryAuthGetterFactoryMockRecorder_NewClusterAuthGetter (MockRegistryAuthGetterFactory_EXPECT (mk_mock a)));
   entry "auth.MockRegistryAuthGetterFactory" "NewRegistryAuthGetterFrom" MockRegistryAuthGetterFactory_NewRegistryAuthGetterFrom_type
     (λ a, MockRegistryAuthGetterFactory_NewRegistryAuthGetterFrom (mk_mock a)) (λ a, MockRegistryAuthGetterFactoryMockRecorder_NewRegistryAuthGetterFrom (MockRegistryAuthGetterFactory_EXPECT (mk_mock a)));
   entry "buildconfig.MockMaker" "MakeBuildTemplate" MockMaker_MakeBuildTemplate_type
     (λ a, MockMaker_MakeBuildTemplate (mk_mock a)) (λ a, MockMakerMockRecorder_MakeBuildTemplate (MockMaker_EXPECT (mk_mock a)));
   entry "buildconfig.MockOpenShiftBuildsHelper" "GetBuild" MockOpenShiftBuildsHelper_GetBuild_type
     (λ a, MockOpenShiftBuildsHelper_GetBuild (mk_mock a)) (λ a, MockOpenShiftBuildsHelperMockRecorder_GetBuild (MockOpenShiftBuildsHelper_EXPECT (mk_mock a)));
   entry "build.MockHelper" "ApplyBuildArgOverrides" build_MockHelper_ApplyBuildArgOverrides_type
     (λ a, build_MockHelper_ApplyBuildArgOverrides (mk_mock a)) (λ a, build_MockHelperMockRecorder_ApplyBuildArgOverrides (build_MockHelper_EXPECT (mk_mock a)));
   entry "build.MockHelper" "GetRelevantBuild" build_MockHelper_GetRelevantBuild_type
     (λ a, build_MockHelper_GetRelevantBuild (mk_mock a)) (λ a, build_MockHelperMockRecorder_GetRelevantBuild (build_MockHelper_EXPECT (mk_mock a)));
   entry "build.MockManager" "GarbageCollect" MockManager_GarbageCollect_type
     (λ a, MockManager_GarbageCollect (mk_mock a)) (λ a, MockManagerMockRecorder_GarbageCollect (MockManager_EXPECT (mk_mock a)));
   entry "build.MockManager" "ShouldSync" MockManager_ShouldSync_type
     (λ a, MockManager_ShouldSync (mk_mock a)) (λ a, MockManagerMockRecorder_ShouldSync (MockManager_EXPECT (mk_mock a)));
   entry "build.MockManager" "Sync" MockManager_Sync_type
     (λ a, MockManager_Sync (mk_mock a)) (λ a, MockManagerMockRecorder_Sync (MockManager_EXPECT (mk_mock a)));
   entry "ca.MockHelper" "GetClusterCA" ca_MockHelper_GetClusterCA_type
     (λ a, ca_MockHelper_GetClusterCA (mk_mock a)) (λ a, ca_MockHelperMockRecorder_GetClusterCA (ca_MockHelper_EXPECT (mk_mock a)));
   entry "ca.MockHelper" "GetServiceCA" ca_MockHelper_GetServiceCA_type
     (λ a, ca_MockHelper_GetServiceCA (mk_mock a)) (λ a, ca_MockHelperMockRecorder_GetServiceCA (ca_MockHelper_EXPECT (mk_mock a)));
   entry "ca.MockHelper" "Sync" ca_MockHelper_Sync_type
     (λ a, ca_MockHelper_Sync (mk_mock a)) (λ a, ca_MockHelperMockRecorder_Sync (ca_MockHelper_EXPECT (mk_mock a)));
   entry "client.MockClient" "Create" MockClient_Create_type
     (λ a, MockClient_Create (mk_mock a)) (λ a, MockClientMockRecorder_Create (MockClient_EXPECT (mk_mock a)));
   entry "client.MockClient" "Delete" MockClient_Delete_type
     (λ a, MockClient_Delete (mk_mock a)) (λ a, MockClientMockRecorder_Delete (MockClient_EXPECT (mk_mock a)));
   entry "client.MockClient" "DeleteAllOf" MockClient_DeleteAllOf_type
     (λ a, MockClient_DeleteAllOf (mk_mock a)) (λ a, MockClientMockRecorder_DeleteAllOf (MockClient_EXPECT (mk_mock a)));
   entry "client.MockClient" "Get" MockClient_Get_type
     (λ a, MockClient_Get (mk_mock a)) (λ a, MockClientMockRecorder_Get (MockClient_EXPECT (mk_mock a)));
   entry "client.MockClient" "List" MockClient_List_type
     (λ a, MockClient_List (mk_mock a)) (λ a, MockClientMockRecorder_List (MockClient_EXPECT (mk_mock a)));
   entry "client.MockClient" "Patch" MockClient_Patch_type
     (λ a, MockClient_Patch (mk_mock a)) (λ a, MockClientMockRecorder_Patch (MockClient_EXPECT (mk_mock a)));
   entry "client.MockClient" "RESTMapper" MockClient_RESTMapper_type
     (λ a, MockClient_RESTMapper (mk_mock a)) (λ a, MockClientMockRecorder_RESTMapper (MockClient_EXPECT (mk_mock a)));
   entry "client.MockClient" "Scheme" MockClient_Scheme_type
     (λ a, MockClient_Scheme (mk_mock a)) (λ a, MockClientMockRecorder_Scheme (MockClient_EXPECT (mk_mock a)));
   entry "client.MockClient" "Status" MockClient_Status_type
     (λ a, MockClient_Status (mk_mock a)) (λ a, MockClientMockRecorder_Status (MockClient_EXPECT (mk_mock a)));
   entry "client.MockClient" "Update" MockClient_Update_type
     (λ a, MockClient_Update (mk_mock a)) (λ a, MockClientMockRecorder_Update (MockClient_EXPECT (mk_mock a)));
   entry "client.MockStatusWriter" "Patch" MockStatusWriter_Patch_type
     (λ a, MockStatusWriter_Patch (mk_mock a)) (λ a, MockStatusWriterMockRecorder_Patch (MockStatusWriter_EXPECT (mk_mock a)));
   entry "client.MockStatusWriter" "Update" MockStatusWriter_Update_type
     (λ a, MockStatusWriter_Update (mk_mock a)) (λ a, MockStatusWriterMockRecorder_Update (MockStatusWriter_EXPECT (mk_mock a)));
   entry "cluster.MockClusterAPI" "BuildAndSign" MockClusterAPI_BuildAndSign_type
     (λ a, MockClusterAPI_BuildAndSign (mk_mock a)) (λ a, MockClusterAPIMockRecorder_BuildAndSign (MockClusterAPI_EXPECT (mk_mock a)));
   entry "cluster.MockClusterAPI" "GarbageCollectBuilds" MockClusterAPI_GarbageCollectBuilds_type
     (λ a, MockClusterAPI_GarbageCollectBuilds (mk_mock a)) (λ a, MockClusterAPIMockRecorder_GarbageCollectBuilds (MockClusterAPI_EXPECT (mk_mock a)));
   entry "cluster.MockClusterAPI" "RequestedManagedClusterModule" MockClusterAPI_RequestedManagedClusterModule_type
     (λ a, MockClusterAPI_RequestedManagedClusterModule (mk_mock a)) (λ a, MockClusterAPIMockRecorder_RequestedManagedClusterModule (MockClusterAPI_EXPECT (mk_mock a)));
   entry "cluster.MockClusterAPI" "SelectedManagedClusters" MockClusterAPI_SelectedManagedClusters_type
     (λ a, MockClusterAPI_SelectedManagedClusters (mk_mock a)) (λ a, MockClusterAPIMockRecorder_SelectedManagedClusters (MockClusterAPI_EXPECT (mk_mock a)));
   entry "daemonset.MockDaemonSetCreator" "GarbageCollect" MockDaemonSetCreator_GarbageCollect_type
     (λ a, MockDaemonSetCreator_GarbageCollect (mk_mock a)) (λ a, MockDaemonSetCreatorMockRecorder_GarbageCollect (MockDaemonSetCreator_EXPECT (mk_mock a)));
   entry "daemonset.MockDaemonSetCreator" "GetNodeLabelFromPod" MockDaemonSetCreator_GetNodeLabelFromPod_type
     (λ a, MockDaemonSetCreator_GetNodeLabelFromPod (mk_mock a)) (λ a, MockDaemonSetCreatorMockRecorder_GetNodeLabelFromPod (MockDaemonSetCreator_EXPECT (mk_mock a)));
   entry "daemonset.MockDaemonSetCreator" "ModuleDaemonSetsByKernelVersion" MockDaemonSetCreator_ModuleDaemonSetsByKernelVersion_type
     (λ a, MockDaemonSetCreator_ModuleDaemonSetsByKernelVersion (mk_mock a)) (λ a, MockDaemonSetCreatorMockRecorder_ModuleDaemonSetsByKernelVersion (MockDaemonSetCreator_EXPECT (mk_mock a)));
   entry "daemonset.MockDaemonSetCreator" "SetDevicePluginAsDesired" MockDaemonSetCreator_SetDevicePluginAsDesired_type
     (λ a, MockDaemonSetCreator_SetDevicePluginAsDesired (mk_mock a)) (λ a, MockDaemonSetCreatorMockRecorder_SetDevicePluginAsDesired (MockDaemonSetCreator_EXPECT (mk_mock a)));
   entry "daemonset.MockDaemonSetCreator" "SetDriverContainerAsDesired" MockDaemonSetCreator_SetDriverContainerAsDesired_type
     (λ a, MockDaemonSetCreator_SetDriverContainerAsDesired (mk_mock a)) (λ a, MockDaemonSetCreatorMockRecorder_SetDriverContainerAsDesired (MockDaemonSetCreator_EXPECT (mk_mock a)));
   entry "manifestwork.MockManifestWorkCreator" "GarbageCollect" MockManifestWorkCreator_GarbageCollect_type
     (λ a, MockManifestWorkCreator_GarbageCollect (mk_mock a)) (λ a, MockManifestWorkCreatorMockRecorder_GarbageCollect (MockManifestWorkCreator_EXPECT (mk_mock a)));
   entry "manifestwork.MockManifestWorkCreator" "GetOwnedManifestWorks" MockManifestWorkCreator_GetOwnedManifestWorks_type
     (λ a, MockManifestWorkCreator_GetOwnedManifestWorks (mk_mock a)) (λ a, MockManifestWorkCreatorMockRecorder_GetOwnedManifestWorks (MockManifestWorkCreator_EXPECT (mk_mock a)));
   entry "manifestwork.MockManifestWorkCreator" "SetManifestWorkAsDesired" MockManifestWorkCreator_SetManifestWorkAsDesired_type
     (λ a, MockManifestWorkCreator_SetManifestWorkAsDesired (mk_mock a)) (λ a, MockManifestWorkCreatorMockRecorder_SetManifestWorkAsDesired (MockManifestWorkCreator_EXPECT (mk_mock a)));
   entry "metrics.MockMetrics" "Register" MockMetrics_Register_type
     (λ a, MockMetrics_Register (mk_mock a)) (λ a, MockMetricsMockRecorder_Register (MockMetrics_EXPECT (mk_mock a)));
   entry "metrics.MockMetrics" "SetKMMDevicePluginNum" MockMetrics_SetKMMDevicePluginNum_type
     (λ a, MockMetrics_SetKMMDevicePluginNum (mk_mock a)) (λ a, MockMetricsMockRecorder_SetKMMDevicePluginNum (MockMetrics_EXPECT (mk_mock a)));
   entry "metrics.MockMetrics" "SetKMMInClusterBuildNum" MockMetrics_SetKMMInClusterBuildNum_type
     (λ a, MockMetrics_SetKMMInClusterBuildNum (mk_mock a)) (λ a, MockMetricsMockRecorder_SetKMMInClusterBuildNum (MockMetrics_EXPECT (mk_mock a)));
   entry "metrics.MockMetrics" "SetKMMInClusterSignNum" MockMetrics_SetKMMInClusterSignNum_type
     (λ a, MockMetrics_SetKMMInClusterSignNum (mk_mock a)) (λ a, MockMetricsMockRecorder_SetKMMInClusterSignNum (MockMetrics_EXPECT (mk_mock a)));
   entry "metrics.MockMetrics" "SetKMMModprobeArgs" MockMetrics_SetKMMModprobeArgs_type
     (λ a, MockMetrics_SetKMMModprobeArgs (mk_mock a)) (λ a, MockMetricsMockRecorder_SetKMMModprobeArgs (MockMetrics_EXPECT (mk_mock a)));
   entry "metrics.MockMetrics" "SetKMMModprobeRawArgs" MockMetrics_SetKMMModprobeRawArgs_type
     (λ a, MockMetrics_SetKMMModprobeRawArgs (mk_mock a)) (λ a, MockMetricsMockRecorder_SetKMMModprobeRawArgs (MockMetrics_EXPECT (mk_mock a)));
   entry "metrics.MockMetrics" "SetKMMModulesNum" MockMetrics_SetKMMModulesNum_type
     (λ a, MockMetrics_SetKMMModulesNum (mk_mock a)) (λ a, MockMetricsMockRecorder_SetKMMModulesNum (MockMetrics_EXPECT (mk_mock a)));
   entry "metrics.MockMetrics" "SetKMMPreflightsNum" MockMetrics_SetKMMPreflightsNum_type
     (λ a, MockMetrics_SetKMMPreflightsNum (mk_mock a)) (λ a, MockMetricsMockRecorder_SetKMMPreflightsNum (MockMetrics_EXPECT (mk_mock a)));
   entry "module.MockKernelMapper" "GetModuleLoaderDataForKernel" MockKernelMapper_GetModuleLoaderDataForKernel_type
     (λ a, MockKernelMapper_GetModuleLoaderDataForKernel (mk_mock a)) (λ a, MockKernelMapperMockRecorder_GetModuleLoaderDataForKernel (MockKernelMapper_EXPECT (mk_mock a)));
   entry "module.MockkernelMapperHelperAPI" "findKernelMapping" MockkernelMapperHelperAPI_findKernelMapping_type
     (λ a, MockkernelMapperHelperAPI_findKernelMapping (mk_mock a)) (λ a, MockkernelMapperHelperAPIMockRecorder_findKernelMapping (MockkernelMapperHelperAPI_EXPECT (mk_mock a)));
   entry "module.MockkernelMapperHelperAPI" "prepareModuleLoaderData" MockkernelMapperHelperAPI_prepareModuleLoaderData_type
     (λ a, MockkernelMapperHelperAPI_prepareModuleLoaderData (mk_mock a)) (λ a, MockkernelMapperHelperAPIMockRecorder_prepareModuleLoaderData (MockkernelMapperHelperAPI_EXPECT (mk_mock a)));
   entry "module.MockkernelMapperHelperAPI" "replaceTemplates" MockkernelMapperHelperAPI_replaceTemplates_type
     (λ a, MockkernelMapperHelperAPI_replaceTemplates (mk_mock a)) (λ a, MockkernelMapperHelperAPIMockRecorder_replaceTemplates (MockkernelMapperHelperAPI_EXPECT (mk_mock a)));
   entry "preflight.MockPreflightAPI" "PreflightUpgradeCheck" MockPreflightAPI_PreflightUpgradeCheck_type
     (λ a, MockPreflightAPI_PreflightUpgradeCheck (mk_mock a)) (λ a, MockPreflightAPIMockRecorder_PreflightUpgradeCheck (MockPreflightAPI_EXPECT (mk_mock a)));
   entry "preflight.MockpreflightHelperAPI" "verifyBuild" MockpreflightHelperAPI_verifyBuild_type
     (λ a, MockpreflightHelperAPI_verifyBuild (mk_mock a)) (λ a, MockpreflightHelperAPIMockRecorder_verifyBuild (MockpreflightHelperAPI_EXPECT (mk_mock a)));
   entry "preflight.MockpreflightHelperAPI" "verifyImage" MockpreflightHelperAPI_verifyImage_type
     (λ a, MockpreflightHelperAPI_verifyImage (mk_mock a)) (λ a, MockpreflightHelperAPIMockRecorder_verifyImage (MockpreflightHelperAPI_EXPECT (mk_mock a)));
   entry "preflight.MockpreflightHelperAPI" "verifySign" MockpreflightHelperAPI_verifySign_type
     (λ a, MockpreflightHelperAPI_verifySign (mk_mock a)) (λ a, MockpreflightHelperAPIMockRecorder_verifySign (MockpreflightHelperAPI_EXPECT (mk_mock a)));
   entry "registry.MockRegistry" "AddLayerToImage" MockRegistry_AddLayerToImage_type
     (λ a, MockRegistry_AddLayerToImage (mk_mock a)) (λ a, MockRegistryMockRecorder_AddLayerToImage (MockRegistry_EXPECT (mk_mock a)));
   entry "registry.MockRegistry" "ExtractBytesFromTar" MockRegistry_ExtractBytesFromTar_type
     (λ a, MockRegistry_ExtractBytesFromTar (mk_mock a)) (λ a, MockRegistryMockRecorder_ExtractBytesFromTar (MockRegistry_EXPECT (mk_mock a)));
   entry "registry.MockRegistry" "ExtractFileToFile" MockRegistry_ExtractFileToFile_type
     (λ a, MockRegistry_ExtractFileToFile (mk_mock a)) (λ a, MockRegistryMockRecorder_ExtractFileToFile (MockRegistry_EXPECT (mk_mock a)));
   entry "registry.MockRegistry" "GetHeaderDataFromLayer" MockRegistry_GetHeaderDataFromLayer_type
     (λ a, MockRegistry_GetHeaderDataFromLayer (mk_mock a)) (λ a, MockRegistryMockRecorder_GetHeaderDataFromLayer (MockRegistry_EXPECT (mk_mock a)));
   entry "registry.MockRegistry" "GetImageByName" MockRegistry_GetImageByName_type
     (λ a, MockRegistry_GetImageByName (mk_mock a)) (λ a, MockRegistryMockRecorder_GetImageByName (MockRegistry_EXPECT (mk_mock a)));
   entry "registry.MockRegistry" "GetLayerByDigest" MockRegistry_GetLayerByDigest_type
     (λ a, MockRegistry_GetLayerByDigest (mk_mock a)) (λ a, MockRegistryMockRecorder_GetLayerByDigest (MockRegistry_EXPECT (mk_mock a)));
   entry "registry.MockRegistry" "GetLayerMediaType" MockRegistry_GetLayerMediaType_type
     (λ a, MockRegistry_GetLayerMediaType (mk_mock a)) (λ a, MockRegistryMockRecorder_GetLayerMediaType (MockRegistry_EXPECT (mk_mock a)));
   entry "registry.MockRegistry" "GetLayersDigests" MockRegistry_GetLayersDigests_type
     (λ a, MockRegistry_GetLayersDigests (mk_mock a)) (λ a, MockRegistryMockRecorder_GetLayersDigests (MockRegistry_EXPECT (mk_mock a)));
   entry "registry.MockRegistry" "ImageExists" MockRegistry_ImageExists_type
     (λ a, MockRegistry_ImageExists (mk_mock a)) (λ a, MockRegistryMockRecorder_ImageExists (MockRegistry_EXPECT (mk_mock a)));
   entry "registry.MockRegistry" "LastLayer" MockRegistry_LastLayer_type
     (λ a, MockRegistry_LastLayer (mk_mock a)) (λ a, MockRegistryMockRecorder_LastLayer (MockRegistry_EXPECT (mk_mock a)));
   entry "registry.MockRegistry" "VerifyModuleExists" MockRegistry_VerifyModuleExists_type
     (λ a, MockRegistry_VerifyModuleExists (mk_mock a)) (λ a, MockRegistryMockRecorder_VerifyModuleExists (MockRegistry_EXPECT (mk_mock a)));
   entry "registry.MockRegistry" "WalkFilesInImage" MockRegistry_WalkFilesInImage_type
     (λ a, MockRegistry_WalkFilesInImage (mk_mock a)) (λ a, MockRegistryMockRecorder_WalkFilesInImage (MockRegistry_EXPECT (mk_mock a)));
   entry "registry.MockRegistry" "WriteImageByName" MockRegistry_WriteImageByName_type
     (λ a, MockRegistry_WriteImageByName (mk_mock a)) (λ a, MockRegistryMockRecorder_WriteImageByName (MockRegistry_EXPECT (mk_mock a)));
   entry "signjob.MockSigner" "MakeJobTemplate" MockSigner_MakeJobTemplate_type
     (λ a, MockSigner_MakeJobTemplate (mk_mock a)) (λ a, MockSignerMockRecorder_MakeJobTemplate (MockSigner_EXPECT (mk_mock a)));
   entry "sign.MockHelper" "GetRelevantSign" sign_MockHelper_GetRelevantSign_type
     (λ a, sign_MockHelper_GetRelevantSign (mk_mock a)) (λ a, sign_MockHelperMockRecorder_GetRelevantSign (sign_MockHelper_EXPECT (mk_mock a)));
   entry "sign.MockSignManager" "GarbageCollect" MockSignManager_GarbageCollect_type
     (λ a, MockSignManager_GarbageCollect (mk_mock a)) (λ a, MockSignManagerMockRecorder_GarbageCollect (MockSignManager_EXPECT (mk_mock a)));
   entry "sign.MockSignManager" "ShouldSync" MockSignManager_ShouldSync_type
     (λ a, MockSignManager_ShouldSync (mk_mock a)) (λ a, MockSignManagerMockRecorder_ShouldSync (MockSignManager_EXPECT (mk_mock a)));
   entry "sign.MockSignManager" "Sync" MockSignManager_Sync_type
     (λ a, MockSignManager_Sync (mk_mock a)) (λ a, MockSignManagerMockRecorder_Sync (MockSignManager_EXPECT (mk_mock a)));
   entry "statusupdater.MockModuleStatusUpdater" "ModuleUpdateStatus" MockModuleStatusUpdater_ModuleUpdateStatus_type
     (λ a, MockModuleStatusUpdater_ModuleUpdateStatus (mk_mock a)) (λ a, MockModuleStatusUpdaterMockRecorder_ModuleUpdateStatus (MockModuleStatusUpdater_EXPECT (mk_mock a)));
   entry "statusupdater.MockManagedClusterModuleStatusUpdater" "ManagedClusterModuleUpdateStatus" MockManagedClusterModuleStatusUpdater_ManagedClusterModuleUpdateStatus_type
     (λ a, MockManagedClusterModuleStatusUpdater_ManagedClusterModuleUpdateStatus (mk_mock a)) (λ a, MockManagedClusterModuleStatusUpdaterMockRecorder_ManagedClusterModuleUpdateStatus (MockManagedClusterModuleStatusUpdater_EXPECT (mk_mock a)));
   entry "statusupdater.MockPreflightStatusUpdater" "PreflightPresetStatuses" MockPreflightStatusUpdater_PreflightPresetStatuses_type
     (λ a, MockPreflightStatusUpdater_PreflightPresetStatuses (mk_mock a)) (λ a, MockPreflightStatusUpdaterMockRecorder_PreflightPresetStatuses (MockPreflightStatusUpdater_EXPECT (mk_mock a)));
   entry "statusupdater.MockPreflightStatusUpdater" "PreflightSetVerificationStage" MockPreflightStatusUpdater_PreflightSetVerificationStage_type
     (λ a, MockPreflightStatusUpdater_PreflightSetVerificationStage (mk_mock a)) (λ a, MockPreflightStatusUpdaterMockRecorder_PreflightSetVerificationStage (MockPreflightStatusUpdater_EXPECT (mk_mock a)));
   entry "statusupdater.MockPreflightStatusUpdater" "PreflightSetVerificationStatus" MockPreflightStatusUpdater_PreflightSetVerificationStatus_type
     (λ a, MockPreflightStatusUpdater_PreflightSetVerificationStatus (mk_mock a)) (λ a, MockPreflightStatusUpdaterMockRecorder_PreflightSetVerificationStatus (MockPreflightStatusUpdater_EXPECT (mk_mock a)));
   entry "statusupdater.MockPreflightOCPStatusUpdater" "PreflightOCPUpdateStatus" MockPreflightOCPStatusUpdater_PreflightOCPUpdateStatus_type
     (λ a, MockPreflightOCPStatusUpdater_PreflightOCPUpdateStatus (mk_mock a)) (λ a, MockPreflightOCPStatusUpdaterMockRecorder_PreflightOCPUpdateStatus (MockPreflightOCPStatusUpdater_EXPECT (mk_mock a)));
   entry "syncronizedmap.MockKernelOsDtkMapping" "GetImage" MockKernelOsDtkMapping_GetImage_type
     (λ a, MockKernelOsDtkMapping_GetImage (mk_mock a)) (λ a, MockKernelOsDtkMappingMockRecorder_GetImage (MockKernelOsDtkMapping_EXPECT (mk_mock a)));
   entry "syncronizedmap.MockKernelOsDtkMapping" "SetImageStreamInfo" MockKernelOsDtkMapping_SetImageStreamInfo_type
     (λ a, MockKernelOsDtkMapping_SetImageStreamInfo (mk_mock a)) (λ a, MockKernelOsDtkMappingMockRecorder_SetImageStreamInfo (MockKernelOsDtkMapping_EXPECT (mk_mock a)));
   entry "syncronizedmap.MockKernelOsDtkMapping" "SetNodeInfo" MockKernelOsDtkMapping_SetNodeInfo_type
     (λ a, MockKernelOsDtkMapping_SetNodeInfo (mk_mock a)) (λ a, MockKernelOsDtkMappingMockRecorder_SetNodeInfo (MockKernelOsDtkMapping_EXPECT (mk_mock a)));
   entry "utils.MockJobHelper" "CreateJob" MockJobHelper_CreateJob_type
     (λ a, MockJobHelper_CreateJob (mk_mock a)) (λ a, MockJobHelperMockRecorder_CreateJob (MockJobHelper_EXPECT (mk_mock a)));
   entry "utils.MockJobHelper" "DeleteJob" MockJobHelper_DeleteJob_type
     (λ a, MockJobHelper_DeleteJob (mk_mock a)) (λ a, MockJobHelperMockRecorder_DeleteJob (MockJobHelper_EXPECT (mk_mock a)));
   entry "utils.MockJobHelper" "GetJobStatus" MockJobHelper_GetJobStatus_type
     (λ a, MockJobHelper_GetJobStatus (mk_mock a)) (λ a, MockJobHelperMockRecorder_GetJobStatus (MockJobHelper_EXPECT (mk_mock a)));
   entry "utils.MockJobHelper" "GetModuleJobByKernel" MockJobHelper_GetModuleJobByKernel_type
     (λ a, MockJobHelper_GetModuleJobByKernel (mk_mock a)) (λ a, MockJobHelperMockRecorder_GetModuleJobByKernel (MockJobHelper_EXPECT (mk_mock a)));
   entry "utils.MockJobHelper" "GetModuleJobs" MockJobHelper_GetModuleJobs_type
     (λ a, MockJobHelper_GetModuleJobs (mk_mock a)) (λ a, MockJobHelperMockRecorder_GetModuleJobs (MockJobHelper_EXPECT (mk_mock a)));
   entry "utils.MockJobHelper" "IsJobChanged" MockJobHelper_IsJobChanged_type
     (λ a, MockJobHelper_IsJobChanged (mk_mock a)) (λ a, MockJobHelperMockRecorder_IsJobChanged (MockJobHelper_EXPECT (mk_mock a)));
   entry "utils.MockJobHelper" "JobLabels" MockJobHelper_JobLabels_type
     (λ a, MockJobHelper_JobLabels (mk_mock a)) (λ a, MockJobHelperMockRecorder_JobLabels (MockJobHelper_EXPECT (mk_mock a)))
  ].

(** It passes its arguments on under its name, and returns what it is told. *)
Record passes_on (e : mocked) : Prop := {
  po_call a args c : apply_fn (md_call e a) args c =
    match Controller_Call (md_mock e, a) (md_name e) (anys_of_args args) c with
    | Ok (ret, c') =>
        match rets_of_anys (mt_out (md_type e)) ret with Ok r => Ok (r, c') | Err x => Err x | Panic w => Panic w end
    | Err x => Err x
    | Panic w => Panic w
    end;
  po_expect a es : apply_recorder (md_expect e a) es =
    RecordCallWithMethodType (md_mock e, a) (md_name e) (md_type e) (list_of_args es) }.

End mocks.

(** The loop that appends the variadic arguments. *)
Lemma append_varargs t (xs : list (goval t)) (l : list any) :
  foldl (λ varargs a, varargs ++ [to_any t a]) l xs = l ++ (to_any t <$> xs).
Proof.
  revert l. induction xs as [|x xs IH]; intros l; cbn [foldl]; [by rewrite app_nil_r|].
  by rewrite IH, <-app_assoc.
Qed.

Ltac split_args :=
  repeat match goal with
  | args : go_args _ _ |- _ => cbn in args; destruct args as [? args]
  | args : (_ * _)%type |- _ => destruct args
  | args : rec_args _ _ |- _ => cbn in args
  end.

Ltac prove_passes_on :=
  split; intros a args; split_args; [intros c|reflexivity];
  cbn [md_mock md_name md_type md_call md_expect apply_fn anys_of_args fst snd];
  lazy -[Controller_Call to_any type_assert fmap list_fmap app foldl rets_of_anys mt_out];
  lazymatch goal with
  | |- match Controller_Call _ _ (foldl ?f ?l ?xs) _ with _ => _ end = match Controller_Call _ _ ?all _ with _ => _ end =>
      replace (foldl f l xs) with all by (symmetry; lazymatch f with context [to_any ?t] => exact (append_varargs t xs l) end)
  | _ => idtac
  end;
  destruct (Controller_Call _ _ _ _) as [[ret c']|e|w]; [|reflexivity..];
  destruct ret as [|? [|? [|? ?]]]; reflexivity.

Section faithful.
Context `{Reflect}.
Lemma all_pass_on : Forall passes_on mocked_methods.
Proof.
  unfold mocked_methods.
  repeat (apply Forall_cons; split; [prove_passes_on|]). apply Forall_nil_2.
Qed.

(** C33: every method of every mock answers as it is told.  Take a controller
    that expects no call of the method.  Then a call ends the test.  If
    the recorder of the mock is given, for each parameter, a value or a
    matcher that accepts the argument, and the expectation is told to return
    results of the method's types, then the controller misses a call until the
    method is called with these arguments; the call returns the results, each
    with its type, nothing that was expected before is affected, and one call
    more ends the test. *)
Theorem mocks_answer_as_told e a c es args rets :
  e ∈ mocked_methods → controller_wf c → nothing_expected c (md_mock e, a) (md_name e) →
  Forall2 accepts (list_of_args es) (anys_of_args args) →
  Forall2 holds (mt_out (md_type e)) (anys_of_rets rets) →
  fails (apply_fn (md_call e a) args c) ∧
  ∃ id c1 c2 c3,
    apply_recorder (md_expect e a) es c = Ok (id, c1) ∧ Return id (anys_of_rets rets) c1 = Ok (id, c2) ∧
    id ∈ Failures c2 ∧ apply_fn (md_call e a) args c2 = Ok (rets, c3) ∧
    (∀ id', id' ∈ Failures c3 ↔ id' ∈ Failures c) ∧ fails (apply_fn (md_call e a) args c3).
Proof.
  intros He Hwf Hn Hes Hr. pose proof all_pass_on as Hall. rewrite Forall_forall in Hall.
  destruct (Hall e He) as [Hcall Hexpect]. pose proof (anys_of_args_arity (md_type e) args) as Ha.
  assert (∀ c, nothing_expected c (md_mock e, a) (md_name e) → fails (apply_fn (md_call e a) args c)) as Hfail.
  { intros c' Hc'. destruct (Call_unexpected c' _ _ (anys_of_args args) Hc') as [w Hw].
    exists w. by rewrite Hcall, Hw. }
  split; [by apply Hfail|].
  destruct (expect_call c _ _ (md_type e) _ _ _ Hwf Hn Hes Ha Hr)
    as (id & c1 & c2 & c3 & H1 & H2 & H3 & H4 & H5 & H6).
  exists id, c1, c2, c3. split_and!; [by rewrite Hexpect|done..| |done|by apply Hfail].
  by rewrite Hcall, H4, rets_roundtrip.
Qed.
End faithful.

(** ** An example: the mock of the build manager and of the client *)

Definition ex_reflect : Reflect.
Proof.
  refine {| AssignableTo t t' := bool_decide (t = t') || bool_decide (ty_kind t' = KInterface) |}.
  intros t. by rewrite bool_decide_true.
Defined.
#[local] Existing Instance ex_reflect.

Definition ex_ctx : any := dyn (TPtr (TNamed "context.emptyCtx" KOther)) (text "Background").

Lemma mocks_answer_as_told_witness :
  let mld : val := text "mld" in
  let told := text "completed" in
  let m := mk_mock 0 : MockManager in
  ∃ id c1 c2 c3,
    MockManagerMockRecorder_Sync (MockManager_EXPECT m) (AMatcher anyMatcher) (AValue (to_any (TPtr api_ModuleLoaderData) mld))
      (AValue (to_any bool_ (text "true"))) (AMatcher anyMatcher) NewController = Ok (id, c1) ∧
    Return id [dyn utils_Status told; nil_any] c1 = Ok (id, c2) ∧ id ∈ Failures c2 ∧
    MockManager_Sync m ex_ctx mld (text "true") nil_any c2 = Ok ((told, nil_any), c3) ∧
    fails (MockManager_Sync m ex_ctx mld (text "true") nil_any c3).
Proof.
  cbn zeta.
  destruct (mocks_answer_as_told
    (entry "build.MockManager" "Sync" MockManager_Sync_type
       (λ a, MockManager_Sync (mk_mock a)) (λ a, MockManagerMockRecorder_Sync (MockManager_EXPECT (mk_mock a))))
    0 NewController
    (AMatcher anyMatcher, (AValue (to_any (TPtr api_ModuleLoaderData) (text "mld")),
       (AValue (to_any bool_ (text "true")), (AMatcher anyMatcher, tt))))
    (ex_ctx, (text "mld", (text "true", (nil_any, tt)))) (text "completed", nil_any))
    as [_ (id & c1 & c2 & c3 & H1 & H2 & H3 & H4 & _ & H5)].
  - unfold mocked_methods. repeat (first [apply list_elem_of_here|apply list_elem_of_further]).
  - intros key ids id H. change ((∅ : gmap callSetKey (list call_id)) !! key = Some ids) in H.
    by rewrite lookup_empty in H.
  - reflexivity.
  - repeat constructor.
  - repeat constructor.
  - exists id, c1, c2, c3. split; [exact H1|]. split; [exact H2|]. split; [exact H3|]. split; [exact H4|exact H5].
Defined.
